(* ===== verification/_CoqProject ===== *)
-Q . S2P
Prelude.v
Float64.v
PyVal.v
Files.v
Safety.v
Registry.v
Link.v
Mission.v
Params.v
ParamsMav.v
Geometry.v
ZoneConfig.v
MissionItems.v
Planner.v
Connection.v
GeoJson.v
ZoneCli.v
VslamIpc.v
Config.v
Vslam.v
Firmware.v
Sync.v
Health.v
Kiosk.v
KioskLock.v
Detect.v
Units.v
ParamsCli.v
Probe.v
Daemon.v
Ssh.v
Remote.v
Logging.v
BringupSteps.v
BringupRun.v
BringupSafe.v
Setup.v
JetsonFirmware.v
JetsonCli.v
LaptopCli.v
