(* ===== verification/Prelude.v ===== *)
(** * Zero-turn mower rover: verification library

    The program (src/src/mower_rover) runs a robotic mower from two computers.
    On the laptop, the operator's commands write mission plans and parameters to
    the autopilot (a Pixhawk running ArduPilot) over MAVLink; on the Jetson of
    the rover, daemons bridge the visual SLAM pose to the autopilot, keep its
    parameters and scripts in step with the shipped ones, and show the rover's
    state on a kiosk display.  Probes check either machine before work.

    ** How the code is modelled

    Python functions become Rocq functions under the same names.  A pure
    function that can raise returns [res exn A]; code that talks to the outside
    (the MAVLink link, a clock, files, sockets, subprocesses, a terminal) is a
    program [prog exn W A], which takes the world [W] and returns an outcome and
    the world it leaves.  [try]/[except]/[finally] are [pexcept] and [pfinally],
    a [while] loop is [ploop] with fuel.  [None] means "out of fuel" and is never
    an outcome of the code: the theorems below either show that a stated amount
    of fuel gives an outcome (termination) or hold of every outcome there is.
    Floats are IEEE binary64 ([Float64]: Rocq's [SpecFloat], with Python's
    rounding, formatting and parsing), integers are unbounded as in Python, with
    the width written out where the code encodes one (int32 coordinates, uint8
    and uint64 fields of the pose, uint32 frame lengths, 32-bit version words).
    A document that YAML or JSON loads to is a [PyVal], a dictionary whose order
    matters an association list with [od_set], a set a [gset].  Exceptions are
    classes with Python's hierarchy ([PyVal.subclass]) and their f-string.

    What is outside the repository is an interface, a type class whose instances
    are arbitrary unless a theorem states laws: [Link] (pymavlink's connection
    and the clock), [Dialer] (opening one), [Shapely] and [Pyproj] (polygons and
    projections), [Sock] (the pose socket), [FileStore] (files and downloads),
    [Ftp] (MAVLink FTP), [Serial], [Sys] (procfs, statvfs, subprocesses),
    [ServiceHost] (systemctl, the user and home directory), [Terminal], [Host],
    [Shared], [Display], [ProbeHost] (what only the probe checks ask for),
    [DaemonHost] (the shutdown event, the notifier and the clock), [SshHost] (the
    ssh and scp processes), [LaptopHost], [BringupHost] and [SetupHost] (local
    commands, prompts, sleeping), [Threads], [Calendar], [WallClock], [JetsonHost]
    (the rover's sensors and subprocesses), [Notifier] (systemd's notification
    socket), [Workers] (starting and joining threads) and [LogHost].  Laws are classes too:
    [Ticking] (time passes on a link), [Disk] (writes touch their own path),
    [HealthyDisk], [Card] (a healthy SD card, where a put starts an upload and the
    processing of its reply completes it), [Systemd] (systemctl answers), [Feed] (a
    link that delivers what fits into its message and refuses the rest),
    [Planar] (set operations and erosion take points away, what was subtracted
    enlarged leaves nothing of itself), [Responsive] (files and sensors answer a
    probe), [Clocked] (waiting and notifying take the time they take), [Runs] (a
    process ends, in any way) and [Spawns] (the only exceptions are a missing
    binary and the timeout), [Unwilling] (nobody types a yes), [Passing] (sleeping
    advances both clocks), [Steady] (systemctl succeeds and leaves the disk alone).
    Which [sum] of floats the interpreter has, the plain or (Python 3.12 on) the
    compensated one, is the class [F.Interpreter].  The
    YAML and JSON libraries and sin/cos are section variables.  Every theorem with
    such a hypothesis has a witness that instantiates it with a concrete function.

    ** The files

    - [Prelude] (this file): outcomes, programs, loops, ordered dictionaries,
      total and partial correctness rules, the hint databases.
    - [Float64]: binary64 and binary32; [PyVal]: strings, values, exceptions.
    - [Safety] models safety/confirm.py: the confirmation decorator and the safe
      stop.  [Registry] models probe/registry.py: dependency order, selection,
      the run loop and the exit code.
    - [Link]: the MAVLink interface, message and send types, traced links and the
      [grows] calculus of what a program may put on the trace.
    - [Mission] models mavlink/mission.py (upload, download, clear, verify) with
      a protocol-following vehicle as a state machine; [Connection] models
      mavlink/connection.py.
    - [Params] models params/io.py and params/diff.py; [ParamsMav] params/mav.py.
    - [Geometry]: the polygon and projection interfaces.  [ZoneConfig],
      [MissionItems], [Planner] and [GeoJson] model zone/config.py,
      mission_items.py, planner.py and geojson.py; [ZoneCli] the commands of
      cli/zone_laptop.py.
    - [VslamIpc] models vslam/ipc.py and frames.py; [Vslam] models vslam/bridge.py,
      health.py and health_listener.py.
    - [Files]: UTF-8 decoding, the file interface and its laws.  [Config] models
      config/vslam.py, jetson.py and laptop.py.  [Firmware] models
      pixhawk/firmware.py and _uploader.py; [Sync] models vslam/lua_deploy.py,
      params/baseline.py and pixhawk/sync.py.
    - [Health] models health/*.py; [Kiosk] models kiosk/state.py, telemetry.py and
      app.py, each update of the shared state as one step; [KioskLock] models
      kiosk/state.py statement by statement, with its lock and any number of
      threads, and shows that a step is what an update comes to.
    - [Units] models service/unit.py, kiosk/units.py and pixhawk/unit.py: the text
      of the systemd units, what systemd reads in one, and the installers.
    - [Probe] models probe/checks/*.py, every check and the registry they fill;
      [Daemon] models service/daemon.py.
    - [Detect] models cli/detect.py, [ParamsCli] cli/params.py: the commands that
      read and write the autopilot from the laptop.
    - [Ssh] models transport/ssh.py; [Remote] cli/jetson_remote.py;
      [BringupSteps] and [BringupRun] cli/bringup.py, its steps and its engine;
      [BringupSafe] what is proved of them; [Setup] models cli/setup.py.
    - [Logging] models logging_setup/setup.py and the root commands of
      cli/laptop.py and cli/jetson.py.  [JetsonFirmware] (the autopilot's
      commands) and [JetsonCli] model the rest of cli/jetson.py and cli/kiosk.py;
      [LaptopCli] models cli/pixhawk_laptop.py, vslam_laptop.py and backup.py.

    ** What the theorems show

    - Mission protocol: an upload to a vehicle that follows the protocol stores
      exactly the items, a download returns them and verification decides which
      survived ([upload_download_roundtrip]); on any link, success means every
      send answered a request and an accepting acknowledgement came last
      ([upload_success_trace]); a download that returns has every item announced,
      each as first received ([download_complete]); all four operations return when
      time passes ([mission_operations_return]).  A whole zone is stored as its three lists
      ([zone_upload_stores_zone], [zone_items_numbered], [latlng_to_int32_fits]).
    - Safety: nothing protected runs without consent, and how every call through
      the decorator ends ([requires_confirmation_gate]); selecting a zone touches
      nothing but the terminal in a dry run or without a yes
      ([select_zone_gate]); the safe stop runs all its hooks.
    - Probes: the dependency order is sound and complete, and cycles are exactly
      what is refused ([resolve_order_correct]); the run refines an abstract
      specification ([run_checks_refines]); exit code 0 means every critical
      or warning check was called once, in that run, and passed
      ([exit_zero_means_passed]); the shipped checks form a complete acyclic table and end on a
      host that answers ([shipped_probes_run]); the fence check accepts exactly
      the fence of the zone ([fence_match_exact]).
    - Zones and plans: the type invariant of a loaded zone ([coerce_zone_ok]); a
      plan stays in the boundary and out of the exclusions ([plan_stays_inside]);
      the fill is a back-and-forth of evenly spaced lines, and exactly when it
      never returns ([fill_is_boustrophedon]); lossless GeoJSON, of valid form and
      with the rings as drawn ([export_zone_valid]).
    - Parameters: snapshots round-trip, diffs are exact, applying accounts for
      every parameter, a synchronisation only sends corrections of drift.
    - Rover daemons: the bridge forwards each pose once, in order, with the right
      reset count, up to the first message that does not fit its fields, such as
      the 256th reset's ([bridge_forwards_poses]); the wire formats round-trip,
      however the stream is cut; kiosk snapshots show whole calls in an order that
      respects each thread's, under every schedule, without deadlock
      ([snapshot_consistent]).
    - Firmware and scripts: only validated packages are handed out, the
      bootloader wait ends, the script deployment uploads what is missing or
      outdated to its end and converges ([lua_deploy_converges]).
    - Configuration: what coercion accepts is within bounds and survives its file
      ([vslam_config_roundtrip]).
    - Units: a generated unit file reads back as the directives meant
      ([generated_unit_parses]); installing changes one file and removing restores
      the others, whatever systemctl returns ([service_lifecycle]).
    - Health daemon: systemd is notified again in bounded time for as long as the
      daemon runs ([watchdog_kept_fed]).
    - The rover from the laptop: one remote command is one ssh process, and which
      of its failures become [SshError] ([run_is_one_command]); the bringup is the abstract walk over its step table
      ([bringup_walks]), leaves an unreachable rover alone
      ([unreachable_rover_untouched]), and its waits end ([waits_end]); the setup
      wizard's configuration step establishes its own check
      ([config_step_settles]); parameters are only written with consent
      ([unconfirmed_apply_writes_nothing]); the detection report is collected in
      bounded time ([collected_report]); a backup reports every file once, as
      pulled exactly when its copy succeeded ([backup_accounts]).
    - The rover's command line: the autopilot is not rebooted in a dry run,
      without consent, armed, or without a package for the board
      ([reboot_is_guarded]); activating a zone changes only the configuration and
      the status command then names it ([zone_activation_shows]).  No option of
      ssh carries the laptop's correlation identifier ([ssh_forwards_nothing]).

    ** Fuel

    [ploop] fuel is a bound on rounds.  The requests, acknowledgement and download
    loops of missions are bounded by their time-outs in clock ticks ([Ticking]),
    the bootloader wait by two rounds a second, [_recv_exact] by the bytes asked
    for, the bridge by the poses fed, the polls of the bringup by 25 rounds (at
    least their sleep apart, within their time-out), the detection by its window, the dependency search by the number of
    names mentioned; the theorems state these bounds, and [ploop_fuel_mono] that
    more fuel never changes an outcome.

    ** What is not modelled

    The styling of console output (most commands are modelled by their effects,
    exit codes and exceptions; the tables of params diff, detect and zone list
    are values), log events, signal handlers, the registration of commands with
    the command-line library, and the progress messages of the bringup and of the
    wizard.  The two parallel builds of the bringup are atomic, in an order the
    host chooses. *)

From stdpp Require Import base gmap sets list strings option sorting.
From Stdlib Require Import ZArith Lia.

(** ** Results: a value, or the exception that escaped

    A Python call either returns or lets an exception escape.  [res E A] is
    that outcome, [E] the type of exceptions. *)
Inductive res (E A : Type) : Type :=
| Ok (a : A)
| Err (e : E).
Arguments Ok {E A} a.
Arguments Err {E A} e.

#[export] Instance res_ret {E} : MRet (res E) := fun A a => Ok a.
#[export] Instance res_bind {E} : MBind (res E) := fun A B f m =>
  match m with Ok a => f a | Err e => Err e end.
#[export] Instance res_fmap {E} : FMap (res E) := fun A B f m =>
  match m with Ok a => Ok (f a) | Err e => Err e end.

(** [try m with h]: [h] sees the exception and either handles it or lets it
    through by returning [Err]. *)
Definition rcatch {E A} (m : res E A) (h : E -> res E A) : res E A :=
  match m with Ok a => Ok a | Err e => h e end.

Definition is_ok {E A} (m : res E A) : bool :=
  match m with Ok _ => true | Err _ => false end.

Fixpoint rmap {E A B} (f : A -> res E B) (l : list A) : res E (list B) :=
  match l with
  | [] => Ok []
  | a :: l' => b ← f a; bs ← rmap f l'; Ok (b :: bs)
  end.

(** ** Programs over a world

    Code that talks to the outside (a MAVLink link, a clock, a file system, a
    terminal) runs in [prog E W]: it takes the world, returns an outcome and
    the world it leaves.  [None] is "out of fuel", never an outcome of the
    code. *)
Definition prog (E W A : Type) : Type := W -> option (res E A * W).

#[export] Instance prog_ret {E W} : MRet (prog E W) := fun A a w => Some (Ok a, w).
#[export] Instance prog_bind {E W} : MBind (prog E W) := fun A B f m w =>
  match m w with
  | Some (Ok a, w') => f a w'
  | Some (Err e, w') => Some (Err e, w')
  | None => None
  end.

Definition praise {E W A} (e : E) : prog E W A := fun w => Some (Err e, w).
Definition plift {E W A} (m : res E A) : prog E W A := fun w => Some (m, w).
Definition pget {E W} : prog E W W := fun w => Some (Ok w, w).
Definition pmodify {E W} (f : W -> W) : prog E W unit := fun w => Some (Ok tt, f w).
Definition pstate {E W A} (f : W -> A * W) : prog E W A :=
  fun w => let '(a, w') := f w in Some (Ok a, w').

(** [try: m  except ...: h]. The world keeps the effects of [m]. *)
Definition pcatch {E W A} (m : prog E W A) (h : E -> prog E W A) : prog E W A :=
  fun w => match m w with
           | Some (Err e, w') => h e w'
           | r => r
           end.

(** [try: m  finally: f]. An exception of [f] replaces the outcome of [m]. *)
Definition pfinally {E W A} (m : prog E W A) (f : prog E W unit) : prog E W A :=
  fun w => match m w with
           | None => None
           | Some (r, w') =>
               match f w' with
               | None => None
               | Some (Ok _, w'') => Some (r, w'')
               | Some (Err e, w'') => Some (Err e, w'')
               end
           end.

Fixpoint pfold {E W A S} (f : S -> A -> prog E W S) (s : S) (l : list A) : prog E W S :=
  match l with
  | [] => mret s
  | a :: l' => s' ← f s a; pfold f s' l'
  end.

Definition piter {E W A} (f : A -> prog E W unit) (l : list A) : prog E W unit :=
  pfold (fun _ a => f a) tt l.

(** A [while] loop.  The body returns [inl s] to go round again with the loop
    variables [s], or [inr a] to leave the loop with [a] ([break], [return],
    or the condition found false). *)
Fixpoint ploop {E W S A} (fuel : nat) (body : S -> prog E W (S + A)) (s : S)
  : prog E W A :=
  match fuel with
  | O => fun _ => None
  | Datatypes.S fuel' =>
      r ← body s;
      match r with
      | inl s' => ploop fuel' body s'
      | inr a => mret a
      end
  end.

(** ** Insertion-ordered dictionaries

    A Python [dict] keeps the position of a key that is assigned again and
    appends a new one. *)
Section odict.
Context {K V : Type} `{!EqDecision K}.

Fixpoint od_get (d : list (K * V)) (k : K) : option V :=
  match d with
  | [] => None
  | (k', v) :: d' => if decide (k = k') then Some v else od_get d' k
  end.

Fixpoint od_set (d : list (K * V)) (k : K) (v : V) : list (K * V) :=
  match d with
  | [] => [(k, v)]
  | (k', v') :: d' =>
      if decide (k = k') then (k', v) :: d' else (k', v') :: od_set d' k v
  end.

Definition od_keys (d : list (K * V)) : list K := map fst d.

Definition od_update (d e : list (K * V)) : list (K * V) :=
  foldl (fun acc kv => od_set acc kv.1 kv.2) d e.
End odict.

(** ** Triples over programs *)

(** Partial correctness: what holds of the outcome when there is one. *)
Definition triple {E W A} (P : W -> Prop) (m : prog E W A)
    (Q : res E A -> W -> Prop) : Prop :=
  forall w r w', P w -> m w = Some (r, w') -> Q r w'.

(** Total correctness: there is an outcome, and [Q] holds of it. *)
Definition total {E W A} (P : W -> Prop) (m : prog E W A)
    (Q : res E A -> W -> Prop) : Prop :=
  forall w, P w -> exists r w', m w = Some (r, w') /\ Q r w'.

(** ** Tactics *)

(** Reduce the monad's own operations, nothing of the component. *)
Ltac unfold_monad :=
  unfold mbind, mret, fmap, res_bind, res_ret, res_fmap, prog_bind, prog_ret,
    rcatch, pcatch, pfinally, praise, plift, pget, pmodify, pstate in *; cbn in *.

(** Split on the scrutinee of the innermost [match]/[if] of the goal. *)
Ltac split_match :=
  match goal with
  | |- context [match ?x with _ => _ end] =>
      lazymatch x with
      | context [match _ with _ => _ end] => fail
      | _ => destruct x eqn:?
      end
  end.

(** The same for a hypothesis. *)
Ltac split_match_in H :=
  match type of H with
  | context [match ?x with _ => _ end] =>
      lazymatch x with
      | context [match _ with _ => _ end] => fail
      | _ => destruct x eqn:?
      end
  end.

Ltac crush := repeat (unfold_monad; simplify_eq; try split_match); try done.

(** ** Lemmas on results *)

Lemma rbind_ok {E A B} (m : res E A) (f : A -> res E B) b :
  (m ≫= f) = Ok b <-> exists a, m = Ok a /\ f a = Ok b.
Proof.
  destruct m as [a|e]; cbn; split; [by eauto| |done|].
  - by intros (? & [= <-] & ?).
  - by intros (? & ? & ?).
Qed.

Lemma rbind_err {E A B} (m : res E A) (f : A -> res E B) e :
  (m ≫= f) = Err e <-> m = Err e \/ exists a, m = Ok a /\ f a = Err e.
Proof.
  destruct m as [a|e']; cbn; split; [by eauto| |by left; congruence|].
  - by intros [?|(? & [= <-] & ?)].
  - by intros [[= ->]|(? & ? & ?)].
Qed.

Lemma rmap_ok {E A B} (f : A -> res E B) l bs :
  rmap f l = Ok bs <-> Forall2 (fun a b => f a = Ok b) l bs.
Proof.
  revert bs; induction l as [|a l IH]; intros bs; simpl.
  - split; [intros [= <-]; constructor | by inversion 1].
  - split.
    + rewrite rbind_ok; intros (b & Hb & H); rewrite rbind_ok in H.
      destruct H as (bs' & Hbs & [= <-]). constructor; [done|]. by apply IH.
    + inversion 1 as [|? b ? bs' Hb Hbs]; subst.
      rewrite Hb; unfold_monad. apply IH in Hbs. by rewrite Hbs.
Qed.

Lemma rmap_length {E A B} (f : A -> res E B) l bs :
  rmap f l = Ok bs -> length bs = length l.
Proof. rewrite rmap_ok; intros H; symmetry; by eapply Forall2_length. Qed.

(** ** Lemmas on triples *)
Section triples.
Context {E W : Type}.

Lemma triple_conseq {A} (P P' : W -> Prop) (m : prog E W A) (Q Q' : res E A -> W -> Prop) :
  triple P m Q -> (forall w, P' w -> P w) -> (forall r w, Q r w -> Q' r w) ->
  triple P' m Q'.
Proof. unfold triple; eauto. Qed.

Lemma triple_ret {A} (P : W -> Prop) (a : A) :
  triple P (mret a : prog E W A) (fun r w => r = Ok a /\ P w).
Proof. intros w r w' HP; unfold_monad; intros [= <- <-]; done. Qed.

Lemma triple_bind {A B} (P : W -> Prop) (m : prog E W A) (f : A -> prog E W B)
    (R : A -> W -> Prop) (Q : res E B -> W -> Prop) :
  triple P m (fun r w => match r with Ok a => R a w | Err e => Q (Err e) w end) ->
  (forall a, triple (R a) (f a) Q) ->
  triple P (m ≫= f) Q.
Proof.
  intros Hm Hf w r w' HP. unfold mbind, prog_bind.
  destruct (m w) as [[[a|e] w1]|] eqn:Em; intros H; simplify_eq.
  - eapply Hf; [|exact H]. exact (Hm _ _ _ HP Em).
  - exact (Hm _ _ _ HP Em).
Qed.

(** How a sequenced program can end. *)
Lemma pbind_inv {A B} (m : prog E W A) (f : A -> prog E W B) w r w' :
  (m ≫= f) w = Some (r, w') ->
  (exists e, r = Err e /\ m w = Some (Err e, w')) \/
  (exists a w1, m w = Some (Ok a, w1) /\ f a w1 = Some (r, w')).
Proof.
  unfold mbind, prog_bind. destruct (m w) as [[[a|e] w1]|]; [| |done].
  - intros H. right. by exists a, w1.
  - intros [= <- <-]. left. by exists e.
Qed.

Lemma pbind_ok_inv {A B} (m : prog E W A) (f : A -> prog E W B) w b w' :
  (m ≫= f) w = Some (Ok b, w') ->
  exists a w1, m w = Some (Ok a, w1) /\ f a w1 = Some (Ok b, w').
Proof. intros H. apply pbind_inv in H as [(e & ? & _)|?]; done. Qed.

Lemma pbind_step {A B} (m : prog E W A) (f : A -> prog E W B) w a w1 :
  m w = Some (Ok a, w1) -> (m ≫= f) w = f a w1.
Proof. unfold mbind, prog_bind. by intros ->. Qed.

Lemma pbind_err {A B} (m : prog E W A) (f : A -> prog E W B) w e w1 :
  m w = Some (Err e, w1) -> (m ≫= f) w = Some (Err e, w1).
Proof. unfold mbind, prog_bind. by intros ->. Qed.

(** Sequencing programs that both return. *)
Lemma total_bind {A B} (P : W -> Prop) (m : prog E W A) (f : A -> prog E W B)
    (R : A -> W -> Prop) (Q : res E B -> W -> Prop) :
  total P m (fun r w => match r with Ok a => R a w | Err e => Q (Err e) w end) ->
  (forall a, total (R a) (f a) Q) ->
  total P (m ≫= f) Q.
Proof.
  intros Hm Hf w HP. destruct (Hm w HP) as ([a|e] & w1 & H1 & H2).
  - rewrite (pbind_step _ _ _ _ _ H1). by apply Hf.
  - rewrite (pbind_err _ _ _ _ _ H1). by exists (Err e), w1.
Qed.

Lemma total_conseq {A} (P P' : W -> Prop) (m : prog E W A) (Q Q' : res E A -> W -> Prop) :
  total P m Q -> (forall w, P' w -> P w) -> (forall r w, Q r w -> Q' r w) -> total P' m Q'.
Proof. intros Hm HP HQ w Hw. destruct (Hm w (HP w Hw)) as (r & w' & ? & ?). eauto. Qed.

Lemma total_lift {A} (P : W -> Prop) (m : res E A) (Q : res E A -> W -> Prop) :
  (forall w, P w -> Q m w) -> total P (plift m) Q.
Proof. intros H w HP. exists m, w. split; [done|by apply H]. Qed.

(** The invariant rule of the loop combinator. *)
Lemma triple_loop {S A} (I : S -> W -> Prop) (body : S -> prog E W (S + A))
    (Q : res E A -> W -> Prop) fuel s :
  (forall s, triple (I s) (body s) (fun r w =>
     match r with
     | Ok (inl s') => I s' w
     | Ok (inr a) => Q (Ok a) w
     | Err e => Q (Err e) w
     end)) ->
  triple (I s) (ploop fuel body s) Q.
Proof.
  intros Hb. revert s. induction fuel as [|n IH]; intros s w r w' HI H; [done|].
  cbn [ploop] in H. unfold mbind, prog_bind in H.
  destruct (body s w) as [[[[s'|a]|e] w1]|] eqn:Eb; simplify_eq.
  - eapply IH; [|exact H]. exact (Hb _ _ _ _ HI Eb).
  - unfold mret, prog_ret in H; simplify_eq. exact (Hb _ _ _ _ HI Eb).
  - exact (Hb _ _ _ _ HI Eb).
Qed.

(** The termination rule: a measure that each round decreases bounds the fuel. *)
Lemma total_loop {S A} (I : S -> W -> Prop) (mu : S -> W -> nat)
    (body : S -> prog E W (S + A)) (Q : res E A -> W -> Prop) fuel s :
  (forall s n, total (fun w => I s w /\ mu s w = n) (body s) (fun r w =>
     match r with
     | Ok (inl s') => I s' w /\ mu s' w < n
     | Ok (inr a) => Q (Ok a) w
     | Err e => Q (Err e) w
     end)) ->
  total (fun w => I s w /\ mu s w < fuel) (ploop fuel body s) Q.
Proof.
  intros Hb. revert s. induction fuel as [|n IH]; intros s w [HI Hmu]; [lia|].
  cbn [ploop]. unfold mbind, prog_bind.
  destruct (Hb s (mu s w) w) as (r & w1 & Eb & HQ); [done|].
  rewrite Eb. destruct r as [[s'|a]|e].
  - destruct HQ as [HI' Hlt]. apply IH. split; [done|lia].
  - unfold mret, prog_ret. eauto.
  - eauto.
Qed.

(** More fuel never changes an outcome. *)
Lemma ploop_fuel_mono {S A} (body : S -> prog E W (S + A)) n m s w x :
  ploop n body s w = Some x -> n <= m -> ploop m body s w = Some x.
Proof.
  revert m s w. induction n as [|n IH]; intros m s w H Hle; [done|].
  destruct m as [|m]; [lia|]. cbn [ploop] in *. unfold mbind, prog_bind in *.
  destruct (body s w) as [[[[s'|a]|e] w1]|]; try done.
  apply IH; [done|lia].
Qed.
End triples.

(** Peel the sequencing off a hypothesis that a program returned normally. *)
Ltac inv_bind H :=
  let a := fresh "a" in let w := fresh "w" in let H1 := fresh H in
  apply pbind_ok_inv in H as (a & w & H1 & H).

(** Step over a pure result in the goal. *)
Ltac lift_step :=
  match goal with
  | |- context [(plift (Ok ?a) ≫= _) ?w] =>
      rewrite (pbind_step (plift (Ok a)) _ w a w eq_refl)
  | |- context [(plift (Err ?e) ≫= _) ?w] =>
      rewrite (pbind_err (plift (Err e)) _ w e w eq_refl)
  end.

(** Step over an operation whose outcome [H] gives. *)
Ltac op_step H := first [rewrite (pbind_step _ _ _ _ _ H) | rewrite (pbind_err _ _ _ _ _ H)].

(** ** Lemmas on ordered dictionaries *)
Section odict_lemmas.
Context {K V : Type} `{!EqDecision K}.
Implicit Types d : list (K * V).

Lemma od_get_set_eq d k v : od_get (od_set d k v) k = Some v.
Proof.
  induction d as [|[k' v'] d IH]; simpl; [by rewrite decide_True|].
  case_decide; simpl; [by rewrite decide_True|]. by rewrite decide_False.
Qed.

Lemma od_get_set_ne d k k' v : k <> k' -> od_get (od_set d k v) k' = od_get d k'.
Proof.
  intros Hne. induction d as [|[k1 v1] d IH]; simpl; [by rewrite decide_False|].
  case_decide; simpl; subst; [|by rewrite IH].
  by rewrite !decide_False by done.
Qed.

Lemma od_get_set d k k' v :
  od_get (od_set d k v) k' = if decide (k = k') then Some v else od_get d k'.
Proof. case_decide; subst; [apply od_get_set_eq | by apply od_get_set_ne]. Qed.

Lemma od_get_elem d k v : od_get d k = Some v -> (k, v) ∈ d.
Proof.
  induction d as [|[k' v'] d IH]; simpl; [done|].
  case_decide; intros Heq; simplify_eq; set_solver.
Qed.

Lemma od_get_none d k : od_get d k = None <-> k ∉ od_keys d.
Proof.
  induction d as [|[k' v'] d IH]; simpl; [set_solver|].
  case_decide; subst; [set_solver|]. rewrite IH. set_solver.
Qed.

Lemma od_get_some_key d k : is_Some (od_get d k) <-> k ∈ od_keys d.
Proof.
  destruct (od_get d k) eqn:Eq.
  - apply od_get_elem in Eq. split; [|by eauto]. intros _.
    apply list_elem_of_fmap. by eexists (_, _).
  - apply od_get_none in Eq. split; [by intros [? ?]|done].
Qed.

Lemma od_set_new d k v : k ∉ od_keys d -> od_set d k v = d ++ [(k, v)].
Proof.
  induction d as [|[k' v'] d IH]; simpl; [done|]. intros Hk.
  rewrite decide_False by set_solver. by rewrite IH by set_solver.
Qed.

Lemma od_keys_set_new d k v : k ∉ od_keys d -> od_keys (od_set d k v) = od_keys d ++ [k].
Proof. intros Hk. rewrite od_set_new by done. unfold od_keys. by rewrite map_app. Qed.

Lemma od_keys_set_old d k v : k ∈ od_keys d -> od_keys (od_set d k v) = od_keys d.
Proof.
  induction d as [|[k' v'] d IH]; simpl; [set_solver|]. intros Hk.
  case_decide; simpl; subst; [done|]. rewrite IH by set_solver. done.
Qed.

Lemma od_keys_set_elem d k v k' : k' ∈ od_keys (od_set d k v) <-> k' = k \/ k' ∈ od_keys d.
Proof.
  destruct (decide (k ∈ od_keys d)) as [Hk|Hk].
  - rewrite od_keys_set_old by done. set_solver.
  - rewrite od_keys_set_new by done. set_solver.
Qed.

Lemma od_set_nodup d k v : NoDup (od_keys d) -> NoDup (od_keys (od_set d k v)).
Proof.
  intros Hd. destruct (decide (k ∈ od_keys d)) as [Hk|Hk].
  - by rewrite od_keys_set_old.
  - rewrite od_keys_set_new by done. apply NoDup_app. split_and!; [done|set_solver|].
    apply NoDup_singleton.
Qed.

Lemma od_get_nodup d k v : NoDup (od_keys d) -> (k, v) ∈ d -> od_get d k = Some v.
Proof.
  induction d as [|[k' v'] d IH]; simpl; [set_solver|].
  intros Hnd Hin. apply NoDup_cons in Hnd as [Hk Hnd].
  apply elem_of_cons in Hin as [[= -> ->]|Hin]; [by rewrite decide_True|].
  destruct (decide (k = k')) as [->|Hne]; [|by apply IH].
  destruct Hk. apply list_elem_of_fmap. by exists (k', v).
Qed.

(** Selecting keys: [{k: d[k] for k in l if k in d}]. *)
Lemma od_get_select d l k :
  od_get (omap (fun k => v ← od_get d k; Some (k, v)) l) k =
  if decide (k ∈ l) then od_get d k else None.
Proof.
  induction l as [|m l IH]; [done|]. cbn [omap list_omap].
  destruct (od_get d m) as [s|] eqn:Hm; cbn [mbind option_bind od_get].
  - destruct (decide (k = m)) as [->|Hkm];
      [rewrite decide_True by (by apply elem_of_cons; left); done|].
    rewrite IH. destruct (decide (k ∈ l)) as [Hl|Hl].
    + by rewrite decide_True by (by apply elem_of_cons; right).
    + rewrite decide_False; [done|]. rewrite elem_of_cons. tauto.
  - rewrite IH. destruct (decide (k ∈ l)) as [Hl|Hl].
    + by rewrite decide_True by (by apply elem_of_cons; right).
    + case_decide as Hc; [|done]. apply elem_of_cons in Hc as [->|]; done.
Qed.

Lemma od_keys_select d l :
  od_keys (omap (fun k => v ← od_get d k; Some (k, v)) l) =
  filter (fun k => k ∈ od_keys d) l.
Proof.
  induction l as [|m l IH]; [done|]. cbn [omap list_omap]. rewrite filter_cons.
  destruct (od_get d m) as [v|] eqn:Hm; cbn [mbind option_bind].
  - rewrite decide_True by (apply od_get_some_key; by exists v).
    unfold od_keys in *. cbn [map fst]. f_equal. exact IH.
  - rewrite decide_False by (by apply od_get_none). done.
Qed.
End odict_lemmas.

Create HintDb rover.
Create Rewrite HintDb rover.
#[export] Hint Rewrite @od_get_set_eq : rover.
#[export] Hint Resolve od_set_nodup od_get_elem : rover.
#[export] Hint Rewrite @rbind_ok @rbind_err @rmap_ok : rover.
