(* ===== verification/Float64.v ===== *)
(** * Python floats

    A Python [float] is an IEEE 754 binary64.  The Standard Library's
    [spec_float] with [prec = 53] and [emax = 1024] is that format, with its
    signed zeros, infinities and NaN, and correctly rounded operations that
    compute.  This file fixes the width, adds what Python builds on it
    (conversion from and to integers, decimal literals, [round], fixed-point
    formatting, [repr]) and proves the facts the components use. *)

From stdpp Require Import base list strings option pretty.
From Stdlib Require Import Ascii ZArith Lia Floats.SpecFloat.
From S2P Require Import Prelude.

Abbreviation float := spec_float.

Module F.
Local Open Scope Z_scope.

Definition prec : Z := 53.
Definition emax : Z := 1024.

Definition add : float -> float -> float := SFadd prec emax.
Definition sub : float -> float -> float := SFsub prec emax.
Definition mul : float -> float -> float := SFmul prec emax.
Definition div : float -> float -> float := SFdiv prec emax.
Definition sqrt : float -> float := SFsqrt prec emax.
Definition neg : float -> float := SFopp.
Definition abs : float -> float := SFabs.

Definition eqb : float -> float -> bool := SFeqb.
Definition ltb : float -> float -> bool := SFltb.
Definition leb : float -> float -> bool := SFleb.
Definition gtb (x y : float) : bool := ltb y x.
Definition geb (x y : float) : bool := leb y x.

(** [float(n)] for an [int]. *)
Definition of_Z (z : Z) : float := binary_normalize prec emax z 0 false.

(** The literal [m * 10^k], correctly rounded. *)
Definition of_dec (m k : Z) : float :=
  if 0 <=? k then binary_normalize prec emax (m * 10 ^ k) 0 false
  else
    match m with
    | 0 => S754_zero false
    | _ =>
        let '(q, e, l) := SFdiv_core_binary prec emax (Z.abs m) 0 (10 ^ (- k)) 0 in
        binary_round_aux prec emax (m <? 0) q e l
    end.

Definition zero : float := S754_zero false.
Definition one : float := of_Z 1.
Definition inf : float := S754_infinity false.
Definition nan : float := S754_nan.

(** Rounding to binary32, as packing a C [float] does: the result in the
    narrow format, and the binary64 with the same value. *)
Definition to32 (f : float) : float :=
  match f with
  | S754_finite s m e => binary_round_aux 24 128 s (Z.pos m) e loc_Exact
  | _ => f
  end.

Definition widen (f : float) : float :=
  match f with
  | S754_finite s m e =>
      let k := 53 - Z.pos (digits2_pos m) in
      S754_finite s (match k with Zpos p => shift_pos p m | _ => m end) (e - k)
  | _ => f
  end.

Definition narrow (f : float) : float := widen (to32 f).

Definition valid32 (f : float) : bool := valid_binary 24 128 f.

Definition is_nan (f : float) : bool :=
  match f with S754_nan => true | _ => false end.

Definition is_finite (f : float) : bool :=
  match f with S754_zero _ | S754_finite _ _ _ => true | _ => false end.

Definition valid (f : float) : bool := valid_binary prec emax f.

(** The truth value of a float: only the two zeros are false. *)
Definition truth (f : float) : bool :=
  match f with S754_zero _ => false | _ => true end.

(** [int(f)]: truncation towards zero; infinities and NaN raise. *)
Definition trunc (f : float) : option Z :=
  match f with
  | S754_zero _ => Some 0
  | S754_finite s m e =>
      let a := if 0 <=? e then Z.pos m * 2 ^ e else Z.pos m / 2 ^ (- e) in
      Some (if s then - a else a)
  | _ => None
  end.

Definition is_integer (f : float) : bool :=
  match f with
  | S754_zero _ => true
  | S754_finite _ m e => if 0 <=? e then true else Z.pos m mod 2 ^ (- e) =? 0
  | _ => false
  end.

(** Quotient rounded to the nearest integer, ties to even ([den > 0]). *)
Definition div_rne (num den : Z) : Z :=
  let q := num / den in
  let r := num mod den in
  match 2 * r ?= den with
  | Lt => q
  | Gt => q + 1
  | Eq => if Z.even q then q else q + 1
  end.

(** [f * 10^d] as a nearest integer. *)
Definition dec_round (f : float) (d : Z) : option Z :=
  match f with
  | S754_zero _ => Some 0
  | S754_finite s m e =>
      let num := Z.pos m * (if 0 <=? e then 2 ^ e else 1) * (if 0 <=? d then 10 ^ d else 1) in
      let den := (if 0 <=? e then 1 else 2 ^ (- e)) * (if 0 <=? d then 1 else 10 ^ (- d)) in
      let a := div_rne num den in
      Some (if s then - a else a)
  | _ => None
  end.

(** Which [sum] the interpreter has: from Python 3.12 on it carries a
    compensation for what each addition of floats loses (Neumaier), before that it
    just adds from the left.  The package runs on 3.11 and later. *)
Class Interpreter := { compensated_sum : bool }.
Definition python311 : Interpreter := {| compensated_sum := false |}.
Definition python312 : Interpreter := {| compensated_sum := true |}.

Definition sum_step (acc : float * float) (x : float) : float * float :=
  let '(s, c) := acc in
  let t := add s x in
  (t, add c (if geb (abs s) (abs x) then add (sub s t) x else add (sub x t) s)).

(** [sum(l)] for floats. *)
Definition sum `{Interpreter} (l : list float) : float :=
  if compensated_sum then
    match l with
    | [] => zero
    | x :: r =>
        let '(s, c) := foldl sum_step (add zero x, zero) r in
        if truth c && is_finite c then add s c else s
    end
  else foldl add zero l.

Definition sign (f : float) : bool :=
  match f with
  | S754_zero s | S754_infinity s | S754_finite s _ _ => s
  | S754_nan => false
  end.

(** [round(f, d)]: through the decimal expansion, as CPython does it. *)
Definition round (d : Z) (f : float) : float :=
  match dec_round f d with
  | Some 0 => S754_zero (sign f)
  | Some z => of_dec z (- d)
  | None => f
  end.

Definition pad_left (n : nat) (s : string) : string :=
  String.append (String.string_of_list_ascii (replicate (n - String.length s) "0"%char)) s.

Definition nonfinite_str (f : float) : string :=
  match f with
  | S754_infinity false => "inf"
  | S754_infinity true => "-inf"
  | _ => "nan"
  end.

(** [f"{f:.df}"] *)
Definition fmt_fixed (d : nat) (f : float) : string :=
  match dec_round f (Z.of_nat d) with
  | None => nonfinite_str f
  | Some z =>
      let digits := pad_left (S d) (pretty (Z.to_N (Z.abs z))) in
      let n := (String.length digits - d)%nat in
      let body := String.append (String.substring 0 n digits)
        (match d with
         | O => EmptyString
         | _ => String.append "." (String.substring n d digits)
         end) in
      if sign f then String.append "-" body else body
  end.

(** [repr(f)]: the shortest digits that read back as [f]. *)
Definition log10_floor (num den : Z) : Z :=
  let p := ((Z.log2 num - Z.log2 den) * 30103) / 100000 in
  let ge q := if 0 <=? q then 10 ^ q * den <=? num else den <=? num * 10 ^ (- q) in
  if ge (p + 1) then p + 1 else if ge p then p else p - 1.

Fixpoint shortest (fuel : nat) (n : Z) (a : float) (p : Z) : Z * Z :=
  let k := n - 1 - p in
  let z := default 0 (dec_round a k) in
  match fuel with
  | O => (z, - k)
  | S fuel' => if eqb (of_dec z (- k)) a then (z, - k) else shortest fuel' (n + 1) a p
  end.

Fixpoint strip_zeros (fuel : nat) (z k : Z) : Z * Z :=
  match fuel with
  | O => (z, k)
  | S fuel' => if (z mod 10 =? 0) then strip_zeros fuel' (z / 10) (k + 1) else (z, k)
  end.

Definition zeros (n : Z) : string :=
  String.string_of_list_ascii (replicate (Z.to_nat n) "0"%char).

Definition repr_abs (m : positive) (e : Z) : string :=
  let num := Z.pos m * (if 0 <=? e then 2 ^ e else 1) in
  let den := if 0 <=? e then 1 else 2 ^ (- e) in
  let '(z0, k0) := shortest 17 1 (S754_finite false m e) (log10_floor num den) in
  let '(z, k) := strip_zeros 20 z0 k0 in
  let ds := pretty (Z.to_N z) : string in
  let len := Z.of_nat (String.length ds) in
  let decpt := len + k in
  if (-4 <? decpt) && (decpt <=? 16) then
    if decpt <=? 0 then String.append "0." (String.append (zeros (- decpt)) ds)
    else if len <=? decpt then String.append ds (String.append (zeros (decpt - len)) ".0")
    else String.append (String.substring 0 (Z.to_nat decpt) ds)
           (String.append "." (String.substring (Z.to_nat decpt) (Z.to_nat (len - decpt)) ds))
  else
    let ex := decpt - 1 in
    let mant := if len =? 1 then ds
                else String.append (String.substring 0 1 ds)
                       (String.append "." (String.substring 1 (Z.to_nat (len - 1)) ds)) in
    String.append mant
      (String.append (if ex <? 0 then "e-" else "e+") (pad_left 2 (pretty (Z.to_N (Z.abs ex))))).

Definition repr (f : float) : string :=
  match f with
  | S754_zero false => "0.0"
  | S754_zero true => "-0.0"
  | S754_finite s m e =>
      if s then String.append "-" (repr_abs m e) else repr_abs m e
  | _ => nonfinite_str f
  end.
End F.

(** Ten tenths. *)
Example sum_tenths :
  F.eqb (@F.sum F.python311 (replicate 10 (F.of_dec 1 (-1)))) F.one = false /\
  F.eqb (@F.sum F.python312 (replicate 10 (F.of_dec 1 (-1)))) F.one = true.
Proof. split; vm_compute; reflexivity. Qed.

(** ** The model on values whose Python results are known *)
Example repr_tenth : F.repr (F.of_dec 1 (-1)) = "0.1".
Proof. vm_compute. reflexivity. Qed.
Example repr_sum : F.repr (F.add (F.of_dec 1 (-1)) (F.of_dec 2 (-1))) = "0.30000000000000004".
Proof. vm_compute. reflexivity. Qed.
Example repr_small : F.repr (F.of_dec 1 (-7)) = "1e-07".
Proof. vm_compute. reflexivity. Qed.
Example repr_big : F.repr (F.of_dec (-15) 21) = "-1.5e+22".
Proof. vm_compute. reflexivity. Qed.
Example repr_hundred : F.repr (F.of_Z 100) = "100.0".
Proof. vm_compute. reflexivity. Qed.
Example fmt_half_even : F.fmt_fixed 2 (F.of_dec 2675 (-3)) = "2.67".
Proof. vm_compute. reflexivity. Qed.
Example fmt_neg : F.fmt_fixed 8 (F.of_dec (-1234) (-2)) = "-12.34000000".
Proof. vm_compute. reflexivity. Qed.
Example round_example : F.round 1 (F.of_dec 1005 (-2)) = F.of_dec 101 (-1).
Proof. vm_compute. reflexivity. Qed.
Example trunc_neg : F.trunc (F.of_dec (-27) (-1)) = Some (-2)%Z.
Proof. vm_compute. reflexivity. Qed.

Example narrow_tenth : F.repr (F.narrow (F.of_dec 1 (-1))) = "0.10000000149011612".
Proof. vm_compute. reflexivity. Qed.
Example narrow_big : F.narrow (F.of_dec 1 39) = F.inf.
Proof. vm_compute. reflexivity. Qed.
Example narrow_tiny : F.repr (F.narrow (F.of_dec 1 (-45))) = "1.401298464324817e-45".
Proof. vm_compute. reflexivity. Qed.

(** ** Signs *)
Lemma neg_involutive f : F.neg (F.neg f) = f.
Proof. by destruct f as [[]|[]| |[] ? ?]. Qed.

Lemma leb_neg_swap f g : F.leb (F.neg g) f = F.leb (F.neg f) g.
Proof.
  destruct f as [[]|[]| |[] m e], g as [[]|[]| |[] m' e']; try done;
    unfold F.leb, F.neg, SFleb, SFcompare, SFopp; cbn [negb];
    change (Pos.compare_cont Eq) with Pos.compare;
    rewrite (Z.compare_antisym e' e), (Pos.compare_antisym m m');
    by destruct (Z.compare e' e), (Pos.compare m m').
Qed.

(** ** Rounding a product keeps an integer bound *)
Section rounding.
Local Open Scope Z_scope.

Lemma digits2_log2 m : Z.pos (digits2_pos m) = Z.log2 (Z.pos m) + 1.
Proof.
  induction m as [m IH|m IH|]; cbn [digits2_pos]; [| |done].
  - rewrite Pos2Z.inj_succ, IH, Pos2Z.inj_xI, Z.log2_succ_double by lia. lia.
  - rewrite Pos2Z.inj_succ, IH, Pos2Z.inj_xO, Z.log2_double by lia. lia.
Qed.

Lemma shr_1_m r : 0 <= shr_m r -> shr_m (shr_1 r) = shr_m r / 2.
Proof.
  destruct r as [[|[p|p|]|p] ? ?]; cbn [shr_1 shr_m]; intros; try lia; try done.
  - rewrite Pos2Z.inj_xI. by rewrite Z.mul_comm, Z.div_add_l, Z.add_0_r by lia.
  - rewrite Pos2Z.inj_xO. by rewrite Z.mul_comm, Z.div_mul by lia.
Qed.

Lemma iter_shr_m p : forall r,
  0 <= shr_m r -> shr_m (SpecFloat.iter_pos shr_1 p r) = shr_m r / 2 ^ Z.pos p.
Proof.
  assert (Hpos : forall p a, 0 <= a -> 0 <= a / 2 ^ Z.pos p).
  { intros q a Ha. apply Z.div_pos; [done|]. by apply Z.pow_pos_nonneg. }
  induction p as [p IH|p IH|]; intros r Hr; cbn [SpecFloat.iter_pos].
  - assert (H1 : 0 <= shr_m (shr_1 r)) by (rewrite shr_1_m by done; apply Z.div_pos; lia).
    rewrite (IH (SpecFloat.iter_pos _ _ _)) by (rewrite IH by done; by apply Hpos).
    rewrite IH, shr_1_m by done.
    rewrite !Z.div_div by (try apply Z.pow_nonzero; try apply Z.pow_pos_nonneg; lia).
    f_equal. rewrite <- Z.pow_add_r by lia.
    replace (Z.pos p~1) with (1 + (Z.pos p + Z.pos p)) by lia.
    rewrite !Z.pow_add_r by lia. lia.
  - rewrite (IH (SpecFloat.iter_pos _ _ _)) by (rewrite IH by done; by apply Hpos).
    rewrite IH by done.
    rewrite Z.div_div by (try apply Z.pow_nonzero; try apply Z.pow_pos_nonneg; lia).
    rewrite <- Z.pow_add_r by lia. do 2 f_equal. lia.
  - by rewrite shr_1_m by done.
Qed.

Lemma shr_fexp_spec m e l r e' :
  0 <= m -> shr_fexp F.prec F.emax m e l = (r, e') ->
  shr_m r = m / 2 ^ (e' - e) /\ e <= e' /\
  e' = Z.max e (fexp F.prec F.emax (Zdigits2 m + e)).
Proof.
  intros Hm. unfold shr_fexp, shr.
  assert (H0 : shr_m (shr_record_of_loc m l) = m) by by destruct l as [|[]].
  destruct (fexp F.prec F.emax (Zdigits2 m + e) - e) as [|p|p] eqn:Ek; intros [= <- <-].
  - rewrite H0, Z.sub_diag, Z.div_1_r. lia.
  - rewrite iter_shr_m by (rewrite H0; done). rewrite H0.
    replace (e + Z.pos p - e) with (Z.pos p) by lia. lia.
  - rewrite H0, Z.sub_diag, Z.div_1_r. lia.
Qed.

Lemma round_nearest_even_cases m l :
  round_nearest_even m l = m \/ round_nearest_even m l = m + 1.
Proof. destruct l as [|[]]; cbn; try destruct (Z.even m); lia. Qed.

Lemma digits_le m e n : 0 <= m -> 0 <= n -> e <= 0 -> m < 2 ^ (n - e) -> Zdigits2 m + e <= n.
Proof.
  intros Hm Hn He Hlt. destruct m as [|m|m]; cbn [Zdigits2]; [lia| |lia].
  rewrite digits2_log2. apply Z.log2_lt_pow2 in Hlt; lia.
Qed.

(** Truncating a rounded value never exceeds an integer the exact value does
    not exceed. *)
Lemma round_trunc_bound s m e N :
  0 <= m -> e < 0 -> 0 <= N < 2 ^ 52 -> m <= N * 2 ^ (- e) ->
  exists z, F.trunc (binary_round_aux F.prec F.emax s m e loc_Exact) = Some z /\ Z.abs z <= N.
Proof.
  intros Hm He HN Hle. unfold binary_round_aux.
  assert (P : forall a, 0 <= a -> 0 < 2 ^ a) by (intros; apply Z.pow_pos_nonneg; lia).
  assert (Hd : Zdigits2 m + e <= 52).
  { apply digits_le; try lia. replace (52 - e) with (52 + - e) by lia.
    rewrite Z.pow_add_r by lia. pose proof (P (- e)). nia. }
  destruct (shr_fexp F.prec F.emax m e loc_Exact) as [r1 e1] eqn:E1.
  apply shr_fexp_spec in E1 as (Hr1 & Hee1 & He1); [|done].
  set (q := round_nearest_even _ _).
  assert (He1n : e1 < 0) by (unfold fexp, emin, F.prec, F.emax in He1; lia).
  assert (Hm1 : 0 <= shr_m r1 <= N * 2 ^ (- e1)).
  { rewrite Hr1. split; [apply Z.div_pos; auto with lia; apply P; lia|].
    transitivity (N * 2 ^ (- e) / 2 ^ (e1 - e)).
    - apply Z.div_le_mono; [apply P; lia|done].
    - replace (- e) with (- e1 + (e1 - e)) by lia. rewrite Z.pow_add_r by lia.
      rewrite Z.mul_assoc, Z.div_mul; [done|]. pose proof (P (e1 - e)); lia. }
  assert (Hq : 0 <= q <= N * 2 ^ (- e1) + 1)
    by (destruct (round_nearest_even_cases (shr_m r1) (loc_of_shr_record r1)); lia).
  assert (Hqt : q / 2 ^ (- e1) <= N).
  { assert (2 <= 2 ^ (- e1)).
    { change 2 with (2 ^ 1) at 1. apply Z.pow_le_mono_r; lia. }
    apply Z.lt_succ_r. apply Z.div_lt_upper_bound; [lia|]. nia. }
  destruct (shr_fexp F.prec F.emax q e1 loc_Exact) as [r2 e2] eqn:E2.
  apply shr_fexp_spec in E2 as (Hr2 & Hee2 & He2); [|lia].
  assert (Hd2 : Zdigits2 q + e1 <= 53).
  { apply digits_le; try lia. replace (53 - e1) with (1 + 52 + - e1) by lia.
    rewrite !Z.pow_add_r by lia. pose proof (P (- e1)). nia. }
  assert (He2n : e2 <= 0) by (unfold fexp, emin, F.prec, F.emax in He2; lia).
  assert (Hrt : shr_m r2 / 2 ^ (- e2) <= N).
  { rewrite Hr2, Z.div_div by (try apply Z.pow_nonzero; try apply P; lia).
    rewrite <- Z.pow_add_r by lia. by replace (e2 - e1 + - e2) with (- e1) by lia. }
  assert (Hr2n : 0 <= shr_m r2) by (rewrite Hr2; apply Z.div_pos; [lia|apply P; lia]).
  destruct (shr_m r2) as [|p|p]; [exists 0; split; [done|lia]| |lia].
  destruct (Z.leb_spec e2 (F.emax - F.prec)) as [_|Hbig];
    [|unfold F.prec, F.emax in Hbig; lia].
  cbn [F.trunc]. eexists; split; [reflexivity|].
  assert (0 <= Z.pos p / 2 ^ (- e2)) by (apply Z.div_pos; [lia|apply P; lia]).
  destruct (Z.leb_spec 0 e2).
  - replace e2 with 0 in * by lia. rewrite Z.pow_0_r, Z.div_1_r in *. destruct s; lia.
  - destruct s; lia.
Qed.

(** Every valid float below a normal bound has a significand below it too. *)
Lemma valid_mantissa s m e : F.valid (S754_finite s m e) = true -> Z.pos m < 2 ^ 53.
Proof.
  unfold F.valid, valid_binary, bounded, canonical_mantissa. intros H.
  apply andb_prop in H as [H _]. apply Z.eqb_eq in H.
  unfold fexp, emin, F.prec, F.emax in H. rewrite digits2_log2 in H.
  apply Z.log2_lt_pow2; lia.
Qed.

(** [|f| <= b], for a normal [b], read on the significands. *)
Lemma leb_scaled m e mb eb :
  Z.pos m < 2 ^ 53 -> 2 ^ 52 <= Z.pos mb -> eb <= 0 ->
  F.leb (S754_finite false m e) (S754_finite false mb eb) = true ->
  e <= eb /\ Z.pos m * 2 ^ (- eb) <= Z.pos mb * 2 ^ (- e).
Proof.
  intros Hm Hmb Heb. unfold F.leb, SFleb, SFcompare.
  destruct (Z.compare_spec e eb) as [->|Hlt|Hgt]; [| |done].
  - intros H. split; [lia|]. apply Z.mul_le_mono_nonneg_r; [apply Z.pow_nonneg; lia|].
    change (Pos.compare_cont Eq m mb) with (Pos.compare m mb) in H.
    destruct (Pos.compare_spec m mb); subst; try lia; done.
  - intros _. split; [lia|]. replace (- e) with (1 + (- eb) + (eb - e - 1)) by lia.
    rewrite !Z.pow_add_r by lia.
    assert (0 < 2 ^ (- eb)) by (apply Z.pow_pos_nonneg; lia).
    assert (0 < 2 ^ (eb - e - 1)) by (apply Z.pow_pos_nonneg; lia).
    assert (Hm2 : Z.pos m <= 2 * Z.pos mb) by (change (2 ^ 53) with (2 * 2 ^ 52) in Hm; lia).
    rewrite Z.pow_1_r. transitivity (2 * Z.pos mb * 2 ^ (- eb)); [nia|].
    assert (0 < Z.pos mb * 2 ^ (- eb)) by nia. nia.
Qed.

(** ** Widening a binary32 and rounding it back *)
Lemma iter_shr_exact p : forall m, 0 <= m ->
  SpecFloat.iter_pos shr_1 p {| shr_m := m * 2 ^ Z.pos p; shr_r := false; shr_s := false |} =
  {| shr_m := m; shr_r := false; shr_s := false |}.
Proof.
  assert (H1 : forall m, 0 <= m ->
    shr_1 {| shr_m := m * 2; shr_r := false; shr_s := false |} =
    {| shr_m := m; shr_r := false; shr_s := false |}).
  { intros [|m|m] Hm; [done| |lia]. by rewrite Z.mul_comm. }
  induction p as [p IH|p IH|]; intros m Hm; cbn [SpecFloat.iter_pos].
  - replace (m * 2 ^ Z.pos p~1) with (m * 2 ^ Z.pos p * 2 ^ Z.pos p * 2).
    2:{ replace (Z.pos p~1) with (Z.pos p + Z.pos p + 1) by lia. rewrite !Z.pow_add_r by lia. ring. }
    rewrite H1 by (assert (0 <= 2 ^ Z.pos p) by (apply Z.pow_nonneg; lia); nia).
    rewrite (IH (m * 2 ^ Z.pos p)) by (assert (0 <= 2 ^ Z.pos p) by (apply Z.pow_nonneg; lia); nia).
    by apply IH.
  - replace (m * 2 ^ Z.pos p~0) with (m * 2 ^ Z.pos p * 2 ^ Z.pos p).
    2:{ replace (Z.pos p~0) with (Z.pos p + Z.pos p) by lia. rewrite !Z.pow_add_r by lia. ring. }
    rewrite (IH (m * 2 ^ Z.pos p)) by (assert (0 <= 2 ^ Z.pos p) by (apply Z.pow_nonneg; lia); nia).
    by apply IH.
  - by apply H1.
Qed.

Lemma shift_pos_mul p m : Z.pos (shift_pos p m) = Z.pos m * 2 ^ Z.pos p.
Proof.
  unfold shift_pos. revert m. induction p as [|p IH] using Pos.peano_ind; intros m.
  - cbn. lia.
  - rewrite Pos.iter_succ, Pos2Z.inj_xO, IH, Pos2Z.inj_succ, Z.pow_succ_r by lia. ring.
Qed.

Lemma fexp32_valid m e :
  canonical_mantissa 24 128 m e = true -> Z.pos (digits2_pos m) <= 24 /\ -149 <= e.
Proof.
  unfold canonical_mantissa, fexp, emin. intros H%Z.eqb_eq. lia.
Qed.

Lemma to32_widen f : F.valid32 f = true -> F.to32 (F.widen f) = f.
Proof.
  destruct f as [s|s| |s m e]; try done. unfold F.valid32, valid_binary, bounded.
  intros [Hc He]%andb_prop. apply Z.leb_le in He. pose proof (fexp32_valid m e Hc) as [Hd Hemin].
  unfold canonical_mantissa in Hc. apply Z.eqb_eq in Hc. cbn [F.widen].
  destruct (53 - Z.pos (digits2_pos m)) as [|p|p] eqn:Hk; [lia| |lia].
  cbn [F.to32]. unfold binary_round_aux.
  assert (H1 : shr_fexp 24 128 (Z.pos (shift_pos p m)) (e - Z.pos p) loc_Exact =
          ({| shr_m := Z.pos m; shr_r := false; shr_s := false |}, e)).
  { unfold shr_fexp. cbn [Zdigits2].
    assert (Hdig : Z.pos (digits2_pos (shift_pos p m)) = 53).
    { rewrite digits2_log2, shift_pos_mul, Z.log2_mul_pow2 by lia.
      rewrite digits2_log2 in Hk. lia. }
    rewrite Hdig. replace (fexp 24 128 (53 + (e - Z.pos p)) - (e - Z.pos p)) with (Z.pos p).
    - cbn [shr shr_record_of_loc]. rewrite shift_pos_mul, iter_shr_exact by lia.
      f_equal. lia.
    - unfold fexp, emin in *. lia. }
  rewrite H1. cbn [shr_m loc_of_shr_record round_nearest_even].
  assert (H2 : shr_fexp 24 128 (Z.pos m) e loc_Exact =
          ({| shr_m := Z.pos m; shr_r := false; shr_s := false |}, e)).
  { unfold shr_fexp. cbn [Zdigits2]. rewrite Hc, Z.sub_diag. done. }
  rewrite H2. cbn [shr_m]. by rewrite (proj2 (Z.leb_le _ _) He).
Qed.
End rounding.
