(* ===== verification/PyVal.v ===== *)
(** * Python strings, values and exceptions

    The part of the Python language and its standard library that the
    components use: string methods, the dynamically typed values a YAML or JSON
    document loads to, the conversions [str], [int], [float] and [bool], the
    exception hierarchy and f-strings.

    A [str] is a Rocq [string], one [ascii] per byte of its UTF-8 encoding;
    case mapping and character classes are the ASCII ones. *)

From stdpp Require Import base list strings option pretty sorting.
From Stdlib Require Import Ascii ZArith Lia Floats.SpecFloat.
From S2P Require Import Prelude Float64.

(** ** String methods *)
Module S.
Definition chars (s : string) : list ascii := String.list_ascii_of_string s.
Definition ofl (l : list ascii) : string := String.string_of_list_ascii l.

Definition code (c : ascii) : N := N_of_ascii c.
Definition between (lo hi : N) (c : ascii) : bool := (lo <=? code c)%N && (code c <=? hi)%N.
Definition is_digit : ascii -> bool := between 48 57.
Definition is_lower : ascii -> bool := between 97 122.
Definition is_upper : ascii -> bool := between 65 90.
Definition is_space (c : ascii) : bool :=
  between 9 13 c || between 28 32 c.

Definition to_lower (c : ascii) : ascii :=
  if is_upper c then ascii_of_N (code c + 32) else c.
Definition to_upper (c : ascii) : ascii :=
  if is_lower c then ascii_of_N (code c - 32) else c.

Definition lower (s : string) : string := ofl (map to_lower (chars s)).
Definition upper (s : string) : string := ofl (map to_upper (chars s)).

Fixpoint drop_while (p : ascii -> bool) (l : list ascii) : list ascii :=
  match l with
  | [] => []
  | c :: l' => if p c then drop_while p l' else l
  end.

Definition lstrip_by (p : ascii -> bool) (l : list ascii) : list ascii := drop_while p l.
Definition rstrip_by (p : ascii -> bool) (l : list ascii) : list ascii :=
  rev (drop_while p (rev l)).

Definition strip (s : string) : string := ofl (rstrip_by is_space (lstrip_by is_space (chars s))).
Definition lstrip_chr (c : ascii) (s : string) : string :=
  ofl (lstrip_by (fun d => bool_decide (d = c)) (chars s)).
Definition rstrip_chr (c : ascii) (s : string) : string :=
  ofl (rstrip_by (fun d => bool_decide (d = c)) (chars s)).

Fixpoint prefix_of (p l : list ascii) : option (list ascii) :=
  match p, l with
  | [], _ => Some l
  | a :: p', b :: l' => if decide (a = b) then prefix_of p' l' else None
  | _ :: _, [] => None
  end.

Definition startswith (s p : string) : bool := bool_decide (is_Some (prefix_of (chars p) (chars s))).
Definition endswith (s p : string) : bool :=
  bool_decide (is_Some (prefix_of (rev (chars p)) (rev (chars s)))).

(** [sep in s], and the text around the first occurrence. *)
Fixpoint find_l (sep l : list ascii) : option (list ascii * list ascii) :=
  match prefix_of sep l with
  | Some rest => Some ([], rest)
  | None =>
      match l with
      | [] => None
      | c :: l' => '(a, b) ← find_l sep l'; Some (c :: a, b)
      end
  end.

Definition contains (sub s : string) : bool := bool_decide (is_Some (find_l (chars sub) (chars s))).

(** [s.partition(sep)] without the separator; [None] when [sep] is absent. *)
Definition cut (sep s : string) : option (string * string) :=
  '(a, b) ← find_l (chars sep) (chars s); Some (ofl a, ofl b).

(** [s.split(sep, 1)[0]] *)
Definition before (sep s : string) : string :=
  match cut sep s with Some (a, _) => a | None => s end.

Fixpoint split_l (fuel : nat) (sep l : list ascii) : list (list ascii) :=
  match fuel with
  | O => [l]
  | Datatypes.S fuel' =>
      match find_l sep l with
      | Some (a, b) => a :: split_l fuel' sep b
      | None => [l]
      end
  end.

(** [s.split(sep)] for a non-empty [sep]. *)
Definition split (sep s : string) : list string :=
  map ofl (split_l (String.length s) (chars sep) (chars s)).

Fixpoint words_l (cur : list ascii) (l : list ascii) : list (list ascii) :=
  match l with
  | [] => match cur with [] => [] | _ => [rev cur] end
  | c :: l' =>
      if is_space c then
        match cur with [] => words_l [] l' | _ => rev cur :: words_l [] l' end
      else words_l (c :: cur) l'
  end.

(** [s.split()] *)
Definition words (s : string) : list string := map ofl (words_l [] (chars s)).

(** [s.split(None, 1)] *)
Definition split_ws1 (s : string) : list string :=
  let l := drop_while is_space (chars s) in
  match l with
  | [] => []
  | _ =>
      let rest := drop_while (fun c => negb (is_space c)) l in
      let head := firstn (length l - length rest) l in
      match rest with
      | [] => [ofl head]
      | _ => match drop_while is_space rest with
             | [] => [ofl head]
             | r => [ofl head; ofl r]
             end
      end
  end.

Definition is_linebreak (c : ascii) : bool := between 10 13 c || between 28 30 c.

Fixpoint lines_l (cur : list ascii) (l : list ascii) : list (list ascii) :=
  match l with
  | [] => match cur with [] => [] | _ => [rev cur] end
  | c :: l' =>
      if is_linebreak c then
        match l' with
        | c2 :: l'' =>
            if bool_decide (code c = 13%N /\ code c2 = 10%N)
            then rev cur :: lines_l [] l''
            else rev cur :: lines_l [] l'
        | [] => [rev cur]
        end
      else lines_l (c :: cur) l'
  end.

(** [s.splitlines()] *)
Definition splitlines (s : string) : list string := map ofl (lines_l [] (chars s)).

Fixpoint join (sep : string) (l : list string) : string :=
  match l with
  | [] => EmptyString
  | [s] => s
  | s :: l' => String.append s (String.append sep (join sep l'))
  end.

(** [s.replace(a, b)] for a non-empty [a]. *)
Definition replace (a b s : string) : string := join b (split a s).

Definition isdigit (s : string) : bool :=
  match chars s with [] => false | l => forallb is_digit l end.

Definition str_leb (a b : string) : Prop := String.leb a b = true.
#[export] Instance str_leb_dec : RelDecision str_leb := fun a b => decide (String.leb a b = true).
Definition sorted (l : list string) : list string := merge_sort str_leb l.
End S.

(** ** Facts on strings *)
Lemma chars_ofl l : S.chars (S.ofl l) = l.
Proof. apply String.list_ascii_of_string_of_list_ascii. Qed.
Lemma ofl_chars s : S.ofl (S.chars s) = s.
Proof. apply String.string_of_list_ascii_of_string. Qed.

Lemma drop_while_none p l : existsb p l = false -> S.drop_while p l = l.
Proof. destruct l as [|c l]; cbn; [done|]. by destruct (p c). Qed.

Lemma existsb_rev {A} (p : A -> bool) l : existsb p (rev l) = existsb p l.
Proof.
  induction l as [|c l IH]; cbn; [done|]. rewrite existsb_app, IH. cbn.
  by destruct (p c), (existsb p l).
Qed.

(** Stripping what has no blanks. *)
Lemma strip_no_space s : existsb S.is_space (S.chars s) = false -> S.strip s = s.
Proof.
  intros H. unfold S.strip, S.rstrip_by, S.lstrip_by. rewrite (drop_while_none _ (S.chars s)) by done.
  rewrite drop_while_none by (by rewrite existsb_rev). by rewrite rev_involutive, ofl_chars.
Qed.

Lemma to_upper_idem c : S.to_upper (S.to_upper c) = S.to_upper c.
Proof. by destruct c as [[] [] [] [] [] [] [] []]. Qed.

Lemma upper_idem s : S.upper (S.upper s) = S.upper s.
Proof.
  unfold S.upper. rewrite chars_ofl, map_map. f_equal.
  apply map_ext. intros. apply to_upper_idem.
Qed.

Lemma sorted_perm l : S.sorted l ≡ₚ l.
Proof. apply merge_sort_Permutation. Qed.

(** ** Numbers in text *)
Module Num.
Local Open Scope Z_scope.

Definition digit (c : ascii) : Z := Z.of_N (S.code c) - 48.

(** Digits with single underscores between them, as the parsers accept them:
    value, number of digits, and what follows. *)
Fixpoint digits (acc : Z) (n : nat) (prev_digit : bool) (l : list ascii)
  : option (Z * nat * list ascii) :=
  match l with
  | c :: l' =>
      if S.is_digit c then digits (acc * 10 + digit c) (Datatypes.S n) true l'
      else if bool_decide (c = "_"%char) && prev_digit then
        match l' with
        | c2 :: _ => if S.is_digit c2 then digits acc n false l' else None
        | [] => None
        end
      else Some (acc, n, l)
  | [] => Some (acc, n, [])
  end.

Definition take_sign (l : list ascii) : bool * list ascii :=
  match l with
  | "-"%char :: l' => (true, l')
  | "+"%char :: l' => (false, l')
  | _ => (false, l)
  end.

(** [int(s)]; [None] is [ValueError]. *)
Definition int_of (s : string) : option Z :=
  let '(neg, l) := take_sign (S.chars (S.strip s)) in
  match digits 0 0 false l with
  | Some (z, Datatypes.S _, []) => Some (if neg then - z else z)
  | _ => None
  end.

Definition exponent (l : list ascii) : option Z :=
  match l with
  | [] => Some 0
  | c :: l' =>
      if bool_decide (c = "e"%char) || bool_decide (c = "E"%char) then
        let '(neg, l'') := take_sign l' in
        match digits 0 0 false l'' with
        | Some (z, Datatypes.S _, []) => Some (if neg then - z else z)
        | _ => None
        end
      else None
  end.

Definition unsigned_float (l : list ascii) : option float :=
  let w := S.lower (S.ofl l) in
  if decide (w = "inf" \/ w = "infinity") then Some F.inf
  else if decide (w = "nan") then Some F.nan
  else
    '(ip, n1, r) ← digits 0 0 false l;
    '(m, nfrac, n2, r') ←
      match r with
      | "."%char :: r1 =>
          '(m, n, r2) ← digits ip 0 false r1; Some (m, Z.of_nat n, n, r2)
      | _ => Some (ip, 0, O, r)
      end;
    e ← exponent r';
    match (n1 + n2)%nat with
    | O => None
    | _ => Some (F.of_dec m (e - nfrac))
    end.

(** [float(s)]; [None] is [ValueError]. *)
Definition float_of (s : string) : option float :=
  let '(neg, l) := take_sign (S.chars (S.strip s)) in
  f ← unsigned_float l; Some (if neg then F.neg f else f).

Definition str_of_Z (z : Z) : string := pretty z.
End Num.

(** ** Values of a loaded document *)
Inductive PyVal : Type :=
| VNone
| VBool (b : bool)
| VInt (z : Z)
| VFloat (f : float)
| VStr (s : string)
| VList (l : list PyVal)
| VDict (d : list (PyVal * PyVal))
| VOther (ty : string) (shown : string).

Definition type_name (v : PyVal) : string :=
  match v with
  | VNone => "NoneType" | VBool _ => "bool" | VInt _ => "int" | VFloat _ => "float"
  | VStr _ => "str" | VList _ => "list" | VDict _ => "dict" | VOther ty _ => ty
  end.

(** ** f-strings and exceptions

    A message is kept as the f-string that builds it: literal text, and the
    interpolated values with their format specification. *)
Inductive Piece : Type :=
| L (s : string)
| V (v : PyVal)
| VF (v : PyVal) (fmt : string).
Abbreviation FStr := (list Piece).

Inductive ExnClass : Type :=
| BaseException | KeyboardInterrupt
| Exception | ArithmeticError | OverflowError | LookupError | KeyError | IndexError
| ValueError | UnicodeError | JSONDecodeError | ZoneConfigError | PlannerError
| VslamConfigError | JetsonConfigError | LaptopConfigError
| TypeError | AttributeError | AssertionError | EOFError
| RuntimeError | ConfirmationAborted | MissionUploadError | MissionDownloadError
| ZoneUploadError | SshError | TyperExit
| OSError | ConnectionError | BrokenPipeError | ConnectionResetError
| ConnectionRefusedError | TimeoutError | FileNotFoundError | SerialException | URLError
| YAMLError | StructError | SubprocessError | CalledProcessError | TimeoutExpired
| ClickException | BadParameter
| LibraryError (name : string).

#[export] Instance ExnClass_eq_dec : EqDecision ExnClass.
Proof. solve_decision. Defined.

Definition superclass (c : ExnClass) : option ExnClass :=
  match c with
  | BaseException => None
  | KeyboardInterrupt | Exception => Some BaseException
  | OverflowError => Some ArithmeticError
  | KeyError | IndexError => Some LookupError
  | UnicodeError | JSONDecodeError | ZoneConfigError | PlannerError
  | VslamConfigError | JetsonConfigError | LaptopConfigError => Some ValueError
  | ConfirmationAborted | MissionUploadError | MissionDownloadError
  | ZoneUploadError | SshError | TyperExit => Some RuntimeError
  | BrokenPipeError | ConnectionResetError | ConnectionRefusedError => Some ConnectionError
  | ConnectionError | TimeoutError | FileNotFoundError | SerialException | URLError => Some OSError
  | CalledProcessError | TimeoutExpired => Some SubprocessError
  | BadParameter => Some ClickException
  | _ => Some Exception
  end.

Fixpoint subclass_fuel (n : nat) (c d : ExnClass) : bool :=
  bool_decide (c = d) ||
  match n with
  | O => false
  | Datatypes.S n' =>
      match superclass c with Some c' => subclass_fuel n' c' d | None => false end
  end.

(** The deepest chain of the hierarchy has five classes. *)
Definition subclass (c d : ExnClass) : bool := subclass_fuel 5 c d.
Arguments subclass : simpl never.

(** [exn_code] is the exit code of [typer.Exit], 0 for the other classes. *)
Record exn : Type := Exn { exn_class : ExnClass; exn_msg : FStr; exn_code : Z }.

Definition raise_ {A} (c : ExnClass) (m : FStr) : res exn A := Err (Exn c m 0).
Definition exit_ {A} (code : Z) : res exn A := Err (Exn TyperExit [] code).

(** [except (c1, c2, ...)] *)
Definition caught_by (cs : list ExnClass) (e : exn) : bool :=
  existsb (subclass (exn_class e)) cs.

(** [except cs as e: h e] *)
Definition except {A} (cs : list ExnClass) (m : res exn A) (h : exn -> res exn A) : res exn A :=
  rcatch m (fun e => if caught_by cs e then h e else Err e).

Definition pexcept {W A} (cs : list ExnClass) (m : prog exn W A) (h : exn -> prog exn W A)
  : prog exn W A :=
  pcatch m (fun e => if caught_by cs e then h e else praise e).

(** ** Conversions *)
Definition quote_char (s : string) : ascii :=
  if S.contains "'" s && negb (S.contains (String.String (ascii_of_N 34) EmptyString) s)
  then ascii_of_N 34 else "'"%char.

Definition hex_digit (n : N) : ascii :=
  if (n <? 10)%N then ascii_of_N (48 + n) else ascii_of_N (87 + n).

Definition escape_char (q c : ascii) : list ascii :=
  if bool_decide (c = q) || bool_decide (c = "\"%char) then ["\"%char; c]
  else match S.code c with
       | 9 => ["\"%char; "t"%char]
       | 10 => ["\"%char; "n"%char]
       | 13 => ["\"%char; "r"%char]
       | n => if (n <? 32)%N || (n =? 127)%N
              then ["\"%char; "x"%char; hex_digit (n / 16); hex_digit (n mod 16)]
              else [c]
       end%N.

Definition str_repr (s : string) : string :=
  let q := quote_char s in
  S.ofl (q :: concat (map (escape_char q) (S.chars s)) ++ [q]).

Fixpoint py_repr (v : PyVal) : string :=
  match v with
  | VNone => "None"
  | VBool b => if b then "True" else "False"
  | VInt z => Num.str_of_Z z
  | VFloat f => F.repr f
  | VStr s => str_repr s
  | VList l => String.append "[" (String.append (S.join ", " (map py_repr l)) "]")
  | VDict d =>
      String.append "{" (String.append
        (S.join ", " (map (fun kv => String.append (py_repr (fst kv))
                                       (String.append ": " (py_repr (snd kv)))) d)) "}")
  | VOther _ s => s
  end.

Definition py_str (v : PyVal) : string :=
  match v with VStr s => s | _ => py_repr v end.

Definition py_bool (v : PyVal) : bool :=
  match v with
  | VNone => false
  | VBool b => b
  | VInt z => negb (z =? 0)%Z
  | VFloat f => F.truth f
  | VStr s => bool_decide (s <> EmptyString)
  | VList l => match l with [] => false | _ => true end
  | VDict d => match d with [] => false | _ => true end
  | VOther _ _ => true
  end.

(** Python integers are unbounded; [float(n)] refuses what overflows. *)
Definition float_of_int (z : Z) : res exn float :=
  let f := F.of_Z z in
  if F.is_finite f then Ok f
  else raise_ OverflowError [L "int too large to convert to float"].

Definition py_float (v : PyVal) : res exn float :=
  match v with
  | VBool b => Ok (F.of_Z (Z.b2z b))
  | VInt z => float_of_int z
  | VFloat f => Ok f
  | VStr s =>
      match Num.float_of s with
      | Some f => Ok f
      | None => raise_ ValueError [L "could not convert string to float: "; VF v "r"]
      end
  | _ => raise_ TypeError [L "float() argument must be a string or a real number, not '";
                           L (type_name v); L "'"]
  end.

Definition int_of_float (f : float) : res exn Z :=
  match F.trunc f with
  | Some z => Ok z
  | None =>
      if F.is_nan f then raise_ ValueError [L "cannot convert float NaN to integer"]
      else raise_ OverflowError [L "cannot convert float infinity to integer"]
  end.

Definition py_int (v : PyVal) : res exn Z :=
  match v with
  | VBool b => Ok (Z.b2z b)
  | VInt z => Ok z
  | VFloat f => int_of_float f
  | VStr s =>
      match Num.int_of s with
      | Some z => Ok z
      | None => raise_ ValueError [L "invalid literal for int() with base 10: "; VF v "r"]
      end
  | _ => raise_ TypeError [L "int() argument must be a string, a bytes-like object or a real number, not '";
                           L (type_name v); L "'"]
  end.

(** ** Dictionaries keyed by strings *)
Definition key_is (k : string) (v : PyVal) : bool :=
  match v with VStr s => bool_decide (s = k) | _ => false end.

Fixpoint dget (d : list (PyVal * PyVal)) (k : string) : option PyVal :=
  match d with
  | [] => None
  | (k', v) :: d' => if key_is k k' then Some v else dget d' k
  end.

(** [k in d] *)
Definition dmem (d : list (PyVal * PyVal)) (k : string) : bool :=
  match dget d k with Some _ => true | None => false end.

(** [d.get(k, default)] *)
Definition dget_or (d : list (PyVal * PyVal)) (k : string) (v : PyVal) : PyVal :=
  default v (dget d k).

(** [v in {s1, ...}] for a set of strings: a list or a dict is unhashable. *)
Definition in_strings (v : PyVal) (ss : list string) : res exn bool :=
  match v with
  | VList _ | VDict _ => raise_ TypeError [L "unhashable type: '"; L (type_name v); L "'"]
  | VStr s => Ok (bool_decide (s ∈ ss))
  | _ => Ok false
  end.

(** [isinstance(v, int)] holds of booleans too. *)
Definition as_int (v : PyVal) : option Z :=
  match v with VBool b => Some (Z.b2z b) | VInt z => Some z | _ => None end.

Definition as_dict (v : PyVal) : option (list (PyVal * PyVal)) :=
  match v with VDict d => Some d | _ => None end.
Definition as_list (v : PyVal) : option (list PyVal) :=
  match v with VList l => Some l | _ => None end.
Definition as_strs (v : PyVal) : option (list string) :=
  l ← as_list v; mapM (fun x => match x with VStr s => Some s | _ => None end) l.

(** [l[i]]: a negative index counts from the end. *)
Definition py_index {A} (l : list A) (i : Z) : res exn A :=
  let j := if (i <? 0)%Z then (i + Z.of_nat (length l))%Z else i in
  match (if (j <? 0)%Z then None else l !! Z.to_nat j) with
  | Some a => Ok a
  | None => raise_ IndexError [L "list index out of range"]
  end.

(** ** Facts *)
Lemma py_index_nat {A} (l : list A) n a : l !! n = Some a -> py_index l (Z.of_nat n) = Ok a.
Proof.
  intros H. unfold py_index.
  destruct (Z.ltb_spec (Z.of_nat n) 0); [lia|].
  destruct (Z.ltb_spec (Z.of_nat n) 0); [lia|]. by rewrite Nat2Z.id, H.
Qed.

Lemma except_ok {A} cs (m : res exn A) h a : m = Ok a -> except cs m h = Ok a.
Proof. by intros ->. Qed.

Lemma caught_refl c m k : caught_by [c] (Exn c m k) = true.
Proof.
  unfold caught_by, subclass; cbn [existsb exn_class subclass_fuel].
  by rewrite bool_decide_eq_true_2.
Qed.

Example zone_config_error_is_value_error : subclass ZoneConfigError ValueError = true.
Proof. reflexivity. Qed.
Example value_error_is_not_zone_config_error : subclass ValueError ZoneConfigError = false.
Proof. reflexivity. Qed.
Example keyboard_interrupt_is_not_exception : subclass KeyboardInterrupt Exception = false.
Proof. reflexivity. Qed.
Example broken_pipe_is_exception : subclass BrokenPipeError Exception = true.
Proof. reflexivity. Qed.

Example split_example : S.split "." "4.6.3" = ["4"; "6"; "3"].
Proof. reflexivity. Qed.
Example words_example : S.words "  wlan0: 0000  70." = ["wlan0:"; "0000"; "70."].
Proof. reflexivity. Qed.
Example float_example : Num.float_of " -1_0.5e-1 " = Some (F.of_dec (-105) (-2)).
Proof. vm_compute. reflexivity. Qed.
Example float_bad : Num.float_of "1__0" = None.
Proof. vm_compute. reflexivity. Qed.
Example int_example : Num.int_of "+1_000" = Some 1000%Z.
Proof. vm_compute. reflexivity. Qed.
Example strip_example : S.strip "  a b " = "a b".
Proof. reflexivity. Qed.
Example replace_example : S.replace "/stable/" "/beta/" "x/stable/y" = "x/beta/y".
Proof. reflexivity. Qed.

#[export] Hint Rewrite @caught_refl : rover.
