(* ===== verification/Files.v ===== *)
(** * Bytes, files and downloads

    What the components that read and write files rely on: the operations of
    the file system and of [urlopen] ([FileStore], outside the repository), and
    the UTF-8 decoder of the language ([bytes.decode]).  Bytes are Rocq strings;
    so are texts, as their UTF-8 encoding. *)

From stdpp Require Import base gmap list strings option.
From Stdlib Require Import Ascii NArith Lia.
From S2P Require Import Prelude Float64 PyVal.

(** ** [bytes.decode("utf-8", errors=...)] *)
Module Utf8.
Open Scope N_scope.

(** The ranges of the bytes that follow a lead byte; [None] for a byte that
    starts no character. *)
Definition follow (c : ascii) : option (list (N * N)) :=
  let b := S.code c in
  let t := (128, 191) in
  if b <=? 127 then Some []
  else if (194 <=? b) && (b <=? 223) then Some [t]
  else if b =? 224 then Some [(160, 191); t]
  else if b =? 237 then Some [(128, 159); t]
  else if (225 <=? b) && (b <=? 239) then Some [t; t]
  else if b =? 240 then Some [(144, 191); t; t]
  else if (241 <=? b) && (b <=? 243) then Some [t; t; t]
  else if b =? 244 then Some [(128, 143); t; t]
  else None.

(** Consume the bytes that match; [true] when all of them did. *)
Fixpoint eat (rs : list (N * N)) (l : list ascii) : bool * list ascii * list ascii :=
  match rs, l with
  | [], _ => (true, [], l)
  | (lo, hi) :: rs', c :: l' =>
      if S.between lo hi c then let '(b, got, rest) := eat rs' l' in (b, c :: got, rest)
      else (false, [], l)
  | _ :: _, [] => (false, [], [])
  end.

(** The characters of a byte string, [None] for each ill-formed piece. *)
Fixpoint chunks (fuel : nat) (l : list ascii) : list (option (list ascii)) :=
  match fuel, l with
  | Datatypes.S n, c :: l' =>
      match follow c with
      | None => None :: chunks n l'
      | Some rs =>
          let '(b, got, rest) := eat rs l' in
          (if b : bool then Some (c :: got) else None) :: chunks n rest
      end
  | _, _ => []
  end.

Definition decode_list (s : string) : list (option (list ascii)) :=
  chunks (String.length s) (S.chars s).

Definition replacement : list ascii := map ascii_of_N [239; 191; 189].

(** [errors="replace"] *)
Definition decode_replace (s : string) : string :=
  S.ofl (concat (map (default replacement) (decode_list s))).

(** [errors="strict"] *)
Definition decode (s : string) : res exn string :=
  if forallb (fun o : option (list ascii) => bool_decide (is_Some o)) (decode_list s) then Ok s
  else raise_ UnicodeError [L "'utf-8' codec can't decode bytes"].

Example decode_truncated :
  decode_replace (S.ofl (map ascii_of_N [97; 226; 130; 98; 255; 195; 169])) =
  S.ofl (map ascii_of_N [97; 239; 191; 189; 98; 239; 191; 189; 195; 169]).
Proof. reflexivity. Qed.
End Utf8.

(** ** Files and the network *)
Class FileStore (W : Type) := {
  (** [urlopen(url, timeout)] and [read()], the timeout in seconds *)
  f_get : string -> Z -> prog exn W string;
  (** [mkdir(parents=True, exist_ok=True)] *)
  f_mkdir : string -> prog exn W unit;
  (** [open(path, "wb")] and [write] *)
  f_write : string -> string -> prog exn W unit;
  f_exists : string -> prog exn W bool;
  f_read : string -> prog exn W string;
  (** [unlink(missing_ok=True)] *)
  f_unlink : string -> prog exn W unit
}.

Definition join_path (dir name : string) : string := S.join "" [dir; "/"; name].

Lemma join_path_inj dir a b : join_path dir a = join_path dir b -> a = b.
Proof.
  unfold join_path, S.join. cbn [String.append]. induction dir as [|c dir IH]; cbn; [by intros [=]|].
  by intros [= H%IH].
Qed.

(** ** A disk

    The laws of a file store in which operations return, writes store what they
    are given and only touch their own path, and [served] is what the network
    answers. *)
Class Disk (W : Type) `{!FileStore W} (contents : W -> gmap string string)
    (served : string -> option string) : Prop := {
  disk_get u t w : exists r w', f_get u t w = Some (r, w') /\ contents w' = contents w /\
    (forall d, r = Ok d -> served u = Some d);
  disk_mkdir p w : exists r w', f_mkdir p w = Some (r, w') /\ contents w' = contents w;
  disk_write p d w : exists r w', f_write p d w = Some (r, w') /\
    (forall q, q <> p -> contents w' !! q = contents w !! q) /\
    (r = Ok tt -> contents w' !! p = Some d);
  disk_exists p w : exists r w', f_exists p w = Some (r, w') /\ contents w' = contents w /\
    (forall b, r = Ok b -> b = bool_decide (is_Some (contents w !! p)));
  disk_read p w : exists r w', f_read p w = Some (r, w') /\ contents w' = contents w /\
    (forall d, r = Ok d -> contents w !! p = Some d);
  disk_unlink p w : exists r w', f_unlink p w = Some (r, w') /\
    (forall q, q <> p -> contents w' !! q = contents w !! q) /\
    (r = Ok tt -> contents w' !! p = None)
}.

(** Total correctness of [try: m  except cs: h]. *)
Lemma total_except {W A} (P : W -> Prop) cs (m : prog exn W A) (h : exn -> prog exn W A)
    (R : exn -> W -> Prop) (Q : res exn A -> W -> Prop) :
  total P m (fun r w => match r with
    | Ok a => Q (Ok a) w
    | Err e => if caught_by cs e then R e w else Q (Err e) w
    end) ->
  (forall e, total (R e) (h e) Q) ->
  total P (pexcept cs m h) Q.
Proof.
  intros Hm Hh w HP. destruct (Hm w HP) as ([a|e] & w' & Hw & HQ);
    unfold pexcept, pcatch; rewrite Hw; [by eauto|].
  destruct (caught_by cs e); [by apply Hh|by exists (Err e), w'].
Qed.

Lemma total_ret {W A} (P : W -> Prop) (a : A) (Q : res exn A -> W -> Prop) :
  (forall w, P w -> Q (Ok a) w) -> total P (mret a) Q.
Proof. intros H w HP. exists (Ok a), w. split; [done|by apply H]. Qed.

(** A disk whose operations succeed. *)
Class HealthyDisk (W : Type) `{!FileStore W} (contents : W -> gmap string string) : Prop := {
  hd_mkdir p w : exists w', f_mkdir p w = Some (Ok tt, w') /\ contents w' = contents w;
  hd_write p d w : exists w', f_write p d w = Some (Ok tt, w') /\ contents w' = <[p := d]> (contents w);
  hd_exists p w : exists w', f_exists p w = Some (Ok (bool_decide (is_Some (contents w !! p))), w') /\
    contents w' = contents w;
  hd_read p w d : contents w !! p = Some d -> exists w', f_read p w = Some (Ok d, w') /\
    contents w' = contents w
}.

(** The files themselves are such a disk. *)
Definition files_store : FileStore (gmap string string) := {|
  f_get u t w := Some (raise_ URLError [], w);
  f_mkdir p w := Some (Ok tt, w);
  f_write p d w := Some (Ok tt, <[p := d]> w);
  f_exists p w := Some (Ok (bool_decide (is_Some (w !! p))), w);
  f_read p w := Some (match w !! p with Some d => Ok d | None => raise_ FileNotFoundError [L p] end, w);
  f_unlink p w := Some (Ok tt, delete p w)
|}.

Lemma files_healthy : @HealthyDisk (gmap string string) files_store id.
Proof.
  constructor; cbn; [by eauto|by eauto|by eauto|]. intros p w d H. unfold id in H. rewrite H. by eauto.
Qed.
