(* ===== verification/Safety.v ===== *)
(** * Confirmation gate and safe-stop hooks (safety/confirm.py)

    [requires_confirmation] is the decorator every command that moves the
    mower, writes its parameters or reflashes it goes through; [SafetyContext]
    carries the dry-run and assume-yes flags and the safe-stop hooks.  Commands
    and hooks are programs over an arbitrary world [W]; the terminal's [input]
    is the interface [Terminal]. *)

From stdpp Require Import base sets list strings option.
From Stdlib Require Import Ascii ZArith Lia.
From S2P Require Import Prelude PyVal.

(** The terminal: [input(prompt)] returns the line typed, or raises
    ([EOFError] at end of input, [KeyboardInterrupt] on Ctrl-C). *)
Class Terminal (W : Type) := { t_input : FStr -> prog exn W string }.

Module Safety.
Section confirm.
Context {W : Type}.

Record SafetyContext : Type := {
  dry_run : bool;
  assume_yes : bool;
  safe_stop_hooks : list (prog exn W unit)
}.

Definition register_safe_stop (ctx : SafetyContext) (hook : prog exn W unit) : SafetyContext :=
  {| dry_run := dry_run ctx; assume_yes := assume_yes ctx;
     safe_stop_hooks := safe_stop_hooks ctx ++ [hook] |}.

Definition safe_stop (ctx : SafetyContext) : prog exn W unit :=
  piter (fun hook => pexcept [Exception] hook (fun _ => mret tt)) (safe_stop_hooks ctx).

Context `{!Terminal W}.

Definition _prompt (message : string) : prog exn W bool :=
  pexcept [EOFError]
    (line ← t_input [L message; L " [y/N]: "];
     let answer := S.lower (S.strip line) in
     mret (bool_decide (answer ∈ ["y"; "yes"])))
    (fun _ => mret false).

(** An argument of the decorated function: [None], a [SafetyContext], or
    anything else. *)
Inductive Arg : Type :=
| ANone
| ACtx (ctx : SafetyContext)
| AVal (v : PyVal).

Fixpoint first_ctx (args : list Arg) : Arg :=
  match args with
  | [] => ANone
  | ACtx c :: _ => ACtx c
  | _ :: args' => first_ctx args'
  end.

(** The context the wrapper finds: the keyword argument, else the first
    positional [SafetyContext]. *)
Definition find_ctx (ctx_arg : string) (args : list Arg) (kwargs : list (string * Arg)) : Arg :=
  match default ANone (od_get kwargs ctx_arg) with
  | ANone => first_ctx args
  | a => a
  end.

Definition requires_confirmation {R : Type} (message ctx_arg name : string)
    (func : list Arg -> list (string * Arg) -> prog exn W R)
    (args : list Arg) (kwargs : list (string * Arg)) : prog exn W R :=
  match find_ctx ctx_arg args kwargs with
  | ACtx ctx =>
      if dry_run ctx then func args kwargs
      else if assume_yes ctx then func args kwargs
      else
        accepted ← _prompt message;
        if (accepted : bool) then func args kwargs
        else plift (raise_ ConfirmationAborted [L "Operator declined: "; L message])
  | _ =>
      plift (raise_ TypeError [L name; L " must receive a SafetyContext (kwarg '";
                               L ctx_arg; L "')"])
  end.
End confirm.
Arguments SafetyContext : clear implicits.
Arguments Arg : clear implicits.
End Safety.
Export Safety.

Definition is_yes (line : string) : bool :=
  bool_decide (S.lower (S.strip line) ∈ ["y"; "yes"]).

(** ** Blanks and case around a word *)
Lemma drop_while_split p l : exists a, l = a ++ S.drop_while p l /\ Forall (fun c => p c = true) a.
Proof.
  induction l as [|c l (a & Ha & Hall)]; cbn [S.drop_while]; [by exists []|].
  destruct (p c) eqn:Hc; [|by exists []]. exists (c :: a). cbn. rewrite <- Ha. split; [done|by constructor].
Qed.

Lemma drop_while_skip p a l : Forall (fun c => p c = true) a -> S.drop_while p (a ++ l) = S.drop_while p l.
Proof. induction 1 as [|c a Hc _ IH]; cbn; [done|by rewrite Hc]. Qed.

Lemma drop_while_stop p l r : existsb p l = false -> l <> [] -> S.drop_while p (l ++ r) = l ++ r.
Proof. destruct l as [|c l]; [done|]. cbn. intros [-> _]%orb_false_iff _. done. Qed.

Lemma strip_split l : exists b a,
  l = b ++ S.rstrip_by S.is_space (S.lstrip_by S.is_space l) ++ a /\
  Forall (fun c => S.is_space c = true) b /\ Forall (fun c => S.is_space c = true) a.
Proof.
  unfold S.rstrip_by, S.lstrip_by. destruct (drop_while_split S.is_space l) as (b & Hb & Hsb).
  set (m := S.drop_while S.is_space l) in *. destruct (drop_while_split S.is_space (rev m)) as (a & Ha & Hsa).
  exists b, (rev a). split_and!; [|done|].
  - by rewrite <- rev_app_distr, <- Ha, rev_involutive.
  - rewrite list.Forall_forall in *. intros c Hc. apply Hsa. rewrite list_elem_of_In in *. by apply in_rev.
Qed.

Lemma strip_between b w a :
  Forall (fun c => S.is_space c = true) b -> Forall (fun c => S.is_space c = true) a ->
  existsb S.is_space w = false -> w <> [] ->
  S.rstrip_by S.is_space (S.lstrip_by S.is_space (b ++ w ++ a)) = w.
Proof.
  intros Hb Ha Hw Hne. unfold S.rstrip_by, S.lstrip_by. rewrite drop_while_skip, drop_while_stop by done.
  rewrite rev_app_distr, drop_while_skip.
  - rewrite <- (app_nil_r (rev w)), drop_while_stop, app_nil_r; [apply rev_involutive|by rewrite existsb_rev|].
    intros Hr. by apply (f_equal (@rev ascii)) in Hr; rewrite rev_involutive in Hr.
  - rewrite list.Forall_forall in *. intros c Hc. apply Ha. rewrite list_elem_of_In in *. by apply in_rev.
Qed.

Lemma lower_back c : c = S.to_lower c \/ c = S.to_upper (S.to_lower c).
Proof. destruct c as [[] [] [] [] [] [] [] []]; vm_compute; auto. Qed.

Definition yes_words : list string :=
  ["y"; "Y"; "yes"; "yeS"; "yEs"; "yES"; "Yes"; "YeS"; "YEs"; "YES"].

Lemma lower_yes s : S.lower s ∈ ["y"; "yes"] <-> s ∈ yes_words.
Proof.
  split.
  - unfold S.lower, S.chars, S.ofl. intros Hs.
    destruct s as [|a [|b [|c [|d s]]]]; cbn in Hs; rewrite !elem_of_cons in Hs;
      destruct Hs as [Hs|[Hs|Hs%elem_of_nil]]; try done; injection Hs as ?;
      repeat match goal with
             | H : S.to_lower ?c = _ |- _ => destruct (lower_back c) as [Hc|Hc]; rewrite H in Hc; clear H; subst c
             end; vm_compute; set_solver.
  - unfold yes_words. rewrite !elem_of_cons. intros Hs.
    repeat (destruct Hs as [->|Hs]; [vm_compute; set_solver|]). by apply elem_of_nil in Hs.
Qed.

Lemma yes_no_space s : s ∈ yes_words -> existsb S.is_space (S.chars s) = false /\ S.chars s <> [].
Proof.
  unfold yes_words. rewrite !elem_of_cons. intros Hs.
  repeat (destruct Hs as [->|Hs]; [done|]). by apply elem_of_nil in Hs.
Qed.

Section gate.
Context {W R : Type} `{!Terminal W}.

Lemma prompt_answer message (w w1 : W) line :
  t_input [L message; L " [y/N]: "] w = Some (Ok line, w1) ->
  _prompt message w = Some (Ok (is_yes line), w1).
Proof. intros H. unfold _prompt, pexcept. unfold_monad. by rewrite H. Qed.

Lemma prompt_raises message (w w1 : W) e :
  t_input [L message; L " [y/N]: "] w = Some (Err e, w1) ->
  _prompt message w =
    Some (if subclass (exn_class e) EOFError then Ok false else Err e, w1).
Proof.
  intros H. unfold _prompt, pexcept, caught_by. unfold_monad. rewrite H. cbn [existsb].
  rewrite orb_false_r. by destruct (subclass (exn_class e) EOFError).
Qed.

(** ** Who is asked, and what counts as a yes

    Said of the call and of the line typed, not of the code: the dictionary binds
    the name to its first value, a positional context counts when the name is
    unbound or bound to [None], and a yes is one of ten words between blanks. *)
Definition bound {A} (kwargs : list (string * A)) (k : string) (a : A) : Prop :=
  exists l1 l2, kwargs = l1 ++ (k, a) :: l2 /\ k ∉ od_keys l1.

Inductive supplied (ctx_arg : string) (args : list (Arg W)) (kwargs : list (string * Arg W))
    (ctx : SafetyContext W) : Prop :=
| by_keyword : bound kwargs ctx_arg (ACtx ctx) -> supplied ctx_arg args kwargs ctx
| by_position before after :
    ctx_arg ∉ od_keys kwargs \/ bound kwargs ctx_arg ANone ->
    args = before ++ ACtx ctx :: after -> (forall c, ACtx c ∉ before) ->
    supplied ctx_arg args kwargs ctx.

Lemma od_get_bound {A} (kwargs : list (string * A)) k a : od_get kwargs k = Some a <-> bound kwargs k a.
Proof.
  unfold bound. induction kwargs as [|[k' v] kw IH]; cbn [od_get].
  - split; [done|]. intros ([|??] & ? & ? & _); discriminate.
  - case_decide as Hk.
    + subst k'. split; [intros [= ->]; by exists [], kw; split; [|set_solver]|].
      intros ([|[k1 v1] l1] & l2 & Heq & Hn); simplify_eq/=; [done|]. set_solver.
    + rewrite IH. split.
      * intros (l1 & l2 & -> & Hn). exists ((k', v) :: l1), l2. split; [done|]. cbn. set_solver.
      * intros ([|[k1 v1] l1] & l2 & Heq & Hn); simplify_eq/=. exists l1, l2. split; [done|]. set_solver.
Qed.

Lemma first_ctx_spec (args : list (Arg W)) c :
  first_ctx args = ACtx c <->
  exists before after, args = before ++ ACtx c :: after /\ forall c', ACtx c' ∉ before.
Proof.
  induction args as [|a args IH]; cbn [first_ctx].
  - split; [done|]. intros ([|??] & ? & ? & _); discriminate.
  - assert (forall b, (forall c', b <> ACtx c') -> b = a -> first_ctx args = ACtx c <->
              exists before after, a :: args = before ++ ACtx c :: after /\ forall c', ACtx c' ∉ before) as Hskip.
    { intros b Hb ->. rewrite IH. split.
      - intros (l1 & l2 & -> & Hn). exists (a :: l1), l2. split; [done|].
        intros c' [Hc|?]%elem_of_cons; [by destruct (Hb c')|by eapply Hn].
      - intros ([|a1 l1] & l2 & Heq & Hn); simplify_eq/=; [by destruct (Hb c)|].
        exists l1, l2. split; [done|]. intros c' ?. by apply (Hn c'), list_elem_of_further. }
    destruct a as [|c0|v]; [by apply (Hskip ANone)| |by apply (Hskip (AVal v))].
    split; [intros [= ->]; by exists [], args; split; [|set_solver]|].
    intros ([|a1 l1] & l2 & Heq & Hn); simplify_eq/=; [done|]. exfalso. apply (Hn c0). left.
Qed.

Lemma find_ctx_spec ctx_arg args kwargs c :
  find_ctx ctx_arg args kwargs = ACtx c <-> supplied ctx_arg args kwargs c.
Proof.
  unfold find_ctx. split.
  - destruct (od_get kwargs ctx_arg) as [a|] eqn:Hg; cbn [default].
    + apply od_get_bound in Hg. destruct a; [|intros [= ->]; by left|done].
      intros (l1 & l2 & ? & ?)%first_ctx_spec. eright; [by right|done|done].
    + intros (l1 & l2 & ? & ?)%first_ctx_spec. eright; [left; by apply od_get_none|done|done].
  - intros [Hb|l1 l2 Hb Ha Hn].
    + apply od_get_bound in Hb. by rewrite Hb.
    + assert (first_ctx args = ACtx c) as Hf by (apply first_ctx_spec; by exists l1, l2).
      destruct Hb as [Hb|Hb]; [apply od_get_none in Hb|apply od_get_bound in Hb]; by rewrite Hb.
Qed.

Definition consents (line : string) : Prop :=
  exists before word after, S.chars line = before ++ S.chars word ++ after /\
    Forall (fun c => S.is_space c = true) before /\ Forall (fun c => S.is_space c = true) after /\
    word ∈ yes_words.

Lemma consents_yes line : is_yes line = true <-> consents line.
Proof.
  unfold is_yes, consents. rewrite bool_decide_eq_true, lower_yes. split.
  - intros Hw. destruct (strip_split (S.chars line)) as (b & a & Hl & Hb & Ha).
    exists b, (S.strip line), a. unfold S.strip at 1. rewrite chars_ofl. by split_and!.
  - intros (b & w & a & Hl & Hb & Ha & Hw). unfold S.strip.
    rewrite Hl, strip_between by (done || by apply yes_no_space). by rewrite ofl_chars.
Qed.

(** How a call through the decorator ends, and in which world. *)
Inductive gated (message ctx_arg name : string)
    (func : list (Arg W) -> list (string * Arg W) -> prog exn W R)
    (args : list (Arg W)) (kwargs : list (string * Arg W)) (w : W) : res exn R -> W -> Prop :=
| gate_no_context :
    (forall ctx, ~ supplied ctx_arg args kwargs ctx) ->
    gated message ctx_arg name func args kwargs w
      (raise_ TypeError [L name; L " must receive a SafetyContext (kwarg '"; L ctx_arg; L "')"]) w
| gate_unasked ctx r w' :
    supplied ctx_arg args kwargs ctx -> dry_run ctx = true \/ assume_yes ctx = true ->
    func args kwargs w = Some (r, w') ->
    gated message ctx_arg name func args kwargs w r w'
| gate_consent ctx line w1 r w' :
    supplied ctx_arg args kwargs ctx -> dry_run ctx = false -> assume_yes ctx = false ->
    t_input [L message; L " [y/N]: "] w = Some (Ok line, w1) -> consents line ->
    func args kwargs w1 = Some (r, w') ->
    gated message ctx_arg name func args kwargs w r w'
| gate_refusal ctx line w1 :
    supplied ctx_arg args kwargs ctx -> dry_run ctx = false -> assume_yes ctx = false ->
    t_input [L message; L " [y/N]: "] w = Some (Ok line, w1) -> ~ consents line ->
    gated message ctx_arg name func args kwargs w
      (raise_ ConfirmationAborted [L "Operator declined: "; L message]) w1
| gate_end_of_input ctx e w1 :
    supplied ctx_arg args kwargs ctx -> dry_run ctx = false -> assume_yes ctx = false ->
    t_input [L message; L " [y/N]: "] w = Some (Err e, w1) -> subclass (exn_class e) EOFError = true ->
    gated message ctx_arg name func args kwargs w
      (raise_ ConfirmationAborted [L "Operator declined: "; L message]) w1
| gate_interrupt ctx e w1 :
    supplied ctx_arg args kwargs ctx -> dry_run ctx = false -> assume_yes ctx = false ->
    t_input [L message; L " [y/N]: "] w = Some (Err e, w1) -> subclass (exn_class e) EOFError = false ->
    gated message ctx_arg name func args kwargs w (Err e) w1.

Lemma gate_asked message ctx_arg name func args kwargs w ctx :
  supplied ctx_arg args kwargs ctx -> dry_run ctx = false -> assume_yes ctx = false ->
  requires_confirmation message ctx_arg name func args kwargs w =
  match t_input [L message; L " [y/N]: "] w with
  | None => None
  | Some (Ok line, w1) =>
      if is_yes line then func args kwargs w1
      else Some (raise_ ConfirmationAborted [L "Operator declined: "; L message] : res exn R, w1)
  | Some (Err e, w1) =>
      if subclass (exn_class e) EOFError
      then Some (raise_ ConfirmationAborted [L "Operator declined: "; L message], w1)
      else Some (Err e, w1)
  end.
Proof.
  intros Hc Hd Hy. unfold requires_confirmation. apply find_ctx_spec in Hc. rewrite Hc, Hd, Hy.
  unfold mbind, prog_bind.
  destruct (t_input [L message; L " [y/N]: "] w) as [[[line|e] w1]|] eqn:Hin.
  - rewrite (prompt_answer _ _ _ _ Hin). by destruct (is_yes line).
  - rewrite (prompt_raises _ _ _ _ Hin). by destruct (subclass (exn_class e) EOFError).
  - unfold _prompt, pexcept. unfold_monad. by rewrite Hin.
Qed.

(** C4: The decorator runs the command exactly with consent.  A call through it
    ends as [gated] says and in no other way: the context is the keyword
    argument, or the first positional one when that is missing or [None]; under
    its [dry_run] or [assume_yes] the command runs and nothing is asked;
    otherwise the command runs, in the world the prompt left, if and only if the
    line typed is y or yes in any case between blanks, and a refusal or the end
    of input is [ConfirmationAborted], any other interruption escapes, and a
    call without a context is a [TypeError], all without running it. *)
Theorem requires_confirmation_gate message ctx_arg name
    (func : list (Arg W) -> list (string * Arg W) -> prog exn W R) args kwargs (w w' : W) r :
  requires_confirmation message ctx_arg name func args kwargs w = Some (r, w') <->
  gated message ctx_arg name func args kwargs w r w'.
Proof.
  split.
  - destruct (find_ctx ctx_arg args kwargs) as [|ctx|v] eqn:Hf.
    2: destruct (dry_run ctx) eqn:Hd; [|destruct (assume_yes ctx) eqn:Hy].
    1,5: unfold requires_confirmation; rewrite Hf; intros [= <- <-]; apply gate_no_context;
      intros c Hc%find_ctx_spec; congruence.
    1,2: unfold requires_confirmation; rewrite Hf, Hd, ?Hy; apply gate_unasked with ctx; [by apply find_ctx_spec|auto].
    apply find_ctx_spec in Hf. rewrite (gate_asked _ _ _ _ _ _ _ _ Hf Hd Hy).
    destruct (t_input _ w) as [[[line|e] w1]|] eqn:Hin; [| |done].
    + destruct (is_yes line) eqn:Hl; [intros Hr; eapply gate_consent; eauto; by apply consents_yes|].
      intros [= <- <-]. eapply gate_refusal; eauto. rewrite <- consents_yes. congruence.
    + destruct (subclass _ EOFError) eqn:He; intros [= <- <-]; [by eapply gate_end_of_input|by eapply gate_interrupt].
  - destruct 1 as [Hn|ctx r w' Hc Hs Hr|ctx line w1 r w' Hc Hd Hy Hin Hl Hr|ctx line w1 Hc Hd Hy Hin Hl
                  |ctx e w1 Hc Hd Hy Hin He|ctx e w1 Hc Hd Hy Hin He].
    1: unfold requires_confirmation; destruct (find_ctx ctx_arg args kwargs) as [|c|] eqn:Hf; try done;
      by apply find_ctx_spec, Hn in Hf.
    1: unfold requires_confirmation; apply find_ctx_spec in Hc; rewrite Hc;
      by destruct (dry_run ctx), (assume_yes ctx), Hs.
    all: rewrite (gate_asked _ _ _ _ _ _ _ _ Hc Hd Hy), Hin.
    1: by rewrite (proj2 (consents_yes _) Hl).
    1: destruct (is_yes line) eqn:E; [by apply consents_yes in E|done].
    all: by rewrite He.
Qed.
End gate.

(** ** Safe stop *)
Section stop.
Context {W : Type}.

(** The world after the hooks ran in registration order, each from the world
    its predecessor left, whatever it raised. *)
Fixpoint after_hooks (hooks : list (prog exn W unit)) (w : W) : option W :=
  match hooks with
  | [] => Some w
  | h :: hs => '(_, w') ← h w; after_hooks hs w'
  end.

(** Hooks that terminate and let nothing escape but [Exception]s. *)
Definition well_behaved (h : prog exn W unit) : Prop :=
  forall w, exists r w', h w = Some (r, w') /\
    match r with Ok _ => True | Err e => caught_by [Exception] e = true end.

Lemma pexcept_behaved h w r w' :
  well_behaved h -> h w = Some (r, w') ->
  pexcept [Exception] h (fun _ => mret tt) w = Some (Ok tt, w').
Proof.
  intros Hh Hr. destruct (Hh w) as (r1 & w1 & H1 & Hc). rewrite Hr in H1; simplify_eq.
  unfold pexcept, pcatch. rewrite Hr. destruct r1 as [[]|e]; [done|]. by rewrite Hc.
Qed.

Lemma after_hooks_runs hooks w :
  Forall well_behaved hooks ->
  exists w', after_hooks hooks w = Some w' /\
    piter (fun hook => pexcept [Exception] hook (fun _ => mret tt)) hooks w
      = Some (Ok tt, w').
Proof.
  revert w. induction hooks as [|h hs IH]; intros w Hall; [by exists w|].
  apply list.Forall_cons in Hall as [Hh Hhs].
  destruct (Hh w) as (r & w1 & H1 & _). destruct (IH w1 Hhs) as (w2 & H2 & H3).
  exists w2. split; [simpl; by rewrite H1|].
  unfold piter in *. cbn [pfold]. unfold mbind at 1, prog_bind.
  by rewrite (pexcept_behaved _ _ _ _ Hh H1).
Qed.

(** Safe stop runs every registered hook, the newly registered one last,
    each exactly once and in order, whatever [Exception]s the earlier ones
    raised, and itself returns normally. *)
Lemma safe_stop_runs_all (ctx : SafetyContext W) (hook : prog exn W unit) (w : W)
    (Hctx : Forall well_behaved (safe_stop_hooks ctx)) (Hhook : well_behaved hook) :
  exists w1 r w2,
    safe_stop ctx w = Some (Ok tt, w1) /\
    after_hooks (safe_stop_hooks ctx) w = Some w1 /\
    hook w1 = Some (r, w2) /\
    safe_stop (register_safe_stop ctx hook) w = Some (Ok tt, w2).
Proof.
  destruct (after_hooks_runs _ w Hctx) as (w1 & H1 & H2).
  destruct (Hhook w1) as (r & w2 & H3 & Hr). exists w1, r, w2. split_and!; try done.
  assert (Forall well_behaved (safe_stop_hooks ctx ++ [hook])) as Hall.
  { apply Forall_app; by repeat constructor. }
  destruct (after_hooks_runs _ w Hall) as (w3 & H4 & H5).
  enough (after_hooks (safe_stop_hooks ctx ++ [hook]) w = Some w2) as Happ.
  { rewrite Happ in H4. injection H4 as <-. exact H5. }
  clear -H1 H3. revert w H1. induction (safe_stop_hooks ctx) as [|h hs IH]; intros w H1.
  - injection H1 as ->. simpl. by rewrite H3.
  - simpl in *. destruct (h w) as [[? w']|]; simpl in *; [by apply IH|done].
Qed.

(** A hook that cannot be caught stops the others: [KeyboardInterrupt] escapes. *)
Lemma safe_stop_interrupted (ctx : SafetyContext W) h hs w w1 m :
  safe_stop_hooks ctx = h :: hs ->
  h w = Some (Err (Exn KeyboardInterrupt m 0), w1) ->
  safe_stop ctx w = Some (Err (Exn KeyboardInterrupt m 0), w1).
Proof.
  intros Heq Hh. unfold safe_stop. rewrite Heq. unfold piter. cbn [pfold].
  unfold mbind, prog_bind, pexcept, pcatch. by rewrite Hh.
Qed.
End stop.

(** Two hooks that log their number, the first one raising. *)
Definition log_hook (n : Z) (fails : bool) : prog exn (list Z) unit :=
  fun w => Some (if fails then raise_ RuntimeError [L "boom"] else Ok tt, w ++ [n]).

Lemma log_hook_behaved n fails : well_behaved (log_hook n fails).
Proof. intros w. destruct fails; by eexists _, _. Defined.

Lemma safe_stop_runs_all_witness :
  let ctx := {| dry_run := false; assume_yes := false;
                safe_stop_hooks := [log_hook 1 true] |} in
  exists w1 r w2,
    safe_stop ctx [] = Some (Ok tt, w1) /\
    after_hooks (safe_stop_hooks ctx) [] = Some w1 /\
    log_hook 2 false w1 = Some (r, w2) /\
    safe_stop (register_safe_stop ctx (log_hook 2 false)) [] = Some (Ok tt, w2).
Proof.
  apply safe_stop_runs_all; [constructor; [|constructor]|]; apply log_hook_behaved.
Defined.

(** A terminal that types one line. *)
#[local] Instance one_line : Terminal (list string) :=
  {| t_input _ w := match w with
                    | [] => Some (raise_ EOFError [], [])
                    | s :: w' => Some (Ok s, w')
                    end |}.

(** With " Yes " typed, the command runs on the context found behind another
    argument; what it does is to count its arguments. *)
Lemma requires_confirmation_gate_witness :
  let ctx := {| dry_run := false; assume_yes := false; safe_stop_hooks := [] |} in
  let args := [AVal (VInt 7); ACtx ctx] in
  requires_confirmation "Go" "ctx" "cut" (fun args _ => mret (length args)) args [("ctx", ANone)] [" Yes "]
    = Some (Ok 2%nat, []).
Proof.
  intros ctx args. apply requires_confirmation_gate.
  eapply (gate_consent _ _ _ _ _ _ _ ctx " Yes " []); [|done..| |reflexivity].
  - eapply (by_position _ _ _ _ [AVal (VInt 7)] []); [right; by exists [], []; split; [|set_solver]|done|].
    intros c Hc. apply list_elem_of_singleton in Hc. discriminate.
  - exists [" "%char], "Yes", [" "%char]. split_and!; [done|by repeat constructor..|].
    unfold yes_words. set_solver.
Defined.

Example prompt_yes : _prompt "Go" ["  YES "] = Some (Ok true, []).
Proof. vm_compute. reflexivity. Qed.
Example prompt_sure : _prompt "Go" ["sure"] = Some (Ok false, []).
Proof. vm_compute. reflexivity. Qed.
Example prompt_eof : _prompt "Go" [] = Some (Ok false, []).
Proof. vm_compute. reflexivity. Qed.
