(* ===== verification/Registry.v ===== *)
(** * Probe registry (probe/registry.py)

    Registration of checks, dependency resolution by depth-first search, the
    run loop with its skip rule and the exit code.  A check is a program over
    an arbitrary world [W] (files, processes, devices).  Sets of names are
    [gset]s; the order Python iterates a set in is the parameter [iter].

    The recursive helpers [_visit] and [_expand] take the recursion depth as
    fuel; [depth_fuel] is the number of names mentioned in the registry plus
    one, and the theorems show that it always suffices. *)

From stdpp Require Import base gmap sets list strings option relations.
From Stdlib Require Import ZArith Lia.
From S2P Require Import Prelude PyVal.

Module Registry.
Inductive Severity : Type := INFO | WARNING | CRITICAL.
Inductive Status : Type := PASS | FAIL | SKIP.
#[export] Instance Severity_eq_dec : EqDecision Severity.
Proof. solve_decision. Defined.
#[export] Instance Status_eq_dec : EqDecision Status.
Proof. solve_decision. Defined.

Record CheckResult : Type :=
  { cr_name : string; cr_status : Status; cr_severity : Severity; cr_detail : FStr }.

Section registry.
Context {W : Type}.

(** [cs_fn] takes the sysroot. *)
Record CheckSpec : Type :=
  { cs_name : string; cs_severity : Severity; cs_depends_on : list string;
    cs_fn : string -> prog exn W (bool * FStr) }.

Abbreviation Specs := (list (string * CheckSpec)).

(** The decorator, applied to [fn]: the registry it leaves. *)
Definition register (name : string) (severity : Severity) (depends_on : list string)
    (fn : string -> prog exn W (bool * FStr)) (_REGISTRY : Specs) : res exn Specs :=
  match od_get _REGISTRY name with
  | Some _ => raise_ ValueError [L "Duplicate check name: "; VF (VStr name) "r"]
  | None => Ok (od_set _REGISTRY name
                  {| cs_name := name; cs_severity := severity;
                     cs_depends_on := depends_on; cs_fn := fn |})
  end.

(** Every name a dictionary of checks mentions. *)
Definition mentioned (specs : Specs) : gset string :=
  list_to_set (od_keys specs ++ concat (map (fun kv => cs_depends_on kv.2) specs)).

Definition depth_fuel (extra : gset string) (specs : Specs) : nat :=
  Datatypes.S (size (extra ∪ mentioned specs)).

Record Dfs : Type := { visited : gset string; visiting : gset string; order : list string }.

Fixpoint _visit (fuel : nat) (specs : Specs) (name : string) : prog exn Dfs unit :=
  match fuel with
  | O => fun _ => None
  | Datatypes.S fuel' =>
      st ← pget;
      if bool_decide (name ∈ visited st) then mret tt
      else if bool_decide (name ∈ visiting st) then
        plift (raise_ ValueError [L "Dependency cycle detected involving "; VF (VStr name) "r"])
      else
        _ ← pmodify (fun st => {| visited := visited st; visiting := {[name]} ∪ visiting st;
                                  order := order st |});
        _ ← match od_get specs name with
            | Some spec => piter (_visit fuel' specs) (cs_depends_on spec)
            | None => mret tt
            end;
        pmodify (fun st => {| visited := {[name]} ∪ visited st;
                              visiting := visiting st ∖ {[name]};
                              order := order st ++ [name] |})
  end.

Definition _resolve_order (specs : Specs) : option (res exn (list string)) :=
  '(r, st) ← piter (_visit (depth_fuel ∅ specs) specs) (od_keys specs)
              {| visited := ∅; visiting := ∅; order := [] |};
  Some (match r with Ok _ => Ok (order st) | Err e => Err e end).

Fixpoint _expand (fuel : nat) (_REGISTRY : Specs) (name : string) : prog exn (gset string) unit :=
  match fuel with
  | O => fun _ => None
  | Datatypes.S fuel' =>
      needed ← pget;
      if bool_decide (name ∈ needed) then mret tt
      else
        _ ← pmodify (fun needed => {[name]} ∪ needed);
        match od_get _REGISTRY name with
        | Some spec => piter (_expand fuel' _REGISTRY) (cs_depends_on spec)
        | None => mret tt
        end
  end.

(** The iteration order of a set. *)
Variable iter : gset string -> list string.

(** [{n: _REGISTRY[n] for n in needed if n in _REGISTRY}] *)
Definition restrict (_REGISTRY : Specs) (needed : gset string) : Specs :=
  omap (fun n => spec ← od_get _REGISTRY n; Some (n, spec)) (iter needed).

Definition select (_REGISTRY : Specs) (only : option (gset string)) : option (res exn Specs) :=
  match only with
  | Some only =>
      '(r, needed) ← piter (_expand (depth_fuel only _REGISTRY) _REGISTRY) (iter only) ∅;
      Some (match r with Ok _ => Ok (restrict _REGISTRY needed) | Err e => Err e end)
  | None => Some (Ok _REGISTRY)
  end.

(** One round of the run loop; the accumulator is [(results, failed_names)]. *)
Definition run_one (specs : Specs) (sysroot : string)
    (acc : list CheckResult * gset string) (name : string)
  : prog exn W (list CheckResult * gset string) :=
  let '(results, failed_names) := acc in
  match od_get specs name with
  | None => plift (raise_ KeyError [VF (VStr name) "r"])
  | Some spec =>
      match filter (fun d => d ∈ failed_names) (cs_depends_on spec) with
      | (_ :: _) as deps_failed =>
          mret (results ++ [{| cr_name := name; cr_status := SKIP;
                               cr_severity := cs_severity spec;
                               cr_detail := [L "Skipped — dependency failed: ";
                                             L (S.join ", " deps_failed)] |}],
                {[name]} ∪ failed_names)
      | [] =>
          '(passed, detail) ← pexcept [Exception] (cs_fn spec sysroot)
             (fun exc => mret (false, L "Unexpected error: " :: exn_msg exc));
          mret (results ++ [{| cr_name := name;
                               cr_status := if (passed : bool) then PASS else FAIL;
                               cr_severity := cs_severity spec; cr_detail := detail |}],
                if (passed : bool) then failed_names else {[name]} ∪ failed_names)
      end
  end.

Definition run_checks (sysroot : string) (only : option (gset string)) (_REGISTRY : Specs)
  : prog exn W (list CheckResult) :=
  fun w =>
  specs ← select _REGISTRY only;
  match specs with
  | Err e => Some (Err e, w)
  | Ok specs =>
      ordered ← _resolve_order specs;
      match ordered with
      | Err e => Some (Err e, w)
      | Ok ordered =>
          ('(results, _) ← pfold (run_one specs sysroot) ([], ∅) ordered; mret results) w
      end
  end.
End registry.
Arguments CheckSpec : clear implicits.

Definition not_passed (sev : Severity) (r : CheckResult) : bool :=
  bool_decide (cr_status r ∈ [FAIL; SKIP]) && bool_decide (cr_severity r = sev).

Definition derive_exit_code (results : list CheckResult) : Z :=
  let has_critical := existsb (not_passed CRITICAL) results in
  let has_warning := existsb (not_passed WARNING) results in
  if has_critical then 2 else if has_warning then 1 else 0.
End Registry.
Export Registry.

(** ** The dependency relation *)
Section dfs.
Context {W : Type}.
Implicit Types specs : list (string * CheckSpec W).

Definition dep specs (x y : string) : Prop :=
  exists s, od_get specs x = Some s /\ y ∈ cs_depends_on s.

Definition acyclic specs : Prop := forall x, ~ tc (dep specs) x x.

(** Each name comes after its dependencies. *)
Definition ordered_by specs (l : list string) : Prop :=
  forall i x d, l !! i = Some x -> dep specs x d -> exists j, j < i /\ l !! j = Some d.

Lemma dep_mentioned specs x y : dep specs x y -> y ∈ mentioned specs.
Proof.
  intros (s & Hs & Hy). unfold mentioned. apply elem_of_list_to_set, elem_of_app. right.
  apply list_elem_of_In, in_concat. exists (cs_depends_on s). split.
  - apply list_elem_of_In, list_elem_of_fmap. exists (x, s). split; [done|].
    by apply od_get_elem.
  - by apply list_elem_of_In.
Qed.

Lemma key_mentioned specs x : x ∈ od_keys specs -> x ∈ mentioned specs.
Proof. intros. apply elem_of_list_to_set, elem_of_app. by left. Qed.

Lemma ordered_tc specs l i x y :
  ordered_by specs l -> l !! i = Some x -> tc (dep specs) x y ->
  exists j, j < i /\ l !! j = Some y.
Proof.
  intros Hl Hi Htc. revert i Hi. induction Htc as [x y Hd|x y z Hd _ IH]; intros i Hi.
  - by eapply Hl.
  - destruct (Hl _ _ _ Hi Hd) as (j & Hj & Hlj). destruct (IH _ Hlj) as (k & ? & ?).
    exists k. split; [lia|done].
Qed.

Lemma ordered_acyclic specs l :
  NoDup l -> (forall x, x ∈ od_keys specs -> x ∈ l) -> ordered_by specs l -> acyclic specs.
Proof.
  intros Hnd Hkeys Hl x Htc.
  assert (x ∈ od_keys specs) as Hx.
  { inversion Htc as [? ? (s & Hs & _)|? ? ? (s & Hs & _)]; subst;
      apply od_get_some_key; by exists s. }
  destruct (list_elem_of_lookup_1 _ _ (Hkeys _ Hx)) as [i Hi].
  destruct (ordered_tc _ _ _ _ _ Hl Hi Htc) as (j & Hj & Hlj).
  pose proof (NoDup_lookup _ _ _ _ Hnd Hi Hlj). lia.
Qed.

Lemma ordered_snoc specs l x :
  ordered_by specs l -> (forall d, dep specs x d -> d ∈ l) -> ordered_by specs (l ++ [x]).
Proof.
  intros Hl Hx i y d Hi Hd. apply lookup_app_Some in Hi as [Hi|[Hlen Hi]].
  - destruct (Hl _ _ _ Hi Hd) as (j & ? & ?). exists j.
    split; [done|]. by apply lookup_app_l_Some.
  - apply list_lookup_singleton_Some in Hi as [Hi0 <-].
    destruct (list_elem_of_lookup_1 _ _ (Hx _ Hd)) as [j Hj].
    exists j. pose proof (lookup_lt_Some _ _ _ Hj).
    split; [lia|]. by apply lookup_app_l_Some.
Qed.

(** ** The search: [_visit] *)

Record dfs_inv specs (st : Dfs) : Prop := {
  inv_nodup : NoDup (order st);
  inv_set : forall x, x ∈ order st <-> x ∈ visited st;
  inv_disjoint : forall x, x ∈ visited st -> x ∉ visiting st;
  inv_ordered : ordered_by specs (order st);
  inv_mentioned : visiting st ⊆ mentioned specs
}.

(** What a completed search adds. *)
Definition dfs_grows specs (st st' : Dfs) : Prop :=
  dfs_inv specs st' /\ visiting st' = visiting st /\ visited st ⊆ visited st' /\
  (forall x, x ∈ visited st' -> x ∈ visited st \/ x ∈ mentioned specs).

Lemma dfs_grows_refl specs st : dfs_inv specs st -> dfs_grows specs st st.
Proof. unfold dfs_grows. intuition set_solver. Qed.

Lemma dfs_grows_trans specs s1 s2 s3 :
  dfs_grows specs s1 s2 -> dfs_grows specs s2 s3 -> dfs_grows specs s1 s3.
Proof.
  intros (? & H1 & ? & Hv1) (? & H2 & ? & Hv2).
  split_and!; [done|congruence|set_solver|]. intros x Hx.
  destruct (Hv2 _ Hx); [by apply Hv1|by right].
Qed.

Definition dfs_post specs (names : list string) (st : Dfs) (r : res exn unit) (st' : Dfs) : Prop :=
  match r with
  | Ok _ => dfs_grows specs st st' /\ (forall x, x ∈ names -> x ∈ visited st')
  | Err e => exn_class e = ValueError /\ exists x, tc (dep specs) x x
  end.

Definition visit_spec specs fuel : Prop := forall name st,
  dfs_inv specs st -> name ∈ mentioned specs ->
  (forall v, v ∈ visiting st -> tc (dep specs) v name) ->
  size (mentioned specs ∖ visiting st) < fuel ->
  exists r st', _visit fuel specs name st = Some (r, st') /\ dfs_post specs [name] st r st'.

Lemma visit_all specs fuel names st :
  visit_spec specs fuel -> dfs_inv specs st ->
  (forall n, n ∈ names -> n ∈ mentioned specs) ->
  (forall n v, n ∈ names -> v ∈ visiting st -> tc (dep specs) v n) ->
  size (mentioned specs ∖ visiting st) < fuel ->
  exists r st', piter (_visit fuel specs) names st = Some (r, st') /\
    dfs_post specs names st r st'.
Proof.
  intros Hv. revert st. induction names as [|n names IH]; intros st Hst Hm Hreach Hf.
  - eexists _, _; split; [reflexivity|]. split; [by apply dfs_grows_refl|set_solver].
  - destruct (Hv n st) as (r & st1 & H1 & Hp); [done|set_solver| |done|].
    { intros v ?. apply Hreach; [set_solver|done]. }
    unfold piter in *. cbn [pfold]. unfold mbind, prog_bind. rewrite H1.
    destruct r as [[]|e]; [|by eexists _, _].
    destruct Hp as [Hg Hn]. pose proof Hg as (Hi1 & Hvis & ? & _).
    destruct (IH st1) as (r & st2 & H2 & Hp2); [done|set_solver| |by rewrite Hvis|].
    { intros m v ??. rewrite Hvis in *. apply Hreach; [set_solver|done]. }
    rewrite H2. eexists _, _; split; [done|]. destruct r; [|done].
    destruct Hp2 as [Hg2 Hn2]. pose proof Hg2 as (_ & _ & ? & _).
    split; [by eapply dfs_grows_trans|]. intros x Hx.
    apply elem_of_cons in Hx as [->|Hx]; [set_solver|by apply Hn2].
Qed.

Lemma enter_inv specs st name :
  dfs_inv specs st -> name ∈ mentioned specs -> name ∉ visited st -> name ∉ visiting st ->
  dfs_inv specs {| visited := visited st; visiting := {[name]} ∪ visiting st;
                   order := order st |}.
Proof. intros [] ???. constructor; simpl; set_solver. Qed.

Lemma leave_grows specs st st1 name :
  dfs_inv specs st -> name ∈ mentioned specs -> name ∉ visiting st -> name ∉ visited st ->
  dfs_grows specs {| visited := visited st; visiting := {[name]} ∪ visiting st;
                     order := order st |} st1 ->
  (forall d, dep specs name d -> d ∈ visited st1) ->
  dfs_grows specs st {| visited := {[name]} ∪ visited st1;
                        visiting := visiting st1 ∖ {[name]};
                        order := order st1 ++ [name] |}.
Proof.
  intros Hst Hm Hng Hnv ([Hnd Hset Hdis Hord Hmen] & Hvis & Hsub & Hnew) Hd.
  cbn [visited visiting order] in *.
  assert (name ∉ visited st1) as Hn1.
  { intros Hin. apply (Hdis _ Hin). rewrite Hvis. set_solver. }
  split_and!; cbn [visited visiting order].
  - constructor; cbn [visited visiting order].
    + apply NoDup_app. split_and!; [done| |apply NoDup_singleton].
      intros x Hx. apply Hset in Hx. set_solver.
    + intros x. rewrite elem_of_app, Hset. set_solver.
    + set_solver.
    + apply ordered_snoc; [done|]. intros d Hdd. by apply Hset, Hd.
    + set_solver.
  - rewrite Hvis. set_solver.
  - set_solver.
  - set_solver.
Qed.

Lemma visiting_measure (M V : gset string) name n :
  name ∈ M -> name ∉ V -> size (M ∖ V) < Datatypes.S n -> size (M ∖ ({[name]} ∪ V)) < n.
Proof.
  intros Hm Hv Hlt.
  assert (size (M ∖ ({[name]} ∪ V)) < size (M ∖ V)); [|lia].
  apply subset_size. split; [set_solver|]. intros H.
  assert (name ∈ M ∖ V) as Hin by set_solver. apply H in Hin. set_solver.
Qed.

Lemma visit_correct specs fuel : visit_spec specs fuel.
Proof.
  induction fuel as [|n IH]; intros name st Hst Hm Hreach Hf; [lia|].
  cbn [_visit]. unfold mbind, prog_bind, pget.
  case_bool_decide as Hv.
  { eexists _, _; split; [reflexivity|]. split; [by apply dfs_grows_refl|set_solver]. }
  case_bool_decide as Hg.
  { eexists _, _; split; [reflexivity|]. split; [done|]. exists name. by apply Hreach. }
  unfold pmodify at 1.
  set (st0 := {| visited := visited st; visiting := {[name]} ∪ visiting st;
                 order := order st |}).
  assert (dfs_inv specs st0) as Hst0 by by apply enter_inv.
  destruct (od_get specs name) as [s|] eqn:Hs; cbn [pmodify mret prog_ret].
  - destruct (visit_all specs n (cs_depends_on s) st0) as (r & st1 & H1 & Hp); try done.
    + intros d Hd. apply (dep_mentioned specs name). by exists s.
    + intros d v Hd Hvd. assert (dep specs name d) as Hdep by by exists s.
      cbn [visiting st0] in Hvd. apply elem_of_union in Hvd as [->%elem_of_singleton|Hvd].
      * by constructor.
      * eapply tc_r; [by apply Hreach|done].
    + by apply visiting_measure.
    + rewrite H1. destruct r as [[]|e]; [|by eexists _, _].
      destruct Hp as [Hgr Hall]. eexists _, _; split; [reflexivity|].
      split; [|set_solver]. eapply leave_grows; eauto.
      intros d (s' & Hs' & Hd). rewrite Hs in Hs'. simplify_eq. by apply Hall.
  - eexists _, _; split; [reflexivity|]. split; [|cbn; set_solver].
    eapply (leave_grows specs st st0); eauto; [by apply dfs_grows_refl|].
    intros d (s' & Hs' & _). by rewrite Hs in Hs'.
Qed.

Lemma resolve_cases specs :
  (exists l, _resolve_order specs = Some (Ok l) /\ NoDup l /\ ordered_by specs l /\
     (forall x, x ∈ od_keys specs -> x ∈ l) /\ (forall x, x ∈ l -> x ∈ mentioned specs)) \/
  (exists e, _resolve_order specs = Some (Err e) /\ exn_class e = ValueError /\
     ~ acyclic specs).
Proof.
  unfold _resolve_order.
  destruct (visit_all specs (depth_fuel ∅ specs) (od_keys specs)
              {| visited := ∅; visiting := ∅; order := [] |}) as (r & st & Hr & Hp).
  - apply visit_correct.
  - constructor; cbn; try set_solver; [constructor|]. by intros i x d.
  - intros; by apply key_mentioned.
  - set_solver.
  - unfold depth_fuel. cbn [visiting].
    assert (size (mentioned specs ∖ ∅) <= size (∅ ∪ mentioned specs)); [|lia].
    apply subseteq_size. set_solver.
  - rewrite Hr. cbn. destruct r as [[]|e].
    + left. destruct Hp as ((Hi & _ & _ & Hnew) & Hall). exists (order st).
      destruct Hi as [Hnd Hset _ Hord _]. split_and!; [done..| |].
      * intros x Hx. by apply Hset, Hall.
      * intros x Hx. apply Hset, Hnew in Hx as [?|?]; [cbn in *; set_solver|done].
    + right. exists e. destruct Hp as [? [x Hx]]. split_and!; [done..|]. intros Hac.
      by apply (Hac x).
Qed.

(** C5: Dependency resolution always terminates and decides acyclicity:
    without a dependency cycle it returns every registered name (and no name
    the registry does not mention) exactly once, each after all its
    dependencies; with a cycle it raises [ValueError]. *)
Theorem resolve_order_correct specs :
  (acyclic specs /\ exists l, _resolve_order specs = Some (Ok l) /\ NoDup l /\
     ordered_by specs l /\ (forall x, x ∈ od_keys specs -> x ∈ l) /\
     (forall x, x ∈ l -> x ∈ mentioned specs)) \/
  (~ acyclic specs /\ exists e, _resolve_order specs = Some (Err e) /\
     exn_class e = ValueError).
Proof.
  destruct (resolve_cases specs) as [(l & H & Hnd & Hord & Hkeys & Hm)|(e & H & He & Hc)].
  - left. split; [by eapply ordered_acyclic|]. by exists l.
  - right. split; [done|]. by exists e.
Qed.
End dfs.

(** ** The transitive closure: [_expand] *)
Section expand.
Context {W : Type}.
Implicit Types specs : list (string * CheckSpec W).

Definition expand_post specs (names : list string) (N N' : gset string) : Prop :=
  N ⊆ N' /\ (forall n, n ∈ names -> n ∈ N') /\
  forall x, x ∈ N' -> x ∈ N \/
    (exists n, n ∈ names /\ rtc (dep specs) n x) /\ (forall d, dep specs x d -> d ∈ N').

Definition expand_spec specs (M : gset string) fuel : Prop := forall name N,
  name ∈ M -> size (M ∖ N) < fuel ->
  exists N', _expand fuel specs name N = Some (Ok tt, N') /\ expand_post specs [name] N N'.

Lemma expand_all specs M fuel names N :
  expand_spec specs M fuel -> (forall n, n ∈ names -> n ∈ M) -> size (M ∖ N) < fuel ->
  exists N', piter (_expand fuel specs) names N = Some (Ok tt, N') /\
    expand_post specs names N N'.
Proof.
  intros He. revert N. induction names as [|n names IH]; intros N Hm Hf.
  - exists N. split; [done|]. split_and!; set_solver.
  - destruct (He n N) as (N1 & H1 & Hs1 & Hn1 & Hx1); [set_solver|done|].
    destruct (IH N1) as (N2 & H2 & Hs2 & Hn2 & Hx2); [set_solver| |].
    { eapply Nat.le_lt_trans; [|exact Hf]. apply subseteq_size. set_solver. }
    exists N2. split.
    { unfold piter in *. cbn [pfold]. unfold mbind, prog_bind. by rewrite H1. }
    split_and!; [set_solver|set_solver|]. intros x Hx.
    destruct (Hx2 x Hx) as [Hx'|[(m & Hm' & Hr) Hd]].
    + destruct (Hx1 x Hx') as [?|[(m & Hm' & Hr) Hd]]; [by left|right].
      split; [exists m; set_solver|]. intros d Hdd. by apply Hs2, Hd.
    + right. split; [exists m; set_solver|done].
Qed.

Lemma expand_correct specs M fuel : mentioned specs ⊆ M -> expand_spec specs M fuel.
Proof.
  intros HM. induction fuel as [|n IH]; intros name N Hm Hf; [lia|].
  cbn [_expand]. unfold mbind, prog_bind, pget.
  case_bool_decide as Hin.
  { exists N. split; [done|]. split_and!; set_solver. }
  unfold pmodify. destruct (od_get specs name) as [s|] eqn:Hs.
  - destruct (expand_all specs M n (cs_depends_on s) ({[name]} ∪ N)) as (N' & H1 & Hsub & Hall & Hx).
    + done.
    + intros d Hd. apply HM, (dep_mentioned specs name). by exists s.
    + by apply visiting_measure.
    + exists N'. split; [done|].
      assert (forall d, dep specs name d -> d ∈ N') as Hname.
      { intros d (s' & Hs' & Hd). rewrite Hs in Hs'. simplify_eq. by apply Hall. }
      split_and!; [set_solver|set_solver|]. intros x Hx'.
      destruct (Hx x Hx') as [Hin'|[(d & Hd & Hr) Hc]].
      * apply elem_of_union in Hin' as [->%elem_of_singleton|?]; [right|by left].
        split; [|done]. exists name. split; [set_solver|constructor].
      * right. split; [|done]. exists name. split; [set_solver|].
        eapply rtc_l; [|done]. by exists s.
  - exists ({[name]} ∪ N). split; [done|]. split_and!; [set_solver|set_solver|].
    intros x Hx. apply elem_of_union in Hx as [->%elem_of_singleton|?]; [right|by left].
    split; [exists name; split; [set_solver|constructor]|].
    intros d (s & Hs' & _). by rewrite Hs in Hs'.
Qed.

(** [run_checks(only=names)] runs exactly the registered checks reachable
    from [names] through the dependencies, whatever order Python iterates its
    sets in; the expansion always terminates. *)
Lemma select_only_exact (iter : gset string -> list string) specs (only : gset string)
    (Hiter : forall X, iter X ≡ₚ elements X) :
  exists sel, select iter specs (Some only) = Some (Ok sel) /\
    forall n s, od_get sel n = Some s <->
      od_get specs n = Some s /\ exists o, o ∈ only /\ rtc (dep specs) o n.
Proof.
  assert (forall X x, x ∈ iter X <-> x ∈ X) as Hit.
  { intros X x. rewrite Hiter. apply elem_of_elements. }
  destruct (expand_all specs (only ∪ mentioned specs) (depth_fuel only specs) (iter only) ∅)
    as (N & HN & _ & Hall & Hx).
  - apply expand_correct. set_solver.
  - intros n Hn. apply Hit in Hn. set_solver.
  - unfold depth_fuel. apply Nat.lt_succ_r, subseteq_size. set_solver.
  - unfold select. rewrite HN. cbn. eexists; split; [done|]. intros n s.
    unfold restrict. rewrite od_get_select.
    assert (n ∈ iter N <-> exists o, o ∈ only /\ rtc (dep specs) o n) as Hn.
    { rewrite Hit. split.
      - intros Hn. destruct (Hx n Hn) as [?|[(o & Ho & Hr) _]]; [set_solver|].
        exists o. by rewrite Hit in Ho.
      - intros (o & Ho & Hr). apply Hit, Hall in Ho. clear -Hx Ho Hr.
        induction Hr as [|o m n Hd _ IH]; [done|]. apply IH.
        destruct (Hx o Ho) as [?|[_ Hc]]; [set_solver|by apply Hc]. }
    case_decide as Hd; rewrite Hn in Hd; naive_solver.
Qed.
End expand.

(** ** The run loop *)
Section run.
Context {W : Type}.
Implicit Types specs : list (string * CheckSpec W).

Definition has_failed (results : list CheckResult) (d : string) : Prop :=
  exists r, r ∈ results /\ cr_name r = d /\ cr_status r <> PASS.

(** The specification of a run, as a transition system over the results so far
    and the world: a check whose dependency did not pass is skipped without
    touching the world; any other check is executed and its outcome recorded,
    an exception counting as a failure. *)
Inductive run_step specs (sysroot name : string)
  : list CheckResult * W -> list CheckResult * W -> Prop :=
| step_skip rs w s ds :
    od_get specs name = Some s -> ds <> [] ->
    (forall d, d ∈ ds <-> d ∈ cs_depends_on s /\ has_failed rs d) ->
    run_step specs sysroot name (rs, w)
      (rs ++ [{| cr_name := name; cr_status := SKIP; cr_severity := cs_severity s;
                 cr_detail := [L "Skipped — dependency failed: "; L (S.join ", " ds)] |}], w)
| step_run rs w s passed detail w' :
    od_get specs name = Some s ->
    (forall d, d ∈ cs_depends_on s -> ~ has_failed rs d) ->
    cs_fn s sysroot w = Some (Ok (passed, detail), w') ->
    run_step specs sysroot name (rs, w)
      (rs ++ [{| cr_name := name; cr_status := if passed : bool then PASS else FAIL;
                 cr_severity := cs_severity s; cr_detail := detail |}], w')
| step_error rs w s e w' :
    od_get specs name = Some s ->
    (forall d, d ∈ cs_depends_on s -> ~ has_failed rs d) ->
    cs_fn s sysroot w = Some (Err e, w') -> subclass (exn_class e) Exception = true ->
    run_step specs sysroot name (rs, w)
      (rs ++ [{| cr_name := name; cr_status := FAIL; cr_severity := cs_severity s;
                 cr_detail := L "Unexpected error: " :: exn_msg e |}], w').

Inductive run_steps specs (sysroot : string)
  : list string -> list CheckResult * W -> list CheckResult * W -> Prop :=
| steps_nil c : run_steps specs sysroot [] c c
| steps_cons n ns c c' c'' :
    run_step specs sysroot n c c' -> run_steps specs sysroot ns c' c'' ->
    run_steps specs sysroot (n :: ns) c c''.

(** A check that terminates and lets only [Exception]s escape. *)
Definition fn_behaved (sysroot : string) (s : CheckSpec W) : Prop :=
  forall w, exists r w', cs_fn s sysroot w = Some (r, w') /\
    match r with Ok _ => True | Err e => subclass (exn_class e) Exception = true end.

Definition acc_ok (acc : list CheckResult * gset string) : Prop :=
  forall d, d ∈ acc.2 <-> has_failed acc.1 d.

Lemma has_failed_snoc rs r d :
  has_failed (rs ++ [r]) d <-> has_failed rs d \/ (cr_name r = d /\ cr_status r <> PASS).
Proof. unfold has_failed. set_solver. Qed.

Lemma run_one_refines specs sysroot acc name w s :
  acc_ok acc -> od_get specs name = Some s -> fn_behaved sysroot s ->
  exists acc' w', run_one specs sysroot acc name w = Some (Ok acc', w') /\ acc_ok acc' /\
    run_step specs sysroot name (acc.1, w) (acc'.1, w').
Proof.
  destruct acc as [rs failed]. intros Hacc Hs Hfn. unfold run_one. rewrite Hs.
  destruct (filter (λ d, d ∈ failed) (cs_depends_on s)) as [|d ds] eqn:Hf.
  - assert (forall d, d ∈ cs_depends_on s -> ~ has_failed rs d) as Hno.
    { intros d Hd Hfd. apply Hacc in Hfd. cbn in Hfd.
      assert (d ∈ filter (λ d, d ∈ failed) (cs_depends_on s)) as H
        by by apply list_elem_of_filter.
      rewrite Hf in H. set_solver. }
    destruct (Hfn w) as (r & w' & Hr & Hexc). unfold mbind, prog_bind, pexcept, pcatch.
    rewrite Hr. destruct r as [[passed detail]|e].
    + eexists _, w'. split; [done|]. split; [|by econstructor].
      intros d. cbn [fst snd]. rewrite has_failed_snoc, <- (Hacc d). cbn [fst snd cr_name cr_status].
      destruct passed; set_solver.
    + unfold caught_by. cbn [existsb]. rewrite Hexc. eexists _, w'.
      split; [done|]. split; [|by eapply step_error].
      intros d. cbn [fst snd]. rewrite has_failed_snoc, <- (Hacc d). cbn [fst snd cr_name cr_status].
      set_solver.
  - eexists _, w. split; [done|]. split.
    + intros x. cbn [fst snd]. rewrite has_failed_snoc, <- (Hacc x). cbn [fst snd cr_name cr_status].
      set_solver.
    + apply step_skip; [done|done|]. intros x. rewrite <- Hf, list_elem_of_filter, <- (Hacc x).
      cbn. tauto.
Qed.

Definition closed specs : Prop := forall x d, dep specs x d -> is_Some (od_get specs d).

Definition fns_behaved specs (sysroot : string) : Prop :=
  forall n s, od_get specs n = Some s -> fn_behaved sysroot s.

Lemma run_all_refines specs sysroot names acc w :
  acc_ok acc -> fns_behaved specs sysroot ->
  (forall n, n ∈ names -> is_Some (od_get specs n)) ->
  exists acc' w', pfold (run_one specs sysroot) acc names w = Some (Ok acc', w') /\
    run_steps specs sysroot names (acc.1, w) (acc'.1, w').
Proof.
  intros Hacc Hfn. revert acc w Hacc. induction names as [|n names IH]; intros acc w Hacc Hin.
  - exists acc, w. split; [done|constructor].
  - destruct (Hin n) as [s Hs]; [set_solver|].
    destruct (run_one_refines specs sysroot acc n w s) as (acc1 & w1 & H1 & Hacc1 & Hst);
      [done|done|by eapply Hfn|].
    destruct (IH acc1 w1) as (acc2 & w2 & H2 & Hsts); [done|set_solver|].
    exists acc2, w2. cbn [pfold]. unfold mbind, prog_bind. rewrite H1.
    split; [done|by econstructor].
Qed.

Lemma run_step_name specs sysroot n c c' :
  run_step specs sysroot n c c' -> map cr_name c'.1 = map cr_name c.1 ++ [n].
Proof. destruct 1; cbn [fst]; by rewrite map_app. Qed.

Lemma run_steps_names specs sysroot ns c c' :
  run_steps specs sysroot ns c c' -> map cr_name c'.1 = map cr_name c.1 ++ ns.
Proof.
  induction 1 as [c|n ns c c1 c2 Hs _ IH]; [by rewrite app_nil_r|].
  rewrite IH, (run_step_name _ _ _ _ _ Hs), <- app_assoc. done.
Qed.

Lemma acc_ok_nil : acc_ok ([], ∅).
Proof. intros d. unfold has_failed. set_solver. Qed.

Lemma run_checks_all iter sysroot specs l (w : W) :
  _resolve_order specs = Some (Ok l) ->
  run_checks iter sysroot None specs w =
  match pfold (run_one specs sysroot) ([], ∅) l w with
  | Some (Ok acc, w') => Some (Ok acc.1, w')
  | Some (Err e, w') => Some (Err e, w')
  | None => None
  end.
Proof.
  intros Hl. unfold run_checks. cbn [select mbind option_bind]. rewrite Hl.
  cbn [mbind option_bind]. unfold mbind, prog_bind.
  by destruct (pfold _ _ _ _) as [[[[rs f]|e] w']|].
Qed.

Lemma acyclic_resolves specs :
  acyclic specs -> exists l, _resolve_order specs = Some (Ok l) /\ NoDup l /\
    ordered_by specs l /\ (forall x, x ∈ od_keys specs -> x ∈ l) /\
    (forall x, x ∈ l -> x ∈ mentioned specs).
Proof. intros Hac. destruct (resolve_cases specs) as [?|(e & _ & _ & ?)]; [done|tauto]. Qed.

Lemma mentioned_cases specs x :
  NoDup (od_keys specs) -> x ∈ mentioned specs ->
  x ∈ od_keys specs \/ exists y, dep specs y x.
Proof.
  intros Hnd. unfold mentioned. rewrite elem_of_list_to_set, elem_of_app.
  intros [?|Hx]; [by left|right]. apply list_elem_of_In, in_concat in Hx as (l & Hl & Hx).
  apply list_elem_of_In, list_elem_of_fmap in Hl as ([y s] & -> & Hy).
  exists y, s. split; [by apply od_get_nodup|by apply list_elem_of_In].
Qed.

(** C6: A run over a registry whose dependencies are registered and acyclic,
    with checks that return or raise [Exception]s, terminates normally, reports
    every registered check exactly once and each after its dependencies, and
    refines the transition system [run_step]: a check is skipped, without being
    called, exactly when a dependency's own result is not a pass, and called
    exactly once otherwise. *)
Theorem run_checks_refines iter sysroot (reg : list (string * CheckSpec W)) (w : W)
    (Hnd : NoDup (od_keys reg)) (Hcl : closed reg) (Hac : acyclic reg)
    (Hfn : fns_behaved reg sysroot) :
  exists results w',
    run_checks iter sysroot None reg w = Some (Ok results, w') /\
    map cr_name results ≡ₚ od_keys reg /\
    ordered_by reg (map cr_name results) /\
    run_steps reg sysroot (map cr_name results) ([], w) (results, w').
Proof.
  destruct (acyclic_resolves reg Hac) as (l & Hl & Hndl & Hord & Hkeys & Hm).
  assert (forall n, n ∈ l -> n ∈ od_keys reg) as Hlk.
  { intros n Hn. destruct (mentioned_cases reg n Hnd (Hm _ Hn)) as [?|[y Hy]]; [done|].
    apply od_get_some_key. by eapply Hcl. }
  destruct (run_all_refines reg sysroot l ([], ∅) w acc_ok_nil Hfn) as ([rs f] & w' & H & Hst).
  { intros n Hn. apply od_get_some_key. auto. }
  pose proof (run_steps_names _ _ _ _ _ Hst) as Hnames. cbn [fst map app] in Hnames.
  exists rs, w'. rewrite Hnames. split_and!; [|apply NoDup_Permutation; naive_solver|done|done].
  by rewrite (run_checks_all _ _ _ l), H.
Qed.

(** The resolver tolerates a dependency that is not registered, the run
    loop does not: such a registry makes [run_checks] raise [KeyError] instead
    of returning results. *)
Lemma run_checks_missing_dep iter sysroot (reg : list (string * CheckSpec W)) (w : W) x d
    (Hx : dep reg x d) (Hd : od_get reg d = None) (Hac : acyclic reg)
    (Hfn : fns_behaved reg sysroot) :
  exists e w', run_checks iter sysroot None reg w = Some (Err e, w') /\ exn_class e = KeyError.
Proof.
  destruct (acyclic_resolves reg Hac) as (l & Hl & Hndl & Hord & Hkeys & Hm).
  assert (d ∈ l) as Hdl.
  { assert (x ∈ l) as Hxl.
    { apply Hkeys, od_get_some_key. destruct Hx as (s & Hs & _). by exists s. }
    apply list_elem_of_lookup_1 in Hxl as [i Hi].
    destruct (Hord _ _ _ Hi Hx) as (j & _ & Hj). by eapply list_elem_of_lookup_2. }
  assert (exists e w', pfold (run_one reg sysroot) ([], ∅) l w = Some (Err e, w') /\
            exn_class e = KeyError) as (e & w' & H & He).
  { assert (acc_ok ([], ∅)) as Hacc by apply acc_ok_nil. revert Hacc.
    generalize ([] : list CheckResult, ∅ : gset string). clear -Hdl Hd Hfn. revert w.
    induction l as [|n l IH]; intros w acc Hacc; [set_solver|].
    cbn [pfold]. unfold mbind, prog_bind. destruct (od_get reg n) as [s|] eqn:Hs.
    - destruct (run_one_refines reg sysroot acc n w s) as (acc1 & w1 & H1 & Hacc1 & _);
        [done|done|by eapply Hfn|]. rewrite H1. apply IH; [|done].
      apply elem_of_cons in Hdl as [->|?]; [congruence|done].
    - destruct acc as [rs f]. cbn [run_one]. rewrite Hs. by eexists _, w. }
  exists e, w'. split; [|done]. by rewrite (run_checks_all _ _ _ l), H.
Qed.

End run.

(** ** The calls of a run

    The registry with every check instrumented: it behaves as before and logs its
    name and how it ended. *)
Section calls.
Context {W : Type}.
Implicit Types specs : list (string * CheckSpec W).

Definition Call : Type := (string * res exn (bool * FStr))%type.

Definition logged_spec (n : string) (s : CheckSpec W) : CheckSpec (W * list Call) :=
  {| cs_name := cs_name s; cs_severity := cs_severity s; cs_depends_on := cs_depends_on s;
     cs_fn sysroot wt := match cs_fn s sysroot wt.1 with
                         | Some (r, w') => Some (r, (w', wt.2 ++ [(n, r)]))
                         | None => None
                         end |}.

Definition logged specs : list (string * CheckSpec (W * list Call)) :=
  map (fun kv => (kv.1, logged_spec kv.1 kv.2)) specs.

Lemma logged_get specs n : od_get (logged specs) n = logged_spec n <$> od_get specs n.
Proof. induction specs as [|[k s] specs IH]; cbn; [done|]. case_decide; [by subst|done]. Qed.

Lemma logged_keys specs : od_keys (logged specs) = od_keys specs.
Proof. unfold od_keys, logged. by rewrite map_map. Qed.

(** One round adds one result, and at most one call, of that check. *)
Lemma run_one_calls specs sysroot acc n w t acc' w' t' :
  run_one (logged specs) sysroot acc n (w, t) = Some (Ok acc', (w', t')) ->
  exists s r cs, od_get specs n = Some s /\ acc'.1 = acc.1 ++ [r] /\ cr_severity r = cs_severity s /\
    t' = t ++ cs /\ map fst cs `sublist_of` [n] /\
    (cr_status r = PASS -> exists detail, cs = [(n, Ok (true, detail))] /\
       cs_fn s sysroot w = Some (Ok (true, detail), w')).
Proof.
  destruct acc as [rs failed]. unfold run_one. rewrite logged_get.
  destruct (od_get specs n) as [s|]; cbn [fmap option_fmap option_map]; [|done].
  intros H. exists s. cbn [logged_spec cs_depends_on cs_severity cs_fn] in *.
  destruct (filter (λ d, d ∈ failed) (cs_depends_on s)) as [|d ds].
  - unfold mbind, prog_bind, pexcept, pcatch in *. cbn [fst snd] in *.
    destruct (cs_fn s sysroot w) as [[[[passed detail]|e] w1]|] eqn:Hr; [| |done].
    + injection H as <- <- <-. eexists _, [_]. split_and!; try done. cbn. destruct passed; [|done].
      intros _. by exists detail.
    + destruct (caught_by [Exception] e); [|done]. injection H as <- <- <-. eexists _, [_].
      by split_and!.
  - injection H as <- <- <-. eexists _, []. rewrite app_nil_r. split_and!; try done. apply sublist_nil_l.
Qed.

Lemma run_all_calls specs sysroot names acc w t acc' w' t' :
  pfold (run_one (logged specs) sysroot) acc names (w, t) = Some (Ok acc', (w', t')) ->
  exists rs cs, acc'.1 = acc.1 ++ rs /\ t' = t ++ cs /\ map fst cs `sublist_of` names /\
    forall n, n ∈ names -> exists s r, od_get specs n = Some s /\ r ∈ rs /\ cr_severity r = cs_severity s /\
      (cr_status r = PASS -> exists detail w1 w2, (n, Ok (true, detail)) ∈ cs /\
         cs_fn s sysroot w1 = Some (Ok (true, detail), w2)).
Proof.
  revert acc w t. induction names as [|m names IH]; intros acc w t H; cbn [pfold] in H.
  - injection H as <- <- <-. exists [], []. rewrite !app_nil_r. split_and!; [done..|constructor|set_solver].
  - apply pbind_ok_inv in H as (acc1 & [w1 t1] & H1 & H).
    apply run_one_calls in H1 as (s & r & cs1 & Hs & Hr & Hsev & -> & Hsub & Hp).
    apply IH in H as (rs & cs & Hrs & -> & Hsub' & Hall).
    exists (r :: rs), (cs1 ++ cs). rewrite Hrs, Hr, <- !app_assoc. split_and!; [done..| |].
    + rewrite map_app. change (m :: names) with ([m] ++ names). by apply sublist_app.
    + intros n [->|Hn]%elem_of_cons.
      * exists s, r. split_and!; [done|left|done|]. intros (d & -> & Hf)%Hp. exists d, w, w1.
        split; [left|done].
      * destruct (Hall n Hn) as (s' & r' & ? & ? & ? & Hp'). exists s', r'. split_and!; [done|by right|done|].
        intros (d & w2 & w3 & ? & ?)%Hp'. exists d, w2, w3. split; [set_solver|done].
Qed.

Lemma exit_code_zero results :
  derive_exit_code results = 0%Z ->
  forall r, r ∈ results -> cr_severity r <> INFO -> cr_status r = PASS.
Proof.
  unfold derive_exit_code. destruct (existsb (not_passed CRITICAL) results) eqn:H2; [done|].
  destruct (existsb (not_passed WARNING) results) eqn:H1; [done|]. intros _ r Hr Hs.
  apply not_true_iff_false in H1, H2.
  assert (forall sev, existsb (not_passed sev) results <> true -> cr_severity r = sev ->
            cr_status r = PASS) as Hall.
  { intros sev Hne Hsev. destruct (cr_status r) eqn:Hst; [done|..]; destruct Hne;
      apply existsb_exists; exists r; (split; [by apply list_elem_of_In|]);
      unfold not_passed; rewrite Hst, Hsev; by destruct sev. }
  destruct (cr_severity r) eqn:?; eauto.
Qed.

(** C31: Exit code 0 is trustworthy: when a run over the whole registry, its
    checks instrumented to log their calls, returns results whose exit code is 0,
    then every registered check of severity CRITICAL or WARNING was called exactly
    once during that run, and that call returned a pass. *)
Theorem exit_zero_means_passed iter sysroot (reg : list (string * CheckSpec W)) w results w' calls n s
    (Hrun : run_checks iter sysroot None (logged reg) (w, []) = Some (Ok results, (w', calls)))
    (Hexit : derive_exit_code results = 0%Z)
    (Hreg : od_get reg n = Some s) (Hsev : cs_severity s <> INFO) :
  exists before after detail w1 w2, calls = (before ++ (n, Ok (true, detail)) :: after) /\
    (n ∉ map fst (before ++ after)) /\ cs_fn s sysroot w1 = Some (Ok (true, detail), w2).
Proof.
  destruct (resolve_cases (logged reg)) as [(l & Hl & Hnd & _ & Hkeys & _)|(e & He & _)].
  - rewrite (run_checks_all _ _ _ l) in Hrun by done.
    destruct (pfold _ _ _ _) as [[[acc|e] w1]|] eqn:Hp; simplify_eq.
    apply run_all_calls in Hp as (rs & cs & Hrs & -> & Hsub & Hall). cbn [fst app] in *.
    destruct (Hall n) as (s' & r & Hs & Hr & Hsv & Hcall).
    { apply Hkeys. rewrite logged_keys. apply od_get_some_key. by exists s. }
    rewrite Hreg in Hs. injection Hs as <-. rewrite Hrs in Hexit.
    destruct Hcall as (d & w1 & w2 & Hin & Hfn); [eapply exit_code_zero; [done..|congruence]|].
    apply list_elem_of_split in Hin as (before & after & ->). exists before, after, d, w1, w2.
    split_and!; [done| |done].
    apply (sublist_NoDup _ _ Hnd) in Hsub. rewrite map_app in Hsub |- *. cbn [map fst] in Hsub.
    apply NoDup_app in Hsub as (_ & Hb & [Ha _]%NoDup_cons). rewrite elem_of_app.
    intros [Hin|Hin]; [apply (Hb _ Hin); left|done].
  - unfold run_checks in Hrun. cbn [select mbind option_bind] in Hrun.
    by rewrite He in Hrun.
Qed.
End calls.

(** ** A concrete registry *)
Section checks.
Context {W : Type}.

Lemma resolves_acyclic (specs : list (string * CheckSpec W)) l :
  _resolve_order specs = Some (Ok l) -> acyclic specs.
Proof.
  intros H. destruct (resolve_cases specs) as [(l' & _ & Hnd & Hord & Hkeys & _)|(e & He & _)].
  - by eapply ordered_acyclic.
  - by rewrite H in He.
Qed.

Definition closed_b (specs : list (string * CheckSpec W)) : bool :=
  forallb (fun kv => forallb (fun d => bool_decide (d ∈ od_keys specs)) (cs_depends_on kv.2)) specs.

Lemma closed_b_sound specs : closed_b specs = true -> closed specs.
Proof.
  unfold closed_b. rewrite forallb_forall. intros H x d (s & Hs & Hd).
  apply od_get_elem, list_elem_of_In in Hs. specialize (H _ Hs).
  rewrite forallb_forall in H. apply od_get_some_key, (bool_decide_unpack _).
  by apply Is_true_true, H, list_elem_of_In.
Qed.
End checks.

(** A check that logs its name and returns [passed]. *)
Definition log_check (name : string) (sev : Severity) (deps : list string) (passed : bool)
  : string * CheckSpec (list string) :=
  (name, {| cs_name := name; cs_severity := sev; cs_depends_on := deps;
            cs_fn _ w := Some (Ok (passed, [L name]), w ++ [name]) |}).

Definition demo_registry : list (string * CheckSpec (list string)) :=
  [log_check "vslam_process" CRITICAL ["oakd"] true;
   log_check "oakd" CRITICAL ["jetpack_version"] false;
   log_check "jetpack_version" CRITICAL [] true;
   log_check "thermal" WARNING ["jetpack_version"] true].

Lemma log_registry_behaved reg sysroot :
  (forall n s, od_get reg n = Some s -> exists n' sev deps p, (n, s) = log_check n' sev deps p) ->
  fns_behaved reg sysroot.
Proof.
  intros H n s Hs w. destruct (H n s Hs) as (n' & sev & deps & p & [= -> ->]).
  by eexists _, _.
Defined.

Ltac log_registry :=
  apply log_registry_behaved; intros n s Hs; apply od_get_elem in Hs;
  repeat (apply elem_of_cons in Hs as [->|Hs]; [by eexists _, _, _, _|]);
  by apply not_elem_of_nil in Hs.

Example demo_run :
  run_checks elements "/" None demo_registry [] =
  Some (Ok [{| cr_name := "jetpack_version"; cr_status := PASS; cr_severity := CRITICAL;
               cr_detail := [L "jetpack_version"] |};
            {| cr_name := "oakd"; cr_status := FAIL; cr_severity := CRITICAL;
               cr_detail := [L "oakd"] |};
            {| cr_name := "vslam_process"; cr_status := SKIP; cr_severity := CRITICAL;
               cr_detail := [L "Skipped — dependency failed: "; L "oakd"] |};
            {| cr_name := "thermal"; cr_status := PASS; cr_severity := WARNING;
               cr_detail := [L "thermal"] |}],
        ["jetpack_version"; "oakd"; "thermal"]).
Proof. vm_compute. reflexivity. Qed.

Lemma demo_acyclic : acyclic demo_registry.
Proof. eapply resolves_acyclic. vm_compute. reflexivity. Qed.

Lemma run_checks_refines_witness :
  exists results w',
    run_checks elements "/" None demo_registry [] = Some (Ok results, w') /\
    map cr_name results ≡ₚ od_keys demo_registry /\
    ordered_by demo_registry (map cr_name results) /\
    run_steps demo_registry "/" (map cr_name results) ([], []) (results, w').
Proof.
  apply run_checks_refines.
  - apply (bool_decide_unpack _). vm_compute. exact I.
  - apply closed_b_sound. vm_compute. reflexivity.
  - exact demo_acyclic.
  - unfold demo_registry. log_registry.
Defined.

Definition dangling_registry := [log_check "thermal" WARNING ["jetpack_version"] true].

Lemma run_checks_missing_dep_witness :
  exists e w', run_checks elements "/" None dangling_registry [] = Some (Err e, w') /\
    exn_class e = KeyError.
Proof.
  apply (run_checks_missing_dep elements "/" dangling_registry [] "thermal" "jetpack_version").
  - eexists. split; [reflexivity|]. vm_compute. constructor.
  - reflexivity.
  - eapply resolves_acyclic. vm_compute. reflexivity.
  - unfold dangling_registry. log_registry.
Defined.

Lemma select_only_exact_witness :
  exists sel, select elements demo_registry (Some {["vslam_process"]}) = Some (Ok sel) /\
    forall n s, od_get sel n = Some s <->
      od_get demo_registry n = Some s /\
      exists o, o ∈ ({["vslam_process"]} : gset string) /\ rtc (dep demo_registry) o n.
Proof. apply select_only_exact. intros X. reflexivity. Defined.

Definition passing_registry :=
  [log_check "jetpack_version" CRITICAL [] true; log_check "cuda" CRITICAL ["jetpack_version"] true].

Lemma exit_zero_means_passed_witness :
  exists before after detail w1 w2,
    [("jetpack_version", Ok (true, [L "jetpack_version"])); ("cuda", Ok (true, [L "cuda"]))]
      = (before ++ ("cuda", Ok (true, detail) : res exn (bool * FStr)) :: after) /\
    ("cuda" ∉ map fst (before ++ after)) /\
    cs_fn (snd (log_check "cuda" CRITICAL ["jetpack_version"] true)) "/" w1
      = Some (Ok (true, detail), w2).
Proof.
  eapply (exit_zero_means_passed elements "/" passing_registry [] _ _ _ "cuda").
  - vm_compute. reflexivity.
  - vm_compute. reflexivity.
  - reflexivity.
  - discriminate.
Defined.
