(* ===== verification/Link.v ===== *)
(** * The MAVLink link

    The interface the code has to pymavlink: [conn.recv_match], the
    [conn.mav.*_send] calls, and the clock and [sleep] of the loops that wait
    for answers.  pymavlink and the vehicle are outside the repository; their
    behaviour is whatever instance of [Link] a theorem quantifies over.

    Clock readings and durations are integers, in nanoseconds ([sec],
    [ms]).  Every send of
    the code addresses [conn.target_system], [conn.target_component]; the pair
    is left out of [Send]. *)

From stdpp Require Import base sets list strings option.
From Stdlib Require Import ZArith Lia.
From S2P Require Import Prelude Float64 PyVal.
Local Open Scope Z_scope.

(** MAVLink MISSION_ITEM_INT representation (mavlink/mission.py). *)
Module MI.
Record MissionItem : Type := {
  seq : Z; frame : Z; command : Z;
  param1 : float; param2 : float; param3 : float; param4 : float;
  x : Z; y : Z; z : float;
  mission_type : Z; autocontinue : Z; current : Z
}.
End MI.
Abbreviation MissionItem := MI.MissionItem.

(** A received message.  The mission and parameter protocols have their fields
    typed; any other message carries its fields by name. *)
Inductive Msg : Type :=
| MISSION_REQUEST_INT (rseq : Z)
| MISSION_REQUEST (rseq : Z)
| MISSION_ACK (type mtype : Z)
| MISSION_COUNT (count mtype : Z)
| MISSION_ITEM_INT (item : MissionItem)
| PARAM_VALUE (param_id : string) (param_value : float) (param_count : Z)
| MESSAGE (type : string) (fields : list (string * PyVal)).

Definition get_type (m : Msg) : string :=
  match m with
  | MISSION_REQUEST_INT _ => "MISSION_REQUEST_INT"
  | MISSION_REQUEST _ => "MISSION_REQUEST"
  | MISSION_ACK _ _ => "MISSION_ACK"
  | MISSION_COUNT _ _ => "MISSION_COUNT"
  | MISSION_ITEM_INT _ => "MISSION_ITEM_INT"
  | PARAM_VALUE _ _ _ => "PARAM_VALUE"
  | MESSAGE ty _ => ty
  end.

Definition no_attr {A} (m : Msg) (a : string) : res exn A :=
  raise_ AttributeError [L "'"; L (get_type m); L "' object has no attribute '"; L a; L "'"].

(** [msg.a] and [getattr(msg, a, default)] of a message with named fields. *)
Definition attr (m : Msg) (a : string) : res exn PyVal :=
  match m with
  | MESSAGE _ fs => match od_get fs a with Some v => Ok v | None => no_attr m a end
  | _ => no_attr m a
  end.

Definition getattr (m : Msg) (a : string) (dflt : PyVal) : PyVal :=
  match m with
  | MESSAGE _ fs => default dflt (od_get fs a)
  | _ => dflt
  end.

(** What the code sends. *)
Inductive Send : Type :=
| mission_count_send (count mtype : Z)
| mission_item_int_send (item : MissionItem)
| mission_request_list_send (mtype : Z)
| mission_request_int_send (rseq mtype : Z)
| mission_ack_send (type mtype : Z)
| mission_clear_all_send (mtype : Z)
| mission_set_current_send (rseq : Z)
| param_request_list_send
| param_set_send (name : string) (value : float) (ptype : Z)
| command_long_send (cmd confirmation : Z) (params : list float)
| heartbeat_send (args : list Z)
| named_value_float_send (time_boot_ms : Z) (name : string) (value : float)
| statustext_send (severity : Z) (text : string)
| vision_send (kind : string) (kwargs : list (string * PyVal)).

Definition ms (n : Z) : Z := n * 1000000.
Definition sec (n : Z) : Z := n * 1000000000.

Class Link (W : Type) := {
  l_time : prog exn W Z;
  l_sleep : Z -> prog exn W unit;
  (** the types asked for ([[]] is any), and the timeout of a blocking call *)
  l_recv : list string -> option Z -> prog exn W (option Msg);
  l_send : Send -> prog exn W unit
}.

(** ** Tracing a link

    The same link with a log of what went over it, in order. *)
Inductive Event : Type :=
| Sent (s : Send)
| Got (m : Msg).

Section traced.
Context {W : Type} `{!Link W}.

Definition on_world {A} (m : prog exn W A) : prog exn (W * list Event) A :=
  fun wt => match m wt.1 with
            | Some (r, w') => Some (r, (w', wt.2))
            | None => None
            end.

Definition log (e : Event) : prog exn (W * list Event) unit :=
  fun wt => Some (Ok tt, (wt.1, wt.2 ++ [e])).

#[export] Instance traced : Link (W * list Event) := {
  l_time := on_world l_time;
  l_sleep d := on_world (l_sleep d);
  l_recv ts t :=
    r ← on_world (l_recv ts t);
    match r with
    | Some m => _ ← log (Got m); mret (Some m)
    | None => mret None
    end;
  l_send s := _ ← on_world (l_send s); log (Sent s)
}.
End traced.

(** ** What each operation does to the trace *)
Section rules.
Context {W : Type} `{!Link W}.
Implicit Types t : list Event.

Lemma on_world_trace {A} (m : prog exn W A) w t r w' t' :
  on_world m (w, t) = Some (r, (w', t')) -> t' = t /\ m w = Some (r, w').
Proof.
  unfold on_world; cbn [fst snd]. destruct (m w) as [[r1 w1]|]; [|done]. by intros [= <- <- <-].
Qed.

Lemma traced_time w t r w' t' : l_time (w, t) = Some (r, (w', t')) -> t' = t.
Proof. by intros [? _]%on_world_trace. Qed.

Lemma traced_sleep n w t r w' t' : l_sleep n (w, t) = Some (r, (w', t')) -> t' = t.
Proof. by intros [? _]%on_world_trace. Qed.

Lemma traced_recv ts tm w t o w' t' :
  l_recv ts tm (w, t) = Some (Ok o, (w', t')) ->
  t' = t ++ match o with Some m => [Got m] | None => [] end.
Proof.
  cbn [l_recv traced]. intros H. apply pbind_ok_inv in H as (o1 & [w1 t1] & H1 & H).
  apply on_world_trace in H1 as [-> _]. destruct o1 as [m|].
  - cbv [log mbind prog_bind mret prog_ret fst snd] in H. by simplify_eq.
  - cbv [mret prog_ret] in H. simplify_eq. by rewrite app_nil_r.
Qed.

Lemma traced_send s w t u w' t' :
  l_send s (w, t) = Some (Ok u, (w', t')) -> t' = t ++ [Sent s].
Proof.
  cbn [l_send traced]. intros H. apply pbind_ok_inv in H as (u1 & [w1 t1] & H1 & H).
  apply on_world_trace in H1 as [-> _]. cbv [log fst snd] in H. by simplify_eq.
Qed.
End rules.

(** ** What a program may put on the trace

    [grows P m]: however [m] ends, by a value or by an exception, the trace it
    leaves is the trace it found with events in [P] added. *)
Definition grows {W A} (P : Event -> Prop) (m : prog exn (W * list Event) A) : Prop :=
  forall wt r wt', m wt = Some (r, wt') -> exists d, wt'.2 = wt.2 ++ d /\ Forall P d.

Section grows.
Context {W : Type} `{!Link W}.
Implicit Types P : Event -> Prop.

Lemma grows_silent {A} P (m : prog exn (W * list Event) A) :
  (forall wt r wt', m wt = Some (r, wt') -> wt'.2 = wt.2) -> grows P m.
Proof. intros H wt r wt' Hm. exists []. rewrite app_nil_r. split; [by eapply H|constructor]. Qed.

Lemma grows_ret {A} P (a : A) : grows P (mret a : prog exn (W * list Event) A).
Proof. apply grows_silent. by intros wt r wt' [= _ <-]. Qed.

Lemma grows_lift {A} P (m : res exn A) : grows P (plift m : prog exn (W * list Event) A).
Proof. apply grows_silent. by intros wt r wt' [= _ <-]. Qed.

Lemma grows_on_world {A} P (m : prog exn W A) : grows P (on_world m).
Proof.
  apply grows_silent. intros [w t] r [w' t'] H. by apply on_world_trace in H as [-> _].
Qed.

Lemma grows_bind {A B} P (m : prog exn (W * list Event) A) (f : A -> prog exn (W * list Event) B) :
  grows P m -> (forall a, grows P (f a)) -> grows P (m ≫= f).
Proof.
  intros Hm Hf wt r wt' H. apply pbind_inv in H as [(e & -> & H)|(a & w1 & H1 & H2)].
  - by eapply Hm.
  - destruct (Hm _ _ _ H1) as (d1 & Ht1 & Hd1). destruct (Hf _ _ _ _ H2) as (d2 & Ht2 & Hd2).
    exists (d1 ++ d2). rewrite Ht2, Ht1, app_assoc. split; [done|by apply list.Forall_app].
Qed.

(** A pure step passes on that it returned its value. *)
Lemma grows_bind_lift {A B} P (m : res exn A) (f : A -> prog exn (W * list Event) B) :
  (forall a, m = Ok a -> grows P (f a)) -> grows P (plift m ≫= f).
Proof.
  intros Hf. destruct m as [a|e].
  - intros wt r wt' H. rewrite (pbind_step _ _ _ _ _ eq_refl) in H. by eapply (Hf a).
  - intros wt r wt' H. rewrite (pbind_err _ _ _ _ _ eq_refl) in H. by eapply (grows_lift P (Err e)).
Qed.

Lemma grows_time P : grows P (l_time (W := W * list Event)).
Proof. apply grows_on_world. Qed.

Lemma grows_sleep P d : grows P (l_sleep (W := W * list Event) d).
Proof. apply grows_on_world. Qed.

Lemma grows_log P e : P e -> grows P (@log W e).
Proof. intros He wt r wt' [= _ <-]. exists [e]. by repeat constructor. Qed.

Lemma grows_recv P ts tm : (forall m, P (Got m)) -> grows P (l_recv (W := W * list Event) ts tm).
Proof.
  intros HP. apply grows_bind; [apply grows_on_world|]. intros [m|]; [|apply grows_ret].
  apply grows_bind; [by apply grows_log|]. intros _. apply grows_ret.
Qed.

Lemma grows_send P s : P (Sent s) -> grows P (l_send (W := W * list Event) s).
Proof. intros HP. apply grows_bind; [apply grows_on_world|]. intros _. by apply grows_log. Qed.

Lemma grows_except {A} P cs (m : prog exn (W * list Event) A) h :
  grows P m -> (forall e, grows P (h e)) -> grows P (pexcept cs m h).
Proof.
  intros Hm Hh wt r wt' H. unfold pexcept, pcatch in H.
  destruct (m wt) as [[[a|e] w1]|] eqn:E; [|..]; [| |done].
  - injection H as <- <-. by eapply Hm.
  - destruct (Hm _ _ _ E) as (d1 & Ht1 & Hd1). destruct (caught_by cs e).
    + destruct (Hh _ _ _ _ H) as (d2 & Ht2 & Hd2). exists (d1 ++ d2).
      rewrite Ht2, Ht1, app_assoc. split; [done|by apply list.Forall_app].
    + injection H as <- <-. by exists d1.
Qed.

Lemma grows_loop {S A} P fuel (body : S -> prog exn (W * list Event) (S + A)) s :
  (forall s, grows P (body s)) -> grows P (ploop fuel body s).
Proof.
  intros Hb. revert s. induction fuel as [|n IH]; intros s; [by intros wt r wt' H|].
  cbn [ploop]. apply grows_bind; [apply Hb|]. intros [s'|a]; [apply IH|apply grows_ret].
Qed.

Lemma grows_fold {S A} P (f : S -> A -> prog exn (W * list Event) S) s l :
  (forall s a, a ∈ l -> grows P (f s a)) -> grows P (pfold f s l).
Proof.
  revert s. induction l as [|a l IH]; intros s Hf; cbn [pfold]; [apply grows_ret|].
  apply grows_bind; [apply Hf; set_solver|]. intros s'. apply IH. intros. apply Hf. set_solver.
Qed.

Lemma grows_weaken {A} P Q (m : prog exn (W * list Event) A) :
  grows P m -> (forall e, P e -> Q e) -> grows Q m.
Proof.
  intros Hm HPQ wt r wt' H. destruct (Hm _ _ _ H) as (d & Ht & Hd). exists d.
  split; [done|]. by eapply Forall_impl.
Qed.
End grows.

(** ** Time passes

    What the termination theorems rely on: link calls return, the clock never
    goes back, a sleep lasts at least as long as asked and a receive takes at
    least one tick. *)
Class Ticking (W : Type) `{!Link W} (clk : W -> Z) : Prop := {
  tick_time w : exists w', l_time w = Some (Ok (clk w), w') /\ clk w <= clk w';
  tick_sleep d w : exists r w', l_sleep d w = Some (r, w') /\ clk w + d <= clk w';
  tick_recv ts tm w : exists r w', l_recv ts tm w = Some (r, w') /\ clk w < clk w';
  tick_send s w : exists r w', l_send s w = Some (r, w') /\ clk w <= clk w'
}.

Create HintDb grows.
#[export] Hint Resolve @grows_ret @grows_lift @grows_on_world @grows_time @grows_sleep @grows_recv
  @grows_send : grows.

(** Follow the sequencing of a program to its operations. *)
Ltac grow :=
  repeat first
    [ solve [eauto with grows]
    | apply grows_bind_lift; intros ? ?
    | apply grows_bind; [|intros ?]
    | apply grows_except; [|intros ?]
    | apply grows_loop; intros ?
    | match goal with |- grows _ (match ?x with _ => _ end) => destruct x eqn:? end ].
