(* ===== verification/Mission.v ===== *)
(** * Mission protocol (mavlink/mission.py)

    Upload, download, clear and round-trip verification of missions, fences and
    rally points over a [Link].  Each [while] loop takes [fuel]; the
    termination theorem bounds it by the deadlines in the code. *)

From stdpp Require Import base gmap sets list strings option numbers.
From Stdlib Require Import ZArith Lia.
From S2P Require Import Prelude Float64 PyVal Link.
Local Open Scope Z_scope.

Module Mission.
Section mission.
Context {W : Type} `{!Link W}.
Variable fuel : nat.

Definition m_seq (m : Msg) : res exn Z :=
  match m with
  | MISSION_REQUEST_INT s | MISSION_REQUEST s => Ok s
  | MISSION_ITEM_INT it => Ok (MI.seq it)
  | _ => no_attr m "seq"
  end.

Definition m_ack_type (m : Msg) : res exn Z :=
  match m with MISSION_ACK t _ => Ok t | _ => no_attr m "type" end.

Definition m_mission_type (m : Msg) : res exn Z :=
  match m with
  | MISSION_ACK _ mt | MISSION_COUNT _ mt => Ok mt
  | MISSION_ITEM_INT it => Ok (MI.mission_type it)
  | _ => no_attr m "mission_type"
  end.

Definition m_count (m : Msg) : res exn Z :=
  match m with MISSION_COUNT c _ => Ok c | _ => no_attr m "count" end.

Definition m_item (m : Msg) : res exn MissionItem :=
  match m with MISSION_ITEM_INT it => Ok it | _ => no_attr m "frame" end.

(** One round of the request loop; [inr true] is the early [return], [inr
    false] the loop condition found false. *)
Definition upload_round (items : list MissionItem) (start_time : Z) (items_sent : gset Z)
  : prog exn W (gset Z + bool) :=
  if bool_decide (Z.of_nat (size items_sent) < Z.of_nat (length items)) then
    now ← l_time;
    if sec 10 <? now - start_time then
      plift (raise_ MissionUploadError [L "Timeout waiting for MISSION_REQUEST_INT after ";
                                        L "10.0"; L "s"])
    else
      msg ← l_recv ["MISSION_REQUEST_INT"; "MISSION_REQUEST"; "MISSION_ACK"] None;
      match msg with
      | None => _ ← l_sleep (ms 10); mret (inl items_sent)
      | Some msg =>
          if bool_decide (get_type msg = "MISSION_ACK") then
            t ← plift (m_ack_type msg);
            if t =? 0 then mret (inr true)
            else plift (raise_ MissionUploadError
                          [L "Mission upload rejected with ACK type "; V (VInt t)])
          else if bool_decide (get_type msg ∈ ["MISSION_REQUEST_INT"; "MISSION_REQUEST"]) then
            seq ← plift (m_seq msg);
            if Z.of_nat (length items) <=? seq then
              plift (raise_ MissionUploadError
                       [L "Requested seq "; V (VInt seq); L " >= item count ";
                        V (VInt (Z.of_nat (length items)))])
            else
              item ← plift (py_index items seq);
              _ ← l_send (mission_item_int_send item);
              mret (inl ({[seq]} ∪ items_sent))
          else mret (inl items_sent)
      end
  else mret (inr false).

Definition ack_round (ack_start : Z) (_ : unit) : prog exn W (unit + unit) :=
  now ← l_time;
  if now - ack_start <? sec 5 then
    msg ← l_recv ["MISSION_ACK"] None;
    match msg with
    | Some msg =>
        t ← plift (m_ack_type msg);
        if t =? 0 then mret (inr tt)
        else plift (raise_ MissionUploadError
                      [L "Mission upload rejected with final ACK type "; V (VInt t)])
    | None => _ ← l_sleep (ms 10); mret (inl tt)
    end
  else plift (raise_ MissionUploadError
                [L "Timeout waiting for final MISSION_ACK after "; L "5.0"; L "s"]).

Definition upload_mission (items : list MissionItem) (mission_type : Z) : prog exn W unit :=
  match items with
  | [] => mret tt
  | _ =>
      _ ← l_send (mission_count_send (Z.of_nat (length items)) mission_type);
      start_time ← l_time;
      early ← ploop fuel (upload_round items start_time) ∅;
      if (early : bool) then mret tt
      else
        ack_start ← l_time;
        ploop fuel (ack_round ack_start) tt
  end.

(** The [while ... else] that waits for a matching message, and times out. *)
Definition await {A} (type : string) (start timeout : Z) (accept : Msg -> res exn (option A))
    (late : res exn A) (_ : unit) : prog exn W (unit + A) :=
  now ← l_time;
  if now - start <? timeout then
    msg ← l_recv [type] None;
    got ← plift (match msg with Some m => accept m | None => Ok None end);
    match got with
    | Some a => mret (inr a)
    | None => _ ← l_sleep (ms 10); mret (inl tt)
    end
  else a ← plift late; mret (inr a).

Definition accept_count (mission_type : Z) (m : Msg) : res exn (option Z) :=
  mt ← m_mission_type m;
  if mt =? mission_type then c ← m_count m; Ok (Some c) else Ok None.

Definition accept_item (seq mission_type : Z) (m : Msg) : res exn (option MissionItem) :=
  s ← m_seq m;
  if s =? seq then
    mt ← m_mission_type m;
    if mt =? mission_type then it ← m_item m; Ok (Some it) else Ok None
  else Ok None.

(** One iteration of the [for seq in range(item_count)] loop. *)
Definition download_one (mission_type : Z) (items : list (option MissionItem)) (seq : Z)
  : prog exn W (list (option MissionItem)) :=
  _ ← l_send (mission_request_int_send seq mission_type);
  item_start ← l_time;
  item ← ploop fuel (await "MISSION_ITEM_INT" item_start (sec 5) (accept_item seq mission_type)
    (raise_ MissionDownloadError [L "Timeout waiting for MISSION_ITEM_INT seq "; V (VInt seq);
                                  L " after "; L "5.0"; L "s"])) tt;
  mret (<[Z.to_nat seq := Some item]> items).

(** [None] entries are the placeholders of [[None] * item_count]. *)
Definition download_mission (mission_type : Z) : prog exn W (list (option MissionItem)) :=
  _ ← l_send (mission_request_list_send mission_type);
  start_time ← l_time;
  item_count ← ploop fuel (await "MISSION_COUNT" start_time (sec 10) (accept_count mission_type)
    (raise_ MissionDownloadError [L "Timeout waiting for MISSION_COUNT after "; L "10.0"; L "s"]))
    tt;
  if item_count =? 0 then mret []
  else
    items ← pfold (download_one mission_type) (replicate (Z.to_nat item_count) None)
              (seqZ 0 item_count);
    _ ← l_send (mission_ack_send 0 mission_type);
    mret items.

Definition accept_clear (mission_type : Z) (m : Msg) : res exn (option unit) :=
  mt ← m_mission_type m;
  if mt =? mission_type then
    t ← m_ack_type m;
    if t =? 0 then Ok (Some tt)
    else raise_ MissionUploadError [L "Mission clear rejected with ACK type "; V (VInt t)]
  else Ok None.

Definition clear_mission (mission_type : Z) : prog exn W unit :=
  _ ← l_send (mission_clear_all_send mission_type);
  start_time ← l_time;
  _ ← ploop fuel (await "MISSION_ACK" start_time (sec 5) (accept_clear mission_type)
        (raise_ MissionUploadError
           [L "Timeout waiting for MISSION_ACK after clear operation"])) tt;
  pexcept [MissionDownloadError]
    (items ← download_mission mission_type;
     if (mission_type =? 0) && (Z.of_nat (length items) <=? 1) then mret tt
     else if negb (mission_type =? 0) && (Z.of_nat (length items) =? 0) then mret tt
     else plift (raise_ MissionUploadError
                   [L "Clear verification failed: "; V (VInt (Z.of_nat (length items)));
                    L " items still present"]))
    (fun e => plift (raise_ MissionUploadError (L "Clear verification failed: " :: exn_msg e))).

Definition tolerance : float := F.of_dec 1 (-7).

Definition close_enough (e g : float) : bool := negb (F.gtb (F.abs (F.sub e g)) tolerance).

(** The fields in which the downloaded item differs, in the order compared. *)
Definition field_mismatches (exp got : MissionItem) : list string :=
  let zf name f := if f exp =? f got then [] else [name] in
  let ff name f := if close_enough (f exp) (f got) then [] else [name] in
  zf "seq" MI.seq ++ zf "frame" MI.frame ++ zf "command" MI.command ++
  ff "param1" MI.param1 ++ ff "param2" MI.param2 ++ ff "param3" MI.param3 ++
  ff "param4" MI.param4 ++ zf "x" MI.x ++ zf "y" MI.y ++ ff "z" MI.z ++
  zf "mission_type" MI.mission_type ++ zf "autocontinue" MI.autocontinue ++
  zf "current" MI.current.

Definition mismatches (pairs : list (MissionItem * option MissionItem)) : res exn (list string) :=
  l ← rmap (fun p : MissionItem * option MissionItem =>
        match p.2 with
        | Some got => Ok (field_mismatches p.1 got)
        | None => raise_ AttributeError [L "'NoneType' object has no attribute 'seq'"]
        end) pairs;
  Ok (concat l).

Definition verify_round_trip (expected : list MissionItem) (mission_type : Z) : prog exn W bool :=
  downloaded ← pexcept [MissionDownloadError]
    (d ← download_mission mission_type; mret (Some d)) (fun _ => mret None);
  match downloaded with
  | None => mret false
  | Some downloaded =>
      if negb (Nat.eqb (length downloaded) (length expected)) then mret false
      else
        ms ← plift (mismatches (zip expected downloaded));
        mret (match ms with [] => true | _ => false end)
  end.
End mission.
End Mission.
Export Mission.

Section facts.
Context {W : Type} `{!Link W}.

(** ** Download, on the traced link *)

(** The end of a wait: messages that were not the one waited for, then it. *)
Lemma await_trace {A} fuel type start timeout accept (late : res exn A) (w : W) t a w' t' :
  is_ok late = false ->
  ploop fuel (await type start timeout accept late) tt (w, t) = Some (Ok a, (w', t')) ->
  exists noise m, t' = t ++ noise ++ [Got m] /\ accept m = Ok (Some a) /\
    Forall (fun e => exists m', e = Got m' /\ accept m' = Ok None) noise.
Proof.
  intros Hlate. revert w t. induction fuel as [|fuel IH]; intros w t H; [done|]. cbn [ploop] in H.
  apply pbind_ok_inv in H as (r & [w1 t1] & H1 & H). unfold await in H1.
  apply pbind_ok_inv in H1 as (now & [w2 t2] & H2 & H1). apply traced_time in H2 as ->.
  destruct (now - start <? timeout).
  - apply pbind_ok_inv in H1 as (o & [w3 t3] & H3 & H1). apply traced_recv in H3 as ->.
    apply pbind_ok_inv in H1 as (got & [w4 t4] & H4 & H1). cbv [plift] in H4. injection H4 as Hgot <- <-.
    destruct got as [b|].
    + cbv [mret prog_ret] in H1. injection H1 as <- <- <-. cbv [mret prog_ret] in H. injection H as <- <- <-.
      destruct o as [m|]; [|done]. by exists [], m.
    + apply pbind_ok_inv in H1 as (? & [w5 t5] & H5 & H1). apply traced_sleep in H5 as ->.
      cbv [mret prog_ret] in H1. injection H1 as <- <- <-.
      apply IH in H as (noise & m & -> & Ha & Hn). destruct o as [m0|].
      * exists (Got m0 :: noise), m. rewrite <- app_assoc. split_and!; [done..|]. constructor; [by exists m0|done].
      * exists noise, m. by rewrite app_nil_r.
  - apply pbind_ok_inv in H1 as (b & [w3 t3] & H3 & H1). cbv [plift] in H3. destruct late; [done|]. simplify_eq.
Qed.

(** Neither an item of this number and type, nor the count of this type. *)
Definition not_item (k mission_type : Z) (e : Event) : Prop :=
  forall it, e = Got (MISSION_ITEM_INT it) -> ~ (MI.seq it = k /\ MI.mission_type it = mission_type).
Definition not_count (mission_type : Z) (e : Event) : Prop :=
  forall c, e <> Got (MISSION_COUNT c mission_type).

(** The traffic that delivers items from number [k] on: each is requested, and
    taken from the first message that is the item requested. *)
Inductive delivering (mission_type : Z) : Z -> list MissionItem -> list Event -> Prop :=
| del_nil k : delivering mission_type k [] []
| del_item k it its noise d :
    MI.seq it = k -> MI.mission_type it = mission_type -> Forall (not_item k mission_type) noise ->
    delivering mission_type (k + 1) its d ->
    delivering mission_type k (it :: its)
      (Sent (mission_request_int_send k mission_type) :: noise ++ Got (MISSION_ITEM_INT it) :: d).

Lemma accept_item_ok seq mt m it :
  accept_item seq mt m = Ok (Some it) ->
  m = MISSION_ITEM_INT it /\ MI.seq it = seq /\ MI.mission_type it = mt.
Proof.
  unfold accept_item. destruct m; cbn [m_seq m_mission_type m_item]; unfold_monad;
    repeat (case_match; try done); intros; simplify_eq; split; [done|lia].
Qed.

Lemma accept_item_not seq mt m : accept_item seq mt m = Ok None -> not_item seq mt (Got m).
Proof.
  intros H it [= ->] [Hs Ht]. unfold accept_item in H. cbn [m_seq m_mission_type m_item] in H. unfold_monad.
  by rewrite Hs, Z.eqb_refl, Ht, Z.eqb_refl in H.
Qed.

Lemma accept_count_ok mt m c : accept_count mt m = Ok (Some c) -> m = MISSION_COUNT c mt.
Proof.
  unfold accept_count. destruct m; cbn [m_mission_type m_count]; unfold_monad;
    repeat (case_match; try done); intros; simplify_eq; f_equal; lia.
Qed.

Lemma accept_count_not mt m : accept_count mt m = Ok None -> not_count mt (Got m).
Proof. intros H c [= ->]. unfold accept_count in H. cbn in H. by rewrite Z.eqb_refl in H. Qed.

Lemma download_one_trace fuel mt done n (w : W) t items w' t' :
  download_one fuel mt (map Some done ++ replicate (S n) None) (Z.of_nat (length done)) (w, t)
    = Some (Ok items, (w', t')) ->
  exists it noise, items = map Some (done ++ [it]) ++ replicate n None /\
    MI.seq it = Z.of_nat (length done) /\ MI.mission_type it = mt /\
    Forall (not_item (Z.of_nat (length done)) mt) noise /\
    t' = t ++ Sent (mission_request_int_send (Z.of_nat (length done)) mt) :: noise ++ [Got (MISSION_ITEM_INT it)].
Proof.
  unfold download_one. intros H.
  apply pbind_ok_inv in H as (? & [w1 t1] & H1 & H). apply traced_send in H1 as ->.
  apply pbind_ok_inv in H as (start & [w2 t2] & H2 & H). apply traced_time in H2 as ->.
  apply pbind_ok_inv in H as (it & [w3 t3] & H3 & H). cbv [mret prog_ret] in H. injection H as <- <- <-.
  apply await_trace in H3 as (noise & m & -> & Hm & Hn); [|done].
  apply accept_item_ok in Hm as (-> & Hs & Ht). exists it, noise. rewrite <- app_assoc. split_and!; [|done..| |done].
  - rewrite Nat2Z.id. replace (length done) with (length (map Some done) + 0)%nat by (rewrite length_map; lia).
    rewrite insert_app_r. cbn [replicate]. rewrite map_app, <- app_assoc. done.
  - eapply list.Forall_impl; [exact Hn|]. intros e (m' & -> & Ha). by apply accept_item_not.
Qed.

Lemma download_items_trace fuel mt n : forall done (w : W) t items w' t',
  pfold (download_one fuel mt) (map Some done ++ replicate n None)
    (seqZ (Z.of_nat (length done)) (Z.of_nat n)) (w, t) = Some (Ok items, (w', t')) ->
  exists its d, items = map Some (done ++ its) /\ length its = n /\
    delivering mt (Z.of_nat (length done)) its d /\ t' = t ++ d.
Proof.
  induction n as [|n IH]; intros done w t items w' t' H.
  - rewrite seqZ_nil in H by lia. cbv [pfold mret prog_ret] in H. injection H as <- <- <-.
    exists [], []. cbn [replicate]. rewrite !app_nil_r. split_and!; [done..|constructor|done].
  - rewrite seqZ_cons in H by lia. cbn [pfold] in H.
    apply pbind_ok_inv in H as (items1 & [w1 t1] & H1 & H).
    apply download_one_trace in H1 as (it & noise & -> & Hs & Ht & Hn & ->).
    replace (Z.succ (Z.of_nat (length done))) with (Z.of_nat (length (done ++ [it]))) in H
      by (rewrite length_app; cbn [length]; lia).
    replace (Z.pred (Z.of_nat (S n))) with (Z.of_nat n) in H by lia.
    apply IH in H as (its & d & -> & Hl & Hd & ->). exists (it :: its). eexists.
    rewrite <- !app_assoc. cbn [length app]. rewrite <- app_assoc. split_and!; [done|by rewrite Hl| |reflexivity].
    apply del_item; [done..|]. rewrite length_app in Hd. cbn [length] in Hd.
    by replace (Z.of_nat (length done) + 1) with (Z.of_nat (length done + 1)) by lia.
Qed.

(** C20: A download that returns is complete, whatever the link does: on the
    link's own traffic, the list is requested, the first count of this mission
    type is taken, and the list returned has exactly as many items as that count
    announces, the one at position [i] the first message received for number [i]
    and this type after it was requested; then, unless the mission is empty, the
    transfer is acknowledged. *)
Theorem download_complete fuel mt (w : W) t items w' t'
    (H : download_mission fuel mt (w, t) = Some (Ok items, (w', t'))) :
  exists count before its d, items = map Some its /\ length its = Z.to_nat count /\
    Forall (not_count mt) before /\ delivering mt 0 its d /\
    t' = t ++ Sent (mission_request_list_send mt) :: before ++ Got (MISSION_COUNT count mt) :: d ++
           (if count =? 0 then [] else [Sent (mission_ack_send 0 mt)]).
Proof.
  unfold download_mission in H.
  apply pbind_ok_inv in H as (? & [w1 t1] & H1 & H). apply traced_send in H1 as ->.
  apply pbind_ok_inv in H as (start & [w2 t2] & H2 & H). apply traced_time in H2 as ->.
  apply pbind_ok_inv in H as (count & [w3 t3] & H3 & H).
  apply await_trace in H3 as (before & m & -> & Hm & Hb); [|done]. apply accept_count_ok in Hm as ->.
  assert (Forall (not_count mt) before) as Hbefore.
  { eapply list.Forall_impl; [exact Hb|]. intros e (m' & -> & Ha). by apply accept_count_not. }
  exists count, before. destruct (Z.eqb_spec count 0) as [->|Hne].
  - cbv [mret prog_ret] in H. injection H as <- <- <-. exists [], []. rewrite <- app_assoc.
    split_and!; [done..|constructor|done].
  - apply pbind_ok_inv in H as (items1 & [w4 t4] & H4 & H).
    apply pbind_ok_inv in H as (? & [w5 t5] & H5 & H). apply traced_send in H5 as ->.
    cbv [mret prog_ret] in H. injection H as <- <- <-.
    assert (seqZ 0 count = seqZ (Z.of_nat (length ([] : list MissionItem))) (Z.of_nat (Z.to_nat count))) as Hseq.
    { destruct (Z.le_gt_cases 0 count); [by rewrite Z2Nat.id|]. rewrite !seqZ_nil; [done|lia..]. }
    rewrite Hseq in H4. apply (download_items_trace _ _ _ []) in H4 as (its & d & -> & Hl & Hd & ->).
    exists its, d. rewrite <- !app_assoc. by split_and!.
Qed.

(** ** Upload, on the traced link *)

Definition requests : list string := ["MISSION_REQUEST_INT"; "MISSION_REQUEST"].

(** The traffic of the request loop: the set of answered requests grows by one
    for each request that names an item, and that item is sent right after. *)
Inductive answering (items : list MissionItem) : list Event -> gset Z -> Prop :=
| ans_nil : answering items [] ∅
| ans_other d sent m :
    answering items d sent -> get_type m ∉ "MISSION_ACK" :: requests ->
    answering items (d ++ [Got m]) sent
| ans_item d sent m s it :
    answering items d sent -> get_type m ∈ requests -> m_seq m = Ok s ->
    s < Z.of_nat (length items) -> py_index items s = Ok it ->
    answering items (d ++ [Got m; Sent (mission_item_int_send it)]) ({[s]} ∪ sent).

(** The state of the request loop: the loop variable, and the trace [t0]
    before the loop with the traffic since. *)
Definition loop_inv (items : list MissionItem) (t0 : list Event) (sent : gset Z)
    (wt : W * list Event) : Prop :=
  exists d, wt.2 = t0 ++ d /\ answering items d sent.

Definition accepted (items : list MissionItem) (t0 : list Event) (t : list Event) : Prop :=
  exists d sent mt, t = t0 ++ d ++ [Got (MISSION_ACK 0 mt)] /\ answering items d sent.

Definition loop_post (items : list MissionItem) (t0 : list Event) (r : res exn bool)
    (wt : W * list Event) : Prop :=
  match r with
  | Ok true => accepted items t0 wt.2
  | Ok false => exists sent, loop_inv items t0 sent wt /\ (length items <= size sent)%nat
  | Err _ => True
  end.

Lemma ack_type_zero m : m_ack_type m = Ok 0 -> exists mt, m = MISSION_ACK 0 mt.
Proof. destruct m; try done. intros [= ->]. by eexists. Qed.

Lemma upload_round_triple items start t0 sent :
  triple (loop_inv items t0 sent) (upload_round items start sent) (fun r wt =>
    match r with
    | Ok (inl sent') => loop_inv items t0 sent' wt
    | Ok (inr b) => loop_post items t0 (Ok b) wt
    | Err e => loop_post items t0 (Err e) wt
    end).
Proof.
  intros [w t] [r|e] [w' t'] (d & Ht & Hans) H; [|done]. cbn [snd] in Ht. subst t.
  unfold upload_round in H. case_bool_decide as Hsize.
  2:{ cbv [mret prog_ret] in H. simplify_eq. exists sent. split; [by exists d|lia]. }
  apply pbind_ok_inv in H as (now & [w1 t1] & H1 & H). apply traced_time in H1 as ->.
  case_match; [done|].
  apply pbind_ok_inv in H as (om & [w2 t2] & H2 & H). apply traced_recv in H2 as ->.
  destruct om as [m|].
  2:{ apply pbind_ok_inv in H as (? & [w3 t3] & H3 & H). apply traced_sleep in H3 as ->.
      cbv [mret prog_ret] in H. simplify_eq. exists d. by rewrite app_nil_r. }
  case_bool_decide as Hty.
  { apply pbind_ok_inv in H as (ty & [w3 t3] & H3 & H). cbv [plift] in H3.
    injection H3 as Hack <- <-. destruct (Z.eqb_spec ty 0) as [->|]; [|done].
    cbv [mret prog_ret] in H. simplify_eq. apply ack_type_zero in Hack as [mt ->].
    exists d, sent, mt. by rewrite <- app_assoc. }
  case_bool_decide as Hreq.
  2:{ cbv [mret prog_ret] in H. simplify_eq. exists (d ++ [Got m]). cbn [snd].
      rewrite app_assoc. split; [done|]. apply ans_other; [done|].
      rewrite not_elem_of_cons. split; [done|]. exact Hreq. }
  apply pbind_ok_inv in H as (s & [w3 t3] & H3 & H). cbv [plift] in H3. injection H3 as Hs <- <-.
  destruct (Z.leb_spec (Z.of_nat (length items)) s) as [|Hlt]; [done|].
  apply pbind_ok_inv in H as (it & [w3 t3] & H3 & H). cbv [plift] in H3. injection H3 as Hit <- <-.
  apply pbind_ok_inv in H as (? & [w3 t3] & H3 & H). apply traced_send in H3 as ->.
  cbv [mret prog_ret] in H. simplify_eq.
  exists (d ++ [Got m; Sent (mission_item_int_send it)]). cbn [snd].
  rewrite <- !app_assoc. split; [done|]. by eapply ans_item.
Qed.

Lemma ack_round_triple fuel items start t0 sent :
  triple (loop_inv items t0 sent) (ploop (W := W * list Event) fuel (ack_round start) tt)
    (fun r wt => match r with Ok _ => accepted items t0 wt.2 | Err _ => True end).
Proof.
  apply (triple_loop (fun _ => loop_inv items t0 sent)).
  intros [] [w t] [r|e] [w' t'] (d & Ht & Hans) H; [|done]. cbn [snd] in Ht. subst t.
  unfold ack_round in H.
  apply pbind_ok_inv in H as (now & [w1 t1] & H1 & H). apply traced_time in H1 as ->.
  case_match; [|done].
  apply pbind_ok_inv in H as (om & [w2 t2] & H2 & H). apply traced_recv in H2 as ->.
  destruct om as [m|].
  - apply pbind_ok_inv in H as (ty & [w3 t3] & H3 & H). cbv [plift] in H3.
    injection H3 as Hack <- <-. destruct (Z.eqb_spec ty 0) as [->|]; [|done].
    cbv [mret prog_ret] in H. simplify_eq. apply ack_type_zero in Hack as [mt ->].
    exists d, sent, mt. by rewrite <- app_assoc.
  - apply pbind_ok_inv in H as (? & [w3 t3] & H3 & H). apply traced_sleep in H3 as ->.
    cbv [mret prog_ret] in H. simplify_eq. exists d. by rewrite app_nil_r.
Qed.

(** C2: An upload that reports success over any link, reliable or not: with no
    items nothing is sent; otherwise the traffic is the MISSION_COUNT, then only
    items the vehicle requested, each sent right after its request and equal to
    the item of the list at that position, then an accepting MISSION_ACK. *)
Theorem upload_success_trace fuel items mt (w w' : W) t t'
    (H : upload_mission fuel items mt (w, t) = Some (Ok tt, (w', t'))) :
  (items = [] /\ t' = t) \/
  exists d sent mt', answering items d sent /\
    t' = t ++ Sent (mission_count_send (Z.of_nat (length items)) mt)
           :: d ++ [Got (MISSION_ACK 0 mt')].
Proof.
  unfold upload_mission in H. destruct items as [|it items'].
  { cbv [mret prog_ret] in H. simplify_eq. by left. }
  set (items := it :: items') in *. right.
  apply pbind_ok_inv in H as (? & [w1 t1] & H1 & H). apply traced_send in H1 as ->.
  apply pbind_ok_inv in H as (start & [w2 t2] & H2 & H). apply traced_time in H2 as ->.
  apply pbind_ok_inv in H as (early & [w3 t3] & H3 & H).
  set (t1 := t ++ [Sent (mission_count_send (Z.of_nat (length items)) mt)]) in *.
  assert (loop_inv items t1 ∅ (w2, t1)) as Hinv.
  { exists []. split; [by rewrite app_nil_r|constructor]. }
  pose proof (triple_loop _ _ (loop_post items t1) fuel ∅
                (fun s => upload_round_triple items start t1 s) _ _ _ Hinv H3) as Hp.
  assert (accepted items t1 t') as (d & sent & mt' & -> & Hans).
  - destruct early.
    + cbv [mret prog_ret] in H. by simplify_eq.
    + destruct Hp as (sent & Hinv' & _).
      apply pbind_ok_inv in H as (start2 & [w4 t4] & H4 & H). apply traced_time in H4 as ->.
      exact (ack_round_triple fuel items start2 t1 sent (w4, t3) _ _ Hinv' H).
  - exists d, sent, mt'. split; [done|]. unfold t1. by rewrite <- app_assoc.
Qed.

(** The mission type of the acknowledgement is never looked at: when the
    first message that arrives is an accepting MISSION_ACK, of whatever mission
    type, the upload reports success although no item was sent. *)
Theorem upload_stale_ack fuel items mt mt' (w w1 w2 w3 w4 : W) t0 t1
    (Hitems : items <> [])
    (Hsend : l_send (mission_count_send (Z.of_nat (length items)) mt) w = Some (Ok tt, w1))
    (Ht0 : l_time w1 = Some (Ok t0, w2)) (Ht1 : l_time w2 = Some (Ok t1, w3))
    (Hin : t1 - t0 <= sec 10)
    (Hrecv : l_recv ["MISSION_REQUEST_INT"; "MISSION_REQUEST"; "MISSION_ACK"] None w3
             = Some (Ok (Some (MISSION_ACK 0 mt')), w4)) :
  upload_mission (S fuel) items mt w = Some (Ok tt, w4).
Proof.
  unfold upload_mission. destruct items as [|it items']; [done|].
  rewrite (pbind_step _ _ _ _ _ Hsend), (pbind_step _ _ _ _ _ Ht0).
  assert (upload_round (it :: items') t0 ∅ w2 = Some (Ok (inr true), w4)) as Hr.
  { unfold upload_round. rewrite bool_decide_eq_true_2 by (rewrite size_empty; simpl; lia).
    rewrite (pbind_step _ _ _ _ _ Ht1).
    destruct (Z.ltb_spec (sec 10) (t1 - t0)); [lia|].
    by rewrite (pbind_step _ _ _ _ _ Hrecv). }
  cbn [ploop]. unfold mbind at 1, prog_bind at 1. unfold mbind at 1, prog_bind at 1.
  by rewrite Hr.
Qed.

(** ** Termination *)
Ltac ends := eexists _, _; (split; [reflexivity|]); cbn; lia.

Section termination.
Context (clk : W -> Z) `{!Ticking W clk}.

Definition returns {A} (m : prog exn W A) (w : W) : Prop :=
  exists r w', m w = Some (r, w') /\ clk w <= clk w'.

Lemma returns_lift {A} (m : res exn A) w : returns (plift m) w.
Proof. exists m, w. split; [done|lia]. Qed.

Lemma returns_bind {A B} (m : prog exn W A) (f : A -> prog exn W B) w :
  returns m w -> (forall a w1, clk w <= clk w1 -> returns (f a) w1) -> returns (m ≫= f) w.
Proof.
  intros (r & w1 & H1 & Hle) Hf. destruct r as [a|e].
  - destruct (Hf a w1 Hle) as (r & w2 & H2 & Hle2). exists r, w2.
    rewrite (pbind_step _ _ _ _ _ H1). split; [done|lia].
  - exists (Err e), w1. by rewrite (pbind_err _ _ _ _ _ H1).
Qed.

Lemma returns_catch {A} cs (m : prog exn W A) h w :
  returns m w -> (forall e w1, returns (h e) w1) -> returns (pexcept cs m h) w.
Proof.
  intros (r & w1 & H1 & Hle) Hh. unfold returns, pexcept, pcatch. rewrite H1.
  destruct r as [a|e]; [by exists (Ok a), w1|]. destruct (caught_by cs e).
  - destruct (Hh e w1) as (r & w2 & -> & ?). exists r, w2. split; [done|lia].
  - by exists (Err e), w1.
Qed.

Lemma returns_pfold {A S} (f : S -> A -> prog exn W S) l :
  (forall s a w, returns (f s a) w) -> forall s w, returns (pfold f s l) w.
Proof.
  intros Hf. induction l as [|a l IH]; intros s w; [by apply (returns_lift (Ok s))|].
  cbn [pfold]. apply returns_bind; [done|]. by intros.
Qed.

Lemma returns_send s w : returns (l_send s) w.
Proof. by apply tick_send. Qed.

(** A loop that checks the clock against a deadline and receives or gives up. *)
Lemma returns_deadline {S A} (start timeout : Z) (body : S -> prog exn W (S + A)) fuel s w :
  (forall s w, exists r w', body s w = Some (r, w') /\ clk w <= clk w' /\
     match r with Ok (inl _) => clk w <= start + timeout /\ clk w < clk w' | _ => True end) ->
  start <= clk w -> 0 <= timeout -> timeout + 1 < Z.of_nat fuel ->
  returns (ploop fuel body s) w.
Proof.
  intros Hb Hs H0 Hf.
  destruct (total_loop (fun (_ : S) w1 => clk w <= clk w1)
              (fun _ w => Z.to_nat (start + timeout + 1 - clk w)) body
              (fun _ w1 => clk w <= clk w1) fuel s) with (w := w) as (r & w' & H & ?).
  - intros s1 n w1 [Hw1 Hn]. destruct (Hb s1 w1) as (r & w2 & H & Hle & Hlt).
    exists r, w2. split; [done|]. destruct r as [[s2|a]|e]; lia.
  - split; lia.
  - by exists r, w'.
Qed.

Lemma returns_await {A} fuel type timeout accept (late : res exn A) start w :
  start <= clk w -> 0 <= timeout -> timeout + 1 < Z.of_nat fuel ->
  returns (ploop fuel (await type start timeout accept late) tt) w.
Proof.
  apply returns_deadline. clear w. intros [] w. unfold await.
  destruct (tick_time w) as (w1 & H1 & Hle1). rewrite (pbind_step _ _ _ _ _ H1).
  destruct (Z.ltb_spec (clk w - start) timeout).
  - destruct (tick_recv [type] None w1) as (r & w2 & H2 & Hlt2).
    destruct r as [om|e]; [|rewrite (pbind_err _ _ _ _ _ H2); exists (Err e), w2; split_and!; [done|lia|done]].
    rewrite (pbind_step _ _ _ _ _ H2).
    destruct (match om with Some m => accept m | None => Ok None end) as [[a|]|e].
    + exists (Ok (inr a)), w2. split_and!; [done|lia|done].
    + lift_step.
      destruct (tick_sleep (ms 10) w2) as (r & w3 & H3 & Hle3). unfold ms in Hle3.
      destruct r as [u|e]; op_step H3; ends.
    + exists (Err e), w2. split_and!; [done|lia|done].
  - destruct late as [a|e]; [exists (Ok (inr a)), w1|exists (Err e), w1]; done.
Qed.

Lemma returns_ack fuel start w :
  start <= clk w -> sec 5 + 1 < Z.of_nat fuel ->
  returns (ploop fuel (ack_round start) tt) w.
Proof.
  intros Hs Hf. apply (returns_deadline start (sec 5)); [|exact Hs|by unfold sec|exact Hf].
  clear w Hs. intros [] w. unfold ack_round.
  destruct (tick_time w) as (w1 & H1 & Hle1). rewrite (pbind_step _ _ _ _ _ H1).
  destruct (Z.ltb_spec (clk w - start) (sec 5)).
  - destruct (tick_recv ["MISSION_ACK"] None w1) as (r & w2 & H2 & Hlt2).
    destruct r as [[m|]|e].
    + rewrite (pbind_step _ _ _ _ _ H2).
      destruct (m_ack_type m) as [ty|e]; lift_step; [destruct (ty =? 0)|]; ends.
    + rewrite (pbind_step _ _ _ _ _ H2).
      destruct (tick_sleep (ms 10) w2) as (r & w3 & H3 & Hle3). unfold ms in Hle3.
      destruct r as [u|e]; op_step H3; ends.
    + rewrite (pbind_err _ _ _ _ _ H2). ends.
  - ends.
Qed.

Lemma returns_requests fuel items start sent w :
  start <= clk w -> sec 10 + 1 < Z.of_nat fuel ->
  returns (ploop fuel (upload_round items start) sent) w.
Proof.
  intros Hs Hf. apply (returns_deadline start (sec 10)); [|exact Hs|by unfold sec|exact Hf].
  clear sent w Hs. intros sent w. unfold upload_round.
  case_bool_decide; [|by exists (Ok (inr false)), w; split_and!; [done|lia|]].
  destruct (tick_time w) as (w1 & H1 & Hle1). rewrite (pbind_step _ _ _ _ _ H1).
  destruct (Z.ltb_spec (sec 10) (clk w - start)).
  { ends. }
  destruct (tick_recv ["MISSION_REQUEST_INT"; "MISSION_REQUEST"; "MISSION_ACK"] None w1)
    as (r & w2 & H2 & Hlt2).
  destruct r as [[m|]|e].
  - rewrite (pbind_step _ _ _ _ _ H2). case_bool_decide.
    { destruct (m_ack_type m) as [ty|e]; lift_step; [destruct (ty =? 0)|]; ends. }
    case_bool_decide; [|ends].
    destruct (m_seq m) as [s|e]; lift_step; [|ends].
    destruct (Z.of_nat (length items) <=? s);
      [ends|].
    destruct (py_index items s) as [it|e]; lift_step; [|ends].
    destruct (tick_send (mission_item_int_send it) w2) as (r & w3 & Hsend & Hle4).
    destruct r as [u|e]; op_step Hsend; ends.
  - rewrite (pbind_step _ _ _ _ _ H2).
    destruct (tick_sleep (ms 10) w2) as (r & w3 & H3 & Hle3). unfold ms in Hle3.
    destruct r as [u|e]; op_step H3; ends.
  - rewrite (pbind_err _ _ _ _ _ H2). ends.
Qed.

(** Reading the clock and entering a loop that waits until a deadline. *)
Lemma returns_timed {A} (f : Z -> prog exn W A) w :
  (forall start w1, start <= clk w1 -> returns (f start) w1) ->
  returns (start ← l_time; f start) w.
Proof.
  intros Hf. destruct (tick_time w) as (w1 & H1 & Hle1). unfold returns.
  rewrite (pbind_step _ _ _ _ _ H1). destruct (Hf (clk w) w1 Hle1) as (r & w2 & -> & ?).
  exists r, w2. split; [done|lia].
Qed.

Lemma returns_download fuel mt w :
  sec 10 + 1 < Z.of_nat fuel -> returns (download_mission fuel mt) w.
Proof.
  intros Hf. assert (sec 5 + 1 < Z.of_nat fuel) as Hf5 by (unfold sec in *; lia).
  apply returns_bind; [apply returns_send|]. intros _ w1 _. apply returns_timed.
  intros start w2 Hs. apply returns_bind; [by apply returns_await; [|unfold sec|]|]. intros n w3 _.
  destruct (n =? 0); [by apply (returns_lift (Ok []))|].
  apply returns_bind.
  - apply returns_pfold. intros its sq w4. apply returns_bind; [apply returns_send|].
    intros _ w5 _. apply returns_timed. intros start2 w6 Hs2.
    apply returns_bind; [by apply returns_await; [|unfold sec|]|]. intros it w7 _.
    by apply (returns_lift (Ok _)).
  - intros its w4 _. apply returns_bind; [apply returns_send|].
    intros _ w5 _. by apply (returns_lift (Ok _)).
Qed.

(** C19: Nothing the vehicle does, or fails to do, can keep a mission operation
    waiting: over any link on which time passes, upload, download, clear and
    verify all return, within the deadlines written in the code. *)
Theorem mission_operations_return fuel items mt (w : W)
    (Hf : sec 10 + 1 < Z.of_nat fuel) :
  returns (upload_mission fuel items mt) w /\ returns (download_mission fuel mt) w /\
  returns (clear_mission fuel mt) w /\ returns (verify_round_trip fuel items mt) w.
Proof.
  assert (sec 5 + 1 < Z.of_nat fuel) as Hf5 by (unfold sec in *; lia). split_and!.
  - destruct items as [|it items]; [by apply (returns_lift (Ok tt))|]. unfold upload_mission.
    apply returns_bind; [apply returns_send|]. intros _ w1 _. apply returns_timed.
    intros start w2 Hs. apply returns_bind; [by apply returns_requests|].
    intros [] w3 _; [by apply (returns_lift (Ok tt))|]. apply returns_timed.
    intros start2 w4 Hs2. by apply returns_ack.
  - by apply returns_download.
  - apply returns_bind; [apply returns_send|]. intros _ w1 _. apply returns_timed.
    intros start w2 Hs. apply returns_bind; [by apply returns_await; [|unfold sec|]|]. intros _ w3 _.
    apply returns_catch; [|intros; apply returns_lift].
    apply returns_bind; [by apply returns_download|]. intros its w4 _.
    repeat case_match; first [by apply (returns_lift (Ok tt)) | apply returns_lift].
  - apply returns_bind.
    + apply returns_catch; [|intros; by apply (returns_lift (Ok None))].
      apply returns_bind; [by apply returns_download|]. intros; by apply (returns_lift (Ok _)).
    + intros [d|] w1 _; [|by apply (returns_lift (Ok false))].
      case_match; [by apply (returns_lift (Ok false))|].
      apply returns_bind; [apply returns_lift|]. intros; by apply (returns_lift (Ok _)).
Qed.
End termination.
End facts.

(** ** A vehicle that follows the protocol

    The documented behaviour of an autopilot, as an instance of [Link]: it
    requests the announced items in order, acknowledges the last one, answers
    downloads from what it stored and drops messages the ground station did not
    ask [recv_match] for.  [keep] is what storing does to an item (parameters
    travel as 32-bit floats). *)
Record Vehicle : Type := {
  v_clock : Z;
  v_inbox : list Msg;
  v_store : Z -> list MissionItem;
  v_upload : option (Z * nat * list MissionItem)
}.

Section vehicle.
Variable keep : MissionItem -> MissionItem.

Definition v_post (v : Vehicle) (m : Msg) : Vehicle :=
  {| v_clock := v_clock v; v_inbox := v_inbox v ++ [m]; v_store := v_store v;
     v_upload := v_upload v |}.

Definition v_save (v : Vehicle) (mt : Z) (items : list MissionItem) : Vehicle :=
  {| v_clock := v_clock v; v_inbox := v_inbox v;
     v_store := fun t => if t =? mt then items else v_store v t; v_upload := None |}.

Definition v_expect (v : Vehicle) (u : option (Z * nat * list MissionItem)) : Vehicle :=
  {| v_clock := v_clock v; v_inbox := v_inbox v; v_store := v_store v; v_upload := u |}.

Definition v_receive (v : Vehicle) (s : Send) : Vehicle :=
  match s with
  | mission_count_send n mt =>
      if n =? 0 then v_post (v_save v mt []) (MISSION_ACK 0 mt)
      else v_post (v_expect v (Some (mt, Z.to_nat n, []))) (MISSION_REQUEST_INT 0)
  | mission_item_int_send it =>
      match v_upload v with
      | Some (mt, n, got) =>
          if MI.seq it =? Z.of_nat (length got) then
            let got' := got ++ [keep it] in
            if Nat.eqb (length got') n then v_post (v_save v mt got') (MISSION_ACK 0 mt)
            else v_post (v_expect v (Some (mt, n, got')))
                   (MISSION_REQUEST_INT (Z.of_nat (length got')))
          else v_post (v_expect v None) (MISSION_ACK 13 mt)
      | None => v_post v (MISSION_ACK 13 (MI.mission_type it))
      end
  | mission_request_list_send mt => v_post v (MISSION_COUNT (Z.of_nat (length (v_store v mt))) mt)
  | mission_request_int_send s mt =>
      match v_store v mt !! Z.to_nat s with
      | Some it => v_post v (MISSION_ITEM_INT it)
      | None => v_post v (MISSION_ACK 13 mt)
      end
  | mission_clear_all_send mt => v_post (v_save v mt []) (MISSION_ACK 0 mt)
  | _ => v
  end.

Fixpoint first_of (types : list string) (inbox : list Msg) : option Msg * list Msg :=
  match inbox with
  | [] => (None, [])
  | m :: inbox' => if bool_decide (get_type m ∈ types) then (Some m, inbox')
                   else first_of types inbox'
  end.

Definition v_take (types : list string) (v : Vehicle) : option Msg * Vehicle :=
  let '(m, rest) := first_of types (v_inbox v) in
  (m, {| v_clock := v_clock v; v_inbox := rest; v_store := v_store v;
         v_upload := v_upload v |}).

Definition v_wait (d : Z) (v : Vehicle) : Vehicle :=
  {| v_clock := v_clock v + d; v_inbox := v_inbox v; v_store := v_store v;
     v_upload := v_upload v |}.

#[local] Instance vehicle : Link Vehicle := {
  l_time v := Some (Ok (v_clock v), v);
  l_sleep d v := Some (Ok tt, v_wait d v);
  l_recv ts _ v := let '(m, v') := v_take ts v in Some (Ok m, v');
  l_send s v := Some (Ok tt, v_receive v s)
}.

(** Items numbered from 0, all of the mission type they are uploaded as. *)
Definition numbered (mt : Z) (items : list MissionItem) : Prop :=
  forall i it, items !! i = Some it -> MI.seq it = Z.of_nat i /\ MI.mission_type it = mt.

Definition idle (v : Vehicle) : Prop := v_inbox v = [].

Definition keeps : Prop := forall it,
  MI.seq (keep it) = MI.seq it /\ MI.mission_type (keep it) = MI.mission_type it.

(** The vehicle in the middle of an upload, waiting for item [k]. *)
Definition uploading (v : Vehicle) (mt : Z) (items : list MissionItem) (k : nat) : Vehicle :=
  {| v_clock := v_clock v; v_inbox := [MISSION_REQUEST_INT (Z.of_nat k)];
     v_store := v_store v; v_upload := Some (mt, length items, map keep (take k items)) |}.

Definition uploaded (v : Vehicle) (mt : Z) (items : list MissionItem) : Vehicle :=
  v_save {| v_clock := v_clock v; v_inbox := []; v_store := v_store v; v_upload := None |}
    mt (map keep items).

Definition sent_upto (k : nat) : gset Z := list_to_set (seqZ 0 (Z.of_nat k)).

Lemma sent_upto_size k : size (sent_upto k) = k.
Proof.
  unfold sent_upto. rewrite size_list_to_set by apply NoDup_seqZ.
  rewrite length_seqZ. lia.
Qed.

Lemma sent_upto_S k : {[Z.of_nat k]} ∪ sent_upto k = sent_upto (S k).
Proof.
  unfold sent_upto. apply set_eq. intros z.
  rewrite elem_of_union, elem_of_singleton, !elem_of_list_to_set, !elem_of_seqZ. lia.
Qed.

Lemma map_keep_snoc items k it :
  items !! k = Some it -> map keep (take k items) ++ [keep it] = map keep (take (S k) items).
Proof. intros H. rewrite (take_S_r _ _ _ H). by rewrite map_app. Qed.

Lemma vehicle_round v mt items k it :
  numbered mt items -> items !! k = Some it ->
  upload_round items (v_clock v) (sent_upto k) (uploading v mt items k) =
  Some (Ok (inl (sent_upto (S k))),
        if Nat.eqb (S k) (length items)
        then v_post (uploaded v mt items) (MISSION_ACK 0 mt)
        else uploading v mt items (S k)).
Proof.
  intros Hnum Hit. pose proof (lookup_lt_Some _ _ _ Hit) as Hlt.
  destruct (Hnum _ _ Hit) as [Hseq _].
  unfold upload_round. rewrite sent_upto_size, bool_decide_eq_true_2 by lia.
  rewrite (pbind_step _ _ _ (v_clock v) (uploading v mt items k)) by done.
  destruct (Z.ltb_spec (sec 10) (v_clock v - v_clock v)); [unfold sec in *; lia|].
  erewrite pbind_step by reflexivity. cbn [get_type].
  rewrite bool_decide_eq_false_2 by done. rewrite bool_decide_eq_true_2 by set_solver.
  cbn [m_seq]. lift_step. destruct (Z.leb_spec (Z.of_nat (length items)) (Z.of_nat k)); [lia|].
  rewrite (py_index_nat _ _ _ Hit). lift_step. erewrite pbind_step by reflexivity.
  cbv [mret prog_ret]. rewrite sent_upto_S. do 2 f_equal.
  cbn [v_receive v_upload uploading v_take v_inbox first_of get_type].
  assert (length (map keep (take k items)) = k) as Hlen by (rewrite length_map, length_take; lia).
  rewrite Hlen, Hseq, Z.eqb_refl, length_app, Hlen. cbn [length].
  replace (k + 1)%nat with (S k) by lia. rewrite (map_keep_snoc _ _ _ Hit).
  destruct (Nat.eqb_spec (S k) (length items)) as [Heq|Hne].
  - rewrite (take_ge items (S k)) by lia. done.
  - done.
Qed.

Lemma vehicle_requests v mt items k fuel :
  numbered mt items -> (k < length items)%nat -> (length items - k < fuel)%nat ->
  ploop fuel (upload_round items (v_clock v)) (sent_upto k) (uploading v mt items k) =
  Some (Ok false, v_post (uploaded v mt items) (MISSION_ACK 0 mt)).
Proof.
  intros Hnum. revert k. induction fuel as [|fuel IH]; intros k Hk Hf; [lia|].
  destruct (lookup_lt_is_Some_2 _ _ Hk) as [it Hit]. cbn [ploop].
  rewrite (pbind_step _ _ _ _ _ (vehicle_round v mt items k it Hnum Hit)).
  destruct (Nat.eqb_spec (S k) (length items)) as [Heq|Hne]; [|apply IH; lia].
  destruct fuel as [|fuel]; [lia|]. cbn [ploop]. unfold upload_round.
  rewrite sent_upto_size, bool_decide_eq_false_2 by lia. done.
Qed.

Lemma vehicle_ack fuel start v mt :
  v_inbox v = [MISSION_ACK 0 mt] -> v_clock v - start < sec 5 ->
  ploop (S fuel) (ack_round start) tt v =
  Some (Ok tt, {| v_clock := v_clock v; v_inbox := []; v_store := v_store v;
                  v_upload := v_upload v |}).
Proof.
  intros Hin Hlt. cbn [ploop].
  assert (ack_round start tt v =
    Some (Ok (inr tt), {| v_clock := v_clock v; v_inbox := []; v_store := v_store v;
                          v_upload := v_upload v |})) as Hr.
  { unfold ack_round. rewrite (pbind_step _ _ v (v_clock v) v) by done.
    destruct (Z.ltb_spec (v_clock v - start) (sec 5)); [|lia].
    erewrite pbind_step by (cbn [l_recv vehicle]; unfold v_take; rewrite Hin; reflexivity).
    done. }
  by rewrite (pbind_step _ _ _ _ _ Hr).
Qed.

Lemma vehicle_upload v mt items fuel :
  numbered mt items -> items <> [] -> idle v -> (length items < fuel)%nat ->
  upload_mission fuel items mt v = Some (Ok tt, uploaded v mt items).
Proof.
  intros Hnum Hne Hidle Hf. unfold upload_mission.
  assert (0 < length items)%nat as Hlen by (destruct items; simpl; [done|lia]).
  destruct items as [|it0 items']; [done|]. set (items := it0 :: items') in *.
  erewrite pbind_step by reflexivity. erewrite pbind_step by reflexivity.
  assert (v_receive v (mission_count_send (Z.of_nat (length items)) mt) = uploading v mt items 0)
    as ->.
  { cbn [v_receive]. destruct (Z.eqb_spec (Z.of_nat (length items)) 0); [lia|].
    unfold uploading, v_post, v_expect. cbn [v_clock v_inbox v_store v_upload take map].
    by rewrite Hidle, Nat2Z.id. }
  cbn [v_clock uploading].
  rewrite (pbind_step _ _ _ _ _ (vehicle_requests v mt items 0 fuel Hnum Hlen ltac:(lia))).
  cbv beta iota. rewrite (pbind_step _ _ _ (v_clock v) _) by reflexivity.
  destruct fuel as [|fuel]; [lia|].
  rewrite (vehicle_ack _ _ _ mt) by (cbn; unfold sec; first [done|lia]). done.
Qed.

Lemma vehicle_await {A} fuel ty start timeout accept (late : res exn A) v m a :
  v_inbox v = [m] -> get_type m = ty -> accept m = Ok (Some a) -> v_clock v - start < timeout ->
  ploop (S fuel) (await ty start timeout accept late) tt v =
  Some (Ok a, {| v_clock := v_clock v; v_inbox := []; v_store := v_store v;
                 v_upload := v_upload v |}).
Proof.
  intros Hin Hty Hacc Hlt. cbn [ploop].
  assert (await ty start timeout accept late tt v =
    Some (Ok (inr a), {| v_clock := v_clock v; v_inbox := []; v_store := v_store v;
                         v_upload := v_upload v |})) as Hr.
  { unfold await. rewrite (pbind_step _ _ v (v_clock v) v) by done.
    destruct (Z.ltb_spec (v_clock v - start) timeout); [|lia].
    erewrite pbind_step.
    2:{ cbn [l_recv vehicle]. unfold v_take. rewrite Hin. cbn [first_of].
        rewrite bool_decide_eq_true_2 by (rewrite Hty; set_solver). reflexivity. }
    cbv beta iota. rewrite Hacc. lift_step. done. }
  by rewrite (pbind_step _ _ _ _ _ Hr).
Qed.

Lemma vehicle_fetch v mt items fuel k n :
  idle v -> v_store v mt = items -> numbered mt items -> (k + n)%nat = length items ->
  pfold (download_one (S fuel) mt) (map Some (take k items) ++ replicate n None)
    (seqZ (Z.of_nat k) (Z.of_nat n)) v = Some (Ok (map Some items), v).
Proof.
  intros Hidle Hst Hnum. revert k. induction n as [|n IH]; intros k Hk.
  - rewrite seqZ_nil by lia. cbn [pfold replicate]. rewrite app_nil_r.
    by rewrite (take_ge items k) by lia.
  - destruct (lookup_lt_is_Some_2 items k) as [it Hit]; [lia|].
    destruct (Hnum _ _ Hit) as [Hseq Hmt]. rewrite seqZ_cons by lia. cbn [pfold].
    assert (download_one (S fuel) mt (map Some (take k items) ++ replicate (S n) None)
              (Z.of_nat k) v = Some (Ok (map Some (take (S k) items) ++ replicate n None), v)) as Hd.
    { unfold download_one. erewrite pbind_step by reflexivity.
      cbn [v_receive]. rewrite Hst, Nat2Z.id, Hit. erewrite pbind_step by reflexivity.
      erewrite pbind_step.
      2:{ apply (vehicle_await _ _ _ _ _ _ _ (MISSION_ITEM_INT it) it).
          - cbn. by rewrite Hidle.
          - done.
          - unfold accept_item. cbn [m_seq m_mission_type m_item mbind res_bind].
            by rewrite Hseq, Hmt, !Z.eqb_refl.
          - cbn. unfold sec. lia. }
      cbv [mret prog_ret]. do 2 f_equal; [f_equal|].
      - rewrite insert_app_r_alt by (rewrite length_map, length_take; lia).
        rewrite length_map, length_take. replace (k - k `min` length items)%nat with O by lia.
        cbn. rewrite (take_S_r _ _ _ Hit), map_app, <- app_assoc. done.
      - destruct v; unfold v_post; cbn in *. by rewrite Hidle. }
    rewrite (pbind_step _ _ _ _ _ Hd).
    replace (Z.succ (Z.of_nat k)) with (Z.of_nat (S k)) by lia.
    replace (Z.pred (Z.of_nat (S n))) with (Z.of_nat n) by lia.
    apply IH. lia.
Qed.

Lemma vehicle_download v mt fuel :
  idle v -> numbered mt (v_store v mt) ->
  download_mission (S fuel) mt v = Some (Ok (map Some (v_store v mt)), v).
Proof.
  intros Hidle Hnum. unfold download_mission. erewrite pbind_step by reflexivity.
  erewrite pbind_step by reflexivity. erewrite pbind_step.
  2:{ apply (vehicle_await _ _ _ _ _ _ _ (MISSION_COUNT (Z.of_nat (length (v_store v mt))) mt)
               (Z.of_nat (length (v_store v mt)))).
      - cbn. by rewrite Hidle.
      - done.
      - unfold accept_count. cbn. by rewrite Z.eqb_refl.
      - cbn. unfold sec. lia. }
  assert ({| v_clock := v_clock v; v_inbox := []; v_store := v_store v;
             v_upload := v_upload v |} = v) as Hv by (destruct v; cbn in *; by rewrite Hidle).
  cbn [v_receive v_post v_clock v_inbox v_store v_upload]. rewrite Hv.
  destruct (Z.eqb_spec (Z.of_nat (length (v_store v mt))) 0) as [H0|H0].
  - by destruct (v_store v mt).
  - pose proof (vehicle_fetch v mt (v_store v mt) fuel 0 (length (v_store v mt)) Hidle eq_refl
                  Hnum eq_refl) as Hf.
    rewrite Nat2Z.id. cbn [take map app] in Hf. rewrite (pbind_step _ _ _ _ _ Hf).
    by erewrite pbind_step by reflexivity.
Qed.

Lemma numbered_keep mt items : keeps -> numbered mt items -> numbered mt (map keep items).
Proof.
  intros Hk Hnum i it Hi. change (map keep items) with (keep <$> items) in Hi.
  apply list_lookup_fmap_Some in Hi as (it0 & -> & Hi).
  destruct (Hk it0) as [-> ->]. by apply Hnum.
Qed.

Lemma rmap_zip (items : list MissionItem) :
  mismatches (zip items (map Some (map keep items))) =
  Ok (concat (map (fun it => field_mismatches it (keep it)) items)).
Proof.
  unfold mismatches.
  assert (forall l, rmap (fun p : MissionItem * option MissionItem =>
        match p.2 with
        | Some got => Ok (field_mismatches p.1 got)
        | None => raise_ AttributeError [L "'NoneType' object has no attribute 'seq'"]
        end) (zip l (map Some (map keep l))) =
      Ok (map (fun it => field_mismatches it (keep it)) l)) as H; [|by rewrite H].
  induction l as [|it l IH]; [done|]. cbn [map zip zip_with rmap snd fst].
  cbn [mbind res_bind].
  by rewrite IH.
Qed.

(** An item survives storing as far as the verification can see. *)
Definition survives (it : MissionItem) : bool :=
  match field_mismatches it (keep it) with [] => true | _ => false end.

Lemma concat_survives items :
  match concat (map (fun it => field_mismatches it (keep it)) items) with
  | [] => true | _ => false end = forallb survives items.
Proof.
  induction items as [|it items IH]; [done|]. cbn [map concat forallb]. unfold survives at 1.
  destruct (field_mismatches it (keep it)); [done|]. done.
Qed.

(** C1: The mission round trip.  On a vehicle that follows the protocol, with
    no stale message in its inbox, uploading a non-empty, properly numbered list
    succeeds and stores exactly the items, in order, leaving the other mission
    types alone; downloading returns what was stored; and [verify_round_trip]
    returns true exactly when every field of every item survived storing within
    its tolerance. *)
Theorem upload_download_roundtrip fuel (items : list MissionItem) mt (v : Vehicle)
    (Hnum : numbered mt items) (Hne : items <> []) (Hidle : idle v) (Hkeep : keeps)
    (Hf : (length items < fuel)%nat) :
  exists v1, upload_mission fuel items mt v = Some (Ok tt, v1) /\ idle v1 /\
    (forall t, v_store v1 t = if t =? mt then map keep items else v_store v t) /\
    download_mission fuel mt v1 = Some (Ok (map Some (map keep items)), v1) /\
    verify_round_trip fuel items mt v1 = Some (Ok (forallb survives items), v1).
Proof.
  exists (uploaded v mt items).
  assert (v_store (uploaded v mt items) mt = map keep items) as Hst.
  { cbn [uploaded v_save v_store]. by rewrite Z.eqb_refl. }
  assert (download_mission fuel mt (uploaded v mt items) =
          Some (Ok (map Some (map keep items)), uploaded v mt items)) as Hd.
  { destruct fuel as [|fuel]; [lia|]. rewrite vehicle_download; rewrite ?Hst; [done|done|].
    by apply numbered_keep. }
  split_and!; [by apply vehicle_upload|done|done|done|].
  unfold verify_round_trip. erewrite pbind_step.
  2:{ unfold pexcept, pcatch. erewrite pbind_step by exact Hd. reflexivity. }
  cbv beta iota. rewrite !length_map, Nat.eqb_refl. cbn [negb]. rewrite rmap_zip. lift_step.
  by rewrite concat_survives.
Qed.

(** Clearing one mission type on such a vehicle succeeds, empties that type
    and leaves the others alone. *)
Lemma clear_mission_clears fuel mt (v : Vehicle) (Hidle : idle v) :
  exists v1, clear_mission (S fuel) mt v = Some (Ok tt, v1) /\ idle v1 /\
    forall t, v_store v1 t = if t =? mt then [] else v_store v t.
Proof.
  set (v1 := {| v_clock := v_clock v; v_inbox := [];
                v_store := fun t => if t =? mt then [] else v_store v t; v_upload := None |}).
  assert (v_store v1 mt = []) as Hst by (cbn; by rewrite Z.eqb_refl).
  exists v1. split_and!; [|done|done].
  unfold clear_mission. erewrite pbind_step by reflexivity. erewrite pbind_step by reflexivity.
  erewrite pbind_step.
  2:{ apply (vehicle_await _ _ _ _ _ _ _ (MISSION_ACK 0 mt) tt).
      - cbn. by rewrite Hidle.
      - done.
      - unfold accept_clear. cbn. by rewrite Z.eqb_refl.
      - cbn. unfold sec. lia. }
  cbn [v_receive v_post v_save v_clock v_inbox v_store v_upload]. fold v1.
  unfold pexcept, pcatch.
  erewrite pbind_step by (rewrite (vehicle_download v1 mt fuel); [reflexivity|done|by rewrite Hst]).
  rewrite Hst. cbn. by destruct (mt =? 0).
Qed.
End vehicle.

(** ** Concrete runs *)
Definition item (s mt : Z) (p : float) : MissionItem :=
  {| MI.seq := s; MI.frame := 6; MI.command := 16; MI.param1 := p; MI.param2 := F.zero;
     MI.param3 := F.zero; MI.param4 := F.zero; MI.x := 400000000; MI.y := -800000000;
     MI.z := F.zero; MI.mission_type := mt; MI.autocontinue := 1; MI.current := 0 |}.

(** Parameters are stored as 32-bit floats. *)
Definition store32 (it : MissionItem) : MissionItem :=
  {| MI.seq := MI.seq it; MI.frame := MI.frame it; MI.command := MI.command it;
     MI.param1 := F.narrow (MI.param1 it); MI.param2 := F.narrow (MI.param2 it);
     MI.param3 := F.narrow (MI.param3 it); MI.param4 := F.narrow (MI.param4 it);
     MI.x := MI.x it; MI.y := MI.y it; MI.z := F.narrow (MI.z it);
     MI.mission_type := MI.mission_type it; MI.autocontinue := MI.autocontinue it;
     MI.current := MI.current it |}.

Definition parked : Vehicle :=
  {| v_clock := 0; v_inbox := []; v_store := fun _ => []; v_upload := None |}.

Definition demo_items := [item 0 0 F.zero; item 1 0 (F.of_dec 15 (-1))].

Lemma upload_download_roundtrip_witness :
  exists v1, @upload_mission _ (vehicle store32) 5 demo_items 0 parked = Some (Ok tt, v1) /\
    idle v1 /\
    (forall t, v_store v1 t = if t =? 0 then map store32 demo_items else v_store parked t) /\
    @download_mission _ (vehicle store32) 5 0 v1
      = Some (Ok (map Some (map store32 demo_items)), v1) /\
    @verify_round_trip _ (vehicle store32) 5 demo_items 0 v1
      = Some (Ok (forallb (survives store32) demo_items), v1).
Proof.
  apply upload_download_roundtrip.
  - intros [|[|i]] it H; by simplify_eq/=.
  - discriminate.
  - reflexivity.
  - intros it. split; reflexivity.
  - cbn. lia.
Defined.

Lemma clear_mission_clears_witness :
  exists v1, @clear_mission _ (vehicle store32) 3 1 parked = Some (Ok tt, v1) /\ idle v1 /\
    forall t, v_store v1 t = if t =? 1 then [] else v_store parked t.
Proof. apply (clear_mission_clears store32 2). reflexivity. Defined.

(** A parameter of 5.3 is not a 32-bit float: its stored value is further away
    than the tolerance, and verification fails on a correct upload. *)
Lemma verify_rejects_float32 :
  forallb (survives store32) [item 0 0 (F.of_dec 53 (-1))] = false /\
  @verify_round_trip _ (vehicle store32) 5 [item 0 0 (F.of_dec 53 (-1))] 0
    (uploaded store32 parked 0 [item 0 0 (F.of_dec 53 (-1))])
  = Some (Ok false, uploaded store32 parked 0 [item 0 0 (F.of_dec 53 (-1))]).
Proof. split; vm_compute; reflexivity. Qed.

Definition stale : Vehicle :=
  {| v_clock := 0; v_inbox := [MISSION_ACK 0 1]; v_store := fun _ => []; v_upload := None |}.

Lemma upload_stale_ack_witness :
  exists v, @upload_mission _ (vehicle store32) 3 demo_items 0 stale = Some (Ok tt, v).
Proof.
  eexists. eapply (@upload_stale_ack _ (vehicle store32) 2 demo_items 0 1);
    [discriminate|reflexivity..|unfold sec; cbn; lia|reflexivity].
Defined.

Lemma download_complete_witness :
  exists t' count before its d, [Some (item 0 0 F.zero)] = map Some its /\ length its = Z.to_nat count /\
    Forall (not_count 0) before /\ delivering 0 0 its d /\
    t' = [] ++ Sent (mission_request_list_send 0) :: before ++ Got (MISSION_COUNT count 0) :: d ++
           (if count =? 0 then [] else [Sent (mission_ack_send 0 0)]).
Proof.
  eexists. eapply (@download_complete _ (vehicle store32) 3 0 (uploaded store32 parked 0 [item 0 0 F.zero]) []).
  vm_compute. reflexivity.
Defined.

Lemma upload_success_trace_witness :
  exists t', (demo_items = [] /\ t' = []) \/
  exists d sent mt', answering demo_items d sent /\
    t' = [] ++ Sent (mission_count_send (Z.of_nat (length demo_items)) 0)
           :: d ++ [Got (MISSION_ACK 0 mt')].
Proof.
  eexists. eapply (@upload_success_trace _ (vehicle store32) 5 demo_items 0 parked).
  vm_compute. reflexivity.
Defined.

(** A link on which nothing ever arrives. *)
#[local] Instance silent : Link Z := {
  l_time c := Some (Ok c, c);
  l_sleep d c := Some (Ok tt, c + d);
  l_recv _ _ c := Some (Ok None, c + 1);
  l_send _ c := Some (Ok tt, c)
}.

Lemma silent_ticking : Ticking Z (fun c => c).
Proof.
  constructor; intros; [eexists|eexists _, _..]; (split; [reflexivity|]); lia.
Defined.

Lemma mission_operations_return_witness :
  returns (fun c => c) (upload_mission (Z.to_nat (sec 20)) demo_items 0) 0 /\
  returns (fun c => c) (download_mission (Z.to_nat (sec 20)) 0) 0 /\
  returns (fun c => c) (clear_mission (Z.to_nat (sec 20)) 0) 0 /\
  returns (fun c => c) (verify_round_trip (Z.to_nat (sec 20)) demo_items 0) 0.
Proof.
  apply (@mission_operations_return Z silent (fun c => c) silent_ticking).
  rewrite Z2Nat.id; [reflexivity|discriminate].
Defined.
