(* ===== verification/Params.v ===== *)
(** * Autopilot parameters (params/io.py, params/diff.py, params/mav.py)

    Parameter sets and their files, the diff between two sets, and fetching and
    applying parameters over a [Link].  The YAML and JSON libraries are
    parameters of the model ([yaml_safe_load], [json_dumps], [json_loads]); a
    file is its text. *)

From stdpp Require Import base gmap sets list strings option sorting.
From Stdlib Require Import Ascii ZArith Lia.
From S2P Require Import Prelude Float64 PyVal Link.

Module Params.

(** ** params/io.py *)
Definition _normalize_name (name : string) : res exn string :=
  let n := S.upper (S.strip name) in
  if bool_decide (n = EmptyString) || existsb S.is_space (S.chars n) then
    raise_ ValueError [L "invalid param name: "; VF (VStr name) "r"]
  else Ok n.

(** Insertion order, names as normalised. *)
Record ParamSet : Type := mkParamSet { values : list (string * float) }.

(** [name.strip()] of something that is not a string. *)
Definition as_name (v : PyVal) : res exn string :=
  match v with
  | VStr s => Ok s
  | _ => raise_ AttributeError [L "'"; L (type_name v); L "' object has no attribute 'strip'"]
  end.

Fixpoint from_pairs_into (out : list (string * float)) (pairs : list (PyVal * PyVal))
  : res exn (list (string * float)) :=
  match pairs with
  | [] => Ok out
  | (name, value) :: pairs' =>
      f ← py_float value;
      s ← as_name name;
      n ← _normalize_name s;
      from_pairs_into (od_set out n f) pairs'
  end.

Definition from_pairs (pairs : list (PyVal * PyVal)) : res exn ParamSet :=
  mkParamSet <$> from_pairs_into [] pairs.

Definition from_mapping (mapping : list (PyVal * PyVal)) : res exn ParamSet := from_pairs mapping.

Definition ps_len (p : ParamSet) : nat := length (values p).

Definition ps_contains (p : ParamSet) (name : PyVal) : res exn bool :=
  match name with
  | VStr s => n ← _normalize_name s; Ok (bool_decide (n ∈ od_keys (values p)))
  | _ => Ok false
  end.

Definition ps_getitem (p : ParamSet) (name : string) : res exn float :=
  n ← _normalize_name name;
  match od_get (values p) n with
  | Some f => Ok f
  | None => raise_ KeyError [VF (VStr n) "r"]
  end.

Definition ps_get (p : ParamSet) (name : string) : res exn (option float) :=
  n ← _normalize_name name; Ok (od_get (values p) n).

Definition names (p : ParamSet) : list string := S.sorted (od_keys (values p)).

Definition as_sorted_dict (p : ParamSet) : list (string * float) :=
  omap (fun k => f ← od_get (values p) k; Some (k, f)) (S.sorted (od_keys (values p))).

(** One line of an ArduPilot file: [None] for a blank or comment line. *)
Definition parse_line (raw : string) : res exn (option (PyVal * PyVal)) :=
  let line := S.strip (S.before "//" (S.before "#" raw)) in
  if bool_decide (line = EmptyString) then Ok None
  else
    '(name, value) ←
      match S.cut "," line with
      | Some (name, value) => Ok (name, value)
      | None =>
          match S.split_ws1 line with
          | [name; value] => Ok (name, value)
          | _ => raise_ ValueError [L "unparseable param line: "; VF (VStr raw) "r"]
          end
      end;
    f ← py_float (VStr (S.strip value));
    Ok (Some (VStr (S.strip name), VFloat f)).

Definition _parse_parm_text (text : string) : res exn ParamSet :=
  pairs ← rmap parse_line (S.splitlines text);
  from_pairs (omap id pairs).

Section files.
Variable yaml_safe_load : string -> res exn PyVal.
Variable json_loads : string -> res exn PyVal.
Variable json_dumps : PyVal -> string.

(** [path.suffix] and [path.read_text()] are arguments. *)
Definition load_param_file (path suffix text : string) : res exn ParamSet :=
  if bool_decide (S.lower suffix ∈ [".yaml"; ".yml"; ".json"]) then
    data ← yaml_safe_load text;
    let data := if py_bool data then data else VDict [] in
    match data with
    | VDict d => from_mapping d
    | v => raise_ ValueError [L path; L ": expected mapping at top level, got "; L (type_name v)]
    end
  else _parse_parm_text text.

Definition snapshot_payload (params : ParamSet) (now : string) (metadata : list (PyVal * PyVal))
  : PyVal :=
  VDict [(VStr "schema", VStr "mower-rover.params.snapshot.v1");
         (VStr "captured_at", VStr now);
         (VStr "metadata", VDict metadata);
         (VStr "params", VDict (map (fun kv => (VStr kv.1, VFloat kv.2)) (as_sorted_dict params)))].

(** The text written. *)
Definition write_json_snapshot (params : ParamSet) (now : string) (metadata : list (PyVal * PyVal))
  : string :=
  String.append (json_dumps (snapshot_payload params now metadata))
    (String.String (ascii_of_N 10) EmptyString).

Definition load_json_snapshot (path text : string) : res exn ParamSet :=
  payload ← json_loads text;
  match payload with
  | VDict d =>
      match dget d "params" with
      | Some (VDict ps) => from_mapping ps
      | Some v => raise_ AttributeError [L "'"; L (type_name v); L "' object has no attribute 'items'"]
      | None => raise_ ValueError [L path; L ": not a mower-rover param snapshot"]
      end
  | _ => raise_ ValueError [L path; L ": not a mower-rover param snapshot"]
  end.
End files.

(** ** params/diff.py *)
Definition _DEFAULT_TOL : float := F.of_dec 1 (-6).

Record ParamChange : Type := mkChange { c_name : string; c_old : option float; c_new : option float }.

Definition kind (c : ParamChange) : string :=
  match c_old c, c_new c with
  | None, _ => "added"
  | _, None => "removed"
  | _, _ => "changed"
  end.

Record ParamDiff : Type := mkDiff
  { added : list ParamChange; removed : list ParamChange; changed : list ParamChange }.

Definition is_empty (d : ParamDiff) : bool :=
  match added d, removed d, changed d with [], [], [] => true | _, _, _ => false end.

Definition diff_one (tolerance : float) (old_map new_map : list (string * float))
    (d : ParamDiff) (name : string) : ParamDiff :=
  match od_get old_map name, od_get new_map name with
  | None, nv => mkDiff (added d ++ [mkChange name None nv]) (removed d) (changed d)
  | Some ov, None => mkDiff (added d) (removed d ++ [mkChange name (Some ov) None]) (changed d)
  | Some ov, Some nv =>
      if F.gtb (F.abs (F.sub ov nv)) tolerance then
        mkDiff (added d) (removed d) (changed d ++ [mkChange name (Some ov) (Some nv)])
      else d
  end.

(** [sorted(set(old_map) | set(new_map))] *)
Definition all_names (old_map new_map : list (string * float)) : list string :=
  S.sorted (remove_dups (od_keys old_map ++ od_keys new_map)).

Definition diff_params (old new : ParamSet) (tolerance : float) : ParamDiff :=
  let old_map := as_sorted_dict old in
  let new_map := as_sorted_dict new in
  foldl (diff_one tolerance old_map new_map) (mkDiff [] [] []) (all_names old_map new_map).

Definition opt_float (o : option float) : PyVal :=
  match o with Some f => VFloat f | None => VNone end.

Definition diff_row (c : ParamChange) : PyVal :=
  VDict [(VStr "name", VStr (c_name c)); (VStr "old", opt_float (c_old c));
         (VStr "new", opt_float (c_new c))].

Definition diff_to_dict (d : ParamDiff) : PyVal :=
  VDict [(VStr "schema", VStr "mower-rover.params.diff.v1");
         (VStr "added", VList (map diff_row (added d)));
         (VStr "removed", VList (map diff_row (removed d)));
         (VStr "changed", VList (map diff_row (changed d)))].

Definition _fmt (v : float) : Piece :=
  if F.is_integer v then match F.trunc v with Some z => V (VInt z) | None => V (VFloat v) end
  else VF (VFloat v) "g".

Definition fmt_or_dash (v : option float) : Piece := match v with Some f => _fmt f | None => L "-" end.

Definition style_of (c : ParamChange) : string :=
  let k := kind c in
  if bool_decide (k = "changed") then "yellow" else if bool_decide (k = "added") then "green" else "red".

(** The cells of a row of the table, and its style. *)
Definition table_row (c : ParamChange) : list FStr * string :=
  ([[L (kind c)]; [L (c_name c)]; [fmt_or_dash (c_old c)]; [fmt_or_dash (c_new c)]], style_of c).

(** What the console shows: the rows and the totals, or one line when nothing
    differs. *)
Definition render_diff (diff : ParamDiff) : FStr + (list (list FStr * string) * FStr) :=
  if is_empty diff then inl [L "[bold green]No parameter differences.[/bold green]"]
  else inr (map table_row (changed diff ++ added diff ++ removed diff),
            [L "[bold]"; V (VInt (Z.of_nat (length (changed diff)))); L " changed, ";
             V (VInt (Z.of_nat (length (added diff)))); L " added, ";
             V (VInt (Z.of_nat (length (removed diff)))); L " removed[/bold]"]).
End Params.
Export Params.

(** ** Parameter sets *)
Definition wf (p : ParamSet) : Prop :=
  NoDup (od_keys (values p)) /\
  forall n, n ∈ od_keys (values p) -> _normalize_name n = Ok n.

Lemma normalize_idem s n : _normalize_name s = Ok n -> _normalize_name n = Ok n.
Proof.
  unfold _normalize_name. destruct (_ || _) eqn:H; [done|]. intros [= <-].
  pose proof H as [H1 H2]%orb_false_iff.
  rewrite (strip_no_space _ H2), upper_idem. by rewrite H.
Qed.

Lemma from_pairs_into_wf pairs out res :
  wf (mkParamSet out) -> from_pairs_into out pairs = Ok res -> wf (mkParamSet res).
Proof.
  revert out. induction pairs as [|[k v] pairs IH]; intros out Hwf; cbn [from_pairs_into].
  - by intros [= <-].
  - rewrite rbind_ok. intros (f & _ & H). rewrite rbind_ok in H. destruct H as (s & _ & H).
    rewrite rbind_ok in H. destruct H as (n & Hn & H). apply IH in H; [done|].
    destruct Hwf as [Hnd Hk]. split; cbn [values] in *; [by apply od_set_nodup|].
    intros m Hm. apply od_keys_set_elem in Hm as [->|Hm]; [by eapply normalize_idem|by apply Hk].
Qed.

Lemma wf_empty : wf (mkParamSet []).
Proof. split; [constructor|]. cbn. set_solver. Qed.

Lemma from_pairs_wf pairs p : from_pairs pairs = Ok p -> wf p.
Proof.
  unfold from_pairs. destruct (from_pairs_into [] pairs) as [l|e] eqn:H; [|done].
  intros [= <-]. eapply from_pairs_into_wf; [apply wf_empty|done].
Qed.

Lemma as_sorted_dict_get p n : od_get (as_sorted_dict p) n = od_get (values p) n.
Proof.
  unfold as_sorted_dict. rewrite od_get_select. case_decide as Hn; [done|].
  symmetry. apply od_get_none. by rewrite sorted_perm in Hn.
Qed.

Lemma as_sorted_dict_keys p : od_keys (as_sorted_dict p) = S.sorted (od_keys (values p)).
Proof.
  unfold as_sorted_dict. rewrite od_keys_select.
  assert (forall l : list string, (forall n, n ∈ l -> n ∈ od_keys (values p)) ->
            filter (fun k => k ∈ od_keys (values p)) l = (l : list string)) as H.
  { induction l as [|k l IH]; intros Hl; [done|]. rewrite filter_cons, decide_True by set_solver.
    rewrite IH by set_solver. done. }
  apply H. intros n. by rewrite sorted_perm.
Qed.

Lemma as_sorted_dict_wf p : wf p -> wf (mkParamSet (as_sorted_dict p)).
Proof.
  intros [Hnd Hk]. split; cbn [values]; rewrite as_sorted_dict_keys; [by rewrite sorted_perm|].
  intros n. rewrite sorted_perm. apply Hk.
Qed.

(** Reading back well-formed pairs keeps them as they are. *)
Lemma from_pairs_into_same l out :
  NoDup (od_keys out ++ od_keys l) -> (forall n, n ∈ od_keys l -> _normalize_name n = Ok n) ->
  from_pairs_into out (map (fun kv => (VStr kv.1, VFloat kv.2)) l) = Ok (out ++ l).
Proof.
  revert out. induction l as [|[k v] l IH]; intros out Hnd Hn; cbn; [by rewrite app_nil_r|].
  unfold_monad. rewrite (Hn k) by set_solver.
  rewrite od_set_new by (apply NoDup_app in Hnd; set_solver). rewrite IH.
  - by rewrite <- app_assoc.
  - unfold od_keys in *. rewrite map_app, <- app_assoc. exact Hnd.
  - intros n Hin. apply Hn. set_solver.
Qed.

(** ** Diff *)
Definition diff_class (old new : list (string * float)) (tol : float) (name : string)
  : option (string * ParamChange) :=
  match od_get old name, od_get new name with
  | None, nv => Some ("added", mkChange name None nv)
  | Some ov, None => Some ("removed", mkChange name (Some ov) None)
  | Some ov, Some nv =>
      if F.gtb (F.abs (F.sub ov nv)) tol then Some ("changed", mkChange name (Some ov) (Some nv))
      else None
  end.

Definition of_kind (k : string) (o : option (string * ParamChange)) : option ParamChange :=
  '(k', c) ← o; if decide (k' = k) then Some c else None.

Lemma omap_cons_list {A B} (f : A -> option B) a l :
  omap f (a :: l) = option_list (f a) ++ omap f l.
Proof. cbn. by destruct (f a). Qed.

Lemma diff_one_kinds old new tol d n :
  let f k := option_list (of_kind k (diff_class old new tol n)) in
  diff_one tol old new d n =
  mkDiff (added d ++ f "added") (removed d ++ f "removed") (changed d ++ f "changed").
Proof.
  cbn. unfold diff_one, diff_class. destruct d as [a r c].
  destruct (od_get old n) as [ov|], (od_get new n) as [nv|];
    try destruct (F.gtb (F.abs (F.sub ov nv)) tol); cbn; by rewrite ?app_nil_r.
Qed.

Lemma diff_fold old new tol l d :
  let f k := omap (fun n => of_kind k (diff_class old new tol n)) l in
  foldl (diff_one tol old new) d l =
  mkDiff (added d ++ f "added") (removed d ++ f "removed") (changed d ++ f "changed").
Proof.
  cbn. revert d. induction l as [|n l IH]; intros d; cbn [foldl].
  - destruct d. cbn. by rewrite !app_nil_r.
  - rewrite IH, diff_one_kinds. cbn [added removed changed].
    rewrite <- !app_assoc, !omap_cons_list. done.
Qed.

Lemma elem_of_kind old new tol (l : list string) k c :
  c ∈ omap (fun n => of_kind k (diff_class old new tol n)) l <->
  c_name c ∈ l /\ diff_class old new tol (c_name c) = Some (k, c).
Proof.
  rewrite list_elem_of_omap. split.
  - intros (n & Hn & Hc). unfold of_kind in Hc.
    destruct (diff_class old new tol n) as [[k' c']|] eqn:Hd; [|done].
    cbn in Hc. case_decide; [|done]. simplify_eq.
    assert (c_name c = n) as <-; [|done].
    unfold diff_class in Hd. repeat case_match; by simplify_eq.
  - intros [Hin Hd]. exists (c_name c). split; [done|]. unfold of_kind. rewrite Hd.
    cbn. by rewrite decide_True.
Qed.

Lemma elem_of_all_names old new n :
  n ∈ all_names old new <-> is_Some (od_get old n) \/ is_Some (od_get new n).
Proof.
  unfold all_names. rewrite sorted_perm, elem_of_remove_dups, elem_of_app, !od_get_some_key.
  done.
Qed.

(** C39: [diff_params] reports exactly the differences: a change is listed as
    added iff the name is only in the new set, as removed iff it is only in the
    old one, as changed iff both have it and the values differ by more than the
    tolerance, each with the two values. *)
Theorem diff_params_exact old new tol c :
  let d := diff_params old new tol in
  (c ∈ added d <-> c_old c = None /\ od_get (values old) (c_name c) = None /\
     c_new c = od_get (values new) (c_name c) /\ c_new c <> None) /\
  (c ∈ removed d <-> c_new c = None /\ od_get (values new) (c_name c) = None /\
     c_old c = od_get (values old) (c_name c) /\ c_old c <> None) /\
  (c ∈ changed d <-> exists ov nv, c_old c = Some ov /\ c_new c = Some nv /\
     od_get (values old) (c_name c) = Some ov /\ od_get (values new) (c_name c) = Some nv /\
     F.gtb (F.abs (F.sub ov nv)) tol = true).
Proof.
  cbn. unfold diff_params. rewrite diff_fold. cbn [added removed changed app].
  rewrite !elem_of_kind, !elem_of_all_names. unfold diff_class. rewrite !as_sorted_dict_get.
  destruct c as [n co cn]; cbn [c_name c_old c_new].
  destruct (od_get (values old) n) as [ov|] eqn:Ho, (od_get (values new) n) as [nv|] eqn:Hn;
    try destruct (F.gtb (F.abs (F.sub ov nv)) tol) eqn:Hg; split_and!;
    (split; [intros [Hin Heq]; simplify_eq; try (by destruct Hin as [[? ?]|[? ?]])
            |intros Heq; first [destruct Heq as (? & ? & ? & ? & ? & ? & ?)
                               |destruct Heq as (? & ? & ? & ?)]; simplify_eq]);
    try congruence; eauto 10 using mk_is_Some.
Qed.

Lemma sub_self_zero f : F.gtb (F.abs (F.sub f f)) _DEFAULT_TOL = false.
Proof.
  destruct f as [[]|[]| |s m e]; try (vm_compute; reflexivity).
  unfold F.sub, Floats.SpecFloat.SFsub. rewrite Z.min_id.
  replace (_ - _)%Z with 0%Z by lia. destruct s; vm_compute; reflexivity.
Qed.

(** The pairs of a set, as a document holds them. *)
Lemma same_values_empty p q :
  (forall n, od_get (values p) n = od_get (values q) n) ->
  is_empty (diff_params p q _DEFAULT_TOL) = true.
Proof.
  intros Hpq. unfold diff_params. rewrite diff_fold. cbn [added removed changed app].
  assert (forall n, diff_class (as_sorted_dict p) (as_sorted_dict q) _DEFAULT_TOL n = None \/
            od_get (values p) n = None) as Hcl.
  { intros n. unfold diff_class. rewrite !as_sorted_dict_get, <- Hpq.
    destruct (od_get (values p) n); [left|by right]. by rewrite sub_self_zero. }
  assert (forall k, omap (fun n => of_kind k (diff_class (as_sorted_dict p) (as_sorted_dict q)
            _DEFAULT_TOL n)) (all_names (as_sorted_dict p) (as_sorted_dict q)) = []) as Hnil.
  { intros k. destruct (omap _ _) as [|c l] eqn:E; [done|]. exfalso.
    assert (c ∈ c :: l) as Hc by set_solver. rewrite <- E in Hc.
    apply elem_of_kind in Hc as [Hin Hd]. apply elem_of_all_names in Hin.
    rewrite !as_sorted_dict_get, <- Hpq in Hin. destruct (Hcl (c_name c)) as [Hn|Hn];
      [congruence|]. rewrite Hn in Hin. by destruct Hin as [[? ?]|[? ?]]. }
  by rewrite !Hnil.
Qed.

(** The snapshot round trip: when the JSON library reads back the document
    it wrote, loading a snapshot of a set built by [from_pairs] gives the same
    parameters with the same values, so that their diff is empty. *)
Lemma snapshot_roundtrip json_dumps json_loads pairs p now metadata path
    (Hp : from_pairs pairs = Ok p)
    (Hjson : json_loads (write_json_snapshot json_dumps p now metadata)
             = Ok (snapshot_payload p now metadata)) :
  exists q, load_json_snapshot json_loads path
              (write_json_snapshot json_dumps p now metadata) = Ok q /\
    (forall n, od_get (values q) n = od_get (values p) n) /\
    is_empty (diff_params p q _DEFAULT_TOL) = true.
Proof.
  exists (mkParamSet (as_sorted_dict p)). split_and!.
  - unfold load_json_snapshot. rewrite Hjson.
    transitivity (from_mapping (map (fun kv => (VStr kv.1, VFloat kv.2)) (as_sorted_dict p)));
      [reflexivity|].
    unfold from_mapping, from_pairs. rewrite from_pairs_into_same; [done| |].
    + cbn. apply as_sorted_dict_wf. by eapply from_pairs_wf.
    + apply as_sorted_dict_wf. by eapply from_pairs_wf.
  - apply as_sorted_dict_get.
  - apply same_values_empty. intros n. symmetry. apply as_sorted_dict_get.
Qed.

Definition demo_pairs : list (PyVal * PyVal) :=
  [(VStr " servo1_min ", VInt 1000); (VStr "ATC_STR_RAT_P", VFloat (F.of_dec 2 (-1)));
   (VStr "SERVO1_MIN", VStr "1100")].

Example demo_from_pairs :
  from_pairs demo_pairs =
  Ok (mkParamSet [("SERVO1_MIN", F.of_Z 1100); ("ATC_STR_RAT_P", F.of_dec 2 (-1))]).
Proof. vm_compute. reflexivity. Qed.

Example demo_parm_text :
  _parse_parm_text (S.join (String.String (Ascii.ascii_of_nat 10) EmptyString)
    ["# comment"; "SERVO1_MIN,1000 // min"; ""; "atc_str_rat_p  0.2"]) =
  Ok (mkParamSet [("SERVO1_MIN", F.of_Z 1000); ("ATC_STR_RAT_P", F.of_dec 2 (-1))]).
Proof. vm_compute. reflexivity. Qed.

Lemma snapshot_roundtrip_witness :
  let p := mkParamSet [("SERVO1_MIN", F.of_Z 1100); ("ATC_STR_RAT_P", F.of_dec 2 (-1))] in
  exists q, load_json_snapshot (fun _ => Ok (snapshot_payload p "now" [])) "a.json"
              (write_json_snapshot (fun _ => "text") p "now" []) = Ok q /\
    (forall n, od_get (values q) n = od_get (values p) n) /\
    is_empty (diff_params p q _DEFAULT_TOL) = true.
Proof. eapply snapshot_roundtrip; [exact demo_from_pairs|reflexivity]. Defined.
