(* ===== verification/ParamsMav.v ===== *)
(** * Parameters over MAVLink (params/mav.py)

    Fetching every parameter and applying a set with read-back verification,
    over a [Link].  The theorem on [apply_params] holds of any link. *)

From stdpp Require Import base gmap sets list strings option.
From Stdlib Require Import Ascii ZArith Lia.
From S2P Require Import Prelude Float64 PyVal Link Params.

Module ParamsMav.
Record ApplyResult : Type := mkApply
  { applied : list (string * float); failures : list (string * float * FStr) }.

Definition ok (r : ApplyResult) : bool := Nat.eqb (length (failures r)) 0.
Definition partial (r : ApplyResult) : bool :=
  Nat.ltb 0 (length (applied r)) && Nat.ltb 0 (length (failures r)).

Definition _VERIFY_TOL : float := F.of_dec 1 (-4).

(** [raw] as pymavlink delivers it, a [str]. *)
Definition _decode_name (raw : string) : string :=
  S.upper (S.strip (S.before (String.String (ascii_of_nat 0) EmptyString) raw)).

Definition is_ascii (c : ascii) : bool := (S.code c <? 128)%N.

Definition _encode_name (name : string) : res exn string :=
  let encoded := S.upper name in
  if negb (forallb is_ascii (S.chars encoded)) then
    raise_ UnicodeError [L "'ascii' codec can't encode characters"]
  else if Nat.ltb 16 (String.length encoded) then
    raise_ ValueError [L "param name "; VF (VStr name) "r"; L " exceeds 16 bytes"]
  else Ok encoded.

Section mav.
Context {W : Type} `{!Link W}.
Variable fuel : nat.
Local Open Scope Z_scope.

Definition pv_fields (m : Msg) : res exn (string * float * Z) :=
  match m with
  | PARAM_VALUE id v n => Ok (id, v, n)
  | _ => no_attr m "param_id"
  end.

(** Loop variables: [collected], [expected], [last_rx]. *)
Definition fetch_round (deadline quiet_window : Z)
    (st : list (string * float) * option Z * Z)
  : prog exn W (list (string * float) * option Z * Z + list (string * float)) :=
  let '(collected, expected, last_rx) := st in
  now ← l_time;
  if now <? deadline then
    msg ← l_recv ["PARAM_VALUE"] (Some (ms 500));
    match msg with
    | None =>
        match collected with
        | [] => mret (inl st)
        | _ =>
            now ← l_time;
            if quiet_window <? now - last_rx then mret (inr collected) else mret (inl st)
        end
    | Some msg =>
        '(param_id, param_value, param_count) ← plift (pv_fields msg);
        let collected := od_set collected (_decode_name param_id) param_value in
        last_rx ← l_time;
        let exp := match expected with None => param_count | Some e => e end in
        if negb (exp =? 0) && (exp <=? Z.of_nat (length collected)) then mret (inr collected)
        else mret (inl (collected, Some exp, last_rx))
    end
  else mret (inr collected).

Definition fetch_params (timeout quiet_window : Z) : prog exn W ParamSet :=
  _ ← l_send param_request_list_send;
  last_rx ← l_time;
  collected ← ploop fuel (fetch_round (last_rx + timeout) quiet_window) ([], None, last_rx);
  plift (from_mapping (map (fun kv => (VStr kv.1, VFloat kv.2)) collected)).

Definition echo_round (name : string) (deadline : Z) (_ : unit)
  : prog exn W (unit + option float) :=
  now ← l_time;
  if now <? deadline then
    msg ← l_recv ["PARAM_VALUE"] (Some (ms 250));
    match msg with
    | None => mret (inl tt)
    | Some msg =>
        '(param_id, param_value, _) ← plift (pv_fields msg);
        if bool_decide (_decode_name param_id = name) then mret (inr (Some param_value))
        else mret (inl tt)
    end
  else mret (inr None).

Definition _await_param_echo (name : string) (timeout : Z) : prog exn W (option float) :=
  now ← l_time;
  ploop fuel (echo_round name (now + timeout)) tt.

Definition MAV_PARAM_TYPE_REAL32 : Z := 9.

(** The [for _attempt in range(1, max_retries + 1)] loop: the value applied, or
    the last error. *)
Fixpoint attempts (verify : bool) (per_param_timeout : Z) (name encoded : string) (value : float)
    (n : nat) (last_error : FStr) : prog exn W (float + FStr) :=
  match n with
  | O => mret (inr last_error)
  | Datatypes.S n' =>
      _ ← l_send (param_set_send encoded value MAV_PARAM_TYPE_REAL32);
      if negb verify then mret (inl value)
      else
        echo ← _await_param_echo name per_param_timeout;
        match echo with
        | None => attempts verify per_param_timeout name encoded value n'
                    [L "no PARAM_VALUE echo"]
        | Some echo =>
            if F.leb (F.abs (F.sub echo value)) _VERIFY_TOL then mret (inl echo)
            else attempts verify per_param_timeout name encoded value n'
                   [L "echo "; V (VFloat echo); L " != requested "; V (VFloat value)]
        end
  end.

Definition apply_one (verify : bool) (per_param_timeout : Z) (max_retries : nat)
    (acc : ApplyResult) (kv : string * float) : prog exn W ApplyResult :=
  let '(name, value) := kv in
  encoded ← plift (_encode_name name);
  r ← attempts verify per_param_timeout name encoded value max_retries [L "no response"];
  match r with
  | inr last_error => mret (mkApply (applied acc) (failures acc ++ [(name, value, last_error)]))
  | inl v => mret (mkApply (od_set (applied acc) name v) (failures acc))
  end.

Definition apply_params (params : ParamSet) (verify : bool) (per_param_timeout : Z)
    (max_retries : nat) : prog exn W ApplyResult :=
  pfold (apply_one verify per_param_timeout max_retries) (mkApply [] []) (as_sorted_dict params).
End mav.
End ParamsMav.
Export ParamsMav.

Section facts.
Context {W : Type} `{!Link W}.
Implicit Types t : list Event.
Local Open Scope Z_scope.

Lemma echo_trace fuel name timeout (w w' : W) t t' (o : option float) :
  _await_param_echo fuel name timeout (w, t) = Some (Ok o, (w', t')) ->
  exists d, t' = t ++ d /\ forall s, Sent s ∉ d.
Proof.
  unfold _await_param_echo. intros H. apply pbind_ok_inv in H as (now & [w1 t1] & H1 & H).
  apply traced_time in H1 as ->.
  refine (triple_loop (fun _ wt => exists d, wt.2 = t ++ d /\ forall s, Sent s ∉ d) _
    (fun r wt => match r with Ok _ => exists d, wt.2 = t ++ d /\ forall s, Sent s ∉ d
                            | Err _ => True end) fuel tt _ (w1, t) (Ok o) (w', t') _ H).
  2:{ exists []. split; [by rewrite app_nil_r|]. set_solver. }
  clear. intros [] [w t1] [r|e] [w' t'] (d & Ht & Hd) H; [|done]. cbn [snd] in Ht. subst t1.
  unfold echo_round in H.
  apply pbind_ok_inv in H as (now2 & [w2 t2] & H2 & H). apply traced_time in H2 as ->.
  case_match.
  2:{ cbv [mret prog_ret] in H. simplify_eq. by exists d. }
  apply pbind_ok_inv in H as (om & [w3 t3] & H3 & H). apply traced_recv in H3 as ->.
  assert (forall m, exists d', (t ++ d) ++ [Got m] = t ++ d' /\ forall s, Sent s ∉ d') as Hgot.
  { intros m. exists (d ++ [Got m]). split; [by rewrite app_assoc|]. set_solver. }
  destruct om as [m|].
  2:{ cbv [mret prog_ret] in H. simplify_eq. exists d. by rewrite app_nil_r. }
  apply pbind_ok_inv in H as ([[? ?] ?] & [w4 t4] & H4 & H). cbv [plift] in H4. simplify_eq.
  case_match; cbv [mret prog_ret] in H; simplify_eq; apply Hgot.
Qed.

(** The events an attempt to set [name] adds. *)
Definition sets_only (encoded : string) (value : float) (n : nat) (d : list Event) : Prop :=
  (forall s, Sent s ∈ d -> s = param_set_send encoded value MAV_PARAM_TYPE_REAL32) /\
  (length (omap (fun e => match e with Sent s => Some s | Got _ => None end) d) <= n)%nat.

Lemma no_sent_omap d : (forall s, Sent s ∉ d) ->
  omap (fun e => match e with Sent s => Some s | Got _ => None end) d = [].
Proof.
  induction d as [|[s|m] d IH]; intros H; [done| |]; cbn.
  - destruct (H s). set_solver.
  - apply IH. set_solver.
Qed.

Lemma attempts_spec fuel verify tmo name encoded value n last (w w' : W) t t' r :
  attempts fuel verify tmo name encoded value n last (w, t) = Some (Ok r, (w', t')) ->
  exists d, t' = t ++ d /\ sets_only encoded value n d /\
    match r with
    | inl v => if verify then F.leb (F.abs (F.sub v value)) _VERIFY_TOL = true else v = value
    | inr _ => True
    end.
Proof.
  revert w t last. induction n as [|n IH]; intros w t last H; cbn [attempts] in H.
  - cbv [mret prog_ret] in H. simplify_eq. exists []. rewrite app_nil_r.
    split_and!; [done|split; [set_solver|done]|done].
  - apply pbind_ok_inv in H as (? & [w1 t1] & H1 & H). apply traced_send in H1 as ->.
    set (snd := Sent (param_set_send encoded value MAV_PARAM_TYPE_REAL32)) in *.
    destruct verify; cbn [negb] in H.
    2:{ cbv [mret prog_ret] in H. simplify_eq. exists [snd]. split_and!; [done| |done].
        split; [set_solver|cbn; lia]. }
    apply pbind_ok_inv in H as (echo & [w2 t2] & H2 & H). apply echo_trace in H2 as (d & -> & Hd).
    assert (forall n d', sets_only encoded value n d' ->
              sets_only encoded value (S n) (snd :: d ++ d')) as Hmore.
    { intros n0 d' [Hs Hl]. split.
      - intros s. rewrite elem_of_cons, elem_of_app. intros [[= ->]|[?|?]]; [done| |by apply Hs].
        by destruct (Hd s).
      - cbn. rewrite omap_app, (no_sent_omap d Hd). cbn. lia. }
    destruct echo as [echo|].
    + destruct (F.leb (F.abs (F.sub echo value)) _VERIFY_TOL) eqn:Hle.
      * cbv [mret prog_ret] in H. simplify_eq. exists (snd :: d).
        rewrite <- app_assoc. split_and!; [done| |done].
        rewrite <- (app_nil_r d). apply Hmore. split; [set_solver|cbn; lia].
      * apply IH in H as (d' & -> & Hs & Hr). exists (snd :: d ++ d').
        rewrite <- !app_assoc. split_and!; [done|by apply Hmore|done].
    + apply IH in H as (d' & -> & Hs & Hr). exists (snd :: d ++ d').
      rewrite <- !app_assoc. split_and!; [done|by apply Hmore|done].
Qed.

Definition accounted (verify : bool) (l : list (string * float)) (r : ApplyResult) : Prop :=
  od_keys (applied r) ++ map (fun f => f.1.1) (failures r) ≡ₚ od_keys l /\
  (forall n v, (n, v) ∈ applied r -> exists want, (n, want) ∈ l /\
     if verify then F.leb (F.abs (F.sub v want)) _VERIFY_TOL = true else v = want) /\
  (forall n v why, (n, v, why) ∈ failures r -> (n, v) ∈ l).

Definition sends_of (max_retries : nat) (l : list (string * float)) (d : list Event) : Prop :=
  (forall s, Sent s ∈ d -> exists n want encoded, (n, want) ∈ l /\
     _encode_name n = Ok encoded /\ s = param_set_send encoded want MAV_PARAM_TYPE_REAL32) /\
  (length (omap (fun e => match e with Sent s => Some s | Got _ => None end) d)
   <= max_retries * length l)%nat.

Lemma apply_one_spec fuel verify tmo retries acc done_ kv (w w' : W) t t' acc' :
  accounted verify done_ acc -> kv.1 ∉ od_keys done_ ->
  apply_one fuel verify tmo retries acc kv (w, t) = Some (Ok acc', (w', t')) ->
  accounted verify (done_ ++ [kv]) acc' /\ exists d, t' = t ++ d /\ sends_of retries [kv] d.
Proof.
  destruct kv as [name value]. cbn [fst]. intros (Hperm & Happ & Hfail) Hnew H.
  unfold apply_one in H.
  apply pbind_ok_inv in H as (encoded & [w1 t1] & H1 & H). cbv [plift] in H1.
  injection H1 as Henc <- <-.
  apply pbind_ok_inv in H as (r & [w2 t2] & H2 & H).
  apply attempts_spec in H2 as (d & -> & [Hs Hl] & Hr).
  assert (exists d0, t ++ d = t ++ d0 /\ sends_of retries [(name, value)] d0) as Hsends.
  { exists d. split; [done|]. split; [|cbn; lia]. intros s ->%Hs.
    exists name, value, encoded. split; [set_solver|done]. }
  assert (forall n v, (n, v) ∈ done_ -> (n, v) ∈ done_ ++ [(name, value)]) as Hmono by set_solver.
  assert (od_keys (done_ ++ [(name, value)]) = od_keys done_ ++ [name]) as Hk
    by (unfold od_keys; by rewrite map_app).
  destruct r as [v|why]; cbv [mret prog_ret] in H; simplify_eq; (split; [|done]).
  - assert (name ∉ od_keys (applied acc)) as Hna.
    { intros Hin. apply Hnew. rewrite <- Hperm. set_solver. }
    unfold accounted. cbn [applied failures]. rewrite od_set_new by done.
    unfold od_keys at 1. rewrite map_app, Hk, <- Hperm. split_and!.
    + cbn. rewrite <- !app_assoc. by rewrite (Permutation_app_comm [name]).
    + intros n v' [Hin|Hin]%elem_of_app.
      * destruct (Happ _ _ Hin) as (want & ? & ?). eauto.
      * apply list_elem_of_singleton in Hin as [= -> ->]. exists value. split; [set_solver|done].
    + intros n v' why Hin. eauto.
  - unfold accounted. cbn [applied failures]. rewrite Hk, map_app, <- Hperm. split_and!.
    + cbn. by rewrite app_assoc.
    + intros n v Hin. destruct (Happ _ _ Hin) as (want & ? & ?). eauto.
    + intros n v why' [Hin|Hin]%elem_of_app; [by eauto|].
      apply list_elem_of_singleton in Hin as [= -> -> ->]. set_solver.
Qed.

Lemma apply_all_spec fuel verify tmo retries l acc done_ (w w' : W) t t' acc' :
  accounted verify done_ acc -> NoDup (od_keys (done_ ++ l)) ->
  pfold (apply_one fuel verify tmo retries) acc l (w, t) = Some (Ok acc', (w', t')) ->
  accounted verify (done_ ++ l) acc' /\ exists d, t' = t ++ d /\ sends_of retries l d.
Proof.
  revert acc done_ w t. induction l as [|kv l IH]; intros acc done_ w t Hacc Hnd H.
  - cbv [pfold mret prog_ret] in H. simplify_eq. rewrite app_nil_r. split; [done|].
    exists []. rewrite app_nil_r. split; [done|]. split; [set_solver|cbn; lia].
  - cbn [pfold] in H. apply pbind_ok_inv in H as (acc1 & [w1 t1] & H1 & H).
    assert (kv.1 ∉ od_keys done_) as Hnew.
    { unfold od_keys in *. rewrite map_app in Hnd. cbn in Hnd. apply list.NoDup_app in Hnd. set_solver. }
    destruct (apply_one_spec _ _ _ _ _ _ _ _ _ _ _ _ Hacc Hnew H1) as [Hacc1 (d1 & -> & Hs1 & Hl1)].
    replace (done_ ++ kv :: l) with ((done_ ++ [kv]) ++ l) in * by (by rewrite <- app_assoc).
    destruct (IH _ _ _ _ Hacc1 Hnd H) as [Hacc2 (d2 & -> & Hs2 & Hl2)].
    split; [done|]. exists (d1 ++ d2). rewrite app_assoc. split; [done|]. split.
    + intros s [Hs|Hs]%elem_of_app.
      * destruct (Hs1 _ Hs) as (n & want & e & Hin & ?). exists n, want, e. split; [set_solver|done].
      * destruct (Hs2 _ Hs) as (n & want & e & Hin & ?). exists n, want, e. split; [set_solver|done].
    + rewrite omap_app, length_app. cbn [length] in *. lia.
Qed.

End facts.

(** An autopilot that echoes what it is told, except that it clamps SPEED_MAX. *)
#[local] Instance echoing : Link (list Msg) := {
  l_time w := Some (Ok 0%Z, w);
  l_sleep _ w := Some (Ok tt, w);
  l_recv _ _ w := match w with m :: w' => Some (Ok (Some m), w') | [] => Some (Ok None, []) end;
  l_send s w := match s with
    | param_set_send n v _ =>
        Some (Ok tt, w ++ [PARAM_VALUE n (if bool_decide (n = "SPEED_MAX") then F.one else v) 1])
    | _ => Some (Ok tt, w)
    end
}.

Definition demo_set := mkParamSet [("SPEED_MAX", F.of_Z 3); ("ATC_P", F.of_dec 2 (-1))].

