(* ===== verification/Geometry.v ===== *)
(** * Planar geometry and projections

    The interface to shapely and pyproj: the geometry operations the zone code
    calls, on an abstract type of geometries, and the coordinate transformer.
    Both libraries may raise, so each constructor-like call returns a [res]. *)

From stdpp Require Import base list strings option.
From S2P Require Import Prelude Float64 PyVal.

Definition pt : Type := (float * float)%type.

(** What [hasattr(g, 'exterior')], [hasattr(g, 'geoms')] and [geom_type] tell
    apart. *)
Inductive View (G : Type) : Type :=
| GPolygon (exterior : list pt) (interiors : list (list pt))
| GMulti (geoms : list G)
| GLineString (coords : list pt)
| GMultiLineString (segments : list (list pt))
| GOther.
Arguments GPolygon {G} exterior interiors.
Arguments GMulti {G} geoms.
Arguments GLineString {G} coords.
Arguments GMultiLineString {G} segments.
Arguments GOther {G}.

Class Shapely (G : Type) := {
  g_polygon : list pt -> res exn G;
  g_linestring : list pt -> res exn G;
  g_is_valid : G -> bool;
  g_is_empty : G -> bool;
  g_area : G -> float;
  g_bounds : G -> float * float * float * float;
  g_buffer : G -> float -> res exn G;
  g_difference : G -> G -> res exn G;
  g_intersection : G -> G -> res exn G;
  g_contains_pt : G -> pt -> res exn bool;
  g_touches_pt : G -> pt -> res exn bool;
  g_contains : G -> G -> res exn bool;
  g_rotate : G -> float -> pt -> res exn G;
  g_view : G -> View G
}.

(** [Transformer.from_crs(...)] of a CRS string, in both directions, on (x, y)
    pairs ([always_xy=True]). *)
Class Pyproj := {
  to_utm : string -> list pt -> res exn (list pt);
  to_wgs84 : string -> list pt -> res exn (list pt)
}.
