(* ===== verification/ZoneConfig.v ===== *)
(** * Zone configuration (zone/config.py)

    Coercion and validation of a zone document, and loading one file or a
    directory of them.  The YAML loader and the polygon library are parameters;
    a file is [None] when it does not exist, else the outcome of reading it. *)

From stdpp Require Import base list strings option.
From Stdlib Require Import Ascii ZArith Lia.
From S2P Require Import Prelude Float64 PyVal Geometry.

Module ZoneConfig.
Record LatLon : Type := mkLatLon { lat : float; lon : float }.
Record RallyPoint : Type := { rp_lat : float; rp_lon : float; rp_description : PyVal }.
Record ExclusionZone : Type := { ez_name : string; ez_buffer_m : float; ez_polygon : list LatLon }.

Record CoverageParams : Type := {
  pattern : string; cutting_width_in : float; overlap_pct : float; angle_deg : float;
  headland_passes : Z; mow_speed_mps : float; turn_speed_mps : float }.
Definition CoverageParams_default : CoverageParams :=
  {| pattern := "boustrophedon"; cutting_width_in := F.of_Z 54; overlap_pct := F.of_Z 10;
     angle_deg := F.zero; headland_passes := 2; mow_speed_mps := F.of_Z 2;
     turn_speed_mps := F.one |}.

Record MissionCommands : Type := { fence_enable : bool; resume_dist_m : float; blade_engage : bool }.
Definition MissionCommands_default : MissionCommands :=
  {| fence_enable := true; resume_dist_m := F.of_dec 25 (-1); blade_engage := true |}.

Record SlamOverrides : Type := { slam_mode : string }.
Record OutputConfig : Type := { waypoints_file : string; geojson_file : string }.

Record ZoneConfig : Type := {
  schema : string; zone_id : string; zname : string; home : LatLon; rally_point : RallyPoint;
  boundary : list LatLon; description : string; exclusion_zones : list ExclusionZone;
  coverage : CoverageParams; commands : MissionCommands; slam : SlamOverrides;
  output : OutputConfig }.

Definition zerr {A} (m : FStr) : res exn A := raise_ ZoneConfigError m.

(** [e]'s text after a prefix, re-raised as a [ZoneConfigError]. *)
Definition rewrap {A} (cs : list ExnClass) (prefix : FStr) (m : res exn A) : res exn A :=
  except cs m (fun e => zerr (prefix ++ exn_msg e)).

Definition _coerce_latlng (raw : PyVal) (name : FStr) : res exn LatLon :=
  let bad := zerr (name ++ [L ": must be [lat, lon] or {lat: ..., lon: ...}"]) in
  match raw with
  | VList [a; b] => la ← py_float a; lo ← py_float b; Ok (mkLatLon la lo)
  | VDict d =>
      match dget d "lat", dget d "lon" with
      | Some a, Some b => la ← py_float a; lo ← py_float b; Ok (mkLatLon la lo)
      | _, _ => bad
      end
  | _ => bad
  end.

Definition _coerce_rally_point (raw : PyVal) : res exn RallyPoint :=
  match raw with
  | VDict d =>
      match dget d "lat", dget d "lon" with
      | Some a, Some b =>
          la ← py_float a; lo ← py_float b;
          Ok {| rp_lat := la; rp_lon := lo; rp_description := dget_or d "description" (VStr "") |}
      | _, _ => zerr [L "rally_point: missing lat/lon"]
      end
  | _ => zerr [L "rally_point: must be dict"]
  end.

Definition at_index (name : FStr) (i : nat) : FStr := name ++ [L "["; V (VInt (Z.of_nat i)); L "]"].

(** The [enumerate] loop over the vertices, from index [i]. *)
Fixpoint coerce_points (name : FStr) (i : nat) (raw : list PyVal) : res exn (list LatLon) :=
  match raw with
  | [] => Ok []
  | p :: raw' =>
      q ← rewrap [ZoneConfigError] (at_index name i ++ [L ": "])
            (_coerce_latlng p (at_index name i));
      qs ← coerce_points name (S i) raw'; Ok (q :: qs)
  end.

Section geometry.
Context {G : Type} `{!Shapely G}.

Definition coords (points : list LatLon) : list pt := map (fun p => (lat p, lon p)) points.

(** The [try: poly = Polygon(coords) ... except Exception] block. *)
Definition check_polygon (points : list LatLon) (invalid failed : FStr) : res exn unit :=
  rewrap [Exception] failed
    (poly ← g_polygon (coords points);
     if g_is_valid poly then Ok tt else zerr invalid).

Definition _coerce_boundary (raw : PyVal) : res exn (list LatLon) :=
  match raw with
  | VList raw =>
      if Nat.ltb (length raw) 3 then zerr [L "boundary: must have at least 3 vertices"]
      else
        points ← coerce_points [L "boundary"] 0 raw;
        _ ← check_polygon points [L "boundary: invalid polygon geometry"]
              [L "boundary: Shapely validation failed: "];
        Ok points
  | _ => zerr [L "boundary: must be list"]
  end.

Definition coerce_exclusion (i : nat) (zone_raw : PyVal) : res exn ExclusionZone :=
  let at_i := at_index [L "exclusion_zones"] i in
  match zone_raw with
  | VDict d =>
      match dget d "name" with
      | None => zerr (at_i ++ [L ": missing name"])
      | Some name =>
          match dget d "polygon" with
          | None => zerr (at_i ++ [L ": missing polygon"])
          | Some polygon_raw =>
              let short := zerr (at_i ++ [L ".polygon: must be list with ≥3 vertices"]) in
              match polygon_raw with
              | VList raw =>
                  if Nat.ltb (length raw) 3 then short
                  else
                    points ← coerce_points (at_i ++ [L ".polygon"]) 0 raw;
                    _ ← check_polygon points (at_i ++ [L ".polygon: invalid geometry"])
                          (at_i ++ [L ".polygon: validation failed: "]);
                    buf ← py_float (dget_or d "buffer_m" (VFloat F.zero));
                    Ok {| ez_name := py_str name; ez_buffer_m := buf; ez_polygon := points |}
              | _ => short
              end
          end
      end
  | _ => zerr (at_i ++ [L ": must be dict"])
  end.

Fixpoint coerce_exclusions (i : nat) (raw : list PyVal) : res exn (list ExclusionZone) :=
  match raw with
  | [] => Ok []
  | z :: raw' => e ← coerce_exclusion i z; es ← coerce_exclusions (S i) raw'; Ok (e :: es)
  end.

Definition _coerce_exclusion_zones (raw : PyVal) : res exn (list ExclusionZone) :=
  match raw with
  | VList raw => coerce_exclusions 0 raw
  | _ => zerr [L "exclusion_zones: must be list"]
  end.

Definition _coerce_coverage (raw : PyVal) : res exn CoverageParams :=
  match raw with
  | VDict d =>
      cutting_width ← py_float (dget_or d "cutting_width_in" (VFloat (F.of_Z 54)));
      if F.leb cutting_width F.zero then zerr [L "coverage.cutting_width_in: must be > 0"]
      else
      overlap ← py_float (dget_or d "overlap_pct" (VFloat (F.of_Z 10)));
      if negb (F.leb F.zero overlap && F.leb overlap (F.of_Z 50)) then
        zerr [L "coverage.overlap_pct: must be 0-50"]
      else
      mow_speed ← py_float (dget_or d "mow_speed_mps" (VFloat (F.of_Z 2)));
      if F.leb mow_speed F.zero then zerr [L "coverage.mow_speed_mps: must be > 0"]
      else
      turn_speed ← py_float (dget_or d "turn_speed_mps" (VFloat F.one));
      if F.leb turn_speed F.zero then zerr [L "coverage.turn_speed_mps: must be > 0"]
      else
      angle ← py_float (dget_or d "angle_deg" (VFloat F.zero));
      passes ← py_int (dget_or d "headland_passes" (VInt 2));
      Ok {| pattern := py_str (dget_or d "pattern" (VStr "boustrophedon"));
            cutting_width_in := cutting_width; overlap_pct := overlap; angle_deg := angle;
            headland_passes := passes; mow_speed_mps := mow_speed;
            turn_speed_mps := turn_speed |}
  | _ => Ok CoverageParams_default
  end.

Definition _coerce_commands (raw : PyVal) : res exn MissionCommands :=
  match raw with
  | VDict d =>
      dist ← py_float (dget_or d "resume_dist_m" (VFloat (F.of_dec 25 (-1))));
      Ok {| fence_enable := py_bool (dget_or d "fence_enable" (VBool true));
            resume_dist_m := dist;
            blade_engage := py_bool (dget_or d "blade_engage" (VBool true)) |}
  | _ => Ok MissionCommands_default
  end.

Definition _coerce_slam (raw : PyVal) : SlamOverrides :=
  match raw with
  | VDict d => {| slam_mode := py_str (dget_or d "mode" (VStr "localization")) |}
  | _ => {| slam_mode := "localization" |}
  end.

Definition _coerce_output (raw : PyVal) : OutputConfig :=
  match raw with
  | VDict d => {| waypoints_file := py_str (dget_or d "waypoints_file" (VStr ""));
                  geojson_file := py_str (dget_or d "geojson_file" (VStr "")) |}
  | _ => {| waypoints_file := ""; geojson_file := "" |}
  end.

Definition id_char (c : ascii) : bool :=
  S.is_lower c || S.is_digit c || bool_decide (c = "_"%char) || bool_decide (c = "-"%char).

Definition newline : ascii := ascii_of_N 10.

(** [re.match(r"^[a-z][a-z0-9_-]{0,31}$", s)]: [$] also matches before a final
    newline. *)
Definition zone_id_match (s : string) : bool :=
  let l := S.chars s in
  let body := match rev l with
              | c :: r => if decide (c = newline) then rev r else l
              | [] => l
              end in
  match body with
  | c :: cs => S.is_lower c && forallb id_char cs && Nat.leb (length cs) 31
  | [] => false
  end.

Definition required (raw : list (PyVal * PyVal)) (k : string) : res exn PyVal :=
  match dget raw k with
  | Some v => Ok v
  | None => zerr [L "missing required field: "; L k]
  end.

Definition _coerce (raw : list (PyVal * PyVal)) : res exn ZoneConfig :=
  r_schema ← required raw "schema";
  r_zone_id ← required raw "zone_id";
  r_name ← required raw "name";
  r_home ← required raw "home";
  r_rally ← required raw "rally_point";
  r_boundary ← required raw "boundary";
  let zid := py_str r_zone_id in
  if negb (zone_id_match zid) then zerr [L "zone_id: must match ^[a-z][a-z0-9_-]{0,31}$"]
  else
    home ← _coerce_latlng r_home [L "home"];
    rally ← _coerce_rally_point r_rally;
    bnd ← _coerce_boundary r_boundary;
    excl ← _coerce_exclusion_zones (dget_or raw "exclusion_zones" (VList []));
    cov ← _coerce_coverage (dget_or raw "coverage" (VDict []));
    cmds ← _coerce_commands (dget_or raw "commands" (VDict []));
    Ok {| schema := py_str r_schema; zone_id := zid; zname := py_str r_name;
          home := home; rally_point := rally; boundary := bnd;
          description := py_str (dget_or raw "description" (VStr ""));
          exclusion_zones := excl; coverage := cov; commands := cmds;
          slam := _coerce_slam (dget_or raw "slam" (VDict []));
          output := _coerce_output (dget_or raw "output" (VDict [])) |}.

(** ** Validation: (severity, message) pairs *)
Definition Issue : Type := (string * FStr)%type.

Definition check_latlng (la lo : float) (name : FStr) : list Issue :=
  (if F.leb (F.of_Z (-90)) la && F.leb la (F.of_Z 90) then []
   else [("ERROR", name ++ [L ".lat: must be -90 to 90, got "; V (VFloat la)])]) ++
  (if F.leb (F.of_Z (-180)) lo && F.leb lo (F.of_Z 180) then []
   else [("ERROR", name ++ [L ".lon: must be -180 to 180, got "; V (VFloat lo)])]).

Definition area_issues (bnd : list LatLon) : list Issue :=
  match g_polygon (coords bnd) with
  | Ok poly =>
      let area := F.mul (g_area poly) (F.of_Z (111000 ^ 2)) in
      if F.ltb area (F.of_Z 100) then
        [("WARN", [L "boundary area very small: ~"; VF (VFloat area) ".0f"; L " m²"])]
      else if F.gtb area (F.of_Z 100000) then
        [("WARN", [L "boundary area very large: ~"; VF (VFloat area) ".0f"; L " m²"])]
      else []
  | Err _ => []
  end.

Definition rally_inside (cfg : ZoneConfig) : res exn bool :=
  poly ← g_polygon (coords (boundary cfg));
  let p := (rp_lat (rally_point cfg), rp_lon (rally_point cfg)) in
  c ← g_contains_pt poly p;
  if (c : bool) then Ok true else g_touches_pt poly p.

Definition rally_issues (cfg : ZoneConfig) : list Issue :=
  match rally_inside cfg with
  | Ok false => [("WARN", [L "rally_point should be inside or at edge of boundary"])]
  | _ => []
  end.

(** The loop stops at the first geometry failure and keeps what it found. *)
Fixpoint exclusion_issues (poly : G) (zones : list ExclusionZone) : list Issue :=
  match zones with
  | [] => []
  | z :: zones' =>
      match (zp ← g_polygon (coords (ez_polygon z)); g_contains poly zp) with
      | Err _ => []
      | Ok inside =>
          (if (inside : bool) then []
           else [("WARN", [L "exclusion zone '"; L (ez_name z); L "' extends outside boundary"])])
          ++ exclusion_issues poly zones'
      end
  end.

Definition validate_zone_config (cfg : ZoneConfig) : list Issue :=
  check_latlng (lat (home cfg)) (lon (home cfg)) [L "home"] ++
  check_latlng (rp_lat (rally_point cfg)) (rp_lon (rally_point cfg)) [L "rally_point"] ++
  concat (imap (fun i p => check_latlng (lat p) (lon p) (at_index [L "boundary"] i))
            (boundary cfg)) ++
  area_issues (boundary cfg) ++
  rally_issues cfg ++
  match g_polygon (coords (boundary cfg)) with
  | Ok poly => exclusion_issues poly (exclusion_zones cfg)
  | Err _ => []
  end.

(** ** Loading *)
Variable yaml_safe_load : string -> res exn PyVal.

(** A file that exists: what reading it gives. *)
Abbreviation File := (option (res exn string)).

Definition load_zone_config (path : string) (file : File) : res exn ZoneConfig :=
  match file with
  | None => raise_ FileNotFoundError [L "Zone config not found: "; L path]
  | Some text =>
      raw ← rewrap [YAMLError] [L "Invalid YAML in "; L path; L ": "]
              (text ← text; yaml_safe_load text);
      match raw with
      | VNone => zerr [L "Empty YAML file: "; L path]
      | VDict d => _coerce d
      | v => zerr [L "YAML root must be dict, got <class '"; L (type_name v); L "'>"]
      end
  end.

(** What one file contributes: [None] when it is skipped. *)
Definition load_one_zone (pf : string * File) : res exn (option ZoneConfig) :=
  except [ZoneConfigError; FileNotFoundError; YAMLError]
    (cfg ← load_zone_config pf.1 pf.2;
     if S.startswith (schema cfg) "mower-rover.zone." then Ok (Some cfg) else Ok None)
    (fun _ => Ok None).

(** [files]: what [zones_dir.glob("*.yaml")] yields, or [None] when there is no
    such directory. *)
Definition load_all_zones (files : option (list (string * File))) : res exn (list ZoneConfig) :=
  match files with
  | None => Ok []
  | Some files =>
      match rmap load_one_zone files with
      | Ok l => Ok (omap (fun o => o) l)
      | Err e => Err e
      end
  end.
End geometry.
End ZoneConfig.
Export ZoneConfig.

(** ** What coercion guarantees *)
Section facts.
Context {G : Type} `{!Shapely G}.

Definition ring_ok (points : list LatLon) : Prop :=
  3 <= length points /\ exists poly, g_polygon (coords points) = Ok poly /\ g_is_valid poly = true.

Definition positive_or_nan (f : float) : Prop := F.leb f F.zero = false.

Record zone_ok (cfg : ZoneConfig) : Prop := {
  ok_id : zone_id_match (zone_id cfg) = true;
  ok_boundary : ring_ok (boundary cfg);
  ok_exclusions : Forall (fun z => ring_ok (ez_polygon z)) (exclusion_zones cfg);
  ok_width : positive_or_nan (cutting_width_in (coverage cfg));
  ok_overlap : F.leb F.zero (overlap_pct (coverage cfg)) = true /\
               F.leb (overlap_pct (coverage cfg)) (F.of_Z 50) = true;
  ok_mow : positive_or_nan (mow_speed_mps (coverage cfg));
  ok_turn : positive_or_nan (turn_speed_mps (coverage cfg))
}.

Lemma except_inv {A} cs (m : res exn A) h a :
  except cs m h = Ok a -> m = Ok a \/ exists e, m = Err e /\ caught_by cs e = true /\ h e = Ok a.
Proof.
  unfold except, rcatch. destruct m as [b|e]; [by left|].
  destruct (caught_by cs e) eqn:Hc; [|done]. intros H. right. by exists e.
Qed.

Lemma rewrap_ok {A} cs prefix (m : res exn A) a : rewrap cs prefix m = Ok a -> m = Ok a.
Proof. intros [?|(e & _ & _ & ?)]%except_inv; done. Qed.

Lemma coerce_points_length name i raw points :
  coerce_points name i raw = Ok points -> length points = length raw.
Proof.
  revert i points. induction raw as [|p raw IH]; intros i points; cbn; [by intros [= <-]|].
  rewrite rbind_ok. intros (q & _ & H). rewrite rbind_ok in H.
  destruct H as (qs & Hqs & [= <-]). cbn. f_equal. by eapply IH.
Qed.

Lemma check_polygon_ok points invalid failed u :
  check_polygon points invalid failed = Ok u ->
  exists poly, g_polygon (coords points) = Ok poly /\ g_is_valid poly = true.
Proof.
  intros H%rewrap_ok. rewrite rbind_ok in H. destruct H as (poly & Hp & H).
  exists poly. split; [done|]. by destruct (g_is_valid poly).
Qed.

Lemma coerce_boundary_ok raw points : _coerce_boundary raw = Ok points -> ring_ok points.
Proof.
  destruct raw as [| | | | |raw| |]; try done. cbn [_coerce_boundary].
  destruct (Nat.ltb_spec (length raw) 3) as [|Hlen]; [done|].
  rewrite rbind_ok. intros (ps & Hps & H). rewrite rbind_ok in H.
  destruct H as (u & Hu & [= <-]). split; [|by eapply check_polygon_ok].
  by rewrite (coerce_points_length _ _ _ _ Hps).
Qed.

Lemma coerce_exclusion_ok i raw z : coerce_exclusion i raw = Ok z -> ring_ok (ez_polygon z).
Proof.
  destruct raw as [| | | | | |d|]; try done. cbn [coerce_exclusion].
  destruct (dget d "name"); [|done]. destruct (dget d "polygon") as [[]|]; try done.
  destruct (Nat.ltb_spec (length l) 3) as [|Hlen]; [done|].
  rewrite rbind_ok. intros (ps & Hps & H). rewrite rbind_ok in H. destruct H as (u & Hu & H).
  rewrite rbind_ok in H. destruct H as (b & _ & [= <-]).
  split; [|by eapply check_polygon_ok]. cbn. by rewrite (coerce_points_length _ _ _ _ Hps).
Qed.

Lemma coerce_exclusions_ok i raw zs :
  coerce_exclusions i raw = Ok zs -> Forall (fun z => ring_ok (ez_polygon z)) zs.
Proof.
  revert i zs. induction raw as [|z raw IH]; intros i zs; cbn; [intros [= <-]; constructor|].
  rewrite rbind_ok. intros (e & He & H). rewrite rbind_ok in H.
  destruct H as (es & Hes & [= <-]). constructor; [by eapply coerce_exclusion_ok|by eapply IH].
Qed.

Lemma coerce_coverage_ok raw c :
  _coerce_coverage raw = Ok c ->
  positive_or_nan (cutting_width_in c) /\
  (F.leb F.zero (overlap_pct c) = true /\ F.leb (overlap_pct c) (F.of_Z 50) = true) /\
  positive_or_nan (mow_speed_mps c) /\ positive_or_nan (turn_speed_mps c).
Proof.
  destruct raw as [| | | | | |d|]; try (intros [= <-]; by vm_compute). cbn [_coerce_coverage].
  rewrite rbind_ok. intros (cw & _ & H). destruct (F.leb cw F.zero) eqn:Hcw; [done|].
  rewrite rbind_ok in H. destruct H as (ov & _ & H).
  destruct (F.leb F.zero ov && F.leb ov (F.of_Z 50)) eqn:Hov; [|done]. cbn [negb] in H.
  rewrite rbind_ok in H. destruct H as (mo & _ & H). destruct (F.leb mo F.zero) eqn:Hmo; [done|].
  rewrite rbind_ok in H. destruct H as (tu & _ & H). destruct (F.leb tu F.zero) eqn:Htu; [done|].
  rewrite rbind_ok in H. destruct H as (an & _ & H). rewrite rbind_ok in H.
  destruct H as (hp & _ & [= <-]). apply andb_true_iff in Hov. done.
Qed.

(** C7: The type invariant of a loaded zone: whatever document it came from, a
    configuration that [_coerce] returns has a matching zone id, a valid boundary
    and valid exclusion polygons of at least three vertices each, an overlap of 0
    to 50 percent, and a cutting width and speeds that are not zero or below. *)
Theorem coerce_zone_ok raw cfg (H : _coerce raw = Ok cfg) : zone_ok cfg.
Proof.
  unfold _coerce in H.
  repeat (rewrite rbind_ok in H; destruct H as (? & ? & H)).
  destruct (zone_id_match _) eqn:Hid; [|done]. cbn [negb] in H.
  rewrite rbind_ok in H. destruct H as (home & _ & H).
  rewrite rbind_ok in H. destruct H as (rally & _ & H).
  rewrite rbind_ok in H. destruct H as (bnd & Hb & H).
  rewrite rbind_ok in H. destruct H as (excl & He & H).
  rewrite rbind_ok in H. destruct H as (cov & Hc & H).
  rewrite rbind_ok in H. destruct H as (cmds & _ & [= <-]).
  apply coerce_coverage_ok in Hc as (? & ? & ? & ?).
  constructor; cbn; try done; [by eapply coerce_boundary_ok|].
  unfold _coerce_exclusion_zones in He. destruct (dget_or raw "exclusion_zones" (VList []));
    try done. by eapply coerce_exclusions_ok.
Qed.

(** ** Loading a directory *)
Variable yaml_safe_load : string -> res exn PyVal.

Definition skipped_errors : list ExnClass := [ZoneConfigError; FileNotFoundError; YAMLError].

(** The exception, if any, that a file lets escape from the loop. *)
Definition escapes (pf : string * option (res exn string)) : option exn :=
  match load_zone_config yaml_safe_load pf.1 pf.2 with
  | Err e => if caught_by skipped_errors e then None else Some e
  | Ok _ => None
  end.

Definition kept (pf : string * option (res exn string)) : option ZoneConfig :=
  match load_zone_config yaml_safe_load pf.1 pf.2 with
  | Ok cfg => if S.startswith (schema cfg) "mower-rover.zone." then Some cfg else None
  | Err _ => None
  end.

Lemma load_one_zone_cases pf :
  load_one_zone yaml_safe_load pf =
  match escapes pf with Some e => Err e | None => Ok (kept pf) end.
Proof.
  unfold load_one_zone, escapes, kept, except, rcatch, skipped_errors.
  destruct (load_zone_config yaml_safe_load pf.1 pf.2) as [cfg|e]; cbn [mbind res_bind].
  - by destruct (S.startswith _ _).
  - by destruct (caught_by _ e).
Qed.

(** Loading a directory of zones: when each file either loads or fails with
    one of the three skipped exception classes, the result is exactly the loaded
    configurations with a zone schema, in directory order; and the first file
    that fails with anything else makes the whole load fail with that
    exception. *)
Lemma load_all_zones_result files :
  (Forall (fun pf => escapes pf = None) files ->
   load_all_zones yaml_safe_load (Some files) = Ok (omap kept files)) /\
  (forall pre pf post e, files = pre ++ pf :: post ->
     Forall (fun pf => escapes pf = None) pre -> escapes pf = Some e ->
     load_all_zones yaml_safe_load (Some files) = Err e).
Proof.
  assert (forall l, Forall (fun pf => escapes pf = None) l ->
            rmap (load_one_zone yaml_safe_load) l = Ok (map kept l)) as Hok.
  { induction 1 as [|pf l Hpf _ IH]; [done|]. cbn [rmap]. rewrite load_one_zone_cases, Hpf.
    cbn [mbind res_bind]. by rewrite IH. }
  split.
  - intros Hall. unfold load_all_zones. rewrite Hok by done. f_equal.
    clear. induction files as [|pf l IH]; [done|]. cbn. by rewrite IH.
  - intros pre pf post e -> Hpre He. unfold load_all_zones.
    assert (rmap (load_one_zone yaml_safe_load) (pre ++ pf :: post) = Err e) as ->; [|done].
    induction Hpre as [|p pre Hp _ IH]; cbn [app rmap].
    + by rewrite load_one_zone_cases, He.
    + rewrite load_one_zone_cases, Hp. cbn [mbind res_bind]. by rewrite IH.
Qed.
End facts.

(** ** A zone document *)

(** A geometry library that accepts every ring of three points or more. *)
Definition lenient : Shapely (list pt) := {|
  g_polygon l := if Nat.ltb (length l) 3 then raise_ ValueError [L "A linearring requires at least 4 coordinates."] else Ok l;
  g_linestring l := Ok l;
  g_is_valid _ := true;
  g_is_empty l := match l with [] => true | _ => false end;
  g_area _ := F.of_Z 100;
  g_bounds _ := (F.zero, F.zero, F.of_Z 10, F.of_Z 10);
  g_buffer g _ := Ok g;
  g_difference g _ := Ok g;
  g_intersection _ l := Ok l;
  g_contains_pt _ _ := Ok true;
  g_touches_pt _ _ := Ok false;
  g_contains _ _ := Ok true;
  g_rotate g _ _ := Ok g;
  g_view g := GPolygon g []
|}.

Definition ll (a b : Z) : PyVal := VList [VFloat (F.of_dec a (-1)); VFloat (F.of_dec b (-1))].

Definition zone_doc (zid : string) (latitude : PyVal) (width : PyVal) : list (PyVal * PyVal) :=
  [(VStr "schema", VStr "mower-rover.zone.v1"); (VStr "zone_id", VStr zid);
   (VStr "name", VStr "North"); (VStr "home", VDict [(VStr "lat", latitude); (VStr "lon", VInt (-80))]);
   (VStr "rally_point", VDict [(VStr "lat", VInt 40); (VStr "lon", VInt (-80))]);
   (VStr "boundary", VList [ll 400 (-800); ll 400 (-801); ll 401 (-801)]);
   (VStr "coverage", VDict [(VStr "cutting_width_in", width)])].

Definition demo_zone : res exn ZoneConfig :=
  @_coerce _ lenient (zone_doc "ne" (VInt 40) (VInt 54)).

Lemma coerce_zone_ok_witness :
  exists cfg, demo_zone = Ok cfg /\ @zone_ok _ lenient cfg.
Proof.
  destruct demo_zone as [cfg|] eqn:H; [|vm_compute in H; discriminate].
  exists cfg. split; [reflexivity|]. exact (@coerce_zone_ok _ lenient _ _ H).
Defined.

(** The [$] of the zone id pattern lets a trailing newline through, and NaN is
    not caught by the [<= 0] checks. *)
Lemma zone_id_newline_accepted :
  exists cfg, @_coerce _ lenient
    (zone_doc (String.append "ne" (String.String newline EmptyString)) (VInt 40) (VStr "nan")) = Ok cfg /\
  zone_id cfg = String.append "ne" (String.String newline EmptyString) /\
  F.is_nan (cutting_width_in (coverage cfg)) = true.
Proof. eexists. split_and!; vm_compute; reflexivity. Qed.

(** A coordinate that is not a number is a [ValueError], not a
    [ZoneConfigError]: one such file makes the whole directory fail to load. *)
Lemma bad_coordinate_escapes :
  @load_all_zones _ lenient (fun _ => Ok (VDict (zone_doc "ne" (VStr "abc") (VInt 54))))
    (Some [("bad.yaml", Some (Ok "text"))]) =
  raise_ ValueError [L "could not convert string to float: "; VF (VStr "abc") "r"].
Proof. vm_compute. reflexivity. Qed.

Lemma load_all_zones_result_witness :
  @load_all_zones _ lenient (fun _ => Ok (VDict [])) (Some [("a.yaml", Some (Ok "")); ("b.yaml", None)])
  = Ok [].
Proof.
  apply (proj1 (@load_all_zones_result _ lenient (fun _ => Ok (VDict []))
                  [("a.yaml", Some (Ok "")); ("b.yaml", None)])).
  repeat constructor.
Defined.
