(* ===== verification/MissionItems.v ===== *)
(** * Mission items of a zone (zone/mission_items.py)

    The conversion of a zone and its waypoints to mission, fence and rally
    items, and the int32 encoding of coordinates. *)

From stdpp Require Import base list strings option.
From Stdlib Require Import ZArith Lia Floats.SpecFloat.
From S2P Require Import Prelude Float64 PyVal Link Mission Geometry ZoneConfig.
Local Open Scope Z_scope.

Module MissionItems.
Definition MAV_FRAME_GLOBAL_INT := 5.
Definition MAV_CMD_NAV_WAYPOINT := 16.
Definition MAV_CMD_DO_CHANGE_SPEED := 178.
Definition MAV_CMD_DO_SET_RESUME_REPEAT_DIST := 215.
Definition MAV_CMD_DO_FENCE_ENABLE := 207.
Definition MAV_CMD_NAV_FENCE_POLYGON_VERTEX_INCLUSION := 5001.
Definition MAV_CMD_NAV_FENCE_POLYGON_VERTEX_EXCLUSION := 5002.
Definition MAV_CMD_NAV_RALLY_POINT := 5100.

(** The literal [1e7]. *)
Definition e7 : float := F.of_Z 10000000.

Definition _latlng_to_int32 (la lo : float) : res exn (Z * Z) :=
  a ← int_of_float (F.mul la e7); o ← int_of_float (F.mul lo e7); Ok (a, o).

(** The keyword arguments the builders vary; the others are constants there. *)
Definition mk_item (seq command : Z) (p1 p2 : float) (x y mission_type current : Z) : MissionItem :=
  {| MI.seq := seq; MI.frame := MAV_FRAME_GLOBAL_INT; MI.command := command;
     MI.param1 := p1; MI.param2 := p2; MI.param3 := F.zero; MI.param4 := F.zero;
     MI.x := x; MI.y := y; MI.z := F.zero; MI.mission_type := mission_type;
     MI.autocontinue := 1; MI.current := current |}.

Fixpoint waypoint_items (seq : Z) (waypoints : list LatLon) : res exn (list MissionItem) :=
  match waypoints with
  | [] => Ok []
  | wp :: wps =>
      '(wx, wy) ← _latlng_to_int32 (lat wp) (lon wp);
      items ← waypoint_items (seq + 1) wps;
      Ok (mk_item seq MAV_CMD_NAV_WAYPOINT F.zero (F.of_Z 2) wx wy 0 0 :: items)
  end.

Definition zone_to_mission (zone : ZoneConfig) (waypoints : list LatLon)
  : res exn (list MissionItem) :=
  '(hx, hy) ← _latlng_to_int32 (lat (home zone)) (lon (home zone));
  let head := [mk_item 0 MAV_CMD_NAV_WAYPOINT F.zero F.zero hx hy 0 1;
               mk_item 1 MAV_CMD_DO_CHANGE_SPEED F.one (mow_speed_mps (coverage zone)) 0 0 0 0;
               mk_item 2 MAV_CMD_DO_SET_RESUME_REPEAT_DIST
                 (resume_dist_m (commands zone)) F.zero 0 0 0 0] in
  let head := if fence_enable (commands zone)
              then head ++ [mk_item 3 MAV_CMD_DO_FENCE_ENABLE F.one F.zero 0 0 0 0]
              else head in
  wps ← waypoint_items (Z.of_nat (length head)) waypoints;
  Ok (head ++ wps).

(** The vertices of one polygon, from sequence number [seq]; [i] counts them. *)
Fixpoint vertex_items (command : Z) (vertex_count : nat) (i : nat) (seq : Z)
    (polygon : list LatLon) : res exn (list MissionItem) :=
  match polygon with
  | [] => Ok []
  | v :: vs =>
      '(vx, vy) ← _latlng_to_int32 (lat v) (lon v);
      let param1 := if Nat.eqb i 0 then F.of_Z (Z.of_nat vertex_count) else F.zero in
      items ← vertex_items command vertex_count (S i) (seq + 1) vs;
      Ok (mk_item seq command param1 F.zero vx vy 1 0 :: items)
  end.

Definition polygon_items (command seq : Z) (polygon : list LatLon) : res exn (list MissionItem) :=
  vertex_items command (length polygon) 0 seq polygon.

Fixpoint exclusion_items (seq : Z) (zones : list ExclusionZone) : res exn (list MissionItem) :=
  match zones with
  | [] => Ok []
  | z :: zs =>
      items ← polygon_items MAV_CMD_NAV_FENCE_POLYGON_VERTEX_EXCLUSION seq (ez_polygon z);
      rest ← exclusion_items (seq + Z.of_nat (length (ez_polygon z))) zs;
      Ok (items ++ rest)
  end.

Definition zone_to_fence (zone : ZoneConfig) : res exn (list MissionItem) :=
  incl ← polygon_items MAV_CMD_NAV_FENCE_POLYGON_VERTEX_INCLUSION 0 (boundary zone);
  excl ← exclusion_items (Z.of_nat (length (boundary zone))) (exclusion_zones zone);
  Ok (incl ++ excl).

Definition zone_to_rally (zone : ZoneConfig) : res exn (list MissionItem) :=
  '(rx, ry) ← _latlng_to_int32 (rp_lat (rally_point zone)) (rp_lon (rally_point zone));
  Ok [mk_item 0 MAV_CMD_NAV_RALLY_POINT F.zero F.zero rx ry 2 0].
End MissionItems.
Export MissionItems.

(** ** The int32 bound *)

(** In range: [-b <= f <= b], as [check_latlng] tests it. *)
Definition within (b : Z) (f : float) : bool :=
  F.leb (F.of_Z (- b)) f && F.leb f (F.of_Z b).

Lemma of_Z_opp_180 : F.of_Z (-180) = F.neg (F.of_Z 180).
Proof. vm_compute. reflexivity. Qed.

Lemma e7_repr : e7 = S754_finite false 5368709120000000 (-29).
Proof. vm_compute. reflexivity. Qed.

Lemma of_180_repr : F.of_Z 180 = S754_finite false 6333186975989760 (-45).
Proof. vm_compute. reflexivity. Qed.

Lemma within_abs f : within 180 f = true -> F.leb (F.abs f) (F.of_Z 180) = true.
Proof.
  unfold within. change (F.of_Z (Z.opp 180)) with (F.of_Z (-180)). rewrite of_Z_opp_180, leb_neg_swap. intros [H1 H2]%andb_true_iff.
  by destruct f as [[]|[]| |[] m e].
Qed.

(** The product with [1e7] of an in-range coordinate, truncated. *)
Lemma int32_bound f :
  F.valid f = true -> within 180 f = true ->
  exists z, int_of_float (F.mul f e7) = Ok z /\ Z.abs z <= 1800000000.
Proof.
  intros Hv Hw. apply within_abs in Hw. destruct f as [s|s| |s m e].
  - exists 0. destruct s; vm_compute; split; try reflexivity; discriminate.
  - destruct s; vm_compute in Hw; discriminate.
  - vm_compute in Hw; discriminate.
  - apply valid_mantissa in Hv. rewrite of_180_repr in Hw. cbn [F.abs SFabs] in Hw.
    apply leb_scaled in Hw as [He Hm]; [|done|lia|lia].
    rewrite e7_repr. unfold F.mul, SFmul, int_of_float.
    rewrite xorb_false_r.
    destruct (round_trunc_bound s (Z.pos (m * 5368709120000000)) (e + -29) 1800000000)
      as (z & Hz & Hb); [lia|lia|lia| |].
    + rewrite Pos2Z.inj_mul. replace (- (e + -29)) with (- e + 29) by lia.
      rewrite Z.pow_add_r by lia. change (2 ^ (- (-45))) with 35184372088832 in Hm.
      change (2 ^ 29) with 536870912. nia.
    + rewrite Hz. by exists z.
Qed.

(** C21: Every coordinate that validation accepts encodes without an error and
    fits a signed 32-bit integer: for a latitude and a longitude that are floats
    within -180 to 180 degrees, [_latlng_to_int32] returns values of magnitude
    at most 1,800,000,000, so MISSION_ITEM_INT never overflows. *)
Theorem latlng_to_int32_fits la lo
    (Hla : F.valid la = true) (Hlo : F.valid lo = true)
    (Hwla : within 180 la = true) (Hwlo : within 180 lo = true) :
  exists a o, _latlng_to_int32 la lo = Ok (a, o) /\
    -2147483648 <= a <= 2147483647 /\ -2147483648 <= o <= 2147483647 /\
    Z.abs a <= 1800000000 /\ Z.abs o <= 1800000000.
Proof.
  destruct (int32_bound la Hla Hwla) as (a & Ha & Hab).
  destruct (int32_bound lo Hlo Hwlo) as (o & Ho & Hob).
  exists a, o. unfold _latlng_to_int32. rewrite Ha. cbn [mbind res_bind]. rewrite Ho.
  split; [done|]. lia.
Qed.

Lemma latlng_to_int32_fits_witness :
  exists a o, _latlng_to_int32 (F.of_dec 407123456 (-7)) (F.of_Z (-180)) = Ok (a, o) /\
    -2147483648 <= a <= 2147483647 /\ -2147483648 <= o <= 2147483647 /\
    Z.abs a <= 1800000000 /\ Z.abs o <= 1800000000.
Proof. apply latlng_to_int32_fits; vm_compute; reflexivity. Defined.

(** ** Numbering *)
Lemma waypoint_items_spec seq wps items :
  waypoint_items seq wps = Ok items ->
  length items = length wps /\ forall i it, items !! i = Some it ->
    MI.seq it = seq + Z.of_nat i /\ MI.mission_type it = 0 /\
    MI.command it = MAV_CMD_NAV_WAYPOINT /\
    exists wp, wps !! i = Some wp /\ _latlng_to_int32 (lat wp) (lon wp) = Ok (MI.x it, MI.y it).
Proof.
  revert seq items. induction wps as [|wp wps IH]; intros seq items; cbn [waypoint_items].
  - intros [= <-]. split; [done|]. by intros i it.
  - rewrite rbind_ok. intros ([wx wy] & Hxy & H). rewrite rbind_ok in H.
    destruct H as (rest & Hrest & [= <-]). apply IH in Hrest as [Hl Hi]. split; [by cbn; f_equal|].
    intros [|i] it; cbn [lookup list_lookup].
    + intros [= <-]. split_and!; [cbn; lia|done|done|]. by exists wp.
    + intros (? & ? & ? & ?)%Hi. split_and!; try done. lia.
Qed.

Lemma vertex_items_spec command n i seq polygon items :
  vertex_items command n i seq polygon = Ok items ->
  length items = length polygon /\ forall k it, items !! k = Some it ->
    MI.seq it = seq + Z.of_nat k /\ MI.mission_type it = 1 /\ MI.command it = command /\
    MI.param1 it = (if Nat.eqb (i + k) 0 then F.of_Z (Z.of_nat n) else F.zero).
Proof.
  revert i seq items. induction polygon as [|v vs IH]; intros i seq items; cbn [vertex_items].
  - intros [= <-]. split; [done|]. by intros k it.
  - rewrite rbind_ok. intros ([vx vy] & _ & H). rewrite rbind_ok in H.
    destruct H as (rest & Hrest & [= <-]). apply IH in Hrest as [Hl Hi]. split; [by cbn; f_equal|].
    intros [|k] it; cbn [lookup list_lookup].
    + intros [= <-]. split_and!; cbn; try done; [lia|]. by rewrite Nat.add_0_r.
    + intros (? & ? & ? & Hp)%Hi. split_and!; [lia|done|done|].
      rewrite Hp. by rewrite Nat.add_succ_comm.
Qed.

Lemma exclusion_items_spec seq zones items :
  exclusion_items seq zones = Ok items ->
  length items = sum_list_with (fun z => length (ez_polygon z)) zones /\
  forall k it, items !! k = Some it ->
    MI.seq it = seq + Z.of_nat k /\ MI.mission_type it = 1 /\
    MI.command it = MAV_CMD_NAV_FENCE_POLYGON_VERTEX_EXCLUSION.
Proof.
  revert seq items. induction zones as [|z zs IH]; intros seq items; cbn [exclusion_items].
  - intros [= <-]. split; [done|]. by intros k it.
  - rewrite rbind_ok. intros (a & Ha & H). rewrite rbind_ok in H.
    destruct H as (rest & Hrest & [= <-]). apply vertex_items_spec in Ha as [Hal Ha].
    apply IH in Hrest as [Hl Hi]. split; [rewrite length_app; cbn; lia|].
    intros k it [Hk|[Hge Hk]]%lookup_app_Some.
    + apply Ha in Hk as (? & ? & ? & _). done.
    + apply Hi in Hk as (? & ? & ?). split_and!; [lia|done|done].
Qed.

Lemma numbered_app mt a b :
  (forall i it, a !! i = Some it -> MI.seq it = Z.of_nat i /\ MI.mission_type it = mt) ->
  (forall i it, b !! i = Some it ->
     MI.seq it = Z.of_nat (length a) + Z.of_nat i /\ MI.mission_type it = mt) ->
  numbered mt (a ++ b).
Proof.
  intros Ha Hb i it [Hi|[Hge Hi]]%lookup_app_Some; [by apply Ha|].
  apply Hb in Hi as [? ?]. split; [lia|done].
Qed.

Definition head_length (zone : ZoneConfig) : nat :=
  if fence_enable (commands zone) then 4 else 3.

Definition at_waypoints (zone : ZoneConfig) (wps : list LatLon) (m : list MissionItem) : Prop :=
  forall i wp, wps !! i = Some wp -> exists it, m !! (head_length zone + i)%nat = Some it /\
    MI.command it = MAV_CMD_NAV_WAYPOINT /\
    _latlng_to_int32 (lat wp) (lon wp) = Ok (MI.x it, MI.y it).

Lemma mission_shape zone wps m :
  zone_to_mission zone wps = Ok m ->
  numbered 0 m /\ length m = (head_length zone + length wps)%nat /\ at_waypoints zone wps m.
Proof.
  unfold zone_to_mission. rewrite rbind_ok. intros ([hx hy] & _ & Hm).
  rewrite rbind_ok in Hm. destruct Hm as (ws & Hws & [= <-]).
  apply waypoint_items_spec in Hws as [Hwl Hw].
  set (head := if fence_enable (commands zone) then _ else _) in *.
  assert (length head = head_length zone) as Hhl.
  { unfold head, head_length. by destruct (fence_enable (commands zone)). }
  split_and!.
  - apply numbered_app.
    + intros i it Hi. unfold head in Hi. destruct (fence_enable (commands zone));
        repeat (destruct i as [|i]; [injection Hi as <-; split; reflexivity|]); discriminate Hi.
    + intros i it Hi. apply Hw in Hi as (? & ? & _). done.
  - rewrite length_app, Hhl, Hwl. done.
  - intros i wp Hi. rewrite <- Hhl, lookup_app_r, Nat.add_comm, Nat.add_sub by lia.
    destruct (lookup_lt_is_Some_2 ws i) as [it Hit].
    { rewrite Hwl. by eapply lookup_lt_Some. }
    exists it. destruct (Hw _ _ Hit) as (_ & _ & ? & wp' & Hwp & ?). split_and!; [done|done|].
    by simplify_eq.
Qed.

Lemma fence_shape zone f :
  zone_to_fence zone = Ok f ->
  numbered 1 f /\ length f = (length (boundary zone) +
    sum_list_with (fun z => length (ez_polygon z)) (exclusion_zones zone))%nat.
Proof.
  unfold zone_to_fence. rewrite rbind_ok. intros (a & Ha & Hf).
  rewrite rbind_ok in Hf. destruct Hf as (b & Hb & [= <-]).
  apply vertex_items_spec in Ha as [Hal Ha]. apply exclusion_items_spec in Hb as [Hbl Hb].
  split; [|by rewrite length_app, Hal, Hbl]. apply numbered_app.
  - intros i it Hi. apply Ha in Hi as (? & ? & _). split; [lia|done].
  - intros i it Hi. rewrite Hal. apply Hb in Hi as (? & ? & _). done.
Qed.

Lemma rally_shape zone r : zone_to_rally zone = Ok r -> numbered 2 r /\ length r = 1%nat.
Proof.
  unfold zone_to_rally. rewrite rbind_ok. intros ([rx ry] & _ & [= <-]). split; [|done].
  intros [|i] it Hi; [injection Hi as <-; split; reflexivity|discriminate Hi].
Qed.

(** C8: The three lists a zone is uploaded as are properly numbered from 0 and
    of one mission type each, so that they meet the precondition of the upload
    protocol; the mission ends with one NAV_WAYPOINT per planned waypoint, in
    order, at the encoded coordinates; the fence has one item per vertex of the
    boundary and of the exclusion polygons; the rally list has one item. *)
Theorem zone_items_numbered zone wps m f r
    (Hm : zone_to_mission zone wps = Ok m) (Hf : zone_to_fence zone = Ok f)
    (Hr : zone_to_rally zone = Ok r) :
  numbered 0 m /\ numbered 1 f /\ numbered 2 r /\
  length m = (head_length zone + length wps)%nat /\ at_waypoints zone wps m /\
  length f = (length (boundary zone) +
              sum_list_with (fun z => length (ez_polygon z)) (exclusion_zones zone))%nat /\
  length r = 1%nat.
Proof.
  destruct (mission_shape _ _ _ Hm) as (? & ? & ?), (fence_shape _ _ Hf) as [? ?],
    (rally_shape _ _ Hr) as [? ?]. done.
Qed.

Definition demo_waypoints : list LatLon :=
  [mkLatLon (F.of_dec 4001 (-2)) (F.of_dec (-8001) (-2)); mkLatLon (F.of_Z 40) (F.of_Z (-80))].

Lemma zone_items_numbered_witness :
  exists zone m f r, demo_zone = Ok zone /\ numbered 0 m /\ numbered 1 f /\ numbered 2 r /\
    length m = 6%nat /\ length f = 3%nat /\ length r = 1%nat.
Proof.
  destruct demo_zone as [zone|] eqn:Hz; [|vm_compute in Hz; discriminate].
  vm_compute in Hz. injection Hz as <-.
  match goal with |- context [Ok ?z = Ok _] => set (zone := z) end.
  destruct (zone_to_mission zone demo_waypoints) as [m|] eqn:Hm; [|vm_compute in Hm; discriminate].
  destruct (zone_to_fence zone) as [f|] eqn:Hf; [|vm_compute in Hf; discriminate].
  destruct (zone_to_rally zone) as [r|] eqn:Hr; [|vm_compute in Hr; discriminate].
  destruct (zone_items_numbered zone demo_waypoints m f r Hm Hf Hr)
    as (H1 & H2 & H3 & H4 & _ & H5 & H6).
  exists zone, m, f, r. split_and!; [reflexivity|exact H1|exact H2|exact H3|exact H4|exact H5|exact H6].
Defined.
