(* ===== verification/Planner.v ===== *)
(** * Coverage planner (zone/planner.py)

    Projection to a UTM plane, headland passes, the boustrophedon fill and the
    planning entry point, over the [Shapely] and [Pyproj] interfaces.  [sin] and
    [cos] are the platform's.  The sweep loop takes [fuel]; [None] is a run that
    does not finish within it. *)

From stdpp Require Import base list strings option.
From Stdlib Require Import ZArith Lia Floats.SpecFloat.
From S2P Require Import Prelude Float64 PyVal Geometry ZoneConfig.
Local Open Scope Z_scope.

Module Planner.
(** The CRS string of the UTM zone of the centroid. *)
Definition utm_crs `{F.Interpreter} (reference_latlons : list LatLon) : res exn string :=
  match reference_latlons with
  | [] => raise_ PlannerError [L "reference_latlons cannot be empty"]
  | _ =>
      let n := F.of_Z (Z.of_nat (length reference_latlons)) in
      let centroid_lat := F.div (F.sum (map lat reference_latlons)) n in
      let centroid_lon := F.div (F.sum (map lon reference_latlons)) n in
      z ← int_of_float (F.div (F.add centroid_lon (F.of_Z 180)) (F.of_Z 6));
      let hemisphere := if F.geb centroid_lat F.zero then "north" else "south" in
      Ok (S.join "" ["+proj=utm +zone="; Num.str_of_Z (z + 1); " +"; hemisphere;
                     " +datum=WGS84 +units=m +no_defs"])
  end.

Section planner.
Context {G : Type} `{!Shapely G} `{PP : Pyproj} `{IP : F.Interpreter}.
Variable math_cos math_sin : float -> float.
Variable fuel : nat.

Definition to_planar (crs : string) (latlons : list LatLon) : res exn (list pt) :=
  match latlons with
  | [] => Ok []
  | _ => to_utm crs (map (fun p => (lon p, lat p)) latlons)
  end.

Definition to_geodetic (crs : string) (xys : list pt) : res exn (list LatLon) :=
  match xys with
  | [] => Ok []
  | _ => ps ← to_wgs84 crs xys; Ok (map (fun p => mkLatLon p.2 p.1) ps)
  end.

(** [cutting_width_m * (1.0 - overlap_pct / 100.0)] *)
Definition inset (cutting_width_m overlap_pct : float) : float :=
  F.mul cutting_width_m (F.sub F.one (F.div overlap_pct (F.of_Z 100))).

Definition half : float := F.of_dec 5 (-1).

(** A ring without its repeated last point, if anything is left. *)
Definition ring_pass (ring : list pt) : list (list pt) :=
  match removelast ring with [] => [] | coords => [coords] end.

Definition polygon_passes (exterior : list pt) (interiors : list (list pt)) : list (list pt) :=
  ring_pass exterior ++ concat (map ring_pass interiors).

Definition extract_passes (g : G) : list (list pt) :=
  match g_view g with
  | GPolygon ext ints => polygon_passes ext ints
  | GMulti geoms =>
      concat (map (fun geom =>
        match g_view geom with
        | GPolygon ext ints => if F.gtb (g_area geom) F.one then polygon_passes ext ints else []
        | _ => []
        end) geoms)
  | _ => []
  end.

Fixpoint pass_loop (n : nat) (inset_distance : float) (current_poly : G) : res exn (list (list pt)) :=
  match n with
  | O => Ok []
  | Datatypes.S n' =>
      if g_is_empty current_poly || F.ltb (g_area current_poly) F.one then Ok []
      else
        next ← g_buffer current_poly (F.neg inset_distance);
        if g_is_empty next then Ok (extract_passes current_poly)
        else rest ← pass_loop n' inset_distance next; Ok (extract_passes current_poly ++ rest)
  end.

Definition repaired (xy : list pt) : res exn G :=
  p ← g_polygon xy; if g_is_valid p then Ok p else g_buffer p F.zero.

Fixpoint subtract_exclusions (poly : G) (exclusions_xy : list (list pt)) : res exn G :=
  match exclusions_xy with
  | [] => Ok poly
  | e :: es =>
      ep ← repaired e; eb ← g_buffer ep half; p ← g_difference poly eb;
      subtract_exclusions p es
  end.

Definition generate_headland_passes (boundary_xy : list pt) (exclusions_xy : list (list pt))
    (cutting_width_m overlap_pct : float) (num_passes : Z) : res exn (list (list pt)) :=
  if num_passes <=? 0 then Ok []
  else
    boundary_poly ← repaired boundary_xy;
    mowable_poly ← subtract_exclusions boundary_poly exclusions_xy;
    if g_is_empty mowable_poly then Ok []
    else pass_loop (Z.to_nat num_passes) (inset cutting_width_m overlap_pct) mowable_poly.

(** The points one sweep line adds. *)
Definition clip (forward : bool) (intersection : G) : list pt :=
  if g_is_empty intersection then []
  else match g_view intersection with
       | GLineString coords => coords
       | GMultiLineString segments =>
           if forward then concat segments else concat (map (@rev pt) (rev segments))
       | _ => []
       end.

Fixpoint sweep (n : nat) (poly : G) (minx maxx top line_spacing : float) (y : float)
    (forward : bool) : option (res exn (list pt)) :=
  match n with
  | O => None
  | Datatypes.S n' =>
      if F.leb y top then
        let l := (F.sub minx (F.of_Z 10), y) in
        let r := (F.add maxx (F.of_Z 10), y) in
        match (line ← g_linestring (if forward then [l; r] else [r; l]); g_intersection poly line) with
        | Err e => Some (Err e)
        | Ok inter =>
            rest ← sweep n' poly minx maxx top line_spacing (F.add y line_spacing) (negb forward);
            Some (match rest with Ok ws => Ok (clip forward inter ++ ws) | Err e => Err e end)
        end
      else Some (Ok [])
  end.

(** [math.radians] *)
Definition radians (d : float) : float := F.mul d (F.div (F.of_dec 3141592653589793 (-15)) (F.of_Z 180)).

Definition rotate_back (angle_deg minx miny : float) (p : pt) : pt :=
  let cos_a := math_cos (radians angle_deg) in
  let sin_a := math_sin (radians angle_deg) in
  let tx := F.sub p.1 minx in
  let ty := F.sub p.2 miny in
  (F.add (F.sub (F.mul tx cos_a) (F.mul ty sin_a)) minx,
   F.add (F.add (F.mul tx sin_a) (F.mul ty cos_a)) miny).

Definition generate_boustrophedon_fill (mowable_poly : G) (cutting_width_m overlap_pct angle_deg : float)
  : option (res exn (list pt)) :=
  if g_is_empty mowable_poly || F.ltb (g_area mowable_poly) F.one then Some (Ok [])
  else
    let line_spacing := inset cutting_width_m overlap_pct in
    let '(minx, miny, _, _) := g_bounds mowable_poly in
    match g_rotate mowable_poly (F.neg angle_deg) (minx, miny) with
    | Err e => Some (Err e)
    | Ok rotated_poly =>
        let '(rminx, rminy, rmaxx, rmaxy) := g_bounds rotated_poly in
        let off := F.div line_spacing (F.of_Z 2) in
        ws ← sweep fuel rotated_poly rminx rmaxx (F.sub rmaxy off) line_spacing
               (F.add rminy off) true;
        Some (match ws with
              | Ok ws => Ok (if negb (F.eqb angle_deg F.zero)
                             then map (rotate_back angle_deg minx miny) ws else ws)
              | Err e => Err e
              end)
    end.

(** The inset loop of [generate_waypoints]. *)
Fixpoint innermost (n : nat) (inset_distance : float) (poly : G) : res exn G :=
  match n with
  | O => Ok poly
  | Datatypes.S n' =>
      p ← g_buffer poly (F.neg inset_distance);
      if g_is_empty p then Ok p else innermost n' inset_distance p
  end.

Fixpoint subtract_buffered (poly : G) (exclusions_xy : list (list pt)) : res exn G :=
  match exclusions_xy with
  | [] => Ok poly
  | e :: es =>
      ep ← g_polygon e; eb ← g_buffer ep half; p ← g_difference poly eb;
      subtract_buffered p es
  end.

(** The area the fill covers. *)
Definition fill_area (zone : ZoneConfig) (cutting_width_m : float) (boundary_xy : list pt)
    (exclusions_xy : list (list pt)) : res exn G :=
  boundary_poly ← g_polygon boundary_xy;
  mowable_poly ← subtract_buffered boundary_poly exclusions_xy;
  innermost (Z.to_nat (headland_passes (coverage zone)))
    (inset cutting_width_m (overlap_pct (coverage zone))) mowable_poly.

(** The waypoints in the plane, given the headland passes. *)
Definition fill_points (zone : ZoneConfig) (cutting_width_m : float) (boundary_xy : list pt)
    (exclusions_xy : list (list pt)) (passes : list (list pt)) : option (res exn (list pt)) :=
  match passes with
  | [] => Some (Ok [])
  | _ =>
      match fill_area zone cutting_width_m boundary_xy exclusions_xy with
      | Err e => Some (Err e)
      | Ok inner =>
          if negb (g_is_empty inner) && F.gtb (g_area inner) F.one then
            generate_boustrophedon_fill inner cutting_width_m (overlap_pct (coverage zone))
              (angle_deg (coverage zone))
          else Some (Ok [])
      end
  end.

Definition plan_body (zone : ZoneConfig) : option (res exn (list LatLon)) :=
  match (crs ← utm_crs (boundary zone);
         boundary_xy ← to_planar crs (boundary zone);
         exclusions_xy ← rmap (fun e => to_planar crs (ez_polygon e)) (exclusion_zones zone);
         let cutting_width_m := F.mul (cutting_width_in (coverage zone)) (F.of_dec 254 (-4)) in
         passes ← generate_headland_passes boundary_xy exclusions_xy cutting_width_m
                    (overlap_pct (coverage zone)) (headland_passes (coverage zone));
         Ok (crs, boundary_xy, exclusions_xy, cutting_width_m, passes)) with
  | Err e => Some (Err e)
  | Ok (crs, boundary_xy, exclusions_xy, cutting_width_m, passes) =>
      fill ← fill_points zone cutting_width_m boundary_xy exclusions_xy passes;
      Some (fill ← fill;
            match concat passes ++ fill with
            | [] => Ok []
            | all_waypoints_xy => to_geodetic crs all_waypoints_xy
            end)
  end.

Definition generate_waypoints (zone : ZoneConfig) : option (res exn (list LatLon)) :=
  if F.leb (cutting_width_in (coverage zone)) F.zero then
    Some (raise_ PlannerError [L "cutting_width_in must be positive, got ";
                               V (VFloat (cutting_width_in (coverage zone)))])
  else
    r ← plan_body zone;
    Some (except [Exception] r (fun e =>
            raise_ PlannerError (L "Failed to generate waypoints for zone " ::
                                 L (zone_id zone) :: L ": " :: exn_msg e))).
End planner.
End Planner.
Export Planner.

Section facts.
Context {G : Type} `{!Shapely G} `{PP : Pyproj} `{IP : F.Interpreter}.
Context (math_cos math_sin : float -> float).

(** Planning raises nothing but [PlannerError]: whatever the geometry and
    projection libraries raise, an error of [generate_waypoints] that an
    [except Exception] would catch is a [PlannerError], and a cutting width that is
    not positive is rejected before any geometry is built. *)
Lemma generate_waypoints_errors fuel zone r
    (H : generate_waypoints math_cos math_sin fuel zone = Some r) :
  (forall e, r = Err e -> exn_class e = PlannerError \/ subclass (exn_class e) Exception = false) /\
  (F.leb (cutting_width_in (coverage zone)) F.zero = true ->
     exists m, r = raise_ PlannerError m).
Proof.
  unfold generate_waypoints in H. destruct (F.leb _ F.zero).
  - injection H as <-. split; [|by eexists]. intros e [= <-]. by left.
  - split; [|done]. intros e ->. destruct (plan_body _ _ _ _) as [r0|]; [|done].
    cbn in H. injection H as H. unfold except, rcatch, caught_by in H.
    destruct r0 as [ws|e0]; [done|]. cbn [existsb] in H. rewrite orb_false_r in H.
    destruct (subclass (exn_class e0) Exception) eqn:Hc; injection H as <-; [by left|by right].
Qed.

(** Without headland passes nothing is mowed: for any geometry, a zone
    whose [headland_passes] is zero (or negative), which the configuration
    accepts, plans no waypoints at all; the fill pattern is not generated. *)
Theorem no_headland_no_fill fuel zone ws
    (Hp : headland_passes (coverage zone) <= 0)
    (H : generate_waypoints math_cos math_sin fuel zone = Some (Ok ws)) :
  ws = [].
Proof.
  unfold generate_waypoints in H. destruct (F.leb _ F.zero); [done|].
  destruct (plan_body _ _ _ _) as [r0|] eqn:Hb; [|done]. cbn in H. injection H as H.
  apply except_inv in H as [->|(e & _ & _ & ?)]; [|done].
  unfold plan_body in Hb.
  destruct (utm_crs _) as [crs|] eqn:Hcrs; [|done]. cbn [mbind res_bind] in Hb.
  destruct (to_planar crs (boundary zone)) as [bxy|]; [|done].
  destruct (rmap _ _) as [exy|]; [|done].
  unfold generate_headland_passes in Hb.
  destruct (Z.leb_spec (headland_passes (coverage zone)) 0); [|lia].
  cbn [fill_points concat app mbind option_bind res_bind] in Hb. by simplify_eq.
Qed.

Definition never_raises (poly : G) : Prop := forall l, exists g i,
  g_linestring l = Ok g /\ g_intersection poly g = Ok i.
End facts.

(** ** What the planner relies on of planar geometry

    [covers g p]: [p] is a point of [g] or of its outline; [inside e p]: [p] is in
    the interior of the polygon [e]; [turn a o p q]: [q] is [p] turned by [a] degrees
    about [o].  Set operations and erosion take points away, the coordinates of a
    geometry are points of it, and nothing of a valid polygon is left in what it
    was subtracted from once it is enlarged. *)
Class Planar (G : Type) `{!Shapely G} (covers inside : G -> pt -> Prop)
    (turn : float -> pt -> pt -> pt -> Prop) : Prop := {
  planar_rings g ext ints p : g_view g = GPolygon ext ints -> p ∈ ext ++ concat ints -> covers g p;
  planar_part g gs h p : g_view g = GMulti gs -> h ∈ gs -> covers h p -> covers g p;
  planar_line g cs p : g_view g = GLineString cs -> p ∈ cs -> covers g p;
  planar_lines g css p : g_view g = GMultiLineString css -> p ∈ concat css -> covers g p;
  planar_erode g d h p : F.leb F.zero d = true -> g_buffer g (F.neg d) = Ok h -> covers h p -> covers g p;
  planar_difference a b d p : g_difference a b = Ok d -> covers d p -> covers a p;
  planar_clear a e r b d p :
    g_is_valid e = true -> F.gtb r F.zero = true -> g_buffer e r = Ok b -> g_difference a b = Ok d ->
    covers d p -> inside e p -> False;
  planar_intersection a b i p : g_intersection a b = Ok i -> covers i p -> covers a p;
  planar_rotate g a o r q : g_rotate g a o = Ok r -> covers r q -> exists p, covers g p /\ turn a o p q;
  planar_unturned a o p q : F.eqb a F.zero = true -> turn (F.neg a) o p q -> q = p
}.

Lemma concat_rev_rev {A} (l : list (list A)) : concat (map (@rev A) (rev l)) = rev (concat l).
Proof.
  induction l as [|x l IH]; [done|]. cbn [rev concat]. rewrite map_app, concat_app, IH. cbn [map concat].
  by rewrite app_nil_r, rev_app_distr.
Qed.

Lemma elem_of_rev {A} (x : A) l : x ∈ rev l <-> x ∈ l.
Proof. by rewrite !list_elem_of_In, <- in_rev. Qed.

Section planar.
Context {G : Type} `{!Shapely G} `{PP : Pyproj} `{IP : F.Interpreter}
  {covers inside : G -> pt -> Prop} {turn : float -> pt -> pt -> pt -> Prop} `{!Planar G covers inside turn}.
Context (math_cos math_sin : float -> float).

(** In the boundary [b] and in no exclusion. *)
Definition mowable (b : G) (es : list G) (p : pt) : Prop :=
  covers b p /\ Forall (fun e => inside e p -> False) es.

(** [m] is [a] less the exclusions, each enlarged by half a metre. *)
Inductive Remains : G -> list G -> G -> Prop :=
| remains_all a : Remains a [] a
| remains_less a e es eb d m :
    g_buffer e half = Ok eb -> g_difference a eb = Ok d -> Remains d es m -> Remains a (e :: es) m.

Lemma remains_mowable a es m p :
  Remains a es m -> Forall (fun e => g_is_valid e = true) es -> covers m p -> mowable a es p.
Proof.
  induction 1 as [a|a e es eb d m Hb Hd Hm IH]; intros Hv Hp; [by split|].
  inversion Hv as [|? ? Hve Hves]; subst. destruct (IH Hves Hp) as [Hdp Hes]. split.
  - by eapply planar_difference.
  - constructor; [|done]. exact (planar_clear a e half eb d p Hve eq_refl Hb Hd Hdp).
Qed.

Lemma subtracted a exy es m :
  rmap g_polygon exy = Ok es -> Forall (fun e => g_is_valid e = true) es ->
  subtract_exclusions a exy = Ok m \/ subtract_buffered a exy = Ok m -> Remains a es m.
Proof.
  revert a es. induction exy as [|e exy IH]; intros a es Hes Hv Hm.
  - injection Hes as <-. destruct Hm as [[= <-]|[= <-]]; constructor.
  - cbn [rmap] in Hes. apply rbind_ok in Hes as (ep & Hep & Hes). apply rbind_ok in Hes as (es' & Hes' & [= <-]).
    inversion Hv as [|? ? Hve Hves]; subst. cbn [subtract_exclusions subtract_buffered] in Hm.
    unfold repaired in Hm. rewrite Hep in Hm. cbn [mbind res_bind] in Hm. rewrite Hve in Hm. cbn [mbind res_bind] in Hm.
    destruct (g_buffer ep half) as [eb|] eqn:Heb; [|by destruct Hm].
    cbn [mbind res_bind] in Hm. destruct (g_difference a eb) as [d|] eqn:Hd; [|by destruct Hm].
    econstructor; [done|done|]. by apply IH.
Qed.

Lemma in_ring p ring : p ∈ concat (ring_pass ring) -> p ∈ ring.
Proof.
  unfold ring_pass. destruct ring as [|x ring] using rev_ind; [done|]. rewrite removelast_last.
  destruct ring as [|y ring]; [by intros []%elem_of_nil|]. cbn [concat]. rewrite app_nil_r.
  intros H. apply elem_of_app. by left.
Qed.

Lemma in_polygon p ext ints : p ∈ concat (polygon_passes ext ints) -> p ∈ ext ++ concat ints.
Proof.
  unfold polygon_passes. rewrite concat_app, !elem_of_app. intros [H|H]; [left; by apply in_ring|right].
  induction ints as [|r ints IH]; [done|]. cbn [map concat] in *. rewrite concat_app, elem_of_app in H.
  rewrite elem_of_app. destruct H as [H|H]; [left; by apply in_ring|right; auto].
Qed.

Lemma extracted p g : p ∈ concat (extract_passes g) -> covers g p.
Proof.
  unfold extract_passes. destruct (g_view g) as [ext ints|gs| | |] eqn:Hg; try by intros []%elem_of_nil.
  - intros H. by eapply planar_rings, in_polygon.
  - intros H. assert (exists h, h ∈ gs /\ covers h p) as (h & Hh & Hp); [|by eapply planar_part].
    clear Hg. induction gs as [|h gs IH]; [by apply elem_of_nil in H|]. cbn [map concat] in H.
    rewrite concat_app, elem_of_app in H. destruct H as [H|H].
    + exists h. split; [left|]. destruct (g_view h) as [ext ints| | | |] eqn:Hh; try by apply elem_of_nil in H.
      destruct (F.gtb _ _); [|by apply elem_of_nil in H]. by eapply planar_rings, in_polygon.
    + destruct (IH H) as (h' & Hh' & Hp). exists h'. split; [by right|done].
Qed.

Lemma passes_covered n d poly ps p :
  F.leb F.zero d = true -> pass_loop n d poly = Ok ps -> p ∈ concat ps -> covers poly p.
Proof.
  intros Hd. revert poly ps. induction n as [|n IH]; intros poly ps; cbn [pass_loop].
  { intros [= <-] []%elem_of_nil. }
  destruct (_ || _); [intros [= <-] []%elem_of_nil|]. rewrite rbind_ok. intros (next & Hn & H) Hp.
  destruct (g_is_empty next); [injection H as <-; by apply extracted|].
  apply rbind_ok in H as (rest & Hr & [= <-]). rewrite concat_app, elem_of_app in Hp.
  destruct Hp as [Hp|Hp]; [by apply extracted|]. eapply planar_erode; [done..|by eapply IH].
Qed.

Lemma innermost_covered n d poly m p :
  F.leb F.zero d = true -> innermost n d poly = Ok m -> covers m p -> covers poly p.
Proof.
  intros Hd. revert poly. induction n as [|n IH]; intros poly; cbn [innermost]; [by intros [= <-]|].
  rewrite rbind_ok. intros (q & Hq & H) Hp. destruct (g_is_empty q).
  - injection H as ->. by eapply planar_erode.
  - eapply planar_erode; [done..|by eapply IH].
Qed.

Lemma clipped fw i p : p ∈ clip fw i -> covers i p.
Proof.
  unfold clip. destruct (g_is_empty i); [by intros []%elem_of_nil|].
  destruct (g_view i) as [| |cs|css|] eqn:Hi; try by intros []%elem_of_nil.
  - intros H. by eapply planar_line.
  - intros H. eapply planar_lines; [done|]. destruct fw; [done|].
    by rewrite concat_rev_rev, elem_of_rev in H.
Qed.

Lemma sweep_covered n poly minx maxx top sp y fw ws p :
  sweep n poly minx maxx top sp y fw = Some (Ok ws) -> p ∈ ws -> covers poly p.
Proof.
  revert y fw ws. induction n as [|n IH]; intros y fw ws; cbn [sweep]; [done|].
  destruct (F.leb y top); [|intros [= <-] []%elem_of_nil].
  destruct (_ ≫= _) as [i|] eqn:Hi; [|done]. apply rbind_ok in Hi as (l & _ & Hi).
  destruct (sweep _ _ _ _ _ _ _ _) as [[rest|]|] eqn:Hr; [|done..].
  intros [= <-] [Hp|Hp]%elem_of_app; [|by eapply IH].
  by eapply planar_intersection, clipped.
Qed.

(** A point of the plan: where it is, or where the turned area has it and the
    planner's own rotation puts it back. *)
Definition planned (b : G) (es : list G) (angle : float) (p : pt) : Prop :=
  mowable b es p \/
  (F.eqb angle F.zero = false /\ exists o p' q, mowable b es p' /\ turn (F.neg angle) o p' q /\
     p = rotate_back math_cos math_sin angle o.1 o.2 q).

Lemma fill_planned fuel area cut overlap angle ws b es p :
  (forall q, covers area q -> mowable b es q) ->
  generate_boustrophedon_fill math_cos math_sin fuel area cut overlap angle = Some (Ok ws) -> p ∈ ws ->
  planned b es angle p.
Proof.
  intros Harea. unfold generate_boustrophedon_fill. destruct (_ || _); [intros [= <-] []%elem_of_nil|].
  destruct (g_bounds area) as [[[minx miny] ?] ?]. destruct (g_rotate _ _ _) as [r|] eqn:Hr; [|done].
  destruct (g_bounds r) as [[[rminx rminy] rmaxx] rmaxy]. destruct (sweep _ _ _ _ _ _ _ _) as [[qs|]|] eqn:Hs; [|done..].
  assert (forall q, q ∈ qs -> exists p', mowable b es p' /\ turn (F.neg angle) (minx, miny) p' q) as Hq.
  { intros q Hq. destruct (planar_rotate _ _ _ _ q Hr) as (p' & Hp' & Ht); [by eapply sweep_covered|]. eauto. }
  intros [= <-] Hp. destruct (F.eqb angle F.zero) eqn:Hz; cbn [negb] in Hp.
  - left. destruct (Hq p Hp) as (p' & Hp' & Ht). by rewrite (planar_unturned _ _ _ _ Hz Ht).
  - right. split; [done|]. apply list_elem_of_In, in_map_iff in Hp as (q & <- & Hin).
    apply list_elem_of_In in Hin. destruct (Hq q Hin) as (p' & Hp' & Ht). by exists (minx, miny), p', q.
Qed.

Lemma fill_points_planned fuel zone cut bxy exy b es passes ws p :
  g_polygon bxy = Ok b -> rmap g_polygon exy = Ok es -> Forall (fun e => g_is_valid e = true) es ->
  F.leb F.zero (inset cut (overlap_pct (coverage zone))) = true ->
  fill_points math_cos math_sin fuel zone cut bxy exy passes = Some (Ok ws) -> p ∈ ws ->
  planned b es (angle_deg (coverage zone)) p.
Proof.
  intros Hb Hes Hv Hd. unfold fill_points. destruct passes as [|pass passes]; [intros [= <-] []%elem_of_nil|].
  destruct (fill_area _ _ _ _) as [area|] eqn:Ha; [|done].
  destruct (_ && _); [|intros [= <-] []%elem_of_nil]. apply fill_planned. intros q Hq.
  unfold fill_area in Ha. rewrite Hb in Ha. cbn [mbind res_bind] in Ha. apply rbind_ok in Ha as (m & Hm & Ha).
  assert (Remains b es m) as HR by exact (subtracted _ _ _ _ Hes Hv (or_intror Hm)).
  eapply remains_mowable; [done|done|by eapply innermost_covered].
Qed.

Lemma remains_det a es m1 m2 : Remains a es m1 -> Remains a es m2 -> m1 = m2.
Proof.
  intros H1. revert m2. induction H1 as [|a e es eb d m Hb Hd Hm IH]; intros m2 H2; inversion H2; subst; [done|].
  apply IH. congruence.
Qed.

(** The zone in the plane: the boundary and the exclusions, as polygons. *)
Record Layout (zone : ZoneConfig) (crs : string) (b : G) (es : list G) : Prop := {
  lay_crs : utm_crs (boundary zone) = Ok crs;
  lay_boundary : exists xy, to_planar crs (boundary zone) = Ok xy /\ g_polygon xy = Ok b;
  lay_exclusions : exists xys, rmap (fun e => to_planar crs (ez_polygon e)) (exclusion_zones zone) = Ok xys /\
                               rmap g_polygon xys = Ok es;
  lay_valid : g_is_valid b = true /\ Forall (fun e => g_is_valid e = true) es
}.

(** The headland: where it runs, and how it begins. *)
Lemma headland_covered bxy exy b es cut overlap n passes :
  g_polygon bxy = Ok b -> g_is_valid b = true ->
  rmap g_polygon exy = Ok es -> Forall (fun e => g_is_valid e = true) es ->
  F.leb F.zero (inset cut overlap) = true ->
  generate_headland_passes bxy exy cut overlap n = Ok passes ->
  Forall (mowable b es) (concat passes) /\
  (0 < n -> forall m ext ints, Remains b es m -> g_is_empty m = false -> F.ltb (g_area m) F.one = false ->
     g_view m = GPolygon ext ints -> exists rest, concat passes = removelast ext ++ rest).
Proof.
  intros Hb Hvb Hes Hv Hd. unfold generate_headland_passes, repaired.
  destruct (Z.leb_spec n 0); [intros [= <-]; split; [constructor|lia]|].
  rewrite Hb. cbn [mbind res_bind]. rewrite Hvb. cbn [mbind res_bind]. rewrite rbind_ok. intros (m & Hm & H1).
  assert (Remains b es m) as HR by exact (subtracted _ _ _ _ Hes Hv (or_introl Hm)).
  destruct (g_is_empty m) eqn:Hem.
  { injection H1 as <-. split; [constructor|]. intros _ m' ext ints HR'. rewrite (remains_det _ _ _ _ HR' HR). congruence. }
  split.
  - apply list.Forall_forall. intros p Hp. by eapply remains_mowable, passes_covered.
  - intros _ m' ext ints HR' He Ha Hg. rewrite (remains_det _ _ _ _ HR' HR) in *.
    destruct (Z.to_nat n) eqn:Hn; [lia|]. cbn [pass_loop] in H1. rewrite He, Ha in H1. cbn [orb] in H1.
    apply rbind_ok in H1 as (next & _ & H1).
    assert (exists rest, concat (extract_passes m) = removelast ext ++ rest) as [rest Hrest].
    { unfold extract_passes, polygon_passes, ring_pass. rewrite Hg, concat_app.
      destruct (removelast ext); [by eexists|]. cbn [concat]. rewrite app_nil_r. by eexists. }
    destruct (g_is_empty next); [injection H1 as <-; by exists rest|].
    apply rbind_ok in H1 as (more & _ & [= <-]). rewrite concat_app, Hrest, <- app_assoc. by eexists.
Qed.

End planar.

(** ** The fill, line by line *)
Section fill.
Context {G : Type} `{!Shapely G}.
Context (math_cos math_sin : float -> float).

(** The ends of a sweep line at height [y], ten metres past the area, and the
    coordinates taken from its intersection: those of the one piece, or of the
    pieces, the other way round on the way back. *)
Definition sweep_line (minx maxx y : float) (east : bool) : list pt :=
  let west_end := (F.sub minx (F.of_Z 10), y) in
  let east_end := (F.add maxx (F.of_Z 10), y) in
  if east then [west_end; east_end] else [east_end; west_end].

Inductive Crosses (east : bool) (i : G) : list pt -> Prop :=
| crosses_nothing : g_is_empty i = true -> Crosses east i []
| crosses_once coords :
    g_is_empty i = false -> g_view i = GLineString coords -> Crosses east i coords
| crosses_east segments :
    g_is_empty i = false -> g_view i = GMultiLineString segments -> east = true ->
    Crosses east i (concat segments)
| crosses_west segments :
    g_is_empty i = false -> g_view i = GMultiLineString segments -> east = false ->
    Crosses east i (rev (concat segments))
| touches :
    g_is_empty i = false -> (forall cs, g_view i <> GLineString cs) ->
    (forall css, g_view i <> GMultiLineString css) -> Crosses east i [].

Definition Row (poly : G) (minx maxx y : float) (east : bool) (coords : list pt) : Prop :=
  exists l i, g_linestring (sweep_line minx maxx y east) = Ok l /\ g_intersection poly l = Ok i /\
    Crosses east i coords.

(** The height of the [k]-th line, and whether it runs east. *)
Definition height (y0 sp : float) (k : nat) : float := Nat.iter k (fun y => F.add y sp) y0.
Definition heads_east (fw : bool) (k : nat) : bool := if Nat.even k then fw else negb fw.

Lemma height_S y0 sp k : height y0 sp (S k) = height (F.add y0 sp) sp k.
Proof. apply Nat.iter_succ_r. Qed.

Lemma heads_east_S fw k : heads_east fw (S k) = heads_east (negb fw) k.
Proof.
  unfold heads_east. rewrite Nat.even_succ, <- Nat.negb_even, negb_involutive. by destruct (Nat.even k).
Qed.

Lemma clip_crosses fw i : Crosses fw i (clip fw i).
Proof.
  unfold clip. destruct (g_is_empty i) eqn:He; [by constructor|].
  destruct (g_view i) as [| |cs|css|] eqn:Hv; try (by apply touches; [done|intros ?; rewrite Hv..]).
  - by apply crosses_once.
  - destruct fw; [by apply crosses_east|rewrite concat_rev_rev; by apply crosses_west].
Qed.

Lemma sweep_one poly minx maxx top sp y fw :
  never_raises poly -> F.leb y top = true ->
  exists coords, Row poly minx maxx y fw coords /\
    forall n, sweep (S n) poly minx maxx top sp y fw =
      rest ← sweep n poly minx maxx top sp (F.add y sp) (negb fw);
      Some (match rest with Ok ws => Ok (coords ++ ws) | Err e => Err e end).
Proof.
  intros Hn Hy. destruct (Hn (sweep_line minx maxx y fw)) as (l & i & Hl & Hi).
  exists (clip fw i). split; [exists l, i; split_and!; [done..|apply clip_crosses]|].
  intros n. cbn [sweep]. rewrite Hy. unfold sweep_line in Hl. rewrite Hl. cbn [mbind res_bind]. by rewrite Hi.
Qed.

Lemma sweep_rows K poly minx maxx top sp y fw :
  never_raises poly ->
  F.leb (height y sp K) top = false -> (forall k, (k < K)%nat -> F.leb (height y sp k) top = true) ->
  exists rows, length rows = K /\
    (forall k coords, rows !! k = Some coords ->
       Row poly minx maxx (height y sp k) (heads_east fw k) coords) /\
    forall n, (K < n)%nat -> sweep n poly minx maxx top sp y fw = Some (Ok (concat rows)).
Proof.
  intros Hn. revert y fw. induction K as [|K IH]; intros y fw Hpast Hbelow.
  { exists []. split_and!; [done|by intros k coords H|]. intros [|n] Hlt; [lia|]. cbn [sweep].
    cbn in Hpast. by rewrite Hpast. }
  destruct (IH (F.add y sp) (negb fw)) as (rows & Hlen & Hrows & Hs).
  { by rewrite <- height_S. }
  { intros k Hk. rewrite <- height_S. apply Hbelow. lia. }
  destruct (sweep_one poly minx maxx top sp y fw Hn (Hbelow 0%nat ltac:(lia))) as (coords & Hrow & Hone).
  exists (coords :: rows). split_and!; [by rewrite <- Hlen| |].
  - intros [|k] cs Hk; [by injection Hk as <-|]. rewrite height_S, heads_east_S. by apply Hrows.
  - intros [|n] Hlt; [lia|]. rewrite Hone, Hs by lia. done.
Qed.

Lemma sweep_stuck n poly minx maxx top sp y fw :
  never_raises poly -> (forall k, F.leb (height y sp k) top = true) -> sweep n poly minx maxx top sp y fw = None.
Proof.
  intros Hn. revert y fw. induction n as [|n IH]; intros y fw Hall; [done|].
  destruct (sweep_one poly minx maxx top sp y fw Hn (Hall O)) as (coords & _ & Hone). rewrite Hone, IH; [done|].
  intros k. by rewrite <- height_S.
Qed.

(** A point turned counterclockwise about [(x0, y0)], as the code computes it. *)
Definition turned (angle x0 y0 : float) (p : pt) : pt :=
  if F.eqb angle F.zero then p
  else
    let c := math_cos (radians angle) in
    let s := math_sin (radians angle) in
    let dx := F.sub p.1 x0 in
    let dy := F.sub p.2 y0 in
    (F.add (F.sub (F.mul dx c) (F.mul dy s)) x0, F.add (F.add (F.mul dx s) (F.mul dy c)) y0).

Lemma map_turned angle x0 y0 ws :
  (if negb (F.eqb angle F.zero) then map (rotate_back math_cos math_sin angle x0 y0) ws else ws) =
  map (turned angle x0 y0) ws.
Proof. unfold turned. destruct (F.eqb angle F.zero); cbn [negb]; [by rewrite map_id|done]. Qed.

(** C23: The fill is a back-and-forth of parallel lines: for an area of at least
    a square metre, with [r] the area turned by minus the sweep angle about its
    lower left corner, line [k] lies half a spacing plus [k] spacings above the
    bottom of [r], reaches ten metres past it on both sides, and runs east for an even [k]
    and west for an odd one; the waypoints are, line after line and turned back, the
    coordinates of what each line has in common with [r].  The lines end before
    the first one above half a spacing below the top; when repeated binary64 addition never gets
    there, the fill never returns. *)
Theorem fill_is_boustrophedon area r cut overlap angle x0 y0 x1 y1 left bottom right top
    (Hn : never_raises r)
    (Harea : g_is_empty area = false /\ F.ltb (g_area area) F.one = false)
    (Hb : g_bounds area = (x0, y0, x1, y1))
    (Hr : g_rotate area (F.neg angle) (x0, y0) = Ok r)
    (Hrb : g_bounds r = (left, bottom, right, top)) :
  let spacing := F.mul cut (F.sub F.one (F.div overlap (F.of_Z 100))) in
  let y := height (F.add bottom (F.div spacing (F.of_Z 2))) spacing in
  let above k := F.leb (y k) (F.sub top (F.div spacing (F.of_Z 2))) = false in
  let fill fuel := generate_boustrophedon_fill math_cos math_sin fuel area cut overlap angle in
  (forall K, above K -> (forall k, (k < K)%nat -> ~ above k) ->
     exists rows, length rows = K /\
       (forall k coords, rows !! k = Some coords -> Row r left right (y k) (Nat.even k) coords) /\
       forall fuel, (K < fuel)%nat -> fill fuel = Some (Ok (map (turned angle x0 y0) (concat rows)))) /\
  ((forall k, ~ above k) -> forall fuel, fill fuel = None).
Proof.
  destruct Harea as [He Ha]. intros spacing y above fill.
  assert (forall fuel, fill fuel =
    ws ← sweep fuel r left right (F.sub top (F.div spacing (F.of_Z 2))) spacing
           (F.add bottom (F.div spacing (F.of_Z 2))) true;
    Some (match ws with Ok ws => Ok (map (turned angle x0 y0) ws) | Err e => Err e end)) as Hfill.
  { intros fuel. unfold fill, generate_boustrophedon_fill. rewrite He, Ha, Hb. cbn [orb]. rewrite Hr, Hrb.
    unfold inset. fold spacing. destruct (sweep _ _ _ _ _ _ _ _) as [[ws|]|]; cbn [mbind option_bind]; [|done..].
    by rewrite map_turned. }
  assert (forall k, ~ above k -> F.leb (y k) (F.sub top (F.div spacing (F.of_Z 2))) = true) as Hle.
  { intros k Hk. by apply not_false_iff_true in Hk. }
  split.
  - intros K HK Hbelow. destruct (sweep_rows K r left right _ spacing _ true Hn HK) as (rows & Hlen & Hrows & Hs).
    { intros k Hk. by apply Hle, Hbelow. }
    exists rows. split_and!; [done| |].
    + intros k coords Hk. specialize (Hrows k coords Hk). unfold heads_east in Hrows. by destruct (Nat.even k).
    + intros fuel Hf. by rewrite Hfill, Hs.
  - intros Hall fuel. rewrite Hfill, sweep_stuck; [done|done|]. intros k. by apply Hle.
Qed.

(** On the way back, the same piece is taken in opposite directions when it comes
    alone and when it comes as one of several: the first as the intersection has
    it, the others reversed. *)
Lemma way_back_disagrees i j cs :
  g_is_empty i = false -> g_view i = GLineString cs ->
  g_is_empty j = false -> g_view j = GMultiLineString [cs] ->
  clip false i = cs /\ clip false j = rev cs.
Proof. intros Hi Hvi Hj Hvj. unfold clip. rewrite Hi, Hvi, Hj, Hvj. cbn. by rewrite app_nil_r. Qed.
End fill.

(** ** A field of ten metres at a UTM northing of 4,429,000 m *)
Definition field : Shapely (list pt) := {|
  g_polygon l := Ok l;
  g_linestring l := Ok l;
  g_is_valid _ := true;
  g_is_empty l := match l with [] => true | _ => false end;
  g_area _ := F.of_Z 100;
  g_bounds _ := (F.of_Z 500000, F.of_Z 4429000, F.of_Z 500010, F.of_Z 4429010);
  g_buffer g _ := Ok g;
  g_difference g _ := Ok g;
  g_intersection _ l := Ok l;
  g_contains_pt _ _ := Ok true;
  g_touches_pt _ _ := Ok false;
  g_contains _ _ := Ok true;
  g_rotate g _ _ := Ok g;
  g_view g := GLineString g
|}.

Definition plane : Pyproj := {| to_utm _ l := Ok l; to_wgs84 _ l := Ok l |}.

Definition zone_of_width (width : PyVal) (passes : Z) : res exn ZoneConfig :=
  @_coerce _ lenient
    [(VStr "schema", VStr "mower-rover.zone.v1"); (VStr "zone_id", VStr "ne");
     (VStr "name", VStr "North"); (VStr "home", ll 400 (-800)); (VStr "rally_point",
        VDict [(VStr "lat", VInt 40); (VStr "lon", VInt (-80))]);
     (VStr "boundary", VList [ll 400 (-800); ll 400 (-801); ll 401 (-801)]);
     (VStr "coverage", VDict [(VStr "cutting_width_in", width);
                              (VStr "headland_passes", VInt passes)])].

Lemma field_never_raises poly : @never_raises _ field poly.
Proof. intros l. by exists l, l. Defined.

(** A positive cutting width of 1e-9 inches passes every check, and the sweep
    line never moves. *)
Definition tiny_spacing : float :=
  inset (F.mul (F.of_dec 1 (-9)) (F.of_dec 254 (-4))) (F.of_Z 10).

Lemma tiny_width_never_ends poly minx maxx fw n :
  @sweep _ field n poly minx maxx (F.of_Z 4429010) tiny_spacing (F.of_Z 4429000) fw = None.
Proof.
  assert (F.add (F.of_Z 4429000) tiny_spacing = F.of_Z 4429000) as Hst
    by (vm_compute; reflexivity).
  assert (F.leb (F.of_Z 4429000) (F.of_Z 4429010) = true) as Hle by (vm_compute; reflexivity).
  revert Hst Hle. generalize tiny_spacing, (F.of_Z 4429000), (F.of_Z 4429010).
  intros sp y top Hst Hle. revert fw.
  induction n as [|n IH]; intros fw; [reflexivity|]. cbn [sweep]. rewrite Hle.
  destruct fw; cbn [g_linestring g_intersection field mbind res_bind]; rewrite Hst, IH; reflexivity.
Qed.

Lemma no_headland_no_fill_witness :
  exists zone ws, zone_of_width (VInt 54) 0 = Ok zone /\
    @generate_waypoints _ field plane F.python312 F.abs F.abs 5 zone = Some (Ok ws) /\ ws = [].
Proof.
  destruct (zone_of_width (VInt 54) 0) as [zone|] eqn:Hz; [|vm_compute in Hz; discriminate].
  vm_compute in Hz. injection Hz as <-.
  match goal with |- context [Ok ?z = Ok _] => set (zone := z) end.
  exists zone, []. split; [reflexivity|].
  assert (@generate_waypoints _ field plane F.python312 F.abs F.abs 5 zone = Some (Ok [])) as H
    by (vm_compute; reflexivity).
  split; [exact H|].
  apply (@no_headland_no_fill _ field plane F.python312 F.abs F.abs 5 zone []); [vm_compute; discriminate|exact H].
Defined.

(** ** Areas of points

    A geometry is a set of points with a kind: enough to plan on.  What a polygon
    takes away is its bounding box. *)
Inductive Kind := Area | Line.
Definition Cloud : Type := (Kind * list pt)%type.

Definition in_box (g : Cloud) (p : pt) : bool :=
  existsb (fun q : pt => F.leb q.1 p.1) g.2 && existsb (fun q : pt => F.leb p.1 q.1) g.2 &&
  existsb (fun q : pt => F.leb q.2 p.2) g.2 && existsb (fun q : pt => F.leb p.2 q.2) g.2.

Definition clouds : Shapely Cloud := {|
  g_polygon l := Ok (Area, l);
  g_linestring l := Ok (Line, l);
  g_is_valid _ := true;
  g_is_empty g := match g.2 with [] => true | _ => false end;
  g_area _ := F.of_Z 100;
  g_bounds _ := (F.zero, F.zero, F.of_Z 3, F.of_Z 3);
  g_buffer g _ := Ok g;
  g_difference a b := Ok (a.1, List.filter (fun p => negb (in_box b p)) a.2);
  g_intersection a l := Ok (Line, List.filter (in_box l) a.2);
  g_contains_pt _ _ := Ok true;
  g_touches_pt _ _ := Ok false;
  g_contains _ _ := Ok true;
  g_rotate g _ _ := Ok g;
  g_view g := match g.1 with Area => GPolygon (g.2 ++ take 1 g.2) [] | Line => GLineString g.2 end
|}.

Definition cloud_covers (g : Cloud) (p : pt) : Prop := p ∈ g.2.
Definition cloud_inside (g : Cloud) (p : pt) : Prop := in_box g p = true.
Definition cloud_turn (_ : float) (_ p q : pt) : Prop := q = p.

Lemma in_filter {A} (f : A -> bool) x l : x ∈ List.filter f l <-> x ∈ l /\ f x = true.
Proof. by rewrite !list_elem_of_In, filter_In. Qed.

#[local] Instance clouds_planar : @Planar Cloud clouds cloud_covers cloud_inside cloud_turn.
Proof.
  unfold cloud_covers, cloud_inside, cloud_turn.
  constructor; cbn [g_view g_buffer g_difference g_intersection g_rotate clouds].
  - intros [[] g] ext ints p [= <- <-]. cbn. rewrite app_nil_r, elem_of_app. intros [H|H]; [done|].
    apply list_elem_of_In. apply list_elem_of_In in H. destruct g; [done|]. destruct H as [H|[]]. by left.
  - by intros [[] g] gs h p.
  - by intros [[] g] cs p [= <-].
  - by intros [[] g] css p.
  - by intros g d h p _ [= <-].
  - intros a b d p [= <-]. cbn. by intros [? _]%in_filter.
  - intros a e r b d p _ _ [= <-] [= <-]. cbn. intros [_ Hn]%in_filter Hi. by rewrite Hi in Hn.
  - intros a b i p [= <-]. cbn. by intros [? _]%in_filter.
  - intros g a o r q [= <-] Hq. by exists q.
  - done.
Qed.

(** A boundary of four points, one of them in the exclusion. *)
Definition walled_zone : res exn ZoneConfig :=
  @_coerce _ lenient
    [(VStr "schema", VStr "mower-rover.zone.v1"); (VStr "zone_id", VStr "ne");
     (VStr "name", VStr "North"); (VStr "home", ll 400 (-800)); (VStr "rally_point",
        VDict [(VStr "lat", VInt 40); (VStr "lon", VInt (-80))]);
     (VStr "boundary", VList [ll 400 (-800); ll 400 (-801); ll 401 (-801); ll 401 (-800)]);
     (VStr "exclusion_zones", VList [VDict [(VStr "name", VStr "pond");
        (VStr "polygon", VList [ll 401 (-801); ll 402 (-801); ll 402 (-802)])]]);
     (VStr "coverage", VDict [(VStr "cutting_width_in", VInt 54); (VStr "headland_passes", VInt 1)])].

Definition walled : ZoneConfig := Eval vm_compute in
  match walled_zone as r return (match r with Ok _ => ZoneConfig | Err _ => unit end) with
  | Ok z => z
  | Err _ => tt
  end.

Definition walled_crs : string := "+proj=utm +zone=17 +north +datum=WGS84 +units=m +no_defs".
Definition walled_boundary : Cloud := (Area, map (fun p => (lon p, lat p)) (boundary walled)).
Definition walled_exclusions : list Cloud :=
  map (fun e => (Area, map (fun p => (lon p, lat p)) (ez_polygon e))) (exclusion_zones walled).


(** ** A field whose lines all cross it *)
Definition crossed : Shapely (list pt) := {|
  g_polygon l := Ok l;
  g_linestring l := Ok l;
  g_is_valid _ := true;
  g_is_empty l := match l with [] => true | _ => false end;
  g_area _ := F.of_Z 100;
  g_bounds _ := (F.zero, F.zero, F.of_Z 10, F.of_Z 3);
  g_buffer g _ := Ok g;
  g_difference g _ := Ok g;
  g_intersection _ l := Ok (map (fun p : pt => (if F.ltb p.1 F.zero then F.zero else F.of_Z 10, p.2)) l);
  g_contains_pt _ _ := Ok true;
  g_touches_pt _ _ := Ok false;
  g_contains _ _ := Ok true;
  g_rotate g _ _ := Ok g;
  g_view g := GLineString g
|}.

Lemma fill_is_boustrophedon_witness :
  exists rows, length rows = 3%nat /\
    (forall k coords, rows !! k = Some coords ->
       @Row _ crossed [(F.zero, F.zero)] F.zero (F.of_Z 10) (height (F.add F.zero (F.of_dec 5 (-1))) F.one k) (Nat.even k) coords) /\
    forall fuel, (3 < fuel)%nat ->
      @generate_boustrophedon_fill _ crossed F.abs F.abs fuel [(F.zero, F.zero)] F.one F.zero F.zero =
      Some (Ok (map (turned F.abs F.abs F.zero F.zero F.zero) (concat rows))).
Proof.
  refine (proj1 (@fill_is_boustrophedon _ crossed F.abs F.abs [(F.zero, F.zero)] [(F.zero, F.zero)] F.one F.zero F.zero
            F.zero F.zero (F.of_Z 10) (F.of_Z 3) F.zero F.zero (F.of_Z 10) (F.of_Z 3) _ _ _ _ _) 3%nat _ _).
  - intros l. eexists _, _. split; reflexivity.
  - split; vm_compute; reflexivity.
  - reflexivity.
  - reflexivity.
  - reflexivity.
  - vm_compute. reflexivity.
  - intros [|[|[|k]]] Hk; [vm_compute; discriminate..|lia].
Defined.

(** Three lines, a metre apart, to and fro. *)
Example crossed_fill :
  @generate_boustrophedon_fill _ crossed F.abs F.abs 5 [(F.zero, F.zero)] F.one F.zero F.zero =
  Some (Ok [(F.zero, F.of_dec 5 (-1)); (F.of_Z 10, F.of_dec 5 (-1));
            (F.of_Z 10, F.of_dec 15 (-1)); (F.zero, F.of_dec 15 (-1));
            (F.zero, F.of_dec 25 (-1)); (F.of_Z 10, F.of_dec 25 (-1))]).
Proof. vm_compute. reflexivity. Qed.
