(* ===== verification/Connection.v ===== *)
(** * Opening a link (mavlink/connection.py)

    [open_link] is a generator used as a context manager: it retries connecting,
    hands the connection to the [with] body at its [yield], and receives the
    body's exception there.  The model runs the body at the [yield] and follows
    what [contextlib] then does: an exception of the body is raised inside the
    [try] of the retry loop, so it is caught like a failed attempt; if the
    generator then reaches its [yield] again, [contextlib] raises
    [RuntimeError]. *)

From stdpp Require Import base list strings option.
From Stdlib Require Import ZArith Lia.
From S2P Require Import Prelude Float64 PyVal.

(** pymavlink's connection object and the shutdown event. *)
Class Dialer (W : Type) := {
  d_connect : string -> Z -> prog exn W unit;
  d_wait_heartbeat : float -> prog exn W bool;
  d_close : prog exn W unit;
  d_sleep : float -> prog exn W unit;
  d_is_set : prog exn W bool;
  d_wait : float -> prog exn W bool
}.

Module Connection.
Record ConnectionConfig : Type := {
  endpoint : string; baud : Z; source_system : Z; source_component : Z;
  heartbeat_timeout_s : float; retry_attempts : Z; retry_backoff_s : float }.

Definition default_config (ep : string) : ConnectionConfig :=
  {| endpoint := ep; baud := 57600; source_system := 254; source_component := 0;
     heartbeat_timeout_s := F.of_Z 10; retry_attempts := 3; retry_backoff_s := F.one |}.

Section open_link.
Context {W : Type} `{!Dialer W}.
Variable config : ConnectionConfig.
(** Whether a shutdown event was passed. *)
Variable has_event : bool.

Definition conn_error {A} (m : FStr) : prog exn W A := plift (raise_ ConnectionError m).

(** [conn = ...; hb = conn.wait_heartbeat(...)] inside the [try]. *)
Definition dial : prog exn W unit :=
  _ ← d_connect (endpoint config) (baud config);
  hb ← d_wait_heartbeat (heartbeat_timeout_s config);
  if (hb : bool) then mret tt else conn_error [L "no heartbeat within timeout"].

(** The [except Exception] block of attempt number [attempt]. *)
Definition backoff (attempt : Z) : prog exn W unit :=
  if (attempt <? retry_attempts config)%Z then
    let pause := F.mul (retry_backoff_s config) (F.of_Z attempt) in
    if has_event then
      stop ← d_wait pause;
      if (stop : bool) then conn_error [L "shutdown requested during connection retry"]
      else mret tt
    else d_sleep pause
  else mret tt.

Definition gave_up {A} (last_error : FStr) : prog exn W A :=
  conn_error ([L "Failed to connect to "; L (endpoint config); L " after ";
               V (VInt (retry_attempts config)); L " attempts: "] ++ last_error).

(** The attempts from number [attempt] on, [k] of them left, up to the [yield]:
    the number of the attempt that connected and how many are left after it. *)
Fixpoint connect (k : nat) (attempt : Z) (last_error : FStr) : prog exn W (Z * nat) :=
  match k with
  | O => gave_up last_error
  | Datatypes.S k' =>
      stop ← (if has_event then d_is_set else mret false);
      if (stop : bool) then conn_error [L "shutdown requested before connection attempt"]
      else
        r ← pexcept [Exception] (_ ← dial; mret None) (fun exc => mret (Some exc));
        match r with
        | None => mret (attempt, k')
        | Some exc => _ ← backoff attempt; connect k' (attempt + 1)%Z (exn_msg exc)
        end
  end.

(** [with contextlib.suppress(Exception): conn.close()] *)
Definition close : prog exn W unit := pexcept [Exception] d_close (fun _ => mret tt).

(** The outcome of the body as a value. *)
Definition outcome {A} (body : prog exn W A) : prog exn W (res exn A) :=
  fun w => match body w with Some (r, w') => Some (Ok r, w') | None => None end.

Definition open_link {A} (body : prog exn W A) : prog exn W A :=
  '(attempt, k) ← connect (Z.to_nat (retry_attempts config)) 1 [L "None"];
  r ← outcome body;
  _ ← close;
  match r with
  | Ok a => mret a
  | Err e =>
      if subclass (exn_class e) Exception then
        _ ← backoff attempt;
        _ ← connect k (attempt + 1)%Z (exn_msg e);
        _ ← close;
        plift (raise_ RuntimeError [L "generator didn't stop after throw()"])
      else plift (Err e)
  end.
End open_link.
End Connection.
Export Connection.

Section facts.
Context {W : Type} `{!Dialer W}.
Context (config : ConnectionConfig) (has_event : bool).

(** The exceptions a library call lets out when it is not an [Exception], or
    that waiting and sleeping raise, aside. *)
Definition calm : Prop :=
  (forall d w r w', d_sleep d w = Some (r, w') -> is_ok r = true) /\
  (forall d w r w', d_wait d w = Some (r, w') -> is_ok r = true) /\
  (forall w r w', d_is_set w = Some (r, w') -> is_ok r = true) /\
  (forall w r w', dial config w = Some (r, w') ->
     match r with Err e => subclass (exn_class e) Exception = true | Ok _ => True end) /\
  (forall w r w', d_close w = Some (r, w') ->
     match r with Err e => subclass (exn_class e) Exception = true | Ok _ => True end).

Lemma backoff_error n w e w' :
  calm -> backoff config has_event n w = Some (Err e, w') -> exn_class e = ConnectionError.
Proof.
  intros (Hsl & Hwa & _). unfold backoff. destruct (_ <? _)%Z; [|done]. destruct has_event.
  - intros [(e' & [= <-] & H)|(stop & w1 & H1 & H)]%pbind_inv.
    + by apply Hwa in H.
    + destruct stop; [|done]. by injection H as <- <-.
  - intros H. by apply Hsl in H.
Qed.

Lemma connect_error k n m w e w' :
  calm -> connect config has_event k n m w = Some (Err e, w') -> exn_class e = ConnectionError.
Proof.
  intros Hc. pose proof Hc as (_ & _ & Hset & Hdial & _).
  revert n m w. induction k as [|k IH]; intros n m w; cbn [connect].
  - by intros [= <- <-].
  - intros [(e' & [= <-] & H)|(stop & w1 & H1 & H)]%pbind_inv.
    + destruct has_event; [by apply Hset in H|done].
    + destruct stop; [by injection H as <- <-|].
      apply pbind_inv in H as [(e' & [= <-] & H)|(r & w2 & H2 & H)].
      * unfold pexcept, pcatch in H. match type of H with
        | match ?x with _ => _ end = _ => destruct x as [[[?|e1] w2]|] eqn:Hd
        end; [done| |done].
        exfalso. apply pbind_inv in Hd as [(e2 & [= ->] & Hd)|(u & w3 & _ & Hd)]; [|done].
        apply Hdial in Hd. unfold caught_by in H. cbn [existsb] in H. by rewrite Hd in H.
      * destruct r as [exc|]; [|done].
        apply pbind_inv in H as [(e' & [= <-] & H)|(u & w3 & H3 & H)];
          [by eapply backoff_error|by eapply IH].
Qed.

Lemma close_ok w r w' : calm -> close w = Some (r, w') -> r = Ok tt.
Proof.
  intros (_ & _ & _ & _ & Hcl). unfold close, pexcept, pcatch.
  destruct (d_close w) as [[[[]|e] w1]|] eqn:H; [by intros [= <- <-]| |done].
  apply Hcl in H. unfold caught_by. cbn [existsb]. rewrite H. by intros [= <- <-].
Qed.

(** An exception of the [with] body never reaches the caller as it is: when
    a connection was made and the body raises an [Exception], for instance the
    [typer.Exit(1)] of a command that refuses to go on, [open_link] raises a
    [ConnectionError] or a [RuntimeError] in its place, after dialling again if
    attempts are left. *)
Lemma open_link_body_error {A} (body : prog exn W A) w attempt k w1 e w2 r w3
    (Hcalm : calm)
    (Hconn : connect config has_event (Z.to_nat (retry_attempts config)) 1 [L "None"] w
             = Some (Ok (attempt, k), w1))
    (Hbody : body w1 = Some (Err e, w2)) (He : subclass (exn_class e) Exception = true)
    (H : open_link config has_event body w = Some (r, w3)) :
  exists e', r = Err e' /\ (exn_class e' = ConnectionError \/ exn_class e' = RuntimeError).
Proof.
  unfold open_link in H. rewrite (pbind_step _ _ _ _ _ Hconn) in H. cbv beta iota in H.
  assert (outcome body w1 = Some (Ok (Err e), w2)) as Ho by (unfold outcome; by rewrite Hbody).
  rewrite (pbind_step _ _ _ _ _ Ho) in H.
  apply pbind_inv in H as [(e' & -> & H)|(u & w4 & _ & H)]; [by apply close_ok in H|].
  rewrite He in H.
  apply pbind_inv in H as [(e' & -> & H)|(? & w5 & _ & H)].
  { exists e'. split; [done|]. left. by eapply backoff_error. }
  apply pbind_inv in H as [(e' & -> & H)|(? & w6 & _ & H)].
  { exists e'. split; [done|]. left. by eapply connect_error. }
  apply pbind_inv in H as [(e' & -> & H)|(? & w7 & _ & H)]; [by apply close_ok in H|].
  injection H as <- <-. eexists. split; [done|]. by right.
Qed.

(** When the body succeeds, so does [open_link], with the body's value, and
    the connection is closed right after the body; when no attempt connects, the
    body never runs and the error is the one of the connection phase. *)
Theorem open_link_body_ok {A} (body : prog exn W A) w :
  match connect config has_event (Z.to_nat (retry_attempts config)) 1 [L "None"] w with
  | None => open_link config has_event body w = None
  | Some (Err e, w1) => open_link config has_event body w = Some (Err e, w1)
  | Some (Ok _, w1) =>
      forall a w2 w3, body w1 = Some (Ok a, w2) -> close w2 = Some (Ok tt, w3) ->
      open_link config has_event body w = Some (Ok a, w3)
  end.
Proof.
  unfold open_link. destruct (connect _ _ _ _ _ w) as [[[[attempt k]|e] w1]|] eqn:Hc.
  - intros a w2 w3 Hb Hcl. rewrite (pbind_step _ _ _ _ _ Hc). cbv beta iota.
    assert (outcome body w1 = Some (Ok (Ok a), w2)) as Ho by (unfold outcome; by rewrite Hb).
    rewrite (pbind_step _ _ _ _ _ Ho), (pbind_step _ _ _ _ _ Hcl). done.
  - by rewrite (pbind_err _ _ _ _ _ Hc).
  - unfold mbind, prog_bind. by rewrite Hc.
Qed.
End facts.

(** ** A dialer that counts connections and closings *)
#[local] Instance counting : Dialer (nat * nat) := {
  d_connect _ _ w := Some (Ok tt, (S w.1, w.2));
  d_wait_heartbeat _ w := Some (Ok true, w);
  d_close w := Some (Ok tt, (w.1, S w.2));
  d_sleep _ w := Some (Ok tt, w);
  d_is_set w := Some (Ok false, w);
  d_wait _ w := Some (Ok false, w)
}.

Lemma counting_calm : calm (default_config "udp").
Proof. split_and!; intros; match goal with H : _ = Some _ |- _ => cbv in H; by inversion H end. Defined.

Lemma open_link_body_error_witness :
  exists e', open_link (W := nat * nat) (A := unit) (default_config "udp") false
               (plift (exit_ 1)) (O, O) = Some (Err e', (2, 2)) /\
    (exn_class e' = ConnectionError \/ exn_class e' = RuntimeError).
Proof.
  destruct (open_link (W := nat * nat) (A := unit) (default_config "udp") false
              (plift (exit_ 1)) (O, O)) as [[r w3]|] eqn:H; [|vm_compute in H; discriminate].
  assert (w3 = (2, 2)) as -> by (vm_compute in H; injection H; auto).
  destruct (open_link_body_error (default_config "udp") false (A := unit) (plift (exit_ 1)) (O, O)
              1%Z 2 (1, 0) (Exn TyperExit [] 1) (1, 0) r (2, 2) counting_calm) as (e' & -> & He').
  - vm_compute. reflexivity.
  - reflexivity.
  - vm_compute. reflexivity.
  - exact H.
  - by exists e'.
Defined.

Lemma open_link_body_ok_witness :
  open_link (W := nat * nat) (default_config "udp") false (mret 7) (O, O) = Some (Ok 7, (1, 1)).
Proof.
  exact (open_link_body_ok (default_config "udp") false (mret 7) (O, O)
           7 (1, 0) (1, 1) eq_refl eq_refl).
Defined.
