(* ===== verification/GeoJson.v ===== *)
(** * GeoJSON export (zone/geojson.py)

    A zone and its waypoints as an RFC 7946 document, one zone or several. *)

From stdpp Require Import base list strings option.
From Stdlib Require Import ZArith Lia.
From S2P Require Import Prelude Float64 PyVal Geometry ZoneConfig.

Module GeoJson.
Definition position (p : LatLon) : PyVal := VList [VFloat (lon p); VFloat (lat p)].

(** The coordinates of a ring, its first one appended. *)
Definition closed_ring (points : list LatLon) : res exn (list PyVal) :=
  first ← py_index (map position points) 0;
  Ok (map position points ++ [first]).

Definition feature (properties : list (string * PyVal)) (gtype : string) (coordinates : PyVal) : PyVal :=
  VDict [(VStr "type", VStr "Feature");
         (VStr "properties", VDict (map (fun kv => (VStr kv.1, kv.2)) properties));
         (VStr "geometry", VDict [(VStr "type", VStr gtype); (VStr "coordinates", coordinates)])].

Definition exclusion_feature (zone : ZoneConfig) (ez : ExclusionZone) : res exn PyVal :=
  ring ← closed_ring (ez_polygon ez);
  Ok (feature [("zone_id", VStr (zone_id zone)); ("feature_type", VStr "exclusion");
               ("name", VStr (ez_name ez)); ("buffer_m", VFloat (ez_buffer_m ez))]
        "Polygon" (VList [VList ring])).

Definition boundary_feature (zone : ZoneConfig) : res exn PyVal :=
  ring ← closed_ring (boundary zone);
  Ok (feature [("zone_id", VStr (zone_id zone)); ("feature_type", VStr "boundary");
               ("name", VStr (zname zone)); ("description", VStr (description zone))]
        "Polygon" (VList [VList ring])).

Definition home_feature (zone : ZoneConfig) : PyVal :=
  feature [("zone_id", VStr (zone_id zone)); ("feature_type", VStr "home")]
    "Point" (position (home zone)).

Definition rally_feature (zone : ZoneConfig) : PyVal :=
  feature [("zone_id", VStr (zone_id zone)); ("feature_type", VStr "rally");
           ("description", rp_description (rally_point zone))]
    "Point" (position (mkLatLon (rp_lat (rally_point zone)) (rp_lon (rally_point zone)))).

Definition path_features (zone : ZoneConfig) (waypoints : list LatLon) : list PyVal :=
  match waypoints with
  | [] => []
  | _ => [feature [("zone_id", VStr (zone_id zone)); ("feature_type", VStr "coverage_path");
                   ("waypoint_count", VInt (Z.of_nat (length waypoints)));
                   ("pattern", VStr (pattern (coverage zone)));
                   ("mow_speed_mps", VFloat (mow_speed_mps (coverage zone)))]
            "LineString" (VList (map position waypoints))]
  end.

Definition zone_features (zone : ZoneConfig) (waypoints : list LatLon) : res exn (list PyVal) :=
  b ← boundary_feature zone;
  es ← rmap (exclusion_feature zone) (exclusion_zones zone);
  Ok ((b :: es) ++ [home_feature zone; rally_feature zone] ++ path_features zone waypoints).

Definition collection (properties : list (PyVal * PyVal)) (features : list PyVal) : PyVal :=
  VDict [(VStr "type", VStr "FeatureCollection"); (VStr "properties", VDict properties);
         (VStr "features", VList features)].

Definition export_zone_geojson (zone : ZoneConfig) (waypoints : list LatLon) : res exn PyVal :=
  features ← zone_features zone waypoints;
  Ok (collection [(VStr "zone_id", VStr (zone_id zone)); (VStr "zone_name", VStr (zname zone));
                  (VStr "description", VStr (description zone))] features).

(** [feature["properties"]["feature_type"] != "coverage_path"] of an exported feature. *)
Definition not_path (f : PyVal) : bool :=
  match f with
  | VDict d =>
      match dget d "properties" with
      | Some (VDict p) => match dget p "feature_type" with
                          | Some v => negb (key_is "coverage_path" v) | None => true end
      | _ => true
      end
  | _ => true
  end.

Definition export_multi_zone_geojson (zones : list ZoneConfig) : res exn PyVal :=
  fss ← rmap (fun zone => zone_features zone []) zones;
  Ok (collection [(VStr "zone_count", VInt (Z.of_nat (length zones)));
                  (VStr "zone_names", VList (map (fun z => VStr (zname z)) zones));
                  (VStr "export_type", VStr "multi_zone")]
        (List.filter not_path (concat fss))).
End GeoJson.
Export GeoJson.

(** ** RFC 7946

    Section 3.1's rules of form first; which way the rings run, the right-hand
    rule, is separate ([right_hand_rule]). *)

(** A position is longitude, then latitude. *)
Definition is_position (v : PyVal) : Prop := exists x y, v = VList [VFloat x; VFloat y].

(** A linear ring: four positions or more, the first and the last the same. *)
Definition linear_ring (v : PyVal) : Prop :=
  exists l p, v = VList (p :: l ++ [p]) /\ 2 <= length l /\ Forall is_position (p :: l).

Inductive valid_geometry : PyVal -> Prop :=
| valid_point c : is_position c ->
    valid_geometry (VDict [(VStr "type", VStr "Point"); (VStr "coordinates", c)])
| valid_line l : 2 <= length l -> Forall is_position l ->
    valid_geometry (VDict [(VStr "type", VStr "LineString"); (VStr "coordinates", VList l)])
| valid_polygon rings : rings <> [] -> Forall linear_ring rings ->
    valid_geometry (VDict [(VStr "type", VStr "Polygon"); (VStr "coordinates", VList rings)]).

Definition valid_feature (v : PyVal) : Prop :=
  exists d p g, v = VDict d /\ dget d "type" = Some (VStr "Feature") /\
    dget d "properties" = Some (VDict p) /\ dget d "geometry" = Some g /\ valid_geometry g.

Definition valid_collection (v : PyVal) : Prop :=
  exists d fs, v = VDict d /\ dget d "type" = Some (VStr "FeatureCollection") /\
    dget d "features" = Some (VList fs) /\ Forall valid_feature fs.

(** The vertices a polygon feature draws, back as latitude and longitude. *)
Definition read_position (v : PyVal) : option LatLon :=
  match v with VList [VFloat x; VFloat y] => Some (mkLatLon y x) | _ => None end.

Definition read_ring (v : PyVal) : option (list LatLon) :=
  match v with
  | VDict d =>
      match dget d "geometry" with
      | Some (VDict g) =>
          match dget g "coordinates" with
          | Some (VList [VList ring]) => mapM read_position (removelast ring)
          | _ => None
          end
      | _ => None
      end
  | _ => None
  end.

(** Twice the signed area of a ring in the (longitude, latitude) plane, exactly, in
    units of the smallest float squared; it is positive counterclockwise. *)
Definition scaled (f : float) : Z :=
  match f with
  | SpecFloat.S754_finite s m e => (if s then Z.opp else id) (Zpos m * 2 ^ (e + 1074))%Z
  | _ => 0%Z
  end.
Definition cross (p q : LatLon) : Z :=
  (scaled (lon p) * scaled (lat q) - scaled (lon q) * scaled (lat p))%Z.
Fixpoint turning (first p : LatLon) (l : list LatLon) : Z :=
  match l with
  | [] => cross p first
  | q :: l' => (cross p q + turning first q l')%Z
  end.
Definition counterclockwise (ps : list LatLon) : Prop :=
  match ps with [] => False | p :: l => (0 < turning p p l)%Z end.

(** Exterior rings run counterclockwise. *)
Definition right_hand_rule (v : PyVal) : Prop :=
  forall d fs f ps, v = VDict d -> dget d "features" = Some (VList fs) -> f ∈ fs -> read_ring f = Some ps ->
    counterclockwise ps.

Lemma position_ok p : is_position (position p).
Proof. by eexists _, _. Qed.

Lemma positions_ok l : Forall is_position (map position l).
Proof. apply Forall_map, Forall_true. intros p. apply position_ok. Qed.

Lemma closed_ring_ok points :
  3 <= length points -> exists ring, closed_ring points = Ok ring /\ linear_ring (VList ring) /\
    mapM read_position (removelast ring) = Some points.
Proof.
  destruct points as [|p l]; cbn [length]; [lia|]. intros Hl. eexists. split; [reflexivity|]. split.
  - exists (map position l), (position p). split; [done|]. rewrite length_map.
    split; [lia|]. apply (positions_ok (p :: l)).
  - rewrite removelast_last. apply mapM_Some. apply Forall2_fmap_l, Forall2_same_length_lookup.
    split; [done|]. intros i x y Hx Hy. rewrite Hx in Hy. injection Hy as <-. by destruct x.
Qed.

Lemma feature_ok props t c g :
  g = VDict [(VStr "type", VStr t); (VStr "coordinates", c)] -> valid_geometry g ->
  valid_feature (feature props t c).
Proof. intros -> Hg. by eexists _, _, _. Qed.

Lemma polygon_feature_ok props ring :
  linear_ring (VList ring) -> valid_feature (feature props "Polygon" (VList [VList ring])).
Proof. intros Hr. eapply feature_ok; [done|]. apply valid_polygon; [done|by repeat constructor]. Qed.

Lemma boundary_feature_ok zone :
  3 <= length (boundary zone) -> exists f, boundary_feature zone = Ok f /\ valid_feature f /\
    read_ring f = Some (boundary zone) /\ not_path f = true.
Proof.
  intros Hl. destruct (closed_ring_ok _ Hl) as (ring & Hr & Hv & Hread). unfold boundary_feature.
  rewrite Hr. eexists. split; [reflexivity|]. split; [by apply polygon_feature_ok|]. by split.
Qed.

Lemma exclusion_feature_ok zone z :
  3 <= length (ez_polygon z) -> exists f, exclusion_feature zone z = Ok f /\ valid_feature f /\
    read_ring f = Some (ez_polygon z) /\ not_path f = true.
Proof.
  intros Hl. destruct (closed_ring_ok _ Hl) as (ring & Hr & Hv & Hread). unfold exclusion_feature.
  rewrite Hr. eexists. split; [reflexivity|]. split; [by apply polygon_feature_ok|]. by split.
Qed.

Lemma exclusion_features_ok zone es :
  Forall (fun z => 3 <= length (ez_polygon z)) es ->
  exists fs, rmap (exclusion_feature zone) es = Ok fs /\ Forall valid_feature fs /\
    Forall2 (fun f z => read_ring f = Some (ez_polygon z)) fs es /\
    Forall (fun f => not_path f = true) fs.
Proof.
  induction 1 as [|z es Hz _ (fs & Hfs & Hv & Hr & Hn)]; [by exists []; repeat constructor|].
  destruct (exclusion_feature_ok zone z Hz) as (f & Hf & ? & ? & ?).
  cbn [rmap]. rewrite Hf. cbn [mbind res_bind]. rewrite Hfs. cbn [mbind res_bind].
  eexists. split; [reflexivity|]. by split_and!; constructor.
Qed.

Lemma point_features_ok zone :
  Forall valid_feature [home_feature zone; rally_feature zone] /\
  Forall (fun f => not_path f = true) [home_feature zone; rally_feature zone].
Proof.
  split; [|by repeat constructor].
  repeat constructor; (eapply feature_ok; [reflexivity|]; apply valid_point, position_ok).
Qed.

Lemma path_features_ok zone waypoints :
  length waypoints <> 1 -> Forall valid_feature (path_features zone waypoints).
Proof.
  destruct waypoints as [|p [|q l]]; cbn [length]; intros H; [constructor|lia|].
  constructor; [|constructor]. eapply feature_ok; [reflexivity|].
  apply valid_line; [cbn; lia|apply (positions_ok (p :: q :: l))].
Qed.

(** A zone whose rings have three vertices or more, as [_coerce] guarantees. *)
Definition drawable (zone : ZoneConfig) : Prop :=
  3 <= length (boundary zone) /\ Forall (fun z => 3 <= length (ez_polygon z)) (exclusion_zones zone).

Lemma zone_features_ok zone waypoints :
  drawable zone -> length waypoints <> 1 ->
  exists b es, zone_features zone waypoints =
      Ok ((b :: es) ++ [home_feature zone; rally_feature zone] ++ path_features zone waypoints) /\
    Forall valid_feature ((b :: es) ++ [home_feature zone; rally_feature zone] ++ path_features zone waypoints) /\
    read_ring b = Some (boundary zone) /\
    Forall2 (fun f z => read_ring f = Some (ez_polygon z)) es (exclusion_zones zone) /\
    Forall (fun f => not_path f = true) ((b :: es) ++ [home_feature zone; rally_feature zone]).
Proof.
  intros [Hb He] Hw. destruct (boundary_feature_ok _ Hb) as (b & Hbf & Hbv & Hbr & Hbn).
  destruct (exclusion_features_ok zone _ He) as (es & Hes & Hev & Her & Hen).
  destruct (point_features_ok zone) as [Hpv Hpn].
  exists b, es. unfold zone_features. rewrite Hbf. cbn [mbind res_bind]. rewrite Hes. cbn [mbind res_bind].
  split; [done|]. split; [|split; [done|split; [done|]]].
  - apply list.Forall_app. split; [by constructor|]. apply list.Forall_app. split; [done|].
    by apply path_features_ok.
  - apply list.Forall_app. split; [by constructor|done].
Qed.

Lemma no_ring zone waypoints f :
  length waypoints <> 1 -> f ∈ [home_feature zone; rally_feature zone] ++ path_features zone waypoints ->
  read_ring f = None.
Proof.
  intros Hw Hf. cbn [app] in Hf. rewrite !elem_of_cons in Hf. destruct Hf as [->|[->|Hf]]; [done..|].
  destruct waypoints as [|p [|q l]]; [by apply elem_of_nil in Hf|done|].
  by apply list_elem_of_singleton in Hf as ->.
Qed.

Lemma rings_follow zone waypoints b es d :
  length waypoints <> 1 -> read_ring b = Some (boundary zone) ->
  Forall2 (fun f z => read_ring f = Some (ez_polygon z)) es (exclusion_zones zone) ->
  dget d "features" = Some (VList ((b :: es) ++ [home_feature zone; rally_feature zone] ++ path_features zone waypoints)) ->
  right_hand_rule (VDict d) <->
  counterclockwise (boundary zone) /\ Forall (fun z => counterclockwise (ez_polygon z)) (exclusion_zones zone).
Proof.
  intros Hw Hb He Hd. split.
  - intros H. split; [by apply (H _ _ b _ eq_refl Hd); [left|]|].
    apply Forall_forall. intros z Hz%list_elem_of_In. apply list_elem_of_lookup in Hz as [i Hz].
    destruct (Forall2_lookup_r _ _ _ _ _ He Hz) as (f & Hf & Hr). apply (H _ _ f _ eq_refl Hd); [|done].
    apply elem_of_app. left. right. by eapply list_elem_of_lookup_2.
  - intros [Hcb Hce] d' fs f ps [= <-] Hfs Hf Hr. rewrite Hd in Hfs. injection Hfs as <-.
    change (f ∈ (b :: es) ++ ([home_feature zone; rally_feature zone] ++ path_features zone waypoints)) in Hf.
    rewrite elem_of_app, elem_of_cons in Hf. destruct Hf as [[->|Hf]|Hf].
    + rewrite Hb in Hr. by injection Hr as <-.
    + apply list_elem_of_lookup in Hf as [i Hf]. destruct (Forall2_lookup_l _ _ _ _ _ He Hf) as (z & Hz & Hr').
      rewrite Hr' in Hr. injection Hr as <-. rewrite Forall_forall in Hce. apply Hce, list_elem_of_In.
      by eapply list_elem_of_lookup_2.
    + by rewrite (no_ring _ _ _ Hw Hf) in Hr.
Qed.

(** C38: The export is GeoJSON in form and loses no geometry: for a zone with
    drawable rings and any number of waypoints but one (one makes a line of a
    single position), [export_zone_geojson] succeeds with a feature collection
    that keeps RFC 7946's rules of form (closed rings, longitude first, lines of two
    positions or more), whose first features, read back, are the boundary and the
    exclusion polygons in order, each running as it was drawn: the collection
    follows the RFC's right-hand rule exactly when all of the zone's rings are
    counterclockwise. *)
Theorem export_zone_valid zone waypoints
    (Hz : drawable zone) (Hw : length waypoints <> 1) :
  exists doc d b es rest, export_zone_geojson zone waypoints = Ok doc /\ valid_collection doc /\
    doc = VDict d /\ dget d "features" = Some (VList (b :: es ++ rest)) /\
    read_ring b = Some (boundary zone) /\
    Forall2 (fun f z => read_ring f = Some (ez_polygon z)) es (exclusion_zones zone) /\
    length rest = (if bool_decide (waypoints = []) then 2 else 3) /\
    (right_hand_rule doc <->
       counterclockwise (boundary zone) /\ Forall (fun z => counterclockwise (ez_polygon z)) (exclusion_zones zone)).
Proof.
  destruct (zone_features_ok zone waypoints Hz Hw) as (b & es & Hf & Hv & Hb & He & _).
  unfold export_zone_geojson. rewrite Hf. cbn [mbind res_bind].
  eexists _, _, b, es, _. split; [reflexivity|]. split_and!; try done.
  - by eexists _, _.
  - by destruct waypoints.
  - by eapply rings_follow.
Qed.

(** Several zones: the features of each, in order. *)
Lemma export_multi_valid zones :
  Forall drawable zones -> exists doc, export_multi_zone_geojson zones = Ok doc /\ valid_collection doc.
Proof.
  intros Hz. unfold export_multi_zone_geojson.
  assert (exists fss, rmap (fun zone => zone_features zone []) zones = Ok fss /\
            Forall (Forall valid_feature) fss) as (fss & -> & Hv).
  { induction Hz as [|z zs Hz _ (fss & Hfss & Hv)]; [by exists []|].
    destruct (zone_features_ok z [] Hz) as (b & es & Hf & Hbv & _); [done|].
    cbn [rmap]. rewrite Hf. cbn [mbind res_bind]. rewrite Hfss. cbn [mbind res_bind].
    eexists. split; [reflexivity|]. by constructor. }
  eexists. split; [reflexivity|]. eexists _, _. split_and!; try reflexivity.
  apply List.Forall_forall. intros f [Hin _]%List.filter_In.
  apply List.in_concat in Hin as (fs & Hfs & Hf).
  rewrite List.Forall_forall in Hv. specialize (Hv fs Hfs). rewrite List.Forall_forall in Hv. by apply Hv.
Qed.

(** A plan of one waypoint makes a line of one position, which RFC 7946 forbids. *)
Lemma single_waypoint_invalid zone p :
  ~ Forall valid_feature (path_features zone [p]).
Proof.
  intros H. inversion H as [|f fs Hf _]; subst.
  destruct Hf as (d & ps & g & [= <-] & _ & _ & Hg & Hv). cbn in Hg. injection Hg as <-.
  inversion Hv; subst; cbn in *; lia.
Qed.

Lemma export_zone_valid_witness :
  exists cfg doc, demo_zone = Ok cfg /\ export_zone_geojson cfg [] = Ok doc /\ valid_collection doc.
Proof.
  destruct demo_zone as [cfg|e] eqn:E; [|vm_compute in E; discriminate].
  assert (drawable cfg) as Hd.
  { pose proof (f_equal (fun r => match r with
      | Ok c => Nat.leb 3 (length (boundary c)) && forallb (fun z => Nat.leb 3 (length (ez_polygon z))) (exclusion_zones c)
      | Err _ => true end) E) as Hb.
    assert (Nat.leb 3 (length (boundary cfg)) &&
            forallb (fun z => Nat.leb 3 (length (ez_polygon z))) (exclusion_zones cfg) = true) as H
      by (rewrite <- Hb; vm_compute; reflexivity).
    apply andb_prop in H as [H1 H2]. split; [by apply Nat.leb_le|].
    apply Forall_forall. intros z Hz. rewrite forallb_forall in H2.
    apply Nat.leb_le, H2. exact Hz. }
  assert (length (@nil LatLon) <> 1) as Hw by (cbn; lia).
  destruct (export_zone_valid cfg [] Hd Hw) as (doc & d & b & es & rest & H1 & H2 & _).
  exists cfg, doc. split; [reflexivity|]. split; [exact H1|exact H2].
Defined.

(** A boundary drawn clockwise is accepted and exported clockwise. *)
Lemma clockwise_exported :
  exists cfg doc, demo_zone = Ok cfg /\ export_zone_geojson cfg [] = Ok doc /\ ~ right_hand_rule doc.
Proof.
  destruct demo_zone as [cfg|] eqn:E; [|vm_compute in E; discriminate].
  vm_compute in E. injection E as <-. eexists _, _. split; [reflexivity|]. split; [vm_compute; reflexivity|].
  intros H. specialize (H _ _ _ _ eq_refl eq_refl (list_elem_of_here _ _) eq_refl). vm_compute in H. discriminate.
Qed.
