(* ===== verification/ZoneCli.v ===== *)
(** * Zone commands (cli/zone_laptop.py)

    Uploading a zone to the flight controller, selecting and resuming zones, and
    writing the planned mission.  The commands compose the confirmation gate,
    the link, the mission protocol, the planner and the item builders; the
    terminal, the files and the Jetson's shell are the interface [Host]. *)

From stdpp Require Import base list strings option.
From Stdlib Require Import Ascii ZArith Lia.
From S2P Require Import Prelude Float64 PyVal Safety Link Mission Geometry ZoneConfig.
From S2P Require Import MissionItems Planner Connection Files GeoJson.
Local Open Scope Z_scope.

Class Host (W : Type) := {
  h_echo : FStr -> prog exn W unit;
  h_confirm : FStr -> prog exn W bool;
  h_write : string -> string -> prog exn W unit;
  h_now : prog exn W string;
  (** [JetsonClient.run]: exit status zero, and standard error *)
  h_ssh : list string -> float -> prog exn W (bool * string)
}.

Module ZoneCli.
Definition poption {W A} (m : option (res exn A)) : prog exn W A :=
  fun w => match m with Some r => Some (r, w) | None => None end.

Section link.
Context {W : Type} `{!Link W}.
Variable fuel : nat.

Definition MAV_MODE_FLAG_SAFETY_ARMED : Z := 128.

(** [hb.base_mode & flag] as a truth value. *)
Definition mode_flag (hb : Msg) (flag : Z) : res exn bool :=
  v ← attr hb "base_mode";
  match as_int v with
  | Some m => Ok (negb (Z.land m flag =? 0))
  | None => raise_ TypeError [L "unsupported operand type(s) for &: '"; L (type_name v); L "' and 'int'"]
  end.

Definition _check_not_armed : prog exn W unit :=
  hb ← l_recv ["HEARTBEAT"] (Some (sec 5));
  match hb with
  | None => mret tt
  | Some hb =>
      armed ← plift (mode_flag hb MAV_MODE_FLAG_SAFETY_ARMED);
      if (armed : bool)
      then plift (raise_ BadParameter [L "FC is armed — cannot switch zones. Disarm first."])
      else mret tt
  end.

Definition _upload_zone_atomically (mission_items fence_items rally_items : list MissionItem)
  : prog exn W unit :=
  pexcept [Exception]
    (_ ← upload_mission fuel mission_items 0;
     _ ← upload_mission fuel fence_items 1;
     _ ← upload_mission fuel rally_items 2;
     _ ← verify_round_trip fuel mission_items 0;
     _ ← verify_round_trip fuel fence_items 1;
     _ ← verify_round_trip fuel rally_items 2;
     mret tt)
    (fun _ =>
     _ ← pexcept [Exception]
           (_ ← clear_mission fuel 0; _ ← clear_mission fuel 1; clear_mission fuel 2)
           (fun _ => mret tt);
     plift (raise_ ZoneUploadError [L "Zone upload FAILED. All missions cleared for safety."])).

Context `{!Host W}.

Definition _activate_zone_on_jetson (zone_id : string) (dry_run : bool) : prog exn W unit :=
  if dry_run then mret tt
  else
    '(ok, stderr) ← h_ssh ["mower-jetson"; "zone"; "activate"; zone_id] (F.of_Z 30);
    if (ok : bool) then mret tt
    else
      _ ← h_echo [L "Zone activation failed on Jetson: "; L (S.strip stderr)];
      plift (exit_ 1).

Definition nl : string := String.String (ascii_of_N 10) EmptyString.

Section commands.
Context {G : Type} `{!Shapely G} `{PP : Pyproj} `{IP : F.Interpreter} `{!Dialer W} `{!Terminal W}.
Variable math_cos math_sin : float -> float.
Variable plan_fuel : nat.
Variable json_dumps : PyVal -> string.
(** [load_zone_config(zone_file)] *)
Variable loaded : res exn ZoneConfig.

Definition plan (zone : ZoneConfig) : prog exn W (list LatLon) :=
  poption (generate_waypoints math_cos math_sin plan_fuel zone).

Definition load_or_exit : prog exn W ZoneConfig :=
  pexcept [Exception] (plift loaded) (fun e =>
    _ ← h_echo (L "Failed to load zone config: " :: exn_msg e); plift (exit_ 1)).

Definition _write_zone_snapshot (zone_id : string) (waypoint_count fence_count : Z)
    (rally : RallyPoint) (path : string) : prog exn W unit :=
  now ← h_now;
  h_write path (String.append (json_dumps (VDict
    [(VStr "schema", VStr "mower-rover.zone-upload.v1"); (VStr "captured_at", VStr now);
     (VStr "zone_id", VStr zone_id); (VStr "waypoint_count", VInt waypoint_count);
     (VStr "fence_vertex_count", VInt fence_count);
     (VStr "rally_point", VDict [(VStr "lat", VFloat (rp_lat rally));
                                 (VStr "lon", VFloat (rp_lon rally))])])) nl).

Definition len {A} (l : list A) : PyVal := VInt (Z.of_nat (length l)).

(** The body of [with open_link(config) as conn] in [select_zone]. *)
Definition select_body (zone : ZoneConfig) (skip_slam : bool) : prog exn W unit :=
  _ ← _check_not_armed;
  _ ← (if skip_slam then mret tt else _activate_zone_on_jetson (zone_id zone) false);
  waypoints ← plan zone;
  match waypoints with
  | [] =>
      _ ← h_echo [L "No waypoints generated - zone may be too small"]; plift (exit_ 1)
  | _ =>
      mission_items ← plift (zone_to_mission zone waypoints);
      fence_items ← plift (zone_to_fence zone);
      rally_items ← plift (zone_to_rally zone);
      _ ← _upload_zone_atomically mission_items fence_items rally_items;
      stamp ← h_now;
      let snapshot_file :=
        S.join "" ["snapshots/missions/"; zone_id zone; "/"; stamp; ".json"] in
      _ ← _write_zone_snapshot (zone_id zone) (Z.of_nat (length waypoints))
            (Z.of_nat (length fence_items)) (rally_point zone) snapshot_file;
      _ ← h_echo [L "Zone '"; L (zone_id zone); L "' selected successfully"];
      _ ← h_echo [L "  Waypoints: "; V (len waypoints)];
      _ ← h_echo [L "  Fence vertices: "; V (len fence_items)];
      _ ← h_echo [L "  Rally point: "; VF (VFloat (rp_lat (rally_point zone))) ".6f"; L ", ";
                  VF (VFloat (rp_lon (rally_point zone))) ".6f"];
      h_echo [L "  Snapshot: "; L snapshot_file]
  end.

Definition dry_run_report (zone : ZoneConfig) : prog exn W unit :=
  waypoints ← plan zone;
  _ ← plift (zone_to_mission zone waypoints);
  fence_items ← plift (zone_to_fence zone);
  rally_items ← plift (zone_to_rally zone);
  _ ← h_echo [L "DRY RUN - Zone selection complete (no upload)"];
  _ ← h_echo [L "  Would upload "; V (len waypoints); L " waypoints"];
  _ ← h_echo [L "  Would upload "; V (len fence_items); L " fence vertices"];
  h_echo [L "  Would upload "; V (len rally_items); L " rally points"].

(** [_confirm_zone_select(ctx=safety_ctx)]: the decorated empty function. *)
Definition _confirm_zone_select (ctx : SafetyContext W) : prog exn W unit :=
  requires_confirmation "This will upload new mission/fence/rally to the flight controller"
    "ctx" "_confirm_zone_select" (fun _ _ => mret tt) [] [("ctx", ACtx ctx)].

Definition select_zone (mavlink_endpoint : string) (skip_slam dry_run yes : bool) : prog exn W unit :=
  _ ← _confirm_zone_select {| dry_run := dry_run; assume_yes := yes; safe_stop_hooks := [] |};
  zone ← load_or_exit;
  if dry_run then dry_run_report zone
  else open_link (default_config mavlink_endpoint) false (select_body zone skip_slam).

(** [item.command] of a downloaded entry. *)
Definition nav_count (items : list (option MissionItem)) : Z :=
  Z.of_nat (length (omap (fun o : option MissionItem =>
    it ← o; if MI.command it =? 16 then Some it else None) items)).

(** From the downloaded mission on. *)
Definition resume_from (zone : ZoneConfig) (mission_items : list (option MissionItem)) (dry_run : bool)
  : prog exn W unit :=
  let total_waypoints := nav_count mission_items in
  msg ← l_recv ["MISSION_CURRENT"] (Some (sec 5));
  match msg with
  | None => _ ← h_echo [L "Could not read current mission state"]; plift (exit_ 1)
  | Some msg =>
      v ← plift (attr msg "seq");
      current_seq ← plift (match as_int v with
                           | Some s => Ok s
                           | None => raise_ TypeError [L "'>=' not supported"]
                           end);
      _ ← h_echo [L "Zone: "; L (zname zone); L " ("; L (zone_id zone); L ")"];
      _ ← h_echo [L "  Current waypoint: "; V v];
      _ ← h_echo [L "  Total waypoints: "; V (VInt total_waypoints)];
      _ ← h_echo [L "  Progress: "; V v; L "/"; V (VInt total_waypoints)];
      if dry_run then h_echo [L "DRY RUN - Would resume from current position"]
      else if total_waypoints <=? current_seq then
        h_echo [L "Mission complete - nothing to resume"]
      else
        proceed ← h_confirm [L "Resume "; L (zone_id zone); L " from waypoint ";
                             V (VInt (current_seq + 1)); L "?"];
        if negb proceed then h_echo [L "Resume cancelled"]
        else
          _ ← l_send (mission_set_current_send current_seq);
          _ ← h_echo [L "Mission index set to "; V v];
          h_echo [L "  Use RC transmitter to arm and set Auto mode"]
  end.

Definition resume_zone (mavlink_endpoint : string) (dry_run : bool) : prog exn W unit :=
  zone ← load_or_exit;
  open_link (default_config mavlink_endpoint) false
    (mission_items ← download_mission fuel 0; resume_from zone mission_items dry_run).

(** The QGroundControl file: one line of tab-separated fields per item. *)
Definition tab : string := String.String (ascii_of_N 9) EmptyString.

Definition wpl_line (i cur : string) (p : LatLon) : string :=
  String.append (S.join tab [i; cur; "0"; "16"; "0"; "0"; "0"; "0"; F.fmt_fixed 8 (lat p);
                             F.fmt_fixed 8 (lon p); "0"; "1"]) nl.

Definition waypoints_file_text (home : LatLon) (waypoints : list LatLon) : string :=
  S.join "" (String.append "QGC WPL 110" nl :: wpl_line "0" "1" home ::
             imap (fun i wp => wpl_line (Num.str_of_Z (Z.of_nat i + 1)) "0" wp) waypoints).

Definition plan_mission (output_dir : string) : prog exn W unit :=
  zone ← load_or_exit;
  waypoints ← pexcept [Exception] (plan zone) (fun e =>
    _ ← h_echo (L "Waypoint generation failed: " :: exn_msg e); plift (exit_ 1));
  match waypoints with
  | [] => _ ← h_echo [L "No waypoints generated - zone may be too small"]; plift (exit_ 1)
  | _ =>
      let output_file := S.join "" [output_dir; "/"; zone_id zone; ".waypoints"] in
      _ ← h_write output_file (waypoints_file_text (home zone) waypoints);
      _ ← h_echo [L "Mission planned successfully"];
      _ ← h_echo [L "  Zone: "; L (zname zone); L " ("; L (zone_id zone); L ")"];
      _ ← h_echo [L "  Waypoints: "; V (len waypoints)];
      h_echo [L "  Output: "; L output_file]
  end.

(** ** list and export-map *)
Variable yaml_safe_load : string -> res exn PyVal.
(** The YAML files of the zones directory, [None] when there is no directory. *)
Variable zone_files : option (list (string * option (res exn string))).

(** [name[:24] if len(name) <= 24 else name[:21] + "..."], in characters. *)
Definition short_name (name : string) : string :=
  let cs := Utf8.decode_list name in
  if Nat.leb (length cs) 24 then name
  else String.append (S.ofl (concat (map (default []) (take 21 cs)))) "...".

Definition zone_row (zone : ZoneConfig) : FStr :=
  let n := Z.of_nat (length (boundary zone)) in
  [VF (VStr (zone_id zone)) "<12"; L " | "; VF (VStr (short_name (zname zone))) "<24"; L " | ";
   VF (VInt n) ">8"; L " | "; VF (VStr (S.join "" ["~"; Num.str_of_Z (n * 100); "m²"])) ">8"].

Definition list_zones (zones_dir : string) : prog exn W unit :=
  match zone_files with
  | None => _ ← h_echo [L "Zones directory not found: "; L zones_dir]; plift (exit_ 1)
  | Some _ =>
      zones ← plift (load_all_zones yaml_safe_load zone_files);
      match zones with
      | [] => h_echo [L "No valid zone files found."]
      | _ =>
          _ ← h_echo [L "Zone ID      | Name                     | Boundary | Area Est."];
          _ ← h_echo [L "-------------|--------------------------|----------|----------"];
          _ ← piter (fun zone => h_echo (zone_row zone)) zones;
          h_echo [L nl; L "Total: "; V (len zones); L " zones"]
      end
  end.

(** [except Exception as e: echo; raise typer.Exit(1)] *)
Definition or_fail {A} (what : string) (m : prog exn W A) : prog exn W A :=
  pexcept [Exception] m (fun e => _ ← h_echo (L what :: exn_msg e); plift (exit_ 1)).

Definition feature_count (geojson : PyVal) : res exn PyVal :=
  match geojson with
  | VDict d =>
      match dget d "features" with
      | Some (VList l) => Ok (len l)
      | Some v => raise_ TypeError [L "object of type '"; L (type_name v); L "' has no len()"]
      | None => raise_ KeyError [VF (VStr "features") "r"]
      end
  | v => raise_ TypeError [L "'"; L (type_name v); L "' object is not subscriptable"]
  end.

Definition export_map (output : string) : prog exn W unit :=
  zones ← or_fail "Error loading zones: " (plift (load_all_zones yaml_safe_load zone_files));
  match zones with
  | [] => _ ← h_echo [L "No zones found in directory"]; plift (exit_ 1)
  | _ =>
      geojson ← or_fail "Error exporting GeoJSON: " (plift (export_multi_zone_geojson zones));
      _ ← or_fail "Error writing file: " (h_write output (String.append (json_dumps geojson) nl));
      n ← plift (feature_count geojson);
      _ ← h_echo [L "Map exported to "; L output];
      _ ← h_echo [L "  Zones: "; V (len zones)];
      _ ← h_echo [L "  Features: "; V n];
      h_echo [L "  Included: "; L (S.join ", " (map zname zones))]
  end.
End commands.
End link.
End ZoneCli.
Export ZoneCli.

(** ** The armed check *)
Section armed.
Context {W : Type} `{!Link W}.

(** Zone switching is refused exactly when a heartbeat arrives whose
    [base_mode] has bit 7 (armed) set.  When no heartbeat arrives within the five
    seconds the check passes: it fails open. *)
Theorem check_not_armed_cases (w w1 : W) o m fs
    (Hrecv : l_recv ["HEARTBEAT"] (Some (sec 5)) w = Some (Ok o, w1))
    (Hmode : o = None \/ o = Some (MESSAGE "HEARTBEAT" fs) /\ od_get fs "base_mode" = Some (VInt m)) :
  _check_not_armed w =
  Some (match o with
        | None => Ok tt
        | Some _ => if Z.testbit m 7
                    then raise_ BadParameter [L "FC is armed — cannot switch zones. Disarm first."]
                    else Ok tt
        end, w1).
Proof.
  unfold _check_not_armed. rewrite (pbind_step _ _ _ _ _ Hrecv).
  destruct Hmode as [->|[-> Hm]]; [done|].
  unfold mode_flag, attr. rewrite Hm. cbn [mbind res_bind as_int].
  assert (negb (Z.land m MAV_MODE_FLAG_SAFETY_ARMED =? 0) = Z.testbit m 7) as ->.
  { unfold MAV_MODE_FLAG_SAFETY_ARMED. change 128 with (2 ^ 7).
    rewrite Z.land_comm. apply Bool.eq_true_iff_eq. rewrite negb_true_iff, Z.eqb_neq. split.
    - intros Hne. destruct (Z.testbit m 7) eqn:Hb; [done|]. exfalso. apply Hne.
      apply Z.bits_inj'. intros n Hn. rewrite Z.land_spec, Z.pow2_bits_eqb, Z.bits_0 by lia.
      destruct (Z.eqb_spec 7 n) as [<-|]; [|done]. by rewrite Hb.
    - intros Hb Hz. apply (f_equal (fun z => Z.testbit z 7)) in Hz.
      rewrite Z.land_spec, Z.pow2_bits_true, Hb in Hz by lia. done. }
  lift_step. by destruct (Z.testbit m 7).
Qed.
End armed.

(** ** Uploading to a vehicle that follows the protocol *)
Section upload.
Variable keep : MissionItem -> MissionItem.
#[local] Existing Instance vehicle.

Lemma verify_returns fuel items mt (v : Vehicle) :
  idle v -> numbered mt (v_store v mt) -> v_store v mt = map keep items ->
  exists b, @verify_round_trip _ (vehicle keep) (S fuel) items mt v = Some (Ok b, v).
Proof.
  intros Hi Hn Hst. unfold verify_round_trip. exists (forallb (survives keep) items).
  erewrite pbind_step.
  2:{ unfold pexcept, pcatch. erewrite pbind_step by (by apply vehicle_download). reflexivity. }
  cbv beta iota. rewrite Hst, !length_map, Nat.eqb_refl. cbn [negb].
  rewrite rmap_zip. lift_step. by rewrite concat_survives.
Qed.

(** C3: Selecting a zone, end to end: the three lists that a zone with a
    boundary converts to, uploaded to an idle vehicle that follows the protocol,
    are all accepted, and afterwards the vehicle stores exactly those mission,
    fence and rally items, in order. *)
Theorem zone_upload_stores_zone fuel zone wps m f r (v : Vehicle)
    (Hm : zone_to_mission zone wps = Ok m) (Hf : zone_to_fence zone = Ok f)
    (Hr : zone_to_rally zone = Ok r) (Hb : boundary zone <> [])
    (Hidle : idle v) (Hkeep : keeps keep)
    (Hfuel : (length m < fuel /\ length f < fuel /\ length r < fuel)%nat) :
  exists v', @_upload_zone_atomically _ (vehicle keep) fuel m f r v = Some (Ok tt, v') /\
    v_store v' 0 = map keep m /\ v_store v' 1 = map keep f /\ v_store v' 2 = map keep r.
Proof.
  destruct (mission_shape _ _ _ Hm) as (Hnm & Hlm & _), (fence_shape _ _ Hf) as [Hnf Hlf],
    (rally_shape _ _ Hr) as [Hnr Hlr].
  assert (m <> []) as Hm0
    by (intros ->; unfold head_length in Hlm; cbn in Hlm; destruct (fence_enable _); lia).
  assert (f <> []) as Hf0 by (intros ->; cbn in Hlf; destruct (boundary zone); cbn in *; [done|lia]).
  assert (r <> []) as Hr0 by (intros ->; done).
  set (v1 := uploaded keep v 0 m). set (v2 := uploaded keep v1 1 f).
  set (v3 := uploaded keep v2 2 r). exists v3.
  split; [|split_and!; reflexivity].
  destruct fuel as [|fuel]; [lia|]. unfold _upload_zone_atomically, pexcept, pcatch.
  rewrite (pbind_step _ _ v tt v1) by (apply vehicle_upload; [done..|lia]).
  rewrite (pbind_step _ _ v1 tt v2) by (apply vehicle_upload; [done..|lia]).
  rewrite (pbind_step _ _ v2 tt v3) by (apply vehicle_upload; [done..|lia]).
  destruct (verify_returns fuel m 0 v3) as [b0 H0]; [done|by apply numbered_keep|done|].
  destruct (verify_returns fuel f 1 v3) as [b1 H1]; [done|by apply numbered_keep|done|].
  destruct (verify_returns fuel r 2 v3) as [b2 H2]; [done|by apply numbered_keep|done|].
  by rewrite (pbind_step _ _ _ _ _ H0), (pbind_step _ _ _ _ _ H1), (pbind_step _ _ _ _ _ H2).
Qed.
End upload.

(** ** Resuming *)
Lemma nav_count_app a b : nav_count (a ++ b) = nav_count a + nav_count b.
Proof. unfold nav_count. rewrite omap_app, length_app. lia. Qed.

Lemma nav_count_waypoints seq wps items :
  waypoint_items seq wps = Ok items -> nav_count (map Some items) = Z.of_nat (length wps).
Proof.
  revert seq items. induction wps as [|wp wps IH]; intros seq items; cbn [waypoint_items].
  - by intros [= <-].
  - rewrite rbind_ok. intros ([wx wy] & _ & H). rewrite rbind_ok in H.
    destruct H as (rest & Hr & [= <-]). apply IH in Hr. cbn [map].
    pose proof (nav_count_app [Some (mk_item seq MAV_CMD_NAV_WAYPOINT F.zero (F.of_Z 2) wx wy 0 0)]
                  (map Some rest)) as E. cbn [app] in E.
    etransitivity; [exact E|]. rewrite Hr. change (nav_count [_]) with 1. cbn [length]. lia.
Qed.

(** The home item counts as a waypoint, the DO_ items in front of the first
    waypoint do not. *)
Lemma nav_count_mission zone wps m :
  zone_to_mission zone wps = Ok m -> nav_count (map Some m) = Z.of_nat (length wps) + 1.
Proof.
  unfold zone_to_mission. rewrite rbind_ok. intros ([hx hy] & _ & Hm).
  rewrite rbind_ok in Hm. destruct Hm as (ws & Hws & [= <-]).
  rewrite map_app, nav_count_app, (nav_count_waypoints _ _ _ Hws).
  destruct (fence_enable (commands zone));
    (match goal with |- nav_count ?l + _ = _ => change (nav_count l) with 1 end); lia.
Qed.

Section resume.
Context {W : Type} `{!Link W} `{!Host W}.

(** [resume_zone] gives up too early.  For a mission the item builder made
    for [n] waypoints, sequence numbers run to [n + 3] with the fence enabled
    ([n + 2] without), but the current sequence number is compared with the count
    of NAV_WAYPOINT items, [n + 1].  At each of the last waypoints above that
    count, "Mission complete" is printed and MISSION_SET_CURRENT is not sent,
    although the item there is a waypoint of the plan. *)
Theorem resume_complete_early zone wps m s fs (w w1 : W)
    (Hm : zone_to_mission zone wps = Ok m)
    (Hs : Z.of_nat (length wps) + 1 <= s < Z.of_nat (head_length zone + length wps))
    (Hlen : (head_length zone <= length wps)%nat)
    (Hrecv : l_recv ["MISSION_CURRENT"] (Some (sec 5)) w
             = Some (Ok (Some (MESSAGE "MISSION_CURRENT" fs)), w1))
    (Hseq : od_get fs "seq" = Some (VInt s))
    (Hecho : forall t, h_echo t w1 = Some (Ok tt, w1)) :
  (exists it, m !! Z.to_nat s = Some it /\ MI.command it = MAV_CMD_NAV_WAYPOINT) /\
  resume_from zone (map Some m) false w =
    h_echo [L "Mission complete - nothing to resume"] w1.
Proof.
  destruct (mission_shape _ _ _ Hm) as (_ & Hl & Hat). split.
  - destruct (lookup_lt_is_Some_2 wps (Z.to_nat s - head_length zone)) as [wp Hwp]; [lia|].
    destruct (Hat _ _ Hwp) as (it & Hit & Hc & _). exists it. split; [|done].
    rewrite <- Hit. f_equal. lia.
  - unfold resume_from. rewrite (pbind_step _ _ _ _ _ Hrecv).
    unfold attr. rewrite Hseq. lift_step. cbn [as_int]. lift_step.
    do 4 rewrite (pbind_step _ _ _ _ _ (Hecho _)).
    rewrite (nav_count_mission _ _ _ Hm).
    destruct (Z.leb_spec (Z.of_nat (length wps) + 1) s); [done|lia].
Qed.
End resume.

(** ** Selecting *)
Section select.
Context {W : Type} `{!Link W} `{!Host W} `{!Dialer W} `{!Terminal W}.
Context {G : Type} `{!Shapely G} `{PP : Pyproj} `{IP : F.Interpreter}.
Context (math_cos math_sin : float -> float) (fuel plan_fuel : nat) (json_dumps : PyVal -> string)
  (loaded : res exn ZoneConfig).

Abbreviation select := (select_zone fuel math_cos math_sin plan_fuel json_dumps loaded).

(** Calls of [m] from a world in [P] return, in [P], and as [Q] says. *)
Definition within {A} (P : W -> Prop) (m : prog exn W A) (Q : res exn A -> Prop) : Prop :=
  forall w, P w -> exists r w', m w = Some (r, w') /\ P w' /\ Q r.

Lemma within_ret {A} (P : W -> Prop) (r : res exn A) (Q : res exn A -> Prop) : Q r -> within P (plift r) Q.
Proof. intros HQ w Hw. by exists r, w. Qed.

Lemma within_bind {A B} (P : W -> Prop) (m : prog exn W A) (f : A -> prog exn W B) Q1 Q2 :
  within P m Q1 -> (forall a, Q1 (Ok a) -> within P (f a) Q2) -> (forall e, Q1 (Err e) -> Q2 (Err e)) ->
  within P (m ≫= f) Q2.
Proof.
  intros Hm Hf He w Hw. destruct (Hm w Hw) as ([a|e] & w1 & H1 & Hw1 & HQ).
  - rewrite (pbind_step _ _ _ _ _ H1). by apply Hf.
  - rewrite (pbind_err _ _ _ _ _ H1). exists (Err e), w1. auto.
Qed.

Lemma within_lift {A B} (P : W -> Prop) (r : res exn A) (f : A -> prog exn W B) Q :
  (forall a, r = Ok a -> within P (f a) Q) -> (forall e, r = Err e -> Q (Err e)) -> within P (plift r ≫= f) Q.
Proof. intros Hf He. destruct r as [a|e]; [by apply Hf|]. intros w Hw. exists (Err e), w. auto. Qed.

(** Printing succeeds; a line that is typed is not a yes. *)
Record Unwilling (P : W -> Prop) : Prop := {
  unwilling_echo t : within P (h_echo t) (fun r => r = Ok tt);
  unwilling_input p : within P (t_input p) (fun r => forall line, r = Ok line -> ~ consents line)
}.

Lemma refused_confirmation P :
  Unwilling P ->
  within P (_confirm_zone_select {| dry_run := false; assume_yes := false; safe_stop_hooks := [] |})
    (fun r => is_ok r = false).
Proof.
  intros [_ Hin] w Hw. unfold _confirm_zone_select.
  set (ctx := {| dry_run := false; assume_yes := false; safe_stop_hooks := [] |}).
  assert (supplied (W := W) "ctx" [] [("ctx", ACtx ctx)] ctx) as Hc.
  { left. exists [], []. split; [reflexivity|apply not_elem_of_nil]. }
  rewrite (gate_asked _ _ _ _ _ _ w ctx Hc eq_refl eq_refl).
  destruct (Hin [L "This will upload new mission/fence/rally to the flight controller"; L " [y/N]: "] w Hw)
    as (r & w' & -> & Hw' & Hr). destruct r as [line|e].
  - destruct (is_yes line) eqn:Hy; [by apply consents_yes, Hr in Hy|]. eexists _, w'. by split_and!.
  - destruct (subclass _ _); eexists _, w'; by split_and!.
Qed.

(** What there is to report of a zone. *)
Definition reportable (zone : ZoneConfig) : Prop :=
  exists wps m f r, generate_waypoints math_cos math_sin plan_fuel zone = Some (Ok wps) /\
    zone_to_mission zone wps = Ok m /\ zone_to_fence zone = Ok f /\ zone_to_rally zone = Ok r.

Lemma report_within P zone :
  Unwilling P -> generate_waypoints math_cos math_sin plan_fuel zone <> None ->
  within P (dry_run_report math_cos math_sin plan_fuel zone) (fun r => is_ok r = true <-> reportable zone).
Proof.
  intros HP Hplan. unfold dry_run_report, plan, reportable.
  destruct (generate_waypoints _ _ _ zone) as [rw|]; [clear Hplan|done].
  change (poption (Some rw)) with (plift (W := W) rw).
  apply within_lift; [intros wps ->|intros e ->; split; [done|]; intros (? & ? & ? & ? & ? & _); congruence].
  apply within_lift; [intros m Hm|intros e He; split; [done|]; intros (? & ? & ? & ? & ? & ? & _); congruence].
  apply within_lift; [intros f Hf|intros e He; split; [done|]; intros (? & ? & ? & ? & _ & _ & ? & _); congruence].
  apply within_lift; [intros ra Hr|intros e He; split; [done|]; intros (? & ? & ? & ? & _ & _ & _ & ?); congruence].
  do 3 (eapply within_bind; [apply (unwilling_echo _ HP)|intros _ _|done]).
  intros w Hw. destruct (unwilling_echo _ HP [L "  Would upload "; V (len ra); L " rally points"] w Hw)
    as (r & w' & H & Hw' & ->). exists (Ok tt), w'. split; [done|]. split; [done|]. split; [by exists wps, m, f, ra|done].
Qed.

(** C24: No zone is uploaded behind the operator's back.  Of all the world offers
    (the link, dialing, the Jetson, files, the clock), [select_zone] uses
    the terminal only, in a dry run and whenever the operator does not say yes:
    whatever property printing and reading a line preserve holds when it
    ends.  Without [--dry-run] and [--yes] it ends with an exception; a dry run
    ends normally exactly when the zone loads, is planned and converts to the
    three lists. *)
Theorem select_zone_gate (P : W -> Prop) ep skip_slam (HP : Unwilling P) :
  within P (select ep skip_slam false false) (fun r => is_ok r = false) /\
  forall yes, (forall zone, loaded = Ok zone -> generate_waypoints math_cos math_sin plan_fuel zone <> None) ->
    within P (select ep skip_slam true yes) (fun r =>
      is_ok r = true <-> exists zone, loaded = Ok zone /\ reportable zone).
Proof.
  split.
  - unfold select_zone. eapply within_bind; [by apply refused_confirmation|done|done].
  - intros yes Hplan w Hw. unfold select_zone. rewrite (pbind_step _ _ w tt w) by reflexivity. revert w Hw.
    unfold load_or_exit. destruct loaded as [zone|e].
    + change (pexcept _ _ _) with (plift (W := W) (Ok zone : res exn ZoneConfig)).
      apply within_lift; [|done]. intros z [= ->] w Hw.
      destruct (report_within P z HP (Hplan z eq_refl) w Hw) as (r & w' & H & Hw' & Hr). exists r, w'.
      split; [done|]. split; [done|]. rewrite Hr. split; [by exists z|]. intros (z' & [= <-] & Hz). exact Hz.
    + apply (within_bind P _ _ (fun r => is_ok r = false)); [|done|intros e' _; split; [done|by intros (z & ? & _)]].
      unfold pexcept, pcatch. intros w Hw. cbn [plift]. destruct (caught_by _ _); [|by eexists _, w].
      destruct (unwilling_echo _ HP (L "Failed to load zone config: " :: exn_msg e) w Hw) as (r & w' & H & Hw' & ->).
      rewrite (pbind_step _ _ _ _ _ H). by eexists _, w'.
Qed.
End select.

(** ** Concrete runs *)
Definition armed_vehicle : Vehicle :=
  {| v_clock := 0; v_inbox := [MESSAGE "HEARTBEAT" [("base_mode", VInt 193)]];
     v_store := fun _ => []; v_upload := None |}.

Lemma check_not_armed_cases_witness :
  @_check_not_armed _ (vehicle store32) armed_vehicle
  = Some (raise_ BadParameter [L "FC is armed — cannot switch zones. Disarm first."], parked).
Proof.
  exact (@check_not_armed_cases _ (vehicle store32) armed_vehicle parked
    (Some (MESSAGE "HEARTBEAT" [("base_mode", VInt 193)])) 193 [("base_mode", VInt 193)]
    eq_refl (or_intror (conj eq_refl eq_refl))).
Defined.

(** A host that keeps what is printed, and a terminal with one line. *)
Record Desk : Type := { printed : list FStr; typed : list string }.

Definition desk_host : Host Desk := {|
  h_echo t w := Some (Ok tt, w);
  h_confirm _ w := Some (Ok true, w);
  h_write _ _ w := Some (Ok tt, w);
  h_now w := Some (Ok "20250101_000000", w);
  h_ssh _ _ w := Some (Ok (true, ""), w) |}.

Definition desk_terminal : Terminal Desk := {|
  t_input p w := match typed w with
                 | [] => Some (raise_ EOFError [], w)
                 | s :: l => Some (Ok s, {| printed := printed w ++ [p]; typed := l |})
                 end |}.

Definition desk_dialer : Dialer Desk := {|
  d_connect _ _ w := Some (Ok tt, w); d_wait_heartbeat _ w := Some (Ok true, w);
  d_close w := Some (Ok tt, w); d_sleep _ w := Some (Ok tt, w);
  d_is_set w := Some (Ok false, w); d_wait _ w := Some (Ok false, w) |}.

(** The only message is MISSION_CURRENT at [s]. *)
Definition desk_link (s : Z) : Link Desk := {|
  l_time w := Some (Ok 0, w); l_sleep _ w := Some (Ok tt, w);
  l_recv _ _ w := Some (Ok (Some (MESSAGE "MISSION_CURRENT" [("seq", VInt s)])), w);
  l_send _ w := Some (Ok tt, w) |}.

(** Lines at the desk that are not a yes. *)
Definition no_yes (d : Desk) : Prop := forallb (fun l => negb (is_yes l)) (typed d) = true.

Lemma desk_unwilling : @Unwilling Desk desk_host desk_terminal no_yes.
Proof.
  constructor.
  - intros t w Hw. by exists (Ok tt), w.
  - intros p [pr [|l ls]] Hw; cbn [t_input desk_terminal typed].
    + by eexists _, _.
    + unfold no_yes in Hw. cbn [forallb typed] in Hw. apply andb_true_iff in Hw as [Hl Hls].
      eexists _, _. split_and!; [reflexivity|exact Hls|]. intros line [= <-] Hc%consents_yes. by rewrite Hc in Hl.
Qed.

Lemma select_zone_gate_witness :
  no_yes {| printed := []; typed := ["no"] |} /\
  within no_yes (@select_zone Desk (desk_link 0) 5 desk_host (list pt) field plane F.python312 desk_dialer
    desk_terminal F.abs F.abs 5 (fun _ => "") demo_zone "udp" true false false) (fun r => is_ok r = false).
Proof.
  split; [reflexivity|].
  exact (proj1 (@select_zone_gate Desk (desk_link 0) desk_host desk_dialer desk_terminal
    (list pt) field plane F.python312 F.abs F.abs 5 5 (fun _ => "") demo_zone no_yes "udp" true desk_unwilling)).
Defined.

Definition four_waypoints : list LatLon := replicate 4 (mkLatLon (F.of_Z 40) (F.of_Z (-80))).

Lemma resume_complete_early_witness :
  exists zone m, demo_zone = Ok zone /\ zone_to_mission zone four_waypoints = Ok m /\
    (exists it, m !! 7%nat = Some it /\ MI.command it = MAV_CMD_NAV_WAYPOINT) /\
    @resume_from Desk (desk_link 7) desk_host zone (map Some m) false
      {| printed := []; typed := [] |} = Some (Ok tt, {| printed := []; typed := [] |}).
Proof.
  destruct demo_zone as [zone|] eqn:Hz; [|vm_compute in Hz; discriminate].
  vm_compute in Hz. injection Hz as <-.
  match goal with |- context [Ok ?z = Ok _] => set (zone := z) end.
  destruct (zone_to_mission zone four_waypoints) as [m|] eqn:Hm; [|vm_compute in Hm; discriminate].
  exists zone, m.
  destruct (@resume_complete_early Desk (desk_link 7) desk_host zone four_waypoints m 7
    [("seq", VInt 7)] {| printed := []; typed := [] |} {| printed := []; typed := [] |}
    Hm) as [H1 H2].
  - split; [discriminate|reflexivity].
  - cbn. lia.
  - reflexivity.
  - reflexivity.
  - reflexivity.
  - split_and!; [reflexivity|exact Hm|exact H1|exact H2].
Defined.

Lemma zone_upload_stores_zone_witness :
  exists zone m f r v', demo_zone = Ok zone /\
    @_upload_zone_atomically _ (vehicle store32) 10 m f r parked = Some (Ok tt, v') /\
    v_store v' 0 = map store32 m /\ v_store v' 1 = map store32 f /\ v_store v' 2 = map store32 r.
Proof.
  destruct demo_zone as [zone|] eqn:Hz; [|vm_compute in Hz; discriminate].
  vm_compute in Hz. injection Hz as <-.
  match goal with |- context [Ok ?z = Ok _] => set (zone := z) end.
  destruct (zone_to_mission zone demo_waypoints) as [m|] eqn:Hm; [|vm_compute in Hm; discriminate].
  destruct (zone_to_fence zone) as [f|] eqn:Hf; [|vm_compute in Hf; discriminate].
  destruct (zone_to_rally zone) as [r|] eqn:Hr; [|vm_compute in Hr; discriminate].
  destruct (zone_upload_stores_zone store32 10 zone demo_waypoints m f r parked Hm Hf Hr)
    as (v' & H1 & H2 & H3 & H4).
  - discriminate.
  - reflexivity.
  - intros it. split; reflexivity.
  - vm_compute in Hm, Hf, Hr. injection Hm as <-. injection Hf as <-. injection Hr as <-.
    cbn. lia.
  - exists zone, m, f, r, v'. split_and!; [reflexivity|exact H1|exact H2|exact H3|exact H4].
Defined.

(** The result of the verification is not looked at: an upload whose
    verification is false still succeeds. *)
Lemma upload_ignores_verification :
  let bad t := [item 0 t (F.of_dec 53 (-1))] in
  match @_upload_zone_atomically _ (vehicle store32) 5 (bad 0) (bad 1) (bad 2) parked with
  | Some (Ok _, v') =>
      match @verify_round_trip _ (vehicle store32) 5 (bad 0) 0 v' with
      | Some (Ok b, _) => b
      | _ => true
      end
  | _ => true
  end = false.
Proof. vm_compute. reflexivity. Qed.
