(* ===== verification/VslamIpc.v ===== *)
(** * Pose messages and their socket (vslam/ipc.py, vslam/frames.py)

    The 118-byte wire format of a pose, with the [struct] codes it uses
    ([<Q27fBB]), the reader that reassembles it from a stream, and the frame
    conversion.  A byte is a [Z] from 0 to 255. *)

From stdpp Require Import base list strings option.
From Stdlib Require Import ZArith Lia Floats.SpecFloat.
From S2P Require Import Prelude Float64 PyVal.
Local Open Scope Z_scope.

(** ** [struct]: little-endian integers and binary32 *)
Module Struct.
Definition is_byte (b : Z) : Prop := 0 <= b < 256.

Fixpoint le_bytes (n : nat) (z : Z) : list Z :=
  match n with
  | O => []
  | Datatypes.S n' => z mod 256 :: le_bytes n' (z / 256)
  end.

Fixpoint of_le (bs : list Z) : Z :=
  match bs with
  | [] => 0
  | b :: bs' => b + 256 * of_le bs'
  end.

(** The bits of a float in the binary32 format. *)
Definition encode32 (f : float) : Z :=
  match f with
  | S754_zero s => Z.b2z s * 2 ^ 31
  | S754_infinity s => Z.b2z s * 2 ^ 31 + 255 * 2 ^ 23
  | S754_nan => 255 * 2 ^ 23 + 2 ^ 22
  | S754_finite s m e =>
      Z.b2z s * 2 ^ 31 +
      (if 2 ^ 23 <=? Z.pos m then (e + 150) * 2 ^ 23 + (Z.pos m - 2 ^ 23) else Z.pos m)
  end.

Definition decode32 (b : Z) : float :=
  let s := 1 <=? b / 2 ^ 31 in
  let ex := (b / 2 ^ 23) mod 256 in
  let fr := b mod 2 ^ 23 in
  if ex =? 0 then
    match fr with Zpos m => S754_finite s m (-149) | _ => S754_zero s end
  else if ex =? 255 then
    (if fr =? 0 then S754_infinity s else S754_nan)
  else S754_finite s (Z.to_pos (fr + 2 ^ 23)) (ex - 150).

(** [pack("<f", f)] *)
Definition pack_f (f : float) : res exn (list Z) :=
  let g := F.to32 f in
  if F.is_finite f && negb (F.is_finite g)
  then raise_ OverflowError [L "float too large to pack with f format"]
  else Ok (le_bytes 4 (encode32 g)).

Definition unpack_f (bs : list Z) : float := F.widen (decode32 (of_le bs)).

Definition pack_uint (n : nat) (z : Z) : res exn (list Z) :=
  if (0 <=? z) && (z <? 256 ^ Z.of_nat n) then Ok (le_bytes n z)
  else raise_ StructError [L "argument out of range"].

Lemma le_bytes_length n z : length (le_bytes n z) = n.
Proof. revert z. induction n; intros; cbn; auto. Qed.

Lemma of_le_bytes n z : 0 <= z < 256 ^ Z.of_nat n -> of_le (le_bytes n z) = z.
Proof.
  revert z. induction n as [|n IH]; intros z Hz; cbn [le_bytes of_le].
  - cbn in Hz. lia.
  - rewrite Nat2Z.inj_succ, Z.pow_succ_r in Hz by lia.
    rewrite IH by (split; [apply Z.div_pos; lia | apply Z.div_lt_upper_bound; lia]).
    pose proof (Z.div_mod z 256). lia.
Qed.

Lemma le_bytes_of bs : Forall is_byte bs -> le_bytes (length bs) (of_le bs) = bs.
Proof.
  induction 1 as [|b bs Hb _ IH]; [done|]. unfold is_byte in Hb. cbn [length le_bytes of_le].
  rewrite (Z.mul_comm 256), Z.mod_add, Z.mod_small, Z.div_add, Z.div_small, Z.add_0_l by lia.
  by rewrite IH.
Qed.

Lemma of_le_range bs : Forall is_byte bs -> 0 <= of_le bs < 256 ^ Z.of_nat (length bs).
Proof.
  induction 1 as [|b bs Hb _ IH]; [cbn; lia|]. unfold is_byte in Hb. cbn [length of_le].
  rewrite Nat2Z.inj_succ, Z.pow_succ_r by lia. lia.
Qed.

Lemma digits_lt m n : 0 <= n -> Z.pos m < 2 ^ n <-> Z.pos (digits2_pos m) <= n.
Proof. intros Hn. rewrite digits2_log2. rewrite Z.log2_lt_pow2 by lia. lia. Qed.

Lemma canonical32 m e :
  (2 ^ 23 <= Z.pos m < 2 ^ 24 /\ -149 <= e) \/ (Z.pos m < 2 ^ 23 /\ e = -149) <->
  canonical_mantissa 24 128 m e = true.
Proof.
  unfold canonical_mantissa, fexp, emin. rewrite Z.eqb_eq.
  pose proof (digits_lt m 23). pose proof (digits_lt m 24). lia.
Qed.

Lemma decode32_valid b : 0 <= b < 2 ^ 32 -> F.valid32 (decode32 b) = true.
Proof.
  intros Hb. unfold decode32.
  assert (0 <= b mod 2 ^ 23 < 2 ^ 23) as Hfr by (apply Z.mod_pos_bound; lia).
  assert (0 <= (b / 2 ^ 23) mod 256 < 256) as Hex by (apply Z.mod_pos_bound; lia).
  destruct (Z.eqb_spec ((b / 2 ^ 23) mod 256) 0) as [H0|H0].
  { destruct (b mod 2 ^ 23) as [|m|m]; [done| |done].
    unfold F.valid32, valid_binary, bounded. apply andb_true_intro. split; [|done].
    apply canonical32. lia. }
  destruct (Z.eqb_spec ((b / 2 ^ 23) mod 256) 255) as [H1|H1].
  { by destruct (b mod 2 ^ 23 =? 0). }
  unfold F.valid32, valid_binary, bounded. apply andb_true_intro. split.
  - apply canonical32. rewrite Z2Pos.id by lia. lia.
  - apply Z.leb_le. lia.
Qed.

Lemma decode_encode f : F.valid32 f = true -> decode32 (encode32 f) = f.
Proof.
  destruct f as [s|s| |s m e]; [by destruct s..|done|].
  unfold F.valid32, valid_binary, bounded. intros [Hc He]%andb_prop.
  apply Z.leb_le in He. apply canonical32 in Hc.
  unfold encode32, decode32.
  assert (0 <= Z.b2z s < 2) as Hs by (destruct s; cbn; lia).
  set (r := if 2 ^ 23 <=? Z.pos m then (e + 150) * 2 ^ 23 + (Z.pos m - 2 ^ 23) else Z.pos m).
  assert (0 <= r < 2 ^ 31) as Hr by (unfold r; destruct (Z.leb_spec (2 ^ 23) (Z.pos m)); lia).
  assert ((Z.b2z s * 2 ^ 31 + r) / 2 ^ 31 = Z.b2z s) as ->.
  { rewrite Z.div_add_l, Z.div_small by lia. lia. }
  assert ((1 <=? Z.b2z s) = s) as -> by by destruct s.
  assert ((Z.b2z s * 2 ^ 31 + r) / 2 ^ 23 = Z.b2z s * 256 + r / 2 ^ 23) as ->.
  { replace (Z.b2z s * 2 ^ 31) with (Z.b2z s * 256 * 2 ^ 23) by lia. by rewrite Z.div_add_l by lia. }
  assert ((Z.b2z s * 2 ^ 31 + r) mod 2 ^ 23 = r mod 2 ^ 23) as ->.
  { replace (Z.b2z s * 2 ^ 31 + r) with (r + Z.b2z s * 256 * 2 ^ 23) by lia.
    by rewrite Z.mod_add by lia. }
  assert (0 <= r / 2 ^ 23 < 256) as Hq
    by (split; [apply Z.div_pos; lia | apply Z.div_lt_upper_bound; lia]).
  rewrite (Z.add_comm (_ * 256)), Z.mod_add, (Z.mod_small _ 256) by lia.
  unfold r. destruct (Z.leb_spec (2 ^ 23) (Z.pos m)) as [Hm|Hm].
  - rewrite Z.div_add_l, (Z.div_small (Z.pos m - 2 ^ 23)) by lia.
    replace ((e + 150) * 2 ^ 23 + (Z.pos m - 2 ^ 23)) with ((Z.pos m - 2 ^ 23) + (e + 150) * 2 ^ 23) by lia.
    rewrite Z.mod_add, (Z.mod_small (Z.pos m - 2 ^ 23)) by lia.
    destruct (Z.eqb_spec (e + 150 + 0) 0); [lia|]. destruct (Z.eqb_spec (e + 150 + 0) 255); [lia|].
    f_equal; [|lia]. replace (Z.pos m - 2 ^ 23 + 2 ^ 23) with (Z.pos m) by lia. done.
  - rewrite Z.div_small, Z.mod_small by lia. cbn. f_equal. lia.
Qed.

Lemma encode32_range f : F.valid32 f = true -> 0 <= encode32 f < 2 ^ 32.
Proof.
  destruct f as [[]|[]| |s m e]; try (intros _; cbn; lia).
  unfold F.valid32, valid_binary, bounded. intros [Hc He]%andb_prop.
  apply Z.leb_le in He. apply canonical32 in Hc. unfold encode32.
  assert (0 <= Z.b2z s < 2) as Hs by (destruct s; cbn; lia).
  destruct (Z.leb_spec (2 ^ 23) (Z.pos m)); lia.
Qed.

Lemma encode_decode b :
  0 <= b < 2 ^ 32 -> decode32 b <> S754_nan -> encode32 (decode32 b) = b.
Proof.
  intros Hb. unfold decode32.
  assert (0 <= b mod 2 ^ 23 < 2 ^ 23) as Hfr by (apply Z.mod_pos_bound; lia).
  assert (b = Z.b2z (1 <=? b / 2 ^ 31) * 2 ^ 31 + (b / 2 ^ 23) mod 256 * 2 ^ 23 + b mod 2 ^ 23) as Hsplit.
  { assert (0 <= b / 2 ^ 31 < 2) as Ht
      by (split; [apply Z.div_pos; lia | apply Z.div_lt_upper_bound; lia]).
    assert (Z.b2z (1 <=? b / 2 ^ 31) = b / 2 ^ 31) as ->.
    { destruct (Z.leb_spec 1 (b / 2 ^ 31)); cbn; lia. }
    assert (b / 2 ^ 31 = b / 2 ^ 23 / 256) as -> by (rewrite Z.div_div by lia; done).
    pose proof (Z.div_mod b (2 ^ 23)). pose proof (Z.div_mod (b / 2 ^ 23) 256). lia. }
  set (s := 1 <=? b / 2 ^ 31) in *. set (ex := (b / 2 ^ 23) mod 256) in *.
  assert (0 <= ex < 256) as Hex by (unfold ex; apply Z.mod_pos_bound; lia).
  set (fr := b mod 2 ^ 23) in *.
  destruct (Z.eqb_spec ex 0) as [H0|H0].
  - intros _. destruct fr as [|m|m] eqn:Hm; cbn [encode32]; [lia| |lia].
    destruct (Z.leb_spec (2 ^ 23) (Z.pos m)); lia.
  - destruct (Z.eqb_spec ex 255) as [H1|H1].
    + destruct (Z.eqb_spec fr 0); [|done]. intros _. cbn [encode32]. lia.
    + intros _. cbn [encode32]. rewrite Z2Pos.id by lia.
      destruct (Z.leb_spec (2 ^ 23) (fr + 2 ^ 23)); lia.
Qed.
End Struct.

Module VslamIpc.
Import Struct.

Record PoseMessage : Type := {
  timestamp_us : Z; px : float; py : float; pz : float;
  roll : float; pitch : float; yaw : float;
  covariance : list float; confidence : Z; reset_counter : Z }.

Definition POSE_STRUCT_SIZE : nat := 118.

Fixpoint unpack_floats (n : nat) (bs : list Z) : list float :=
  match n with
  | O => []
  | Datatypes.S n' => unpack_f (take 4 bs) :: unpack_floats n' (drop 4 bs)
  end.

Definition from_bytes (data : list Z) : res exn PoseMessage :=
  if negb (Nat.eqb (length data) POSE_STRUCT_SIZE) then
    raise_ ValueError [L "Expected "; V (VInt (Z.of_nat POSE_STRUCT_SIZE)); L " bytes, got ";
                       V (VInt (Z.of_nat (length data)))]
  else
    let fs := unpack_floats 27 (drop 8 data) in
    Ok {| timestamp_us := of_le (take 8 data);
          px := nth 0 fs F.zero; py := nth 1 fs F.zero; pz := nth 2 fs F.zero;
          roll := nth 3 fs F.zero; pitch := nth 4 fs F.zero; yaw := nth 5 fs F.zero;
          covariance := drop 6 fs;
          confidence := of_le (take 1 (drop 116 data));
          reset_counter := of_le (drop 117 data) |}.

Definition pose_floats (m : PoseMessage) : list float :=
  [px m; py m; pz m; roll m; pitch m; yaw m] ++ covariance m.

Definition to_bytes (m : PoseMessage) : res exn (list Z) :=
  if negb (Nat.eqb (length (covariance m)) 21) then
    raise_ StructError [L "pack expected 30 items for packing"]
  else
    q ← pack_uint 8 (timestamp_us m);
    fs ← rmap pack_f (pose_floats m);
    c ← pack_uint 1 (confidence m);
    r ← pack_uint 1 (reset_counter m);
    Ok (q ++ concat fs ++ c ++ r).

(** ** The stream *)
Class Sock (W : Type) := {
  s_connect : prog exn W unit;
  s_recv : nat -> prog exn W (list Z);
  s_close : prog exn W unit;
  s_sleep : prog exn W unit
}.

Section reader.
Context {W : Type} `{!Sock W}.
Variable fuel : nat.

Definition recv_round (n : nat) (buf : list Z) : prog exn W (list Z + list Z) :=
  if Nat.ltb (length buf) n then
    chunk ← s_recv (n - length buf);
    match chunk with
    | [] => plift (raise_ ConnectionError [L "socket EOF"])
    | _ => mret (inl (buf ++ chunk))
    end
  else mret (inr buf).

Definition _recv_exact (n : nat) : prog exn W (list Z) := ploop fuel (recv_round n) [].

Definition _close : prog exn W unit := pexcept [OSError] s_close (fun _ => mret tt).

(** The generator between two [yield]s; the loop variable says whether the inner
    loop is entered with a connected socket. *)
Definition read_round (connected : bool) : prog exn W (bool + PoseMessage) :=
  pexcept [OSError; ConnectionError]
    (_ ← (if connected then mret tt else _ ← _close; s_connect);
     raw ← _recv_exact POSE_STRUCT_SIZE;
     m ← plift (from_bytes raw);
     mret (inr m))
    (fun _ => _ ← _close; _ ← s_sleep; mret (inl false)).

(** The next pose of [read_poses()]. *)
Definition read_pose (connected : bool) : prog exn W PoseMessage :=
  ploop fuel read_round connected.
End reader.

(** ** vslam/frames.py *)
Definition flu_to_ned_pose (p : float * float * float * float * float * float)
  : float * float * float * float * float * float :=
  let '(x, y, z, roll, pitch, yaw) := p in (x, F.neg y, F.neg z, roll, F.neg pitch, F.neg yaw).

Definition flu_to_ned_velocity (v : float * float * float) : float * float * float :=
  let '(vx, vy, vz) := v in (vx, F.neg vy, F.neg vz).
End VslamIpc.
Export VslamIpc.
Import Struct.

(** ** Round trips of the wire format *)
Definition float32 (f : float) : Prop := exists g, F.valid32 g = true /\ f = F.widen g.

Lemma finite_widen g : F.is_finite (F.widen g) = F.is_finite g.
Proof. by destruct g. Qed.

Lemma pack_unpack_f f : float32 f -> exists bs, pack_f f = Ok bs /\ length bs = 4%nat /\
  unpack_f bs = f.
Proof.
  intros (g & Hg & ->). unfold pack_f. rewrite to32_widen, finite_widen by done.
  destruct (F.is_finite g) eqn:Hfin; cbn [andb negb];
    (eexists; split; [done|]; split; [apply le_bytes_length|];
     unfold unpack_f; rewrite of_le_bytes by (by apply encode32_range); by rewrite decode_encode).
Qed.

Lemma unpack_pack_f bs :
  Forall is_byte bs -> length bs = 4%nat -> decode32 (of_le bs) <> S754_nan ->
  pack_f (unpack_f bs) = Ok bs.
Proof.
  intros Hb Hl Hn. pose proof (of_le_range bs Hb) as Hr. rewrite Hl in Hr.
  change (256 ^ Z.of_nat 4) with (2 ^ 32) in Hr.
  unfold pack_f, unpack_f. rewrite to32_widen, finite_widen by (by apply decode32_valid).
  rewrite andb_negb_r, encode_decode by done. rewrite <- Hl at 1. by rewrite le_bytes_of.
Qed.

Lemma rmap_pack_f fs :
  Forall float32 fs -> exists bss, rmap pack_f fs = Ok bss /\
    length (concat bss) = (4 * length fs)%nat /\
    forall rest, unpack_floats (length fs) (concat bss ++ rest) = fs.
Proof.
  induction 1 as [|f fs Hf _ (bss & Hbss & Hlen & Hun)]; [by exists []|].
  destruct (pack_unpack_f f Hf) as (bs & Hbs & Hl & Hu).
  exists (bs :: bss). cbn [rmap]. rewrite Hbs. cbn [mbind res_bind]. rewrite Hbss.
  split; [done|]. split; [cbn; rewrite length_app; cbn [length]; lia|].
  intros rest. cbn [length concat unpack_floats]. rewrite <- app_assoc.
  rewrite take_app_length', drop_app_length' by done. by rewrite Hu, Hun.
Qed.

Record pose_in_range (m : PoseMessage) : Prop := {
  ts_range : 0 <= timestamp_us m < 2 ^ 64;
  cov_length : length (covariance m) = 21%nat;
  floats_ok : Forall float32 (pose_floats m);
  conf_range : 0 <= confidence m < 256;
  reset_range : 0 <= reset_counter m < 256
}.

Lemma pack_uint_ok n z : 0 <= z < 256 ^ Z.of_nat n -> pack_uint n z = Ok (le_bytes n z).
Proof.
  intros Hz. unfold pack_uint.
  by rewrite (proj2 (Z.leb_le _ _)), (proj2 (Z.ltb_lt _ _)) by lia.
Qed.

(** C36: The pose wire format loses nothing: a message whose integers fit their
    fields and whose floats are binary32 values packs to exactly 118 bytes, and
    unpacking those gives the message back. *)
Theorem pose_roundtrip m (H : pose_in_range m) :
  exists bs, to_bytes m = Ok bs /\ length bs = 118%nat /\ from_bytes bs = Ok m.
Proof.
  destruct H as [Hts Hcov Hfl Hconf Hres]. unfold to_bytes. rewrite Hcov. cbn [Nat.eqb negb].
  rewrite (pack_uint_ok 8) by done. cbn [mbind res_bind].
  destruct (rmap_pack_f _ Hfl) as (bss & Hbss & Hlen & Hun). rewrite Hbss. cbn [mbind res_bind].
  rewrite !(pack_uint_ok 1) by done. cbn [mbind res_bind].
  assert (length (pose_floats m) = 27%nat) as Hpf by (unfold pose_floats; cbn; by rewrite Hcov).
  rewrite Hpf in Hlen, Hun. eexists. split; [done|].
  set (q := le_bytes 8 (timestamp_us m)). set (c := le_bytes 1 (confidence m)).
  set (r := le_bytes 1 (reset_counter m)).
  assert (length q = 8%nat /\ length c = 1%nat /\ length r = 1%nat) as (Hq & Hc & Hr)
    by (unfold q, c, r; rewrite !le_bytes_length; done).
  split; [rewrite !length_app; lia|].
  unfold from_bytes, POSE_STRUCT_SIZE.
  rewrite (proj2 (Nat.eqb_eq _ _)) by (rewrite !length_app; lia). cbn [negb].
  rewrite take_app_length', drop_app_length' by done.
  rewrite (drop_app_ge _ _ 116), (drop_app_ge _ _ 117) by lia. rewrite Hq, Hun.
  rewrite (drop_app_length' (concat bss) (c ++ r)) by lia.
  rewrite (take_app_length' c r) by done.
  rewrite (drop_app_ge (concat bss) (c ++ r)) by lia.
  rewrite (drop_app_length' c r) by lia.
  unfold q, c, r. rewrite !of_le_bytes by done. by destruct m.
Qed.

Definition demo_pose : PoseMessage :=
  {| timestamp_us := 1700000000000000; px := F.narrow (F.of_dec 15 (-1)); py := F.narrow (F.of_dec (-1) (-1));
     pz := F.zero; roll := F.zero; pitch := F.zero; yaw := F.narrow (F.of_dec 3 0);
     covariance := replicate 21 (F.narrow (F.of_dec 1 (-3))); confidence := 2; reset_counter := 0 |}.

Lemma pose_roundtrip_witness :
  exists bs, to_bytes demo_pose = Ok bs /\ length bs = 118%nat /\ from_bytes bs = Ok demo_pose.
Proof.
  apply pose_roundtrip. constructor; [by vm_compute|reflexivity| |by vm_compute|by vm_compute].
  assert (forall f, F.valid32 (F.to32 f) = true -> float32 (F.narrow f)) as Hn.
  { intros f Hf. exists (F.to32 f). by split. }
  assert (float32 F.zero) as Hz by (exists F.zero; by split).
  repeat constructor; try exact Hz; apply Hn; vm_compute; reflexivity.
Defined.

(** ** Reassembling a stream *)

(** A socket that delivers chunks in whatever pieces the network made, never
    more than asked. *)
#[local] Instance chunked : Sock (list (list Z)) := {
  s_connect w := Some (Ok tt, w);
  s_recv n w := match w with
                | [] => Some (Ok [], [])
                | c :: w' => Some (Ok (take n c), match drop n c with [] => w' | d => d :: w' end)
                end;
  s_close w := Some (Ok tt, w);
  s_sleep w := Some (Ok tt, w)
}.

Lemma recv_rounds n chunks buf fuel :
  Forall (fun c => c <> []) chunks -> (length buf <= n)%nat ->
  (n <= length buf + length (concat chunks))%nat -> (n - length buf < fuel)%nat ->
  exists rest, ploop fuel (recv_round n) buf chunks =
    Some (Ok (buf ++ take (n - length buf) (concat chunks)), rest) /\
    concat rest = drop (n - length buf) (concat chunks) /\ Forall (fun c => c <> []) rest.
Proof.
  revert chunks buf. induction fuel as [|fuel IH]; intros chunks buf Hne Hle Hge Hf; [lia|].
  cbn [ploop]. destruct (Nat.ltb_spec (length buf) n) as [Hlt|Hlt].
  2:{ assert (recv_round n buf chunks = Some (Ok (inr buf), chunks)) as Hr
        by (unfold recv_round; by rewrite (proj2 (Nat.ltb_ge _ _))).
      rewrite (pbind_step _ _ _ _ _ Hr). exists chunks. replace (n - length buf)%nat with O by lia. cbn [take drop].
      rewrite app_nil_r. split_and!; [reflexivity|reflexivity|exact Hne]. }
  destruct chunks as [|c chunks]; [cbn in Hge; lia|].
  apply list.Forall_cons in Hne as [Hc Hne].
  set (k := (n - length buf)%nat) in *.
  assert (take k c <> []) as Htc by (destruct c; [done|destruct k eqn:E; [unfold k in E; lia|done]]).
  set (w' := match drop k c with [] => chunks | d => d :: chunks end).
  assert (concat w' = drop k c ++ concat chunks) as Hw' by (unfold w'; by destruct (drop k c)).
  assert (Forall (fun c => c <> []) w') as Hnw.
  { unfold w'. destruct (drop k c) eqn:Ed; [done|]. by constructor. }
  assert (length (take k c) = k `min` length c)%nat as Hlt2 by apply length_take.
  assert (0 < length (take k c))%nat as Hpos by (destruct (take k c); [done|cbn; lia]).
  assert (recv_round n buf (c :: chunks) = Some (Ok (inl (buf ++ take k c)), w')) as Hround.
  { unfold recv_round. rewrite (proj2 (Nat.ltb_lt _ _)) by done. fold k.
    rewrite (pbind_step _ _ (c :: chunks) (take k c) w') by done.
    destruct (take k c); done. }
  rewrite (pbind_step _ _ _ _ _ Hround).
  destruct (IH w' (buf ++ take k c) Hnw) as (rest & Hr & Hcr & Hnr).
  - rewrite length_app. lia.
  - rewrite length_app, Hw', length_app, length_drop. cbn [concat] in Hge.
    rewrite length_app in Hge. lia.
  - rewrite length_app. lia.
  - exists rest. rewrite Hr, Hcr, Hw', length_app, <- app_assoc.
    replace (n - (length buf + length (take k c)))%nat with (k - length (take k c))%nat by lia.
    cbn [concat]. split_and!; [|..|done].
    + do 3 f_equal. rewrite (take_app c), Hlt2. f_equal.
      destruct (Nat.le_ge_cases k (length c)).
      * replace (k - k `min` length c)%nat with O by lia.
        by replace (k - length c)%nat with O by lia.
      * rewrite (drop_ge c) by lia. by replace (k `min` length c)%nat with (length c) by lia.
    + rewrite (drop_app c), Hlt2. destruct (Nat.le_ge_cases k (length c)).
      * replace (k - k `min` length c)%nat with O by lia.
        by replace (k - length c)%nat with O by lia.
      * rewrite !(drop_ge c) by lia. by replace (k `min` length c)%nat with (length c) by lia.
Qed.

(** C37: Framing survives fragmentation: however the stream is cut into
    non-empty chunks, [_recv_exact] returns exactly its first [n] bytes, leaves
    the rest for the next read, and terminates. *)
Theorem recv_exact_reassembles n (chunks : list (list Z)) fuel
    (Hne : Forall (fun c => c <> []) chunks) (Hlen : (n <= length (concat chunks))%nat)
    (Hf : (n < fuel)%nat) :
  exists rest, _recv_exact fuel n chunks = Some (Ok (take n (concat chunks)), rest) /\
    concat rest = drop n (concat chunks).
Proof.
  destruct (recv_rounds n chunks [] fuel Hne) as (rest & Hr & Hc & _); cbn [length]; try lia.
  rewrite Nat.sub_0_r in *. by exists rest.
Qed.

Lemma recv_exact_reassembles_witness :
  exists rest, _recv_exact 10 4 [[1]; [2; 3]; [4; 5; 6]] = Some (Ok [1; 2; 3; 4], rest) /\
    concat rest = [5; 6].
Proof.
  apply (recv_exact_reassembles 4 [[1]; [2; 3]; [4; 5; 6]] 10).
  - repeat constructor; discriminate.
  - cbn. lia.
  - lia.
Defined.
