(* ===== verification/Config.v ===== *)
(** * Configuration files (config/vslam.py, config/jetson.py, config/laptop.py)

    The three YAML schemas: defaults, coercion, loading and saving.  The YAML
    library is a pair of parameters.  A field that the code only checks with
    [isinstance(v, int)] keeps the value it was given, a [bool] included; a path
    is the string its [Path] prints as. *)

From stdpp Require Import base gmap list strings option.
From Stdlib Require Import Ascii ZArith Lia.
From S2P Require Import Prelude Float64 PyVal Files.
Local Open Scope Z_scope.

(** ** Reading a YAML file, shared by the three schemas *)
Module Config.
Definition tname (v : PyVal) : Piece := L (type_name v).

(** [str(Path(s))]: duplicate separators and [.] components go. *)
Definition path_of (s : string) : string :=
  let root := if S.startswith s "//" && negb (S.startswith s "///") then "//"
              else if S.startswith s "/" then "/" else "" in
  let parts := List.filter (fun p => negb (bool_decide (p = "")) && negb (bool_decide (p = ".")))
                 (S.split "/" s) in
  match S.join "" [root; S.join "/" parts] with "" => "." | p => p end.

(** [str(path.parent)] of a path with a directory part. *)
Definition parent_of (path : string) : string :=
  match rev (S.split "/" path) with
  | _ :: (_ :: _) as ds => match S.join "/" (rev (tail (rev (S.split "/" path)))) with "" => "/" | d => d end
  | _ => "."
  end.

Section yaml.
Context {W : Type} `{!FileStore W}.
Variable yaml_safe_load : string -> res exn PyVal.
Variable yaml_safe_dump : bool -> PyVal -> string.

(** [yaml.safe_load(target.read_text(...)) or {}], a parse error re-raised as
    [cls]; [None] when the file does not exist. *)
Definition load_yaml (cls : ExnClass) (target : string) : prog exn W (option PyVal) :=
  e ← f_exists target;
  if negb e then mret None
  else
    raw ← pexcept [YAMLError]
      (raw ← f_read target; text ← plift (Utf8.decode raw); plift (yaml_safe_load text))
      (fun exc => plift (raise_ cls ([L "failed to parse "; L target; L ": "] ++ exn_msg exc)));
    mret (Some (if py_bool raw then raw else VDict [])).

(** [mkdir] of the parent and [write_text(yaml.safe_dump(...))]. *)
Definition save_yaml (sort_keys : bool) (target : string) (payload : PyVal) : prog exn W string :=
  _ ← f_mkdir (parent_of target);
  _ ← f_write target (yaml_safe_dump sort_keys payload);
  mret target.
End yaml.

(** [raw.get(k)]: a missing key and [None] are the same to the caller. *)
Definition get (raw : list (PyVal * PyVal)) (k : string) : PyVal := dget_or raw k VNone.

(** A set of strings in a message: the format ["set"] stands for the [repr] of a
    set, whose element order Python leaves open. *)
Definition set_of (valid : list string) : Piece := VF (VList (map VStr valid)) "set".

(** The common shapes of check; the value is returned when it passes. *)
Definition one_of (cls : ExnClass) (what : string) (valid : list string) (v : PyVal) : res exn string :=
  b ← in_strings v valid;
  match v with
  | VStr s => if (b : bool) then Ok s
              else raise_ cls [L what; L " must be one of "; set_of valid; L ", got "; VF v "r"]
  | _ => raise_ cls [L what; L " must be one of "; set_of valid; L ", got "; VF v "r"]
  end.

Definition int_where (p : Z -> bool) (cls : ExnClass) (msg : string) (v : PyVal) : res exn PyVal :=
  match as_int v with
  | Some n => if p n then Ok v else raise_ cls [L msg; L ", got "; VF v "r"]
  | None => raise_ cls [L msg; L ", got "; VF v "r"]
  end.

Definition a_string (cls : ExnClass) (msg : string) (v : PyVal) : res exn string :=
  match v with VStr s => Ok s | _ => raise_ cls [L msg; L ", got "; tname v] end.

Definition a_bool (cls : ExnClass) (what : string) (v : PyVal) : res exn bool :=
  match v with VBool b => Ok b | _ => raise_ cls [L what; L " must be bool, got "; tname v] end.

Definition positive (n : Z) : bool := 0 <? n.

(** The per-user configuration directory off Windows. *)
Definition config_root (xdg : option string) (home : string) : string :=
  match xdg with
  | Some xdg => if bool_decide (xdg = "") then join_path home ".config" else path_of xdg
  | None => join_path home ".config"
  end.
Definition sdict (l : list (string * PyVal)) : PyVal := VDict (map (fun kv => (VStr kv.1, kv.2)) l).
End Config.
Export Config.

Module VslamConfig.
Record Extrinsics : Type := {
  pos_x : float; pos_y : float; pos_z : float; e_roll : float; e_pitch : float; e_yaw : float }.
Definition Extrinsics_default : Extrinsics :=
  {| pos_x := F.of_dec 3 (-1); pos_y := F.zero; pos_z := F.of_dec (-2) (-1);
     e_roll := F.zero; e_pitch := F.of_Z (-15); e_yaw := F.zero |}.

Record BridgeConfig : Type := {
  serial_device : string; b_source_system : PyVal; b_source_component : PyVal }.
Definition BridgeConfig_default : BridgeConfig :=
  {| serial_device := "/dev/ttyACM0"; b_source_system := VInt 1; b_source_component := VInt 197 |}.

Record VslamConfig : Type := {
  odometry_strategy : string; stereo_resolution : string; stereo_fps : PyVal; imu_rate_hz : PyVal;
  imu_rotation_sensor : string; pose_output_rate_hz : PyVal; memory_threshold_mb : PyVal;
  loop_closure : bool; database_path : string; socket_path : string; usb_max_speed : string;
  ir_dot_projector_ma : PyVal; ir_flood_led_ma : PyVal; v_slam_mode : string;
  extrinsics : Extrinsics; bridge : BridgeConfig }.

Definition VslamConfig_default : VslamConfig :=
  {| odometry_strategy := "f2m"; stereo_resolution := "800p"; stereo_fps := VInt 30;
     imu_rate_hz := VInt 200; imu_rotation_sensor := "game_rotation_vector";
     pose_output_rate_hz := VInt 20; memory_threshold_mb := VInt 6000; loop_closure := true;
     database_path := "/var/lib/mower/rtabmap.db"; socket_path := "/run/mower/vslam-pose.sock";
     usb_max_speed := "SUPER"; ir_dot_projector_ma := VInt 750; ir_flood_led_ma := VInt 200;
     v_slam_mode := "mapping"; extrinsics := Extrinsics_default; bridge := BridgeConfig_default |}.

Definition extrinsics_dict (e : Extrinsics) : PyVal :=
  sdict [("pos_x", VFloat (pos_x e)); ("pos_y", VFloat (pos_y e)); ("pos_z", VFloat (pos_z e));
         ("roll", VFloat (e_roll e)); ("pitch", VFloat (e_pitch e)); ("yaw", VFloat (e_yaw e))].

Definition bridge_dict (b : BridgeConfig) : PyVal :=
  sdict [("serial_device", VStr (serial_device b)); ("source_system", b_source_system b);
         ("source_component", b_source_component b)].

Definition to_dict (c : VslamConfig) : PyVal :=
  sdict
    [("vslam", sdict
       [("odometry_strategy", VStr (odometry_strategy c));
        ("stereo_resolution", VStr (stereo_resolution c)); ("stereo_fps", stereo_fps c);
        ("imu_rate_hz", imu_rate_hz c); ("imu_rotation_sensor", VStr (imu_rotation_sensor c));
        ("pose_output_rate_hz", pose_output_rate_hz c); ("memory_threshold_mb", memory_threshold_mb c);
        ("loop_closure", VBool (loop_closure c)); ("database_path", VStr (database_path c));
        ("socket_path", VStr (socket_path c)); ("usb_max_speed", VStr (usb_max_speed c));
        ("ir_dot_projector_ma", ir_dot_projector_ma c); ("ir_flood_led_ma", ir_flood_led_ma c);
        ("slam_mode", VStr (v_slam_mode c)); ("extrinsics", extrinsics_dict (extrinsics c))]);
     ("bridge", bridge_dict (bridge c))].

(** ** Coercion *)
Definition _VALID_ODOMETRY : list string := ["f2m"; "f2f"; "fovis"; "viso2"; "orbslam2"].
Definition _VALID_RESOLUTIONS : list string := ["400p"; "480p"; "720p"; "800p"].
Definition _VALID_USB_SPEEDS : list string := ["HIGH"; "SUPER"; "SUPER_PLUS"].
Definition _VALID_IMU_ROTATION_SENSORS : list string :=
  ["game_rotation_vector"; "rotation_vector"; "arvr_stabilized_game_rotation_vector"].
Definition _VALID_SLAM_MODES : list string := ["mapping"; "localization"].

Definition verr {A} (m : FStr) : res exn A := raise_ VslamConfigError m.

(** One number of the extrinsics, the default when it is absent. *)
Definition extrinsic (raw : list (PyVal * PyVal)) (key : string) (dflt : float) : res exn float :=
  match get raw key with
  | VNone => Ok dflt
  | VInt z => float_of_int z
  | VBool b => Ok (F.of_Z (Z.b2z b))
  | VFloat f => Ok f
  | v => verr [L "extrinsics."; L key; L " must be a number, got "; tname v]
  end.

Definition _coerce_extrinsics (raw : PyVal) : res exn Extrinsics :=
  match raw with
  | VNone => Ok Extrinsics_default
  | VDict d =>
      x ← extrinsic d "pos_x" (pos_x Extrinsics_default);
      y ← extrinsic d "pos_y" (pos_y Extrinsics_default);
      z ← extrinsic d "pos_z" (pos_z Extrinsics_default);
      r ← extrinsic d "roll" (e_roll Extrinsics_default);
      p ← extrinsic d "pitch" (e_pitch Extrinsics_default);
      w ← extrinsic d "yaw" (e_yaw Extrinsics_default);
      Ok {| pos_x := x; pos_y := y; pos_z := z; e_roll := r; e_pitch := p; e_yaw := w |}
  | v => verr [L "extrinsics must be a mapping, got "; tname v]
  end.

Definition _coerce_bridge (raw : PyVal) : res exn BridgeConfig :=
  match raw with
  | VNone => Ok BridgeConfig_default
  | VDict d =>
      dev ← a_string VslamConfigError "bridge.serial_device must be a string"
              (dget_or d "serial_device" (VStr "/dev/ttyACM0"));
      sys ← int_where (Z.leb 0) VslamConfigError "bridge.source_system must be a non-negative integer"
              (dget_or d "source_system" (VInt 1));
      comp ← int_where (Z.leb 0) VslamConfigError "bridge.source_component must be a non-negative integer"
              (dget_or d "source_component" (VInt 197));
      Ok {| serial_device := dev; b_source_system := sys; b_source_component := comp |}
  | v => verr [L "bridge must be a mapping, got "; tname v]
  end.

Definition coerce_vslam (raw v : list (PyVal * PyVal)) : res exn VslamConfig :=
  odo ← one_of VslamConfigError "odometry_strategy" _VALID_ODOMETRY
          (dget_or v "odometry_strategy" (VStr "f2m"));
  res ← one_of VslamConfigError "stereo_resolution" _VALID_RESOLUTIONS
          (dget_or v "stereo_resolution" (VStr "400p"));
  fps ← int_where positive VslamConfigError "stereo_fps must be a positive integer"
          (dget_or v "stereo_fps" (VInt 30));
  imu ← int_where positive VslamConfigError "imu_rate_hz must be a positive integer"
          (dget_or v "imu_rate_hz" (VInt 200));
  rot ← one_of VslamConfigError "imu_rotation_sensor" _VALID_IMU_ROTATION_SENSORS
          (dget_or v "imu_rotation_sensor" (VStr "game_rotation_vector"));
  rate ← int_where positive VslamConfigError "pose_output_rate_hz must be a positive integer"
          (dget_or v "pose_output_rate_hz" (VInt 20));
  mem ← int_where positive VslamConfigError "memory_threshold_mb must be a positive integer"
          (dget_or v "memory_threshold_mb" (VInt 6000));
  loop ← a_bool VslamConfigError "loop_closure" (dget_or v "loop_closure" (VBool true));
  db ← a_string VslamConfigError "database_path must be a string"
         (dget_or v "database_path" (VStr "/var/lib/mower/rtabmap.db"));
  sock ← a_string VslamConfigError "socket_path must be a string"
         (dget_or v "socket_path" (VStr "/run/mower/vslam-pose.sock"));
  usb ← one_of VslamConfigError "usb_max_speed" _VALID_USB_SPEEDS
          (dget_or v "usb_max_speed" (VStr "SUPER"));
  dot ← int_where (fun n => (0 <=? n) && (n <=? 1200)) VslamConfigError
          "ir_dot_projector_ma must be int 0–1200" (dget_or v "ir_dot_projector_ma" (VInt 750));
  flood ← int_where (fun n => (0 <=? n) && (n <=? 1500)) VslamConfigError
          "ir_flood_led_ma must be int 0–1500" (dget_or v "ir_flood_led_ma" (VInt 200));
  mode ← one_of VslamConfigError "slam_mode" _VALID_SLAM_MODES
          (dget_or v "slam_mode" (VStr "mapping"));
  ext ← _coerce_extrinsics (get v "extrinsics");
  br ← _coerce_bridge (get raw "bridge");
  Ok {| odometry_strategy := odo; stereo_resolution := res; stereo_fps := fps; imu_rate_hz := imu;
        imu_rotation_sensor := rot; pose_output_rate_hz := rate; memory_threshold_mb := mem;
        loop_closure := loop; database_path := db; socket_path := sock; usb_max_speed := usb;
        ir_dot_projector_ma := dot; ir_flood_led_ma := flood; v_slam_mode := mode;
        extrinsics := ext; bridge := br |}.

Definition _coerce (raw : PyVal) : res exn VslamConfig :=
  match raw with
  | VDict d =>
      match dget_or d "vslam" (VDict []) with
      | VDict v => coerce_vslam d v
      | v => verr [L "'vslam' must be a mapping, got "; tname v]
      end
  | v => verr [L "top-level YAML must be a mapping, got "; tname v]
  end.

Section files.
Context {W : Type} `{!FileStore W}.
Variable yaml_safe_load : string -> res exn PyVal.
Variable yaml_safe_dump : bool -> PyVal -> string.

Definition DEFAULT_VSLAM_CONFIG_PATH : string := "/etc/mower/vslam.yaml".

Definition _DEFAULTS_YAML : string := "mower_rover/config/data/vslam_defaults.yaml".

Definition _load_defaults : prog exn W PyVal :=
  e ← f_exists _DEFAULTS_YAML;
  if (e : bool) then
    raw ← f_read _DEFAULTS_YAML;
    text ← plift (Utf8.decode raw);
    v ← plift (yaml_safe_load text);
    mret (if py_bool v then v else VDict [])
  else mret (VDict []).

Definition load_vslam_config (path : option string) : prog exn W VslamConfig :=
  raw ← load_yaml yaml_safe_load VslamConfigError (default DEFAULT_VSLAM_CONFIG_PATH path);
  match raw with
  | None => mret VslamConfig_default
  | Some raw => plift (_coerce raw)
  end.

Definition save_vslam_config (config : VslamConfig) (path : option string) : prog exn W string :=
  save_yaml yaml_safe_dump false (default DEFAULT_VSLAM_CONFIG_PATH path) (to_dict config).
End files.
End VslamConfig.

(** Evaluate the look-ups in documents that are written out. *)
Ltac lookups :=
  repeat match goal with
  | |- context [dget_or ?d ?k ?dv] =>
      let v := eval vm_compute in (dget_or d k dv) in change (dget_or d k dv) with v
  end.

(** ** What coercion guarantees *)
Definition int_in (p : Z -> bool) (v : PyVal) : Prop := exists n, as_int v = Some n /\ p n = true.

Record vslam_valid (c : VslamConfig.VslamConfig) : Prop := {
  val_odo : VslamConfig.odometry_strategy c ∈ VslamConfig._VALID_ODOMETRY;
  val_res : VslamConfig.stereo_resolution c ∈ VslamConfig._VALID_RESOLUTIONS;
  val_fps : int_in positive (VslamConfig.stereo_fps c);
  val_imu : int_in positive (VslamConfig.imu_rate_hz c);
  val_rot : VslamConfig.imu_rotation_sensor c ∈ VslamConfig._VALID_IMU_ROTATION_SENSORS;
  val_rate : int_in positive (VslamConfig.pose_output_rate_hz c);
  val_mem : int_in positive (VslamConfig.memory_threshold_mb c);
  val_usb : VslamConfig.usb_max_speed c ∈ VslamConfig._VALID_USB_SPEEDS;
  val_dot : int_in (fun n => (0 <=? n) && (n <=? 1200)) (VslamConfig.ir_dot_projector_ma c);
  val_flood : int_in (fun n => (0 <=? n) && (n <=? 1500)) (VslamConfig.ir_flood_led_ma c);
  val_mode : VslamConfig.v_slam_mode c ∈ VslamConfig._VALID_SLAM_MODES;
  val_sys : int_in (Z.leb 0) (VslamConfig.b_source_system (VslamConfig.bridge c));
  val_comp : int_in (Z.leb 0) (VslamConfig.b_source_component (VslamConfig.bridge c))
}.

Lemma one_of_ok cls what valid v s : one_of cls what valid v = Ok s <-> v = VStr s /\ s ∈ valid.
Proof.
  unfold one_of, in_strings. destruct v; cbn; try (split; [discriminate|by intros [? _]]).
  case_bool_decide; split; try done; [by intros [= <-]|by intros [[= ->] _]|by intros [[= ->] ?]].
Qed.

Lemma int_where_ok p cls msg v v' : int_where p cls msg v = Ok v' <-> v' = v /\ int_in p v.
Proof.
  unfold int_where, int_in. destruct (as_int v) as [n|].
  - destruct (p n) eqn:E; (split; [intros [= <-]|intros [-> (? & [= <-] & ?)]]); [by eauto|done|congruence].
  - split; [done|]. by intros [_ (? & ? & _)].
Qed.

Lemma a_string_ok cls msg v s : a_string cls msg v = Ok s -> v = VStr s.
Proof. destruct v; cbn; by intros [= <-]. Qed.

Lemma coerce_bridge_ok raw b :
  VslamConfig._coerce_bridge raw = Ok b ->
  int_in (Z.leb 0) (VslamConfig.b_source_system b) /\ int_in (Z.leb 0) (VslamConfig.b_source_component b).
Proof.
  unfold VslamConfig._coerce_bridge. destruct raw; try done.
  - intros [= <-]. split; by eexists.
  - rewrite rbind_ok. intros (dev & _ & H). rewrite rbind_ok in H. destruct H as (sys & Hs & H).
    rewrite rbind_ok in H. destruct H as (comp & Hc & [= <-]).
    apply int_where_ok in Hs as [-> ?]. by apply int_where_ok in Hc as [-> ?].
Qed.

Lemma coerce_vslam_valid raw v c : VslamConfig.coerce_vslam raw v = Ok c -> vslam_valid c.
Proof.
  unfold VslamConfig.coerce_vslam. intros H.
  repeat (rewrite rbind_ok in H; destruct H as (? & ? & H)). injection H as <-.
  repeat match goal with
  | H : one_of _ _ _ _ = Ok _ |- _ => apply one_of_ok in H as [? ?]
  | H : int_where _ _ _ _ = Ok _ |- _ => apply int_where_ok in H as [-> ?]
  | H : VslamConfig._coerce_bridge _ = Ok _ |- _ => apply coerce_bridge_ok in H as [? ?]
  end.
  by constructor.
Qed.

(** A valid configuration, written as a document, is read back. *)
Lemma coerce_to_dict c : vslam_valid c -> VslamConfig._coerce (VslamConfig.to_dict c) = Ok c.
Proof.
  intros []. destruct c as [odo res fps imu rot rate mem loop db sock usb dot flood mode [] [dev sys comp]].
  cbn [VslamConfig.odometry_strategy VslamConfig.stereo_resolution VslamConfig.stereo_fps
    VslamConfig.imu_rate_hz VslamConfig.imu_rotation_sensor VslamConfig.pose_output_rate_hz
    VslamConfig.memory_threshold_mb VslamConfig.usb_max_speed VslamConfig.ir_dot_projector_ma
    VslamConfig.ir_flood_led_ma VslamConfig.v_slam_mode VslamConfig.bridge VslamConfig.b_source_system
    VslamConfig.b_source_component] in *.
  assert (forall cls w valid s, s ∈ valid -> one_of cls w valid (VStr s) = Ok s) as Hone
    by (intros; by apply one_of_ok).
  assert (forall p cls m v, int_in p v -> int_where p cls m v = Ok v) as Hint
    by (intros; by apply int_where_ok).
  unfold VslamConfig._coerce, VslamConfig.to_dict, sdict at 1.
  cbn [VslamConfig.bridge VslamConfig.extrinsics].
  lookups. unfold VslamConfig.coerce_vslam. lookups.
  rewrite !Hone, !Hint by done. cbn [mbind res_bind a_bool a_string].
  unfold VslamConfig._coerce_extrinsics, VslamConfig.extrinsic, get. lookups. cbn [mbind res_bind].
  unfold VslamConfig._coerce_bridge. lookups. cbn [mbind res_bind a_string].
  rewrite !Hint by done. done.
Qed.

Section roundtrip.
Context {W : Type} `{!FileStore W} {contents : W -> gmap string string} `{!HealthyDisk W contents}.
Variable yaml_safe_load : string -> res exn PyVal.
Variable yaml_safe_dump : bool -> PyVal -> string.

(** What [save_yaml] does to the disk, and what [load_yaml] makes of a file. *)
Lemma save_yaml_writes sort target p w :
  exists w', save_yaml yaml_safe_dump sort target p w = Some (Ok target, w') /\
    contents w' = <[target := yaml_safe_dump sort p]> (contents w).
Proof.
  destruct (hd_mkdir (parent_of target) w) as (w0 & H0 & Hc0).
  destruct (hd_write target (yaml_safe_dump sort p) w0) as (w1 & H1 & Hc1).
  exists w1. split; [|by rewrite Hc1, Hc0].
  unfold save_yaml. by rewrite (pbind_step _ _ _ _ _ H0), (pbind_step _ _ _ _ _ H1).
Qed.

Lemma load_yaml_reads cls target text p w :
  contents w !! target = Some text -> Utf8.decode text = Ok text -> yaml_safe_load text = Ok p -> py_bool p = true ->
  exists w', load_yaml yaml_safe_load cls target w = Some (Ok (Some p), w') /\ contents w' = contents w.
Proof.
  intros Ht Hd Hl Hb. destruct (hd_exists target w) as (w1 & H1 & Hc1).
  destruct (hd_read target w1 text) as (w2 & H2 & Hc2); [by rewrite Hc1|].
  exists w2. split; [|by rewrite Hc2, Hc1].
  unfold load_yaml. rewrite (pbind_step _ _ _ _ _ H1), Ht. rewrite bool_decide_eq_true_2 by (by eexists). cbn [negb].
  rewrite (pbind_step _ _ w1 p w2); [by rewrite Hb|].
  unfold pexcept, pcatch. rewrite (pbind_step _ _ _ _ _ H2), Hd. lift_step. unfold plift. by rewrite Hl.
Qed.

(** A document written with [save_yaml] is found by [load_yaml], as the YAML
    library reads it back. *)
Lemma saved_yaml_loads cls sort target p p' w :
  Utf8.decode (yaml_safe_dump sort p) = Ok (yaml_safe_dump sort p) ->
  yaml_safe_load (yaml_safe_dump sort p) = Ok p' -> py_bool p' = true ->
  exists w1 w2, save_yaml yaml_safe_dump sort target p w = Some (Ok target, w1) /\
    load_yaml yaml_safe_load cls target w1 = Some (Ok (Some p'), w2).
Proof.
  intros Hd Hl Hb. destruct (save_yaml_writes sort target p w) as (w1 & H1 & Hc1).
  destruct (load_yaml_reads cls target (yaml_safe_dump sort p) p' w1) as (w2 & H2 & _); [|exact Hd|exact Hl|exact Hb|by exists w1, w2].
  rewrite Hc1. apply lookup_insert_eq.
Qed.

(** C40: A VSLAM configuration survives its file: whatever document it was coerced
    from, it satisfies every bound and enumeration of the schema, and saved and
    loaded again on a healthy disk, through a YAML library that reads back what
    it writes, it is the same configuration. *)
Theorem vslam_config_roundtrip raw c path w
    (Hc : VslamConfig._coerce raw = Ok c)
    (Hutf : let text := yaml_safe_dump false (VslamConfig.to_dict c) in Utf8.decode text = Ok text)
    (Hyaml : yaml_safe_load (yaml_safe_dump false (VslamConfig.to_dict c)) = Ok (VslamConfig.to_dict c)) :
  vslam_valid c /\
  exists target w1 w2, VslamConfig.save_vslam_config yaml_safe_dump c path w = Some (Ok target, w1) /\
    VslamConfig.load_vslam_config yaml_safe_load path w1 = Some (Ok c, w2).
Proof.
  assert (vslam_valid c) as Hv.
  { unfold VslamConfig._coerce in Hc. destruct raw; try done. destruct (dget_or _ _ _); try done.
    by eapply coerce_vslam_valid. }
  split; [done|].
  destruct (saved_yaml_loads VslamConfigError false (default VslamConfig.DEFAULT_VSLAM_CONFIG_PATH path)
              _ _ w Hutf Hyaml eq_refl) as (w1 & w2 & Hs & Hl).
  exists (default VslamConfig.DEFAULT_VSLAM_CONFIG_PATH path), w1, w2. split; [exact Hs|].
  unfold VslamConfig.load_vslam_config. rewrite (pbind_step _ _ _ _ _ Hl). unfold plift.
  by rewrite coerce_to_dict.
Qed.
End roundtrip.

Definition demo_vslam : PyVal :=
  sdict [("vslam", sdict [("stereo_fps", VInt 15); ("extrinsics", sdict [("pitch", VInt (-20))])]);
         ("bridge", sdict [("source_component", VInt 198)])].

(** A YAML library that knows one document. *)
Definition one_doc (p : PyVal) (text : string) : res exn PyVal :=
  if bool_decide (text = "doc") then Ok p else raise_ YAMLError [].

Lemma vslam_config_roundtrip_witness :
  exists c, VslamConfig._coerce demo_vslam = Ok c /\ vslam_valid c /\
  exists target w1 w2,
    @VslamConfig.save_vslam_config _ files_store (fun _ _ => "doc") c None ∅ = Some (Ok target, w1) /\
    @VslamConfig.load_vslam_config _ files_store (one_doc (VslamConfig.to_dict c)) None w1 = Some (Ok c, w2).
Proof.
  destruct (VslamConfig._coerce demo_vslam) as [c|e] eqn:E; [|vm_compute in E; discriminate].
  exists c. split; [reflexivity|].
  apply (@vslam_config_roundtrip _ files_store id files_healthy (one_doc (VslamConfig.to_dict c))
           (fun _ _ => "doc") demo_vslam c None ∅ E); reflexivity.
Defined.

(** A file that leaves [stereo_resolution] out and a missing file do not mean the
    same. *)
Lemma vslam_defaults_differ :
  VslamConfig.stereo_resolution VslamConfig.VslamConfig_default = "800p" /\
  exists c, VslamConfig._coerce (VDict []) = Ok c /\ VslamConfig.stereo_resolution c = "400p".
Proof.
  split; [reflexivity|].
  destruct (VslamConfig._coerce (VDict [])) as [c|e] eqn:E; [|vm_compute in E; discriminate].
  exists c. split; [reflexivity|]. vm_compute in E. injection E as <-. reflexivity.
Qed.

Module JetsonConfig.
(** ** config/jetson.py *)
Definition _default_kiosk_service_units : list string :=
  ["mower-health.service"; "mower-vslam.service"; "mower-vslam-bridge.service";
   "mower-weston.service"; "mower-mavproxy.service"].
Definition _default_mavproxy_outputs : list string :=
  ["udp:127.0.0.1:14550"; "udp:127.0.0.1:14551"; "udp:127.0.0.1:14552"].

Record KioskConfig : Type := {
  mavproxy_endpoint : string; mavproxy_master : string; mavproxy_outputs : list string;
  vslam_socket : string; refresh_hz : PyVal; heartbeat_staleness_s : float;
  service_check_units : list string }.
Definition KioskConfig_default : KioskConfig :=
  {| mavproxy_endpoint := "udp:127.0.0.1:14551"; mavproxy_master := "/dev/ttyACM0";
     mavproxy_outputs := _default_mavproxy_outputs; vslam_socket := "/run/mower/vslam-pose.sock";
     refresh_hz := VInt 1; heartbeat_staleness_s := F.of_Z 60;
     service_check_units := _default_kiosk_service_units |}.

Record JetsonConfig : Type := {
  log_dir : option string; oakd_required : bool; health_interval_s : PyVal;
  service_user_level : bool; kiosk : KioskConfig; extra : list (PyVal * PyVal) }.
Definition JetsonConfig_default : JetsonConfig :=
  {| log_dir := None; oakd_required := false; health_interval_s := VInt 60;
     service_user_level := false; kiosk := KioskConfig_default; extra := [] |}.

Definition strs (l : list string) : PyVal := VList (map VStr l).

Definition kiosk_dict (k : KioskConfig) : PyVal :=
  sdict [("mavproxy_endpoint", VStr (mavproxy_endpoint k)); ("mavproxy_master", VStr (mavproxy_master k));
         ("mavproxy_outputs", strs (mavproxy_outputs k)); ("vslam_socket", VStr (vslam_socket k));
         ("refresh_hz", refresh_hz k); ("heartbeat_staleness_s", VFloat (heartbeat_staleness_s k));
         ("service_check_units", strs (service_check_units k))].

Definition to_fields (c : JetsonConfig) : list (PyVal * PyVal) :=
  [(VStr "log_dir", match log_dir c with Some p => VStr p | None => VNone end);
   (VStr "oakd_required", VBool (oakd_required c)); (VStr "health_interval_s", health_interval_s c);
   (VStr "service_user_level", VBool (service_user_level c)); (VStr "kiosk", kiosk_dict (kiosk c));
   (VStr "extra", VDict (extra c))].
Definition to_dict (c : JetsonConfig) : PyVal := VDict (to_fields c).

Definition jerr {A} (m : FStr) : res exn A := raise_ JetsonConfigError m.

(** An optional field of the kiosk section: the default when the key is absent. *)
Definition kfield {A} (raw : list (PyVal * PyVal)) (k : string) (d : A) (f : PyVal -> res exn A) : res exn A :=
  match dget raw k with None => Ok d | Some v => f v end.

Definition kstr (k : string) (v : PyVal) : res exn string :=
  match v with VStr s => Ok s | v => jerr [L "kiosk."; L k; L " must be str, got "; tname v] end.

Definition kstrs (k : string) (v : PyVal) : res exn (list string) :=
  match as_strs v with
  | Some l => Ok l
  | None => jerr [L "kiosk."; L k; L " must be a list of strings"]
  end.

Definition kpositive (k : string) (v : PyVal) : res exn float :=
  let bad := jerr [L "kiosk."; L k; L " must be a positive number, got "; VF v "r"] in
  match v with
  | VInt z => if z <=? 0 then bad else float_of_int z
  | VFloat f => if F.leb f F.zero then bad else Ok f
  | _ => bad
  end.

Definition _coerce_kiosk (raw : PyVal) : res exn KioskConfig :=
  let d := KioskConfig_default in
  match raw with
  | VNone => Ok d
  | VDict raw =>
      ep ← kfield raw "mavproxy_endpoint" (mavproxy_endpoint d) (kstr "mavproxy_endpoint");
      ma ← kfield raw "mavproxy_master" (mavproxy_master d) (kstr "mavproxy_master");
      ou ← kfield raw "mavproxy_outputs" (mavproxy_outputs d) (kstrs "mavproxy_outputs");
      so ← kfield raw "vslam_socket" (vslam_socket d) (kstr "vslam_socket");
      hz ← kfield raw "refresh_hz" (refresh_hz d)
             (int_where positive JetsonConfigError "kiosk.refresh_hz must be a positive integer");
      st ← kfield raw "heartbeat_staleness_s" (heartbeat_staleness_s d) (kpositive "heartbeat_staleness_s");
      un ← kfield raw "service_check_units" (service_check_units d) (kstrs "service_check_units");
      Ok {| mavproxy_endpoint := ep; mavproxy_master := ma; mavproxy_outputs := ou; vslam_socket := so;
            refresh_hz := hz; heartbeat_staleness_s := st; service_check_units := un |}
  | v => jerr [L "kiosk section must be a mapping, got "; tname v]
  end.

Definition known : list string :=
  ["log_dir"; "oakd_required"; "health_interval_s"; "service_user_level"; "kiosk"].

(** The entries whose key is none of [ks]. *)
Definition without (ks : list string) (d : list (PyVal * PyVal)) : list (PyVal * PyVal) :=
  List.filter (fun kv => negb (existsb (fun k => key_is k kv.1) ks)) d.

Definition coerce_log_dir (v : PyVal) : res exn (option string) :=
  match v with
  | VNone => Ok None
  | VStr s => Ok (Some (path_of s))
  | v => jerr [L "log_dir must be a string path, got "; tname v]
  end.

Definition _coerce (raw : PyVal) : res exn JetsonConfig :=
  match raw with
  | VDict d =>
      log ← coerce_log_dir (get d "log_dir");
      oakd ← a_bool JetsonConfigError "oakd_required" (dget_or d "oakd_required" (VBool false));
      iv ← int_where positive JetsonConfigError "health_interval_s must be a positive integer"
             (dget_or d "health_interval_s" (VInt 60));
      ul ← a_bool JetsonConfigError "service_user_level" (dget_or d "service_user_level" (VBool false));
      k ← _coerce_kiosk (get d "kiosk");
      Ok {| log_dir := log; oakd_required := oakd; health_interval_s := iv; service_user_level := ul;
            kiosk := k; extra := without known d |}
  | v => jerr [L "top-level YAML must be a mapping, got "; tname v]
  end.

(** [d[k] = v]; the keys of a document are compared as strings, another key is
    new. *)
Fixpoint dset (d : list (PyVal * PyVal)) (k v : PyVal) : list (PyVal * PyVal) :=
  match d with
  | [] => [(k, v)]
  | (k', v') :: d' =>
      if match k with VStr s => key_is s k' | _ => false end then (k', v) :: d' else (k', v') :: dset d' k v
  end.

Definition dupdate (d e : list (PyVal * PyVal)) : list (PyVal * PyVal) :=
  foldl (fun acc kv => dset acc kv.1 kv.2) d e.

Section files.
Context {W : Type} `{!FileStore W}.
Variable yaml_safe_load : string -> res exn PyVal.
Variable yaml_safe_dump : bool -> PyVal -> string.
(** [DEFAULT_JETSON_CONFIG_PATH], from the environment *)
Variable DEFAULT_JETSON_CONFIG_PATH : string.

Definition load_jetson_config (path : option string) : prog exn W JetsonConfig :=
  raw ← load_yaml yaml_safe_load JetsonConfigError (default DEFAULT_JETSON_CONFIG_PATH path);
  match raw with
  | None => mret JetsonConfig_default
  | Some raw => plift (_coerce raw)
  end.

(** [payload.update(config.extra)], then [payload.pop("extra")]. *)
Definition saved_payload (c : JetsonConfig) : PyVal :=
  VDict (without ["extra"] (dupdate (to_fields c) (extra c))).

Definition save_jetson_config (config : JetsonConfig) (path : option string) : prog exn W string :=
  save_yaml yaml_safe_dump true (default DEFAULT_JETSON_CONFIG_PATH path) (saved_payload config).
End files.

(** [_default_jetson_config_path] off Windows: [env] is [XDG_CONFIG_HOME]. *)
Definition _default_jetson_config_path (env : option string) (home : string) : string :=
  join_path (join_path (config_root env home) "mower-rover") "jetson.yaml".
End JetsonConfig.

Module LaptopConfig.
(** ** config/laptop.py *)
Record JetsonEndpoint : Type := { host : string; user : string; port : PyVal; key_path : option string }.
Record LaptopConfig : Type := { jetson : option JetsonEndpoint; l_extra : list (PyVal * PyVal) }.

Definition endpoint_dict (e : JetsonEndpoint) : PyVal :=
  sdict [("host", VStr (host e)); ("user", VStr (user e)); ("port", port e);
         ("key_path", match key_path e with Some p => VStr p | None => VNone end)].
Definition to_fields (c : LaptopConfig) : list (PyVal * PyVal) :=
  [(VStr "jetson", match jetson c with Some e => endpoint_dict e | None => VNone end)].

Definition lerr {A} (m : FStr) : res exn A := raise_ LaptopConfigError m.

Section coerce.
(** [str(Path(s).expanduser())] *)
Variable expanduser : string -> string.

Definition _coerce_endpoint (raw : PyVal) : res exn JetsonEndpoint :=
  match raw with
  | VDict d =>
      match List.filter (fun k => negb (dmem d k)) ["host"; "user"] with
      | _ :: _ as missing =>
          lerr [L "`jetson` is missing required fields: "; V (VList (map VStr missing))]
      | [] =>
          match get d "host", get d "user" with
          | VStr h, VStr u =>
              p ← int_where (fun n => (0 <? n) && (n <=? 65535)) LaptopConfigError
                    "`jetson.port` must be 1..65535" (dget_or d "port" (VInt 22));
              key ← match get d "key_path" with
                    | VNone => Ok None
                    | VStr s => Ok (Some (expanduser s))
                    | v => lerr [L "`jetson.key_path` must be a string, got "; tname v]
                    end;
              Ok {| host := h; user := u; port := p; key_path := key |}
          | _, _ => lerr [L "`jetson.host` and `jetson.user` must be strings"]
          end
      end
  | v => lerr [L "`jetson` must be a mapping, got "; tname v]
  end.

Definition _coerce (raw : PyVal) : res exn LaptopConfig :=
  match raw with
  | VDict d =>
      let jetson_raw := get d "jetson" in
      ep ← (if py_bool jetson_raw then e ← _coerce_endpoint jetson_raw; Ok (Some e) else Ok None);
      Ok {| jetson := ep; l_extra := JetsonConfig.without ["jetson"] d |}
  | v => lerr [L "top-level YAML must be a mapping, got "; tname v]
  end.

Context {W : Type} `{!FileStore W}.
Variable yaml_safe_load : string -> res exn PyVal.
Variable yaml_safe_dump : bool -> PyVal -> string.
Variable DEFAULT_LAPTOP_CONFIG_PATH : string.

Definition load_laptop_config (path : option string) : prog exn W LaptopConfig :=
  raw ← load_yaml yaml_safe_load LaptopConfigError (default DEFAULT_LAPTOP_CONFIG_PATH path);
  match raw with
  | None => mret {| jetson := None; l_extra := [] |}
  | Some raw => plift (_coerce raw)
  end.

Definition save_laptop_config (config : LaptopConfig) (path : option string) : prog exn W string :=
  save_yaml yaml_safe_dump true (default DEFAULT_LAPTOP_CONFIG_PATH path)
    (VDict (JetsonConfig.dupdate (to_fields config) (l_extra config))).
End coerce.

(** Off Windows, like its Jetson counterpart. *)
Definition _default_laptop_config_path (env : option string) (home : string) : string :=
  join_path (join_path (config_root env home) "mower-rover") "laptop.yaml".
End LaptopConfig.

(** An unknown setting called [extra] is kept in memory and lost on saving. *)
Lemma extra_setting_lost :
  exists c, JetsonConfig._coerce (sdict [("extra", VInt 7)]) = Ok c /\
    dget (JetsonConfig.extra c) "extra" = Some (VInt 7) /\
    match JetsonConfig.saved_payload c with VDict d => dget d "extra" = None | _ => False end.
Proof.
  destruct (JetsonConfig._coerce (sdict [("extra", VInt 7)])) as [c|e] eqn:E;
    vm_compute in E; [|discriminate].
  exists c. injection E as <-. by split_and!.
Qed.
