(* ===== verification/Vslam.v ===== *)
(** * The VSLAM bridge (vslam/bridge.py, vslam/health.py, vslam/health_listener.py)

    Forwarding poses to the autopilot, the health figures derived from recent
    poses, and the listener that collects them at the other end of the link.
    Clock readings of the link are integers; [mono] is the float that
    [time.monotonic()] returns for one. *)

From stdpp Require Import base list strings option.
From Stdlib Require Import Ascii ZArith Lia.
From S2P Require Import Prelude Float64 PyVal Link Connection VslamIpc Files Config.
Local Open Scope Z_scope.

(** The systemd notifier. *)
Class Notifier (W : Type) := { n_notify : string -> prog exn W unit }.

Module Vslam.
Definition mono (t : Z) : float := F.div (F.of_Z t) (F.of_Z 1000000000).

(** ** vslam/health.py *)
Definition TimestampedPose : Type := (PoseMessage * float)%type.

Record BridgeHealth : Type := {
  pose_rate_hz : float; pose_age_ms : float; h_confidence : Z; covariance_norm : float;
  bridge_connected : bool; slam_connected : bool }.

Section health.
Context `{IP : F.Interpreter}.

Definition _frobenius_norm (cov : list float) : float :=
  F.sqrt (F.sum (map (fun c => F.mul c c) cov)).

Definition compute_health (recent_poses : list TimestampedPose) (bridge slam : bool)
    (now window_s : float) : BridgeHealth :=
  match list.last recent_poses with
  | None => {| pose_rate_hz := F.zero; pose_age_ms := F.inf; h_confidence := 0;
               covariance_norm := F.zero; bridge_connected := bridge; slam_connected := slam |}
  | Some (latest_pose, latest_recv) =>
      let age := F.mul (F.sub now latest_recv) (F.of_Z 1000) in
      let cutoff := F.sub now window_s in
      let count := length (List.filter (fun p : TimestampedPose => F.geb p.2 cutoff) recent_poses) in
      let rate := if F.gtb window_s F.zero
                  then F.div (F.of_Z (Z.of_nat count)) window_s else F.zero in
      {| pose_rate_hz := F.round 1 rate; pose_age_ms := F.round 1 age;
         h_confidence := confidence latest_pose;
         covariance_norm := F.round 4 (_frobenius_norm (covariance latest_pose));
         bridge_connected := bridge; slam_connected := slam |}
  end.
End health.

Section link.
Context `{IP : F.Interpreter} {W : Type} `{!Link W}.

(** ** vslam/health_listener.py *)
Definition _BRIDGE_COMPONENT_ID : Z := 197.
Definition _METRIC_NAMES : list string := ["VSLAM_HZ"; "VSLAM_CONF"; "VSLAM_AGE"; "VSLAM_COV"].

Definition nul : ascii := ascii_of_N 0.

(** [msg.name] without its padding; pymavlink delivers a [str]. *)
Definition metric_name (m : Msg) : res exn string :=
  v ← attr m "name";
  match v with VStr s => Ok (S.rstrip_chr nul s) | _ => no_attr m "name" end.

Definition health_of (metrics : list (string * float)) (heartbeat : bool) : res exn BridgeHealth :=
  let get k d := default d (od_get metrics k) in
  conf ← int_of_float (get "VSLAM_CONF" F.zero);
  Ok {| pose_rate_hz := get "VSLAM_HZ" F.zero; pose_age_ms := get "VSLAM_AGE" F.inf;
        h_confidence := conf; covariance_norm := get "VSLAM_COV" F.zero;
        bridge_connected := heartbeat;
        slam_connected := F.gtb (get "VSLAM_HZ" F.zero) F.zero |}.

Definition all_metrics (metrics : list (string * float)) : bool :=
  forallb (fun k => bool_decide (k ∈ od_keys metrics)) _METRIC_NAMES.

Definition Metrics : Type := (list (string * float) * bool)%type.

(** What one message does to the metrics; [true] when the completeness check
    follows ([continue] skips it). *)
Definition on_message (st : Metrics) (msg : Msg) : res exn (Metrics * bool) :=
  let '(metrics, hb) := st in
  if bool_decide (get_type msg = "HEARTBEAT") then
    src ← attr msg "_srcComponent";
    Ok ((metrics, match as_int src with
                     | Some c => (c =? _BRIDGE_COMPONENT_ID) || hb
                     | None => hb
                     end), false)
  else if bool_decide (get_type msg = "NAMED_VALUE_FLOAT") then
    name ← metric_name msg;
    if bool_decide (name ∈ _METRIC_NAMES) then
      v ← attr msg "value"; f ← py_float v;
      Ok ((od_set metrics name f, hb), true)
    else Ok (st, true)
  else Ok (st, true).

Definition listen_round (deadline : Z) (st : Metrics) : prog exn W (Metrics + option BridgeHealth) :=
  let partial := match st.1 with
                 | [] => mret None
                 | _ => h ← plift (health_of st.1 st.2); mret (Some h)
                 end in
  now ← l_time;
  if now <? deadline then
    now2 ← l_time;
    let remaining_ms := (deadline - now2) / ms 1 in
    if remaining_ms <=? 0 then h ← partial; mret (inr h)
    else
      msg ← l_recv ["NAMED_VALUE_FLOAT"; "HEARTBEAT"] (Some (Z.min (ms remaining_ms) (sec 1)));
      match msg with
      | None => mret (inl st)
      | Some msg =>
          '(st', check) ← plift (on_message st msg);
          if check && all_metrics st'.1
          then h ← plift (health_of st'.1 st'.2); mret (inr (Some h))
          else mret (inl st')
      end
  else h ← partial; mret (inr h).

Definition listen_vslam_health (fuel : nat) (timeout : Z) : prog exn W (option BridgeHealth) :=
  now ← l_time; ploop fuel (listen_round (now + timeout)) ([], false).

(** ** vslam/bridge.py *)
Definition MAV_TYPE_ONBOARD_CONTROLLER : Z := 18.
Definition MAV_AUTOPILOT_INVALID : Z := 8.
Definition MAV_STATE_ACTIVE : Z := 4.
Definition MAV_SEVERITY_INFO : Z := 6.

Definition _send_heartbeat : prog exn W unit :=
  l_send (heartbeat_send [MAV_TYPE_ONBOARD_CONTROLLER; MAV_AUTOPILOT_INVALID; 0; 0; MAV_STATE_ACTIVE]).

(** [name.encode("ascii").ljust(10, b"\x00")[:10]] *)
Definition pad_name (name : string) : string :=
  S.ofl (take 10 (S.chars name ++ replicate (10 - String.length name) nul)).

Definition _send_named_value_float (name : string) (value : float) : prog exn W unit :=
  now ← l_time;
  l_send (named_value_float_send (Z.land (now / ms 1) (2 ^ 32 - 1)) (pad_name name) value).

Definition _send_health_metrics (h : BridgeHealth) : prog exn W unit :=
  _ ← _send_named_value_float "VSLAM_HZ" (pose_rate_hz h);
  _ ← _send_named_value_float "VSLAM_CONF" (F.of_Z (h_confidence h));
  _ ← _send_named_value_float "VSLAM_AGE" (pose_age_ms h);
  _send_named_value_float "VSLAM_COV" (covariance_norm h).

Definition _send_statustext (text : string) : prog exn W unit :=
  l_send (statustext_send MAV_SEVERITY_INFO (S.ofl (take 50 (S.chars text)))).

(** Which extension fields the installed pymavlink's senders accept. *)
Variable has_covariance has_reset_counter : bool.

Definition position_kwargs (msg : PoseMessage) (ned : float * float * float * float * float * float)
    (reset_counter : Z) : list (string * PyVal) :=
  let '(x, y, z, roll, pitch, yaw) := ned in
  [("usec", VInt (timestamp_us msg)); ("x", VFloat x); ("y", VFloat y); ("z", VFloat z);
   ("roll", VFloat roll); ("pitch", VFloat pitch); ("yaw", VFloat yaw)] ++
  (if has_covariance then [("covariance", VList (map VFloat (covariance msg)))] else []) ++
  (if has_reset_counter then [("reset_counter", VInt reset_counter)] else []).

Definition _send_vision_position (msg : PoseMessage)
    (ned : float * float * float * float * float * float) (reset_counter : Z) : prog exn W unit :=
  l_send (vision_send "vision_position_estimate" (position_kwargs msg ned reset_counter)).

Definition _send_vision_speed (timestamp_us : Z) (ned_vel : float * float * float)
    (reset_counter : Z) : prog exn W unit :=
  let '(vx, vy, vz) := ned_vel in
  l_send (vision_send "vision_speed_estimate"
    ([("usec", VInt timestamp_us); ("x", VFloat vx); ("y", VFloat vy); ("z", VFloat vz)] ++
     (if has_covariance then [("covariance", VList (replicate 9 (VFloat F.zero)))] else []) ++
     (if has_reset_counter then [("reset_counter", VInt reset_counter)] else []))).

Definition _differentiate_velocity (prev : option PoseMessage) (cur : PoseMessage)
  : option (float * float * float) :=
  match prev with
  | None => None
  | Some prev =>
      let dt_s := F.div (F.of_Z (timestamp_us cur - timestamp_us prev)) (F.of_Z 1000000) in
      if F.leb dt_s F.zero then None
      else Some (F.div (F.sub (px cur) (px prev)) dt_s, F.div (F.sub (py cur) (py prev)) dt_s,
                 F.div (F.sub (pz cur) (pz prev)) dt_s)
  end.

Record BridgeState : Type := {
  last_heartbeat : float; prev_msg : option PoseMessage; last_reset_counter : Z;
  bridge_reset_counter : Z; recent_poses : list TimestampedPose; last_confidence : Z }.

Definition bridge_init : BridgeState :=
  {| last_heartbeat := F.zero; prev_msg := None; last_reset_counter := -1;
     bridge_reset_counter := 0; recent_poses := []; last_confidence := -1 |}.

(** [deque(maxlen=200)]: appending drops the oldest. *)
Definition push200 {A} (l : list A) (a : A) : list A :=
  let l' := l ++ [a] in drop (length l' - 200) l'.

(** The STATUSTEXT of a confidence transition, if any. *)
Definition transition_text (last cur : Z) : option string :=
  if (0 <=? last) && negb (cur =? last) then
    Some (if (0 <? cur) && (last =? 0) then "VSLAM tracking recovered"
          else if (cur =? 0) && (0 <? last) then "VSLAM tracking lost"
          else S.join "" ["VSLAM conf "; Num.str_of_Z last; "->"; Num.str_of_Z cur])
  else None.

Definition pose_tuple (m : PoseMessage) : float * float * float * float * float * float :=
  (px m, py m, pz m, roll m, pitch m, yaw m).

Context `{!Notifier W}.

(** The body of the [for msg in reader.read_poses()] loop. *)
Definition bridge_step (st : BridgeState) (msg : PoseMessage) : prog exn W BridgeState :=
  let resets := if negb (reset_counter msg =? last_reset_counter st) && (0 <=? last_reset_counter st)
                then bridge_reset_counter st + 1 else bridge_reset_counter st in
  _ ← _send_vision_position msg (flu_to_ned_pose (pose_tuple msg)) resets;
  _ ← match _differentiate_velocity (prev_msg st) msg with
      | Some flu_vel => _send_vision_speed (timestamp_us msg) (flu_to_ned_velocity flu_vel) resets
      | None => mret tt
      end;
  t_recv ← l_time;
  let recent := push200 (recent_poses st) (msg, mono t_recv) in
  _ ← match transition_text (last_confidence st) (confidence msg) with
      | Some text => _send_statustext text
      | None => mret tt
      end;
  t_now ← l_time;
  let now := mono t_now in
  hb ← (if F.geb (F.sub now (last_heartbeat st)) F.one then
          _ ← _send_heartbeat;
          _ ← _send_health_metrics (compute_health recent true true now (F.of_Z 2));
          _ ← n_notify "WATCHDOG=1";
          mret now
        else mret (last_heartbeat st));
  mret {| last_heartbeat := hb; prev_msg := Some msg; last_reset_counter := reset_counter msg;
          bridge_reset_counter := resets; recent_poses := recent;
          last_confidence := confidence msg |}.

(** The loop: [next_pose] is the generator, told whether it has yielded before,
    [is_set] the shutdown event. *)
Definition bridge_round (next_pose : bool -> prog exn W PoseMessage) (is_set : prog exn W bool)
    (v : bool * BridgeState) : prog exn W (bool * BridgeState + unit) :=
  msg ← next_pose v.1;
  stop ← is_set;
  if (stop : bool) then mret (inr tt) else st' ← bridge_step v.2 msg; mret (inl (true, st')).

Definition bridge_loop (fuel : nat) (next_pose : bool -> prog exn W PoseMessage) (is_set : prog exn W bool)
    (reader_close : prog exn W unit) : prog exn W unit :=
  pfinally
    (pexcept [KeyboardInterrupt]
       (ploop fuel (bridge_round next_pose is_set) (false, bridge_init))
       (fun _ => mret tt))
    reader_close.

Definition _build_connection_config (serial_device : string) (source_system source_component : Z)
  : ConnectionConfig :=
  {| Connection.endpoint := serial_device; Connection.baud := 0;
     Connection.source_system := source_system; Connection.source_component := source_component;
     Connection.heartbeat_timeout_s := F.of_Z 30; Connection.retry_attempts := 5;
     Connection.retry_backoff_s := F.of_Z 2 |}.

(** The daemon; [is_set] is the shutdown event, which the signal handlers set. *)
Context `{!Dialer W} `{!FileStore W} `{!Sock W}.
Definition run_bridge (yaml_safe_load : string -> res exn PyVal) (fuel : nat) (is_set : prog exn W bool)
    (config_path : option string) : prog exn W unit :=
  let path := match config_path with Some "" => None | p => p end in
  cfg ← VslamConfig.load_vslam_config yaml_safe_load path;
  let b := VslamConfig.bridge cfg in
  let id v := default 0 (as_int v) in
  let conn_cfg := _build_connection_config (VslamConfig.serial_device b) (id (VslamConfig.b_source_system b))
                    (id (VslamConfig.b_source_component b)) in
  open_link conn_cfg true
    (_ ← n_notify "READY=1";
     bridge_loop fuel (read_pose fuel) is_set VslamIpc._close).
End link.
End Vslam.
Export Vslam.

(** ** What a bridge puts on the link *)

(** Neighbours in a list. *)
Definition adjacent {A} (l : list A) : list (A * A) := zip l (tail l).

Lemma adjacent_snoc {A} (l : list A) a :
  adjacent (l ++ [a]) = adjacent l ++ match list.last l with Some b => [(b, a)] | None => [] end.
Proof.
  induction l as [|b [|c l] IH]; [done|done|].
  change ((b, c) :: adjacent ((c :: l) ++ [a]) =
          (b, c) :: adjacent (c :: l) ++ match list.last (c :: l) with Some b => [(b, a)] | None => [] end).
  by rewrite IH.
Qed.

(** How often the SLAM node's reset counter changed over these poses. *)
Definition changes (l : list PoseMessage) : Z :=
  Z.of_nat (length (List.filter (fun p : PoseMessage * PoseMessage =>
    negb (reset_counter p.2 =? reset_counter p.1)) (adjacent l))).

Lemma changes_snoc l m :
  changes (l ++ [m]) = changes l + match list.last l with
    | Some p => Z.b2z (negb (reset_counter m =? reset_counter p)) | None => 0 end.
Proof.
  unfold changes. rewrite adjacent_snoc, List.filter_app, length_app.
  destruct (list.last l) as [p|]; [|cbn; lia].
  cbn [List.filter fst snd]. destruct (negb _); cbn [length Z.b2z]; lia.
Qed.

(** The STATUSTEXT a confidence change from [last] to [cur] deserves. *)
Definition conf_text (last cur : Z) : string :=
  if last =? 0 then "VSLAM tracking recovered"
  else if cur =? 0 then "VSLAM tracking lost"
  else S.join "" ["VSLAM conf "; Num.str_of_Z last; "->"; Num.str_of_Z cur].

Section outputs.
Variable has_covariance has_reset_counter : bool.

Definition position_of (m : PoseMessage) (resets : Z) : Send :=
  vision_send "vision_position_estimate"
    (position_kwargs has_covariance has_reset_counter m (flu_to_ned_pose (pose_tuple m)) resets).

Definition speed_of (m : PoseMessage) (v : float * float * float) (resets : Z) : Send :=
  let '(vx, vy, vz) := flu_to_ned_velocity v in
  vision_send "vision_speed_estimate"
    ([("usec", VInt (timestamp_us m)); ("x", VFloat vx); ("y", VFloat vy); ("z", VFloat vz)] ++
     (if has_covariance then [("covariance", VList (replicate 9 (VFloat F.zero)))] else []) ++
     (if has_reset_counter then [("reset_counter", VInt resets)] else [])).

(** What a pose owes the autopilot, given the poses before it. *)
Definition outputs (earlier : list PoseMessage) (m : PoseMessage) : list Send :=
  let resets := changes (earlier ++ [m]) in
  position_of m resets ::
  match list.last earlier with
  | None => []
  | Some p =>
      match _differentiate_velocity (Some p) m with
      | Some v => [speed_of m v resets]
      | None => []
      end ++
      (if confidence m =? confidence p then []
       else [statustext_send MAV_SEVERITY_INFO
               (S.ofl (take 50 (S.chars (conf_text (confidence p) (confidence m)))))])
  end.

Definition all_outputs (msgs : list PoseMessage) : list Send :=
  concat (imap (fun i m => outputs (take i msgs) m) msgs).

Lemma all_outputs_snoc msgs m :
  all_outputs (msgs ++ [m]) = all_outputs msgs ++ outputs msgs m.
Proof.
  unfold all_outputs. rewrite imap_app, concat_app. cbn [imap concat].
  rewrite Nat.add_0_r, take_app_length, app_nil_r. f_equal. f_equal.
  apply imap_ext. intros i x Hi. rewrite take_app_le; [done|].
  apply lookup_lt_Some in Hi. lia.
Qed.
End outputs.

(** The sends that are neither the bridge's heartbeat nor its health figures. *)
Definition is_telemetry (e : Event) : bool :=
  match e with
  | Sent (heartbeat_send _) => true
  | Sent (named_value_float_send _ _ _) => true
  | _ => false
  end.
Definition payload (t : list Event) : list Event := List.filter (fun e => negb (is_telemetry e)) t.

(** ** What fits into a message

    pymavlink packs the fields of a message with [struct]: floats as binary32, a
    covariance as its 21 or 9 floats, [usec] as a uint64 and [reset_counter] as a uint8.  It raises for a value that
    does not fit, and nothing is sent. *)
Definition field_fits (kind name : string) (v : PyVal) : bool :=
  match v with
  | VFloat f => is_ok (Struct.pack_f f)
  | VList l =>
      Nat.eqb (length l) (if bool_decide (kind = "vision_position_estimate") then 21 else 9) &&
      forallb (fun x => match x with VFloat f => is_ok (Struct.pack_f f) | _ => false end) l
  | VInt z => if bool_decide (name = "usec") then is_ok (Struct.pack_uint 8 z)
              else bool_decide (name = "reset_counter") && is_ok (Struct.pack_uint 1 z)
  | _ => false
  end.

Definition encodable (s : Send) : bool :=
  match s with
  | vision_send kind kw => forallb (fun kv => field_fits kind kv.1 kv.2) kw
  | named_value_float_send t _ v => is_ok (Struct.pack_uint 4 t) && is_ok (Struct.pack_f v)
  | _ => true
  end.

(** ** The loop on a link that delivers

    [inbox] is what the generator will yield; the shutdown event is set while
    it waits for the last of them.  Clock readings succeed, and a send does when
    its fields fit; [refusal] is the message pymavlink refused, if it did. *)
Class Feed (W : Type) `{!Link W} `{!Notifier W} (inbox : W -> list PoseMessage) (refusal : W -> option Send)
    (next : bool -> prog exn W PoseMessage) (is_set : prog exn W bool) : Prop := {
  feed_time w : exists t w', l_time w = Some (Ok t, w') /\ inbox w' = inbox w /\ refusal w' = refusal w;
  feed_send s w : encodable s = true ->
    exists w', l_send s w = Some (Ok tt, w') /\ inbox w' = inbox w /\ refusal w' = refusal w;
  feed_refuse s w : encodable s = false ->
    exists e w', l_send s w = Some (Err e, w') /\ (exn_class e ∈ [StructError; OverflowError]) /\ refusal w' = Some s;
  feed_notify s w : exists w', n_notify s w = Some (Ok tt, w') /\ inbox w' = inbox w /\ refusal w' = refusal w;
  feed_next b w m rest : inbox w = m :: rest ->
    exists w', next b w = Some (Ok m, w') /\ inbox w' = rest /\ refusal w' = refusal w;
  feed_stop w : exists w', inbox w' = inbox w /\ refusal w' = refusal w /\
    is_set w = Some (Ok (match inbox w with [] => true | _ => false end), w')
}.

(** Why a run ended early: the message refused does not fit, and it is the next
    of [todo], or a health figure past binary32. *)
Definition refused (e : exn) (r : option Send) (todo : list Send) : Prop :=
  (exn_class e ∈ [StructError; OverflowError]) /\
  exists s, r = Some s /\ encodable s = false /\
    (head todo = Some s \/
     exists t name v, s = named_value_float_send t name v /\ is_ok (Struct.pack_f v) = false).

Section feeding.
Context `{IP : F.Interpreter} {W : Type} `{!Link W} `{!Notifier W} {inbox : W -> list PoseMessage} {refusal : W -> option Send}
  {next : bool -> prog exn W PoseMessage} {is_set : prog exn W bool} `{!Feed W inbox refusal next is_set}.
Variable hc hr : bool.

#[local] Instance traced_notifier : Notifier (W * list Event) := { n_notify s := on_world (n_notify s) }.

(** What a call leaves alone. *)
Definition idle (w w' : W) : Prop := inbox w' = inbox w /\ refusal w' = refusal w.

(** [m] sends [s], telemetry aside, and ends with a value in [P], the inbox as it
    was and nothing refused; or it stops at the first message that is. *)
Definition emits {A} (m : prog exn (W * list Event) A) (P : A -> Prop) (s : list Send) : Prop :=
  forall w t, exists r w' t' n, m (w, t) = Some (r, (w', t')) /\
    payload t' = payload t ++ map Sent (take n s) /\ (n <= length s)%nat /\
    Forall (fun s => encodable s = true) (take n s) /\
    match r with
    | Ok a => P a /\ idle w w' /\ n = length s
    | Err e => refused e (refusal w') (drop n s)
    end.

Lemma idle_trans w1 w2 w3 : idle w1 w2 -> idle w2 w3 -> idle w1 w3.
Proof. unfold idle. intuition congruence. Qed.

Lemma payload_app t1 t2 : payload (t1 ++ t2) = payload t1 ++ payload t2.
Proof. apply List.filter_app. Qed.

Lemma emits_ret {A} (a : A) (P : A -> Prop) : P a -> emits (mret a) P [].
Proof. intros HP w t. exists (Ok a), w, t, O. by rewrite app_nil_r. Qed.

Lemma refused_app e r l1 l2 : refused e r l1 -> refused e r (l1 ++ l2).
Proof.
  intros (He & s & Hr & Hs & Hw). split; [done|]. exists s. split_and!; [done..|].
  destruct Hw as [Hw|Hw]; [left; by destruct l1|by right].
Qed.

Lemma emits_bind {A B} (m : prog exn (W * list Event) A) (f : A -> prog exn (W * list Event) B)
    P Q s1 s2 :
  emits m P s1 -> (forall a, P a -> emits (f a) Q s2) -> emits (m ≫= f) Q (s1 ++ s2).
Proof.
  intros Hm Hf w t. destruct (Hm w t) as ([a|e] & w1 & t1 & n1 & H1 & Ht1 & Hn1 & Hs1 & Hr1).
  - destruct Hr1 as (HP & Hi1 & ->). rewrite firstn_all in Ht1, Hs1.
    destruct (Hf a HP w1 t1) as (r & w2 & t2 & n2 & H2 & Ht2 & Hn2 & Hs2 & Hr2).
    exists r, w2, t2, (length s1 + n2)%nat. rewrite (pbind_step _ _ _ _ _ H1), length_app, take_app_add, drop_app_add.
    split_and!; [done|by rewrite Ht2, Ht1, map_app, app_assoc|lia|by apply list.Forall_app|].
    destruct r as [b|e]; [|done]. destruct Hr2 as (HQ & Hi2 & ->). eauto using idle_trans.
  - exists (Err e), w1, t1, n1. rewrite (pbind_err _ _ _ _ _ H1), length_app, take_app_le, drop_app_le by done.
    split_and!; [done..|lia|done|by apply refused_app].
Qed.

(** A step that sends nothing. *)
Lemma emits_quiet {A} (m : prog exn W A) :
  (forall w, exists a w', m w = Some (Ok a, w') /\ idle w w') -> emits (on_world m) (fun _ => True) [].
Proof.
  intros Hm w t. destruct (Hm w) as (x & w' & Hx & Hi). exists (Ok x), w', t, O.
  unfold on_world. cbn [fst snd]. rewrite Hx, app_nil_r. repeat split; try done; apply Hi.
Qed.

Lemma emits_time : emits l_time (fun _ => True) [].
Proof. apply emits_quiet, feed_time. Qed.

Lemma emits_notify s : emits (n_notify s) (fun _ => True) [].
Proof.
  apply (emits_quiet (n_notify s)). intros w. destruct (feed_notify s w) as (w' & ? & ?). by exists tt, w'.
Qed.

Lemma send_fits (s : Send) w t : encodable s = true ->
  exists w', l_send (W := W * list Event) s (w, t) = Some (Ok tt, (w', t ++ [Sent s])) /\ idle w w'.
Proof.
  intros He. destruct (feed_send s w He) as (w' & Hs & Hi). exists w'. split; [|done].
  cbn [l_send traced]. rewrite (pbind_step _ _ (w, t) tt (w', t)); [done|].
  unfold on_world. cbn [fst snd]. by rewrite Hs.
Qed.

Lemma send_refused (s : Send) w t : encodable s = false ->
  exists e w', l_send (W := W * list Event) s (w, t) = Some (Err e, (w', t)) /\
    (exn_class e ∈ [StructError; OverflowError]) /\ refusal w' = Some s.
Proof.
  intros He. destruct (feed_refuse s w He) as (e & w' & Hs & Hc). exists e, w'. split; [|done].
  cbn [l_send traced]. apply pbind_err. unfold on_world. cbn [fst snd]. by rewrite Hs.
Qed.

Lemma emits_send (s : Send) : is_telemetry (Sent s) = false -> emits (l_send s) (fun _ => True) [s].
Proof.
  intros Ht w t. destruct (encodable s) eqn:He.
  - destruct (send_fits s w t He) as (w' & Hs & Hi). exists (Ok tt), w', (t ++ [Sent s]), 1%nat.
    rewrite payload_app. split; [done|]. split; [unfold payload at 2; cbn [List.filter]; by rewrite Ht|].
    split; [done|]. split; [by repeat constructor|done].
  - destruct (send_refused s w t He) as (e & w' & Hs & Hc & Hr). exists (Err e), w', t, O.
    rewrite app_nil_r. split; [done|]. split; [done|]. split; [cbn; lia|]. split; [constructor|].
    split; [done|]. exists s. eauto.
Qed.

(** Telemetry: only a health figure can be refused. *)
Lemma emits_telemetry (s : Send) :
  is_telemetry (Sent s) = true ->
  (encodable s = false -> exists t name v, s = named_value_float_send t name v /\ is_ok (Struct.pack_f v) = false) ->
  emits (l_send s) (fun _ => True) [].
Proof.
  intros Ht Hf w t. destruct (encodable s) eqn:He.
  - destruct (send_fits s w t He) as (w' & Hs & Hi). exists (Ok tt), w', (t ++ [Sent s]), O.
    rewrite payload_app. split; [done|]. split; [unfold payload at 2; cbn [List.filter]; by rewrite Ht|].
    split; [done|]. split; [constructor|done].
  - destruct (send_refused s w t He) as (e & w' & Hs & Hc & Hr). exists (Err e), w', t, O.
    rewrite app_nil_r. split; [done|]. split; [done|]. split; [done|]. split; [constructor|].
    split; [done|]. exists s. auto.
Qed.

Lemma emits_metric n v : emits (_send_named_value_float n v) (fun _ => True) [].
Proof.
  eapply (emits_bind _ _ _ _ [] []); [apply emits_time|]. intros x _.
  apply emits_telemetry; [done|]. cbn [encodable]. intros [Ht|Hf]%andb_false_iff; [|eauto].
  exfalso. unfold Struct.pack_uint in Ht. change (2 ^ 32 - 1) with (Z.ones 32) in Ht.
  rewrite Z.land_ones in Ht by lia. pose proof (Z.mod_pos_bound (x / ms 1) (2 ^ 32) ltac:(lia)).
  destruct (_ && _) eqn:E in Ht; [done|]. change (256 ^ Z.of_nat 4) with (2 ^ 32) in E. lia.
Qed.

Lemma emits_health h : emits (_send_health_metrics h) (fun _ => True) [].
Proof.
  unfold _send_health_metrics.
  do 3 (eapply (emits_bind _ _ _ _ [] []); [apply emits_metric|]; intros _ _). apply emits_metric.
Qed.

Lemma emits_beat now (recent : list TimestampedPose) last :
  emits (if F.geb (F.sub now last) F.one then
           _ ← _send_heartbeat;
           _ ← _send_health_metrics (compute_health recent true true now (F.of_Z 2));
           _ ← n_notify "WATCHDOG=1";
           mret now
         else mret last) (fun _ => True) [].
Proof.
  destruct (F.geb _ _); [|by apply emits_ret].
  eapply (emits_bind _ _ _ _ [] []); [by apply emits_telemetry|]. intros _ _.
  eapply (emits_bind _ _ _ _ [] []); [apply emits_health|]. intros _ _.
  eapply (emits_bind _ _ _ _ [] []); [apply emits_notify|]. intros _ _. by apply emits_ret.
Qed.

(** What the loop variables remember of the poses so far. *)
Record remembers (msgs : list PoseMessage) (st : BridgeState) : Prop := {
  rem_prev : prev_msg st = list.last msgs;
  rem_counter : last_reset_counter st = from_option reset_counter (-1) (list.last msgs);
  rem_resets : bridge_reset_counter st = changes msgs;
  rem_conf : last_confidence st = from_option confidence (-1) (list.last msgs)
}.

Definition unsigned (m : PoseMessage) : Prop := 0 <= reset_counter m /\ 0 <= confidence m.

Lemma last_unsigned msgs p : list.last msgs = Some p -> Forall unsigned msgs -> unsigned p.
Proof.
  intros (l & ->)%list.last_Some Hu. apply list.Forall_app in Hu as [_ Hp].
  by inversion Hp.
Qed.

Lemma transition_spec last cur :
  0 <= last -> 0 <= cur ->
  transition_text last cur = if cur =? last then None else Some (conf_text last cur).
Proof.
  intros Hl Hc. unfold transition_text, conf_text.
  rewrite (proj2 (Z.leb_le _ _) Hl). cbn [andb].
  destruct (Z.eqb_spec cur last) as [|Hne]; cbn [negb]; [done|].
  destruct (Z.ltb_spec 0 cur), (Z.eqb_spec last 0), (Z.eqb_spec cur 0), (Z.ltb_spec 0 last);
    cbn [andb]; try done; lia.
Qed.

Lemma resets_spec msgs st m :
  remembers msgs st -> Forall unsigned msgs ->
  (if negb (reset_counter m =? last_reset_counter st) && (0 <=? last_reset_counter st)
   then bridge_reset_counter st + 1 else bridge_reset_counter st) = changes (msgs ++ [m]).
Proof.
  intros [_ Hc Hr _] Hu. rewrite changes_snoc, Hc, Hr.
  destruct (list.last msgs) as [p|] eqn:Hl; cbn [from_option]; [|by rewrite andb_false_r; lia].
  assert (unsigned p) as [Hp _].
  { by apply (last_unsigned msgs). }
  rewrite (proj2 (Z.leb_le _ _) Hp), andb_true_r.
  destruct (negb _); cbn [Z.b2z]; lia.
Qed.

Lemma emits_step msgs st m :
  remembers msgs st -> Forall unsigned msgs -> unsigned m ->
  emits (bridge_step hc hr st m) (remembers (msgs ++ [m])) (outputs hc hr msgs m).
Proof.
  intros Hrem Hu [_ Hm]. unfold bridge_step. rewrite (resets_spec _ _ _ Hrem Hu).
  destruct Hrem as [Hprev _ _ Hconf]. rewrite Hprev, Hconf.
  unfold outputs. apply (emits_bind _ _ (fun _ => True) _ [_]); [by apply emits_send|]. intros _ _.
  destruct (list.last msgs) as [p|] eqn:Hl; cbn [from_option].
  - assert (0 <= confidence p) as Hp.
    { by apply (last_unsigned msgs). }
    apply (emits_bind _ _ (fun _ => True)).
    { destruct (_differentiate_velocity (Some p) m) as [[[vx vy] vz]|]; [|by apply emits_ret].
      by apply emits_send. }
    intros _ _. apply (emits_bind _ _ (fun _ => True) _ []); [apply emits_time|]. intros t1 _.
    rewrite transition_spec by done. rewrite <- (app_nil_r (if _ =? _ then _ else _)).
    apply (emits_bind _ _ (fun _ => True)).
    { destruct (confidence m =? confidence p); [by apply emits_ret|]. by apply emits_send. }
    intros _ _. apply (emits_bind _ _ (fun _ => True) _ [] []); [apply emits_time|]. intros t2 _.
    apply (emits_bind _ _ (fun _ => True) _ [] []); [apply emits_beat|]. intros hb _.
    apply emits_ret. constructor; by rewrite ?last_snoc.
  - apply (emits_bind _ _ (fun _ => True) _ [] []); [by apply emits_ret|]. intros _ _.
    apply (emits_bind _ _ (fun _ => True) _ [] []); [apply emits_time|]. intros t1 _.
    apply (emits_bind _ _ (fun _ => True) _ [] []); [by apply emits_ret|]. intros _ _.
    apply (emits_bind _ _ (fun _ => True) _ [] []); [apply emits_time|]. intros t2 _.
    apply (emits_bind _ _ (fun _ => True) _ [] []); [apply emits_beat|]. intros hb _.
    apply emits_ret. constructor; by rewrite ?last_snoc.
Qed.

(** From some poses on; the trace holds what those before owed. *)
Definition forwarded (msgs : list PoseMessage) (r : res exn unit) (w : W) (t : list Event) : Prop :=
  exists n, payload t = map Sent (take n (all_outputs hc hr msgs)) /\ (n <= length (all_outputs hc hr msgs))%nat /\
    Forall (fun s => encodable s = true) (take n (all_outputs hc hr msgs)) /\
    match r with
    | Ok _ => n = length (all_outputs hc hr msgs)
    | Err e => refused e (refusal w) (drop n (all_outputs hc hr msgs))
    end.

Lemma forwarded_more msgs m e r n :
  (n <= length (all_outputs hc hr msgs))%nat ->
  take n (all_outputs hc hr (msgs ++ [m])) = take n (all_outputs hc hr msgs) /\
  (refused e r (drop n (all_outputs hc hr msgs)) -> refused e r (drop n (all_outputs hc hr (msgs ++ [m])))).
Proof.
  intros Hn. rewrite all_outputs_snoc, take_app_le, drop_app_le by done. split; [done|apply refused_app].
Qed.

Lemma forwarded_err msgs todo e w t : forwarded msgs (Err e) w t -> forwarded (msgs ++ todo) (Err e) w t.
Proof.
  revert msgs. induction todo as [|m todo IH]; intros msgs Hf; [by rewrite app_nil_r|].
  rewrite (cons_middle m msgs todo), app_assoc. apply IH. destruct Hf as (n & Ht & Hn & Hall & Hr).
  destruct (forwarded_more msgs m e (refusal w) n Hn) as [Htk Hrf]. exists n. rewrite Htk. split_and!; [done| |done|auto].
  rewrite all_outputs_snoc, length_app. lia.
Qed.

(** One pose more. *)
Lemma forwarded_step msgs st m w t :
  remembers msgs st -> Forall unsigned msgs -> unsigned m -> forwarded msgs (Ok tt) w t ->
  exists r w' t', bridge_step hc hr st m (w, t) = Some (r, (w', t')) /\
    match r with
    | Ok st' => remembers (msgs ++ [m]) st' /\ idle w w' /\ forwarded (msgs ++ [m]) (Ok tt) w' t'
    | Err e => forwarded (msgs ++ [m]) (Err e) w' t'
    end.
Proof.
  intros Hrem Hu Hm (n & Ht & _ & Hall & ->). rewrite firstn_all in Ht, Hall.
  destruct (emits_step _ _ m Hrem Hu Hm w t) as (r & w' & t' & k & H & Ht' & Hk & Hfit & Hr).
  exists r, w', t'. split; [done|].
  assert (forwarded (msgs ++ [m]) (match r with Ok _ => Ok tt | Err e => Err e end) w' t') as Hf.
  { exists (length (all_outputs hc hr msgs) + k)%nat. rewrite all_outputs_snoc, length_app, take_app_add, drop_app_add.
    split_and!; [by rewrite Ht', Ht, map_app|lia|by apply list.Forall_app|].
    destruct r; [|done]. destruct Hr as (_ & _ & ->). done. }
  destruct r; [|done]. destruct Hr as (? & ? & _). by split_and!.
Qed.

Lemma loop_forwards todo seen final st b fuel w t :
  remembers seen st -> Forall unsigned (seen ++ todo) -> inbox w = todo ++ [final] ->
  (length todo < fuel)%nat -> forwarded seen (Ok tt) w t ->
  exists r w' t', ploop fuel (bridge_round hc hr (fun b => on_world (next b)) (on_world is_set)) (b, st) (w, t)
      = Some (r, (w', t')) /\ forwarded (seen ++ todo) r w' t'
    /\ (is_ok r = true -> refusal w' = refusal w).
Proof.
  revert seen st b fuel w t. induction todo as [|m todo IH]; intros seen st b fuel w t Hrem Hu Hin Hf Ht;
    (destruct fuel as [|fuel]; [cbn in Hf; lia|]); cbn [ploop].
  - destruct (feed_next b _ _ _ Hin) as (w1 & Hn & Hi1 & Hr1). destruct (feed_stop w1) as (w2 & _ & Hr2 & Hs).
    rewrite Hi1 in Hs. exists (Ok tt), w2, t. rewrite app_nil_r. split_and!; [|done|by rewrite Hr2].
    rewrite (pbind_step _ _ (w, t) (inr tt) (w2, t)); [done|]. unfold bridge_round. cbn [fst].
    rewrite (pbind_step _ _ (w, t) final (w1, t)) by (unfold on_world; cbn [fst snd]; by rewrite Hn).
    by rewrite (pbind_step _ _ (w1, t) true (w2, t)) by (unfold on_world; cbn [fst snd]; by rewrite Hs).
  - destruct (feed_next b _ _ _ Hin) as (w1 & Hn & Hi1 & Hr1). destruct (feed_stop w1) as (w2 & Hi2 & Hr2 & Hs).
    rewrite Hi1 in Hs, Hi2.
    assert (Forall unsigned seen /\ unsigned m) as [Hus Hum].
    { apply list.Forall_app in Hu as [? Hu]. by inversion Hu. }
    destruct (forwarded_step _ _ m w2 t Hrem Hus Hum Ht) as (r & w3 & t3 & H3 & Hr).
    assert (bridge_round hc hr (fun b => on_world (next b)) (on_world is_set) (b, st) (w, t)
            = match r with Ok st' => Some (Ok (inl (true, st')), (w3, t3)) | Err e => Some (Err e, (w3, t3)) end) as Hround.
    { unfold bridge_round. cbn [fst snd]. rewrite (pbind_step _ _ (w, t) m (w1, t)) by (unfold on_world; cbn [fst snd]; by rewrite Hn).
      rewrite (pbind_step _ _ (w1, t) false (w2, t)).
      - destruct r; [by rewrite (pbind_step _ _ _ _ _ H3)|by rewrite (pbind_err _ _ _ _ _ H3)].
      - unfold on_world; cbn [fst snd]. rewrite Hs. by destruct todo. }
    rewrite (cons_middle m seen todo), app_assoc in Hu |- *. destruct r as [st'|e].
    + destruct Hr as (Hrem' & [Hi3 Hr3] & Ht3). rewrite (pbind_step _ _ _ _ _ Hround).
      destruct (IH (seen ++ [m]) st' true fuel w3 t3) as (r & w4 & t4 & H4 & H5 & H6);
        [done|done|by rewrite Hi3, Hi2|cbn in Hf; lia|done|].
      exists r, w4, t4. split_and!; [done..|]. intros Hok. rewrite H6, Hr3, Hr2 by done. done.
    + exists (Err e), w3, t3. split_and!; [by apply pbind_err|by apply forwarded_err|done].
Qed.

(** C12: The bridge loses, repeats and reorders nothing: fed poses until it is told
    to stop, it sends, telemetry aside, the messages the poses owe, in order: one
    position estimate per pose, NED-converted and carrying the number of times
    the SLAM reset counter has changed, each followed by the differenced velocity
    when time advanced, and a status text exactly when the confidence changed.
    It ends normally only when it sent them all and nothing was refused.
    Otherwise it ends with the packing error of a message it tried to send and
    that does not fit its fields, after exactly the messages owed before: the
    next message owed (as after a 256th reset, which a uint8 does not hold, or at
    a velocity past binary32), or a health figure past binary32. *)
Theorem bridge_forwards_poses close msgs final fuel w
    (Hin : inbox w = msgs ++ [final]) (Hu : Forall unsigned msgs) (Hf : (length msgs < fuel)%nat)
    (Hclose : forall w, exists w', close w = Some (Ok tt, w') /\ refusal w' = refusal w) :
  exists r w' t n, bridge_loop hc hr fuel (fun b => on_world (next b)) (on_world is_set) (on_world close) (w, [])
                 = Some (r, (w', t)) /\
    payload t = map Sent (take n (all_outputs hc hr msgs)) /\
    Forall (fun s => encodable s = true) (take n (all_outputs hc hr msgs)) /\
    match r with
    | Ok _ => n = length (all_outputs hc hr msgs) /\ refusal w' = refusal w
    | Err e => refused e (refusal w') (drop n (all_outputs hc hr msgs))
    end.
Proof.
  destruct (loop_forwards msgs [] final bridge_init false fuel w [])
    as (r & w1 & t1 & Hl & (n & Ht & _ & Hall & Hr) & Hk); try done; [exists O; by split_and!|].
  destruct (Hclose w1) as (w' & Hc & Hrc). exists r, w', t1, n. rewrite Hrc. split_and!; [|done..|destruct r; auto].
  unfold bridge_loop, pfinally, pexcept, pcatch. rewrite Hl.
  assert (forall e, r = Err e -> caught_by [KeyboardInterrupt] e = false) as Hki.
  { intros e ->. destruct Hr as [He _]. unfold caught_by. cbn [existsb].
    rewrite !elem_of_cons in He. destruct He as [->|[->|[]%elem_of_nil]]; vm_compute; reflexivity. }
  destruct r as [[]|e]; [|rewrite (Hki e eq_refl)]; unfold on_world, praise; cbn [fst snd]; by rewrite Hc.
Qed.

(** The 256th reset does not fit: where the senders take the counter, the pose
    after it is never forwarded. *)
Lemma reset_overflows msgs m :
  256 <= changes (msgs ++ [m]) -> encodable (position_of hc true m (changes (msgs ++ [m]))) = false.
Proof.
  intros Hc. unfold position_of, encodable, position_kwargs. destruct (flu_to_ned_pose _) as [[[[[? ?] ?] ?] ?] ?].
  rewrite !forallb_app. cbn [forallb fst snd field_fits].
  rewrite (bool_decide_eq_false_2 ("reset_counter" = "usec")), (bool_decide_eq_true_2 ("reset_counter" = "reset_counter")) by done.
  replace (is_ok (Struct.pack_uint 1 (changes (msgs ++ [m])))) with false; [cbn [andb]; by rewrite !andb_false_r|].
  unfold Struct.pack_uint. change (256 ^ Z.of_nat 1) with 256. destruct (_ && _) eqn:E; [lia|done].
Qed.
End feeding.

(** Python 3.11, which the rover has. *)
#[local] Existing Instance F.python311.

(** A link that delivers: the inbox, a clock and what was refused. *)
Record FeedWorld := { fw_inbox : list PoseMessage; fw_time : Z; fw_refusal : option Send }.
Definition misfit : exn := Exn StructError [L "ubyte format requires 0 <= number <= 255"] 0.
#[local] Instance feed_link : Link FeedWorld := {
  l_time w := Some (Ok (fw_time w), w);
  l_sleep d w := Some (Ok tt, {| fw_inbox := fw_inbox w; fw_time := fw_time w + d; fw_refusal := fw_refusal w |});
  l_recv ts tm w := Some (Ok None, {| fw_inbox := fw_inbox w; fw_time := fw_time w + 1; fw_refusal := fw_refusal w |});
  l_send s w := if encodable s then Some (Ok tt, w)
                else Some (Err misfit, {| fw_inbox := fw_inbox w; fw_time := fw_time w; fw_refusal := Some s |})
}.
#[local] Instance feed_notifier : Notifier FeedWorld := { n_notify _ w := Some (Ok tt, w) }.
Definition feed_pop (_ : bool) : prog exn FeedWorld PoseMessage := fun w =>
  match fw_inbox w with
  | m :: r => Some (Ok m, {| fw_inbox := r; fw_time := fw_time w + ms 50; fw_refusal := fw_refusal w |})
  | [] => None
  end.
Definition feed_set : prog exn FeedWorld bool := fun w =>
  Some (Ok (match fw_inbox w with [] => true | _ => false end), w).

#[local] Instance feed_feeds : Feed FeedWorld fw_inbox fw_refusal feed_pop feed_set.
Proof.
  constructor.
  - intros w. by exists (fw_time w), w.
  - intros s w He. exists w. cbn [l_send feed_link]. by rewrite He.
  - intros s w He. cbn [l_send feed_link]. rewrite He. eexists _, _. split; [reflexivity|]. split; [left|done].
  - intros s w. by exists w.
  - intros b w m r H. unfold feed_pop. rewrite H. eexists. by split_and!.
  - intros w. by exists w.
Qed.

Definition pose_at (resets : Z) : PoseMessage :=
  {| timestamp_us := 1700000000050000 + 50000 * resets; px := F.of_Z 2; py := F.zero; pz := F.zero;
     roll := F.zero; pitch := F.zero; yaw := F.zero;
     covariance := replicate 21 F.zero; confidence := 0; reset_counter := resets |}.
Definition lost_pose : PoseMessage := pose_at 1.

#[local] Existing Instance traced_notifier.
Lemma bridge_forwards_poses_witness :
  exists r w' t n, bridge_loop true true 5 (fun b => on_world (feed_pop b)) (on_world feed_set) (on_world (mret tt))
                 ({| fw_inbox := [demo_pose; lost_pose] ++ [demo_pose]; fw_time := 0; fw_refusal := None |}, [])
                 = Some (r, (w', t)) /\
    payload t = map Sent (take n (all_outputs true true [demo_pose; lost_pose])) /\
    Forall (fun s => encodable s = true) (take n (all_outputs true true [demo_pose; lost_pose])) /\
    match r with
    | Ok _ => n = length (all_outputs true true [demo_pose; lost_pose]) /\ fw_refusal w' = None
    | Err e => refused e (fw_refusal w') (drop n (all_outputs true true [demo_pose; lost_pose]))
    end.
Proof.
  apply (bridge_forwards_poses (inbox := fw_inbox) (refusal := fw_refusal) (next := feed_pop) (is_set := feed_set)
           true true (mret tt) [demo_pose; lost_pose] demo_pose 5
           {| fw_inbox := [demo_pose; lost_pose] ++ [demo_pose]; fw_time := 0; fw_refusal := None |}).
  - reflexivity.
  - repeat constructor; discriminate.
  - cbn. lia.
  - intros w. by exists w.
Defined.

(** Two poses, the second lost and after a reset, make four messages. *)
Example outputs_demo :
  map (fun s => match s with
                | vision_send k kw => (k, od_get kw "reset_counter")
                | statustext_send _ x => (x, None)
                | _ => ("", None) end) (all_outputs true true [demo_pose; lost_pose]) =
  [("vision_position_estimate", Some (VInt 0)); ("vision_position_estimate", Some (VInt 1));
   ("vision_speed_estimate", Some (VInt 1)); ("VSLAM tracking lost", None)].
Proof. vm_compute. reflexivity. Qed.

(** Everything these two owe fits. *)
Example outputs_fit : forallb encodable (all_outputs true true [demo_pose; lost_pose]) = true.
Proof. vm_compute. reflexivity. Qed.

(** A SLAM counter that changes with every pose is forwarded 256 times (the
    first pose's estimate carries 0) and ends the bridge at the next pose. *)
Example bridge_overflows :
  match bridge_loop true true 300 (fun b => on_world (feed_pop b)) (on_world feed_set) (on_world (mret tt))
          ({| fw_inbox := map (fun n => pose_at (Z.of_nat n)) (seq 0 258); fw_time := 0; fw_refusal := None |}, []) with
  | Some (Err e, (_, t)) =>
      (exn_class e, length (List.filter (fun ev => match ev with Sent (vision_send k _) => bool_decide (k = "vision_position_estimate") | _ => false end) t))
  | _ => (KeyError, O)
  end = (StructError, 256%nat).
Proof. vm_compute. reflexivity. Qed.
