(* ===== verification/Firmware.v ===== *)
(** * Firmware management (pixhawk/firmware.py, pixhawk/_uploader.py)

    Version numbers, the package validator, the download, the bootloader wait
    and the flash over the uploader that the repository carries.  The JSON
    parser is a parameter. *)

From stdpp Require Import base gmap list strings option.
From Stdlib Require Import Ascii ZArith Lia.
From S2P Require Import Prelude Float64 PyVal Link Connection Files.
Local Open Scope Z_scope.

(** [serial.Serial] as the code uses it. *)
Class Serial (W : Type) := {
  sp_open : string -> Z -> prog exn W unit;
  sp_write : list Z -> prog exn W unit;
  sp_flush : prog exn W unit;
  sp_read : nat -> prog exn W (list Z);
  sp_close : prog exn W unit
}.

Module Firmware.
Definition FIRMWARE_BASE_URL : string := "https://firmware.ardupilot.org/Rover/stable/CubeOrange".
Definition BOARD_ID_CUBE_ORANGE : Z := 140.
Definition VERSION_TYPE_DEV : Z := 0.
Definition VERSION_TYPE_ALPHA : Z := 64.
Definition VERSION_TYPE_BETA : Z := 128.
Definition VERSION_TYPE_RC : Z := 192.
Definition VERSION_TYPE_OFFICIAL : Z := 255.
Definition MAVLINK_TIMEOUT : Z := sec 10.

(** ** Versions *)
Record FirmwareInfo : Type := {
  major : Z; minor : Z; patch : Z; type_code : Z; type_name : string; version_string : string }.

Definition byte_field (name : string) (v : Z) : res exn unit :=
  if (0 <=? v) && (v <=? 255) then Ok tt
  else raise_ ValueError [L "Invalid "; L name; L ": "; V (VInt v)].

(** The constructor, [__post_init__] included. *)
Definition make_FirmwareInfo (info : FirmwareInfo) : res exn FirmwareInfo :=
  _ ← byte_field "major version" (major info);
  _ ← byte_field "minor version" (minor info);
  _ ← byte_field "patch version" (patch info);
  _ ← byte_field "type code" (type_code info);
  Ok info.

Definition decode_flight_sw_version (version_uint32 : Z) : Z * Z * Z * Z :=
  (Z.land (Z.shiftr version_uint32 24) 255, Z.land (Z.shiftr version_uint32 16) 255,
   Z.land (Z.shiftr version_uint32 8) 255, Z.land version_uint32 255).

Definition type_names : list (Z * string) :=
  [(VERSION_TYPE_DEV, "dev"); (VERSION_TYPE_ALPHA, "alpha"); (VERSION_TYPE_BETA, "beta");
   (VERSION_TYPE_RC, "rc"); (VERSION_TYPE_OFFICIAL, "official")].

Definition type_name_of (code : Z) : string :=
  default (S.join "" ["unknown-"; Num.str_of_Z code]) (od_get type_names code).

Definition format_version (v : Z * Z * Z * Z) : string :=
  let '(major, minor, patch, type_code) := v in
  S.join "" [Num.str_of_Z major; "."; Num.str_of_Z minor; "."; Num.str_of_Z patch; "-";
             type_name_of type_code].

Definition info_of (flight_sw_version : Z) : res exn FirmwareInfo :=
  let '(major, minor, patch, type_code) := decode_flight_sw_version flight_sw_version in
  make_FirmwareInfo
    {| major := major; minor := minor; patch := patch; type_code := type_code;
       type_name := type_name_of type_code;
       version_string := format_version (major, minor, patch, type_code) |}.

Section with_link.
Context {W : Type} `{!Link W}.

Definition read_running_version : prog exn W (option FirmwareInfo) :=
  pexcept [Exception]
    (_ ← l_send (command_long_send 520 0 [F.one; F.zero; F.zero; F.zero; F.zero; F.zero; F.zero]);
     msg ← l_recv ["AUTOPILOT_VERSION"] None;
     match msg with
     | None => mret None
     | Some msg =>
         v ← plift (attr msg "flight_sw_version");
         match as_int v with
         | Some z => info ← plift (info_of z); mret (Some info)
         | None => plift (raise_ TypeError [L "unsupported format string"])
         end
     end)
    (fun _ => mret None).
End with_link.

(** ** Download and validation *)
Definition track_paths : list string := ["stable"; "beta"; "latest"].

Definition base_url (track : string) : string :=
  S.replace "/stable/" (S.join "" ["/"; track; "/"]) FIRMWARE_BASE_URL.

(** The numbers of a version text, [None] when it is malformed. *)
Definition parse_version (version_text : string) : res exn (option (Z * Z * Z)) :=
  match S.split "." (hd "" (S.split "-" version_text)) with
  | a :: b :: c :: _ =>
      except [ValueError]
        (major ← py_int (VStr a); minor ← py_int (VStr b); patch ← py_int (VStr c);
         Ok (Some (major, minor, patch)))
        (fun _ => Ok None)
  | _ => Ok None
  end.

Definition num_eq (v : PyVal) (z : Z) : bool :=
  match v with
  | VFloat f => F.eqb f (F.of_Z z)
  | _ => match as_int v with Some n => n =? z | None => false end
  end.

(** [field in apj_data] and [apj_data[field]] of whatever the document is. *)
Definition has_field (doc : PyVal) (f : string) : res exn bool :=
  match doc with
  | VDict d => Ok (dmem d f)
  | VList l => Ok (existsb (key_is f) l)
  | VStr s => Ok (S.contains f s)
  | v => raise_ TypeError [L "argument of type '"; L (PyVal.type_name v); L "' is not iterable"]
  end.

Definition get_field (doc : PyVal) (f : string) : res exn PyVal :=
  match doc with
  | VDict d => match dget d f with Some v => Ok v | None => raise_ KeyError [VF (VStr f) "r"] end
  | v => raise_ TypeError [L (PyVal.type_name v); L " indices must be integers"]
  end.

Definition required_fields : list string := ["board_id"; "magic"; "image_size"; "image"].

Fixpoint require_fields (doc : PyVal) (fields : list string) : res exn unit :=
  match fields with
  | [] => Ok tt
  | f :: fs =>
      b ← has_field doc f;
      if (b : bool) then require_fields doc fs
      else raise_ ValueError [L "Missing required field in APJ: "; L f]
  end.

(** The checks [validate_apj] makes of the loaded document. *)
Definition validate_doc (doc : PyVal) : res exn unit :=
  _ ← require_fields doc required_fields;
  magic ← get_field doc "magic";
  if negb (key_is "APJFWv1" magic) then
    raise_ ValueError [L "Invalid APJ magic: expected 'APJFWv1', got '"; V magic; L "'"]
  else
    board_id ← get_field doc "board_id";
    if negb (num_eq board_id BOARD_ID_CUBE_ORANGE) then
      raise_ ValueError [L "Wrong board ID: expected "; V (VInt BOARD_ID_CUBE_ORANGE);
                         L " (CubeOrange), got "; V board_id]
    else
      image_size ← get_field doc "image_size";
      if negb (match as_int image_size with Some n => 0 <? n | None => false end) then
        raise_ ValueError [L "Invalid image_size: "; V image_size]
      else
        image_data ← get_field doc "image";
        if negb (match image_data with VStr s => negb (Nat.eqb (String.length s) 0) | _ => false end)
        then raise_ ValueError [L "Missing or empty image data"]
        else Ok tt.

Section with_files.
Context {W : Type} `{!FileStore W}.
Variable json_loads : string -> res exn PyVal.

Definition load_apj (path : string) : prog exn W PyVal :=
  pexcept [JSONDecodeError]
    (text ← f_read path; plift (json_loads text))
    (fun e => plift (raise_ ValueError ([L "Invalid JSON in APJ file: "] ++ exn_msg e))).

Definition validate_apj (apj_path : string) : prog exn W unit :=
  e ← f_exists apj_path;
  if negb e then plift (raise_ FileNotFoundError [L "APJ file not found: "; L apj_path])
  else doc ← load_apj apj_path; plift (validate_doc doc).

Definition check_remote_version (track : string) : prog exn W (option (Z * Z * Z)) :=
  pexcept [Exception]
    (if negb (bool_decide (track ∈ track_paths)) then mret None
     else
       raw ← f_get (String.append (base_url track) "/firmware-version.txt") 10;
       text ← plift (Utf8.decode raw);
       plift (parse_version (S.strip text)))
    (fun _ => mret None).

Definition version_str (v : Z * Z * Z) : string :=
  let '(a, b, c) := v in
  S.join "" [Num.str_of_Z a; "."; Num.str_of_Z b; "."; Num.str_of_Z c].

Definition apj_cache_path (cache_dir track : string) (version : Z * Z * Z) : string :=
  join_path cache_dir (S.join "" ["ardurover-"; track; "-"; version_str version; ".apj"]).

Definition version_cache_path (cache_dir track : string) (version : Z * Z * Z) : string :=
  join_path cache_dir (S.join "" ["firmware-version-"; track; "-"; version_str version; ".txt"]).

Definition download_firmware (track : string) (version : Z * Z * Z) (cache_dir : string)
  : prog exn W (option string) :=
  pexcept [Exception]
    (if negb (bool_decide (track ∈ track_paths)) then mret None
     else
       _ ← f_mkdir cache_dir;
       apj_data ← f_get (String.append (base_url track) "/ardurover.apj") 30;
       _ ← f_write (apj_cache_path cache_dir track version) apj_data;
       version_data ← f_get (String.append (base_url track) "/firmware-version.txt") 10;
       _ ← f_write (version_cache_path cache_dir track version) version_data;
       pexcept [ValueError]
         (_ ← validate_apj (apj_cache_path cache_dir track version);
          mret (Some (apj_cache_path cache_dir track version)))
         (fun _ => _ ← f_unlink (apj_cache_path cache_dir track version); mret None))
    (fun _ => mret None).
End with_files.

(** ** The bootloader *)
Definition INSYNC : Z := 18.
Definition OK_ : Z := 0.
Definition GET_SYNC : Z := 33.
Definition EOC : Z := 32.

Section bootloader.
Context {W : Type} `{!Link W} `{!Dialer W} `{!Serial W}.

Definition reboot_to_bootloader : prog exn W unit :=
  pexcept [Exception]
    (_ ← l_send (command_long_send 246 0
                   [F.of_Z 3; F.zero; F.zero; F.zero; F.zero; F.zero; F.zero]);
     d_close)
    (fun e => plift (raise_ ConnectionError ([L "Failed to reboot to bootloader: "] ++ exn_msg e))).

(** One [GET_SYNC] exchange. *)
Definition probe_port (port : string) : prog exn W bool :=
  _ ← sp_open port 57600;
  pfinally
    (_ ← sp_write [GET_SYNC; EOC];
     _ ← sp_flush;
     response ← sp_read 2;
     mret (match response with [a; b] => (a =? INSYNC) && (b =? OK_) | _ => false end))
    sp_close.

Definition bootloader_round (port : string) (start_time timeout : Z) (_ : unit)
  : prog exn W (unit + bool) :=
  now ← l_time;
  if now - start_time <? timeout then
    found ← pexcept [SerialException; OSError] (probe_port port) (fun _ => mret false);
    if (found : bool) then mret (inr true) else _ ← l_sleep (ms 500); mret (inl tt)
  else mret (inr false).

Definition wait_for_bootloader (fuel : nat) (port : string) (timeout_s : Z) : prog exn W string :=
  start_time ← l_time;
  _ ← l_sleep (sec 1);
  found ← ploop fuel (bootloader_round port start_time (sec timeout_s)) tt;
  if (found : bool) then mret port
  else plift (raise_ TimeoutError [L "Bootloader not detected within "; V (VInt timeout_s);
                                   L "s on "; L port]).
End bootloader.

(** ** Flashing, over the uploader of pixhawk/_uploader.py *)
Record FlashResult : Type := {
  success : bool; old_version : option FirmwareInfo; new_version : option FirmwareInfo;
  error_message : option FStr; bytes_flashed : PyVal; flash_time : Z }.

(** The parsed package: its [image_size] can be any JSON value. *)
Definition ApjFirmware (doc : PyVal) : res exn PyVal :=
  match doc with
  | VDict d =>
      let magic := dget_or d "magic" (VStr "") in
      if key_is "APJFWv1" magic then Ok (dget_or d "image_size" (VInt 0))
      else raise_ ValueError [L "Invalid APJ magic: expected 'APJFWv1', got '"; V magic; L "'"]
  | v => raise_ AttributeError [L "'"; L (PyVal.type_name v); L "' object has no attribute 'get'"]
  end.

(** The offsets of [range(0, total, 1024)]. *)
Definition offsets (total : Z) : list Z := map (fun k => k * 1024) (seqZ 0 ((total + 1023) / 1024)).

Section flash.
Context {W : Type} `{!Link W} `{!FileStore W}.
Variable json_loads : string -> res exn PyVal.
Variable progress_cb : option (string -> Z -> Z -> prog exn W unit).

Definition progress (phase : string) (current total : Z) : prog exn W unit :=
  match progress_cb with Some cb => cb phase current total | None => mret tt end.

Definition upload_progress (current total : Z) : prog exn W unit :=
  if current <=? total / 4 then progress "erase" (current * 4) (total * 4)
  else if current <=? total / 2 then progress "program" (current * 2) (total * 2)
  else progress "verify" current total.

(** [uploader.upload] as the repository has it. *)
Definition upload (image_size : PyVal) (progress_callback : Z -> Z -> prog exn W unit) : prog exn W bool :=
  match as_int image_size with
  | None => plift (raise_ TypeError [L "'"; L (PyVal.type_name image_size);
                                     L "' object cannot be interpreted as an integer"])
  | Some total_size =>
      _ ← piter (fun i => progress_callback (Z.min (i + 1024) total_size) total_size) (offsets total_size);
      mret true
  end.

Definition flash_firmware (port apj_path : string) : prog exn W FlashResult :=
  start_time ← l_time;
  pexcept [Exception]
    (text ← f_read apj_path;
     doc ← plift (json_loads text);
     image_size ← plift (ApjFirmware doc);
     _ ← progress "sync" 0 4;
     _ ← progress "sync" 1 4;
     ok ← upload image_size upload_progress;
     _ ← progress "reboot" 4 4;
     now ← l_time;
     mret (if (ok : bool)
           then {| success := true; old_version := None; new_version := None; error_message := None;
                   bytes_flashed := image_size; flash_time := now - start_time |}
           else {| success := false; old_version := None; new_version := None;
                   error_message := Some [L "Upload failed - verify error"];
                   bytes_flashed := VInt 0; flash_time := now - start_time |}))
    (fun e => now ← l_time;
       mret {| success := false; old_version := None; new_version := None;
               error_message := Some (exn_msg e); bytes_flashed := VInt 0;
               flash_time := now - start_time |}).
End flash.
End Firmware.
Export Firmware.

(** ** Versions *)

Lemma land255 z : 0 <= Z.land z 255 < 256.
Proof. change 255 with (Z.ones 8). rewrite Z.land_ones by lia. apply Z.mod_pos_bound. lia. Qed.

Lemma byte_field_ok name v : 0 <= v < 256 -> byte_field name v = Ok tt.
Proof.
  intros Hv. unfold byte_field.
  by rewrite (proj2 (Z.leb_le 0 v)), (proj2 (Z.leb_le v 255)) by lia.
Qed.

Lemma info_of_ok z : exists info, info_of z = Ok info.
Proof.
  unfold info_of, make_FirmwareInfo, decode_flight_sw_version. cbn [major minor patch type_code].
  rewrite !byte_field_ok by apply land255. by eexists.
Qed.

(** Version words decode to what ArduPilot packed: for bytes a, b, c, t the
    word a<<24 | b<<16 | c<<8 | t decodes to (a, b, c, t); and the decoded
    version of any word at all is one [FirmwareInfo] accepts. *)
Theorem decode_version_roundtrip a b c t
    (Ha : 0 <= a < 256) (Hb : 0 <= b < 256) (Hc : 0 <= c < 256) (Ht : 0 <= t < 256) :
  decode_flight_sw_version (Z.lor (Z.lor (Z.lor (Z.shiftl a 24) (Z.shiftl b 16)) (Z.shiftl c 8)) t)
    = (a, b, c, t) /\ forall w, exists info, info_of w = Ok info.
Proof.
  split; [|apply info_of_ok]. unfold decode_flight_sw_version.
  assert (forall z k, 0 <= z < 256 -> 8 <= k -> Z.testbit z k = false) as Hhi.
  { intros z k Hz Hk. rewrite <- (Z.mod_small z (2 ^ 8)) by lia.
    by rewrite Z.mod_pow2_bits_high by lia. }
  assert (forall z, 0 <= z < 256 -> forall k, Z.testbit z k = Z.testbit z k && (k <? 8)) as Hlo.
  { intros z Hz k. destruct (Z.ltb_spec k 8); [by rewrite andb_true_r|]. by rewrite Hhi by lia. }
  change 255 with (Z.ones 8).
  assert (forall z, 0 <= z < 256 -> forall n, n < 0 -> Z.testbit z n = false) as Hneg.
  { intros z _ n Hn. by apply Z.testbit_neg_r. }
  repeat f_equal; apply Z.bits_inj'; intros n Hn; rewrite Z.land_spec, Z.testbit_ones_nonneg by lia;
    rewrite ?Z.shiftr_spec, ?Z.lor_spec, ?Z.shiftl_spec by lia;
    destruct (Z.ltb_spec n 8); rewrite ?andb_true_r, ?andb_false_r by done;
    repeat match goal with
    | |- context [Z.testbit ?z ?k] =>
        first [rewrite (Hneg z ltac:(assumption) k) by lia | rewrite (Hhi z k) by (assumption || lia)]
    end; cbn [orb]; rewrite ?orb_false_r; try done; f_equal; lia.
Qed.

(** ** The package validator *)

(** A CubeOrange package: the promise of [validate_apj]. *)
Definition package_ok (doc : PyVal) : Prop :=
  exists d size image, doc = VDict d /\ dget d "magic" = Some (VStr "APJFWv1") /\
    (exists board, dget d "board_id" = Some board /\ num_eq board 140 = true) /\
    dget d "image_size" = Some size /\ (exists n, as_int size = Some n /\ 0 < n) /\
    dget d "image" = Some (VStr image) /\ image <> "".

Lemma key_is_true k v : key_is k v = true <-> v = VStr k.
Proof.
  destruct v; cbn; try (split; discriminate).
  rewrite bool_decide_eq_true. split; [by intros ->|by intros [= ->]].
Qed.

Lemma require_fields_dict d fields :
  require_fields (VDict d) fields = Ok tt <-> Forall (fun f => dmem d f = true) fields.
Proof.
  induction fields as [|f fs IH]; [by split|]. cbn [require_fields has_field mbind res_bind].
  rewrite list.Forall_cons. destruct (dmem d f); [|by split; [|intros [? _]]].
  rewrite IH. by split; [|intros [_ ?]].
Qed.

Lemma dmem_get d f : dmem d f = true -> exists v, dget d f = Some v.
Proof. unfold dmem. destruct (dget d f); [by eauto|done]. Qed.

Lemma validate_doc_dict doc : validate_doc doc = Ok tt -> exists d, doc = VDict d.
Proof.
  unfold validate_doc. intros ([] & _ & H)%rbind_ok. apply rbind_ok in H as (v & H & _).
  destruct doc; try done. by eauto.
Qed.

Lemma validate_doc_iff doc : validate_doc doc = Ok tt <-> package_ok doc.
Proof.
  split.
  - intros H. destruct (validate_doc_dict _ H) as [d ->]. unfold validate_doc in H.
    apply rbind_ok in H as ([] & Hreq & H). apply require_fields_dict in Hreq.
    unfold required_fields in Hreq. rewrite !list.Forall_cons in Hreq.
    destruct Hreq as ([bv Hb]%dmem_get & [mv Hm]%dmem_get & [sv Hs]%dmem_get & [iv Hi]%dmem_get & _).
    unfold get_field in H. rewrite Hb, Hm, Hs, Hi in H. cbn [mbind res_bind] in H.
    destruct (key_is "APJFWv1" mv) eqn:Ek; [|done]. apply key_is_true in Ek as ->.
    cbn [negb] in H. destruct (num_eq bv BOARD_ID_CUBE_ORANGE) eqn:En; [|done]. cbn [negb] in H.
    destruct (as_int sv) as [n|] eqn:Es; [|done]. destruct (Z.ltb_spec 0 n) as [Hn|]; [|done].
    cbn [negb] in H. destruct iv; try done. destruct s as [|c s]; [done|].
    exists d, sv, (String.String c s). split_and!; try done; eauto.
  - intros (d & size & image & -> & Hm & (board & Hb & Hn) & Hs & (n & Hsn & Hpos) & Hi & Hne).
    unfold validate_doc.
    assert (require_fields (VDict d) required_fields = Ok tt) as ->.
    { apply require_fields_dict. unfold required_fields, dmem.
      repeat constructor; by rewrite ?Hm, ?Hb, ?Hs, ?Hi. }
    unfold get_field. rewrite Hm, Hb, Hs, Hi. cbn [mbind res_bind].
    rewrite (proj2 (key_is_true _ _) eq_refl). cbn [negb]. unfold BOARD_ID_CUBE_ORANGE. rewrite Hn.
    cbn [negb]. rewrite Hsn, (proj2 (Z.ltb_lt 0 n) Hpos). cbn [negb].
    by destruct image.
Qed.

(** ** The download *)
Section download.
Context {W : Type} `{!FileStore W} {contents : W -> gmap string string}
  {served : string -> option string} `{!Disk W contents served}.
Variable json_loads : string -> res exn PyVal.

(** [contents] is [c] but for the paths of [ps]. *)
Definition but_for (ps : list string) (c : gmap string string) (w : W) : Prop :=
  forall q, q ∉ ps -> contents w !! q = c !! q.

Lemma total_validate path c :
  total (fun w => contents w = c) (validate_apj json_loads path) (fun r w =>
    contents w = c /\ (r = Ok tt -> exists d doc, c !! path = Some d /\
      json_loads d = Ok doc /\ package_ok doc)).
Proof.
  unfold validate_apj. eapply (total_bind _ _ _ (fun _ w => contents w = c)).
  { intros w Hw. destruct (disk_exists path w) as ([b|e] & w' & He & Hc & _);
      eexists _, w'; (split; [exact He|]); cbn; by rewrite ?Hc. }
  intros []; cbn [negb]; [|by apply total_lift].
  eapply (total_bind _ _ _ (fun doc w => contents w = c /\ exists d, c !! path = Some d /\
            json_loads d = Ok doc)).
  - unfold load_apj.
    apply (total_except _ _ _ _ (fun _ w => contents w = c)).
    + eapply (total_bind _ _ _ (fun d w => contents w = c /\ c !! path = Some d)).
      * intros w Hw. destruct (disk_read path w) as ([d|e] & w' & He & Hc & Hd);
          eexists _, w'; (split; [exact He|]); rewrite Hc, Hw.
        -- split; [done|]. rewrite <- Hw. by apply Hd.
        -- destruct (caught_by _ e); done.
      * intros d. apply total_lift. intros w [Hw Hd].
        destruct (json_loads d) as [doc|e] eqn:Ej; [by eauto|]. by destruct (caught_by _ e).
    + intros e. by apply total_lift.
  - intros doc. apply total_lift. intros w (Hw & d & Hd & Hj). split; [done|].
    intros Hv%validate_doc_iff. by eauto.
Qed.

Variable track : string.
Variable version : Z * Z * Z.
Variable dir : string.
Let pa := apj_cache_path dir track version.
Let pv := version_cache_path dir track version.

Lemma cache_paths_differ : pv <> pa.
Proof. unfold pv, pa, version_cache_path, apj_cache_path. intros H%join_path_inj. done. Qed.

(** What a returned path promises. *)
Definition cached (path : string) (w : W) : Prop :=
  path = pa /\ exists d doc, served (String.append (base_url track) "/ardurover.apj") = Some d /\
    contents w !! pa = Some d /\ json_loads d = Ok doc /\ package_ok doc.

Definition downloaded (c : gmap string string) (r : res exn (option string)) (w : W) : Prop :=
  but_for [pa; pv] c w /\ forall path, r = Ok (Some path) -> cached path w.

Lemma downloaded_err c (e : exn) w : but_for [pa; pv] c w -> downloaded c (Err e) w.
Proof. by split. Qed.

Lemma total_checked c data :
  served (String.append (base_url track) "/ardurover.apj") = Some data ->
  total (fun w => but_for [pa; pv] c w /\ contents w !! pa = Some data)
    (pexcept [ValueError]
       (_ ← validate_apj json_loads pa; mret (Some pa))
       (fun _ => _ ← f_unlink pa; mret None)) (downloaded c).
Proof.
  intros Hs. eapply (total_except _ _ _ _ (fun _ => but_for [pa; pv] c)).
  - intros w [Hb Hd]. destruct (total_validate pa (contents w) w eq_refl) as (r & w1 & Hv & Hc & Hok).
    assert (but_for [pa; pv] c w1) as Hb1 by (intros q Hq; rewrite Hc; by apply Hb).
    destruct r as [[]|e].
    + exists (Ok (Some pa)), w1. rewrite (pbind_step _ _ _ _ _ Hv). split; [done|]. split; [done|].
      intros path [= <-]. destruct (Hok eq_refl) as (d & doc & Hd' & Hj & Hp).
      rewrite Hd in Hd'. injection Hd' as <-. split; [done|]. exists data, doc. by rewrite Hc.
    + exists (Err e), w1. rewrite (pbind_err _ _ _ _ _ Hv). split; [done|].
      destruct (caught_by _ e); [done|by apply downloaded_err].
  - intros e w Hb. destruct (disk_unlink pa w) as (r & w1 & Hu & Hne & _).
    assert (but_for [pa; pv] c w1) as Hb1.
    { intros q Hq. rewrite Hne by set_solver. by apply Hb. }
    destruct r as [[]|e'].
    + exists (Ok None), w1. rewrite (pbind_step _ _ _ _ _ Hu). by split.
    + exists (Err e'), w1. rewrite (pbind_err _ _ _ _ _ Hu). by split.
Qed.

(** The steps before the check, over a file system that keeps [c] elsewhere and
    satisfies [P] at the package's path. *)
Lemma total_get u t c (P : option string -> Prop) :
  total (fun w => but_for [pa; pv] c w /\ P (contents w !! pa)) (f_get u t) (fun r w =>
    match r with
    | Ok d => (but_for [pa; pv] c w /\ P (contents w !! pa)) /\ served u = Some d
    | Err e => downloaded c (Err e) w
    end).
Proof.
  intros w [Hb HP]. destruct (disk_get u t w) as ([d|e] & w1 & H1 & Hc & Hs);
    eexists _, w1; (split; [exact H1|]).
  - unfold but_for. rewrite Hc. split; [done|by apply Hs].
  - apply downloaded_err. unfold but_for. by rewrite Hc.
Qed.

Lemma total_write p d c (P Q : option string -> Prop) :
  p ∈ [pa; pv] ->
  (forall o o', (p = pa -> o' = Some d) -> (p <> pa -> o' = o) -> P o -> Q o') ->
  total (fun w => but_for [pa; pv] c w /\ P (contents w !! pa)) (f_write p d) (fun r w =>
    match r with
    | Ok _ => but_for [pa; pv] c w /\ Q (contents w !! pa)
    | Err e => downloaded c (Err e) w
    end).
Proof.
  intros Hp HPQ w [Hb HP]. destruct (disk_write p d w) as (r & w1 & H1 & Hne & Hd).
  assert (but_for [pa; pv] c w1) as Hb1.
  { intros q Hq. rewrite Hne by set_solver. by apply Hb. }
  destruct r as [[]|e]; eexists _, w1; (split; [exact H1|]); [|by apply downloaded_err].
  split; [done|]. apply (HPQ (contents w !! pa)); [|by intros ?; apply Hne|done].
  intros <-. by apply Hd.
Qed.

(** C10: Only a validated package is handed out: whatever the network and the disk
    do, [download_firmware] lets no [Exception] out and changes no file but its
    two cache paths, and when it returns a path, that is the cache path and the
    file there is exactly what the server sent, parses, and is a CubeOrange
    package. *)
Theorem download_firmware_validated w :
  exists r w', download_firmware json_loads track version dir w = Some (r, w') /\
    (forall e, r = Err e -> caught_by [Exception] e = false) /\ downloaded (contents w) r w'.
Proof.
  enough (forall c, total (fun w => contents w = c) (download_firmware json_loads track version dir)
    (fun r w' => (forall e, r = Err e -> caught_by [Exception] e = false) /\ downloaded c r w')) as Ht
    by exact (Ht (contents w) w eq_refl).
  intros c. unfold download_firmware. fold pa pv.
  apply (total_except _ _ _ _ (fun _ => but_for [pa; pv] c)).
  2:{ intros e. apply total_ret. intros w' Hb. split; [done|]. by split. }
  apply (total_conseq (fun w => but_for [pa; pv] c w /\ True) _ _ (downloaded c)).
  2:{ by intros w' <-. }
  2:{ intros [a|e] w' Hd; [by split|]. destruct (caught_by _ e) eqn:Ec; [by destruct Hd|].
      split; [by intros e' [= ->]|done]. }
  destruct (bool_decide (track ∈ track_paths)); cbn [negb].
  2:{ apply total_ret. by intros w' [Hb _]. }
  apply (total_bind _ _ _ (fun _ w => but_for [pa; pv] c w /\ True)).
  { intros w' [Hb _]. destruct (disk_mkdir dir w') as ([[]|e] & w1 & H1 & Hc); eexists _, w1;
      (split; [exact H1|]); unfold downloaded, but_for; by rewrite Hc. }
  intros _. eapply total_bind; [apply (total_get _ _ c (fun _ => True))|]. intros data.
  set (stored := fun w => but_for [pa; pv] c w /\ contents w !! pa = Some data).
  set (url := String.append (base_url track) "/ardurover.apj").
  apply (total_bind _ _ _ (fun _ w => stored w /\ served url = Some data)).
  { intros w' [Hw Hs].
    destruct (total_write pa data c (fun _ => True) (fun o => o = Some data) ltac:(set_solver)
                ltac:(intros o o' Ho _ _; by apply Ho) w' Hw) as ([[]|e] & w1 & H1 & H2); eexists _, w1; split; done. }
  intros _ w' [Hw Hs]. revert w' Hw. change (total stored (
    vd ← f_get (String.append (base_url track) "/firmware-version.txt") 10; _ ← f_write pv vd;
    pexcept [ValueError] (_ ← validate_apj json_loads pa; mret (Some pa))
      (fun _ => _ ← f_unlink pa; mret None)) (downloaded c)).
  eapply total_bind; [apply (total_get _ _ c (fun o => o = Some data))|].
  intros vdata. apply (total_bind _ _ _ (fun _ => stored)); [|by intros _; apply total_checked].
  intros w' [Hw _]. apply (total_write pv vdata c (fun o => o = Some data) (fun o => o = Some data)); [set_solver| |exact Hw].
  intros o o' _ Ho ->. apply Ho, cache_paths_differ.
Qed.
End download.

(** A disk and a server that has one package. *)
Definition package_text : string := "cube-orange-package".
Definition shelf_get (u : string) (t : Z) : prog exn (gmap string string) string := fun w =>
  if bool_decide (u = "https://firmware.ardupilot.org/Rover/beta/CubeOrange/ardurover.apj")
  then Some (Ok package_text, w)
  else if bool_decide (u = "https://firmware.ardupilot.org/Rover/beta/CubeOrange/firmware-version.txt")
  then Some (Ok "4.7.0-beta1", w) else Some (raise_ URLError [], w).
#[local] Instance shelf : FileStore (gmap string string) := {
  f_get := shelf_get;
  f_mkdir p w := Some (Ok tt, w);
  f_write p d w := Some (Ok tt, <[p := d]> w);
  f_exists p w := Some (Ok (bool_decide (is_Some (w !! p))), w);
  f_read p w := Some (match w !! p with Some d => Ok d | None => raise_ FileNotFoundError [L p] end, w);
  f_unlink p w := Some (Ok tt, delete p w)
}.
Definition shelf_served (u : string) : option string :=
  if bool_decide (u = "https://firmware.ardupilot.org/Rover/beta/CubeOrange/ardurover.apj")
  then Some package_text
  else if bool_decide (u = "https://firmware.ardupilot.org/Rover/beta/CubeOrange/firmware-version.txt")
  then Some "4.7.0-beta1" else None.

#[local] Instance shelf_disk : Disk (gmap string string) id shelf_served.
Proof.
  constructor.
  - intros u t w. cbn [f_get shelf]. unfold shelf_get, shelf_served.
    case_bool_decide; [|case_bool_decide]; (eexists _, w; split; [done|]; split; [done|]; by intros d [= <-]).
  - intros p w. by eexists _, w.
  - intros p d w. eexists _, _. split; [done|]. split; [intros q Hq; by apply lookup_insert_ne|].
    intros _. apply lookup_insert_eq.
  - intros p w. eexists _, w. split; [done|]. split; [done|]. by intros b [= <-].
  - intros p w. eexists _, w. split; [done|]. split; [done|]. cbn. intros d. by destruct (w !! p); intros [= ->].
  - intros p w. eexists _, _. split; [done|]. split; [intros q Hq; by apply lookup_delete_ne|].
    intros _. apply lookup_delete_eq.
Qed.

Definition package_doc (board : Z) : PyVal :=
  VDict [(VStr "magic", VStr "APJFWv1"); (VStr "board_id", VInt board);
         (VStr "image_size", VInt 4096); (VStr "image", VStr "eJzs")].
Definition demo_loads (board : Z) (text : string) : res exn PyVal :=
  if bool_decide (text = package_text) then Ok (package_doc board)
  else raise_ JSONDecodeError [].

Lemma download_firmware_validated_witness :
  exists r w', download_firmware (demo_loads 140) "beta" (4, 7, 0) "/cache" ∅ = Some (r, w') /\
    (forall e, r = Err e -> caught_by [Exception] e = false) /\
    downloaded (contents := id) (served := shelf_served) (demo_loads 140) "beta" (4, 7, 0) "/cache" ∅ r w'.
Proof. exact (download_firmware_validated (demo_loads 140) "beta" (4, 7, 0) "/cache" ∅). Defined.

Example download_accepts :
  fst <$> download_firmware (demo_loads 140) "beta" (4, 7, 0) "/cache" ∅ =
  Some (Ok (Some "/cache/ardurover-beta-4.7.0.apj")).
Proof. vm_compute. reflexivity. Qed.

(** A package for another board is refused and its file removed. *)
Example download_refuses :
  (fun p => (fst p, p.2 !! "/cache/ardurover-beta-4.7.0.apj")) <$>
    download_firmware (demo_loads 9) "beta" (4, 7, 0) "/cache" ∅ = Some (Ok None, None).
Proof. vm_compute. reflexivity. Qed.

Lemma decode_version_roundtrip_witness :
  decode_flight_sw_version (Z.lor (Z.lor (Z.lor (Z.shiftl 4 24) (Z.shiftl 6 16)) (Z.shiftl 3 8)) 255)
    = (4, 6, 3, 255) /\ forall w, exists info, info_of w = Ok info.
Proof. apply (decode_version_roundtrip 4 6 3 255); lia. Defined.

Example format_official : format_version (decode_flight_sw_version 67503103) = "4.6.3-official".
Proof. vm_compute. reflexivity. Qed.

(** ** Waiting for the bootloader *)
Section waiting.
Context {W : Type} `{!Link W} `{!Serial W} {clk : W -> Z} `{!Ticking W clk}.

(** The serial port's operations return, and time does not run back in them. *)
Hypothesis probe_returns : forall port w, exists r w', probe_port port w = Some (r, w') /\ clk w <= clk w'.

Definition rounds_left (stop : Z) (w : W) : nat := Z.to_nat ((stop - clk w + ms 500) / ms 500).

(** The bootloader answered a probe of [port]. *)
Definition answered (port : string) : Prop :=
  exists w1 w2, probe_port port w1 = Some (Ok true, w2).

Lemma round_total port start tmo n :
  total (fun w => rounds_left (start + tmo) w = n) (bootloader_round port start tmo tt) (fun r w =>
    match r with
    | Ok (inl _) => (rounds_left (start + tmo) w < n)%nat
    | Ok (inr true) => answered port
    | _ => True
    end).
Proof.
  intros w Hn. unfold bootloader_round.
  destruct (tick_time w) as (w1 & H1 & Hc1). rewrite (pbind_step _ _ _ _ _ H1).
  destruct (Z.ltb_spec (clk w - start) tmo) as [Hlt|]; [|by eexists _, w1].
  destruct (probe_returns port w1) as (r & w2 & H2 & Hc2).
  set (h := pexcept _ _ _).
  assert (exists r', h w1 = Some (r', w2) /\ (r' = Ok true -> answered port)) as (r' & Hh & Ha).
  { unfold h, pexcept, pcatch. rewrite H2. destruct r as [b|e].
    - eexists. split; [done|]. intros [= ->]. by exists w1, w2.
    - destruct (caught_by _ e); by eexists. }
  destruct r' as [[]|e]; [rewrite (pbind_step _ _ _ _ _ Hh)..|rewrite (pbind_err _ _ _ _ _ Hh)].
  - eexists _, w2. split; [done|]. by apply Ha.
  - destruct (tick_sleep (ms 500) w2) as ([u|e] & w3 & H3 & Hc3);
      [rewrite (pbind_step _ _ _ _ _ H3)|rewrite (pbind_err _ _ _ _ _ H3); by eexists _, w3].
    exists (Ok (inl tt)), w3. split; [done|]. subst n. unfold rounds_left, ms in *.
    assert ((start + tmo - clk w3 + 500 * 1000000) / (500 * 1000000) <
            (start + tmo - clk w + 500 * 1000000) / (500 * 1000000)) as Hd.
    { replace (start + tmo - clk w + 500 * 1000000)
        with (start + tmo - clk w + 1 * (500 * 1000000)) by lia.
      rewrite Z.div_add by lia. apply Z.lt_succ_r, Z.div_le_mono; lia. }
    assert (0 < (start + tmo - clk w + 500 * 1000000) / (500 * 1000000)) as Hp
      by (apply Z.div_str_pos; lia). lia.
  - by eexists _, w2.
Qed.

(** Waiting for the bootloader ends: two rounds per second of the timeout
    are enough fuel whatever the port does, and the port is only reported when
    the bootloader answered INSYNC, OK on it. *)
Lemma wait_for_bootloader_returns fuel port timeout w
    (Ht : 0 <= timeout) (Hf : (Z.to_nat (2 * timeout) + 1 < fuel)%nat) :
  exists r w', wait_for_bootloader fuel port timeout w = Some (r, w') /\
    forall p, r = Ok p -> p = port /\ answered port.
Proof.
  unfold wait_for_bootloader. destruct (tick_time w) as (w1 & H1 & Hc1).
  rewrite (pbind_step _ _ _ _ _ H1).
  destruct (tick_sleep (sec 1) w1) as ([u|e] & w2 & H2 & Hc2);
    [rewrite (pbind_step _ _ _ _ _ H2)|rewrite (pbind_err _ _ _ _ _ H2); by eexists _, w2].
  destruct (total_loop (fun _ _ => True) (fun _ => rounds_left (clk w + sec timeout))
    (bootloader_round port (clk w) (sec timeout))
    (fun r _ => r = Ok true -> answered port) fuel tt) with w2 as (r & w3 & H3 & Hr).
  - intros [] n w' [_ Hn]. destruct (round_total port (clk w) (sec timeout) n w' Hn) as (r & w3 & H3 & Hr).
    exists r, w3. split; [done|]. destruct r as [[[]|[]]|e]; done.
  - split; [done|]. unfold rounds_left, ms, sec in *.
    assert ((clk w + timeout * 1000000000 - clk w2 + 500 * 1000000) / (500 * 1000000) <= 2 * timeout + 1).
    { replace (2 * timeout + 1) with ((500 * 1000000 * (2 * timeout + 1)) / (500 * 1000000))
        by (rewrite Z.mul_comm; apply Z.div_mul; lia). apply Z.div_le_mono; lia. }
    lia.
  - destruct r as [[]|e]; [rewrite (pbind_step _ _ _ _ _ H3)..|rewrite (pbind_err _ _ _ _ _ H3)];
      eexists _, w3; (split; [done|]); try done. intros p [= <-]. by split; [|apply Hr].
Qed.
End waiting.

(** A board that enters its bootloader two seconds in. *)
#[local] Instance bench_link : Link Z := {
  l_time w := Some (Ok w, w);
  l_sleep d w := Some (Ok tt, w + Z.max 0 d);
  l_recv ts tm w := Some (Ok None, w + 1);
  l_send s w := Some (Ok tt, w)
}.
#[local] Instance bench_serial : Serial Z := {
  sp_open p b w := Some (if w <? sec 2 then raise_ SerialException [L "no such port"] else Ok tt, w);
  sp_write bs w := Some (Ok tt, w);
  sp_flush w := Some (Ok tt, w);
  sp_read n w := Some (Ok [INSYNC; OK_], w);
  sp_close w := Some (Ok tt, w)
}.
#[local] Instance bench_ticks : Ticking Z id.
Proof.
  constructor.
  - intros w. exists w. cbn. split; [done|lia].
  - intros d w. eexists _, _. split; [done|]. cbn. lia.
  - intros ts tm w. eexists _, _. split; [done|]. cbn. lia.
  - intros s w. eexists _, _. split; [done|]. cbn. lia.
Qed.

Lemma bench_probe port w : exists r w', probe_port port w = Some (r, w') /\ id w <= id w'.
Proof.
  unfold probe_port, mbind, prog_bind, sp_open, bench_serial, pfinally.
  destruct (w <? sec 2); eexists _, _; (split; [reflexivity|]); cbn; lia.
Qed.

Lemma wait_for_bootloader_returns_witness :
  exists r w', wait_for_bootloader 8 "/dev/pixhawk" 3 0 = Some (r, w') /\
    forall p, r = Ok p -> p = "/dev/pixhawk" /\ answered "/dev/pixhawk".
Proof.
  apply (wait_for_bootloader_returns (clk := id) bench_probe 8 "/dev/pixhawk" 3 0); [lia|].
  change (Z.to_nat (2 * 3)) with 6%nat. lia.
Defined.

Example bootloader_found : wait_for_bootloader 8 "/dev/pixhawk" 3 0 = Some (Ok "/dev/pixhawk", sec 2).
Proof. vm_compute. reflexivity. Qed.

(** ** The flash writes nothing *)
Section flashing.
Context {W : Type} `{!Link W} `{!FileStore W}.
Variable json_loads : string -> res exn PyVal.

Lemma silent_upload size : forall n, as_int size = Some n ->
  forall w : W, upload size (upload_progress None) w = Some (Ok true, w).
Proof.
  intros n Hn w. unfold upload. rewrite Hn.
  assert (forall l, piter (fun i => upload_progress None (Z.min (i + 1024) n) n) l w = Some (Ok tt, w)) as Hi.
  { unfold piter. induction l as [|i l IH]; [done|]. cbn [pfold].
    rewrite (pbind_step _ _ w tt w); [done|]. unfold upload_progress, progress.
    by destruct (_ <=? _); [|destruct (_ <=? _)]. }
  by rewrite (pbind_step _ _ _ _ _ (Hi _)).
Qed.

(** A flash always "succeeds" on the uploader the repository carries: for any
    readable file with the magic and an integer size, [flash_firmware] reports
    success and the full size, and does nothing between reading the file and
    reading the clock: no byte goes to the port. *)
Theorem flash_reports_success_unwritten port path text d n (w w1 w2 w3 : W) t0 t1
    (Ht0 : l_time w = Some (Ok t0, w1)) (Hread : f_read path w1 = Some (Ok text, w2))
    (Hdoc : json_loads text = Ok (VDict d)) (Hmagic : dget d "magic" = Some (VStr "APJFWv1"))
    (Hsize : dget d "image_size" = Some (VInt n)) (Ht1 : l_time w2 = Some (Ok t1, w3)) :
  flash_firmware json_loads None port path w =
    Some (Ok {| success := true; old_version := None; new_version := None; error_message := None;
                bytes_flashed := VInt n; flash_time := t1 - t0 |}, w3).
Proof.
  unfold flash_firmware. rewrite (pbind_step _ _ _ _ _ Ht0). unfold pexcept, pcatch.
  rewrite (pbind_step _ _ _ _ _ Hread), Hdoc. lift_step.
  assert (ApjFirmware (VDict d) = Ok (VInt n)) as ->.
  { unfold ApjFirmware, dget_or. by rewrite Hmagic, Hsize. }
  lift_step. rewrite (pbind_step _ _ w2 tt w2) by done. rewrite (pbind_step _ _ w2 tt w2) by done.
  rewrite (pbind_step _ _ _ _ _ (silent_upload (VInt n) n eq_refl w2)).
  rewrite (pbind_step _ _ w2 tt w2) by done. by rewrite (pbind_step _ _ _ _ _ Ht1).
Qed.
End flashing.

#[local] Instance bench_shelf : FileStore Z := {
  f_get u t w := Some (raise_ URLError [], w);
  f_mkdir p w := Some (Ok tt, w);
  f_write p d w := Some (Ok tt, w);
  f_exists p w := Some (Ok true, w);
  f_read p w := Some (Ok package_text, w);
  f_unlink p w := Some (Ok tt, w)
}.

Lemma flash_reports_success_unwritten_witness :
  flash_firmware (demo_loads 140) None "/dev/ttyACM0" "/cache/x.apj" 7 =
    Some (Ok {| success := true; old_version := None; new_version := None; error_message := None;
                bytes_flashed := VInt 4096; flash_time := 0 |}, 7).
Proof.
  eapply (flash_reports_success_unwritten (demo_loads 140) "/dev/ttyACM0" "/cache/x.apj" package_text _ 4096 7 7 7 7 7 7);
    reflexivity.
Defined.
