(* ===== verification/Sync.v ===== *)
(** * Pixhawk synchronisation (vslam/lua_deploy.py, params/baseline.py, pixhawk/sync.py)

    Deploying the Lua script over MAVLink FTP, and bringing the autopilot's
    parameters to the shipped profiles.  pymavlink's FTP client is the interface
    [Ftp]; its error codes, and the platform's errno names, are parameters. *)

From stdpp Require Import base gmap sets list strings option.
From Stdlib Require Import Ascii ZArith Lia.
From S2P Require Import Prelude Float64 PyVal Link Params ParamsMav Files.
Local Open Scope Z_scope.

Record FtpReply : Type := { error_code : Z; system_error : option Z }.

Class Ftp (W : Type) := {
  (** [MAVFTP(conn, ...)] and [mkdtemp()] *)
  ftp_session : prog exn W unit;
  (** [cmd_list] and [list_result] *)
  ftp_list : string -> prog exn W (FtpReply * list string);
  ftp_read : string -> prog exn W (option string);
  ftp_put : string -> string -> prog exn W FtpReply;
  (** [process_ftp_reply("CreateFile", timeout=30)] *)
  ftp_process_reply : prog exn W FtpReply;
  ftp_mkdir : string -> prog exn W FtpReply
}.

Module LuaDeploy.
Definition _SCRIPT_NAME : string := "ahrs-source-gps-vslam.lua".
Definition _REMOTE_DIR : string := "/APM/scripts".
Definition _REMOTE_PATH : string := "/APM/scripts/ahrs-source-gps-vslam.lua".

(** The errno values of Linux. *)
Definition _ERRNO_HINTS : list (Z * string) :=
  [(28, "SD card full — delete old logs from /APM/LOGS");
   (13, "permission denied — check SD card write-protect");
   (30, "read-only filesystem — SD card may be locked");
   (2, "parent directory missing");
   (5, "SD card I/O error — card may be failing");
   (20, "path component is not a directory");
   (21, "target path is a directory, not a file");
   (36, "filename too long for filesystem")].

(** ** The version comment *)
Definition newline : ascii := ascii_of_N 10.
Definition is_nl (c : ascii) : bool := bool_decide (c = newline).

Fixpoint to_newline (l : list ascii) : list ascii :=
  match l with
  | [] => []
  | c :: l' => if is_nl c then [] else c :: to_newline l'
  end.

(** What follows the marker: [\s*(.+)$].  After the longest white space comes
    the rest of a line; with nothing after it the group is a single white-space
    character that is no newline, if there is one. *)
Definition version_group (rest : list ascii) : option string :=
  match S.drop_while S.is_space rest with
  | [] => if existsb (fun c => negb (is_nl c)) rest then Some EmptyString else None
  | l => Some (S.strip (S.ofl (to_newline l)))
  end.

(** [_VERSION_RE.search]: the first line it matches at. *)
Fixpoint search_version (at_start : bool) (l : list ascii) : option string :=
  match (if at_start then rest ← S.prefix_of (S.chars "-- VERSION:") l; version_group rest else None) with
  | Some v => Some v
  | None => match l with [] => None | c :: l' => search_version (is_nl c) l' end
  end.

Definition _extract_version (content : string) : option string :=
  search_version true (S.chars (Utf8.decode_replace content)).

(** ** The FTP session *)
Section ftp.
Context {W : Type} `{!Ftp W} `{!FileStore W}.
Variable Success FailErrno FileExists : Z.
Variable FtpError_name errorcode : Z -> option string.

Definition _decode_ftp_error (ret : FtpReply) (op path : string) : FStr :=
  let code := error_code ret in
  let name := default (S.join "" ["code "; Num.str_of_Z code]) (FtpError_name code) in
  match (if code =? FailErrno then system_error ret else None) with
  | Some sys_err =>
      let errno_name := default (S.join "" ["errno "; Num.str_of_Z sys_err]) (errorcode sys_err) in
      let hint := default "see ArduPilot FTP server logs" (od_get _ERRNO_HINTS sys_err) in
      [L op; L " "; L path; L ": "; L name; L " ("; L errno_name; L ": "; L hint; L ")"]
  | None => [L op; L " "; L path; L ": "; L name]
  end.

Definition ftp_check (allowed : list Z) (op path : string) (ret : FtpReply) : prog exn W unit :=
  if bool_decide (error_code ret ∈ allowed) then mret tt
  else plift (raise_ OSError (_decode_ftp_error ret op path)).

Definition list_directory (path : string) : prog exn W (list string) :=
  '(ret, names) ← ftp_list path;
  _ ← ftp_check [Success] "list" path ret;
  mret names.

Definition read_file (path : string) : prog exn W string :=
  data ← ftp_read path;
  match data with
  | None => plift (raise_ OSError [L "read "; L path; L ": FTP transfer failed"])
  | Some data => mret data
  end.

Definition write_file (path data : string) : prog exn W unit :=
  ret ← ftp_put path data;
  _ ← ftp_check [Success] "write-create" path ret;
  ret ← ftp_process_reply;
  ftp_check [Success] "write" path ret.

Definition mkdir (path : string) : prog exn W unit :=
  ret ← ftp_mkdir path; ftp_check [Success; FileExists] "mkdir" path ret.

Definition _bundled_script_bytes : prog exn W string :=
  f_read (join_path "mower_rover/params/data" _SCRIPT_NAME).

(** Whether the script on the card has the bundled version. *)
Definition script_current (bundled_ver : option string) (listing : list string) : prog exn W bool :=
  if bool_decide (_SCRIPT_NAME ∈ listing) then
    remote_ver ← pexcept [OSError]
      (remote ← read_file _REMOTE_PATH; mret (_extract_version remote))
      (fun _ => mret None);
    mret (bool_decide (remote_ver = bundled_ver))
  else mret false.

Definition upload_script (bundled : string) : prog exn W unit :=
  _ ← write_file _REMOTE_PATH bundled;
  pexcept [OSError] (_ ← read_file _REMOTE_PATH; mret tt) (fun _ => mret tt).

Definition check_and_deploy_lua : prog exn W unit :=
  pexcept [Exception]
    (bundled ← _bundled_script_bytes;
     _ ← ftp_session;
     _ ← pexcept [OSError] (mkdir _REMOTE_DIR) (fun _ => mret tt);
     listing ← pexcept [OSError] (l ← list_directory _REMOTE_DIR; mret (Some l)) (fun _ => mret None);
     match listing with
     | None => mret tt
     | Some listing =>
         current ← script_current (_extract_version bundled) listing;
         if (current : bool) then mret tt else upload_script bundled
     end)
    (fun _ => mret tt).
End ftp.
End LuaDeploy.
Export LuaDeploy.

Module Sync.
(** ** params/baseline.py *)
Definition PROFILES : list (string * string) :=
  [("baseline", "mower_rover/params/data/z254_baseline.yaml");
   ("safety-defaults", "mower_rover/params/data/safety-defaults.yaml")].

Definition DEFAULT_SYNC_PROFILES : list string := ["safety-defaults"].

Record SyncResult : Type := mkSync {
  params_checked : nat; params_applied : nat; params_already_current : bool;
  lua_deployed : bool; profiles_applied : list string; errors : list FStr }.

Definition empty_result : SyncResult := mkSync 0 0 false false [] [].

Definition ok (r : SyncResult) : bool := Nat.eqb (length (errors r)) 0.

Section sync.
Context {W : Type} `{!Link W} `{!FileStore W}.
Variable yaml_safe_load : string -> res exn PyVal.
Variable fuel : nat.

Definition load_profile (name : string) : prog exn W ParamSet :=
  match od_get PROFILES name with
  | None => plift (raise_ KeyError [L "unknown profile "; VF (VStr name) "r"; L "; known: ";
                                    L (S.join ", " (S.sorted (od_keys PROFILES)))])
  | Some path =>
      text ← f_read path; plift (load_param_file yaml_safe_load path ".yaml" text)
  end.

Definition load_baseline : prog exn W ParamSet := load_profile "baseline".

(** [for k in ps: combined[k] = ps[k]] *)
Definition overlay (combined : list (string * float)) (ps : ParamSet) : res exn (list (string * float)) :=
  foldl (fun acc k => c ← acc; v ← ps_getitem ps k; Ok (od_set c k v)) (Ok combined) (od_keys (values ps)).

Definition add_profile (st : list (string * float) * list FStr) (name : string)
  : prog exn W (list (string * float) * list FStr) :=
  let '(combined, errs) := st in
  if bool_decide (name ∈ od_keys PROFILES) then
    ps ← load_profile name;
    c ← plift (overlay combined ps);
    mret (c, errs)
  else mret (combined, errs ++ [[L "unknown profile "; VF (VStr name) "r"]]).

Definition pairs_of (l : list (string * float)) : list (PyVal * PyVal) :=
  map (fun kv => (VStr kv.1, VFloat kv.2)) l.

(** [(k, current_full[k]) for k in desired if k in current_full] *)
Definition subset_one (cur : ParamSet) (k : string) : res exn (option (PyVal * PyVal)) :=
  b ← ps_contains cur (VStr k);
  if (b : bool) then v ← ps_getitem cur k; Ok (Some (VStr k, VFloat v)) else Ok None.

Definition subset_pairs (cur desired : ParamSet) : res exn (list (PyVal * PyVal)) :=
  (fun l : list (option (PyVal * PyVal)) => omap id l)
    <$> rmap (subset_one cur) (od_keys (values desired)).

Definition failure_msg (f : string * float * FStr) : FStr :=
  let '(name, value, reason) := f in
  [L "param "; L name; L "="; V (VFloat value); L " failed: "] ++ reason.

(** Writing the drifted parameters. *)
Definition apply_drift (profiles : list string) (result : SyncResult) (diff : ParamDiff)
  : prog exn W SyncResult :=
  to_apply ← plift (from_mapping (map (fun c => (VStr (c_name c), opt_float (c_new c))) (changed diff)));
  let finish errs := mkSync (params_checked result) (length (changed diff)) false false profiles
                            (errors result ++ errs) in
  if Nat.eqb (ps_len to_apply) 0 then mret (finish [])
  else
    r ← pexcept [Exception]
          (r ← apply_params fuel to_apply true (sec 2) 3; mret (inl r))
          (fun e => mret (inr ([L "apply_params failed: "] ++ exn_msg e)));
    match r with
    | inr msg => mret (mkSync (params_checked result) 0 false false [] (errors result ++ [msg]))
    | inl apply_result =>
        mret (finish (if ParamsMav.ok apply_result then [] else map failure_msg (failures apply_result)))
    end.

(** From the fetched parameters on. *)
Definition reconcile (profiles : list string) (dry_run : bool) (errs : list FStr)
    (desired current_full : ParamSet) : prog exn W SyncResult :=
  pairs ← plift (subset_pairs current_full desired);
  current_subset ← plift (from_pairs pairs);
  let diff := diff_params current_subset desired _DEFAULT_TOL in
  if is_empty diff then mret (mkSync (ps_len desired) 0 true false profiles errs)
  else
    let n_changes := (length (changed diff) + length (added diff))%nat in
    if dry_run then mret (mkSync (ps_len desired) n_changes false false profiles errs)
    else apply_drift profiles (mkSync (ps_len desired) 0 false false [] errs) diff.

Definition sync_params (profiles : list string) (dry_run : bool) : prog exn W SyncResult :=
  '(combined, errs) ← pfold add_profile ([], []) profiles;
  desired ← plift (from_mapping (pairs_of combined));
  if Nat.eqb (ps_len desired) 0 then mret (mkSync 0 0 true false [] errs)
  else
    cur ← pexcept [Exception]
            (c ← fetch_params fuel (sec 60) (ms 1500); mret (inl c))
            (fun e => mret (inr ([L "fetch_params failed: "] ++ exn_msg e)));
    match cur with
    | inr msg => mret (mkSync (ps_len desired) 0 false false [] (errs ++ [msg]))
    | inl current_full => reconcile profiles dry_run errs desired current_full
    end.

Variable deploy : prog exn W unit.

(** [deploy] is [check_and_deploy_lua]. *)
Definition sync_lua : prog exn W SyncResult :=
  pexcept [Exception]
    (_ ← deploy; mret (mkSync 0 0 false true [] []))
    (fun e => mret (mkSync 0 0 false false [] [[L "lua deploy: "] ++ exn_msg e])).

Definition sync_pixhawk (profiles : list string) (dry_run : bool) : prog exn W SyncResult :=
  p ← sync_params profiles dry_run;
  l ← sync_lua;
  mret (mkSync (params_checked p) (params_applied p) (params_already_current p)
               (lua_deployed l) (profiles_applied p) (errors p ++ errors l)).
End sync.
End Sync.
Export Sync.

(** ** The script on the card *)

(** The laws of a healthy card with no transfer under way, [pending]: operations
    succeed and a listing names the files of the directory.  [cmd_put] returns once
    the file is to be created, with the transfer pending and the file itself in
    any state; it is [process_ftp_reply] that drives the transfer to its end. *)
Class Card (W : Type) `{!Ftp W} `{!FileStore W} (Success : Z)
    (card : W -> gmap string string) (pending : W -> option (string * string)) (bundled : string) : Prop := {
  card_bundled w : exists w', _bundled_script_bytes w = Some (Ok bundled, w') /\ card w' = card w /\ pending w' = pending w;
  card_session w : pending w = None ->
    exists w', ftp_session w = Some (Ok tt, w') /\ card w' = card w /\ pending w' = None;
  card_mkdir p w : pending w = None ->
    exists r w', ftp_mkdir p w = Some (Ok r, w') /\ card w' = card w /\ pending w' = None;
  card_list p w : pending w = None ->
    exists names w', ftp_list p w = Some (Ok ({| error_code := Success; system_error := None |}, names), w') /\
      card w' = card w /\ pending w' = None /\ forall n, n ∈ names <-> is_Some (card w !! join_path p n);
  card_read p w : pending w = None ->
    exists w', ftp_read p w = Some (Ok (card w !! p), w') /\ card w' = card w /\ pending w' = None;
  card_put p d w : pending w = None ->
    exists w', ftp_put p d w = Some (Ok {| error_code := Success; system_error := None |}, w') /\
      delete p (card w') = delete p (card w) /\ pending w' = Some (p, d);
  card_reply p d w : pending w = Some (p, d) ->
    exists w', ftp_process_reply w = Some (Ok {| error_code := Success; system_error := None |}, w') /\
      card w' = <[p := d]> (card w) /\ pending w' = None
}.

Section deploying.
Context {W : Type} `{!Ftp W} `{!FileStore W} {card : W -> gmap string string}
  {pending : W -> option (string * string)} {bundled : string}.
Variable Success FailErrno FileExists : Z.
Variable FtpError_name errorcode : Z -> option string.
Context `{!Card W Success card pending bundled}.

(** The card after a deployment. *)
Definition deployed (c : gmap string string) : gmap string string :=
  match c !! _REMOTE_PATH with
  | Some script => if bool_decide (_extract_version script = _extract_version bundled) then c
                   else <[_REMOTE_PATH := bundled]> c
  | None => <[_REMOTE_PATH := bundled]> c
  end.

Lemma ftp_check_ok op path allowed (w : W) :
  Success ∈ allowed ->
  ftp_check FailErrno FtpError_name errorcode allowed op path
    {| error_code := Success; system_error := None |} w = Some (Ok tt, w).
Proof. intros H. unfold ftp_check. cbn [error_code]. by rewrite bool_decide_eq_true_2. Qed.

Lemma mkdir_tolerated w : pending w = None -> exists w',
  pexcept [OSError] (mkdir Success FailErrno FileExists FtpError_name errorcode _REMOTE_DIR)
    (fun _ => mret tt) w = Some (Ok tt, w') /\ card w' = card w /\ pending w' = None.
Proof.
  intros Hp. destruct (card_mkdir _REMOTE_DIR w Hp) as (r & w1 & H1 & Hc). exists w1. split; [|done].
  unfold pexcept, pcatch, mkdir. rewrite (pbind_step _ _ _ _ _ H1). unfold ftp_check.
  by destruct (bool_decide _).
Qed.

Lemma read_file_ok p d w : pending w = None -> card w !! p = Some d ->
  exists w', read_file p w = Some (Ok d, w') /\ card w' = card w /\ pending w' = None.
Proof.
  intros Hp Hd. destruct (card_read p w Hp) as (w1 & H1 & Hc). exists w1. split; [|done].
  unfold read_file. by rewrite (pbind_step _ _ _ _ _ H1), Hd.
Qed.

Lemma script_current_ok v names w :
  pending w = None -> (_SCRIPT_NAME ∈ names <-> is_Some (card w !! _REMOTE_PATH)) ->
  exists w', script_current v names w =
    Some (Ok (match card w !! _REMOTE_PATH with
              | Some s => bool_decide (_extract_version s = v) | None => false end), w') /\
    card w' = card w /\ pending w' = None.
Proof.
  intros Hp Hn. unfold script_current. destruct (card w !! _REMOTE_PATH) as [s|] eqn:Hs.
  - rewrite bool_decide_eq_true_2 by (apply Hn; by eexists).
    destruct (read_file_ok _ _ _ Hp Hs) as (w1 & H1 & Hc). exists w1. split; [|done].
    rewrite (pbind_step _ _ w (_extract_version s) w1); [done|].
    unfold pexcept, pcatch. by rewrite (pbind_step _ _ _ _ _ H1).
  - rewrite bool_decide_eq_false_2 by (intros [? [=]]%Hn). by exists w.
Qed.

(** Started and driven to its end. *)
Lemma write_file_ok p d w : pending w = None -> exists w',
  write_file Success FailErrno FtpError_name errorcode p d w = Some (Ok tt, w') /\
  card w' = <[p := d]> (card w) /\ pending w' = None.
Proof.
  intros Hp. destruct (card_put p d w Hp) as (w1 & H1 & Hc1 & Hp1).
  destruct (card_reply p d w1 Hp1) as (w2 & H2 & Hc2 & Hp2). exists w2. split_and!; [| |done].
  - unfold write_file. rewrite (pbind_step _ _ _ _ _ H1).
    rewrite (pbind_step _ _ w1 tt w1) by (apply ftp_check_ok; set_solver).
    rewrite (pbind_step _ _ _ _ _ H2). apply ftp_check_ok. set_solver.
  - by rewrite Hc2, <- insert_delete_eq, Hc1, insert_delete_eq.
Qed.

Lemma upload_script_ok w : pending w = None -> exists w',
  upload_script Success FailErrno FtpError_name errorcode bundled w = Some (Ok tt, w') /\
  card w' = <[_REMOTE_PATH := bundled]> (card w) /\ pending w' = None.
Proof.
  intros Hp. destruct (write_file_ok _REMOTE_PATH bundled w Hp) as (w2 & H2 & Hc2 & Hp2).
  destruct (read_file_ok _REMOTE_PATH bundled w2 Hp2) as (w3 & H3 & Hc3 & Hp3).
  { rewrite Hc2. apply lookup_insert_eq. }
  exists w3. split_and!; [|by rewrite Hc3|done]. unfold upload_script. rewrite (pbind_step _ _ _ _ _ H2).
  unfold pexcept, pcatch. by rewrite (pbind_step _ _ _ _ _ H3).
Qed.

Lemma deploy_once w : pending w = None -> exists w',
  check_and_deploy_lua Success FailErrno FileExists FtpError_name errorcode w = Some (Ok tt, w') /\
  card w' = deployed (card w) /\ pending w' = None.
Proof.
  intros Hp. destruct (card_bundled w) as (w1 & H1 & Hc1 & Hp1). rewrite Hp in Hp1.
  destruct (card_session w1 Hp1) as (w2 & H2 & Hc2 & Hp2). destruct (mkdir_tolerated w2 Hp2) as (w3 & H3 & Hc3 & Hp3).
  destruct (card_list _REMOTE_DIR w3 Hp3) as (names & w4 & H4 & Hc4 & Hp4 & Hn).
  assert (card w4 = card w) as Hc by congruence.
  destruct (script_current_ok (_extract_version bundled) names w4 Hp4) as (w5 & H5 & Hc5 & Hp5).
  { rewrite Hc4. apply Hn. }
  assert (forall r w', (current ← script_current (_extract_version bundled) names;
            if (current : bool) then mret tt
            else upload_script Success FailErrno FtpError_name errorcode bundled) w4 = Some (Ok r, w') ->
          check_and_deploy_lua Success FailErrno FileExists FtpError_name errorcode w = Some (Ok r, w')) as Hrun.
  { intros r w' Hw. unfold check_and_deploy_lua, pexcept at 1, pcatch.
    rewrite (pbind_step _ _ _ _ _ H1), (pbind_step _ _ _ _ _ H2), (pbind_step _ _ _ _ _ H3).
    rewrite (pbind_step _ _ w3 (Some names) w4); [by rewrite Hw|].
    unfold pexcept, pcatch, list_directory, mbind, prog_bind. rewrite H4.
    by rewrite ftp_check_ok by set_solver. }
  unfold deployed. rewrite <- Hc.
  destruct (card w4 !! _REMOTE_PATH) as [s|]; [destruct (bool_decide _)|];
    try (exists w5; split; [|done]; apply Hrun; by rewrite (pbind_step _ _ _ _ _ H5));
    (destruct (upload_script_ok w5 Hp5) as (w6 & H6 & Hc6 & Hp6); exists w6; split; [|by rewrite Hc6, Hc5];
     apply Hrun; by rewrite (pbind_step _ _ _ _ _ H5)).
Qed.

(** C26: Deployment converges: on a healthy card with no transfer under way it
    returns, with none left under way; afterwards the card holds the bundled
    script, whole, where it held none or one of another version, and is otherwise
    untouched; deploying again changes nothing. *)
Theorem lua_deploy_converges w (Hp : pending w = None) :
  let run := check_and_deploy_lua Success FailErrno FileExists FtpError_name errorcode in
  exists w1 w2, run w = Some (Ok tt, w1) /\ card w1 = deployed (card w) /\ pending w1 = None /\
    run w1 = Some (Ok tt, w2) /\ card w2 = card w1 /\ pending w2 = None.
Proof.
  intros run. destruct (deploy_once w Hp) as (w1 & H1 & Hc1 & Hp1). destruct (deploy_once w1 Hp1) as (w2 & H2 & Hc2 & Hp2).
  exists w1, w2. split_and!; [done..| |done]. rewrite Hc2, Hc1. unfold deployed.
  destruct (card w !! _REMOTE_PATH) as [s|] eqn:Hs;
    [destruct (bool_decide (_extract_version s = _)) eqn:Hv; [by rewrite Hs, Hv|]|];
    by rewrite lookup_insert_eq, bool_decide_eq_true_2.
Qed.
End deploying.

(** A card, and a package directory with one script. *)
Definition lua (version : string) : string :=
  S.join "" ["-- ahrs source"; String.String newline ""; "-- VERSION: "; version; String.String newline "";
             "return update()"].

Record Bench : Type := { b_card : gmap string string; b_pending : option (string * string) }.
Definition good : FtpReply := {| error_code := 0; system_error := None |}.
#[local] Instance bench_ftp : Ftp Bench := {
  ftp_session w := Some (Ok tt, w);
  ftp_list p w := Some (Ok (good,
    omap (fun kv => S.ofl <$> S.prefix_of (S.chars (join_path p "")) (S.chars kv.1)) (map_to_list (b_card w))), w);
  ftp_read p w := Some (Ok (b_card w !! p), w);
  (* the file is created, and empty *)
  ftp_put p d w := Some (Ok good, {| b_card := <[p := EmptyString]> (b_card w); b_pending := Some (p, d) |});
  ftp_process_reply w :=
    match b_pending w with
    | Some (p, d) => Some (Ok good, {| b_card := <[p := d]> (b_card w); b_pending := None |})
    | None => Some (Ok {| error_code := 1; system_error := None |}, w)
    end;
  ftp_mkdir p w := Some (Ok {| error_code := 8; system_error := None |}, w)
}.
#[local] Instance bench_package : FileStore Bench := {
  f_get u t w := Some (raise_ URLError [], w);
  f_mkdir p w := Some (Ok tt, w);
  f_write p d w := Some (Ok tt, w);
  f_exists p w := Some (Ok true, w);
  f_read p w := Some (Ok (lua "2.0"), w);
  f_unlink p w := Some (Ok tt, w)
}.

Lemma prefix_of_app p l r : S.prefix_of p l = Some r <-> l = p ++ r.
Proof.
  revert l. induction p as [|a p IH]; intros l; [by split; [intros [= ->]|intros ->]|].
  destruct l as [|b l]; [by split|]. cbn [S.prefix_of].
  destruct (decide (a = b)) as [->|Hne]; [rewrite IH|]; split; try done; try by intros [= ->].
Qed.

Lemma chars_join p n : S.chars (join_path p n) = S.chars (join_path p "") ++ S.chars n.
Proof.
  change (S.chars (String.append p (String.String "/" n)) =
          S.chars (String.append p "/") ++ S.chars n).
  unfold S.chars. induction p as [|c p IH]; [done|]. exact (f_equal (cons c) IH).
Qed.

#[local] Instance bench_card : Card Bench 0 b_card b_pending (lua "2.0").
Proof.
  constructor.
  - intros w. by exists w.
  - intros w Hp. by exists w.
  - intros p w Hp. by eexists _, w.
  - intros p w Hp. eexists _, w. split; [reflexivity|]. split; [done|]. split; [done|]. intros n.
    rewrite list_elem_of_omap. split.
    + intros ([k v] & Hk & Hn). apply elem_of_map_to_list in Hk. cbn [fst] in Hn.
      destruct (S.prefix_of _ _) as [r|] eqn:Hpre; [|done]. injection Hn as <-.
      apply prefix_of_app in Hpre. exists v.
      assert (join_path p (S.ofl r) = k) as ->; [|done].
      rewrite <- (String.string_of_list_ascii_of_string k). fold (S.chars k). rewrite Hpre.
      rewrite <- (String.string_of_list_ascii_of_string (join_path _ _)). f_equal.
      fold (S.chars (join_path p (S.ofl r))). rewrite chars_join. f_equal.
      apply String.list_ascii_of_string_of_list_ascii.
    + intros [v Hv]. exists (join_path p n, v). split; [by apply elem_of_map_to_list|].
      cbn [fst]. rewrite (proj2 (prefix_of_app _ _ (S.chars n)) (chars_join p n)). cbn. f_equal.
      apply String.string_of_list_ascii_of_string.
  - intros p w Hp. by exists w.
  - intros p d w Hp. eexists. split_and!; [reflexivity| |done]. cbn [b_card]. apply delete_insert_eq.
  - intros p d w Hp. cbn [ftp_process_reply bench_ftp]. rewrite Hp. by eexists.
Qed.

Definition old_card : Bench := {| b_card := {[ _REMOTE_PATH := lua "1.4" ]}; b_pending := None |}.

Lemma lua_deploy_converges_witness :
  let run := check_and_deploy_lua 0 2 8 (fun _ => None) (fun _ => None) in
  exists w1 w2, run old_card = Some (Ok tt, w1) /\
    b_card w1 = deployed (bundled := lua "2.0") (b_card old_card) /\ b_pending w1 = None /\
    run w1 = Some (Ok tt, w2) /\ b_card w2 = b_card w1 /\ b_pending w2 = None.
Proof.
  exact (lua_deploy_converges (card := b_card) (pending := b_pending) 0 2 8 (fun _ => None) (fun _ => None)
           old_card eq_refl).
Defined.

Example version_found : _extract_version (lua " 2.0  ") = Some "2.0".
Proof. vm_compute. reflexivity. Qed.
Example version_missing : _extract_version "x -- VERSION: 2" = None.
Proof. vm_compute. reflexivity. Qed.
Example deploy_replaces :
  (fun p => b_card p.2 !! _REMOTE_PATH) <$>
    check_and_deploy_lua 0 2 8 (fun _ => None) (fun _ => None) old_card
  = Some (Some (lua "2.0")).
Proof. vm_compute. reflexivity. Qed.

(** ** What a sync sends *)
#[export] Instance traced_files {W} `{!FileStore W} : FileStore (W * list Event) := {
  f_get u t := on_world (f_get u t);
  f_mkdir p := on_world (f_mkdir p);
  f_write p d := on_world (f_write p d);
  f_exists p := on_world (f_exists p);
  f_read p := on_world (f_read p);
  f_unlink p := on_world (f_unlink p)
}.

Lemma from_pairs_into_get pairs out res n v :
  from_pairs_into out pairs = Ok res -> od_get res n = Some v ->
  od_get out n = Some v \/
  exists s x, (VStr s, x) ∈ pairs /\ _normalize_name s = Ok n /\ py_float x = Ok v.
Proof.
  revert out. induction pairs as [|[k x] pairs IH]; intros out; cbn [from_pairs_into];
    [intros [= ->]; by left|].
  rewrite rbind_ok. intros (f & Hf & H). rewrite rbind_ok in H. destruct H as (s & Hs & H).
  rewrite rbind_ok in H. destruct H as (m & Hm & H). intros Hg.
  destruct (IH _ H Hg) as [Ho|(s' & x' & ? & ? & ?)]; [|right; exists s', x'; set_solver].
  rewrite od_get_set in Ho. case_decide as Hd; [|by left]. injection Ho as ->. subst m.
  right. exists s, x. destruct k; try done. injection Hs as ->. set_solver.
Qed.

Lemma from_pairs_get pairs p n v :
  from_pairs pairs = Ok p -> od_get (values p) n = Some v ->
  exists s x, (VStr s, x) ∈ pairs /\ _normalize_name s = Ok n /\ py_float x = Ok v.
Proof.
  unfold from_pairs. destruct (from_pairs_into [] pairs) as [l|e] eqn:E; [|done].
  intros [= <-] Hg. destruct (from_pairs_into_get _ _ _ _ _ E Hg) as [?|?]; [done|done].
Qed.

(** The subset keeps the autopilot's own values. *)
Lemma subset_get cur desired pairs p n v :
  subset_pairs cur desired = Ok pairs -> from_pairs pairs = Ok p ->
  od_get (values p) n = Some v -> od_get (values cur) n = Some v.
Proof.
  unfold subset_pairs. destruct (rmap _ _) as [l|] eqn:E; [|done]. intros [= <-] Hp Hg.
  destruct (from_pairs_get _ _ _ _ Hp Hg) as (s & x & Hin & Hs & Hx).
  apply list_elem_of_omap in Hin as (o & Ho & Hid). cbn in Hid. subst o. apply rmap_ok in E.
  apply list_elem_of_lookup in Ho as (i & Hi).
  destruct (Forall2_lookup_r _ _ _ _ _ E Hi) as (k & _ & Hk).
  unfold subset_one in Hk. apply rbind_ok in Hk as (b & _ & Hk). destruct b; [|done].
  apply rbind_ok in Hk as (f & Hf & [= -> <-]). injection Hx as ->.
  unfold ps_getitem in Hf. rewrite Hs in Hf. cbn in Hf.
  destruct (od_get (values cur) n); [|done]. by injection Hf as ->.
Qed.

Lemma changed_get old new tol c :
  c ∈ changed (diff_params old new tol) -> exists ov nv, c_new c = Some nv /\
    od_get (values old) (c_name c) = Some ov /\ od_get (values new) (c_name c) = Some nv /\
    F.gtb (F.abs (F.sub ov nv)) tol = true.
Proof.
  unfold diff_params. rewrite diff_fold. cbn [changed app]. intros [_ H]%elem_of_kind.
  unfold diff_class in H. rewrite !as_sorted_dict_get in H.
  destruct (od_get (values old) _) as [ov|]; [|done].
  destruct (od_get (values new) _) as [nv|]; [|done].
  destruct (F.gtb _ _) eqn:Hg; [|done]. injection H as <-. by exists ov, nv.
Qed.

(** [name] drifted: the autopilot's value is off the desired one. *)
Definition drifted (cur desired : ParamSet) (name : string) (want : float) : Prop :=
  od_get (values desired) name = Some want /\
  exists ov, od_get (values cur) name = Some ov /\ F.gtb (F.abs (F.sub ov want)) _DEFAULT_TOL = true.

Lemma to_apply_drifted cur desired pairs p q n v :
  wf desired -> subset_pairs cur desired = Ok pairs -> from_pairs pairs = Ok p ->
  from_mapping (map (fun c => (VStr (c_name c), opt_float (c_new c)))
                  (changed (diff_params p desired _DEFAULT_TOL))) = Ok q ->
  od_get (values q) n = Some v -> drifted cur desired n v.
Proof.
  intros [_ Hwf] Hsub Hp Hq Hg. destruct (from_pairs_get _ _ _ _ Hq Hg) as (s & x & Hin & Hs & Hx).
  apply list_elem_of_fmap in Hin as (c & [= -> ->] & Hc).
  destruct (changed_get _ _ _ _ Hc) as (ov & nv & Hnew & Ho & Hn & Hgt).
  assert (c_name c = n) as <-.
  { rewrite (Hwf (c_name c)) in Hs; [by injection Hs as <-|]. apply od_get_some_key. by eexists. }
  rewrite Hnew in Hx. injection Hx as <-. split; [done|]. exists ov. split; [|done].
  by eapply subset_get.
Qed.

Section sends.
Context {W : Type} `{!Link W} `{!FileStore W}.

Lemma grows_file_read P p : grows P (f_read (W := W * list Event) p).
Proof. apply grows_on_world. Qed.
Hint Resolve grows_file_read : grows.

(** Anything may be received; [Q] says what may be sent. *)
Definition sends (Q : Send -> Prop) (e : Event) : Prop :=
  match e with Sent s => Q s | Got _ => True end.

Hint Extern 1 (forall _, sends _ _) => exact (fun _ => I) : grows.
Hint Extern 1 (sends _ _) => cbn [sends]; solve [auto | eauto 10] : grows.

Lemma fetch_grows fuel timeout quiet (Q : Send -> Prop) :
  Q param_request_list_send ->
  grows (sends Q) (fetch_params (W := W * list Event) fuel timeout quiet).
Proof.
  intros HQ. unfold fetch_params. grow. unfold fetch_round. grow.
Qed.

Lemma attempts_grows fuel verify tmo name encoded value n last (Q : Send -> Prop) :
  Q (param_set_send encoded value MAV_PARAM_TYPE_REAL32) ->
  grows (sends Q) (attempts (W := W * list Event) fuel verify tmo name encoded value n last).
Proof.
  intros HQ. revert last. induction n as [|n IH]; intros last; cbn [attempts]; grow; try apply IH.
Qed.

(** Applying a set sends settings of its parameters only. *)
Definition sets_of (p : ParamSet) (s : Send) : Prop :=
  exists n want encoded, od_get (values p) n = Some want /\ _encode_name n = Ok encoded /\
    s = param_set_send encoded want MAV_PARAM_TYPE_REAL32.

Lemma apply_grows fuel p verify tmo retries :
  wf p -> grows (sends (sets_of p)) (apply_params (W := W * list Event) fuel p verify tmo retries).
Proof.
  intros Hwf. apply grows_fold. intros acc [n want] Hin. unfold apply_one.
  assert (od_get (values p) n = Some want) as Hget.
  { rewrite <- as_sorted_dict_get. apply od_get_nodup; [|done]. by apply as_sorted_dict_wf. }
  grow. apply attempts_grows. by exists n, want, a.
Qed.
End sends.

Section syncing.
Context {W : Type} `{!Link W} `{!FileStore W}.
Variable yaml_safe_load : string -> res exn PyVal.
Variable fuel : nat.

Lemma profiles_silent profiles st :
  grows (fun _ => False) (pfold (add_profile (W := W * list Event) yaml_safe_load) st profiles).
Proof.
  apply grows_fold. intros [combined errs] name _. unfold add_profile.
  destruct (bool_decide _); [|grow]. apply grows_bind; [|intros ps; grow].
  unfold load_profile. destruct (od_get PROFILES name); [|grow].
  apply grows_bind; [apply grows_file_read|grow].
Qed.

(** The guarded fetch of [sync_params]. *)
Lemma fetch_run (w1 w2 : W) t1 t2 (r : res exn (ParamSet + FStr)) :
  pexcept [Exception]
    (c ← fetch_params fuel (sec 60) (ms 1500); mret (inl c))
    (fun e => mret (inr ([L "fetch_params failed: "] ++ exn_msg e))) (w1, t1) = Some (r, (w2, t2)) ->
  (exists d, t2 = t1 ++ d /\ Forall (sends (eq param_request_list_send)) d) /\
  forall cur, r = Ok (inl cur) -> fetch_params fuel (sec 60) (ms 1500) (w1, t1) = Some (Ok cur, (w2, t2)).
Proof.
  intros H. unfold pexcept, pcatch, mbind, prog_bind in H.
  destruct (fetch_params _ _ _ _) as [[[c|e] [w3 t3]]|] eqn:E; [| |done];
    destruct (fetch_grows fuel (sec 60) (ms 1500) (eq param_request_list_send) eq_refl _ _ _ E)
      as (d & Ht & Hd); cbn [snd] in Ht.
  - injection H as <- <- <-. split; [by exists d|]. by intros cur [= <-].
  - split; [exists d|]; destruct (caught_by _ e); injection H as <- <- <-; by split || intros ? [=].
Qed.

(** [s] writes a parameter that the profiles want, and that the autopilot, as
    fetched in this run from [wt], has with another value. *)
Definition writes_drift (profiles : list string) (wt : W * list Event) (s : Send) : Prop :=
  exists combined errs wt1 desired cur wt2 name want encoded,
    pfold (add_profile yaml_safe_load) ([], []) profiles wt = Some (Ok (combined, errs), wt1) /\
    from_mapping (pairs_of combined) = Ok desired /\
    fetch_params fuel (sec 60) (ms 1500) wt1 = Some (Ok cur, wt2) /\
    drifted cur desired name want /\ _encode_name name = Ok encoded /\
    s = param_set_send encoded want MAV_PARAM_TYPE_REAL32.

Definition may_send (profiles : list string) (dry_run : bool) (wt : W * list Event) (s : Send) : Prop :=
  s = param_request_list_send \/ (dry_run = false /\ writes_drift profiles wt s).

Lemma apply_drift_grows profiles result diff q Q :
  from_mapping (map (fun c => (VStr (c_name c), opt_float (c_new c))) (changed diff)) = Ok q ->
  (forall s, sets_of q s -> Q s) ->
  grows (sends Q) (apply_drift (W := W * list Event) fuel profiles result diff).
Proof.
  intros Hq HQ. unfold apply_drift. rewrite Hq. apply grows_bind_lift. intros q' [= <-].
  destruct (Nat.eqb (ps_len q) 0); [grow|].
  apply grows_bind; [|intros [ar|msg]; grow].
  apply grows_except; [|intros e; grow]. apply grows_bind; [|intros ar; grow].
  apply (grows_weaken (sends (sets_of q))); [apply apply_grows; by eapply from_pairs_wf|].
  intros [s|m]; [apply HQ|done].
Qed.

Lemma reconcile_grows profiles dry_run errs desired cur (Q : Send -> Prop) :
  wf desired ->
  (dry_run = false -> forall s, (exists n want encoded, drifted cur desired n want /\
     _encode_name n = Ok encoded /\ s = param_set_send encoded want MAV_PARAM_TYPE_REAL32) -> Q s) ->
  grows (sends Q) (reconcile (W := W * list Event) fuel profiles dry_run errs desired cur).
Proof.
  intros Hwf HQ. unfold reconcile. apply grows_bind_lift. intros pairs Hp.
  apply grows_bind_lift. intros sub Hs. destruct (is_empty _); [grow|]. destruct dry_run; [grow|].
  destruct (from_mapping (map (fun c => (VStr (c_name c), opt_float (c_new c)))
              (changed (diff_params sub desired _DEFAULT_TOL)))) as [q|e] eqn:Hq.
  - eapply apply_drift_grows; [exact Hq|]. intros s (n & want & enc & Hn & He & ->).
    apply (HQ eq_refl). exists n, want, enc. split; [by eapply to_apply_drifted|done].
  - unfold apply_drift. rewrite Hq. apply grows_bind_lift. by intros a [=].
Qed.

Lemma trace_refl (P : Event -> Prop) (t : list Event) : exists d, t = t ++ d /\ Forall P d.
Proof. exists []. split; [by rewrite app_nil_r|constructor]. Qed.

(** C11: Synchronisation only corrects drift: however the run ends, everything it
    sent is the request for the parameter list or, unless it is a dry run, the
    setting of one desired parameter, to the desired value, that the autopilot
    has and whose value differs by more than the tolerance. *)
Theorem sync_sends_only_drift profiles dry_run w t r w' t'
    (H : sync_params yaml_safe_load fuel profiles dry_run (w, t) = Some (r, (w', t'))) :
  exists d, t' = t ++ d /\ Forall (sends (may_send profiles dry_run (w, t))) d.
Proof.
  unfold sync_params in H. apply pbind_inv in H as [(e & -> & H)|([combined errs] & [w1 t1] & H1 & H)].
  { destruct (profiles_silent _ _ _ _ _ H) as (d & Ht & Hd). exists d. split; [exact Ht|].
    eapply list.Forall_impl; [exact Hd|]. by intros ? []. }
  assert (t1 = t) as ->.
  { destruct (profiles_silent _ _ _ _ _ H1) as ([|e d] & Ht & Hd); cbn [snd] in Ht;
      [by rewrite app_nil_r in Ht|]. by inversion Hd. }
  destruct (from_mapping (pairs_of combined)) as [desired|e] eqn:Ed.
  2:{ injection H as _ _ <-. apply trace_refl. }
  rewrite (pbind_step _ _ _ desired _ eq_refl) in H.
  destruct (Nat.eqb (ps_len desired) 0); [injection H as _ _ <-; apply trace_refl|].
  apply pbind_inv in H as [(e & -> & H)|(cur & [w2 t2] & H2 & H)].
  { destruct (fetch_run _ _ _ _ _ H) as [(d & -> & Hd) _]. exists d. split; [done|].
    eapply list.Forall_impl; [exact Hd|]. intros [s|m]; [by left|done]. }
  destruct (fetch_run _ _ _ _ _ H2) as [(d & -> & Hd) Hcur].
  destruct cur as [cur|msg].
  2:{ injection H as _ _ <-. exists d. split; [done|].
      eapply list.Forall_impl; [exact Hd|]. intros [s|m]; [by left|done]. }
  specialize (Hcur _ eq_refl).
  destruct (reconcile_grows profiles dry_run errs desired cur (may_send profiles dry_run (w, t)))
    with (3 := H) as (d2 & Ht2 & Hd2).
  - by eapply from_pairs_wf.
  - intros Hdry s (n & want & enc & Hdr & Henc & ->). right. split; [done|].
    by eexists combined, errs, _, desired, cur, _, n, want, enc.
  - exists (d ++ d2). cbn [snd] in Ht2. rewrite Ht2, app_assoc. split; [done|].
    apply list.Forall_app. split; [|done].
    eapply list.Forall_impl; [exact Hd|]. intros [s|m]; [by left|done].
Qed.
End syncing.

(** An autopilot with two parameters, one of them off the profile. *)
#[local] Instance drifting_link : Link (list Msg) := {
  l_time w := Some (Ok 0, w);
  l_sleep _ w := Some (Ok tt, w);
  l_recv _ _ w := match w with m :: w' => Some (Ok (Some m), w') | [] => Some (Ok None, []) end;
  l_send s w := Some (Ok tt, match s with
    | param_request_list_send => [PARAM_VALUE "FS_ACTION" (F.of_Z 2) 2; PARAM_VALUE "ARMING_CHECK" F.one 2]
    | param_set_send n v _ => w ++ [PARAM_VALUE n v 2]
    | _ => w
    end)
}.
#[local] Instance profile_files : FileStore (list Msg) := {
  f_get u t w := Some (raise_ URLError [], w);
  f_mkdir p w := Some (Ok tt, w);
  f_write p d w := Some (Ok tt, w);
  f_exists p w := Some (Ok true, w);
  f_read p w := Some (Ok p, w);
  f_unlink p w := Some (Ok tt, w)
}.
Definition profile_yaml (text : string) : res exn PyVal :=
  Ok (VDict [(VStr "arming_check", VInt 1); (VStr "FS_ACTION", VInt 1); (VStr "NEW_ONE", VInt 3)]).

Definition demo_sync (dry_run : bool) :=
  sync_params (W := list Msg * list Event) profile_yaml 10 ["safety-defaults"; "nope"] dry_run ([], []).

Definition sent_list (t : list Event) : list Send :=
  omap (fun e => match e with Sent s => Some s | Got _ => None end) t.

Example sync_demo :
  match demo_sync false with
  | Some (Ok r, (_, t)) => (params_checked r, params_applied r, length (errors r), sent_list t)
  | _ => (0, 0, 0, [])%nat
  end = (3, 1, 1, [param_request_list_send;
                   param_set_send "FS_ACTION" F.one MAV_PARAM_TYPE_REAL32])%nat.
Proof. vm_compute. reflexivity. Qed.

Lemma sync_sends_only_drift_witness :
  match demo_sync false with
  | Some (r, (w', t')) => exists d, t' = [] ++ d /\
      Forall (sends (may_send profile_yaml 10 ["safety-defaults"; "nope"] false ([], []))) d
  | None => False
  end.
Proof.
  destruct (demo_sync false) as [[r [w' t']]|] eqn:E.
  - exact (sync_sends_only_drift profile_yaml 10 ["safety-defaults"; "nope"] false [] [] r w' t' E).
  - assert (match demo_sync false with Some _ => true | None => false end = true) as H
      by (vm_compute; reflexivity).
    rewrite E in H. discriminate H.
Defined.

Section reporting.
Context {W : Type} `{!Ftp W} `{!FileStore W}.
Variable Success FailErrno FileExists : Z.
Variable FtpError_name errorcode : Z -> option string.

(** A failed Lua deployment is reported as done: [check_and_deploy_lua] keeps
    every error to itself, so [sync_lua] says "deployed" with no error whatever
    the FTP server and the package did. *)
Theorem sync_lua_always_deployed (w w' : W) r
    (H : sync_lua (check_and_deploy_lua Success FailErrno FileExists FtpError_name errorcode) w
         = Some (Ok r, w')) :
  lua_deployed r = true /\ errors r = [].
Proof.
  unfold sync_lua, pexcept at 1, pcatch, mbind, prog_bind in H.
  destruct (check_and_deploy_lua _ _ _ _ _ w) as [[[[]|e] w1]|] eqn:E; [|exfalso|done].
  - by injection H as <- <-.
  - unfold check_and_deploy_lua, pexcept at 1, pcatch in E.
    match type of E with match ?m with _ => _ end = _ => destruct m as [[[a|e'] w2]|]; [done| |done] end.
    destruct (caught_by _ e') eqn:Ec; [done|]. injection E as -> <-. by rewrite Ec in H.
Qed.
End reporting.

(** A card that cannot be reached. *)
Definition dead_ftp : Ftp Bench := {|
  ftp_session w := Some (raise_ TimeoutError [L "no reply"], w);
  ftp_list p w := Some (raise_ TimeoutError [], w);
  ftp_read p w := Some (Ok None, w);
  ftp_put p d w := Some (raise_ TimeoutError [], w);
  ftp_process_reply w := Some (raise_ TimeoutError [], w);
  ftp_mkdir p w := Some (raise_ TimeoutError [], w)
|}.

Lemma sync_lua_always_deployed_witness :
  exists r w', lua_deployed r = true /\ errors r = [] /\ w' = old_card.
Proof.
  eexists _, _. refine (let H := sync_lua_always_deployed (Ftp0 := dead_ftp) 0 2 8 (fun _ => None)
    (fun _ => None) old_card _ _ _ in conj (proj1 H) (conj (proj2 H) eq_refl)).
  vm_compute. reflexivity.
Defined.
