(* ===== verification/Health.v ===== *)
(** * Health readers (health/thermal.py, wifi.py, disk.py, power.py)

    Snapshots of the Jetson: thermal zones, Wi-Fi, disks and power mode, parsed
    from sysfs and procfs.  The files, [statvfs], subprocesses and the wall clock
    are the interface [Sys]; paths are strings under [sysroot], which ends with
    its separator. *)

From stdpp Require Import base list strings option.
From Stdlib Require Import Ascii ZArith Lia.
From S2P Require Import Prelude Float64 PyVal Files.
Local Open Scope Z_scope.

Class Sys (W : Type) := {
  y_is_file : string -> prog exn W bool;
  (** the bytes of a file *)
  y_read : string -> prog exn W string;
  y_glob : string -> prog exn W (list string);
  (** [subprocess.run(args, capture_output=True, text=True, timeout=t)]: the
      return code and the standard output *)
  y_run : list string -> Z -> prog exn W (Z * string);
  (** [f_frsize], [f_blocks] and [f_bavail] *)
  y_statvfs : string -> prog exn W (Z * Z * Z);
  (** [datetime.now(UTC).isoformat()] *)
  y_now : prog exn W string
}.

Module Health.
Section readers.
Context {W : Type} `{!Sys W}.

Definition under (sysroot path : string) : string := String.append sysroot path.

(** [path.read_text(encoding="utf-8")] *)
Definition read_text (path : string) : prog exn W string :=
  raw ← y_read path; plift (Utf8.decode raw).

(** ** health/thermal.py *)
Record ThermalZone : Type := { tz_index : Z; tz_name : string; temp_c : float }.
Record ThermalSnapshot : Type := { zones : list ThermalZone; tz_timestamp : string }.

(** The last component of a path. *)
Definition base_name (path : string) : string :=
  match rev (S.split "/" path) with n :: _ => n | [] => path end.

Definition removeprefix (p s : string) : string :=
  match S.prefix_of (S.chars p) (S.chars s) with Some r => S.ofl r | None => s end.

Definition zone_temp (dir : string) : prog exn W (option float) :=
  pexcept [OSError; ValueError; TypeError]
    (raw ← y_read (join_path dir "temp");
     text ← plift (Utf8.decode raw);
     n ← plift (py_int (VStr (S.strip text)));
     f ← plift (float_of_int n);
     mret (Some (F.div f (F.of_Z 1000))))
    (fun _ => mret None).

Definition zone_name (dir : string) : prog exn W string :=
  b ← y_is_file (join_path dir "type");
  if (b : bool) then
    pexcept [OSError; TypeError]
      (raw ← y_read (join_path dir "type");
       if bool_decide (raw = "") then mret (base_name dir)
       else text ← plift (Utf8.decode raw); mret (S.strip text))
      (fun _ => mret (base_name dir))
  else mret "".

Definition zone_index (dir : string) : Z :=
  match py_int (VStr (removeprefix "thermal_zone" (base_name dir))) with Ok n => n | Err _ => -1 end.

Definition read_zone (zones : list ThermalZone) (dir : string) : prog exn W (list ThermalZone) :=
  b ← y_is_file (join_path dir "temp");
  if (b : bool) then
    t ← zone_temp dir;
    match t with
    | None => mret zones
    | Some t =>
        name ← zone_name dir;
        mret (zones ++ [{| tz_index := zone_index dir; tz_name := name; temp_c := t |}])
    end
  else mret zones.

Definition read_thermal_zones (sysroot : string) : prog exn W ThermalSnapshot :=
  dirs ← y_glob (under sysroot "sys/class/thermal/thermal_zone*");
  zs ← pfold read_zone [] (S.sorted dirs);
  now ← y_now;
  mret {| zones := zs; tz_timestamp := now |}.

(** ** health/wifi.py *)
Record WifiStatus : Type := {
  interface : string; link_quality : float; signal_dbm : float; noise_dbm : float }.

Definition wifi_float (part : string) : res exn float :=
  py_float (VStr (S.rstrip_chr (ascii_of_N 46) part)).

(** One line: [None] to go on with the next. *)
Definition wifi_line (line : string) : res exn (option WifiStatus) :=
  match S.words (S.strip line) with
  | p0 :: _ :: p2 :: p3 :: rest =>
      except [ValueError; IndexError]
        (q ← wifi_float p2;
         s ← wifi_float p3;
         n ← match rest with p4 :: _ => wifi_float p4 | [] => Ok F.zero end;
         Ok (Some {| interface := S.rstrip_chr (ascii_of_N 58) p0; link_quality := q;
                     signal_dbm := s; noise_dbm := n |}))
        (fun _ => Ok None)
  | _ => Ok None
  end.

Fixpoint first_wifi (lines : list string) : res exn (option WifiStatus) :=
  match lines with
  | [] => Ok None
  | line :: lines' =>
      r ← wifi_line line;
      match r with Some s => Ok (Some s) | None => first_wifi lines' end
  end.

Definition read_wifi_status (sysroot : string) : prog exn W (option WifiStatus) :=
  let file := under sysroot "proc/net/wireless" in
  b ← y_is_file file;
  if (b : bool) then
    text ← pexcept [OSError] (t ← read_text file; mret (Some t)) (fun _ => mret None);
    match text with
    | None => mret None
    | Some text => plift (first_wifi (drop 2 (S.splitlines text)))
    end
  else mret None.

(** ** health/disk.py *)
Definition _INTERESTING_MOUNTS : list string := ["/"; "/home"; "/data"].

Record DiskUsage : Type := {
  mount_point : string; device : string; total_gb : float; used_gb : float; free_gb : float;
  is_nvme : bool }.

Definition mount_of (line : string) : option (string * string) :=
  match S.words line with
  | device :: mount :: _ =>
      if bool_decide (mount ∈ _INTERESTING_MOUNTS) then Some (device, mount) else None
  | _ => None
  end.

Definition _parse_proc_mounts (sysroot : string) : prog exn W (list (string * string)) :=
  let file := under sysroot "proc/mounts" in
  b ← y_is_file file;
  if (b : bool) then
    text ← pexcept [OSError] (t ← read_text file; mret (Some t)) (fun _ => mret None);
    match text with
    | None => mret []
    | Some text => mret (omap mount_of (S.splitlines text))
    end
  else mret [].

(** [n / 1024**3] *)
Definition gb (n : Z) : float := F.div (F.of_Z n) (F.of_Z (1024 ^ 3)).

Definition _statvfs (mount_point : string) : prog exn W (option (float * float * float)) :=
  pexcept [OSError]
    ('(frsize, blocks, bavail) ← y_statvfs mount_point;
     let total := gb (frsize * blocks) in
     let free := gb (frsize * bavail) in
     mret (Some (F.round 2 total, F.round 2 (F.sub total free), F.round 2 free)))
    (fun _ => mret None).

Definition disk_of (dm : string * string) : prog exn W DiskUsage :=
  stats ← _statvfs dm.2;
  let '(t, u, f) := default (F.zero, F.zero, F.zero) stats in
  mret {| mount_point := dm.2; device := dm.1; total_gb := t; used_gb := u; free_gb := f;
          is_nvme := S.contains "nvme" (S.lower dm.1) |}.

Definition read_disk_usage (sysroot : string) : prog exn W (list DiskUsage) :=
  mounts ← _parse_proc_mounts sysroot;
  pfold (fun acc dm => d ← disk_of dm; mret (acc ++ [d])) [] mounts.

(** ** health/power.py *)
Record PowerState : Type := {
  mode_id : option Z; mode_name : option string; online_cpus : option Z;
  gpu_freq_mhz : option Z; fan_profile : option string; p_timestamp : string }.

(** One line of [nvpmodel -q]. *)
Definition nvpmodel_line (st : option Z * option string) (line : string) : res exn (option Z * option string) :=
  let stripped := S.strip line in
  let name := match S.prefix_of (S.chars "NV Power Mode:") (S.chars stripped) with
              | Some rest =>
                  match S.drop_while S.is_space rest with
                  | [] => st.2
                  | g => Some (S.strip (S.ofl g))
                  end
              | None => st.2
              end in
  if S.isdigit stripped then n ← py_int (VStr stripped); Ok (Some n, name)
  else Ok (st.1, name).

Definition rfold {A S} (f : S -> A -> res exn S) (s : S) (l : list A) : res exn S :=
  foldl (fun acc a => s ← acc; f s a) (Ok s) l.

Definition _read_nvpmodel : prog exn W (option Z * option string) :=
  r ← pexcept [FileNotFoundError; TimeoutExpired]
        (r ← y_run ["nvpmodel"; "-q"] 5; mret (Some r)) (fun _ => mret None);
  match r with
  | Some (0, stdout) => plift (rfold nvpmodel_line (None, None) (S.splitlines stdout))
  | _ => mret (None, None)
  end.

(** What one comma-separated part of the CPU list adds. *)
Definition cpu_part (part : string) : Z :=
  let part := S.strip part in
  match S.cut "-" part with
  | Some (lo, hi) =>
      match py_int (VStr hi), py_int (VStr lo) with Ok h, Ok l => h - l + 1 | _, _ => 0 end
  | None => match py_int (VStr part) with Ok _ => 1 | Err _ => 0 end
  end.

Definition count_cpus (raw : string) : Z := foldl Z.add 0 (map cpu_part (S.split "," raw)).

Definition _read_online_cpus (sysroot : string) : prog exn W (option Z) :=
  let file := under sysroot "sys/devices/system/cpu/online" in
  b ← y_is_file file;
  if (b : bool) then
    raw ← pexcept [OSError] (t ← read_text file; mret (Some (S.strip t))) (fun _ => mret None);
    mret (raw ← raw; let count := count_cpus raw in if 0 <? count then Some count else None)
  else mret None.

Fixpoint first_freq (paths : list string) : prog exn W (option Z) :=
  match paths with
  | [] => mret None
  | path :: paths' =>
      b ← y_is_file path;
      f ← (if (b : bool) then
             pexcept [OSError; ValueError]
               (t ← read_text path; n ← plift (py_int (VStr (S.strip t))); mret (Some (n / 1000000)))
               (fun _ => mret None)
           else mret None);
      match f with Some f => mret (Some f) | None => first_freq paths' end
  end.

Definition _read_gpu_freq (sysroot : string) : prog exn W (option Z) :=
  first_freq [under sysroot "sys/devices/17000000.gpu/devfreq/17000000.gpu/cur_freq";
              under sysroot "sys/class/devfreq/17000000.gpu/cur_freq"].

Definition _read_fan_profile (sysroot : string) : prog exn W (option string) :=
  let file := under sysroot "sys/devices/pwm-fan/cur_pwm_profile" in
  b ← y_is_file file;
  if (b : bool) then
    pexcept [OSError]
      (t ← read_text file;
       mret (if bool_decide (S.strip t = "") then None else Some (S.strip t)))
      (fun _ => mret None)
  else mret None.

Definition read_power_state (sysroot : string) : prog exn W PowerState :=
  '(mid, mname) ← _read_nvpmodel;
  cpus ← _read_online_cpus sysroot;
  gpu ← _read_gpu_freq sysroot;
  fan ← _read_fan_profile sysroot;
  now ← y_now;
  mret {| mode_id := mid; mode_name := mname; online_cpus := cpus; gpu_freq_mhz := gpu;
          fan_profile := fan; p_timestamp := now |}.
End readers.
End Health.
Export Health.
