(* ===== verification/Kiosk.v ===== *)
(** * The kiosk (kiosk/state.py, kiosk/telemetry.py, kiosk/app.py)

    Three threads around one [SharedState]: the MAVLink reader and the slow
    poller update it, the server pushes snapshots to the display.  The threads'
    programs run over the interface [Shared] to it, in which a method is one step;
    that its lock makes it one is what [KioskLock] proves of the methods'
    statements. *)

From stdpp Require Import base gmap sets list strings option.
From Stdlib Require Import Ascii ZArith Lia.
From S2P Require Import Prelude Float64 PyVal Link Connection VslamIpc Vslam Files Config.
From S2P Require Import Firmware Health.
Local Open Scope Z_scope.

Module Kiosk.
(** ** kiosk/state.py *)
Abbreviation Kwargs := (list (string * PyVal)).

Definition MavTelemetry : Kwargs :=
  [("armed", VBool false); ("mode", VStr ""); ("system_status", VInt 0);
   ("groundspeed_ms", VFloat F.zero); ("heading_deg", VInt 0); ("throttle_pct", VInt 0);
   ("gps1_fix", VInt 0); ("gps1_sats", VInt 0); ("gps1_hdop", VFloat (F.of_dec 9999 (-2)));
   ("gps2_fix", VInt 0); ("gps2_sats", VInt 0); ("gps2_hdop", VFloat (F.of_dec 9999 (-2)));
   ("rtk1_baseline_mm", VInt 0); ("rtk1_iar", VInt 0);
   ("rtk2_baseline_mm", VInt 0); ("rtk2_iar", VInt 0);
   ("last_statustext", VStr ""); ("last_heartbeat_epoch", VFloat F.zero);
   ("last_gps_epoch", VFloat F.zero)].

Record SharedState : Type := mkState {
  _mav : Kwargs; _wifi_interface : string; _wifi_signal_dbm : float; _wifi_link_quality : float;
  _vslam : Kwargs; _health : Kwargs; _storage : Kwargs; _services : list (string * string);
  _last_update : string }.

Definition SharedState_init : SharedState :=
  mkState MavTelemetry "" F.zero F.zero [] [] [] [] "".

(** The update methods. *)
Inductive Op : Type :=
| update_mav (kwargs : Kwargs)
| update_wifi (interface : string) (signal_dbm link_quality : float)
| update_vslam (kwargs : Kwargs)
| update_health (kwargs : Kwargs)
| update_storage (kwargs : Kwargs)
| update_services (services : list (string * string)).

(** [hasattr]/[setattr] over the fields of the dataclass. *)
Definition set_fields (mav kwargs : Kwargs) : Kwargs :=
  foldl (fun m kv => if bool_decide (kv.1 ∈ od_keys m) then od_set m kv.1 kv.2 else m) mav kwargs.

(** [now] is the time stamp taken inside the lock. *)
Definition apply_op (now : string) (o : Op) (s : SharedState) : SharedState :=
  let '(mkState m wi ws wq v h st sv _) := s in
  match o with
  | update_mav kw => mkState (set_fields m kw) wi ws wq v h st sv now
  | update_wifi i sg q => mkState m i sg q v h st sv now
  | update_vslam kw => mkState m wi ws wq (od_update v kw) h st sv now
  | update_health kw => mkState m wi ws wq v (od_update h kw) st sv now
  | update_storage kw => mkState m wi ws wq v h (od_update st kw) sv now
  | update_services d => mkState m wi ws wq v h st (od_update sv d) now
  end.

Definition vdict (kw : Kwargs) : PyVal := VDict (map (fun kv => (VStr kv.1, kv.2)) kw).

Definition snapshot (s : SharedState) : PyVal :=
  vdict [("mav", vdict (_mav s)); ("wifi_interface", VStr (_wifi_interface s));
         ("wifi_signal_dbm", VFloat (_wifi_signal_dbm s));
         ("wifi_link_quality", VFloat (_wifi_link_quality s));
         ("vslam", vdict (_vslam s)); ("health", vdict (_health s)); ("storage", vdict (_storage s));
         ("services", vdict (map (fun kv => (kv.1, VStr kv.2)) (_services s)));
         ("last_update", VStr (_last_update s))].

(** ** kiosk/telemetry.py *)
Definition _ROVER_MODES : list (Z * string) :=
  [(0, "MANUAL"); (1, "ACRO"); (3, "STEERING"); (4, "HOLD"); (5, "LOITER"); (6, "FOLLOW");
   (7, "SIMPLE"); (10, "AUTO"); (11, "RTL"); (12, "SMART_RTL"); (15, "GUIDED")].

Definition hashable (v : PyVal) : res exn unit :=
  match v with
  | VList _ | VDict _ => raise_ TypeError [L "unhashable type: '"; L (PyVal.type_name v); L "'"]
  | _ => Ok tt
  end.

Definition mode_name_of (custom_mode : PyVal) : res exn string :=
  _ ← hashable custom_mode;
  Ok (match List.find (fun kv : Z * string => num_eq custom_mode kv.1) _ROVER_MODES with
      | Some (_, n) => n
      | None => S.join "" ["MODE_"; py_str custom_mode]
      end).

Definition _handle_heartbeat (now : float) (msg : Msg) : res exn (list Op) :=
  let base_mode := getattr msg "base_mode" (VInt 0) in
  armed ← match as_int base_mode with
          | Some n => Ok (negb (Z.land n 128 =? 0))
          | None => raise_ TypeError [L "unsupported operand type(s) for &"]
          end;
  mode_name ← mode_name_of (getattr msg "custom_mode" (VInt 0));
  Ok [update_mav [("armed", VBool armed); ("mode", VStr mode_name);
                  ("system_status", getattr msg "system_status" (VInt 0));
                  ("last_heartbeat_epoch", VFloat now)]].

Definition _handle_vfr_hud (msg : Msg) : res exn (list Op) :=
  Ok [update_mav [("groundspeed_ms", getattr msg "groundspeed" (VFloat F.zero));
                  ("heading_deg", getattr msg "heading" (VInt 0));
                  ("throttle_pct", getattr msg "throttle" (VInt 0))]].

Definition _handle_gps_raw (now : float) (msg : Msg) (mtype : string) : res exn (list Op) :=
  let fix_type := getattr msg "fix_type" (VInt 0) in
  let sats := getattr msg "satellites_visible" (VInt 0) in
  hdop ← match as_int (getattr msg "eph" VNone) with
         | Some eph => if eph =? 65535 then Ok (F.of_dec 9999 (-2))
                       else f ← float_of_int eph; Ok (F.div f (F.of_Z 100))
         | None => Ok (F.of_dec 9999 (-2))
         end;
  Ok [update_mav
        (if bool_decide (mtype = "GPS_RAW_INT")
         then [("gps1_fix", fix_type); ("gps1_sats", sats); ("gps1_hdop", VFloat hdop);
               ("last_gps_epoch", VFloat now)]
         else [("gps2_fix", fix_type); ("gps2_sats", sats); ("gps2_hdop", VFloat hdop);
               ("last_gps_epoch", VFloat now)])].

Definition _handle_gps_rtk (msg : Msg) (mtype : string) : res exn (list Op) :=
  let baseline := getattr msg "baseline_a_mm" (VInt 0) in
  let iar := getattr msg "iar_num_hypotheses" (VInt 0) in
  Ok [update_mav (if bool_decide (mtype = "GPS_RTK")
                  then [("rtk1_baseline_mm", baseline); ("rtk1_iar", iar)]
                  else [("rtk2_baseline_mm", baseline); ("rtk2_iar", iar)])].

Definition _VSLAM_METRIC_NAMES : list (string * string) :=
  [("VSLAM_HZ", "rate_hz"); ("VSLAM_CONF", "confidence"); ("VSLAM_AGE", "age_ms");
   ("VSLAM_COV", "covariance_norm")].

Definition _handle_named_value_float (msg : Msg) : res exn (list Op) :=
  name ← metric_name msg;
  match od_get _VSLAM_METRIC_NAMES name with
  | None => Ok []
  | Some key => v ← attr msg "value"; f ← py_float v; Ok [update_vslam [(key, VFloat f)]]
  end.

Definition _handle_statustext (msg : Msg) : res exn (list Op) :=
  let text := getattr msg "text" (VStr "") in
  Ok (if py_bool text then [update_mav [("last_statustext", text)]] else []).

(** The updates a message causes; [now] is [time.time()]. *)
Definition handle_message (now : float) (msg : Msg) : res exn (list Op) :=
  let mtype := get_type msg in
  if bool_decide (mtype = "HEARTBEAT") then _handle_heartbeat now msg
  else if bool_decide (mtype = "VFR_HUD") then _handle_vfr_hud msg
  else if bool_decide (mtype ∈ ["GPS_RAW_INT"; "GPS2_RAW"]) then _handle_gps_raw now msg mtype
  else if bool_decide (mtype ∈ ["GPS_RTK"; "GPS2_RTK"]) then _handle_gps_rtk msg mtype
  else if bool_decide (mtype = "NAMED_VALUE_FLOAT") then _handle_named_value_float msg
  else if bool_decide (mtype = "STATUSTEXT") then _handle_statustext msg
  else Ok [].
End Kiosk.
Export Kiosk.

(** What a thread sees of the shared state and of the shutdown event. *)
Class Shared (W : Type) := {
  sh_update : Op -> prog exn W unit;
  sh_snapshot : prog exn W SharedState;
  sh_is_set : prog exn W bool;
  sh_set : prog exn W unit
}.

(** The display's socket, the local variable [client] of [run_kiosk] and the
    systemd notifier. *)
Class Display (W : Type) := {
  k_exists : string -> prog exn W bool;
  k_unlink : string -> prog exn W unit;
  (** [bind], [listen(1)], [settimeout(1.0)] *)
  k_bind : string -> prog exn W unit;
  k_accept : prog exn W unit;
  k_sendall : list Z -> prog exn W unit;
  k_close_client : prog exn W unit;
  k_close : prog exn W unit;
  (** whether [client] is a socket; raises when it has not been assigned yet *)
  k_client : prog exn W bool;
  k_set_client : bool -> prog exn W unit;
  k_notify : string -> prog exn W unit
}.

(** The background threads of the server. *)
Inductive Worker : Type :=
| mavlink_reader (endpoint : string)
| slow_poller (units : list string).

(** [Thread(...).start()] and [join(timeout=3.0)]. *)
Class Workers (W : Type) := { th_start : Worker -> prog exn W unit; th_join : Worker -> prog exn W unit }.

Module KioskApp.
Section threads.
Context {W : Type} `{!Link W} `{!Dialer W} `{!Sys W} `{!Shared W} `{!Display W}.

(** ** The reader thread *)
Definition wait_round (_ : unit) : prog exn W (unit + unit) :=
  stop ← sh_is_set;
  if (stop : bool) then mret (inr tt)
  else hb ← d_wait_heartbeat (F.of_Z 10); if (hb : bool) then mret (inr tt) else mret (inl tt).

Definition reader_round (_ : unit) : prog exn W (unit + unit) :=
  stop ← sh_is_set;
  if (stop : bool) then mret (inr tt)
  else
    msg ← l_recv [] (Some (ms 500));
    match msg with
    | None => mret (inl tt)
    | Some msg =>
        now ← l_time;
        ops ← plift (handle_message (mono now) msg);
        _ ← piter sh_update ops;
        mret (inl tt)
    end.

Definition mavlink_reader_loop (fuel : nat) (endpoint : string) (has_conn : bool) : prog exn W unit :=
  stopped ← (if has_conn then mret false
             else _ ← d_connect endpoint 0; _ ← ploop fuel wait_round tt; sh_is_set);
  if (stopped : bool) then mret tt else ploop fuel reader_round tt.

Definition _mavlink_reader_thread (fuel : nat) (endpoint : string) : prog exn W unit :=
  pexcept [Exception] (mavlink_reader_loop fuel endpoint false) (fun _ => _ ← sh_is_set; mret tt).

(** ** The slow poller *)
Definition _unit_display_key (unit : string) : string :=
  let name := removeprefix "mower-" unit in
  let name := match S.prefix_of (rev (S.chars ".service")) (rev (S.chars name)) with
              | Some r => S.ofl (rev r) | None => name end in
  S.replace "-" "_" name.

Definition or_str (s d : string) : string := if bool_decide (s = "") then d else s.

Definition check_service (result : list (string * string)) (unit : string)
  : prog exn W (list (string * string)) :=
  status ← pexcept [TimeoutExpired; FileNotFoundError; OSError]
    ('(_, stdout) ← y_run ["systemctl"; "is-active"; unit] 5;
     mret (or_str (S.strip stdout) "unknown"))
    (fun _ => mret "unknown");
  mret (od_set result (_unit_display_key unit) status).

Definition _check_services (units : option (list string)) : prog exn W (list (string * string)) :=
  pfold check_service [] (default JetsonConfig._default_kiosk_service_units units).

(** The hottest zone whose name mentions [what]. *)
Definition hottest (what : string) (zs : list ThermalZone) : float :=
  foldl (fun acc z => if S.contains what (S.lower (tz_name z)) && F.gtb (temp_c z) acc
                      then temp_c z else acc) F.zero zs.

Definition percent (used total : float) : float := F.mul (F.div used total) (F.of_Z 100).

(** [nvme_pct], [nvme_free_gb] and [root_pct]. *)
Definition disk_figures (st : float * string * float) (d : DiskUsage) : float * string * float :=
  let '(nvme_pct, nvme_free, root_pct) := st in
  let has_size := F.gtb (total_gb d) F.zero in
  let '(nvme_pct, nvme_free) :=
    if is_nvme d then
      (if has_size then percent (used_gb d) (total_gb d) else nvme_pct,
       S.join "" [F.fmt_fixed 1 (free_gb d); " GB"])
    else (nvme_pct, nvme_free) in
  (nvme_pct, nvme_free,
   if bool_decide (mount_point d = "/") && has_size then percent (used_gb d) (total_gb d) else root_pct).

Definition or_dashes (o : option string) : PyVal := VStr (or_str (default "" o) "--").

Definition _poll_health (sysroot : string) (service_units : option (list string)) : prog exn W unit :=
  thermal ← read_thermal_zones sysroot;
  power ← read_power_state sysroot;
  disks ← read_disk_usage sysroot;
  let '(nvme_pct, nvme_free_gb, root_pct) := foldl disk_figures (F.zero, "--", F.zero) disks in
  wifi ← read_wifi_status sysroot;
  _ ← match wifi with
      | Some w => sh_update (update_wifi (interface w) (signal_dbm w) (link_quality w))
      | None => mret tt
      end;
  services ← _check_services service_units;
  _ ← sh_update (update_health
        [("cpu_temp_c", VFloat (F.round 1 (hottest "cpu" (zones thermal))));
         ("gpu_temp_c", VFloat (F.round 1 (hottest "gpu" (zones thermal))));
         ("power_mode", or_dashes (mode_name power)); ("fan_status", or_dashes (fan_profile power))]);
  _ ← sh_update (update_storage
        [("nvme_pct", VFloat (F.round 1 nvme_pct)); ("nvme_free_gb", VStr nvme_free_gb);
         ("root_pct", VFloat (F.round 1 root_pct))]);
  sh_update (update_services services).

(** [n] naps of 100 ms; [true] when the event was set before one of them. *)
Fixpoint nap (n : nat) : prog exn W bool :=
  match n with
  | O => mret false
  | Datatypes.S n' =>
      stop ← sh_is_set;
      if (stop : bool) then mret true else _ ← l_sleep (ms 100); nap n'
  end.

Definition poller_round (sysroot : string) (units : option (list string)) (_ : unit)
  : prog exn W (unit + unit) :=
  stop ← sh_is_set;
  if (stop : bool) then mret (inr tt)
  else
    _ ← pexcept [Exception] (_poll_health sysroot units) (fun _ => mret tt);
    stop ← nap 50;
    mret (if (stop : bool) then inr tt else inl tt).

Definition _slow_poller_thread (fuel : nat) (sysroot : string) (units : option (list string))
  : prog exn W unit := ploop fuel (poller_round sysroot units) tt.

(** What a thread runs. *)
Definition worker_body (fuel : nat) (sysroot : string) (t : Worker) : prog exn W unit :=
  match t with
  | mavlink_reader endpoint => _mavlink_reader_thread fuel endpoint
  | slow_poller units => _slow_poller_thread fuel sysroot (Some units)
  end.

(** ** The server *)
Definition KIOSK_SOCKET_PATH : string := "/run/mower/kiosk-display.sock".

Definition _should_notify_watchdog (last_hb now staleness_s : float) : bool :=
  if F.eqb last_hb F.zero then true else F.ltb (F.sub now last_hb) staleness_s.

Variable json_dumps : PyVal -> res exn string.

Definition bytes_of (s : string) : list Z := map (fun c => Z.of_N (S.code c)) (S.chars s).

(** A length-prefixed frame. *)
Definition frame_of (payload : list Z) : res exn (list Z) :=
  len ← Struct.pack_uint 4 (Z.of_nat (length payload)); Ok (len ++ payload).

Definition last_heartbeat_of (s : SharedState) : res exn float :=
  match od_get (_mav s) "last_heartbeat_epoch" with
  | Some v => py_float v
  | None => raise_ KeyError [L "'last_heartbeat_epoch'"]
  end.

Definition drop_client : prog exn W unit :=
  _ ← pexcept [OSError] k_close_client (fun _ => mret tt); k_set_client false.

(** [true] when there is a client to push to. *)
Definition accept_client : prog exn W bool :=
  have ← k_client;
  if (have : bool) then mret true
  else pexcept [TimeoutError] (_ ← k_accept; _ ← k_set_client true; mret true) (fun _ => mret false).

(** One turn of the server loop; the variable is [watchdog_suppressed]. *)
Definition server_round (staleness_s : float) (suppressed : bool) : prog exn W (bool + unit) :=
  stop ← sh_is_set;
  if (stop : bool) then mret (inr tt)
  else
    snap ← sh_snapshot;
    last_hb ← plift (last_heartbeat_of snap);
    now ← l_time;
    let should := _should_notify_watchdog last_hb (mono now) staleness_s in
    _ ← (if should then k_notify "WATCHDOG=1" else mret tt);
    have ← accept_client;
    if negb have then mret (inl (negb should))
    else
      text ← plift (json_dumps (snapshot snap));
      frame ← plift (frame_of (bytes_of text));
      sent ← pexcept [BrokenPipeError; ConnectionResetError; OSError]
               (_ ← k_sendall frame; mret true) (fun _ => _ ← drop_client; mret false);
      _ ← (if (sent : bool) then _ ← nap 10; mret tt else mret tt);
      mret (inl (negb should)).

Context `{!Workers W}.

Definition shut_down (sock_path : string) (threads : list Worker) : prog exn W unit :=
  _ ← k_notify "STOPPING=1";
  _ ← sh_set;
  have ← k_client;
  _ ← (if (have : bool) then pexcept [OSError] k_close_client (fun _ => mret tt) else mret tt);
  _ ← k_close;
  e ← k_exists sock_path;
  _ ← (if (e : bool) then k_unlink sock_path else mret tt);
  piter th_join threads.

(** [run_kiosk] after the threads have been started. *)
Definition serve (fuel : nat) (staleness_s : float) (sock_path : string) (threads : list Worker) : prog exn W unit :=
  e ← k_exists sock_path;
  _ ← (if (e : bool) then k_unlink sock_path else mret tt);
  pfinally
    (_ ← k_bind sock_path;
     _ ← k_notify "READY=1";
     _ ← k_set_client false;
     ploop fuel (server_round staleness_s) false)
    (shut_down sock_path threads).

Context `{!FileStore W}.
Definition run_kiosk (yaml_safe_load : string -> res exn PyVal) (DEFAULT_JETSON_CONFIG_PATH : string) (fuel : nat)
    (mavlink_endpoint : string) : prog exn W unit :=
  _ ← th_start (mavlink_reader mavlink_endpoint);
  cfg ← JetsonConfig.load_jetson_config yaml_safe_load DEFAULT_JETSON_CONFIG_PATH None;
  let poller := slow_poller (JetsonConfig.service_check_units (JetsonConfig.kiosk cfg)) in
  _ ← th_start poller;
  serve fuel (JetsonConfig.heartbeat_staleness_s (JetsonConfig.kiosk cfg)) KIOSK_SOCKET_PATH
    [mavlink_reader mavlink_endpoint; poller].
End threads.
End KioskApp.
Export KioskApp.

(** ** The updates of a thread *)

Definition reader_op (o : Op) : Prop :=
  match o with update_mav _ | update_vslam _ => True | _ => False end.

(** The MAVLink thread only makes reader updates. *)
Lemma handle_message_ops now msg ops : handle_message now msg = Ok ops -> Forall reader_op ops.
Proof.
  assert (forall kw, Forall reader_op [update_mav kw]) as H1 by (by repeat constructor).
  assert (forall kw, Forall reader_op [update_vslam kw]) as H2 by (by repeat constructor).
  unfold handle_message, _handle_heartbeat, _handle_vfr_hud, _handle_gps_raw, _handle_gps_rtk,
    _handle_named_value_float, _handle_statustext. intros H.
  repeat (case_bool_decide || (rewrite rbind_ok in H; destruct H as (? & _ & H))).
  all: try (destruct (od_get _ _)); try (destruct (py_bool _));
    repeat (rewrite rbind_ok in H; destruct H as (? & _ & H)); try injection H as <-; auto; constructor.
Qed.

(** Updates with their time stamps, applied in order. *)
Definition run_ops (l : list (string * Op)) (s : SharedState) : SharedState :=
  foldl (fun s to => apply_op to.1 to.2 s) s l.

(** ** Frames *)

(** What a client does with the stream. *)
Fixpoint read_frames (fuel : nat) (stream : list Z) : list (list Z) :=
  match fuel, stream with
  | Datatypes.S n, _ :: _ =>
      let len := Z.to_nat (Struct.of_le (take 4 stream)) in
      take len (drop 4 stream) :: read_frames n (drop len (drop 4 stream))
  | _, _ => []
  end.

Lemma frame_of_ok payload :
  Z.of_nat (length payload) < 2 ^ 32 ->
  frame_of payload = Ok (Struct.le_bytes 4 (Z.of_nat (length payload)) ++ payload).
Proof. intros H. unfold frame_of. rewrite pack_uint_ok; [done|]. change (256 ^ Z.of_nat 4) with (2 ^ 32). lia. Qed.

(** Frames delimit themselves: payloads of less than 4 GiB, framed one after
    the other on the socket, read back as the same payloads in the same order. *)
Lemma frames_roundtrip payloads
    (Hlen : Forall (fun p => Z.of_nat (length p) < 2 ^ 32) payloads) :
  exists frames, rmap frame_of payloads = Ok frames /\
    read_frames (length payloads) (concat frames) = payloads.
Proof.
  induction Hlen as [|p ps Hp _ (fs & Hfs & Hread)]; [by exists []|].
  cbn [rmap]. rewrite frame_of_ok by done. cbn [mbind res_bind]. rewrite Hfs. cbn [mbind res_bind].
  eexists. split; [reflexivity|]. cbn [length concat].
  set (h := Struct.le_bytes 4 (Z.of_nat (length p))).
  assert (length h = 4%nat) as Hh by apply Struct.le_bytes_length.
  assert (Struct.of_le h = Z.of_nat (length p)) as Hv by (apply Struct.of_le_bytes; cbn; lia).
  rewrite <- !app_assoc. destruct h as [|b h'] eqn:Eh; [done|]. cbn [app read_frames].
  change (b :: h' ++ p ++ concat fs) with ((b :: h') ++ p ++ concat fs).
  rewrite take_app_length', drop_app_length' by done. rewrite Hv, Nat2Z.id.
  rewrite take_app_length, drop_app_length. by rewrite Hread.
Qed.

Lemma frames_roundtrip_witness :
  exists frames, rmap frame_of [bytes_of "{}"; []; bytes_of "[1]"] = Ok frames /\
    read_frames 3 (concat frames) = [bytes_of "{}"; []; bytes_of "[1]"].
Proof. apply (frames_roundtrip [bytes_of "{}"; []; bytes_of "[1]"]). repeat constructor. Defined.

(** ** Whose heartbeat it was *)

Lemma set_fields_cons m k v kw :
  k ∈ od_keys m -> set_fields m ((k, v) :: kw) = set_fields (od_set m k v) kw.
Proof. intros Hk. unfold set_fields. cbn [foldl fst snd]. by rewrite bool_decide_eq_true_2. Qed.

Lemma set_fields_other m kw k : k ∉ od_keys kw -> od_get (set_fields m kw) k = od_get m k.
Proof.
  revert m. induction kw as [|[k' v] kw IH]; intros m Hk; [done|].
  cbn [od_keys map fst] in Hk. apply not_elem_of_cons in Hk as [Hne Hk].
  unfold set_fields in *. cbn [foldl fst snd]. case_bool_decide; [|by apply IH].
  rewrite IH by done. by apply od_get_set_ne.
Qed.

(** [_handle_heartbeat] does not look at the sender: the bridge's own heartbeat
    (component 197, no mode bits) makes an armed rover show as disarmed and in
    MANUAL. *)
Lemma companion_heartbeat_disarms now s t fs :
  od_get fs "base_mode" = Some (VInt 0) -> od_get fs "custom_mode" = Some (VInt 0) ->
  od_keys (_mav s) = od_keys MavTelemetry ->
  exists ops, handle_message now (MESSAGE "HEARTBEAT" fs) = Ok ops /\
    od_get (_mav (run_ops (map (fun o => (t, o)) ops) s)) "armed" = Some (VBool false) /\
    od_get (_mav (run_ops (map (fun o => (t, o)) ops) s)) "mode" = Some (VStr "MANUAL").
Proof.
  intros Hb Hc Hk. unfold handle_message, _handle_heartbeat, mode_name_of, getattr. cbn [get_type].
  rewrite bool_decide_eq_true_2, Hb, Hc by done. cbn. eexists. split; [reflexivity|].
  destruct s as [m ? ? ? ? ? ? ? ?]. cbn [_mav] in *. cbn [map run_ops foldl apply_op fst snd _mav].
  assert (forall k, k ∈ od_keys MavTelemetry -> k ∈ od_keys m) as Hin by (intros k; by rewrite Hk).
  rewrite set_fields_cons by (apply Hin; apply (bool_decide_unpack _); vm_compute; exact I). split.
  - rewrite set_fields_other, od_get_set_eq; [done|].
    apply (bool_decide_unpack _); vm_compute; exact I.
  - rewrite set_fields_cons by
      (apply od_keys_set_elem; right; apply Hin; apply (bool_decide_unpack _); vm_compute; exact I).
    rewrite set_fields_other, od_get_set_eq; [done|].
    apply (bool_decide_unpack _); vm_compute; exact I.
Qed.

(** ** A socket that cannot be bound *)

(** When [bind] fails, [client] is unbound in the [finally] block: its own
    exception replaces the one of [bind], the socket is not closed and the threads
    are not joined. *)
Lemma bind_failure_masked {W} `{!Link W} `{!Shared W} `{!Display W} `{!Workers W} json_dumps fuel staleness path threads
    (w w1 w2 w3 w4 w5 : W) e u :
  k_exists path w = Some (Ok false, w1) -> k_bind path w1 = Some (Err e, w2) ->
  k_notify "STOPPING=1" w2 = Some (Ok tt, w3) -> sh_set w3 = Some (Ok tt, w4) ->
  k_client w4 = Some (Err u, w5) ->
  serve json_dumps fuel staleness path threads w = Some (Err u, w5).
Proof.
  intros H1 H2 H3 H4 H5. unfold serve. rewrite (pbind_step _ _ _ _ _ H1).
  rewrite (pbind_step (mret tt) _ w1 tt w1 eq_refl). unfold pfinally. rewrite (pbind_err _ _ _ _ _ H2).
  unfold shut_down. by rewrite (pbind_step _ _ _ _ _ H3), (pbind_step _ _ _ _ _ H4), (pbind_err _ _ _ _ _ H5).
Qed.
