(* ===== verification/KioskLock.v ===== *)
(** * The lock of the kiosk's shared state (kiosk/state.py)

    The methods of [SharedState] statement by statement, run by any number of
    threads whose statements interleave freely: only entering [with self._lock]
    waits.  Every snapshot that is returned shows the state after whole calls,
    one at a time, in an order that respects each thread's own. *)

From stdpp Require Import base gmap sets list strings option relations.
From Stdlib Require Import Ascii ZArith Lia.
From S2P Require Import Prelude Float64 PyVal Kiosk.

Module KioskLock.
(** The entries of a snapshot beside [asdict(self._mav)], in the order they are
    read. *)
Definition entries : list (string * (SharedState -> PyVal)) :=
  [("wifi_interface", fun s => VStr (_wifi_interface s));
   ("wifi_signal_dbm", fun s => VFloat (_wifi_signal_dbm s));
   ("wifi_link_quality", fun s => VFloat (_wifi_link_quality s));
   ("vslam", fun s => vdict (_vslam s)); ("health", fun s => vdict (_health s));
   ("storage", fun s => vdict (_storage s));
   ("services", fun s => vdict (map (fun kv => (kv.1, VStr kv.2)) (_services s)));
   ("last_update", fun s => VStr (_last_update s))].

(** A statement of a method; a dictionary is updated key by key, [asdict] reads
    field by field, and [Return] fixes the value of the return statement, which
    the lock is still held for. *)
Inductive Stmt : Type :=
| Acquire
| Release
| SetMav (key : string) (value : PyVal)
| SetWifiInterface (interface : string)
| SetWifiSignal (signal_dbm : float)
| SetWifiQuality (link_quality : float)
| SetVslam (key : string) (value : PyVal)
| SetHealth (key : string) (value : PyVal)
| SetStorage (key : string) (value : PyVal)
| SetService (unit_name state : string)
| Stamp (now : string)
| ReadMav (field : string)
| ReadEntry (name : string) (read : SharedState -> PyVal)
| Return.

(** A call of a method; the clock reading of an update is [now]. *)
Inductive Call : Type :=
| Update (now : string) (o : Op)
| Snapshot.

Definition each {A B} (f : string -> A -> B) (kw : list (string * A)) : list B := map (fun kv => f kv.1 kv.2) kw.

(** What a method does between taking the lock and giving it back. *)
Definition inner (c : Call) : list Stmt :=
  match c with
  | Update now (update_mav kw) => each SetMav kw ++ [Stamp now]
  | Update now (update_wifi i sg q) => [SetWifiInterface i; SetWifiSignal sg; SetWifiQuality q; Stamp now]
  | Update now (update_vslam kw) => each SetVslam kw ++ [Stamp now]
  | Update now (update_health kw) => each SetHealth kw ++ [Stamp now]
  | Update now (update_storage kw) => each SetStorage kw ++ [Stamp now]
  | Update now (update_services d) => each SetService d ++ [Stamp now]
  | Snapshot => map ReadMav (od_keys MavTelemetry) ++ each ReadEntry entries ++ [Return]
  end.

Definition body (c : Call) : list Stmt := [Acquire] ++ inner c ++ [Release].
Definition program (calls : list Call) : list Stmt := concat (map body calls).

(** What a statement writes. *)
Definition exec (s : SharedState) (st : Stmt) : SharedState :=
  let '(mkState m wi ws wq v h sto sv u) := s in
  match st with
  | SetMav k x => mkState (if bool_decide (k ∈ od_keys m) then od_set m k x else m) wi ws wq v h sto sv u
  | SetWifiInterface i => mkState m i ws wq v h sto sv u
  | SetWifiSignal f => mkState m wi f wq v h sto sv u
  | SetWifiQuality f => mkState m wi ws f v h sto sv u
  | SetVslam k x => mkState m wi ws wq (od_set v k x) h sto sv u
  | SetHealth k x => mkState m wi ws wq v (od_set h k x) sto sv u
  | SetStorage k x => mkState m wi ws wq v h (od_set sto k x) sv u
  | SetService k x => mkState m wi ws wq v h sto (od_set sv k x) u
  | Stamp now => mkState m wi ws wq v h sto sv now
  | _ => s
  end.

(** The dictionaries a thread is building: [asdict(self._mav)] and the rest. *)
Definition Building : Type := (Kwargs * Kwargs)%type.
Definition read (s : SharedState) (b : Building) (st : Stmt) : Building :=
  match st with
  | ReadMav f => (b.1 ++ [(f, default VNone (od_get (_mav s) f))], b.2)
  | ReadEntry n get => (b.1, b.2 ++ [(n, get s)])
  | _ => b
  end.
Definition built (b : Building) : PyVal := vdict (("mav", vdict b.1) :: b.2).

Record Thread : Type := { todo : list Stmt; building : Building }.
Record System : Type := {
  shared : SharedState; owner : option nat; threads : list Thread; returned : list (nat * PyVal) }.

(** One statement of some thread.  No statement but [Acquire] waits for anything. *)
Inductive step (c : System) : System -> Prop :=
| step_acquire i rest b :
    threads c !! i = Some {| todo := Acquire :: rest; building := b |} -> owner c = None ->
    step c {| shared := shared c; owner := Some i;
              threads := <[i := {| todo := rest; building := ([], []) |}]> (threads c); returned := returned c |}
| step_release i rest b :
    threads c !! i = Some {| todo := Release :: rest; building := b |} ->
    step c {| shared := shared c; owner := None;
              threads := <[i := {| todo := rest; building := b |}]> (threads c); returned := returned c |}
| step_return i rest b :
    threads c !! i = Some {| todo := Return :: rest; building := b |} ->
    step c {| shared := shared c; owner := owner c;
              threads := <[i := {| todo := rest; building := b |}]> (threads c);
              returned := returned c ++ [(i, built b)] |}
| step_plain i st rest b :
    threads c !! i = Some {| todo := st :: rest; building := b |} ->
    st <> Acquire -> st <> Release -> st <> Return ->
    step c {| shared := exec (shared c) st; owner := owner c;
              threads := <[i := {| todo := rest; building := read (shared c) b st |}]> (threads c);
              returned := returned c |}.

(** Each thread makes its calls in order, from the initial state. *)
Definition start (progs : list (list Call)) : System :=
  {| shared := SharedState_init; owner := None;
     threads := map (fun calls => {| todo := program calls; building := ([], []) |}) progs; returned := [] |}.
(** The step of a given thread, when it can make one. *)
Definition move (c : System) (i : nat) : option System :=
  t ← threads c !! i;
  match todo t with
  | [] => None
  | st :: rest =>
      let next b := <[i := {| todo := rest; building := b |}]> (threads c) in
      match st with
      | Acquire =>
          match owner c with
          | None => Some {| shared := shared c; owner := Some i; threads := next ([], []); returned := returned c |}
          | Some _ => None
          end
      | Release => Some {| shared := shared c; owner := None; threads := next (building t); returned := returned c |}
      | Return => Some {| shared := shared c; owner := owner c; threads := next (building t);
                          returned := returned c ++ [(i, built (building t))] |}
      | _ => Some {| shared := exec (shared c) st; owner := owner c;
                     threads := next (read (shared c) (building t) st); returned := returned c |}
      end
  end.
Fixpoint schedule (turns : list nat) (c : System) : option System :=
  match turns with [] => Some c | i :: turns => c' ← move c i; schedule turns c' end.
End KioskLock.
Export KioskLock.

(** ** What a history of whole calls shows *)

(** Calls with the thread that made them, in the order they took effect. *)
Abbreviation History := (list (nat * Call)).

Definition calls_of (i : nat) (h : History) : list Call := omap (fun ic => if decide (ic.1 = i) then Some ic.2 else None) h.

Definition writes {A} (f : Op -> list A) (h : History) : list A :=
  concat (map (fun ic => match ic.2 with Update _ o => f o | Snapshot => [] end) h).

Definition stamps (h : History) : list string :=
  omap (fun ic => match ic.2 with Update now _ => Some now | Snapshot => None end) h.

(** The value a key was given last. *)
Definition last_value {A} (k : string) (l : list (string * A)) : option A :=
  snd <$> list.last (List.filter (fun kv => bool_decide (kv.1 = k)) l).

Definition mav_of (o : Op) := match o with update_mav kw => kw | _ => [] end.
Definition vslam_of (o : Op) := match o with update_vslam kw => kw | _ => [] end.
Definition health_of (o : Op) := match o with update_health kw => kw | _ => [] end.
Definition storage_of (o : Op) := match o with update_storage kw => kw | _ => [] end.
Definition services_of (o : Op) := match o with update_services d => d | _ => [] end.
Definition wifi_of (o : Op) := match o with update_wifi i sg q => [(i, sg, q)] | _ => [] end.

(** Every entry is what the last call of the history that wrote it gave it, or
    its initial value; the time stamp is that of the last update of any kind. *)
Record shows (h : History) (s : SharedState) : Prop := {
  shows_mav k v : od_get MavTelemetry k = Some v ->
    od_get (_mav s) k = Some (default v (last_value k (writes mav_of h)));
  shows_mav_keys : od_keys (_mav s) = od_keys MavTelemetry;
  shows_wifi : (_wifi_interface s, _wifi_signal_dbm s, _wifi_link_quality s) =
    default ("", F.zero, F.zero) (list.last (writes wifi_of h));
  shows_vslam k : od_get (_vslam s) k = last_value k (writes vslam_of h);
  shows_health k : od_get (_health s) k = last_value k (writes health_of h);
  shows_storage k : od_get (_storage s) k = last_value k (writes storage_of h);
  shows_services k : od_get (_services s) k = last_value k (writes services_of h);
  shows_stamp : _last_update s = default "" (list.last (stamps h))
}.

(** ** The calls one at a time *)

Definition effect (c : Call) (s : SharedState) : SharedState :=
  match c with Update now o => apply_op now o s | Snapshot => s end.

Definition serial (h : History) : SharedState := foldl (fun s ic => effect ic.2 s) SharedState_init h.

Lemma serial_snoc h i c : serial (h ++ [(i, c)]) = effect c (serial h).
Proof. unfold serial. by rewrite foldl_app. Qed.

Lemma od_update_cons {A} (d : list (string * A)) k v kw : od_update d ((k, v) :: kw) = od_update (od_set d k v) kw.
Proof. done. Qed.

(** Run to its end undisturbed, a method does what [apply_op] says. *)
Lemma exec_inner c s : foldl exec s (inner c) = effect c s.
Proof.
  destruct c as [now o|]; [|by destruct s].
  destruct s as [m wi ws wq v h sto sv u]. destruct o as [kw|i sg q|kw|kw|kw|d]; [|done|..];
    cbn [inner effect apply_op]; rewrite foldl_app; unfold each.
  - replace (foldl exec _ (map _ kw)) with (mkState (set_fields m kw) wi ws wq v h sto sv u); [done|].
    symmetry. revert m. induction kw as [|[k x] kw IH]; intros m; [done|]. cbn [map foldl exec fst snd]. by rewrite IH.
  - replace (foldl exec _ (map _ kw)) with (mkState m wi ws wq (od_update v kw) h sto sv u); [done|].
    symmetry. revert v. induction kw as [|[k x] kw IH]; intros v; [done|]. cbn [map foldl exec fst snd]. by rewrite IH.
  - replace (foldl exec _ (map _ kw)) with (mkState m wi ws wq v (od_update h kw) sto sv u); [done|].
    symmetry. revert h. induction kw as [|[k x] kw IH]; intros h; [done|]. cbn [map foldl exec fst snd]. by rewrite IH.
  - replace (foldl exec _ (map _ kw)) with (mkState m wi ws wq v h (od_update sto kw) sv u); [done|].
    symmetry. revert sto. induction kw as [|[k x] kw IH]; intros sto; [done|]. cbn [map foldl exec fst snd]. by rewrite IH.
  - replace (foldl exec _ (map _ d)) with (mkState m wi ws wq v h sto (od_update sv d) u); [done|].
    symmetry. revert sv. induction d as [|[k x] d IH]; intros sv; [done|]. cbn [map foldl exec fst snd]. by rewrite IH.
Qed.

(** *** Last write wins *)
Lemma last_value_app {A} k (a b : list (string * A)) :
  last_value k (a ++ b) = match last_value k b with Some v => Some v | None => last_value k a end.
Proof.
  unfold last_value. rewrite List.filter_app. generalize (List.filter (fun kv => bool_decide (kv.1 = k)) a).
  generalize (List.filter (fun kv => bool_decide (kv.1 = k)) b). clear. intros b a.
  destruct (list.last b) as [[k' v]|] eqn:Hb; cbn.
  - apply list.last_Some in Hb as [b' ->]. by rewrite app_assoc, last_snoc.
  - apply list.last_None in Hb as ->. by rewrite app_nil_r.
Qed.

Lemma last_value_cons {A} k (kv : string * A) l :
  last_value k (kv :: l) = match last_value k l with Some v => Some v | None => last_value k [kv] end.
Proof. exact (last_value_app k [kv] l). Qed.

Lemma od_get_update {A} (d kw : list (string * A)) k :
  od_get (od_update d kw) k = match last_value k kw with Some v => Some v | None => od_get d k end.
Proof.
  revert d. induction kw as [|[k' v] kw IH]; intros d; [done|]. rewrite od_update_cons, IH.
  rewrite (last_value_cons k (k', v)). destruct (last_value k kw); [done|].
  unfold last_value. cbn. rewrite od_get_set. case_bool_decide; case_decide; subst; done.
Qed.

Lemma set_fields_get m kw k v :
  od_get m k = Some v -> od_get (set_fields m kw) k = Some (default v (last_value k kw)) /\
  od_keys (set_fields m kw) = od_keys m.
Proof.
  revert m v. induction kw as [|[k' x] kw IH]; intros m v Hk; [done|].
  unfold set_fields in *. cbn [foldl fst snd]. rewrite (last_value_cons k (k', x)).
  destruct (decide (k' ∈ od_keys m)) as [Hin|Hin].
  - rewrite bool_decide_eq_true_2 by done. destruct (decide (k = k')) as [->|Hne].
    + destruct (IH (od_set m k' x) x) as [Hg Hks]; [apply od_get_set_eq|].
      rewrite Hg, Hks, od_keys_set_old by done. split; [|done].
      destruct (last_value k' kw); [done|]. unfold last_value. cbn. by rewrite bool_decide_eq_true_2.
    + destruct (IH (od_set m k' x) v) as [Hg Hks]; [by rewrite od_get_set_ne by done|].
      rewrite Hg, Hks, od_keys_set_old by done. split; [|done].
      destruct (last_value k kw); [done|]. unfold last_value. cbn. by rewrite bool_decide_eq_false_2.
  - rewrite bool_decide_eq_false_2 by done. destruct (IH m v Hk) as [Hg Hks]. rewrite Hg, Hks. split; [|done].
    destruct (last_value k kw); [done|]. unfold last_value. cbn.
    rewrite bool_decide_eq_false_2; [done|]. intros ->. apply Hin, od_get_some_key. by exists v.
Qed.

Lemma writes_snoc {A} (f : Op -> list A) h i c :
  writes f (h ++ [(i, c)]) = writes f h ++ match c with Update _ o => f o | Snapshot => [] end.
Proof. unfold writes. rewrite map_app, concat_app. cbn. by rewrite app_nil_r. Qed.

Lemma stamps_snoc h i c :
  stamps (h ++ [(i, c)]) = stamps h ++ match c with Update now _ => [now] | Snapshot => [] end.
Proof. unfold stamps. rewrite omap_app. by destruct c. Qed.

Lemma serial_shows h : shows h (serial h).
Proof.
  induction h as [|[i c] h IH] using rev_ind.
  { by split. }
  destruct IH as [Hm Hk Hw Hv Hh Ht Hsv Hu]. rewrite serial_snoc.
  destruct c as [now o|].
  2:{ cbn [effect]. split; intros; rewrite ?writes_snoc, ?stamps_snoc, ?app_nil_r; auto. }
  assert (Hkeys : forall kw, od_keys (set_fields (_mav (serial h)) kw) = od_keys MavTelemetry).
  { intros kw. destruct (od_get MavTelemetry "armed") as [v|] eqn:Ha; [|by vm_compute in Ha].
    specialize (Hm _ _ Ha). by rewrite (proj2 (set_fields_get _ kw _ _ Hm)). }
  destruct (serial h) as [m wi ws wq v he sto sv u]. cbn in *.
  destruct o; cbn; split; cbn; intros;
    rewrite ?writes_snoc, ?stamps_snoc; cbn [mav_of vslam_of health_of storage_of services_of wifi_of];
    rewrite ?app_nil_r, ?last_snoc, ?last_value_app, ?od_get_update; auto.
  - specialize (Hm _ _ H). destruct (set_fields_get _ kwargs _ _ Hm) as [Hg _]. rewrite Hg.
    by destruct (last_value k kwargs).
  - apply Hkeys.
  - by rewrite Hv.
  - by rewrite Hh.
  - by rewrite Ht.
  - by rewrite Hsv.
Qed.

(** *** A snapshot read undisturbed *)
Definition reads : list Stmt := map ReadMav (od_keys MavTelemetry) ++ each ReadEntry entries.

Lemma reads_build s :
  od_keys (_mav s) = od_keys MavTelemetry -> built (foldl (read s) ([], []) reads) = snapshot s.
Proof.
  intros Hk. unfold reads. rewrite foldl_app.
  assert (forall ks b, foldl (read s) b (map ReadMav ks) =
            (b.1 ++ map (fun k => (k, default VNone (od_get (_mav s) k))) ks, b.2)) as Hmav.
  { intros ks. induction ks as [|k ks IH]; intros [b1 b2]; cbn [map foldl read fst snd]; [by rewrite app_nil_r|].
    rewrite IH; cbn [fst snd]. by rewrite <- app_assoc. }
  rewrite Hmav, <- Hk. unfold built. cbn [each entries map foldl read fst snd app].
  replace (map _ (od_keys (_mav s))) with (_mav s); [done|].
  assert (NoDup (od_keys (_mav s))) as Hnd by (rewrite Hk; apply (bool_decide_unpack _); vm_compute; exact I).
  clear -Hnd. induction (_mav s) as [|[k v] m IH]; [done|]. cbn [od_keys map fst od_get] in *.
  apply NoDup_cons in Hnd as [Hn Hnd]. rewrite decide_True by done. cbn [default]. f_equal.
  rewrite (IH Hnd) at 1. apply map_ext_in. intros k' Hk'. rewrite decide_False; [done|].
  intros ->. by apply Hn, list_elem_of_In.
Qed.

(** ** The lock keeps calls whole *)

Lemma inner_plain c st : st ∈ inner c -> st <> Acquire /\ st <> Release.
Proof.
  intros Hst. assert (Forall (fun st => st <> Acquire /\ st <> Release) (inner c)) as Hall.
  2:{ rewrite list.Forall_forall in Hall. by apply Hall. }
  destruct c as [now o|]; [|by repeat constructor].
  destruct o; cbn [inner]; try (apply list.Forall_app; split); try (by repeat constructor);
    apply list.Forall_forall; unfold each; intros ? (? & -> & _)%list_elem_of_fmap; done.
Qed.

(** The return is the last thing a method does, after every read. *)
Lemma return_last c done rem : inner c = done ++ Return :: rem -> c = Snapshot /\ done = reads /\ rem = [].
Proof.
  destruct c as [now o|].
  - intros H. exfalso. assert (Return ∈ inner (Update now o)) as Hin by (rewrite H; set_solver).
    clear H. destruct o; cbn [inner] in Hin; rewrite ?elem_of_app, ?elem_of_cons, ?elem_of_nil in Hin;
      unfold each in Hin; rewrite ?list_elem_of_fmap in Hin; naive_solver.
  - change (inner Snapshot) with (reads ++ [Return]). intros H. split; [done|].
    destruct rem as [|st rem' _] using rev_ind.
    + apply app_inj_tail in H as [<- _]. done.
    + exfalso. rewrite app_comm_cons, app_assoc in H. apply app_inj_tail in H as [H _].
      assert (Return ∈ reads) as Hin by (rewrite H; set_solver).
      unfold reads, each in Hin. rewrite elem_of_app, !list_elem_of_fmap in Hin. naive_solver.
Qed.

(** A snapshot writes nothing and an update reads nothing, so what a thread
    builds under the lock is read off the state the lock was taken in. *)
Lemma exec_reads st s : st ∈ inner Snapshot -> exec s st = s.
Proof.
  change (inner Snapshot) with (reads ++ [Return]). unfold reads, each.
  rewrite !elem_of_app, !list_elem_of_fmap, list_elem_of_singleton. destruct s. naive_solver.
Qed.

Lemma read_update now o st s b : st ∈ inner (Update now o) -> read s b st = b.
Proof.
  intros Hst. destruct o; cbn [inner] in Hst; rewrite ?elem_of_app, ?elem_of_cons, ?elem_of_nil in Hst;
    unfold each in Hst; rewrite ?list_elem_of_fmap in Hst; naive_solver.
Qed.

Lemma read_in_lock c done st rem s b :
  inner c = done ++ st :: rem -> read (foldl exec s done) b st = read s b st.
Proof.
  intros H. assert (st ∈ inner c) as Hst by (rewrite H; set_solver).
  assert (forall x, x ∈ done -> x ∈ inner c) as Hdone by (intros; rewrite H; set_solver). clear H.
  destruct c as [now o|]; [by rewrite !(read_update now o)|]. f_equal. clear Hst.
  induction done as [|x done IH]; [done|]. cbn [foldl].
  rewrite exec_reads by (apply Hdone; set_solver). apply IH. intros. apply Hdone. by right.
Qed.

#[local] Opaque reads.

(** Where a thread is: between calls, or in a call under the lock. *)
Inductive at_work (h : History) (calls : list Call) (o : option nat) (s : SharedState) (i : nat) : Thread -> Prop :=
| between rest b :
    o <> Some i -> calls = calls_of i h ++ rest ->
    at_work h calls o s i {| todo := program rest; building := b |}
| inside c done rem rest :
    o = Some i -> calls = calls_of i h ++ c :: rest -> inner c = done ++ rem ->
    s = foldl exec (serial h) done ->
    at_work h calls o s i {| todo := rem ++ Release :: program rest;
                             building := foldl (read (serial h)) ([], []) done |}.

Definition explained (progs : list (list Call)) (h : History) (iv : nat * PyVal) : Prop :=
  exists h' calls, h' `prefix_of` h /\ progs !! iv.1 = Some calls /\
    (calls_of iv.1 h' ++ [Snapshot]) `prefix_of` calls /\ iv.2 = snapshot (serial h').

Record serialised (progs : list (list Call)) (h : History) (c : System) : Prop := {
  ser_idle : owner c = None -> shared c = serial h;
  ser_owner i : owner c = Some i -> is_Some (threads c !! i);
  ser_threads i t : threads c !! i = Some t ->
    exists calls, progs !! i = Some calls /\ at_work h calls (owner c) (shared c) i t;
  ser_returned : Forall (explained progs h) (returned c)
}.

Lemma calls_of_snoc j h i c : calls_of j (h ++ [(i, c)]) = calls_of j h ++ (if decide (i = j) then [c] else []).
Proof. unfold calls_of. rewrite omap_app. cbn. by case_decide. Qed.

Lemma start_serialised progs : serialised progs [] (start progs).
Proof.
  split; cbn; [done|done| |constructor]. intros i t Ht. apply list_lookup_fmap_Some in Ht as (calls & -> & Hc).
  exists calls. split; [done|]. by apply between.
Qed.

(** A thread that is not inside a call can only take the lock. *)
Lemma program_head rest st tl : program rest = st :: tl ->
  exists c rest', rest = c :: rest' /\ st = Acquire /\ tl = inner c ++ Release :: program rest'.
Proof.
  destruct rest as [|c rest]; [done|]. unfold program, body. cbn [map concat app].
  intros [= <- <-]. exists c, rest. by rewrite <- app_assoc.
Qed.

Lemma bystander h h' calls o o' s s' j t :
  at_work h calls o s j t -> o <> Some j -> o' <> Some j -> calls_of j h' = calls_of j h ->
  at_work h' calls o' s' j t.
Proof. destruct 1 as [rest b Ho Hc|]; [|done]. intros _ Ho' Hh. apply between; [done|by rewrite Hh]. Qed.

(** The owner after one more plain statement, or after its return. *)
Lemma inside_step progs h c i st rem done rest cl calls b' s' ret :
  serialised progs h c -> owner c = Some i -> progs !! i = Some calls ->
  calls = calls_of i h ++ cl :: rest -> inner cl = done ++ st :: rem ->
  s' = foldl exec (serial h) (done ++ [st]) -> b' = foldl (read (serial h)) ([], []) (done ++ [st]) ->
  Forall (explained progs h) (returned c ++ ret) ->
  serialised progs h {| shared := s'; owner := owner c;
    threads := <[i := {| todo := rem ++ Release :: program rest; building := b' |}]> (threads c);
    returned := returned c ++ ret |}.
Proof.
  intros [Hi Ho Ht Hr] Hown Hp Hcalls Hin -> -> Hret. split; cbn; [by rewrite Hown| | |done].
  - intros j Hj. rewrite list_lookup_insert_is_Some. auto.
  - intros j t Hj. destruct (decide (i = j)) as [<-|Hne].
    + rewrite list_lookup_insert_eq in Hj by (apply lookup_lt_is_Some; auto). injection Hj as <-.
      exists calls. split; [done|]. eapply inside; [done..| |done]. by rewrite <- app_assoc.
    + rewrite list_lookup_insert_ne in Hj by done. destruct (Ht _ _ Hj) as (cs & ? & Hw). exists cs. split; [done|].
      eapply bystander; [exact Hw|congruence|congruence|done].
Qed.

Lemma explained_more progs h h' iv : h `prefix_of` h' -> explained progs h iv -> explained progs h' iv.
Proof. intros Hp (h0 & calls & H0 & H). exists h0, calls. split; [by etrans|done]. Qed.

Lemma acquire_step progs h c i rest b :
  serialised progs h c -> threads c !! i = Some {| todo := Acquire :: rest; building := b |} -> owner c = None ->
  serialised progs h {| shared := shared c; owner := Some i;
    threads := <[i := {| todo := rest; building := ([], []) |}]> (threads c); returned := returned c |}.
Proof.
  intros [Hi Ho Ht Hr] Hth Hown. destruct (Ht _ _ Hth) as (calls & Hp & Hw).
  inversion Hw as [rest' b0 Hno Hcalls Heq|cl dn rem rest' Hyes]; [|congruence]. subst.
  apply program_head in Heq as (cl & rest'' & -> & _ & ->). split; cbn; [done| | |done].
  - intros j [= <-]. rewrite list_lookup_insert_is_Some. eauto.
  - intros j t Hj. destruct (decide (i = j)) as [<-|Hne].
    + rewrite list_lookup_insert_eq in Hj by (by eapply lookup_lt_Some). injection Hj as <-.
      eexists. split; [exact Hp|]. by apply (inside _ _ _ _ _ cl [] (inner cl) rest''); [..|apply Hi].
    + rewrite list_lookup_insert_ne in Hj by done. destruct (Ht _ _ Hj) as (cs & ? & Hw'). exists cs. split; [done|].
      eapply bystander; [exact Hw'|congruence|congruence|done].
Qed.

Lemma release_step progs h c i rest b :
  serialised progs h c -> threads c !! i = Some {| todo := Release :: rest; building := b |} ->
  exists cl, serialised progs (h ++ [(i, cl)]) {| shared := shared c; owner := None;
    threads := <[i := {| todo := rest; building := b |}]> (threads c); returned := returned c |}.
Proof.
  intros [Hi Ho Ht Hr] Hth. destruct (Ht _ _ Hth) as (calls & Hp & Hw).
  inversion Hw as [rest' b0 Hno Hcalls Heq|cl dn rem rest' Hyes Hcalls Hin Hsh Heq]; subst.
  { apply program_head in Heq as (? & ? & _ & [=] & _). }
  destruct rem as [|st rem].
  2:{ injection Heq as -> _. exfalso. apply (inner_plain cl Release); [rewrite Hin; set_solver|done]. }
  rewrite app_nil_r in Hin. injection Heq as <-. exists cl.
  assert (shared c = serial (h ++ [(i, cl)])) as Hsh' by (by rewrite Hsh, <- Hin, exec_inner, serial_snoc).
  split; cbn; [by intros _|done| |eapply list.Forall_impl; [exact Hr|]; intros; eapply explained_more; [|done]; by eexists].
  intros j t Hj. destruct (decide (i = j)) as [<-|Hne].
  - rewrite list_lookup_insert_eq in Hj by (by eapply lookup_lt_Some). injection Hj as <-.
    eexists. split; [exact Hp|]. apply between; [done|].
    by rewrite calls_of_snoc, decide_True, <- app_assoc by done.
  - rewrite list_lookup_insert_ne in Hj by done. destruct (Ht _ _ Hj) as (cs & ? & Hw'). exists cs. split; [done|].
    eapply bystander; [exact Hw'|congruence|congruence|]. by rewrite calls_of_snoc, decide_False, app_nil_r.
Qed.

Lemma step_serialised progs h c c' :
  serialised progs h c -> step c c' -> exists h', h `prefix_of` h' /\ serialised progs h' c'.
Proof.
  intros Hs Hstep. pose proof Hs as [Hi Ho Ht Hr]. destruct Hstep as [i rest b Hth Hown|i rest b Hth|i rest b Hth|i st rest b Hth Ha Hrel Hret].
  1: by exists h; split; [|eapply acquire_step].
  1: by destruct (release_step _ _ _ _ _ _ Hs Hth) as [cl Hcl]; exists (h ++ [(i, cl)]); split; [eexists|].
  all: destruct (Ht _ _ Hth) as (calls & Hp & Hw).
  - exists h. split; [done|].
    inversion Hw as [rest' b0 Hno Hcalls Heq|cl dn rem rest' Hyes Hcalls Hin Hsh Heq]; subst.
    { apply program_head in Heq as (? & ? & _ & [=] & _). }
    destruct rem as [|st rem]; [done|]. injection Heq as -> <-.
    destruct (return_last _ _ _ Hin) as (-> & -> & ->).
    eapply (inside_step progs h c i Return [] reads rest' Snapshot); [exact Hs|done|exact Hp|done|done| | |].
    + rewrite foldl_app, <- Hsh. by destruct (shared c).
    + by rewrite foldl_app.
    + apply list.Forall_app. split; [done|]. constructor; [|constructor]. eexists h, _. cbn [fst snd].
      split_and!; [done|exact Hp| |apply reads_build, serial_shows].
      exists rest'. by rewrite <- app_assoc.
  - exists h. split; [done|].
    inversion Hw as [rest' b0 Hno Hcalls Heq|cl dn rem rest' Hyes Hcalls Hin Hsh Heq]; subst.
    { apply program_head in Heq as (? & ? & _ & -> & _). done. }
    destruct rem as [|st' rem]; [by injection Heq as <- _|]. injection Heq as -> <-.
    rewrite <- (app_nil_r (returned c)).
    eapply (inside_step progs h c i st rem dn rest' cl); [done..| | |by rewrite app_nil_r].
    + by rewrite foldl_app, Hsh.
    + rewrite foldl_app. cbn [foldl]. rewrite Hsh. by eapply read_in_lock.
Qed.

Lemma reachable_serialised progs c : rtc step (start progs) c -> exists h, serialised progs h c.
Proof.
  intros Hrun. assert (exists h, serialised progs h (start progs)) as [h Hs] by (eexists; apply start_serialised).
  clear -Hrun Hs. revert h Hs. induction Hrun as [c|c c1 c2 Hst _ IH]; intros h Hs; [by exists h|].
  destruct (step_serialised _ _ _ _ Hs Hst) as (h1 & _ & Hs1). eauto.
Qed.

Lemma reachable_threads progs c : rtc step (start progs) c -> length (threads c) = length progs.
Proof.
  intros Hrun. transitivity (length (threads (start progs))); [|apply length_map].
  induction Hrun as [c|c c1 c2 Hst _ IH]; [done|]. rewrite IH. destruct Hst; cbn; apply length_insert.
Qed.

(** The lock is never held by a thread that waits. *)
Lemma serialised_moves progs h c i t :
  serialised progs h c -> threads c !! i = Some t -> todo t <> [] -> exists c', step c c'.
Proof.
  intros [Hi Ho Ht Hr] Hth Htodo. destruct (owner c) as [j|] eqn:Hown.
  - destruct (Ho j eq_refl) as [tj Hj]. destruct (Ht _ _ Hj) as (calls & _ & Hw).
    destruct Hw as [|cl dn rem rest _ _ Hin _]; [done|].
    destruct rem as [|st rem]; [eexists; by eapply step_release|].
    destruct (inner_plain cl st) as [Ha Hrl]; [rewrite Hin; set_solver|].
    destruct st; try done; first [by eexists; eapply step_return | by eexists; eapply step_plain].
  - destruct (Ht _ _ Hth) as (calls & _ & Hw). destruct Hw as [rest b _ _|]; [|done].
    cbn [todo] in Htodo. destruct rest as [|cl rest]; [done|].
    eexists. by eapply (step_acquire c i (inner cl ++ [Release] ++ program rest) b); [rewrite Hth; unfold program, body; cbn; rewrite <- app_assoc|].
Qed.

(** C9: The display sees whole updates under every schedule.  However the
    statements of any number of threads interleave, each thread making any calls
    of [SharedState], there is one order of the completed calls that keeps each
    thread's own, such that every snapshot returned so far is a snapshot of the
    state after a beginning of that order, its own earlier calls included: each
    entry shows the last value written to it there, the time stamp is that of the
    last update, and no call is seen in part.  And some thread can always go on
    until all are done. *)
Theorem snapshot_consistent (progs : list (list Call)) (c : System) (Hrun : rtc step (start progs) c) :
  (exists h : History,
    (forall i calls, progs !! i = Some calls -> calls_of i h `prefix_of` calls) /\
    forall i v, (i, v) ∈ returned c -> exists h' calls s,
      h' `prefix_of` h /\ progs !! i = Some calls /\ (calls_of i h' ++ [Snapshot]) `prefix_of` calls /\
      v = snapshot s /\ shows h' s) /\
  forall i t, threads c !! i = Some t -> todo t <> [] -> exists c', step c c'.
Proof.
  destruct (reachable_serialised _ _ Hrun) as [h Hs]. split; [|intros i t; by eapply serialised_moves].
  destruct Hs as [_ _ Ht Hr]. exists h. split.
  - intros i calls Hp. destruct (lookup_lt_is_Some_2 (threads c) i) as [t Hth].
    { rewrite (reachable_threads _ _ Hrun). by eapply lookup_lt_Some. }
    destruct (Ht _ _ Hth) as (calls' & Hp' & Hw). rewrite Hp in Hp'. injection Hp' as <-.
    by destruct Hw as [? ? _ ->|? ? ? ? _ -> _ _]; eexists.
  - intros i v Hin. rewrite list.Forall_forall in Hr. destruct (Hr _ Hin) as (h' & calls & H1 & H2 & H3 & H4).
    exists h', calls, (serial h'). split_and!; try done. apply serial_shows.
Qed.

Lemma move_step c i c' : move c i = Some c' -> step c c'.
Proof.
  unfold move. destruct (threads c !! i) as [[[|st rest] b]|] eqn:Hth; cbn [mbind option_bind todo building]; try done.
  destruct st; try (destruct (owner c) eqn:Ho; [done|]); intros [= <-];
    first [by eapply step_acquire | by eapply step_release | by eapply step_return |
           match type of Hth with
           | _ = Some {| todo := ?st :: _ |} => by apply (step_plain c i st rest b Hth)
           end].
Qed.

Lemma schedule_runs turns c c' : schedule turns c = Some c' -> rtc step c c'.
Proof.
  revert c. induction turns as [|i turns IH]; intros c; cbn [schedule]; [by intros [= ->]|].
  destruct (move c i) as [c1|] eqn:Hm; cbn [mbind option_bind]; [|done]. intros H. eapply rtc_l; [by eapply move_step|auto].
Qed.

(** The reader is inside an update when the display asks; it finishes first. *)
Definition demo_threads : list (list Call) :=
  [[Update "t1" (update_mav [("armed", VBool true); ("mode", VStr "AUTO")])]; [Snapshot]].

Lemma snapshot_consistent_witness :
  exists c v, schedule (replicate 5 0%nat ++ replicate 30 1%nat) (start demo_threads) = Some c /\
    returned c = [(1%nat, v)] /\
    exists h : History, forall i v, (i, v) ∈ returned c -> exists h' calls s,
      h' `prefix_of` h /\ demo_threads !! i = Some calls /\ (calls_of i h' ++ [Snapshot]) `prefix_of` calls /\
      v = snapshot s /\ shows h' s.
Proof.
  destruct (schedule (replicate 5 0%nat ++ replicate 30 1%nat) (start demo_threads)) as [c|] eqn:Hs;
    [|vm_compute in Hs; discriminate].
  destruct (returned c) as [|[i v] [|? ?]] eqn:Hr;
    try (vm_compute in Hs; injection Hs as <-; cbn in Hr; discriminate).
  assert (i = 1%nat) as -> by (vm_compute in Hs; injection Hs as <-; cbn in Hr; congruence).
  exists c, v. split; [reflexivity|]. split; [exact Hr|].
  destruct (snapshot_consistent demo_threads c (schedule_runs _ _ _ Hs)) as [(h & _ & Hh) _].
  exists h. exact Hh.
Defined.
