(* ===== verification/Detect.v ===== *)
(** * Autopilot detection (cli/detect.py)

    The snapshot of the vehicle taken by listening to its messages for a while,
    and the lines and tables, or the JSON value, in which it is printed. *)

From stdpp Require Import base gmap list strings option sorting.
From Stdlib Require Import Ascii ZArith Lia.
From S2P Require Import Prelude Float64 PyVal Link Mission Connection Firmware.
Local Open Scope Z_scope.

Module Detect.
Definition _MAV_TYPE_GROUND_ROVER : Z := 11.

(** Fields that may be [None] are values, [VNone] standing for it. *)
Record GnssStatus : Type := {
  instance : Z; fix_type : PyVal; satellites_visible : PyVal; hdop : option float; yaw_deg : option float;
  rtk_baseline_mm : PyVal; rtk_iar_num_hypotheses : PyVal }.
Definition GnssStatus_at (i : Z) : GnssStatus :=
  {| instance := i; fix_type := VNone; satellites_visible := VNone; hdop := None; yaw_deg := None;
     rtk_baseline_mm := VNone; rtk_iar_num_hypotheses := VNone |}.

Record ServoStatus : Type := { channel : Z; pwm_us : PyVal }.
Record RadioStatus : Type := { rssi : PyVal; remrssi : PyVal; txbuf_pct : PyVal; noise : PyVal; remnoise : PyVal }.

Record DetectReport : Type := {
  endpoint : string; autopilot_version : option string; vehicle_type : PyVal; vehicle_is_rover : bool;
  autopilot_id : PyVal; firmware_version_raw : PyVal; gnss : list GnssStatus; servos : list ServoStatus;
  radio : option RadioStatus; ekf_flags : PyVal; warnings : list FStr }.

(** ** [f"0x{fw:08x}"] *)
Fixpoint hex_digits (fuel : nat) (z : Z) (acc : list ascii) : list ascii :=
  match fuel with
  | O => acc
  | Datatypes.S n => if z =? 0 then acc else hex_digits n (z / 16) (hex_digit (Z.to_N (z mod 16)) :: acc)
  end.
Definition hex08 (z : Z) : string :=
  let ds := hex_digits (Z.to_nat (Z.log2 (Z.abs z)) + 1) (Z.abs z) [] in
  let ds := if z =? 0 then ["0"%char] else ds in
  let sign := if z <? 0 then ["-"%char] else [] in
  S.ofl (sign ++ repeat "0"%char (8 - length sign - length ds) ++ ds).

Definition version_text (fw : PyVal) : res exn (option string) :=
  match fw with
  | VNone => Ok None
  | VInt _ | VBool _ =>
      Ok (z ← as_int fw; Some (String.append "0x" (hex08 z)))
  | VFloat _ | VStr _ => raise_ ValueError [L "Unknown format code 'x' for object of type '"; L (PyVal.type_name fw); L "'"]
  | _ => raise_ TypeError [L "unsupported format string passed to "; L (PyVal.type_name fw); L ".__format__"]
  end.

(** What the loop collects: the report and the two dictionaries. *)
Record Seen : Type := {
  s_version : option string; s_raw : PyVal; s_gnss : list (Z * GnssStatus); s_servo : list (Z * ServoStatus);
  s_radio : option RadioStatus; s_ekf : PyVal }.
Definition nothing_seen : Seen :=
  {| s_version := None; s_raw := VNone; s_gnss := []; s_servo := []; s_radio := None; s_ekf := VNone |}.

Definition with_gnss (st : Seen) (g : GnssStatus) : Seen :=
  {| s_version := s_version st; s_raw := s_raw st; s_gnss := od_set (s_gnss st) (instance g) g;
     s_servo := s_servo st; s_radio := s_radio st; s_ekf := s_ekf st |}.
Definition with_servo (st : Seen) (s : ServoStatus) : Seen :=
  {| s_version := s_version st; s_raw := s_raw st; s_gnss := s_gnss st;
     s_servo := od_set (s_servo st) (channel s) s; s_radio := s_radio st; s_ekf := s_ekf st |}.

(** [gnss_by_instance.setdefault(i, GnssStatus(instance=i))] *)
Definition gnss_of (st : Seen) (i : Z) : GnssStatus := default (GnssStatus_at i) (od_get (s_gnss st) i).

Definition on_version (msg : Msg) (st : Seen) : res exn Seen :=
  let fw := getattr msg "flight_sw_version" VNone in
  v ← version_text fw;
  Ok {| s_version := v; s_raw := fw; s_gnss := s_gnss st; s_servo := s_servo st; s_radio := s_radio st;
        s_ekf := s_ekf st |}.

(** [n / 100.0] *)
Definition hundredth (n : Z) : res exn float := f ← float_of_int n; Ok (F.div f (F.of_Z 100)).

Definition on_gps (i : Z) (msg : Msg) (st : Seen) : res exn Seen :=
  let g := gnss_of st i in
  h ← match as_int (getattr msg "eph" VNone) with
      | Some eph => if eph =? 65535 then Ok (hdop g) else x ← hundredth eph; Ok (Some x)
      | None => Ok (hdop g)
      end;
  y ← match as_int (getattr msg "yaw" VNone) with
      | Some yaw => if (yaw =? 0) || (yaw =? 65535) then Ok (yaw_deg g) else x ← hundredth yaw; Ok (Some x)
      | None => Ok (yaw_deg g)
      end;
  Ok (with_gnss st {| instance := i; fix_type := getattr msg "fix_type" (fix_type g);
        satellites_visible := getattr msg "satellites_visible" (satellites_visible g); hdop := h; yaw_deg := y;
        rtk_baseline_mm := rtk_baseline_mm g; rtk_iar_num_hypotheses := rtk_iar_num_hypotheses g |}).

Definition on_rtk (i : Z) (msg : Msg) (st : Seen) : Seen :=
  let g := gnss_of st i in
  with_gnss st {| instance := i; fix_type := fix_type g; satellites_visible := satellites_visible g; hdop := hdop g;
    yaw_deg := yaw_deg g; rtk_baseline_mm := getattr msg "baseline_a_mm" (rtk_baseline_mm g);
    rtk_iar_num_hypotheses := getattr msg "iar_num_hypotheses" (rtk_iar_num_hypotheses g) |}.

Definition on_servo (msg : Msg) (st : Seen) : Seen :=
  foldl (fun st ch : _ =>
    let pwm := getattr msg (S.join "" ["servo"; Num.str_of_Z ch; "_raw"]) VNone in
    if py_bool pwm then with_servo st {| channel := ch; pwm_us := pwm |} else st) st [1; 3].

Definition on_radio (msg : Msg) (st : Seen) : Seen :=
  let get a := getattr msg a VNone in
  {| s_version := s_version st; s_raw := s_raw st; s_gnss := s_gnss st; s_servo := s_servo st;
     s_radio := Some {| rssi := get "rssi"; remrssi := get "remrssi"; txbuf_pct := get "txbuf"; noise := get "noise";
                        remnoise := get "remnoise" |};
     s_ekf := s_ekf st |}.

Definition on_ekf (msg : Msg) (st : Seen) : Seen :=
  {| s_version := s_version st; s_raw := s_raw st; s_gnss := s_gnss st; s_servo := s_servo st; s_radio := s_radio st;
     s_ekf := getattr msg "flags" VNone |}.

Definition on_message (msg : Msg) (st : Seen) : res exn Seen :=
  let mtype := get_type msg in
  if bool_decide (mtype = "AUTOPILOT_VERSION") then on_version msg st
  else if bool_decide (mtype = "GPS_RAW_INT") then on_gps 0 msg st
  else if bool_decide (mtype = "GPS2_RAW") then on_gps 1 msg st
  else if bool_decide (mtype = "GPS_RTK") then Ok (on_rtk 0 msg st)
  else if bool_decide (mtype = "GPS2_RTK") then Ok (on_rtk 1 msg st)
  else if bool_decide (mtype = "SERVO_OUTPUT_RAW") then Ok (on_servo msg st)
  else if bool_decide (mtype = "RADIO_STATUS") then Ok (on_radio msg st)
  else if bool_decide (mtype = "EKF_STATUS_REPORT") then Ok (on_ekf msg st)
  else Ok st.

(** [[d[k] for k in sorted(d)]] *)
Definition by_key {A} (d : list (Z * A)) : list A := omap (od_get d) (merge_sort Z.le (od_keys d)).

Definition has_channel (ch : Z) (l : list ServoStatus) : bool := existsb (fun s => channel s =? ch) l.

Definition final_warnings (g : list GnssStatus) (s : list ServoStatus) : list FStr :=
  (match g with [] => [[L "no GPS messages observed"]] | _ => [] end) ++
  (if has_channel 1 s then [] else [[L "SERVO1 (steering left) not reporting"]]) ++
  (if has_channel 3 s then [] else [[L "SERVO3 (steering right) not reporting"]]).

(** What the heartbeat says: type, autopilot, whether it is a rover, and the
    warning when it is not. *)
Definition on_heartbeat (hb : option Msg) : res exn (PyVal * PyVal * bool * list FStr) :=
  match hb with
  | None => Ok (VNone, VNone, false, [])
  | Some hb =>
      ty ← attr hb "type";
      ap ← attr hb "autopilot";
      let rover := num_eq ty _MAV_TYPE_GROUND_ROVER in
      Ok (ty, ap, rover,
          if rover then [] else [[L "vehicle type "; V ty; L " is not MAV_TYPE_GROUND_ROVER (";
                                  V (VInt _MAV_TYPE_GROUND_ROVER); L ")"]])
  end.

(** ** How it is printed *)
Inductive Shown : Type :=
  | Line (text : FStr)
  | Table (title : string) (columns : list string) (rows : list (list FStr)).

(** [f"{v:<format>}" if v is not None else "-"], and [str(v)] likewise. *)
Definition fixed_or_dash (format : string) (v : option float) : FStr :=
  match v with Some f => [VF (VFloat f) format] | None => [L "-"] end.
Definition value_or (other : string) (v : PyVal) : FStr := match v with VNone => [L other] | _ => [V v] end.

Definition gnss_row (g : GnssStatus) : list FStr :=
  [[V (VInt (instance g))]; [V (fix_type g)]; [V (satellites_visible g)]; fixed_or_dash ".2f" (hdop g);
   fixed_or_dash ".1f" (yaw_deg g); value_or "-" (rtk_iar_num_hypotheses g)].

(** [report.autopilot_version or 'unknown'] *)
Definition version_shown (v : option string) : string := match v with Some "" | None => "unknown" | Some s => s end.

Definition radio_line (r : option RadioStatus) : FStr :=
  match r with
  | Some r => [L "[bold]Radio[/bold]: rssi="; V (rssi r); L " remrssi="; V (remrssi r); L " txbuf=";
               V (txbuf_pct r); L "%"]
  | None => [L "[bold]Radio[/bold]: no RADIO_STATUS observed (USB link?)"]
  end.

Definition warning_lines (ws : list FStr) : list FStr :=
  match ws with [] => [] | _ => [L "[bold yellow]Warnings:[/bold yellow]"] :: map (fun w => L "  - " :: w) ws end.

Definition _render_human (report : DetectReport) : list Shown :=
  [Line [L "[bold]Endpoint[/bold]: "; L (endpoint report)];
   Line [L "[bold]Vehicle[/bold]: type="; V (vehicle_type report); L " rover=";
         L (if vehicle_is_rover report then "yes" else "NO"); L " fw="; L (version_shown (autopilot_version report))];
   Table "GNSS" ["instance"; "fix_type"; "sats"; "hdop"; "yaw°"; "rtk_iar"] (map gnss_row (gnss report));
   Table "Servos" ["channel"; "pwm_us"] (map (fun s => [[V (VInt (channel s))]; [V (pwm_us s)]]) (servos report));
   Line (radio_line (radio report));
   Line (L "[bold]EKF flags[/bold]: " :: value_or "unknown" (ekf_flags report))] ++
  map Line (warning_lines (warnings report)).

Section collect.
Context {W : Type} `{!Link W}.
Variable fuel : nat.

Definition sample_round (deadline : Z) (st : Seen) : prog exn W (Seen + Seen) :=
  now ← l_time;
  if now <? deadline then
    msg ← l_recv [] (Some (ms 500));
    match msg with
    | None => mret (inl st)
    | Some m => st ← plift (on_message m st); mret (inl st)
    end
  else mret (inr st).

Definition MAV_CMD_REQUEST_AUTOPILOT_CAPABILITIES : Z := 520.

(** [str(getattr(conn, "address", "?"))] is the argument [address]. *)
Definition _collect (address : string) (sample_window : Z) : prog exn W DetectReport :=
  hb ← l_recv ["HEARTBEAT"] (Some (sec 2));
  '(ty, ap, rover, warned) ← plift (on_heartbeat hb);
  _ ← pexcept [Exception]
    (l_send (command_long_send MAV_CMD_REQUEST_AUTOPILOT_CAPABILITIES 0
               [F.one; F.zero; F.zero; F.zero; F.zero; F.zero; F.zero]))
    (fun _ => mret tt);
  start ← l_time;
  st ← ploop fuel (sample_round (start + sample_window)) nothing_seen;
  let g := by_key (s_gnss st) in
  let s := by_key (s_servo st) in
  mret {| endpoint := address; autopilot_version := s_version st; vehicle_type := ty; vehicle_is_rover := rover;
          autopilot_id := ap; firmware_version_raw := s_raw st; gnss := g; servos := s; radio := s_radio st;
          ekf_flags := s_ekf st; warnings := warned ++ final_warnings g s |}.

Context `{!Dialer W}.
Definition detect_command (config : ConnectionConfig) (address : string) (sample_window : Z) : prog exn W DetectReport :=
  open_link config false (_collect address sample_window).
End collect.
End Detect.

Example hex_version : Detect.hex08 67503103 = "040603ff". Proof. vm_compute. reflexivity. Qed.

(** ** The report *)

(** A dictionary over two keys whose values carry their key. *)
Definition keyed {A} (key : A -> Z) (a b : Z) (d : list (Z * A)) : Prop :=
  NoDup (od_keys d) /\ forall kv, kv ∈ d -> key kv.2 = kv.1 /\ (kv.1 = a \/ kv.1 = b).

Lemma keyed_nil {A} (key : A -> Z) a b : keyed key a b [].
Proof. split; [apply NoDup_nil_2|]. intros kv H. by apply not_elem_of_nil in H. Qed.

Lemma od_set_elem {A} (d : list (Z * A)) k v kv : kv ∈ od_set d k v -> kv = (k, v) \/ kv ∈ d.
Proof.
  induction d as [|[k' v'] d IH]; cbn [od_set]; [rewrite list_elem_of_singleton; by left|].
  case_decide as Hk; subst; rewrite !elem_of_cons; [tauto|]. intros [->|H]; [tauto|]. destruct (IH H); tauto.
Qed.

Lemma keyed_set {A} (key : A -> Z) a b d v :
  keyed key a b d -> key v = a \/ key v = b -> keyed key a b (od_set d (key v) v).
Proof.
  intros [Hn Hd] Hv. split; [by apply od_set_nodup|]. intros kv [->|H]%od_set_elem; [by split|by apply Hd].
Qed.

(** Read in key order, the keys are those there are of [a] and [b]. *)
Lemma by_key_keys {A} (key : A -> Z) a b d : a < b -> keyed key a b d ->
  In (map key (Detect.by_key d)) [[]; [a]; [b]; [a; b]].
Proof.
  intros Hab [Hn Hd].
  assert (Hs : forall x y : Z, x < y -> merge_sort Z.le [x; y] = [x; y] /\ merge_sort Z.le [y; x] = [x; y]).
  { intros x y Hxy. unfold merge_sort; cbn. rewrite !decide_True by lia. by rewrite decide_False by lia. }
  destruct d as [|[k1 v1] [|[k2 v2] [|[k3 v3] d]]].
  - by left.
  - destruct (Hd (k1, v1)) as [H1 H2]; [set_solver|]. cbn in *. subst k1.
    unfold Detect.by_key. cbn. rewrite decide_True by done. cbn. destruct H2 as [->| ->]; tauto.
  - destruct (Hd (k1, v1)) as [H1 H2]; [set_solver|]. destruct (Hd (k2, v2)) as [H3 H4]; [set_solver|].
    cbn in H1, H2, H3, H4. unfold od_keys in Hn. cbn in Hn. apply NoDup_cons in Hn as [Hne _].
    assert (k1 <> k2) as Hk by set_solver. unfold Detect.by_key, od_keys. cbn [map fst].
    destruct H2 as [->| ->], H4 as [->| ->]; try done.
    + rewrite (proj1 (Hs a b Hab)). cbn. repeat (case_decide; try lia; cbn). rewrite H1, H3. tauto.
    + rewrite (proj2 (Hs a b Hab)). cbn. repeat (case_decide; try lia; cbn). rewrite H1, H3. tauto.
  - exfalso. destruct (Hd (k1, v1)) as [_ H1]; [set_solver|]. destruct (Hd (k2, v2)) as [_ H2]; [set_solver|].
    destruct (Hd (k3, v3)) as [_ H3]; [set_solver|]. cbn in H1, H2, H3. unfold od_keys in Hn. cbn in Hn.
    apply NoDup_cons in Hn as [Hn1 Hn]. apply NoDup_cons in Hn as [Hn2 _]. set_solver.
Qed.

Definition seen_ok (st : Detect.Seen) : Prop :=
  keyed Detect.instance 0 1 (Detect.s_gnss st) /\ keyed Detect.channel 1 3 (Detect.s_servo st).

Lemma gnss_ok st g : seen_ok st -> Detect.instance g = 0 \/ Detect.instance g = 1 -> seen_ok (Detect.with_gnss st g).
Proof. intros [H1 H2] Hg. split; [by apply keyed_set|done]. Qed.

Lemma servo_ok st s : seen_ok st -> Detect.channel s = 1 \/ Detect.channel s = 3 -> seen_ok (Detect.with_servo st s).
Proof. intros [H1 H2] Hg. split; [done|by apply keyed_set]. Qed.

Lemma on_gps_ok i msg st st' : i = 0 \/ i = 1 -> seen_ok st -> Detect.on_gps i msg st = Ok st' -> seen_ok st'.
Proof.
  intros Hi Hst H. unfold Detect.on_gps in H. apply rbind_ok in H as (h & _ & H). apply rbind_ok in H as (y & _ & H).
  injection H as <-. by apply gnss_ok.
Qed.

Lemma on_servo_ok msg st : seen_ok st -> seen_ok (Detect.on_servo msg st).
Proof.
  intros H. unfold Detect.on_servo. cbn [foldl].
  assert (H1 : forall (b : bool) st s, seen_ok st -> Detect.channel s = 1 \/ Detect.channel s = 3 ->
            seen_ok (if b then Detect.with_servo st s else st)) by (intros [] ? ? ? ?; [by apply servo_ok|done]).
  apply H1; [apply H1; [done|by left]|by right].
Qed.

Lemma on_message_ok msg st st' : seen_ok st -> Detect.on_message msg st = Ok st' -> seen_ok st'.
Proof.
  intros Hst. unfold Detect.on_message. repeat case_bool_decide; try (by apply on_gps_ok; tauto); intros H'.
  - apply rbind_ok in H' as (v & _ & [= <-]). exact Hst.
  - injection H' as <-. apply gnss_ok; [done|by left].
  - injection H' as <-. apply gnss_ok; [done|by right].
  - injection H' as <-. by apply on_servo_ok.
  - by injection H' as <-.
  - by injection H' as <-.
  - by injection H' as <-.
Qed.

Section report.
Context {W : Type} `{!Link W} (clk : W -> Z) `{!Ticking W clk}.

Lemma sampled_ok fuel deadline st (w : W) st' w' :
  seen_ok st -> ploop fuel (Detect.sample_round deadline) st w = Some (Ok st', w') -> seen_ok st'.
Proof.
  intros Hst H.
  apply (triple_loop (fun st (_ : W) => seen_ok st) (Detect.sample_round deadline)
           (fun r _ => match r with Ok st => seen_ok st | Err _ => True end) fuel st) with (w := w) (r := Ok st') (w' := w');
    [|done|done].
  clear. intros st w r w' Hst H. unfold Detect.sample_round in H.
  apply pbind_inv in H as [(e & -> & _)|(now & w1 & _ & H)]; [done|]. destruct (now <? deadline).
  2: { by injection H as <- <-. }
  apply pbind_inv in H as [(e & -> & _)|([m|] & w2 & _ & H)]; [done| |by injection H as <- <-].
  apply pbind_inv in H as [(e & -> & _)|(st2 & w3 & Hm & H)]; [done|]. injection H as <- <-.
  injection Hm as Hm _. by eapply on_message_ok.
Qed.

Lemma sampling_returns fuel start window st (w : W) :
  start <= clk w -> 0 <= window -> window + 1 < Z.of_nat fuel ->
  returns clk (ploop fuel (Detect.sample_round (start + window)) st) w.
Proof.
  apply (returns_deadline clk). clear st w. intros st w. unfold Detect.sample_round.
  destruct (tick_time (clk := clk) w) as (w1 & H1 & Hle1). rewrite (pbind_step _ _ _ _ _ H1).
  destruct (Z.ltb_spec (clk w) (start + window)); [|by exists (Ok (inr st)), w1].
  destruct (tick_recv (clk := clk) [] (Some (ms 500)) w1) as (r & w2 & H2 & Hlt).
  destruct r as [[m|]|e]; [rewrite (pbind_step _ _ _ _ _ H2)|rewrite (pbind_step _ _ _ _ _ H2)|].
  - destruct (Detect.on_message m st) as [st'|e]; do 2 eexists; (split; [reflexivity|]); cbn; lia.
  - do 2 eexists. split; [reflexivity|]. cbn. lia.
  - rewrite (pbind_err _ _ _ _ _ H2). do 2 eexists. split; [reflexivity|]. cbn. lia.
Qed.
End report.

(** On any link on which time passes, collecting the report returns; a report has at most the receivers 0 and 1 and the servo channels 1 and 3, each once and in order, and it warns of missing GPS, of a missing channel 1 or 3, and of a heartbeat that is not a rover's exactly when that is so. *)
Lemma collected_report {W} `{!Link W} clk `{!Ticking W clk} fuel address window (w : W)
    (Hw : 0 <= window) (Hf : window + 1 < Z.of_nat fuel) :
  exists r w', Detect._collect fuel address window w = Some (r, w') /\
    forall rep, r = Ok rep ->
      In (map Detect.instance (Detect.gnss rep)) [[]; [0]; [1]; [0; 1]] /\
      In (map Detect.channel (Detect.servos rep)) [[]; [1]; [3]; [1; 3]] /\
      exists warned, Detect.warnings rep = warned ++ Detect.final_warnings (Detect.gnss rep) (Detect.servos rep) /\
        Detect.vehicle_is_rover rep = num_eq (Detect.vehicle_type rep) 11 /\
        (Detect.vehicle_is_rover rep = true -> warned = []) /\
        (Detect.vehicle_is_rover rep = false -> Detect.vehicle_type rep <> VNone -> length warned = 1%nat).
Proof.
  assert (Hret : returns clk (Detect._collect fuel address window) w).
  { unfold Detect._collect. apply returns_bind.
    { destruct (tick_recv (clk := clk) ["HEARTBEAT"] (Some (sec 2)) w) as (r & w1 & H & ?). exists r, w1. split; [done|lia]. }
    intros hb w1 _. apply returns_bind; [apply returns_lift|]. intros [[[ty ap] rover] warned] w2 _.
    apply returns_bind; [apply returns_catch; [apply returns_send; exact _|intros; apply (returns_lift clk (Ok tt))]|].
    intros _ w3 _. unfold returns. destruct (tick_time (clk := clk) w3) as (w4 & H4 & Hle4).
    rewrite (pbind_step _ _ _ _ _ H4).
    destruct (sampling_returns clk fuel (clk w3) window Detect.nothing_seen w4 Hle4 Hw Hf) as (r & w5 & H5 & Hle5).
    destruct r as [st|e]; [rewrite (pbind_step _ _ _ _ _ H5)|rewrite (pbind_err _ _ _ _ _ H5)];
      do 2 eexists; (split; [reflexivity|]); lia. }
  destruct Hret as (r & w' & H & _). exists r, w'. split; [done|]. intros rep ->. unfold Detect._collect in H.
  apply pbind_ok_inv in H as (hb & w1 & _ & H). apply pbind_ok_inv in H as ([[[ty ap] rover] warned] & w2 & Hhb & H).
  apply pbind_ok_inv in H as ([] & w3 & _ & H). apply pbind_ok_inv in H as (start & w4 & _ & H).
  apply pbind_ok_inv in H as (st & w5 & Hst & H). injection H as <- _.
  apply sampled_ok in Hst as [Hg Hs]; [|split; apply keyed_nil]. cbn [Detect.gnss Detect.servos Detect.warnings
    Detect.vehicle_is_rover Detect.vehicle_type]. split; [by apply by_key_keys|]. split; [by apply by_key_keys|].
  exists warned. split; [done|]. injection Hhb as Hhb _. destruct hb as [hb|].
  - apply rbind_ok in Hhb as (ty' & _ & Hhb). apply rbind_ok in Hhb as (ap' & _ & [= <- <- <- <-]).
    by destruct (num_eq ty' _).
  - by injection Hhb as <- <- <- <-.
Qed.

(** A rover whose second receiver is heard. *)
Definition one_receiver : Link Z := {|
  l_time w := Some (Ok w, w); l_sleep d w := Some (Ok tt, w + Z.max 0 d);
  l_recv ts t w :=
    Some (Ok (Some (match ts with
                    | [] => MESSAGE "GPS2_RAW" [("fix_type", VInt 6); ("eph", VInt 80); ("yaw", VInt 9000)]
                    | _ => MESSAGE "HEARTBEAT" [("type", VInt 11); ("autopilot", VInt 3)]
                    end)), w + 1);
  l_send s w := Some (Ok tt, w) |}.
#[local] Existing Instance one_receiver.
#[local] Instance one_receiver_ticks : Ticking Z (fun w => w).
Proof. split; intros; repeat eexists; cbn; lia. Defined.

Example detected :
  match Detect._collect 6 "udp" 3 0 with
  | Some (Ok rep, _) => map Detect.instance (Detect.gnss rep) = [1] /\ Detect.vehicle_is_rover rep = true /\
      map Detect.hdop (Detect.gnss rep) = [Some (F.of_dec 8 (-1))] /\
      Detect.warnings rep = Detect.final_warnings (Detect.gnss rep) [] /\ length (Detect.warnings rep) = 2%nat
  | _ => False
  end.
Proof. vm_compute. repeat split. Qed.

Lemma collected_report_witness :
  0 <= 3 /\ 3 + 1 < Z.of_nat 6 /\ exists r w', Detect._collect 6 "udp" 3 0 = Some (r, w').
Proof.
  assert (H : 0 <= 3) by lia. assert (H' : 3 + 1 < Z.of_nat 6) by lia. split; [exact H|]. split; [exact H'|].
  destruct (collected_report (fun w : Z => w) 6 "udp" 3 0 H H') as (r & w' & Hr & _). by exists r, w'.
Defined.
