(* ===== verification/Units.v ===== *)
(** * Systemd units (service/unit.py, pixhawk/unit.py, kiosk/units.py)

    The text of every unit file the program writes, and the commands that install
    and remove one.  [Unit] holds the generators, [UnitFile] what systemd reads in
    such a file, [Install] the commands over files, systemctl and the
    confirmation gate. *)

From stdpp Require Import base gmap list strings option pretty.
From Stdlib Require Import Ascii ZArith Lia.
From S2P Require Import Prelude Float64 PyVal Safety Files.
From S2P Require Import Config.
Local Open Scope Z_scope.

Module Unit.
Definition UNIT_NAME : string := "mower-health".
Definition VSLAM_UNIT_NAME : string := "mower-vslam".
Definition VSLAM_BRIDGE_UNIT_NAME : string := "mower-vslam-bridge".
Definition WESTON_UNIT_NAME : string := "mower-weston".
Definition KIOSK_UNIT_NAME : string := "mower-kiosk".
Definition KIOSK_DATA_UNIT_NAME : string := "mower-kiosk-data".
Definition KIOSK_RENDERER_UNIT_NAME : string := "mower-kiosk-renderer".
Definition MAVPROXY_UNIT_NAME : string := "mower-mavproxy".
Definition PIXHAWK_SYNC_UNIT_NAME : string := "mower-pixhawk-sync".

(** The newline, the double quote, and a template filled in. *)
Definition nl : string := S.ofl [ascii_of_N 10].
Definition dq : string := S.ofl [ascii_of_N 34].
Definition fill (pieces : list string) : string := S.join "" pieces.

(** The keyword arguments of [generate_service_unit]. *)
Record UnitArgs : Type := {
  description : string; exec_start : string; user : string; home_dir : string;
  user_level : bool; after : string; requires : option string; binds_to : option string;
  watchdog_sec : Z; timeout_start_sec : option Z; runtime_directory : option string;
  service_type : string; extra_environment : list (string * string); restart_sec : Z;
  exec_start_pre : list string; start_limit_interval_sec : Z; start_limit_burst : Z }.

(** Their defaults. *)
Definition unit_args (description exec_start user home_dir : string) (user_level : bool) : UnitArgs :=
  {| description := description; exec_start := exec_start; user := user; home_dir := home_dir;
     user_level := user_level; after := "network.target"; requires := None; binds_to := None;
     watchdog_sec := 30; timeout_start_sec := None; runtime_directory := None;
     service_type := "notify"; extra_environment := []; restart_sec := 5; exec_start_pre := [];
     start_limit_interval_sec := 300; start_limit_burst := 5 |}.

(** [f"{key}={v}\n" if v else ""] of an optional string and of an optional number. *)
Definition opt_line (key : string) (v : option string) : string :=
  match v with
  | Some s => if bool_decide (s = "") then "" else fill [key; "="; s; nl]
  | None => ""
  end.
Definition opt_num_line (key : string) (v : option Z) : string :=
  match v with
  | Some n => if n =? 0 then "" else fill [key; "="; Num.str_of_Z n; nl]
  | None => ""
  end.

Definition extra_env_lines (env : list (string * string)) : string :=
  let lines := S.join "" (map (fun kv => fill ["Environment="; kv.1; "="; kv.2; nl]) env) in
  if bool_decide (lines <> "") && negb (S.endswith lines nl) then String.append lines nl else lines.

Definition exec_start_pre_lines (cmds : list string) : string :=
  S.join "" (map (fun cmd => fill ["ExecStartPre="; cmd; nl]) cmds).

Definition template_head (a : UnitArgs) : list string :=
  ["[Unit]"; nl; "Description="; description a; nl; "After="; after a; nl;
   "StartLimitIntervalSec="; Num.str_of_Z (start_limit_interval_sec a); nl;
   "StartLimitBurst="; Num.str_of_Z (start_limit_burst a); nl;
   opt_line "BindsTo" (binds_to a); opt_line "Requires" (requires a); nl;
   "[Service]"; nl; "Type="; service_type a; nl;
   exec_start_pre_lines (exec_start_pre a); "ExecStart="; exec_start a; nl;
   "Environment=MOWER_CORRELATION_ID=daemon"; nl; extra_env_lines (extra_environment a)].

Definition template_tail (a : UnitArgs) : list string :=
  ["WorkingDirectory="; home_dir a; nl; "WatchdogSec="; Num.str_of_Z (watchdog_sec a); nl;
   opt_num_line "TimeoutStartSec" (timeout_start_sec a);
   opt_line "RuntimeDirectory" (runtime_directory a); "Restart=on-failure"; nl;
   "RestartSec="; Num.str_of_Z (restart_sec a); nl; nl; "[Install]"; nl].

Definition _GENERIC_SYSTEM_TEMPLATE (a : UnitArgs) : string :=
  fill (template_head a ++ ["User="; user a; nl] ++ template_tail a ++
        ["WantedBy=multi-user.target"; nl]).
Definition _GENERIC_USER_TEMPLATE (a : UnitArgs) : string :=
  fill (template_head a ++ template_tail a ++ ["WantedBy=default.target"; nl]).

Definition generate_service_unit (a : UnitArgs) : string :=
  if user_level a then _GENERIC_USER_TEMPLATE a else _GENERIC_SYSTEM_TEMPLATE a.

(** ** The services *)
Definition health_args (mower_jetson_path user home_dir : string) (health_interval_s : PyVal)
    (user_level : bool) : UnitArgs :=
  unit_args "Mower Rover health monitor daemon"
    (fill [mower_jetson_path; " service run --health-interval "; py_str health_interval_s])
    user home_dir user_level.
Definition generate_unit_file (mower_jetson_path user home_dir : string) (health_interval_s : PyVal)
    (user_level : bool) : string :=
  generate_service_unit (health_args mower_jetson_path user home_dir health_interval_s user_level).

Definition vslam_args (user home_dir config_path node_binary : string) (user_level : bool) : UnitArgs :=
  {| description := "Mower Rover VSLAM (RTAB-Map) daemon";
     exec_start := fill [node_binary; " --config "; config_path];
     user := user; home_dir := home_dir; user_level := user_level;
     after := "network.target mower-health.service"; requires := None; binds_to := None;
     watchdog_sec := 30; timeout_start_sec := Some 300; runtime_directory := Some "mower";
     service_type := "notify"; extra_environment := []; restart_sec := 5; exec_start_pre := [];
     start_limit_interval_sec := 300; start_limit_burst := 5 |}.
Definition generate_vslam_unit_file (user home_dir config_path node_binary : string) (user_level : bool)
  : string := generate_service_unit (vslam_args user home_dir config_path node_binary user_level).

Definition vslam_bridge_args (mower_jetson_path user home_dir : string) (user_level : bool) : UnitArgs :=
  {| description := "Mower Rover VSLAM MAVLink bridge daemon";
     exec_start := fill [mower_jetson_path; " vslam bridge-run"];
     user := user; home_dir := home_dir; user_level := user_level;
     after := fill ["network.target "; VSLAM_UNIT_NAME; ".service "; MAVPROXY_UNIT_NAME; ".service ";
                    PIXHAWK_SYNC_UNIT_NAME; ".service"];
     requires := Some (fill [MAVPROXY_UNIT_NAME; ".service "; VSLAM_UNIT_NAME; ".service"]);
     binds_to := None; watchdog_sec := 30; timeout_start_sec := Some 120; runtime_directory := None;
     service_type := "notify"; extra_environment := []; restart_sec := 5; exec_start_pre := [];
     start_limit_interval_sec := 900; start_limit_burst := 5 |}.
Definition generate_vslam_bridge_unit_file (mower_jetson_path user home_dir : string) (user_level : bool)
  : string := generate_service_unit (vslam_bridge_args mower_jetson_path user home_dir user_level).

Definition kiosk_args (mower_jetson_path user home_dir : string) : UnitArgs :=
  {| description := "Mower Rover kiosk operational display";
     exec_start := fill [mower_jetson_path; " kiosk run"];
     user := user; home_dir := home_dir; user_level := false;
     after := fill [WESTON_UNIT_NAME; ".service mower-health.service "; MAVPROXY_UNIT_NAME; ".service"];
     requires := None; binds_to := Some (fill [WESTON_UNIT_NAME; ".service"]);
     watchdog_sec := 30; timeout_start_sec := None; runtime_directory := None;
     service_type := "notify";
     extra_environment := [("XDG_RUNTIME_DIR", "/run/user/1000"); ("WAYLAND_DISPLAY", "wayland-0");
                           ("GSK_RENDERER", "cairo")];
     restart_sec := 5; exec_start_pre := []; start_limit_interval_sec := 300; start_limit_burst := 5 |}.
Definition generate_kiosk_unit_file (mower_jetson_path user home_dir : string) : string :=
  generate_service_unit (kiosk_args mower_jetson_path user home_dir).

Definition kiosk_data_args (mower_jetson_path user home_dir : string) : UnitArgs :=
  {| description := "Mower Kiosk Data Service";
     exec_start := fill [mower_jetson_path; " kiosk run"];
     user := user; home_dir := home_dir; user_level := false;
     after := fill [WESTON_UNIT_NAME; ".service "; MAVPROXY_UNIT_NAME; ".service"];
     requires := Some (fill [WESTON_UNIT_NAME; ".service"]); binds_to := None;
     watchdog_sec := 30; timeout_start_sec := None; runtime_directory := Some "mower";
     service_type := "notify"; extra_environment := []; restart_sec := 5; exec_start_pre := [];
     start_limit_interval_sec := 300; start_limit_burst := 5 |}.
Definition generate_kiosk_data_unit_file (mower_jetson_path user home_dir : string) : string :=
  generate_service_unit (kiosk_data_args mower_jetson_path user home_dir).

Definition kiosk_renderer_args (user home_dir : string) : UnitArgs :=
  {| description := "Mower Kiosk LVGL Renderer";
     exec_start := "/usr/local/bin/mower-kiosk-renderer";
     user := user; home_dir := home_dir; user_level := false;
     after := fill [WESTON_UNIT_NAME; ".service "; KIOSK_DATA_UNIT_NAME; ".service"];
     requires := None; binds_to := Some (fill [WESTON_UNIT_NAME; ".service"]);
     watchdog_sec := 30; timeout_start_sec := None; runtime_directory := None;
     service_type := "notify";
     extra_environment := [("XDG_RUNTIME_DIR", "/run/user/1000"); ("WAYLAND_DISPLAY", "wayland-0")];
     restart_sec := 2;
     exec_start_pre := [fill
       ["/bin/sh -c 'for i in $(seq 1 30); do [ -e /run/user/1000/wayland-0 ] && exit 0; sleep 0.5; done; echo ";
        dq; "Wayland socket not found"; dq; "; exit 1'"]];
     start_limit_interval_sec := 300; start_limit_burst := 15 |}.
Definition generate_kiosk_renderer_unit_file (user home_dir : string) : string :=
  generate_service_unit (kiosk_renderer_args user home_dir).

Definition _WESTON_EXEC_START : string :=
  fill ["/usr/bin/weston --shell=desktop-shell.so"; " --drm-device=card0"; " --renderer=pixman";
        " --idle-time=0"; " --log=/var/log/mower-jetson/weston.log"; " --continue-without-input"].

Definition generate_weston_unit_file (user home_dir : string) : string :=
  fill ["[Unit]"; nl; "Description=Weston kiosk compositor for mower display"; nl;
        "After=seatd.service systemd-modules-load.service"; nl; "Requires=seatd.service"; nl;
        "StartLimitIntervalSec=120"; nl; "StartLimitBurst=30"; nl; nl;
        "[Service]"; nl; "Type=simple"; nl;
        "ExecStartPre=/bin/mkdir -p /var/log/mower-jetson"; nl;
        "ExecStartPre=/bin/sh -c 'for i in $(seq 1 10); do [ -S /run/seatd.sock ] && exit 0; sleep 0.5; done; echo ";
        dq; "seatd not ready"; dq; "; exit 1'"; nl;
        "ExecStartPre=/bin/sh -c 'for i in $(seq 1 30); do [ -e /dev/dri/card0 ] && exit 0; sleep 1; done; echo ";
        dq; "DRM device not found"; dq; "; exit 1'"; nl;
        "ExecStart="; _WESTON_EXEC_START; nl; "Environment=XDG_RUNTIME_DIR=/run/user/1000"; nl;
        "User="; user; nl; "WorkingDirectory="; home_dir; nl; "Restart=always"; nl; "RestartSec=2"; nl; nl;
        "[Install]"; nl; "WantedBy=multi-user.target"; nl].

Definition mavproxy_exec_start (master : string) (outputs : list string) (home_dir : string) : string :=
  fill [home_dir; "/.local/share/uv/tools/mower-rover/bin/mavproxy.py"; " --master="; master; " ";
        S.join " " (map (fun o => fill ["--out="; o]) outputs); " --non-interactive"].
Definition generate_mavproxy_unit_file (master : string) (outputs : list string)
    (user home_dir : string) : string :=
  fill ["[Unit]"; nl; "Description=MAVProxy telemetry forwarder for mower"; nl;
        "After=network.target dev-pixhawk.device"; nl; "BindsTo=dev-pixhawk.device"; nl;
        "StartLimitIntervalSec=300"; nl; "StartLimitBurst=5"; nl; nl;
        "[Service]"; nl; "Type=simple"; nl; "ExecStart="; mavproxy_exec_start master outputs home_dir; nl;
        "Environment=MOWER_CORRELATION_ID=daemon"; nl; "User="; user; nl;
        "WorkingDirectory="; home_dir; nl; "Restart=always"; nl; "RestartSec=5"; nl; nl;
        "[Install]"; nl; "WantedBy=multi-user.target"; nl].

(** pixhawk/unit.py *)
Definition generate_pixhawk_sync_unit_file (mower_jetson_path user home_dir : string)
    (user_level : bool) : string :=
  let head :=
    ["[Unit]"; nl; "Description=Mower Rover Pixhawk config sync (params + Lua)"; nl;
     "After="; "network.target mower-mavproxy.service"; nl;
     fill ["Requires=mower-mavproxy.service"; nl]; nl;
     "[Service]"; nl; "Type=oneshot"; nl;
     "ExecStart="; mower_jetson_path; " pixhawk sync --port udp:127.0.0.1:14552"; nl;
     "Environment=MOWER_CORRELATION_ID=pixhawk-sync"; nl] in
  let tail :=
    ["WorkingDirectory="; home_dir; nl; "TimeoutStartSec=120"; nl; "RemainAfterExit=yes"; nl;
     "Restart=on-failure"; nl; "RestartSec=30"; nl; nl; "[Install]"; nl] in
  if user_level then fill (head ++ tail ++ ["WantedBy=default.target"; nl])
  else fill (head ++ ["User="; user; nl] ++ tail ++ ["WantedBy=multi-user.target"; nl]).
End Unit.

(** ** What systemd reads

    A unit file is a list of sections, each a list of directives in order:
    [\[Name\]] opens a section, a blank line or one starting with [#] or [;] is
    skipped, [Key=value] is a directive whose two sides are stripped.  A line that
    a backslash continues is refused here: no file of the program has one. *)
Module UnitFile.
Definition Directives : Type := list (string * string).

Definition is_nl (c : ascii) : bool := (S.code c =? 10)%N.

Fixpoint file_lines (s : string) : list string :=
  match s with
  | EmptyString => []
  | String c s' =>
      if is_nl c then "" :: file_lines s'
      else match file_lines s' with
           | [] => [String c EmptyString]
           | l :: ls => String c l :: ls
           end
  end.

Inductive Line : Type :=
| Blank
| Header (name : string)
| Directive (key value : string)
| Malformed.

Fixpoint cut_eq (s : string) : option (string * string) :=
  match s with
  | EmptyString => None
  | String c s' =>
      if bool_decide (c = "="%char) then Some (EmptyString, s')
      else match cut_eq s' with Some (k, v) => Some (String c k, v) | None => None end
  end.

Definition last_char (s : string) : option ascii := list.last (S.chars s).

Definition classify (line : string) : Line :=
  match line with
  | EmptyString => Blank
  | String c rest =>
      if bool_decide (c = "#"%char) || bool_decide (c = ";"%char) then Blank
      else if bool_decide (c = "["%char) then
        if bool_decide (last_char rest = Some "]"%char)
        then Header (S.ofl (removelast (S.chars rest))) else Malformed
      else match cut_eq line with
           | Some (k, v) =>
               if bool_decide (last_char v = Some "\"%char) then Malformed
               else Directive (S.strip k) (S.strip v)
           | None => Malformed
           end
  end.

(** The directives before the first section, and the sections. *)
Fixpoint parse_lines (ls : list string) : option (Directives * list (string * Directives)) :=
  match ls with
  | [] => Some ([], [])
  | l :: ls =>
      '(ds, secs) ← parse_lines ls;
      match classify l with
      | Blank => Some (ds, secs)
      | Header n => Some ([], (n, ds) :: secs)
      | Directive k v => Some ((k, v) :: ds, secs)
      | Malformed => None
      end
  end.

Definition parse_unit (text : string) : option (list (string * Directives)) :=
  '(ds, secs) ← parse_lines (file_lines text);
  match ds with [] => Some secs | _ => None end.

(** ** The directives a service is meant to have *)
Definition opt_directive (key : string) (v : option string) : Directives :=
  match v with Some s => if bool_decide (s = "") then [] else [(key, s)] | None => [] end.
Definition opt_num (key : string) (v : option Z) : Directives :=
  match v with Some n => if n =? 0 then [] else [(key, Num.str_of_Z n)] | None => [] end.

Definition unit_directives (a : Unit.UnitArgs) : Directives :=
  [("Description", Unit.description a); ("After", Unit.after a);
   ("StartLimitIntervalSec", Num.str_of_Z (Unit.start_limit_interval_sec a));
   ("StartLimitBurst", Num.str_of_Z (Unit.start_limit_burst a))] ++
  opt_directive "BindsTo" (Unit.binds_to a) ++ opt_directive "Requires" (Unit.requires a).

Definition service_directives (a : Unit.UnitArgs) : Directives :=
  [("Type", Unit.service_type a)] ++ map (pair "ExecStartPre") (Unit.exec_start_pre a) ++
  [("ExecStart", Unit.exec_start a); ("Environment", "MOWER_CORRELATION_ID=daemon")] ++
  map (fun kv => ("Environment", Unit.fill [kv.1; "="; kv.2])) (Unit.extra_environment a) ++
  (if Unit.user_level a then [] else [("User", Unit.user a)]) ++
  [("WorkingDirectory", Unit.home_dir a); ("WatchdogSec", Num.str_of_Z (Unit.watchdog_sec a))] ++
  opt_num "TimeoutStartSec" (Unit.timeout_start_sec a) ++
  opt_directive "RuntimeDirectory" (Unit.runtime_directory a) ++
  [("Restart", "on-failure"); ("RestartSec", Num.str_of_Z (Unit.restart_sec a))].

Definition meant (a : Unit.UnitArgs) : list (string * Directives) :=
  [("Unit", unit_directives a); ("Service", service_directives a);
   ("Install", [("WantedBy", if Unit.user_level a then "default.target" else "multi-user.target")])].

(** A value that fits on its line: no newline, no blank at either end, no
    backslash at the end. *)
Definition clean (v : string) : Prop :=
  forallb (fun c => negb (is_nl c)) (S.chars v) = true /\ S.strip v = v /\
  last_char v <> Some "\"%char.

Definition clean_args (a : Unit.UnitArgs) : Prop :=
  Forall (fun kv : string * string => clean kv.2) (unit_directives a) /\
  Forall (fun kv : string * string => clean kv.2) (service_directives a).

(** The text of a list of lines, and the line of a directive. *)
Definition unlines (ls : list string) : string := S.join "" (map (fun l => String.append l Unit.nl) ls).
Definition line_of (kv : string * string) : string := Unit.fill [kv.1; "="; kv.2].
End UnitFile.
Import UnitFile.

#[local] Arguments String.append : simpl nomatch.

Section strings.
Local Open Scope string_scope.

Lemma append_assoc (a b c : string) : (a ++ b) ++ c = a ++ (b ++ c).
Proof. induction a as [|x a IH]; cbn [String.append]; [done|by rewrite IH]. Qed.

Lemma join_nil_cons s l : S.join "" (s :: l) = s ++ S.join "" l.
Proof. destruct l; cbn [S.join]; [|done]. induction s as [|c s IH]; cbn [String.append]; [done|by rewrite <- IH]. Qed.

Lemma join_nil_app l m : S.join "" (l ++ m)%list = S.join "" l ++ S.join "" m.
Proof.
  induction l as [|s l IH]; [done|]. rewrite <- app_comm_cons, !join_nil_cons, IH.
  by rewrite append_assoc.
Qed.

Definition no_nl (l : string) : Prop := forallb (fun c => negb (is_nl c)) (S.chars l) = true.

Lemma file_lines_app l s : no_nl l -> file_lines (l ++ Unit.nl ++ s) = l :: file_lines s.
Proof.
  unfold no_nl. induction l as [|c l IH]; cbn [String.append file_lines S.chars String.list_ascii_of_string forallb].
  - done.
  - intros [Hc Hl]%andb_prop. rewrite (IH Hl). by destruct (is_nl c) eqn:?.
Qed.

Lemma file_lines_unlines ls : Forall no_nl ls -> file_lines (unlines ls) = ls.
Proof.
  unfold unlines. induction 1 as [|l ls H Hls IH]; [done|].
  cbn [map]. rewrite join_nil_cons, append_assoc, (file_lines_app _ _ H). by rewrite IH.
Qed.

Lemma unlines_cons l ls : unlines (l :: ls) = l ++ Unit.nl ++ unlines ls.
Proof. unfold unlines. cbn [map]. by rewrite join_nil_cons, append_assoc. Qed.

Lemma unlines_app l m : unlines (l ++ m)%list = unlines l ++ unlines m.
Proof. unfold unlines. by rewrite map_app, join_nil_app. Qed.
End strings.

Lemma fill_cons s l : Unit.fill (s :: l) = String.append s (Unit.fill l).
Proof. apply join_nil_cons. Qed.

Lemma fill_app l m : Unit.fill (l ++ m) = String.append (Unit.fill l) (Unit.fill m).
Proof. apply join_nil_app. Qed.

Lemma fill_nil : Unit.fill [] = "".
Proof. done. Qed.

Lemma unlines_nil : unlines [] = "".
Proof. done. Qed.

Lemma append_nil_r (s : string) : String.append s "" = s.
Proof. induction s as [|c s IH]; cbn [String.append]; [done|by rewrite IH]. Qed.

(** Bring a text and its lines to one form. *)
Ltac text_norm :=
  unfold line_of; cbn [map app fst snd];
  repeat (progress rewrite ?fill_app, ?fill_cons); rewrite ?fill_nil;
  repeat (progress rewrite ?unlines_app, ?unlines_cons); rewrite ?unlines_nil;
  rewrite ?append_assoc, ?append_nil_r.

(** ** The text, line by line *)
Lemma opt_line_lines key v : Unit.opt_line key v = unlines (map line_of (opt_directive key v)).
Proof.
  unfold Unit.opt_line, opt_directive. destruct v as [s|]; [|done]. case_bool_decide; [done|].
  by text_norm.
Qed.

Lemma opt_num_lines key v : Unit.opt_num_line key v = unlines (map line_of (opt_num key v)).
Proof.
  unfold Unit.opt_num_line, opt_num. destruct v as [n|]; [|done]. destruct (n =? 0); [done|].
  by text_norm.
Qed.

Lemma mapped_lines {A} (f : A -> string) (g : A -> string * string) l :
  (forall x, f x = String.append (line_of (g x)) Unit.nl) ->
  S.join "" (map f l) = unlines (map line_of (map g l)).
Proof.
  intros Hfg. induction l as [|x l IH]; [done|]. cbn [map].
  by rewrite join_nil_cons, unlines_cons, IH, Hfg, append_assoc.
Qed.

Lemma exec_start_pre_text cmds :
  Unit.exec_start_pre_lines cmds = unlines (map line_of (map (pair "ExecStartPre") cmds)).
Proof. apply mapped_lines. intros cmd. by text_norm. Qed.

Lemma chars_append (a b : string) : S.chars (String.append a b) = S.chars a ++ S.chars b.
Proof. induction a as [|c a IH]; [done|]. unfold S.chars in *. cbn. by rewrite IH. Qed.

Lemma ends_with_nl l : l <> [] -> S.endswith (unlines l) Unit.nl = true.
Proof.
  intros Hl. destruct (exists_last Hl) as (l' & x & ->).
  rewrite unlines_app, unlines_cons, unlines_nil, append_nil_r. unfold S.endswith.
  rewrite !chars_append, !rev_app_distr. apply bool_decide_eq_true_2. by eexists.
Qed.

Lemma extra_env_text env :
  Unit.extra_env_lines env =
  unlines (map line_of (map (fun kv => ("Environment", Unit.fill [kv.1; "="; kv.2])) env)).
Proof.
  unfold Unit.extra_env_lines.
  rewrite (mapped_lines _ (fun kv : string * string => ("Environment", Unit.fill [kv.1; "="; kv.2])))
    by (intros kv; by text_norm).
  destruct env as [|kv env]; [done|]. rewrite ends_with_nl by done. by rewrite andb_false_r.
Qed.

Definition unit_lines (secs : list (string * Directives)) : list (list string) :=
  map (fun sec : string * Directives => Unit.fill ["["; sec.1; "]"] :: map line_of sec.2) secs.

Lemma generated_lines a :
  Unit.generate_service_unit a =
  unlines (["[Unit]"] ++ map line_of (unit_directives a) ++ [""; "[Service]"] ++
           map line_of (service_directives a) ++ [""; "[Install]"] ++
           [line_of ("WantedBy", if Unit.user_level a then "default.target" else "multi-user.target")]).
Proof.
  unfold Unit.generate_service_unit, Unit._GENERIC_USER_TEMPLATE, Unit._GENERIC_SYSTEM_TEMPLATE,
    Unit.template_head, Unit.template_tail, unit_directives, service_directives.
  rewrite !map_app, !opt_line_lines, !opt_num_lines, exec_start_pre_text, extra_env_text.
  destruct (Unit.user_level a); text_norm; reflexivity.
Qed.

(** ** Reading it back *)
Definition letter (c : ascii) : bool := S.is_upper c || S.is_lower c.
Definition good_key (k : string) : bool :=
  negb (bool_decide (k = "")) && forallb letter (S.chars k).

Lemma letter_not c d : letter c = true -> letter d = false -> c <> d.
Proof. intros H1 H2 ->. congruence. Qed.

Lemma cut_eq_key k v : forallb letter (S.chars k) = true -> cut_eq (line_of (k, v)) = Some (k, v).
Proof.
  unfold line_of. rewrite !fill_cons, fill_nil, append_nil_r. cbn [fst snd].
  change (String.append "=" v) with (String "="%char v).
  induction k as [|c k IH]; [done|]. cbn [S.chars String.list_ascii_of_string forallb].
  intros [Hc Hk]%andb_prop. cbn [String.append cut_eq].
  rewrite bool_decide_eq_false_2 by by apply (letter_not _ _ Hc). by rewrite IH.
Qed.

Lemma letter_no_space c : letter c = true -> S.is_space c = false.
Proof. destruct c as [[] [] [] [] [] [] [] []]; vm_compute; congruence. Qed.

Lemma letters_strip k : forallb letter (S.chars k) = true -> S.strip k = k.
Proof.
  intros H. apply strip_no_space. rewrite forallb_forall in H. apply not_true_is_false.
  rewrite existsb_exists. intros (c & Hc & Hs). by rewrite (letter_no_space c (H c Hc)) in Hs.
Qed.

Lemma classify_directive k v : good_key k = true -> clean v -> classify (line_of (k, v)) = Directive k v.
Proof.
  intros [Hk Hl]%andb_prop (_ & Hs & Hb). pose proof (cut_eq_key k v Hl) as Hcut.
  pose proof (letters_strip k Hl) as Hstrip.
  destruct k as [|c k]; [done|]. cbn [S.chars String.list_ascii_of_string forallb] in Hl.
  apply andb_prop in Hl as [Hc _]. unfold classify. rewrite Hcut.
  change (line_of (String c k, v)) with (String c (line_of (k, v))).
  rewrite !bool_decide_eq_false_2 by (done || by apply (letter_not _ _ Hc)). cbn [orb].
  by rewrite Hstrip, Hs.
Qed.

Definition good (kv : string * string) : Prop := good_key kv.1 = true /\ clean kv.2.

Lemma parse_dirs kvs ls : Forall good kvs ->
  parse_lines (map line_of kvs ++ ls) = '(ds, secs) ← parse_lines ls; Some (kvs ++ ds, secs).
Proof.
  induction 1 as [|[k v] kvs [Hk Hv] _ IH]; cbn [map app parse_lines].
  - by destruct (parse_lines ls) as [[ds secs]|].
  - rewrite IH, (classify_directive k v Hk Hv). by destruct (parse_lines ls) as [[ds secs]|].
Qed.

Lemma no_nl_append a b : no_nl a -> no_nl b -> no_nl (String.append a b).
Proof. unfold no_nl. rewrite chars_append, forallb_app. intros -> ->. done. Qed.

Lemma good_no_nl kv : good kv -> no_nl (line_of kv).
Proof.
  destruct kv as [k v]. intros [[_ Hk]%andb_prop (Hv & _)]. unfold line_of.
  rewrite !fill_cons, fill_nil, append_nil_r. apply no_nl_append; [|by apply no_nl_append].
  unfold no_nl. rewrite forallb_forall in *. intros c Hc. apply Hk in Hc.
  cbn in Hc. clear -Hc. revert Hc. destruct c as [[] [] [] [] [] [] [] []]; vm_compute; congruence.
Qed.

Lemma unit_keys a : Forall (fun kv : string * string => good_key kv.1 = true) (unit_directives a).
Proof.
  unfold unit_directives, opt_directive. repeat apply list.Forall_app_2; repeat constructor;
    try done; repeat split_match; repeat constructor.
Qed.

Lemma service_keys a : Forall (fun kv : string * string => good_key kv.1 = true) (service_directives a).
Proof.
  unfold service_directives, opt_directive, opt_num.
  repeat apply list.Forall_app_2; repeat constructor; try (apply Forall_map, Forall_true; done);
    repeat split_match; repeat constructor.
Qed.

Lemma all_good l : Forall (fun kv : string * string => good_key kv.1 = true) l ->
  Forall (fun kv : string * string => clean kv.2) l -> Forall good l.
Proof. intros H1 H2. by apply list.Forall_and. Qed.

Lemma parse_header l name ls ds secs : classify l = Header name ->
  parse_lines ls = Some (ds, secs) -> parse_lines (l :: ls) = Some ([], (name, ds) :: secs).
Proof. intros Hl Hp. cbn [parse_lines]. by rewrite Hp, Hl. Qed.

Lemma parse_section l name kvs ls secs : classify l = Header name -> Forall good kvs ->
  parse_lines ls = Some ([], secs) ->
  parse_lines (l :: map line_of kvs ++ ls) = Some ([], (name, kvs) :: secs).
Proof.
  intros Hl Hk Hp. apply parse_header; [done|]. rewrite (parse_dirs _ _ Hk), Hp. cbn. by rewrite app_nil_r.
Qed.

Lemma parse_blank ls r : parse_lines ls = Some r -> parse_lines ("" :: ls) = Some r.
Proof. intros H. cbn [parse_lines]. rewrite H. by destruct r. Qed.

Lemma good_lines kvs : Forall good kvs -> Forall no_nl (map line_of kvs).
Proof. intros H. apply Forall_map. eapply list.Forall_impl; [exact H|]. intros kv Hkv. by apply good_no_nl. Qed.

(** C30: A unit file of [generate_service_unit] says what it is meant to say: when
    its arguments fit on their lines, systemd reads exactly the directives meant,
    in their sections and in their order (start limits and bindings in [Unit]; the pre-start commands before the command, environment,
    user, watchdog and time-outs in [Service]; the target of the right level in
    [Install]), and no directive more. *)
Theorem generated_unit_parses a (Hclean : clean_args a) :
  parse_unit (Unit.generate_service_unit a) = Some (meant a).
Proof.
  destruct Hclean as [Hu Hs]. pose proof (all_good _ (unit_keys a) Hu) as Gu.
  pose proof (all_good _ (service_keys a) Hs) as Gs.
  unfold parse_unit. rewrite generated_lines, file_lines_unlines.
  - cbn [app]. erewrite (parse_section "[Unit]" "Unit"); [reflexivity|done|done|]. apply parse_blank.
    apply parse_section; [done|done|]. apply parse_blank.
    by destruct (Unit.user_level a).
  - apply list.Forall_app_2; [by repeat constructor|].
    apply list.Forall_app_2; [by apply good_lines|].
    apply list.Forall_app_2; [by repeat constructor|].
    apply list.Forall_app_2; [by apply good_lines|].
    apply list.Forall_app_2; [by repeat constructor|].
    constructor; [by destruct (Unit.user_level a)|constructor].
Qed.

Definition demo_unit : Unit.UnitArgs := Unit.kiosk_renderer_args "rover" "/home/rover".

Lemma generated_unit_parses_witness :
  parse_unit (Unit.generate_kiosk_renderer_unit_file "rover" "/home/rover") = Some (meant demo_unit).
Proof.
  apply (generated_unit_parses demo_unit).
  split; repeat constructor; vm_compute; congruence.
Defined.

(** ** Installing and removing *)
Class ServiceHost (W : Type) := {
  (** [subprocess.run(cmd, check=False)]: the return code of a command *)
  v_run : list string -> prog exn W Z;
  (** [path.unlink()] *)
  v_unlink : string -> prog exn W unit;
  v_getuser : prog exn W string;
  v_home : prog exn W string;
  v_which : string -> prog exn W (option string)
}.

Module Install.
Section install.
Context {W : Type} `{!FileStore W} `{!ServiceHost W} `{!Terminal W}.
Variable yaml_safe_load : string -> res exn PyVal.
Variable DEFAULT_JETSON_CONFIG_PATH : string.

Definition service (name : string) : string := Unit.fill [name; ".service"].

Definition unit_dir (user_level : bool) : prog exn W string :=
  if user_level then
    home ← v_home; mret (join_path (join_path (join_path home ".config") "systemd") "user")
  else mret "/etc/systemd/system".

(** [check=True]: a non-zero return code raises. *)
Definition _systemctl (args : list string) (user_level : bool) : prog exn W unit :=
  let cmd := ["systemctl"] ++ (if user_level then ["--user"] else []) ++ args in
  rc ← v_run cmd;
  if rc =? 0 then mret tt
  else plift (raise_ CalledProcessError [L "Command "; V (VList (map VStr cmd));
                                         L " returned non-zero exit status "; V (VInt rc); L "."]).

(** [contextlib.suppress]. *)
Definition suppress (cs : list ExnClass) (m : prog exn W unit) : prog exn W unit :=
  pexcept cs m (fun _ => mret tt).

Definition _cleanup_user_unit (unit_name : string) : prog exn W bool :=
  let errors := [CalledProcessError; FileNotFoundError; OSError] in
  _ ← piter (fun action => suppress errors (_systemctl [action; service unit_name] true)) ["stop"; "disable"];
  home ← v_home;
  let user_unit_path := join_path (join_path (join_path (join_path home ".config") "systemd") "user")
                          (service unit_name) in
  e ← f_exists user_unit_path;
  deleted ← (if (e : bool)
             then pexcept [OSError] (_ ← v_unlink user_unit_path; mret true) (fun _ => mret false)
             else mret false);
  _ ← suppress errors (_systemctl ["daemon-reload"] true);
  mret deleted.

(** [target or default], for an optional string. *)
Definition or_else (target : option string) (dflt : prog exn W string) : prog exn W string :=
  match target with
  | Some s => if bool_decide (s = "") then dflt else mret s
  | None => dflt
  end.

Definition bin_path (home : string) : string := Unit.fill [home; "/.local/bin/mower-jetson"].

(** The command installed for the target user, else the one on the caller's path. *)
Definition mower_jetson_path (target_home : option string) : prog exn W string :=
  match target_home with
  | Some h => mret (bin_path (S.rstrip_chr "/"%char h))
  | None =>
      found ← v_which "mower-jetson";
      or_else found (home ← v_home;
        mret (join_path (join_path (join_path home ".local") "bin") "mower-jetson"))
  end.

(** The end of every installer: write the unit, reload, enable. *)
Definition install_unit (name content : string) (user_level : bool) : prog exn W unit :=
  target_dir ← unit_dir user_level;
  _ ← f_mkdir target_dir;
  _ ← f_write (join_path target_dir (service name)) content;
  _ ← _systemctl ["daemon-reload"] user_level;
  _systemctl ["enable"; service name] user_level.

(** And of every uninstaller, [skipped] the exceptions of stop and disable that
    are skipped. *)
Definition uninstall_unit (skipped : list ExnClass) (name : string) (user_level : bool) : prog exn W unit :=
  _ ← piter (fun action => suppress skipped (_systemctl [action; service name] user_level)) ["stop"; "disable"];
  target_dir ← unit_dir user_level;
  let target := join_path target_dir (service name) in
  e ← f_exists target;
  _ ← (if (e : bool) then v_unlink target else mret tt);
  _systemctl ["daemon-reload"] user_level.

(** A body behind the gate that does nothing in a dry run. *)
Definition gated (message name : string) (ctx : SafetyContext W) (body : prog exn W unit) : prog exn W unit :=
  requires_confirmation message "ctx" name
    (fun _ _ => if dry_run ctx then mret tt else body) [ACtx ctx] [].

Section target.
Variables (ctx : SafetyContext W) (user_level : bool) (target_user target_home : option string).

Definition install_service : prog exn W unit :=
  gated "Install mower-health systemd service" "install_service" ctx
    (user ← or_else target_user v_getuser;
     home ← or_else target_home v_home;
     mower_jetson ← mower_jetson_path target_home;
     cfg ← JetsonConfig.load_jetson_config yaml_safe_load DEFAULT_JETSON_CONFIG_PATH None;
     let content := Unit.generate_unit_file mower_jetson user home
                      (JetsonConfig.health_interval_s cfg) user_level in
     install_unit Unit.UNIT_NAME content user_level).

Definition uninstall_service : prog exn W unit :=
  gated "Uninstall mower-health systemd service" "uninstall_service" ctx
    (uninstall_unit [CalledProcessError] Unit.UNIT_NAME user_level).

Definition install_vslam_service : prog exn W unit :=
  gated "Install mower-vslam systemd service" "install_vslam_service" ctx
    (user ← or_else target_user v_getuser;
     home ← or_else target_home v_home;
     let content := Unit.generate_vslam_unit_file user home "/etc/mower/vslam.yaml"
                      "/usr/local/bin/rtabmap_slam_node" user_level in
     install_unit Unit.VSLAM_UNIT_NAME content user_level).

Definition uninstall_vslam_service : prog exn W unit :=
  gated "Uninstall mower-vslam systemd service" "uninstall_vslam_service" ctx
    (uninstall_unit [CalledProcessError] Unit.VSLAM_UNIT_NAME user_level).

Definition install_vslam_bridge_service : prog exn W unit :=
  gated "Install mower-vslam-bridge systemd service" "install_vslam_bridge_service" ctx
    (user ← or_else target_user v_getuser;
     home ← or_else target_home v_home;
     mower_jetson ← mower_jetson_path target_home;
     let content := Unit.generate_vslam_bridge_unit_file mower_jetson user home user_level in
     install_unit Unit.VSLAM_BRIDGE_UNIT_NAME content user_level).

Definition uninstall_vslam_bridge_service : prog exn W unit :=
  gated "Uninstall mower-vslam-bridge systemd service" "uninstall_vslam_bridge_service" ctx
    (uninstall_unit [CalledProcessError] Unit.VSLAM_BRIDGE_UNIT_NAME user_level).

(** pixhawk/unit.py *)
Definition install_pixhawk_sync_service : prog exn W unit :=
  gated "Install mower-pixhawk-sync systemd oneshot service" "install_pixhawk_sync_service" ctx
    (user ← or_else target_user v_getuser;
     home ← or_else target_home v_home;
     mower_jetson ← mower_jetson_path target_home;
     let content := Unit.generate_pixhawk_sync_unit_file mower_jetson user home user_level in
     install_unit Unit.PIXHAWK_SYNC_UNIT_NAME content user_level).

Definition uninstall_pixhawk_sync_service : prog exn W unit :=
  gated "Uninstall mower-pixhawk-sync systemd service" "uninstall_pixhawk_sync_service" ctx
    (uninstall_unit [Exception] Unit.PIXHAWK_SYNC_UNIT_NAME user_level).
End target.

(** ** kiosk/units.py: three system-level units at once *)
Definition _KIOSK_UNITS : list string := [Unit.WESTON_UNIT_NAME; Unit.MAVPROXY_UNIT_NAME; Unit.KIOSK_UNIT_NAME].

Definition _confirm_or_abort (safety : SafetyContext W) (message : string) : prog exn W unit :=
  if dry_run safety || assume_yes safety then mret tt
  else
    answer ← pexcept [EOFError]
      (line ← t_input [L message; L " [y/N]: "]; mret (S.lower (S.strip line)))
      (fun _ => mret "");
    if bool_decide (answer ∈ ["y"; "yes"]) then mret tt
    else plift (raise_ ConfirmationAborted [L "Operator declined: "; L message]).

Definition kiosk_contents (kiosk_cfg : JetsonConfig.KioskConfig) (mower_jetson user home : string)
  : list (string * string) :=
  [(Unit.WESTON_UNIT_NAME, Unit.generate_weston_unit_file user home);
   (Unit.MAVPROXY_UNIT_NAME, Unit.generate_mavproxy_unit_file (JetsonConfig.mavproxy_master kiosk_cfg)
                               (JetsonConfig.mavproxy_outputs kiosk_cfg) user home);
   (Unit.KIOSK_UNIT_NAME, Unit.generate_kiosk_unit_file mower_jetson user home)].

Definition install_kiosk_units (safety : SafetyContext W) (config : JetsonConfig.JetsonConfig)
    (target_user target_home : option string) : prog exn W unit :=
  _ ← _confirm_or_abort safety "Install kiosk systemd unit files (weston, kiosk, mavproxy)?";
  if dry_run safety then mret tt
  else
    user ← or_else target_user (mret "vincent");
    home ← or_else target_home (mret "/home/vincent");
    mower_jetson ← mower_jetson_path target_home;
    let units := kiosk_contents (JetsonConfig.kiosk config) mower_jetson user home in
    target_dir ← unit_dir false;
    _ ← f_mkdir target_dir;
    _ ← piter (fun u : string * string => f_write (join_path target_dir (service u.1)) u.2) units;
    _ ← _systemctl ["daemon-reload"] false;
    piter (fun name => _systemctl ["enable"; service name] false) _KIOSK_UNITS.

Definition uninstall_kiosk_units (safety : SafetyContext W) : prog exn W unit :=
  _ ← _confirm_or_abort safety "Uninstall kiosk systemd unit files?";
  if dry_run safety then mret tt
  else
    _ ← piter (fun name =>
          piter (fun action => suppress [CalledProcessError] (_systemctl [action; service name] false))
            ["stop"; "disable"])
          (rev _KIOSK_UNITS);
    target_dir ← unit_dir false;
    _ ← piter (fun name =>
          let unit_path := join_path target_dir (service name) in
          e ← f_exists unit_path;
          if (e : bool) then v_unlink unit_path else mret tt) _KIOSK_UNITS;
    _systemctl ["daemon-reload"] false.
End install.
End Install.
Import Install.

(** ** A host on which systemctl answers

    Every command returns, with any code; files can be read, written and removed;
    [commands] is the sequence of commands run so far. *)
Class Systemd (W : Type) `{!FileStore W} `{!ServiceHost W} (contents : W -> gmap string string)
    (commands : W -> list (list string)) (me home : string) (found : option string) : Prop := {
  sd_mkdir p w : exists w', f_mkdir p w = Some (Ok tt, w') /\ contents w' = contents w /\
    commands w' = commands w;
  sd_write p d w : exists w', f_write p d w = Some (Ok tt, w') /\ contents w' = <[p := d]> (contents w) /\
    commands w' = commands w;
  sd_exists p w : exists w', f_exists p w = Some (Ok (bool_decide (is_Some (contents w !! p))), w') /\
    contents w' = contents w /\ commands w' = commands w;
  sd_read p w d : contents w !! p = Some d ->
    exists w', f_read p w = Some (Ok d, w') /\ contents w' = contents w /\ commands w' = commands w;
  sd_run cmd w : exists n w', v_run cmd w = Some (Ok n, w') /\ contents w' = contents w /\
    commands w' = commands w ++ [cmd];
  sd_unlink p w : exists w', v_unlink p w = Some (Ok tt, w') /\ contents w' = delete p (contents w) /\
    commands w' = commands w;
  sd_getuser w : v_getuser w = Some (Ok me, w);
  sd_home w : v_home w = Some (Ok home, w);
  sd_which n w : v_which n w = Some (Ok found, w)
}.

Section lifecycle.
Context {W : Type} `{!FileStore W} `{!ServiceHost W} `{!Terminal W}.
Context (contents : W -> gmap string string) (commands : W -> list (list string))
  (me home : string) (found : option string).
Context `{!Systemd W contents commands me home found}.
Variable yaml_safe_load : string -> res exn PyVal.
Variable config_path : string.

(** What [systemctl] is given. *)
Definition ctl (user_level : bool) (args : list string) : list string :=
  ["systemctl"] ++ (if user_level then ["--user"] else []) ++ args.

Lemma systemctl_runs args ul w :
  exists r w', _systemctl args ul w = Some (r, w') /\ contents w' = contents w /\
    commands w' = commands w ++ [ctl ul args] /\
    (r = Ok tt \/ exists e, r = Err e /\ exn_class e = CalledProcessError).
Proof.
  destruct (sd_run (ctl ul args) w) as (n & w' & Hw & Hc & Hl).
  unfold _systemctl. rewrite (pbind_step _ _ _ _ _ Hw). destruct (n =? 0).
  - exists (Ok tt), w'. by split_and!; [..|left].
  - eexists _, w'. split_and!; [reflexivity|done|done|right]. by eexists.
Qed.

Lemma suppressed_runs cs args ul w : existsb (subclass CalledProcessError) cs = true ->
  exists w', suppress cs (_systemctl args ul) w = Some (Ok tt, w') /\ contents w' = contents w /\
    commands w' = commands w ++ [ctl ul args].
Proof.
  intros Hcs. destruct (systemctl_runs args ul w) as (r & w' & Hw & Hc & Hl & Hr).
  exists w'. split_and!; [|done|done]. unfold suppress, pexcept, pcatch. rewrite Hw.
  destruct Hr as [->|(e & -> & He)]; [done|]. unfold caught_by. by rewrite He, Hcs.
Qed.

(** The directory of the units, and the path of one. *)
Definition units_at (ul : bool) : string :=
  if ul then join_path (join_path (join_path home ".config") "systemd") "user" else "/etc/systemd/system".
Definition unit_path (name : string) (ul : bool) : string := join_path (units_at ul) (service name).

Lemma unit_dir_runs ul w : unit_dir ul w = Some (Ok (units_at ul), w).
Proof. destruct ul; [|done]. unfold unit_dir. by rewrite (pbind_step _ _ _ _ _ (sd_home w)). Qed.

Lemma install_unit_runs name text ul w :
  exists r w', install_unit name text ul w = Some (r, w') /\
    contents w' = <[unit_path name ul := text]> (contents w) /\
    (r = Ok tt -> commands w' = commands w ++ [ctl ul ["daemon-reload"]; ctl ul ["enable"; service name]]).
Proof.
  unfold install_unit. rewrite (pbind_step _ _ _ _ _ (unit_dir_runs ul w)).
  destruct (sd_mkdir (units_at ul) w) as (w1 & H1 & C1 & L1). rewrite (pbind_step _ _ _ _ _ H1).
  destruct (sd_write (unit_path name ul) text w1) as (w2 & H2 & C2 & L2). rewrite (pbind_step _ _ _ _ _ H2).
  destruct (systemctl_runs ["daemon-reload"] ul w2) as (r3 & w3 & H3 & C3 & L3 & [->|(e & -> & _)]).
  - rewrite (pbind_step _ _ _ _ _ H3).
    destruct (systemctl_runs ["enable"; service name] ul w3) as (r4 & w4 & H4 & C4 & L4 & _).
    exists r4, w4. split_and!; [done|congruence|]. intros _. by rewrite L4, L3, L2, L1, <- app_assoc.
  - rewrite (pbind_err _ _ _ _ _ H3). eexists _, w3. split_and!; [reflexivity|congruence|done].
Qed.

Lemma stop_disable_runs skipped name ul w : existsb (subclass CalledProcessError) skipped = true ->
  exists w', piter (fun action => suppress skipped (_systemctl [action; service name] ul)) ["stop"; "disable"] w
    = Some (Ok tt, w') /\ contents w' = contents w /\
    commands w' = commands w ++ [ctl ul ["stop"; service name]; ctl ul ["disable"; service name]].
Proof.
  intros Hs. destruct (suppressed_runs skipped ["stop"; service name] ul w Hs) as (w1 & H1 & C1 & L1).
  destruct (suppressed_runs skipped ["disable"; service name] ul w1 Hs) as (w2 & H2 & C2 & L2).
  exists w2. split_and!; [|congruence|by rewrite L2, L1, <- app_assoc].
  unfold piter. cbn [pfold]. by rewrite (pbind_step _ _ _ _ _ H1), (pbind_step _ _ _ _ _ H2).
Qed.

Lemma remove_runs path w :
  exists w', (e ← f_exists path; if (e : bool) then v_unlink path else mret tt) w = Some (Ok tt, w') /\
    contents w' = delete path (contents w) /\ commands w' = commands w.
Proof.
  destruct (sd_exists path w) as (w1 & H1 & C1 & L1). rewrite (pbind_step _ _ _ _ _ H1).
  case_bool_decide as Hp.
  - destruct (sd_unlink path w1) as (w2 & H2 & C2 & L2). exists w2. split_and!; congruence.
  - exists w1. split_and!; [done| |done]. apply eq_None_not_Some in Hp.
    by rewrite C1, delete_id.
Qed.

Lemma uninstall_unit_runs skipped name ul w : existsb (subclass CalledProcessError) skipped = true ->
  exists r w', uninstall_unit skipped name ul w = Some (r, w') /\
    contents w' = delete (unit_path name ul) (contents w) /\
    commands w' = commands w ++ [ctl ul ["stop"; service name]; ctl ul ["disable"; service name];
                                 ctl ul ["daemon-reload"]].
Proof.
  intros Hs. destruct (stop_disable_runs skipped name ul w Hs) as (w1 & H1 & C1 & L1).
  destruct (remove_runs (unit_path name ul) w1) as (w2 & H2 & C2 & L2).
  destruct (systemctl_runs ["daemon-reload"] ul w2) as (r & w3 & H3 & C3 & L3 & _).
  exists r, w3. split_and!; [|congruence|by rewrite L3, L2, L1, <- app_assoc].
  unfold uninstall_unit. rewrite (pbind_step _ _ _ _ _ H1), (pbind_step _ _ _ _ _ (unit_dir_runs ul w1)).
  fold (unit_path name ul). destruct (sd_exists (unit_path name ul) w1) as (wx & Hx & Cx & Lx).
  rewrite (pbind_step _ _ _ _ _ Hx). rewrite (pbind_step _ _ _ _ _ Hx) in H2.
  by rewrite (pbind_step _ _ _ _ _ H2).
Qed.

(** ** The four services *)
Inductive Svc : Type := Health | Vslam | Bridge | Sync.

Definition name_of (svc : Svc) : string :=
  match svc with
  | Health => Unit.UNIT_NAME | Vslam => Unit.VSLAM_UNIT_NAME
  | Bridge => Unit.VSLAM_BRIDGE_UNIT_NAME | Sync => Unit.PIXHAWK_SYNC_UNIT_NAME
  end.

Definition install_of (svc : Svc) (ctx : SafetyContext W) (ul : bool) (tu th : option string)
  : prog exn W unit :=
  match svc with
  | Health => install_service yaml_safe_load config_path ctx ul tu th
  | Vslam => install_vslam_service ctx ul tu th
  | Bridge => install_vslam_bridge_service ctx ul tu th
  | Sync => install_pixhawk_sync_service ctx ul tu th
  end.

Definition uninstall_of (svc : Svc) (ctx : SafetyContext W) (ul : bool) : prog exn W unit :=
  match svc with
  | Health => uninstall_service ctx ul
  | Vslam => uninstall_vslam_service ctx ul
  | Bridge => uninstall_vslam_bridge_service ctx ul
  | Sync => uninstall_pixhawk_sync_service ctx ul
  end.

(** The settings a directory of files holds. *)
Definition settings (files : gmap string string) : res exn JetsonConfig.JetsonConfig :=
  match files !! config_path with
  | None => Ok JetsonConfig.JetsonConfig_default
  | Some raw =>
      v ← except [YAMLError] (text ← Utf8.decode raw; yaml_safe_load text)
            (fun exc => raise_ JetsonConfigError ([L "failed to parse "; L config_path; L ": "] ++ exn_msg exc));
      JetsonConfig._coerce (if py_bool v then v else VDict [])
  end.

(** Who a service runs as, where, and by which command. *)
Definition or_str (target : option string) (dflt : string) : string :=
  match target with Some s => if bool_decide (s = "") then dflt else s | None => dflt end.
Definition bin_of (th : option string) : string :=
  match th with
  | Some h => bin_path (S.rstrip_chr "/"%char h)
  | None => or_str found (join_path (join_path (join_path home ".local") "bin") "mower-jetson")
  end.

Definition text_of (svc : Svc) (ul : bool) (tu th : option string) (cfg : JetsonConfig.JetsonConfig) : string :=
  let user := or_str tu me in
  let dir := or_str th home in
  match svc with
  | Health => Unit.generate_unit_file (bin_of th) user dir (JetsonConfig.health_interval_s cfg) ul
  | Vslam => Unit.generate_vslam_unit_file user dir "/etc/mower/vslam.yaml"
               "/usr/local/bin/rtabmap_slam_node" ul
  | Bridge => Unit.generate_vslam_bridge_unit_file (bin_of th) user dir ul
  | Sync => Unit.generate_pixhawk_sync_unit_file (bin_of th) user dir ul
  end.

Lemma or_else_runs t (m : prog exn W string) d w : m w = Some (Ok d, w) ->
  or_else t m w = Some (Ok (or_str t d), w).
Proof. intros H. unfold or_else, or_str. destruct t as [s|]; [|done]. by case_bool_decide. Qed.

Lemma bin_runs th w : mower_jetson_path th w = Some (Ok (bin_of th), w).
Proof.
  destruct th as [h|]; [done|]. unfold mower_jetson_path. rewrite (pbind_step _ _ _ _ _ (sd_which _ w)).
  apply or_else_runs. by rewrite (pbind_step _ _ _ _ _ (sd_home w)).
Qed.

Lemma load_settings w cfg : settings (contents w) = Ok cfg ->
  exists w', JetsonConfig.load_jetson_config yaml_safe_load config_path None w = Some (Ok cfg, w') /\
    contents w' = contents w /\ commands w' = commands w.
Proof.
  unfold settings, JetsonConfig.load_jetson_config, load_yaml. cbn [default].
  destruct (sd_exists config_path w) as (w1 & H1 & C1 & L1). intros Hcfg.
  destruct (contents w !! config_path) as [raw|] eqn:Hf.
  - destruct (sd_read config_path w1 raw) as (w2 & H2 & C2 & L2); [by rewrite C1|].
    exists w2. split_and!; [|congruence..].
    apply rbind_ok in Hcfg as (v & Hv & Hcfg).
    assert (Hx : pexcept [YAMLError]
      (raw ← f_read config_path; text ← plift (Utf8.decode raw); plift (yaml_safe_load text))
      (fun exc => plift (raise_ JetsonConfigError ([L "failed to parse "; L config_path; L ": "] ++ exn_msg exc)))
      w1 = Some (Ok v, w2)).
    { unfold pexcept, pcatch. rewrite (pbind_step _ _ _ _ _ H2). unfold except, rcatch in Hv.
      unfold_monad. destruct (Utf8.decode raw) as [text|e]; cbn in *.
      - destruct (yaml_safe_load text) as [v'|e]; [by simplify_eq|]. by destruct (subclass _ _).
      - by destruct (subclass _ _). }
    unfold mbind, prog_bind. rewrite H1. rewrite bool_decide_eq_true_2 by by eexists. cbn [negb].
    unfold mbind, prog_bind in Hx. rewrite Hx. cbn. unfold plift. by rewrite Hcfg.
  - exists w1. split_and!; [|congruence..]. unfold mbind, prog_bind. rewrite H1.
    rewrite bool_decide_eq_false_2 by by intros [? ?]. cbn. by simplify_eq.
Qed.

Lemma gate_open message name ctx (body : prog exn W unit) w :
  dry_run ctx = false -> assume_yes ctx = true -> gated message name ctx body w = body w.
Proof. intros Hd Hy. unfold gated, requires_confirmation. cbn. by rewrite Hd, Hy. Qed.

Lemma gate_dry message name ctx (body : prog exn W unit) w :
  dry_run ctx = true -> gated message name ctx body w = Some (Ok tt, w).
Proof. intros Hd. unfold gated, requires_confirmation. cbn. by rewrite Hd. Qed.

Lemma install_of_runs svc ctx ul tu th cfg w :
  dry_run ctx = false -> assume_yes ctx = true -> settings (contents w) = Ok cfg ->
  exists w0, contents w0 = contents w /\ commands w0 = commands w /\
    install_of svc ctx ul tu th w = install_unit (name_of svc) (text_of svc ul tu th cfg) ul w0.
Proof.
  intros Hd Hy Hcfg. destruct (load_settings w cfg Hcfg) as (w0 & H0 & C0 & L0).
  assert (Hu : or_else tu v_getuser w = Some (Ok (or_str tu me), w)) by apply or_else_runs, sd_getuser.
  assert (Hh : or_else th v_home w = Some (Ok (or_str th home), w)) by apply or_else_runs, sd_home.
  pose proof (bin_runs th w) as Hb.
  destruct svc; [exists w0|exists w..]; (split_and!; [done..|]);
    unfold install_of, install_service, install_vslam_service, install_vslam_bridge_service,
      install_pixhawk_sync_service; rewrite (gate_open _ _ _ _ _ Hd Hy);
    rewrite (pbind_step _ _ _ _ _ Hu), (pbind_step _ _ _ _ _ Hh);
    rewrite ?(pbind_step _ _ _ _ _ Hb), ?(pbind_step _ _ _ _ _ H0); done.
Qed.

Lemma uninstall_of_runs svc ctx ul w : dry_run ctx = false -> assume_yes ctx = true ->
  exists skipped, existsb (subclass CalledProcessError) skipped = true /\
    uninstall_of svc ctx ul w = uninstall_unit skipped (name_of svc) ul w.
Proof.
  intros Hd Hy. destruct svc; eexists; (split; [|by apply gate_open]); reflexivity.
Qed.

(** C28: Installing and removing a service, for each of the four services of the
    rover.  A dry run does nothing.  With consent, whatever systemctl returns,
    installing changes one file, the service's unit, to the generated text for
    the target user and home directory, and succeeds only after the reload and
    the enabling; removing it afterwards runs stop, disable and reload, and
    leaves the files as they were, without that unit. *)
Theorem service_lifecycle svc ctx ul tu th cfg w (Hcfg : settings (contents w) = Ok cfg) :
  if dry_run ctx then
    install_of svc ctx ul tu th w = Some (Ok tt, w) /\ uninstall_of svc ctx ul w = Some (Ok tt, w)
  else assume_yes ctx = true ->
    let name := name_of svc in
    let reload := ctl ul ["daemon-reload"] in
    exists r1 w1 r2 w2,
      install_of svc ctx ul tu th w = Some (r1, w1) /\
      contents w1 = <[unit_path name ul := text_of svc ul tu th cfg]> (contents w) /\
      (r1 = Ok tt -> commands w1 = commands w ++ [reload; ctl ul ["enable"; service name]]) /\
      uninstall_of svc ctx ul w1 = Some (r2, w2) /\
      contents w2 = delete (unit_path name ul) (contents w) /\
      commands w2 = commands w1 ++ [ctl ul ["stop"; service name]; ctl ul ["disable"; service name]; reload].
Proof.
  destruct (dry_run ctx) eqn:Hd.
  - split; destruct svc; by apply gate_dry.
  - intros Hy name reload.
    destruct (install_of_runs svc ctx ul tu th cfg w Hd Hy Hcfg) as (w0 & C0 & L0 & Hi).
    destruct (install_unit_runs name (text_of svc ul tu th cfg) ul w0) as (r1 & w1 & H1 & C1 & L1).
    destruct (uninstall_of_runs svc ctx ul w1 Hd Hy) as (skipped & Hs & Hu).
    destruct (uninstall_unit_runs skipped name ul w1 Hs) as (r2 & w2 & H2 & C2 & L2).
    exists r1, w1, r2, w2. rewrite Hi, Hu. split_and!; [done|by rewrite C1, C0| |done| |done].
    + intros Hr. by rewrite (L1 Hr), L0.
    + by rewrite C2, C1, C0, delete_insert_eq.
Qed.
End lifecycle.

(** A host that is its files and the commands it was given, every command with
    the return code 0. *)
Definition demo_host : Type := gmap string string * list (list string).

Definition demo_files : FileStore demo_host := {|
  f_get u t w := Some (raise_ URLError [], w);
  f_mkdir p w := Some (Ok tt, w);
  f_write p d w := Some (Ok tt, (<[p := d]> w.1, w.2));
  f_exists p w := Some (Ok (bool_decide (is_Some (w.1 !! p))), w);
  f_read p w := Some (match w.1 !! p with Some d => Ok d | None => raise_ FileNotFoundError [L p] end, w);
  f_unlink p w := Some (Ok tt, (delete p w.1, w.2))
|}.

Definition demo_service : ServiceHost demo_host := {|
  v_run cmd w := Some (Ok 0, (w.1, w.2 ++ [cmd]));
  v_unlink p w := Some (Ok tt, (delete p w.1, w.2));
  v_getuser w := Some (Ok "rover", w);
  v_home w := Some (Ok "/home/rover", w);
  v_which _ w := Some (Ok None, w)
|}.

Definition demo_terminal : Terminal demo_host := {| t_input _ w := Some (raise_ EOFError [], w) |}.

Lemma demo_systemd : @Systemd demo_host demo_files demo_service fst snd "rover" "/home/rover" None.
Proof.
  constructor; cbn; try (by eauto); try (intros; by eauto 6).
  intros p w d H. rewrite H. by eauto.
Qed.

Definition demo_consent : SafetyContext demo_host :=
  {| dry_run := false; assume_yes := true; safe_stop_hooks := [] |}.

Lemma service_lifecycle_witness :
  exists r1 w1, @install_of _ demo_files demo_service demo_terminal (fun _ => raise_ YAMLError [])
    "/home/rover/.config/mower-rover/jetson.yaml" Sync demo_consent false (Some "rover") (Some "/home/rover/")
    (∅, []) = Some (r1, w1) /\ is_Some (w1.1 !! "/etc/systemd/system/mower-pixhawk-sync.service").
Proof.
  assert (Hcfg : settings (fun _ => raise_ YAMLError []) "/home/rover/.config/mower-rover/jetson.yaml" ∅
    = Ok JetsonConfig.JetsonConfig_default) by (unfold settings; by rewrite lookup_empty).
  destruct (@service_lifecycle _ demo_files demo_service demo_terminal fst snd "rover" "/home/rover" None
    demo_systemd (fun _ => raise_ YAMLError []) "/home/rover/.config/mower-rover/jetson.yaml" Sync
    demo_consent false (Some "rover") (Some "/home/rover/") JetsonConfig.JetsonConfig_default (∅, [])
    Hcfg eq_refl) as (r1 & w1 & _ & _ & H1 & C1 & _).
  exists r1, w1. split; [exact H1|]. cbn [fst] in C1. rewrite C1. eexists. apply lookup_insert_eq.
Defined.

(** The kiosk installer deploys the unit that service/unit.py keeps only so that
    it can be cleaned up. *)
Lemma kiosk_installs_legacy_unit cfg bin user dir :
  Unit.KIOSK_UNIT_NAME ∈ map fst (kiosk_contents cfg bin user dir) /\
  Unit.KIOSK_DATA_UNIT_NAME ∉ map fst (kiosk_contents cfg bin user dir).
Proof. split; cbn; set_solver. Qed.
