(* ===== verification/ParamsCli.v ===== *)
(** * The parameter commands (cli/params.py, params/baseline.py)

    snapshot, diff and apply: the modelled link, parameter sets, files and
    confirmation composed the way the commands compose them.  What they print is
    not modelled. *)

From stdpp Require Import base gmap list strings option.
From Stdlib Require Import Ascii ZArith Lia.
From S2P Require Import Prelude Float64 PyVal Safety Link Params ParamsMav Connection Files Config.
From S2P Require Import Sync Units.
Local Open Scope Z_scope.

(** [datetime.now(UTC)]: its [isoformat()], and its stamp for a file name. *)
Class Calendar (W : Type) := { k_iso : prog exn W string; k_stamp : prog exn W string }.

Module ParamsCli.
(** [Path(s).suffix]: from the last dot of the name, unless that is its first or
    its last character. *)
Definition suffix_of (path : string) : string :=
  let name := match rev (S.split "/" path) with n :: _ => n | [] => "" end in
  match rev (S.split "." name) with
  | ext :: (_ :: _) as before =>
      if bool_decide (ext = "") || bool_decide (S.join "." (rev (tail before)) = "") then ""
      else Unit.fill ["."; ext]
  | _ => ""
  end.

Definition name_of (path : string) : string := match rev (S.split "/" path) with n :: _ => n | [] => "" end.

Section commands.
Context {W : Type} `{!Link W} `{!Dialer W} `{!FileStore W} `{!Terminal W} `{!Calendar W}.
Variable yaml_safe_load : string -> res exn PyVal.
Variable json_loads : string -> res exn PyVal.
(** [json.dumps(payload, indent=2, sort_keys=False)] *)
Variable json_dumps : PyVal -> string.
Variable fuel : nat.

(** [path.read_text(encoding="utf-8")] *)
Definition read_text (path : string) : prog exn W string := raw ← f_read path; plift (Utf8.decode raw).

Definition load_file (path : string) : prog exn W ParamSet :=
  text ← read_text path; plift (load_param_file yaml_safe_load path (S.lower (suffix_of path)) text).
Definition load_snapshot (path : string) : prog exn W ParamSet :=
  text ← read_text path; plift (load_json_snapshot json_loads path text).

Definition BASELINE_PATH : string := default "" (od_get PROFILES "baseline").

Definition _load_any (s : string) : prog exn W ParamSet :=
  if bool_decide (s ∈ od_keys PROFILES) then Sync.load_profile yaml_safe_load s
  else if bool_decide (S.lower s = "baseline") then Sync.load_baseline yaml_safe_load
  else
    e ← f_exists s;
    if negb e then
      if bool_decide (S.lower s = S.lower (name_of BASELINE_PATH)) then Sync.load_baseline yaml_safe_load
      else plift (raise_ BadParameter [L "file not found: "; L s])
    else if bool_decide (S.lower (suffix_of s) = ".json") then
      pexcept [ValueError] (load_snapshot s) (fun _ => load_file s)
    else load_file s.

(** [write_json_snapshot]: the document is made before the directory is. *)
Definition write_snapshot (params : ParamSet) (path : string) (metadata : list (PyVal * PyVal)) : prog exn W unit :=
  now ← k_iso;
  _ ← f_mkdir (parent_of path);
  f_write path (write_json_snapshot json_dumps params now metadata).

Definition fetch (timeout : Z) : prog exn W ParamSet := fetch_params fuel timeout (ms 1500).

Definition snapshot_command (config : ConnectionConfig) (timeout : Z) (output : string) : prog exn W unit :=
  params ← open_link config false (fetch timeout);
  write_snapshot params output
    [(VStr "endpoint", VStr (endpoint config)); (VStr "param_count", VInt (Z.of_nat (ps_len params)))].

(** The diff the command shows or dumps. *)
Definition diff_command (left right : string) : prog exn W ParamDiff :=
  left_set ← _load_any left;
  right_set ← _load_any right;
  mret (diff_params left_set right_set _DEFAULT_TOL).

(** The parameters of the autopilot among those wanted. *)
Definition subset_of (before desired : ParamSet) : res exn ParamSet :=
  pairs ← rmap (fun n =>
      there ← ps_contains before (VStr n);
      if (there : bool) then v ← ps_getitem before n; Ok [(VStr n, VFloat v)] else Ok [])
    (od_keys (values desired));
  from_pairs (concat pairs).

Definition confirm_message : string := "Write parameters to the autopilot (this changes flight behaviour)".
Definition _confirm_apply (ctx : SafetyContext W) : prog exn W unit :=
  requires_confirmation confirm_message "ctx" "_confirm_apply" (fun _ _ => mret tt) [] [("ctx", ACtx ctx)].

Definition pre_apply_snapshot (config : ConnectionConfig) (before : ParamSet) (snapshot_dir : option string)
  : prog exn W unit :=
  match snapshot_dir with
  | None => mret tt
  | Some dir =>
      stamp ← k_stamp;
      write_snapshot before (join_path dir (Unit.fill ["params-pre-apply-"; stamp; ".json"]))
        [(VStr "endpoint", VStr (endpoint config)); (VStr "purpose", VStr "pre-apply")]
  end.

(** The body of the [with]. *)
Definition apply_body (config : ConnectionConfig) (safety : SafetyContext W) (snapshot_dir : option string)
    (desired : ParamSet) : prog exn W unit :=
  before ← fetch (sec 60);
  _ ← pre_apply_snapshot config before snapshot_dir;
  before_subset ← plift (subset_of before desired);
  if is_empty (diff_params before_subset desired _DEFAULT_TOL) then mret tt
  else
    _ ← pexcept [ConfirmationAborted] (_confirm_apply safety) (fun _ => plift (exit_ 1));
    if dry_run safety then mret tt
    else
      result ← apply_params fuel desired true (sec 2) 3;
      if ParamsMav.ok result then mret tt else plift (exit_ 1).

Definition chosen_set (params_file profile : option string) : prog exn W ParamSet :=
  match params_file, profile with
  | Some _, Some _ | None, None => plift (raise_ BadParameter [L "exactly one of PARAMS_FILE or --profile must be supplied"])
  | None, Some p =>
      if bool_decide (p ∈ od_keys PROFILES) then Sync.load_profile yaml_safe_load p
      else plift (raise_ BadParameter [L "unknown profile "; VF (VStr p) "r"; L "; known: ";
                                       L (S.join ", " (S.sorted (od_keys PROFILES)))])
  | Some f, None => _load_any f
  end.

Definition apply_command (params_file profile : option string) (config : ConnectionConfig)
    (snapshot_dir : option string) (obj_dry_run yes : bool) : prog exn W unit :=
  desired ← chosen_set params_file profile;
  let safety := {| dry_run := obj_dry_run; assume_yes := yes; safe_stop_hooks := [] |} in
  open_link config false (apply_body config safety snapshot_dir desired).
End commands.
End ParamsCli.
Export ParamsCli.

(** ** No write without consent *)
Section consent.
Context {W : Type} `{!Link W} `{!Dialer W} `{!FileStore W} `{!Terminal W} `{!Calendar W}.

(** The same host around a traced link. *)
#[local] Instance traced_dialer : Dialer (W * list Event) := {
  d_connect e b := on_world (d_connect e b); d_wait_heartbeat t := on_world (d_wait_heartbeat t);
  d_close := on_world d_close; d_sleep t := on_world (d_sleep t); d_is_set := on_world d_is_set;
  d_wait t := on_world (d_wait t) }.
#[local] Instance traced_terminal : Terminal (W * list Event) := { t_input m := on_world (t_input m) }.
#[local] Instance traced_calendar : Calendar (W * list Event) := { k_iso := on_world k_iso; k_stamp := on_world k_stamp }.

Implicit Types P : Event -> Prop.

Lemma grows_bind_ok {A B} P (m : prog exn (W * list Event) A) (f : A -> prog exn (W * list Event) B) :
  grows P m -> (forall a wt wt', m wt = Some (Ok a, wt') -> grows P (f a)) -> grows P (m ≫= f).
Proof.
  intros Hm Hf wt r wt' H. apply pbind_inv in H as [(e & -> & H)|(a & w1 & H1 & H2)]; [by eapply Hm|].
  destruct (Hm _ _ _ H1) as (d1 & Ht1 & Hd1). destruct (Hf _ _ _ H1 _ _ _ H2) as (d2 & Ht2 & Hd2).
  exists (d1 ++ d2). rewrite Ht2, Ht1, app_assoc. split; [done|by apply list.Forall_app].
Qed.

Lemma grows_connect P config ev k n le : grows P (connect (W := W * list Event) config ev k n le).
Proof.
  revert n le. induction k as [|k IH]; intros n le; cbn [connect]; [apply grows_lift|].
  apply grows_bind; [destruct ev; [apply grows_on_world|apply grows_ret]|]. intros [|]; [apply grows_lift|].
  apply grows_bind.
  { apply grows_except; [|intros; apply grows_ret]. apply grows_bind; [|intros; apply grows_ret].
    unfold dial. apply grows_bind; [apply grows_on_world|]. intros _.
    apply grows_bind; [apply grows_on_world|]. intros [|]; [apply grows_ret|apply grows_lift]. }
  intros [exc|]; [|apply grows_ret]. apply grows_bind; [|intros; apply IH].
  unfold backoff. destruct (_ <? _); [|apply grows_ret]. destruct ev; [|apply grows_on_world].
  apply grows_bind; [apply grows_on_world|]. intros [|]; [apply grows_lift|apply grows_ret].
Qed.

Lemma grows_open_link {A} P config (body : prog exn (W * list Event) A) :
  grows P body -> grows P (open_link config false body).
Proof.
  intros Hb. assert (Hc : grows P (close (W := W * list Event))).
  { apply grows_except; [apply grows_on_world|intros; apply grows_ret]. }
  unfold open_link. apply grows_bind; [apply grows_connect|]. intros [attempt k].
  apply grows_bind.
  { intros wt r wt'. unfold outcome. destruct (body wt) as [[x w1]|] eqn:E; [|done].
    intros [= _ <-]. by eapply Hb. }
  intros r. apply grows_bind; [exact Hc|]. intros _. destruct r as [a|e]; [apply grows_ret|].
  destruct (subclass _ _); [|apply grows_lift]. apply grows_bind.
  { unfold backoff. destruct (_ <? _); [apply grows_on_world|apply grows_ret]. }
  intros _. apply grows_bind; [apply grows_connect|]. intros _. apply grows_bind; [exact Hc|].
  intros _. apply grows_lift.
Qed.

(** No parameter is set. *)
Definition unset (e : Event) : Prop := forall n v ty, e <> Sent (param_set_send n v ty).

Lemma grows_fetch fuel timeout quiet : grows unset (fetch_params (W := W * list Event) fuel timeout quiet).
Proof.
  unfold fetch_params. apply grows_bind; [by apply grows_send|]. intros _.
  apply grows_bind; [apply grows_time|]. intros rx. apply grows_bind; [|intros; apply grows_lift].
  apply grows_loop. intros [[c ex] lr]. unfold fetch_round.
  apply grows_bind; [apply grows_time|]. intros now. destruct (_ <? _); [|apply grows_ret].
  apply grows_bind; [by apply grows_recv|]. intros [m|].
  - apply grows_bind_lift. intros [[id v] n] _. apply grows_bind; [apply grows_time|]. intros ?.
    cbv zeta. destruct (_ && _); apply grows_ret.
  - destruct c; [apply grows_ret|]. apply grows_bind; [apply grows_time|]. intros ?. destruct (_ <? _); apply grows_ret.
Qed.

Variables (yaml_safe_load json_loads : string -> res exn PyVal) (json_dumps : PyVal -> string).
Variable fuel : nat.

Lemma grows_read_text P p : grows P (read_text (W := W * list Event) p).
Proof. apply grows_bind; [apply grows_on_world|]. intros. apply grows_lift. Qed.

Lemma grows_load_file P p : grows P (load_file (W := W * list Event) yaml_safe_load p).
Proof. apply grows_bind; [apply grows_read_text|]. intros. apply grows_lift. Qed.

Lemma grows_profile P n : grows P (Sync.load_profile (W := W * list Event) yaml_safe_load n).
Proof.
  unfold Sync.load_profile. destruct (od_get _ _); [|apply grows_lift].
  apply grows_bind; [apply grows_on_world|]. intros. apply grows_lift.
Qed.

Lemma grows_load_any P s : grows P (_load_any (W := W * list Event) yaml_safe_load json_loads  s).
Proof.
  unfold _load_any, Sync.load_baseline. destruct (bool_decide _); [apply grows_profile|].
  destruct (bool_decide _); [apply grows_profile|]. apply grows_bind; [apply grows_on_world|]. intros [|]; cbn [negb].
  - destruct (bool_decide _); [|apply grows_load_file].
    apply grows_except; [|intros; apply grows_load_file]. apply grows_bind; [apply grows_read_text|].
    intros. apply grows_lift.
  - destruct (bool_decide _); [apply grows_profile|apply grows_lift].
Qed.

Lemma grows_chosen P f p : grows P (chosen_set (W := W * list Event) yaml_safe_load json_loads  f p).
Proof.
  unfold chosen_set. destruct f, p; try apply grows_lift; [apply grows_load_any|].
  destruct (bool_decide _); [apply grows_profile|apply grows_lift].
Qed.

Lemma grows_snapshot P config before dir :
  grows P (pre_apply_snapshot (W := W * list Event) json_dumps config before dir).
Proof.
  unfold pre_apply_snapshot, write_snapshot. destruct dir; [|apply grows_ret].
  apply grows_bind; [apply grows_on_world|]. intros stamp. apply grows_bind; [apply grows_on_world|]. intros now.
  apply grows_bind; [apply grows_on_world|]. intros _. apply grows_on_world.
Qed.

(** The prompt is answered, when it is, with something else than yes. *)
Definition refuses : Prop :=
  forall (w w' : W) line, t_input [L confirm_message; L " [y/N]: "] w = Some (Ok line, w') -> is_yes line = false.

Lemma confirm_eq (ctx : SafetyContext (W * list Event)) :
  _confirm_apply ctx =
  if dry_run ctx then mret tt
  else if assume_yes ctx then mret tt
  else accepted ← _prompt confirm_message;
       if (accepted : bool) then mret tt
       else plift (raise_ ConfirmationAborted [L "Operator declined: "; L confirm_message]).
Proof. reflexivity. Qed.

Lemma confirm_ok (ctx : SafetyContext (W * list Event)) wt wt' :
  refuses -> _confirm_apply ctx wt = Some (Ok tt, wt') -> dry_run ctx || assume_yes ctx = true.
Proof.
  intros Hr. rewrite confirm_eq.
  destruct (dry_run ctx); [done|]. destruct (assume_yes ctx); [done|].
  intros H. exfalso. apply pbind_ok_inv in H as (b & wt1 & H1 & H).
  assert (b = false) as ->; [|done].
  unfold _prompt, pexcept, pcatch in H1. destruct wt as [w t].
  destruct ((line ← t_input [L confirm_message; L " [y/N]: "];
             mret (bool_decide (S.lower (S.strip line) ∈ ["y"; "yes"]))) (w, t)) as [[[b1|e] w1]|] eqn:E; try done.
  - injection H1 as -> _. apply pbind_ok_inv in E as (line & [w2 t2] & E & Hb).
    apply on_world_trace in E as [_ E]. apply Hr in E. injection Hb as Hb _. unfold is_yes in E. congruence.
  - destruct (caught_by _ e); [|done]. by injection H1 as <- _.
Qed.

(** C17: Whatever is in the files and whatever the autopilot answers, params apply sends no PARAM_SET in a dry run, nor when the operator has not passed --yes and does not answer the prompt with yes. *)
Theorem unconfirmed_apply_writes_nothing params_file profile config snapshot_dir dry yes :
  dry = true \/ (yes = false /\ refuses) ->
  grows unset (apply_command (W := W * list Event) yaml_safe_load json_loads json_dumps  fuel
                 params_file profile config snapshot_dir dry yes).
Proof.
  intros Hno. unfold apply_command. apply grows_bind; [apply grows_chosen|]. intros desired.
  apply grows_open_link. unfold apply_body. apply grows_bind; [apply grows_fetch|]. intros before.
  apply grows_bind; [apply grows_snapshot|]. intros _. apply grows_bind_lift. intros sub _.
  destruct (is_empty _); [apply grows_ret|]. cbn [dry_run]. apply grows_bind_ok.
  - apply grows_except; [|intros; apply grows_lift].
    rewrite confirm_eq. cbn [dry_run assume_yes]. destruct dry; [apply grows_ret|].
    destruct yes; [apply grows_ret|]. apply grows_bind.
    + apply grows_except; [|intros; apply grows_ret]. apply grows_bind; [apply grows_on_world|]. intros. apply grows_ret.
    + intros [|]; [apply grows_ret|apply grows_lift].
  - intros [] wt wt' H. destruct dry; [apply grows_ret|]. destruct Hno as [|[-> Href]]; [done|].
    exfalso. unfold pexcept, pcatch in H.
    destruct (_confirm_apply _ wt) as [[[[]|e] w1]|] eqn:E; [|destruct (caught_by _ e); done|done].
    by apply (confirm_ok _ _ _ Href) in E.
Qed.
End consent.

(** The exit code 1 of a refused or failed apply does not leave [open_link]. *)
Lemma apply_exit_code_lost {W} `{!Link W} `{!Dialer W} `{!FileStore W} `{!Terminal W} `{!Calendar W}
    json_dumps fuel config safety dir desired (w w1 w2 w3 : W) attempt k r :
  calm config ->
  connect config false (Z.to_nat (retry_attempts config)) 1 [L "None"] w = Some (Ok (attempt, k), w1) ->
  apply_body json_dumps fuel config safety dir desired w1 = Some (exit_ 1, w2) ->
  open_link config false (apply_body json_dumps fuel config safety dir desired) w = Some (r, w3) ->
  exists e, r = Err e /\ (exn_class e = ConnectionError \/ exn_class e = RuntimeError).
Proof. intros Hc Hk Hb H. by eapply (open_link_body_error config false _ w _ _ _ _ _ _ _ Hc Hk Hb). Qed.

(** An autopilot with one parameter, and no terminal. *)
Definition quiet_link : Link unit := {|
  l_time w := Some (Ok 0, w); l_sleep _ w := Some (Ok tt, w);
  l_recv _ _ w := Some (Ok (Some (PARAM_VALUE "SPEED_MAX" (F.of_Z 2) 1)), w);
  l_send _ w := Some (Ok tt, w) |}.
Definition quiet_dialer : Dialer unit := {|
  d_connect _ _ w := Some (Ok tt, w); d_wait_heartbeat _ w := Some (Ok true, w); d_close w := Some (Ok tt, w);
  d_sleep _ w := Some (Ok tt, w); d_is_set w := Some (Ok false, w); d_wait _ w := Some (Ok false, w) |}.
Definition quiet_files : FileStore unit := {|
  f_get _ _ w := Some (raise_ URLError [], w); f_mkdir _ w := Some (Ok tt, w); f_write _ _ w := Some (Ok tt, w);
  f_exists _ w := Some (Ok true, w); f_read _ w := Some (Ok "SPEED_MAX,3", w); f_unlink _ w := Some (Ok tt, w) |}.
Definition quiet_terminal : Terminal unit := {| t_input _ w := Some (raise_ EOFError [], w) |}.
Definition quiet_calendar : Calendar unit := {| k_iso w := Some (Ok "now", w); k_stamp w := Some (Ok "stamp", w) |}.
#[local] Existing Instances quiet_link quiet_dialer quiet_files quiet_terminal quiet_calendar.
#[local] Existing Instances traced_dialer traced_terminal traced_calendar.

Definition quiet_apply (dry yes : bool) : prog exn (unit * list Event) unit :=
  apply_command (W := unit * list Event) (fun _ => Ok VNone) (fun _ => Ok VNone) (fun _ => "") 9
    (Some "wanted.parm") None (default_config "udp") None dry yes.

(** With --yes the parameter is set; without, and with nobody to ask, nothing is. *)
Example consented_apply_sets :
  exists r w t, quiet_apply false true (tt, []) = Some (r, (w, t)) /\ exists v, In (Sent (param_set_send "SPEED_MAX" v 9)) t.
Proof.
  destruct (quiet_apply false true (tt, [])) as [[r [w t]]|] eqn:E; [|vm_compute in E; discriminate].
  exists r, w, t. split; [done|]. vm_compute in E. injection E as _ _ <-. eexists. right. right. left. reflexivity.
Qed.

Lemma unconfirmed_apply_writes_nothing_witness :
  (false = true \/ (false = false /\ refuses (W := unit))) /\ grows unset (quiet_apply false false).
Proof.
  assert (H : false = true \/ (false = false /\ refuses (W := unit))).
  { right. split; [reflexivity|]. intros w w' line Hl. discriminate Hl. }
  split; [exact H|].
  exact (unconfirmed_apply_writes_nothing _ _ _ 9 (Some "wanted.parm") None (default_config "udp") None false false H).
Defined.
