(* ===== verification/Probe.v ===== *)
(** * The probe checks (probe/checks/*.py)

    The body of every check and the registry they fill when the package is
    imported.  Files, subprocesses and sensors are the interface [Sys] of
    [Health]; [ProbeHost] adds what only the checks ask for.  A check returns
    whether it passed and the detail it shows. *)

From stdpp Require Import base gmap sets list strings option sorting.
From Stdlib Require Import Ascii ZArith Lia.
From S2P Require Import Prelude Float64 PyVal Registry.
From S2P Require Import Files Config Health Geometry ZoneConfig.
From S2P Require Import Link MissionItems.
Local Open Scope Z_scope.

Class ProbeHost (W : Type) := {
  (** [path.exists()] and [path.resolve()] *)
  b_exists : string -> prog exn W bool;
  b_resolve : string -> prog exn W string;
  b_getenv : string -> prog exn W (option string);
  b_home : prog exn W string;
  (** connect to a Unix socket, one [recv] of at most that many bytes, within a
      time-out in seconds, and close *)
  b_recv : string -> Z -> Z -> prog exn W string;
  (** whether a file of the package data of params is there *)
  b_bundled : string -> prog exn W bool
}.

Module Probe.
Abbreviation Outcome := (bool * FStr)%type.

Section checks.
Context {W : Type} `{!Sys W} `{!ProbeHost W}.
Variable yaml_safe_load : string -> res exn PyVal.
Variable json_loads : string -> res exn PyVal.

Definition ok (m : FStr) : prog exn W Outcome := mret (true, m).
Definition no (m : FStr) : prog exn W Outcome := mret (false, m).
Definition Pz (z : Z) : Piece := V (VInt z).
Definition Fx (f : float) (fmt : string) : Piece := VF (VFloat f) fmt.

(** [try: m except cs: return h] around a read whose value the rest uses. *)
Definition reading {A} (cs : list ExnClass) (m : prog exn W A) (failed : exn -> Outcome)
    (k : A -> prog exn W Outcome) : prog exn W Outcome :=
  r ← pexcept cs (a ← m; mret (inl a)) (fun e => mret (inr (failed e)));
  match r with inl a => k a | inr o => mret o end.

(** ** cuda.py *)
Definition nvcc_candidates : list string := ["nvcc"; "/usr/local/cuda/bin/nvcc"].

(** The loop over the candidates, [result] the last one that ran. *)
Fixpoint try_nvcc (candidates : list string) (result : option (Z * string))
  : prog exn W (option (Z * string)) :=
  match candidates with
  | [] => mret result
  | nvcc :: rest =>
      r ← pexcept [FileNotFoundError; TimeoutExpired]
            (r ← y_run [nvcc; "--version"] 10; mret (Some r)) (fun _ => mret None);
      match r with
      | Some (0, out) => mret (Some (0, out))
      | Some r => try_nvcc rest (Some r)
      | None => try_nvcc rest result
      end
  end.

Definition cuda_release (stdout : string) : Outcome :=
  match filter (fun line => S.contains "release" (S.lower line)) (S.splitlines stdout) with
  | line :: _ =>
      if S.contains "release 12." (S.lower line) then (true, [L (S.strip line)])
      else (false, [L "Expected 12.x, found: "; L (S.strip line)])
  | [] => (false, [L "CUDA not found"])
  end.

Definition check_cuda (sysroot : string) : prog exn W Outcome :=
  result ← try_nvcc nvcc_candidates None;
  match result with
  | Some (0, stdout) => mret (cuda_release stdout)
  | _ => no [L "CUDA not found"]
  end.

(** ** disk.py *)
Definition root_of (usages : list DiskUsage) : option DiskUsage :=
  match filter (fun u => bool_decide (mount_point u = "/")) usages with u :: _ => Some u | [] => None end.

Definition check_disk_space (sysroot : string) : prog exn W Outcome :=
  usages ← read_disk_usage sysroot;
  match root_of usages with
  | None => no [L "Root mount point not found in /proc/mounts"]
  | Some root =>
      if F.leb (F.of_Z 2) (free_gb root) then ok [Fx (free_gb root) ".1f"; L " GB free on /"]
      else no [L "Free space below 2 GB: "; Fx (free_gb root) ".1f"; L " GB"]
  end.

Definition check_disk_nvme (sysroot : string) : prog exn W Outcome :=
  usages ← read_disk_usage sysroot;
  match root_of usages with
  | None => no [L "Root mount point not found in /proc/mounts"]
  | Some root =>
      if is_nvme root then ok [L "Root on NVMe: "; L (device root)]
      else no [L "Root not on NVMe — performance may be reduced"]
  end.

(** ** jetpack.py *)
Definition check_jetpack_version (sysroot : string) : prog exn W Outcome :=
  let release_file := under sysroot "etc/nv_tegra_release" in
  let missing := (false, [L "Not a Jetson (file missing)"]) in
  b ← y_is_file release_file;
  if (b : bool) then
    reading [OSError; IndexError]
      (text ← read_text release_file;
       plift (match S.splitlines (S.strip text) with
              | line :: _ => Ok line
              | [] => raise_ IndexError [L "list index out of range"]
              end))
      (fun _ => missing)
      (fun first_line =>
         if S.contains "R36" first_line then ok [L first_line]
         else no [L "Expected L4T R36.x, found: "; L first_line])
  else mret missing.

(** ** kiosk.py and service.py *)
Definition unit_active (service : string) : prog exn W Outcome :=
  pexcept [TimeoutExpired]
    (pexcept [FileNotFoundError]
       ('(rc, _) ← y_run ["systemctl"; "is-active"; service] 5;
        if rc =? 0 then ok [L "active"] else no [L "not active"])
       (fun _ => no [L "systemctl not found (not running on systemd host)"]))
    (fun _ => no [L "systemctl timed out"]).

Definition check_weston_active (sysroot : string) := unit_active "mower-weston.service".
Definition check_kiosk_data_active (sysroot : string) := unit_active "mower-kiosk-data.service".
Definition check_kiosk_renderer_active (sysroot : string) := unit_active "mower-kiosk-renderer.service".
Definition check_kiosk_active (sysroot : string) := unit_active "mower-kiosk-renderer.service".
Definition check_mavproxy_active (sysroot : string) := unit_active "mower-mavproxy.service".
Definition check_health_service (sysroot : string) := unit_active "mower-health.service".

Definition linger_of (stdout : string) : Outcome :=
  let value := S.lower (S.strip stdout) in
  if bool_decide (value = "yes") then (true, [L "Linger=yes"])
  else (false, [L "Linger="; L (if bool_decide (value = "") then "no" else value)]).

Definition check_loginctl_linger (sysroot : string) : prog exn W Outcome :=
  u1 ← b_getenv "USER";
  user ← (match u1 with
          | Some u => if bool_decide (u = "") then (u2 ← b_getenv "USERNAME"; mret (default "" u2)) else mret u
          | None => u2 ← b_getenv "USERNAME"; mret (default "" u2)
          end);
  if bool_decide (user = "") then no [L "Cannot determine current user"]
  else
    pexcept [TimeoutExpired]
      (pexcept [FileNotFoundError]
         ('(_, stdout) ← y_run ["loginctl"; "show-user"; user; "-p"; "Linger"; "--value"] 5;
          mret (linger_of stdout))
         (fun _ => no [L "loginctl not found (not running on systemd host)"]))
      (fun _ => no [L "loginctl timed out"]).

(** ** oakd.py *)
Definition _OAK_VENDOR_ID : string := "03e7".
Definition _PID_BOOTLOADER : string := "2485".
Definition _PID_BOOTED : string := "f63b".

Definition _vslam_service_active : prog exn W bool :=
  pexcept [FileNotFoundError; TimeoutExpired; OSError]
    ('(rc, _) ← y_run ["systemctl"; "is-active"; "mower-vslam.service"] 5; mret (rc =? 0))
    (fun _ => mret false).

(** [read_text().strip().lower()] of a sysfs attribute; [None] on [OSError]. *)
Definition attribute (path : string) : prog exn W (option string) :=
  pexcept [OSError] (t ← read_text path; mret (Some (S.lower (S.strip t)))) (fun _ => mret None).

Definition usb_vendors (sysroot : string) : string := under sysroot "sys/bus/usb/devices/*/idVendor".

Fixpoint find_device (vendor_files : list string) : prog exn W (option string * option Z) :=
  match vendor_files with
  | [] => mret (None, None)
  | vendor_file :: rest =>
      vid ← attribute vendor_file;
      if bool_decide (vid = Some _OAK_VENDOR_ID) then
        pid ← attribute (join_path (parent_of vendor_file) "idProduct");
        speed ← pexcept [OSError; ValueError]
          (t ← read_text (join_path (parent_of vendor_file) "speed");
           n ← plift (py_int (VStr (S.strip t))); mret (Some n))
          (fun _ => mret None);
        mret (pid, speed)
      else find_device rest
  end.

Definition _find_oakd_device (sysroot : string) : prog exn W (option string * option Z) :=
  files ← y_glob (usb_vendors sysroot); find_device files.

Definition speed_str (speed : option Z) : FStr :=
  match speed with Some n => [L " at USB "; Pz n; L " Mbps"] | None => [] end.

Definition oakd_outcome (active : bool) (pid : option string) (speed : option Z) : Outcome :=
  if bool_decide (pid = Some _PID_BOOTED) then
    (true, [L "OAK-D booted (PID f63b)"] ++ speed_str speed ++
           [L (if active then ", service active" else ", service inactive")])
  else if bool_decide (pid = Some _PID_BOOTLOADER) then
    if active
    then (false, [L "Crash-loop suspected: OAK-D in bootloader (PID 2485) but mower-vslam.service is active"])
    else (true, [L "OAK-D idle in bootloader (PID 2485), service stopped"])
  else
    if active then (false, [L "mower-vslam.service active but no OAK-D camera detected in sysfs"])
    else (true, [L "OAK-D not present, service not running"]).

Definition check_oakd (_service_active_fn : option (prog exn W bool)) (sysroot : string) : prog exn W Outcome :=
  active ← default _vslam_service_active _service_active_fn;
  '(pid, speed) ← _find_oakd_device sysroot;
  mret (oakd_outcome active pid speed).

Definition _VSLAM_CONFIG_PATH : string := "etc/mower/vslam.yaml".

Definition check_oakd_vslam_config (sysroot : string) : prog exn W Outcome :=
  let cfg_path := under sysroot _VSLAM_CONFIG_PATH in
  b ← y_is_file cfg_path;
  if (b : bool) then ok [L "VSLAM config present: "; L cfg_path]
  else no [L "VSLAM config missing: "; L cfg_path].

(** ** power_mode.py *)
Definition opt_str (s : option string) : Piece := match s with Some s => L s | None => L "None" end.

Definition check_power_mode (sysroot : string) : prog exn W Outcome :=
  state ← read_power_state sysroot;
  match mode_id state with
  | Some n => ok [L "Power mode: "; opt_str (mode_name state); L " (id="; Pz n; L ")"]
  | None => no [L "nvpmodel not found or failed"]
  end.

(** ** python_ver.py *)
Fixpoint parts_leb (a b : list string) : bool :=
  match a, b with
  | [], _ => true
  | _ :: _, [] => false
  | x :: a', y :: b' => if bool_decide (x = y) then parts_leb a' b' else String.leb x y
  end.

(** Paths are ordered by their components. *)
Definition path_le (p q : string) : Prop := parts_leb (S.split "/" p) (S.split "/" q) = true.
#[export] Instance path_le_dec p q : Decision (path_le p q).
Proof. unfold path_le. apply _. Defined.
Definition sorted_paths (l : list string) : list string := merge_sort path_le l.

(** Whether the output of [--version] names Python 3.11 or newer. *)
Definition version_ok (stdout : string) : res exn bool :=
  match S.words (S.strip stdout) with
  | _ :: ver :: _ =>
      except [ValueError; IndexError]
        (match S.split "." ver with
         | a :: b :: _ => major ← py_int (VStr a); minor ← py_int (VStr b);
                          Ok ((3 <=? major) && (11 <=? minor))
         | [a] => _ ← py_int (VStr a); raise_ IndexError [L "list index out of range"]
         | [] => raise_ IndexError [L "list index out of range"]
         end)
        (fun _ => Ok false)
  | _ => Ok false
  end.

Fixpoint try_pythons (candidates : list string) : prog exn W Outcome :=
  match candidates with
  | [] => no [L "Python 3.11+ not found; install via uv python install 3.11"]
  | cmd :: rest =>
      r ← pexcept [FileNotFoundError; TimeoutExpired]
            (r ← y_run [cmd; "--version"] 10; mret (Some r)) (fun _ => mret None);
      match r with
      | Some (0, stdout) =>
          good ← plift (version_ok stdout);
          if (good : bool) then ok [L (S.strip stdout)] else try_pythons rest
      | _ => try_pythons rest
      end
  end.

Definition check_python_ver (sysroot : string) : prog exn W Outcome :=
  home ← b_home;
  found ← y_glob (join_path home ".local/share/uv/python/cpython-3.*/bin/python3.*");
  try_pythons (["python3.11"; "python3"] ++ sorted_paths found).

(** ** ssh_hardening.py *)
Definition auth_value (last_value : option string) (line : string) : option string :=
  let stripped := S.strip line in
  if S.startswith stripped "#" then last_value
  else
    let lower := S.lower stripped in
    if S.startswith lower "passwordauthentication" then
      match S.words lower with _ :: v :: _ => Some v | _ => last_value end
    else last_value.

Definition scan_sshd (last_value : option string) (fpath : string) : prog exn W (option string) :=
  text ← pexcept [OSError] (t ← read_text fpath; mret (Some t)) (fun _ => mret None);
  mret (match text with
        | Some text => foldl auth_value last_value (S.splitlines text)
        | None => last_value
        end).

Definition _password_auth_disabled (sysroot : string) : prog exn W (option bool) :=
  let main_config := under sysroot "etc/ssh/sshd_config" in
  b ← y_is_file main_config;
  extra ← y_glob (under sysroot "etc/ssh/sshd_config.d/*.conf");
  v ← pfold scan_sshd None ((if (b : bool) then [main_config] else []) ++ S.sorted extra);
  mret (if bool_decide (v = Some "no") then Some true
        else if bool_decide (v = Some "yes") then Some false else None).

Definition check_ssh_hardening (sysroot : string) : prog exn W Outcome :=
  result ← _password_auth_disabled sysroot;
  match result with
  | Some true => ok [L "PasswordAuthentication disabled"]
  | _ => no [L "PasswordAuthentication still enabled"]
  end.

(** ** thermal.py and usb_tuning.py *)
Definition _THROTTLE_THRESHOLD_C : float := F.of_Z 95.
Definition _THERMAL_GATE_C : float := F.of_Z 85.

(** [max(zones, key=lambda z: z.temp_c)]: the first of the hottest. *)
Definition hottest (z : ThermalZone) (zs : list ThermalZone) : ThermalZone :=
  foldl (fun m z => if F.ltb (temp_c m) (temp_c z) then z else m) z zs.

Definition hot_message (z : ThermalZone) : FStr :=
  [L "Zone "; Pz (tz_index z); L " at "; Fx (temp_c z) ".0f"; L "°C (throttle imminent)"].

(** ["; ".join(msgs)] of f-strings. *)
Fixpoint join_msgs (sep : string) (l : list FStr) : FStr :=
  match l with [] => [] | [m] => m | m :: l' => m ++ [L sep] ++ join_msgs sep l' end.

Definition thermal_outcome (zs : list ThermalZone) : Outcome :=
  match zs with
  | [] => (true, [L "No thermal zones found"])
  | z :: rest =>
      match filter (fun z => F.leb _THROTTLE_THRESHOLD_C (temp_c z) = true) zs with
      | [] => (true, [L "All zones OK (max "; Fx (temp_c (hottest z rest)) ".1f"; L "°C on ";
                      L (tz_name (hottest z rest)); L ")"])
      | hot => (false, join_msgs "; " (map hot_message hot))
      end
  end.

Definition check_thermal (sysroot : string) : prog exn W Outcome :=
  snap ← read_thermal_zones sysroot; mret (thermal_outcome (zones snap)).

Definition check_usb_autosuspend (sysroot : string) : prog exn W Outcome :=
  reading [OSError]
    (t ← read_text (under sysroot "sys/module/usbcore/parameters/autosuspend"); mret (S.strip t))
    (fun _ => (false, [L "Cannot read autosuspend parameter (missing sysfs)"]))
    (fun val => if bool_decide (val = "-1") then ok [L "USB autosuspend disabled (autosuspend=-1)"]
                else no [L "USB autosuspend="; L val; L " (expected -1 to prevent OAK-D dropouts)"]).

Definition check_usbfs_memory (sysroot : string) : prog exn W Outcome :=
  (* a decoding error is a [ValueError], whose handler shows [raw], not yet bound *)
  reading [OSError]
    (pexcept [ValueError]
       (t ← read_text (under sysroot "sys/module/usbcore/parameters/usbfs_memory_mb"); mret (S.strip t))
       (fun _ => plift (raise_ (LibraryError "UnboundLocalError") [L "raw"])))
    (fun _ => (false, [L "Cannot read usbfs_memory_mb parameter (missing sysfs)"]))
    (fun raw => match py_int (VStr raw) with
                | Ok val =>
                    if 1000 <=? val then ok [L "usbfs_memory_mb="; Pz val; L " (>= 1000)"]
                    else no [L "usbfs_memory_mb="; Pz val; L " (need >= 1000 for OAK-D streaming)"]
                | Err _ => no [L "Cannot parse usbfs_memory_mb value: "; VF (VStr raw) "r"]
                end).

Definition gate_outcome (zs : list ThermalZone) : Outcome :=
  match zs with
  | [] => (true, [L "No thermal zones found (gate passes)"])
  | z :: rest =>
      let m := hottest z rest in
      if F.leb _THERMAL_GATE_C (temp_c m)
      then (false, [L "Thermal gate: "; L (tz_name m); L " at "; Fx (temp_c m) ".0f"; L "°C (>= ";
                    Fx _THERMAL_GATE_C ".0f"; L "°C limit)"])
      else (true, [L "Thermal gate OK (max "; Fx (temp_c m) ".1f"; L "°C on "; L (tz_name m); L ")"])
  end.

Definition check_thermal_gate (sysroot : string) : prog exn W Outcome :=
  snap ← read_thermal_zones sysroot; mret (gate_outcome (zones snap)).

Definition _REQUIRED_QUIRKS : list string := ["03e7:2485:gk"; "03e7:f63b:gk"].

Definition check_usbcore_quirks (sysroot : string) : prog exn W Outcome :=
  reading [OSError]
    (t ← read_text (under sysroot "sys/module/usbcore/parameters/quirks"); mret (S.strip t))
    (fun _ => (false, [L "Cannot read usbcore quirks parameter (missing sysfs)"]))
    (fun content =>
       match List.filter (fun q => negb (S.contains q content)) _REQUIRED_QUIRKS with
       | [] => ok [L "usbcore.quirks contains both OAK-D NO_LPM entries"]
       | missing => no [L "usbcore.quirks missing: "; L (S.join ", " missing)]
       end).

Definition _HUB_VID : string := "2109".
Definition _HUB_PID_USB3 : string := "0817".
Definition _HUB_PID_USB2 : string := "2817".

(** One device of the hub scan, on the pair of flags ([found_usb3], [found_usb2]). *)
Definition hub_step (found : bool * bool) (vendor_file : string) : prog exn W (bool * bool) :=
  vid ← attribute vendor_file;
  if bool_decide (vid = Some _HUB_VID) then
    pid ← attribute (join_path (parent_of vendor_file) "idProduct");
    mret (if bool_decide (pid = Some _HUB_PID_USB3) then (true, found.2)
          else if bool_decide (pid = Some _HUB_PID_USB2) then (found.1, true) else found)
  else mret found.

Definition check_waveshare_hub (sysroot : string) : prog exn W Outcome :=
  files ← y_glob (usb_vendors sysroot);
  found ← pfold hub_step (false, false) files;
  match found with
  | (true, true) => ok [L "Waveshare hub detected (USB 3.0 + USB 2.0 controllers)"]
  | (true, false) => ok [L "Waveshare hub partial (USB 3.0 controller only, USB 2.0 missing)"]
  | (false, true) => no [L "Waveshare hub partial (USB 2.0 controller only, USB 3.0 missing)"]
  | (false, false) => no [L "Waveshare USB hub not detected (expected VIA Labs 2109:0817 + 2109:2817)"]
  end.

Definition _UDEV_RULE_PATH : string := "etc/udev/rules.d/80-oakd-usb.rules".

Definition check_oakd_udev_rule (sysroot : string) : prog exn W Outcome :=
  let rule_path := under sysroot _UDEV_RULE_PATH in
  b ← y_is_file rule_path;
  if (b : bool) then
    reading [OSError] (read_text rule_path)
      (fun _ => (false, [L "Cannot read OAK-D udev rule: "; L rule_path]))
      (fun content =>
         if S.contains _OAK_VENDOR_ID content
         then ok [L "OAK-D udev rule present with vendor "; L _OAK_VENDOR_ID]
         else no [L "OAK-D udev rule exists but does not reference vendor "; L _OAK_VENDOR_ID])
  else no [L "OAK-D udev rule missing: "; L rule_path].

(** ** vslam.py *)
Definition _SOCKET_PATH : string := "run/mower/vslam-pose.sock".
Definition _LUA_SCRIPT_NAME : string := "ahrs-source-gps-vslam.lua".
Definition _REQUIRED_PARAMS : list (string * Z) := [("VISO_TYPE", 1); ("SCR_ENABLE", 1)].
Definition _EK3_SRC2_KEYS : list string := ["EK3_SRC2_POSXY"; "EK3_SRC2_VELXY"; "EK3_SRC2_YAW"].
(** [struct.calcsize("<Q27fBB")] *)
Definition msg_size : Z := 8 + 27 * 4 + 1 + 1.

Definition _systemctl_is_active (service : string) : prog exn W Outcome :=
  pexcept [TimeoutExpired]
    (pexcept [FileNotFoundError]
       ('(rc, _) ← y_run ["systemctl"; "is-active"; "--quiet"; service] 5;
        if rc =? 0 then ok [L service; L " is active"] else no [L service; L " is not active"])
       (fun _ => no [L "systemctl not found (not running on systemd host)"]))
    (fun _ => no [L "systemctl timed out checking "; L service]).

Definition check_pixhawk_symlink (sysroot : string) : prog exn W Outcome :=
  let dev_pixhawk := under sysroot "dev/pixhawk" in
  e ← b_exists dev_pixhawk;
  if (e : bool) then t ← b_resolve dev_pixhawk; ok [L "/dev/pixhawk -> "; L t]
  else no [L "/dev/pixhawk not found; deploy 90-pixhawk-usb.rules"].

Definition check_vslam_process (sysroot : string) : prog exn W Outcome :=
  _systemctl_is_active "mower-vslam.service".

Definition check_vslam_bridge (sysroot : string) : prog exn W Outcome :=
  '(active, detail) ← _systemctl_is_active "mower-vslam-bridge.service";
  if negb active then mret (false, detail)
  else
    let sock := under sysroot _SOCKET_PATH in
    e ← b_exists sock;
    if (e : bool) then ok [L "mower-vslam-bridge.service active, socket present"]
    else no [L "mower-vslam-bridge.service active but socket missing: "; L sock].

(** What the bytes of one read amount to. *)
Definition pose_outcome (data : string) : Outcome :=
  let n := Z.of_nat (String.length data) in
  if n <? msg_size then (false, [L "Short read: "; Pz n; L "/"; Pz msg_size; L " bytes"])
  else
    (true, [L "pose received, confidence=";
            Pz (match S.chars data !! Z.to_nat (msg_size - 2) with Some c => Z.of_N (S.code c) | None => 0 end)]).

(** On a Unix host. *)
Definition check_vslam_socket_active (sysroot : string) : prog exn W Outcome :=
  let sock_path := under sysroot _SOCKET_PATH in
  e ← b_exists sock_path;
  if negb e then no [L "Socket not found: "; L sock_path]
  else
    pexcept [OSError] (data ← b_recv sock_path msg_size 10; mret (pose_outcome data))
      (fun exc =>
         if subclass (exn_class exc) FileNotFoundError then no [L "Socket not found: "; L sock_path]
         else if subclass (exn_class exc) TimeoutError then no [L "Socket read timed out after 10s"]
         else if subclass (exn_class exc) ConnectionRefusedError then no [L "Socket connection refused"]
         else no (L "Socket error: " :: exn_msg exc)).

(** [v[k]] with a string key. *)
Definition subscript (v : PyVal) (k : string) : res exn PyVal :=
  match v with
  | VDict d => match dget d k with Some x => Ok x | None => raise_ KeyError [VF (VStr k) "r"] end
  | _ => raise_ TypeError [L "'"; L (type_name v); L "' object is not subscriptable by a string"]
  end.

Definition read_yaml (path : string) : prog exn W PyVal :=
  t ← read_text path; plift (yaml_safe_load t).

Definition rate_outcome (raw : PyVal) : res exn Outcome :=
  except [KeyError; TypeError; ValueError]
    (v ← subscript raw "vslam"; r ← subscript v "pose_output_rate_hz"; rate ← py_int r;
     Ok (if 5 <=? rate then (true, [L "Pose output rate: "; Pz rate; L " Hz (>= 5 Hz)"])
         else (false, [L "Pose output rate: "; Pz rate; L " Hz (need >= 5 Hz)"])))
    (fun _ => Ok (false, [L "pose_output_rate_hz not set in VSLAM config"])).

Definition check_vslam_pose_rate (sysroot : string) : prog exn W Outcome :=
  reading [OSError; YAMLError] (read_yaml (under sysroot _VSLAM_CONFIG_PATH))
    (fun exc => (false, L "Cannot read VSLAM config: " :: exn_msg exc))
    (fun raw => plift (rate_outcome raw)).

(** [v == z] of a value and a small integer. *)
Definition equals_int (v : PyVal) (z : Z) : bool :=
  match v with
  | VBool b => Z.b2z b =? z
  | VInt n => n =? z
  | VFloat f => F.eqb f (F.of_Z z)
  | _ => false
  end.

Definition param_problems (ap_params : list (PyVal * PyVal)) : list FStr :=
  omap (fun kv : string * Z =>
          let val := dget_or ap_params kv.1 VNone in
          if equals_int val kv.2 then None
          else Some [L kv.1; L "="; Pz kv.2; L " (got "; V val; L ")"]) _REQUIRED_PARAMS ++
  omap (fun k => if dmem ap_params k then None else Some [L k; L " not set"]) _EK3_SRC2_KEYS.

(** [(raw or {}).get(k)] *)
Definition get_of (raw : PyVal) (k : string) : res exn PyVal :=
  if py_bool raw then
    match raw with
    | VDict d => Ok (dget_or d k VNone)
    | _ => raise_ AttributeError [L "'"; L (type_name raw); L "' object has no attribute 'get'"]
    end
  else Ok VNone.

Definition params_outcome (raw : PyVal) : res exn Outcome :=
  ap ← get_of raw "ardupilot_params";
  match ap with
  | VDict (_ :: _ as ap_params) =>
      match param_problems ap_params with
      | [] => Ok (true, [L "VSLAM ArduPilot params configured"])
      | missing => Ok (false, L "VSLAM params incomplete: " :: join_msgs ", " missing)
      end
  | _ =>
      v ← get_of raw "vslam";
      match v with
      | VDict (_ :: _) => Ok (true, [L "VSLAM config present (ardupilot_params section not yet added)"])
      | _ => Ok (false, [L "VSLAM config file invalid or empty"])
      end
  end.

Definition check_vslam_params (sysroot : string) : prog exn W Outcome :=
  let cfg_path := under sysroot _VSLAM_CONFIG_PATH in
  b ← y_is_file cfg_path;
  if (b : bool) then
    reading [OSError; YAMLError] (read_yaml cfg_path)
      (fun exc => (false, L "Cannot parse VSLAM config: " :: exn_msg exc))
      (fun raw => plift (params_outcome raw))
  else no [L "VSLAM config missing: "; L cfg_path].

Definition check_vslam_lua_script (sysroot : string) : prog exn W Outcome :=
  pexcept [TypeError; FileNotFoundError; LibraryError "ModuleNotFoundError"]
    (b ← b_bundled _LUA_SCRIPT_NAME;
     if (b : bool) then ok [L "Lua script bundled: "; L _LUA_SCRIPT_NAME]
     else no [L "Lua script not found in package data: "; L _LUA_SCRIPT_NAME])
    (fun _ => no [L "Cannot locate bundled Lua script: "; L _LUA_SCRIPT_NAME]).

Definition confidence_outcome (raw : PyVal) : res exn Outcome :=
  loop ← except [KeyError; TypeError]
    (v ← subscript raw "vslam"; l ← subscript v "loop_closure"; Ok (Some l)) (fun _ => Ok None);
  Ok (match loop with
      | None => (false, [L "loop_closure not set in VSLAM config"])
      | Some l => if py_bool l then (true, [L "Loop closure enabled (supports Medium/High confidence)"])
                  else (false, [L "Loop closure disabled — mapping confidence will be Low"])
      end).

Definition check_vslam_confidence (sysroot : string) : prog exn W Outcome :=
  reading [OSError; YAMLError] (read_yaml (under sysroot _VSLAM_CONFIG_PATH))
    (fun exc => (false, L "Cannot read VSLAM config: " :: exn_msg exc))
    (fun raw => plift (confidence_outcome raw)).

Definition check_vslam_imu_orientation (sysroot : string) : prog exn W Outcome :=
  reading [FileNotFoundError; TimeoutExpired]
    (y_run ["journalctl"; "-u"; "mower-vslam.service"; "--since"; "5 min ago"; "--no-pager"; "-o"; "cat"] 10)
    (fun _ => (false, [L "Cannot read journal for mower-vslam.service"]))
    (fun result =>
       if S.contains "doesn't have orientation set" result.2
       then no [L "RTAB-Map IMU orientation warning detected — IMU data being discarded"]
       else if bool_decide (S.strip result.2 = "")
       then ok [L "No recent VSLAM journal output (service may not have run)"]
       else ok [L "No IMU orientation warnings in last 5 min"]).

(** ** zone.py

    A downloaded item comes from JSON: its coordinates are any values. *)
Definition degrees (v : PyVal) : res exn float :=
  match v with
  | VInt _ | VBool _ | VFloat _ => f ← py_float v; Ok (F.div f (F.of_Z 10000000))
  | _ => raise_ TypeError [L "unsupported operand type(s) for /: '"; L (type_name v); L "' and 'float'"]
  end.

(** Where a vertex should be and where it is, in degrees. *)
Definition vertex_pair (expected : MissionItem) (actual : PyVal * PyVal)
  : res exn ((float * float) * (float * float)) :=
  expected_lat ← degrees (VInt (MI.x expected));
  expected_lon ← degrees (VInt (MI.y expected));
  actual_lat ← degrees actual.1;
  actual_lon ← degrees actual.2;
  Ok ((expected_lat, expected_lon), (actual_lat, actual_lon)).

Definition distance (a b : float) : float := F.abs (F.sub a b).

(** The loop over the vertices: the first mismatch, if any. *)
Fixpoint compare_vertices (tolerance : float) (i : Z) (expected : list MissionItem)
    (actual : list (PyVal * PyVal)) : res exn (option FStr) :=
  match expected, actual with
  | e :: es, a :: acts =>
      '((elat, elon), (alat, alon)) ← vertex_pair e a;
      let lat_diff := distance elat alat in
      let lon_diff := distance elon alon in
      if F.gtb lat_diff tolerance || F.gtb lon_diff tolerance
      then Ok (Some [L "Fence vertex "; Pz i; L " mismatch: expected ("; Fx elat ".7f"; L ", ";
                     Fx elon ".7f"; L "), got ("; Fx alat ".7f"; L ", "; Fx alon ".7f"; L ") (diff: lat=";
                     Fx lat_diff ".2e"; L ", lon="; Fx lon_diff ".2e"; L ")"])
      else compare_vertices tolerance (i + 1) es acts
  | _, _ => Ok None
  end.

Definition check_fence_match (zone : ZoneConfig) (fence_items : list (PyVal * PyVal)) (tolerance : float)
  : res exn Outcome :=
  expected_items ← zone_to_fence zone;
  if negb (Nat.eqb (length expected_items) (length fence_items)) then
    Ok (false, [L "Fence vertex count mismatch: expected "; Pz (Z.of_nat (length expected_items));
                L ", got "; Pz (Z.of_nat (length fence_items))])
  else
    bad ← compare_vertices tolerance 0 expected_items fence_items;
    Ok (match bad with
        | Some detail => (false, detail)
        | None => (true, [L "Fence matches zone boundary ("; Pz (Z.of_nat (length fence_items));
                          L " vertices, tolerance ±"; Fx tolerance ".0e"; L "°)"])
        end).

Definition tolerance_default : float := F.of_dec 1 (-7).

Definition count_outcome (near : bool) (expected : PyVal) (actual tolerance : Z) : Outcome :=
  if near then (true, [L "Mission count OK: "; Pz actual; L " items (expected ~"; V expected;
                       L ", tolerance ±"; Pz tolerance; L ")"])
  else (false, [L "Mission count mismatch: got "; Pz actual; L ", expected "; V expected; L " (±";
                Pz tolerance; L ")"]).

Definition check_mission_count (expected : PyVal) (actual tolerance : Z) : res exn Outcome :=
  match expected with
  | VInt n => Ok (count_outcome (Z.abs (n - actual) <=? tolerance) expected actual tolerance)
  | VBool b => Ok (count_outcome (Z.abs (Z.b2z b - actual) <=? tolerance) expected actual tolerance)
  | VFloat f =>
      a ← float_of_int actual;
      Ok (count_outcome (F.leb (F.abs (F.sub f a)) (F.of_Z tolerance)) expected actual tolerance)
  | v => raise_ TypeError [L "unsupported operand type(s) for -: '"; L (type_name v); L "' and 'int'"]
  end.

(** [sub in v] for a string on the left. *)
Definition str_in (sub : string) (v : PyVal) : res exn bool :=
  match v with
  | VStr s => Ok (S.contains sub s)
  | VList l => Ok (existsb (key_is sub) l)
  | VDict d => Ok (dmem d sub)
  | _ => raise_ TypeError [L "argument of type '"; L (type_name v); L "' is not iterable"]
  end.

(** [v.get(k, default)] *)
Definition get_attr (v : PyVal) (k : string) (dflt : PyVal) : res exn PyVal :=
  match v with
  | VDict d => Ok (dget_or d k dflt)
  | _ => raise_ AttributeError [L "'"; L (type_name v); L "' object has no attribute 'get'"]
  end.

Definition zone_match (zone_id : string) (config_data : PyVal) : res exn Outcome :=
  database_path ← get_attr config_data "database_path" (VStr "");
  let expected_fragment := S.join "" ["zones/"; zone_id; "/"] in
  b ← str_in expected_fragment database_path;
  Ok (if (b : bool)
      then (true, [L "VSLAM database path matches zone "; L zone_id; L ": "; V database_path])
      else (false, [L "VSLAM database_path '"; V database_path; L "' does not contain '";
                    L expected_fragment; L "'"])).

Definition check_vslam_zone_match (sysroot zone_id : string) : prog exn W Outcome :=
  let vslam_config_path := under sysroot _VSLAM_CONFIG_PATH in
  e ← b_exists vslam_config_path;
  if negb e then no [L "VSLAM config file not found"]
  else
    reading [Exception] (read_yaml vslam_config_path)
      (fun e => (false, L "Failed to parse VSLAM config: " :: exn_msg e))
      (fun config_data => plift (zone_match zone_id config_data)).

(** [v >= f] for a threshold that is a small whole number. *)
Definition at_least (v : PyVal) (f : float) : res exn bool :=
  match v with
  | VInt n => Ok (F.leb f (F.of_Z n))
  | VBool b => Ok (F.leb f (F.of_Z (Z.b2z b)))
  | VFloat g => Ok (F.leb f g)
  | _ => raise_ TypeError [L "'>=' not supported between instances of '"; L (type_name v); L "' and 'float'"]
  end.

Definition relocalized (min_confidence : float) (status_data : PyVal) : res exn Outcome :=
  confidence ← get_attr status_data "confidence" (VFloat F.zero);
  b ← at_least confidence min_confidence;
  Ok (if (b : bool)
      then (true, [L "VSLAM relocalized (confidence="; VF confidence ".2f"; L ", threshold≥";
                   V (VFloat min_confidence); L ")"])
      else (false, [L "VSLAM not relocalized (confidence="; VF confidence ".2f"; L ", need≥";
                    V (VFloat min_confidence); L ")"])).

Definition read_json (path : string) : prog exn W PyVal :=
  t ← read_text path; plift (json_loads t).

Definition check_vslam_relocalized (sysroot : string) (min_confidence : float) : prog exn W Outcome :=
  let status_path := under sysroot "run/mower/vslam-status.json" in
  e ← b_exists status_path;
  if negb e then no [L "VSLAM status file not found (service may not be running)"]
  else
    reading [Exception] (read_json status_path)
      (fun e => (false, L "Failed to parse VSLAM status: " :: exn_msg e))
      (fun status_data => plift (relocalized min_confidence status_data)).

(** *** The registered wrappers *)
Context {G : Type} `{!Shapely G}.

Definition attempt {A} (m : prog exn W A) : prog exn W (res exn A) :=
  pcatch (a ← m; mret (Ok a)) (fun e => mret (Err e)).

(** What [load_zone_config] finds at a path. *)
Definition slurp (path : string) : prog exn W (option (res exn string)) :=
  e ← b_exists path;
  if (e : bool) then t ← attempt (read_text path); mret (Some t) else mret None.

Definition load_active (path : string) : prog exn W ZoneConfig :=
  file ← slurp path; plift (load_zone_config yaml_safe_load path file).

(** [for item in v] and [len(v)]. *)
Definition iter_value (v : PyVal) : res exn (list PyVal) :=
  match v with
  | VList l => Ok l
  | VDict d => Ok (map fst d)
  | VStr s => Ok (omap (fun c => s ← c; Some (VStr (S.ofl s))) (Utf8.decode_list s))
  | _ => raise_ TypeError [L "'"; L (type_name v); L "' object is not iterable"]
  end.
Definition len_value (v : PyVal) : res exn Z :=
  match iter_value v with
  | Ok l => Ok (Z.of_nat (length l))
  | Err _ => raise_ TypeError [L "object of type '"; L (type_name v); L "' has no len()"]
  end.

Definition item_fields : list string :=
  ["seq"; "frame"; "command"; "param1"; "param2"; "param3"; "param4"; "x"; "y"; "z";
   "mission_type"; "autocontinue"; "current"].

(** [MissionItem( **item_data )]: the coordinates of the item. *)
Definition item_of (item_data : PyVal) : res exn (PyVal * PyVal) :=
  match item_data with
  | VDict d =>
      if forallb (fun kv => existsb (fun f => key_is f kv.1) item_fields) d &&
         forallb (dmem d) ["seq"; "frame"; "command"]
      then Ok (dget_or d "x" (VInt 0), dget_or d "y" (VInt 0))
      else raise_ TypeError [L "MissionItem.__init__() got unexpected or missing arguments"]
  | v => raise_ TypeError [L "argument after ** must be a mapping, not "; L (type_name v)]
  end.

Definition cached_items (doc : PyVal) : res exn (list PyVal) :=
  items ← get_attr doc "items" (VList []); iter_value items.

(** A cache that must be there and must parse, or the check fails. *)
Definition with_cache {A} (path : string) (absent failed : string) (f : PyVal -> res exn A)
    (k : A -> prog exn W Outcome) : prog exn W Outcome :=
  e ← b_exists path;
  if negb e then no [L absent]
  else reading [Exception] (doc ← read_json path; plift (f doc))
         (fun e => (false, [L failed; L ": "] ++ exn_msg e)) k.

Definition with_active_zone (sysroot : string) (k : ZoneConfig -> prog exn W Outcome) : prog exn W Outcome :=
  let active_zone_path := under sysroot "var/lib/mower/active-zone.yaml" in
  e ← b_exists active_zone_path;
  if negb e then no [L "No active zone configuration found"]
  else reading [Exception] (load_active active_zone_path)
         (fun e => (false, L "Failed to load active zone config: " :: exn_msg e)) k.

Definition _zone_fence_match_probe (sysroot : string) : prog exn W Outcome :=
  with_active_zone sysroot (fun zone =>
    with_cache (under sysroot "var/cache/mower/fence-items.json")
      "No cached fence data found (run mission download first)" "Failed to parse cached fence data"
      (fun doc => items ← cached_items doc; rmap item_of items)
      (fun fence_items => plift (check_fence_match zone fence_items tolerance_default))).

Definition _zone_mission_count_probe (sysroot : string) : prog exn W Outcome :=
  with_cache (under sysroot "var/cache/mower/mission-plan.json")
    "No cached mission plan found (run mission planning first)" "Failed to parse mission plan cache"
    (fun doc => get_attr doc "waypoint_count" (VInt 0))
    (fun expected_count =>
       with_cache (under sysroot "var/cache/mower/mission-items.json")
         "No cached mission data found (run mission download first)" "Failed to parse cached mission data"
         (fun doc => items ← get_attr doc "items" (VList []); len_value items)
         (fun actual_count => plift (check_mission_count expected_count actual_count 5))).

Definition _zone_vslam_match_probe (sysroot : string) : prog exn W Outcome :=
  with_active_zone sysroot (fun zone => check_vslam_zone_match sysroot (zone_id zone)).

Definition _zone_vslam_relocalized_probe (sysroot : string) : prog exn W Outcome :=
  check_vslam_relocalized sysroot F.one.

(** ** The registry after [import mower_rover.probe.checks]

    The decorators run as the modules are imported, in the order of the import
    list; zone.py is not in it. *)
Definition Registration : Type := string * Severity * list string * (string -> prog exn W Outcome).

Definition imported : list Registration :=
  [("cuda", CRITICAL, ["jetpack_version"], check_cuda);
   ("disk_space", CRITICAL, [], check_disk_space);
   ("disk_nvme", WARNING, [], check_disk_nvme);
   ("jetpack_version", CRITICAL, [], check_jetpack_version);
   ("kiosk_weston_active", WARNING, [], check_weston_active);
   ("kiosk_data_active", WARNING, ["kiosk_weston_active"], check_kiosk_data_active);
   ("kiosk_renderer_active", WARNING, ["kiosk_weston_active"], check_kiosk_renderer_active);
   ("kiosk_active", WARNING, ["kiosk_weston_active"], check_kiosk_active);
   ("mavproxy_active", WARNING, [], check_mavproxy_active);
   ("oakd", CRITICAL, ["jetpack_version"], check_oakd None);
   ("oakd_vslam_config", WARNING, ["oakd"], check_oakd_vslam_config);
   ("power_mode", WARNING, ["jetpack_version"], check_power_mode);
   ("python_ver", CRITICAL, ["jetpack_version"], check_python_ver);
   ("health_service", CRITICAL, [], check_health_service);
   ("loginctl_linger", WARNING, [], check_loginctl_linger);
   ("ssh_hardening", WARNING, [], check_ssh_hardening);
   ("thermal", WARNING, ["jetpack_version"], check_thermal);
   ("oakd_usb_autosuspend", WARNING, ["jetpack_version"], check_usb_autosuspend);
   ("oakd_usbfs_memory", WARNING, ["jetpack_version"], check_usbfs_memory);
   ("oakd_thermal_gate", WARNING, ["thermal"], check_thermal_gate);
   ("usbcore_quirks", WARNING, ["jetpack_version"], check_usbcore_quirks);
   ("waveshare_hub", WARNING, ["jetpack_version"], check_waveshare_hub);
   ("oakd_udev_rule", WARNING, ["jetpack_version"], check_oakd_udev_rule);
   ("pixhawk_symlink", CRITICAL, [], check_pixhawk_symlink);
   ("vslam_process", CRITICAL, ["oakd"], check_vslam_process);
   ("vslam_bridge", CRITICAL, ["vslam_process"], check_vslam_bridge);
   ("vslam_socket_active", CRITICAL, ["vslam_bridge"], check_vslam_socket_active);
   ("vslam_pose_rate", WARNING, ["vslam_bridge"], check_vslam_pose_rate);
   ("vslam_params", CRITICAL, ["oakd"], check_vslam_params);
   ("vslam_lua_script", WARNING, ["oakd"], check_vslam_lua_script);
   ("vslam_confidence", WARNING, ["vslam_bridge"], check_vslam_confidence);
   ("vslam_imu_orientation", WARNING, ["vslam_process"], check_vslam_imu_orientation)].

Definition zone_checks : list Registration :=
  [("zone_fence_match", CRITICAL, [], _zone_fence_match_probe);
   ("zone_mission_count", WARNING, [], _zone_mission_count_probe);
   ("zone_vslam_match", WARNING, ["vslam_params"], _zone_vslam_match_probe);
   ("zone_vslam_relocalized", WARNING, ["vslam_bridge"], _zone_vslam_relocalized_probe)].

Definition register_all (regs : list Registration) : res exn (list (string * CheckSpec W)) :=
  rfold (fun specs '(name, severity, deps, fn) => register name severity deps fn specs) [] regs.
End checks.
End Probe.
Export Probe.

(** ** Checks that behave

    A program that terminates on every world and lets only [Exception]s escape,
    which is what the run loop asks of a check. *)
Definition fine {A} (r : res exn A) : Prop :=
  match r with Ok _ => True | Err e => subclass (exn_class e) Exception = true end.

Definition behaved {W A} (m : prog exn W A) : Prop := forall w, exists r w', m w = Some (r, w') /\ fine r.

Section behaved.
Context {W : Type}.

Lemma fine_bind {A B} (r : res exn A) (f : A -> res exn B) :
  fine r -> (forall a, fine (f a)) -> fine (r ≫= f).
Proof. destruct r; [intros _ H; apply H|done]. Qed.

Lemma fine_except {A} cs (r : res exn A) h : fine r -> (forall e, fine (h e)) -> fine (except cs r h).
Proof. intros Hr Hh. destruct r as [a|e]; [done|]. unfold except, rcatch. by destruct (caught_by cs e). Qed.

Lemma fine_raise {A} c m : subclass c Exception = true -> fine (raise_ c m : res exn A).
Proof. done. Qed.

Lemma behaved_ret {A} (a : A) : behaved (mret a : prog exn W A).
Proof. intros w. by exists (Ok a), w. Qed.

Lemma behaved_lift {A} (r : res exn A) : fine r -> behaved (plift r : prog exn W A).
Proof. intros Hr w. by exists r, w. Qed.

Lemma behaved_bind {A B} (m : prog exn W A) (f : A -> prog exn W B) :
  behaved m -> (forall a, behaved (f a)) -> behaved (m ≫= f).
Proof.
  intros Hm Hf w. destruct (Hm w) as ([a|e] & w1 & H1 & Hr).
  - destruct (Hf a w1) as (r & w2 & H2 & Hr2). exists r, w2.
    by rewrite (pbind_step _ _ _ _ _ H1).
  - exists (Err e), w1. by rewrite (pbind_err _ _ _ _ _ H1).
Qed.

Lemma behaved_except {A} cs (m : prog exn W A) h :
  behaved m -> (forall e, behaved (h e)) -> behaved (pexcept cs m h).
Proof.
  intros Hm Hh w. destruct (Hm w) as ([a|e] & w1 & H1 & Hr);
    unfold pexcept, pcatch; rewrite H1; [by eexists _, _|].
  destruct (caught_by cs e); [apply Hh|by exists (Err e), w1].
Qed.

Lemma behaved_fold {S A} (f : S -> A -> prog exn W S) s l :
  (forall s a, behaved (f s a)) -> behaved (pfold f s l).
Proof.
  intros Hf. revert s. induction l as [|a l IH]; intros s; cbn [pfold]; [apply behaved_ret|].
  apply behaved_bind; [apply Hf|]. intros s'. apply IH.
Qed.

Lemma fine_rfold {S A} (f : S -> A -> res exn S) s l :
  (forall s a, fine (f s a)) -> fine (rfold f s l).
Proof.
  intros Hf. unfold rfold. assert (Hs : fine (Ok s : res exn S)) by done. revert Hs.
  generalize (Ok s : res exn S). induction l as [|a l IH]; intros r Hr; cbn; [done|].
  apply IH, fine_bind; [done|]. intros s'. apply Hf.
Qed.

Lemma fine_int v : fine (py_int v).
Proof. destruct v; cbn; try done; [|by destruct (Num.int_of _)]. unfold int_of_float. by repeat split_match. Qed.

Lemma fine_float_of_int z : fine (float_of_int z).
Proof. unfold float_of_int. by split_match. Qed.

Lemma fine_decode s : fine (Utf8.decode s).
Proof. unfold Utf8.decode. by split_match. Qed.
End behaved.

Create HintDb behaved.
#[export] Hint Resolve @fine_int @fine_float_of_int @fine_decode : behaved.
#[export] Hint Extern 1 (fine (Ok _)) => exact I : behaved.
#[export] Hint Extern 1 (fine (raise_ _ _)) => reflexivity : behaved.

(** Take a program apart, operation by operation. *)
Ltac behave :=
  repeat first
    [ apply behaved_bind; [|intros ?] | apply behaved_except; [|intros ?] | apply behaved_fold; intros ? ?
    | apply behaved_ret | apply behaved_lift | apply fine_bind; [|intros ?] | apply fine_except; [|intros ?] | apply fine_rfold; intros ? ?
    | solve [eauto 3 with behaved] | progress split_match | progress cbn beta iota ].

(** A host whose operations behave. *)
Class Responsive (W : Type) `{!Sys W} `{!ProbeHost W} : Prop := {
  rs_is_file p : behaved (y_is_file p : prog exn W _);
  rs_read p : behaved (y_read p : prog exn W _);
  rs_glob p : behaved (y_glob p : prog exn W _);
  rs_run a t : behaved (y_run a t : prog exn W _);
  rs_statvfs p : behaved (y_statvfs p : prog exn W _);
  rs_now : behaved (y_now : prog exn W _);
  rs_exists p : behaved (b_exists p : prog exn W _);
  rs_resolve p : behaved (b_resolve p : prog exn W _);
  rs_getenv p : behaved (b_getenv p : prog exn W _);
  rs_home : behaved (b_home : prog exn W _);
  rs_recv p n t : behaved (b_recv p n t : prog exn W _);
  rs_bundled p : behaved (b_bundled p : prog exn W _)
}.
#[export] Hint Resolve @rs_is_file @rs_read @rs_glob @rs_run @rs_statvfs @rs_now @rs_exists @rs_resolve
  @rs_getenv @rs_home @rs_recv @rs_bundled : behaved.

Section responsive.
Context {W : Type} `{!Sys W} `{!ProbeHost W} `{!Responsive W}.

Lemma behaved_read_text p : behaved (read_text p : prog exn W _).
Proof. unfold read_text. behave. Qed.
Hint Resolve behaved_read_text : behaved.

Lemma behaved_thermal sysroot : behaved (read_thermal_zones sysroot : prog exn W _).
Proof. unfold read_thermal_zones, read_zone, zone_temp, zone_name. behave. Qed.

Lemma behaved_disk sysroot : behaved (read_disk_usage sysroot : prog exn W _).
Proof. unfold read_disk_usage, _parse_proc_mounts, disk_of, _statvfs. behave. Qed.

Lemma behaved_first_freq paths : behaved (first_freq paths : prog exn W _).
Proof. induction paths; cbn [first_freq]; behave. Qed.
Hint Resolve behaved_thermal behaved_disk behaved_first_freq : behaved.

Lemma fine_nvpmodel st line : fine (nvpmodel_line st line).
Proof. unfold nvpmodel_line. behave. Qed.

Lemma fine_version out : fine (version_ok out).
Proof. unfold version_ok. behave. Qed.

Lemma fine_subscript v k : fine (subscript v k).
Proof. unfold subscript. behave. Qed.
Hint Resolve fine_nvpmodel fine_version fine_subscript : behaved.

Lemma behaved_power sysroot : behaved (read_power_state sysroot : prog exn W _).
Proof.
  unfold read_power_state, _read_nvpmodel, _read_online_cpus, _read_gpu_freq, _read_fan_profile.
  behave.
Qed.
Hint Resolve behaved_power : behaved.

(** Every check of the import list, by its registered body. *)
Variable yaml_safe_load : string -> res exn PyVal.
Hypothesis yaml_fine : forall t, fine (yaml_safe_load t).
Hint Resolve yaml_fine : behaved.

Lemma behaved_try_nvcc cs r : behaved (try_nvcc cs r : prog exn W _).
Proof. revert r. induction cs; intros r; cbn [try_nvcc]; behave. Qed.

Lemma behaved_find_device fs : behaved (find_device fs : prog exn W _).
Proof. induction fs; cbn [find_device]; unfold attribute; behave. Qed.

Lemma behaved_try_pythons cs : behaved (try_pythons cs : prog exn W _).
Proof. induction cs; cbn [try_pythons]; unfold ok, no; behave. Qed.
Hint Resolve behaved_try_nvcc behaved_find_device behaved_try_pythons : behaved.

Lemma imported_behaved sysroot :
  Forall (fun reg : Registration => behaved (reg.2 sysroot : prog exn W _)) (imported yaml_safe_load).
Proof.
  unfold imported. repeat constructor; cbn [snd];
  unfold check_cuda, check_disk_space, check_disk_nvme, check_jetpack_version, check_weston_active,
    check_kiosk_data_active, check_kiosk_renderer_active, check_kiosk_active, check_mavproxy_active,
    check_health_service, unit_active, check_oakd, _vslam_service_active, _find_oakd_device, check_oakd_vslam_config,
    check_power_mode, check_python_ver, check_loginctl_linger, check_ssh_hardening, _password_auth_disabled,
    scan_sshd, check_thermal, check_usb_autosuspend, check_usbfs_memory, check_thermal_gate, check_usbcore_quirks,
    check_waveshare_hub, hub_step, attribute, check_oakd_udev_rule, check_pixhawk_symlink, check_vslam_process,
    check_vslam_bridge, _systemctl_is_active, check_vslam_socket_active, check_vslam_pose_rate, rate_outcome,
     check_vslam_params, params_outcome, get_of, check_vslam_lua_script, check_vslam_confidence,
    confidence_outcome, check_vslam_imu_orientation, read_yaml, reading, ok, no, default; behave.
Qed.

(** ** The shipped registry *)

(** A registered check has the body it was registered with. *)
Lemma register_all_fn (regs : list (Registration (W := W))) specs n s :
  register_all regs = Ok specs -> od_get specs n = Some s -> exists reg, reg ∈ regs /\ cs_fn s = reg.2.
Proof.
  enough (Hgen : forall acc, (forall n s, od_get acc n = Some s -> exists reg, reg ∈ regs /\ cs_fn s = reg.2) ->
    forall l, (forall x, x ∈ l -> x ∈ regs) ->
    rfold (fun specs '(name, severity, deps, fn) => register name severity deps fn specs) acc l = Ok specs ->
    od_get specs n = Some s -> exists reg, reg ∈ regs /\ cs_fn s = reg.2).
  { intros H Hs. by eapply (Hgen []). }
  intros acc Hacc l. unfold rfold. revert acc Hacc.
  induction l as [|[[[nm sev] deps] fn] l IH]; intros acc Hacc Hl; cbn [foldl mbind res_bind].
  - intros [= <-]. apply Hacc.
  - unfold register. destruct (od_get acc nm) as [x|] eqn:Hx.
    + intros H. exfalso. clear -H. revert H. induction l as [|[[[? ?] ?] ?] l IH]; cbn; [done|apply IH].
    + apply IH; [|set_solver]. intros n' s'. rewrite od_get_set. case_decide; [|apply Hacc].
      intros [= <-]. exists (nm, sev, deps, fn). split; [|done]. apply Hl. set_solver.
Qed.

(** The order the run loop takes the imported checks in. *)
Definition probe_order : list string :=
  ["jetpack_version"; "cuda"; "disk_space"; "disk_nvme"; "kiosk_weston_active"; "kiosk_data_active";
   "kiosk_renderer_active"; "kiosk_active"; "mavproxy_active"; "oakd"; "oakd_vslam_config"; "power_mode";
   "python_ver"; "health_service"; "loginctl_linger"; "ssh_hardening"; "thermal"; "oakd_usb_autosuspend";
   "oakd_usbfs_memory"; "oakd_thermal_gate"; "usbcore_quirks"; "waveshare_hub"; "oakd_udev_rule";
   "pixhawk_symlink"; "vslam_process"; "vslam_bridge"; "vslam_socket_active"; "vslam_pose_rate";
   "vslam_params"; "vslam_lua_script"; "vslam_confidence"; "vslam_imu_orientation"].

Lemma imported_order :
  match register_all (imported yaml_safe_load : list (Registration (W := W))) with
  | Ok specs => _resolve_order specs
  | Err _ => None
  end = Some (Ok probe_order).
Proof. vm_compute. reflexivity. Qed.

Lemma imported_names :
  match register_all (imported yaml_safe_load : list (Registration (W := W))) with
  | Ok specs => od_keys specs
  | Err _ => []
  end = map (fun reg => reg.1.1.1) (imported yaml_safe_load : list (Registration (W := W))).
Proof. vm_compute. reflexivity. Qed.

(** C13: The probe of a rover, as shipped: importing the checks registers every
    one of them, their dependencies are registered and acyclic, and on any host
    whose files, commands and sensors answer, with a value or with an
    [Exception], the run ends normally and reports all the checks, each once, in
    the stated order, the outcome of each as the transition system of the
    registry says: skipped without being called when a dependency did not pass,
    the verdict of its body otherwise, and a failure when its body raised. *)
Theorem shipped_probes_run iter sysroot (w : W) :
  exists specs results w',
    register_all (imported yaml_safe_load) = Ok specs /\
    run_checks iter sysroot None specs w = Some (Ok results, w') /\
    map cr_name results = probe_order /\
    run_steps specs sysroot probe_order ([], w) (results, w').
Proof.
  pose proof imported_order as Hord. pose proof imported_names as Hnames.
  destruct (register_all (imported yaml_safe_load)) as [specs|e] eqn:Hreg; [|done].
  destruct (run_all_refines specs sysroot probe_order ([], ∅) w acc_ok_nil) as ([rs f] & w' & H & Hst).
  - intros n s Hs. destruct (register_all_fn _ _ _ _ Hreg Hs) as (reg & Hin & Hfn). unfold fn_behaved.
    rewrite Hfn. exact (proj1 (list.Forall_forall _ _) (imported_behaved sysroot) reg Hin).
  - intros n Hn. apply od_get_some_key. rewrite Hnames. revert n Hn. apply list.Forall_forall.
    apply (bool_decide_unpack _). vm_compute. exact I.
  - exists specs, rs, w'. split_and!; [done| | |done].
    + by rewrite (run_checks_all _ _ _ _ _ Hord), H.
    + exact (run_steps_names _ _ _ _ _ Hst).
Qed.
End responsive.

(** A bare machine: no file, every command missing. *)
Definition bare_sys : Sys unit := {|
  y_is_file _ w := Some (Ok false, w);
  y_read p w := Some (raise_ FileNotFoundError [L p], w);
  y_glob _ w := Some (Ok [], w);
  y_run _ _ w := Some (raise_ FileNotFoundError [], w);
  y_statvfs _ w := Some (raise_ FileNotFoundError [], w);
  y_now w := Some (Ok "", w)
|}.

Definition bare_probe : ProbeHost unit := {|
  b_exists _ w := Some (Ok false, w);
  b_resolve p w := Some (Ok p, w);
  b_getenv _ w := Some (Ok None, w);
  b_home w := Some (Ok "/home/rover", w);
  b_recv _ _ _ w := Some (raise_ FileNotFoundError [], w);
  b_bundled _ w := Some (Ok true, w)
|}.

Lemma bare_responsive : @Responsive unit bare_sys bare_probe.
Proof. constructor; intros; intros w; by eexists _, _. Qed.

Lemma shipped_probes_run_witness :
  exists specs results w',
    @register_all unit (@imported _ bare_sys bare_probe (fun _ => raise_ YAMLError [])) = Ok specs /\
    run_checks elements "/" None specs tt = Some (Ok results, w') /\
    map cr_name results = probe_order /\ run_steps specs "/" probe_order ([], tt) (results, w').
Proof.
  apply (@shipped_probes_run unit bare_sys bare_probe bare_responsive (fun _ => raise_ YAMLError [])
           (fun _ => eq_refl) elements "/" tt).
Defined.

(** ** Single checks *)

(** The saved configuration keeps the database path in its [vslam] section, where
    the zone check does not look: it fails on every one of them. *)
Lemma zone_match_never zone_id c :
  exists detail, zone_match zone_id (VslamConfig.to_dict c) = Ok (false, detail).
Proof. eexists. unfold zone_match. cbn -[S.contains S.join]. reflexivity. Qed.

(** A vertex where it should be, within the tolerance. *)
Definition near (tolerance : float) (e : MissionItem) (a : PyVal * PyVal) : Prop :=
  exists elat elon alat alon, vertex_pair e a = Ok ((elat, elon), (alat, alon)) /\
    F.gtb (distance elat alat) tolerance = false /\ F.gtb (distance elon alon) tolerance = false.

(** Coordinates that are numbers a float can hold. *)
Definition numeric (a : PyVal * PyVal) : Prop := is_ok (degrees a.1) = true /\ is_ok (degrees a.2) = true.
Definition xy (it : MissionItem) : PyVal * PyVal := (VInt (MI.x it), VInt (MI.y it)).

Lemma compare_exact tolerance i expected items :
  length expected = length items -> Forall (fun e => numeric (xy e)) expected -> Forall numeric items ->
  exists bad, compare_vertices tolerance i expected items = Ok bad /\
    (bad = None <-> Forall2 (near tolerance) expected items).
Proof.
  revert i items. induction expected as [|e es IH]; intros i [|a acts]; try done.
  - intros _ _ _. exists None. split; [done|]. split; [constructor|done].
  - intros [= Hlen] He Ha. inversion He as [|? ? [He1 He2] Hes]; inversion Ha as [|? ? [Ha1 Ha2] Has]; subst.
    destruct (IH (i + 1) acts Hlen Hes Has) as (bad & Hbad & Hiff). cbn [compare_vertices].
    assert (Hp : exists el eo al ao, vertex_pair e a = Ok ((el, eo), (al, ao))).
    { unfold vertex_pair. cbn [xy fst snd] in *. destruct (degrees (VInt (MI.x e))), (degrees (VInt (MI.y e))),
        (degrees a.1), (degrees a.2); try done. by eexists _, _, _, _. }
    destruct Hp as (el & eo & al & ao & Hp). rewrite Hp. cbn [mbind res_bind].
    destruct (F.gtb (distance el al) tolerance || F.gtb (distance eo ao) tolerance) eqn:Hd.
    + eexists. split; [reflexivity|]. split; [done|]. intros Hf.
      inversion Hf as [|? ? ? ? (? & ? & ? & ? & Hq & H1 & H2)]; subst. rewrite Hp in Hq. simplify_eq.
      by rewrite H1, H2 in Hd.
    + apply orb_false_elim in Hd as [H1 H2]. exists bad. split; [done|]. rewrite Hiff.
      split; [|by inversion 1]. intros Hf. constructor; [|done]. by eexists _, _, _, _.
Qed.

Lemma distance_self x tolerance : F.leb F.zero tolerance = true -> F.gtb (distance x x) tolerance = false.
Proof.
  intros Ht. unfold distance, F.gtb. destruct x as [s|s| |s m e]; cbn.
  all: try (destruct s; cbn; by destruct tolerance as [[]|[]| |[] ? ?]).
  - by destruct tolerance.
  - unfold F.sub, SpecFloat.SFsub. rewrite Z.sub_diag. cbn. by destruct tolerance as [[]|[]| |[] ? ?].
Qed.

(** C18: The fence check decides exactly whether the fence on the vehicle is the
    zone's: for any tolerance and any list of downloaded coordinates that are
    numbers, it returns a verdict, positive if and only if there are as many
    vertices as the zone has and each is within the tolerance of its own, in
    order, in both coordinates; and the coordinates the upload of the zone sends
    always pass. *)
Theorem fence_match_exact zone expected items tolerance
    (Hzone : zone_to_fence zone = Ok expected)
    (Hrange : Forall (fun e => numeric (xy e)) expected) (Hnum : Forall numeric items)
    (Htol : F.leb F.zero tolerance = true) :
  (exists b detail, check_fence_match zone items tolerance = Ok (b, detail) /\
     (b = true <-> Forall2 (near tolerance) expected items)) /\
  exists detail, check_fence_match zone (map xy expected) tolerance = Ok (true, detail).
Proof.
  unfold check_fence_match. rewrite Hzone. cbn [mbind res_bind]. split.
  - destruct (Nat.eqb_spec (length expected) (length items)) as [Hlen|Hlen]; cbn [negb].
    + destruct (compare_exact tolerance 0 expected items Hlen Hrange Hnum) as (bad & -> & Hiff).
      cbn [mbind res_bind]. destruct bad as [m|]; eexists _, _; (split; [reflexivity|]); rewrite <- Hiff; done.
    + eexists _, _. split; [reflexivity|]. split; [done|]. intros H%Forall2_length. done.
  - rewrite length_map, Nat.eqb_refl. cbn [negb].
    destruct (compare_exact tolerance 0 expected (map xy expected)) as (bad & -> & Hiff);
      [by rewrite length_map|done|by apply Forall_map|].
    cbn [mbind res_bind]. enough (bad = None) as -> by (eexists; reflexivity). apply Hiff.
    apply Forall2_fmap_r. clear -Hrange Htol. induction Hrange as [|e es [H1 H2] _ IH]; constructor; [|done].
    cbn [xy fst snd] in H1, H2. unfold compose, near, vertex_pair, xy. cbn [fst snd].
    destruct (degrees (VInt (MI.x e))) as [x|], (degrees (VInt (MI.y e))) as [y|]; try done.
    exists x, y, x, y. split_and!; [reflexivity|by apply distance_self..].
Qed.

Lemma fence_match_exact_witness :
  exists zone expected detail, demo_zone = Ok zone /\ zone_to_fence zone = Ok expected /\
    check_fence_match zone (map xy expected) tolerance_default = Ok (true, detail).
Proof.
  destruct demo_zone as [zone|] eqn:Hz; [|vm_compute in Hz; discriminate].
  vm_compute in Hz. injection Hz as <-.
  match goal with |- context [Ok ?z = Ok _] => set (zone := z) end.
  destruct (zone_to_fence zone) as [f|] eqn:Hf; [|vm_compute in Hf; discriminate].
  assert (Hnum : Forall (fun e => numeric (xy e)) f).
  { vm_compute in Hf. injection Hf as <-. repeat constructor; vm_compute; reflexivity. }
  destruct (fence_match_exact zone f [] tolerance_default Hf Hnum (List.Forall_nil _) eq_refl)
    as (_ & detail & Hd).
  exists zone, f, detail. split_and!; [reflexivity|exact Hf|exact Hd].
Defined.
