(* ===== verification/Daemon.v ===== *)
(** * The health daemon (service/daemon.py)

    The loop that keeps systemd's watchdog fed and takes health snapshots.  Time
    is the monotonic clock in nanoseconds; the shutdown event, the notifier,
    [os.sync] and the clock are the interface [DaemonHost], and a signal is the
    event becoming set. *)

From stdpp Require Import base gmap list strings option.
From Stdlib Require Import ZArith Lia.
From S2P Require Import Prelude Float64 PyVal Link Files Health Config.
From S2P Require Import Units.
Local Open Scope Z_scope.

Class DaemonHost (W : Type) := {
  d_time : prog exn W Z;
  d_is_set : prog exn W bool;
  (** [shutdown.wait(timeout=...)] *)
  d_wait : Z -> prog exn W unit;
  d_notify : string -> prog exn W unit;
  d_sync : prog exn W unit
}.

Module Daemon.
Section daemon.
Context {W : Type} `{!Sys W} `{!DaemonHost W}.

(** One health snapshot; what it reads is only logged. *)
Definition health_snapshot (sysroot : string) : prog exn W unit :=
  _ ← read_thermal_zones sysroot;
  _ ← read_power_state sysroot;
  _ ← read_disk_usage sysroot;
  mret tt.

(** The loop variables [last_health] and [last_watchdog]. *)
Record Loop : Type := { last_health : Z; last_watchdog : Z }.

Definition daemon_init (health_interval_s : Z) : Loop :=
  {| last_health := - sec (health_interval_s + 1); last_watchdog := - sec 16 |}.

Definition ping (now : Z) (st : Loop) : prog exn W Z :=
  if sec 15 <=? now - last_watchdog st then _ ← d_notify "WATCHDOG=1"; mret now
  else mret (last_watchdog st).

Definition collect (health_interval_s : Z) (sysroot : string) (now : Z) (st : Loop) : prog exn W Z :=
  if sec health_interval_s <=? now - last_health st then
    _ ← pexcept [Exception] (health_snapshot sysroot) (fun _ => mret tt);
    _ ← d_sync;
    mret now
  else mret (last_health st).

Definition daemon_round (health_interval_s : Z) (sysroot : string) (st : Loop) : prog exn W (Loop + unit) :=
  stop ← d_is_set;
  if (stop : bool) then mret (inr tt)
  else
    now ← d_time;
    lw ← ping now st;
    lh ← collect health_interval_s sysroot now st;
    _ ← d_wait (sec 1);
    mret (inl {| last_health := lh; last_watchdog := lw |}).

Definition run_daemon (fuel : nat) (health_interval_s : Z) (sysroot : string) : prog exn W unit :=
  _ ← d_notify "READY=1";
  ploop fuel (daemon_round health_interval_s sysroot) (daemon_init health_interval_s).
End daemon.
End Daemon.
Export Daemon.

(** ** A host on which time passes

    [clk] is the clock, [notes] what the notifier was given and when, [stop_at]
    when the event is set.  A snapshot with its sync takes at most [cost]; a wait
    ends after its second or when the event is set. *)
Class Clocked (W : Type) `{!Sys W} `{!DaemonHost W} (clk : W -> Z) (notes : W -> list (Z * string))
    (stop_at cost : Z) : Prop := {
  ck_start w : 0 <= clk w;
  ck_cost : 0 <= cost;
  ck_time w : d_time w = Some (Ok (clk w), w);
  ck_is_set w : d_is_set w = Some (Ok (bool_decide (stop_at <= clk w)), w);
  ck_notify s w : exists w', d_notify s w = Some (Ok tt, w') /\ clk w' = clk w /\
    notes w' = notes w ++ [(clk w, s)];
  ck_wait w : exists w', d_wait (sec 1) w = Some (Ok tt, w') /\ notes w' = notes w /\
    clk w <= clk w' <= clk w + sec 1 /\ (clk w' = clk w + sec 1 \/ stop_at <= clk w');
  ck_snapshot sysroot w : exists r w1 w2,
    health_snapshot sysroot w = Some (r, w1) /\
    match r with Ok _ => True | Err e => subclass (exn_class e) Exception = true end /\
    d_sync w1 = Some (Ok tt, w2) /\ notes w2 = notes w /\ clk w <= clk w2 <= clk w + cost
}.

(** Every notification follows the one before it within [gap]. *)
Definition fed (gap : Z) (l : list (Z * string)) : Prop :=
  forall pre t s t' s' post, l = pre ++ (t, s) :: (t', s') :: post -> t' - t <= gap.

Lemma fed_single gap x : fed gap [x].
Proof. intros pre t s t' s' post H. apply (f_equal length) in H. rewrite length_app in H. cbn in H. lia. Qed.

Lemma fed_snoc gap l t s t' s' : fed gap (l ++ [(t, s)]) -> t' - t <= gap -> fed gap (l ++ [(t, s); (t', s')]).
Proof.
  intros Hl Ht pre a b c d post. destruct post as [|x post _] using rev_ind.
  - change (l ++ [(t, s); (t', s')] = pre ++ [(a, b)] ++ [(c, d)] -> c - a <= gap).
    replace (l ++ [(t, s); (t', s')]) with ((l ++ [(t, s)]) ++ [(t', s')]) by by rewrite <- app_assoc.
    rewrite app_assoc. intros [H [= -> ->]]%app_inj_tail.
    by apply app_inj_tail in H as [_ [= -> ->]].
  - replace (l ++ [(t, s); (t', s')]) with ((l ++ [(t, s)]) ++ [(t', s')]) by by rewrite <- app_assoc.
    replace (pre ++ (a, b) :: (c, d) :: post ++ [x]) with ((pre ++ (a, b) :: (c, d) :: post) ++ [x])
      by by rewrite <- app_assoc.
    intros [H _]%app_inj_tail. by eapply Hl.
Qed.

Section watchdog.
Context {W : Type} `{!Sys W} `{!DaemonHost W} (clk : W -> Z) (notes : W -> list (Z * string)).
Context (stop_at cost : Z) `{!Clocked W clk notes stop_at cost}.
Variables (health_interval_s : Z) (sysroot : string).

Definition gap : Z := sec 16 + cost.

(** The rounds left before the event is set. *)
Definition rounds_left (w : W) : nat := Z.to_nat ((stop_at - clk w + sec 1 - 1) / sec 1).

Lemma collected (now : Z) (st : Loop) (w : W) :
  exists lh w', collect health_interval_s sysroot now st w = Some (Ok lh, w') /\ notes w' = notes w /\
    clk w <= clk w' <= clk w + cost.
Proof.
  unfold collect. destruct (sec health_interval_s <=? now - last_health st).
  - destruct (ck_snapshot sysroot w) as (r & w1 & w2 & H1 & Hr & H2 & Hn & Hc).
    exists now, w2. split_and!; [|done|lia|lia].
    assert (Hx : pexcept [Exception] (health_snapshot sysroot) (fun _ => mret tt) w = Some (Ok tt, w1)).
    { unfold pexcept, pcatch, caught_by. rewrite H1. destruct r as [[]|e]; [done|]. cbn [existsb]. by rewrite Hr. }
    by rewrite (pbind_step _ _ _ _ _ Hx), (pbind_step _ _ _ _ _ H2).
  - pose proof (ck_cost (W := W) (clk := clk)). exists (last_health st), w. split_and!; [done|done|lia|lia].
Qed.

Section rounds.
Variables (base : list (Z * string)) (first : Z * string).

Definition loop_inv (st : Loop) (w : W) : Prop :=
  exists l t s, notes w = base ++ l ++ [(t, s)] /\ head (l ++ [(t, s)]) = Some first /\ fed gap (l ++ [(t, s)]) /\ clk w - t <= gap /\
    (last_watchdog st = t \/ sec 15 <= clk w - last_watchdog st).

Lemma pinged st w : loop_inv st w ->
  exists lw w', ping (clk w) st w = Some (Ok lw, w') /\ clk w' = clk w /\
    exists l s, notes w' = base ++ l ++ [(lw, s)] /\ head (l ++ [(lw, s)]) = Some first /\ fed gap (l ++ [(lw, s)]) /\ clk w - lw < sec 15.
Proof.
  intros (l & t & s & Hn & Hh & Hf & Hg & Hw). unfold ping. destruct (Z.leb_spec (sec 15) (clk w - last_watchdog st)).
  - destruct (ck_notify "WATCHDOG=1" w) as (w1 & H1 & Hc1 & Hn1). exists (clk w), w1.
    rewrite (pbind_step _ _ _ _ _ H1). split_and!; [done|done|].
    exists (l ++ [(t, s)]), "WATCHDOG=1". split_and!; [|by destruct l|rewrite <- app_assoc; by apply fed_snoc|unfold sec; lia].
    by rewrite Hn1, Hn, <- !app_assoc.
  - destruct Hw as [<-|?]; [|lia]. exists (last_watchdog st), w. split_and!; [done|done|].
    exists l, s. split_and!; [done|done|done|lia].
Qed.

Lemma rounds_decrease w w' : clk w < stop_at -> clk w <= clk w' ->
  (clk w + sec 1 <= clk w' \/ stop_at <= clk w') -> (rounds_left w' < rounds_left w)%nat.
Proof.
  unfold rounds_left. intros Hs Hle Hp. set (d := stop_at - clk w). set (d' := stop_at - clk w').
  assert (Hd : 1 <= (d + sec 1 - 1) / sec 1) by (apply Z.div_le_lower_bound; unfold d, sec; lia).
  assert (Hd' : (d' + sec 1 - 1) / sec 1 <= (d + sec 1 - 1) / sec 1 - 1 \/ (d' + sec 1 - 1) / sec 1 <= 0).
  { destruct Hp as [Hp|Hp]; [left|right].
    - replace (d + sec 1 - 1) with ((d - sec 1 + sec 1 - 1) + 1 * sec 1) by lia.
      rewrite Z.div_add by done. enough ((d' + sec 1 - 1) / sec 1 <= (d - sec 1 + sec 1 - 1) / sec 1) by lia.
      apply Z.div_le_mono; unfold d, d', sec in *; lia.
    - apply Z.lt_succ_r, Z.div_lt_upper_bound; unfold d', sec in *; lia. }
  lia.
Qed.

Lemma daemon_round_total st n :
  total (fun w => loop_inv st w /\ rounds_left w = n) (daemon_round health_interval_s sysroot st)
    (fun r w => match r with
     | Ok (inl st') => loop_inv st' w /\ (rounds_left w < n)%nat
     | Ok (inr _) => (exists st, loop_inv st w) /\ stop_at <= clk w
     | Err e => False
     end).
Proof.
  intros w [Hinv <-]. unfold daemon_round. rewrite (pbind_step _ _ _ _ _ (ck_is_set w)).
  case_bool_decide as Hstop; [exists (Ok (inr tt)), w; split; [done|split; [by exists st|done]]|].
  rewrite (pbind_step _ _ _ _ _ (ck_time w)).
  destruct (pinged st w Hinv) as (lw & w1 & H1 & Hc1 & l & s & Hn1 & Hh & Hf & Hlt).
  rewrite (pbind_step _ _ _ _ _ H1).
  destruct (collected (clk w) st w1) as (lh & w2 & H2 & Hn2 & Hc2). rewrite (pbind_step _ _ _ _ _ H2).
  destruct (ck_wait w2) as (w3 & H3 & Hn3 & Hc3 & Hprog). rewrite (pbind_step _ _ _ _ _ H3).
  eexists _, w3. split; [reflexivity|]. split.
  - exists l, lw, s. rewrite Hn3, Hn2. split_and!; [done|done|done|unfold gap, sec in *; lia|by left].
  - apply rounds_decrease; lia.
Qed.

End rounds.

(** C14: The health daemon keeps its watchdog fed and stops when it is told to.
    Whatever the health interval and however its readings end, when a snapshot
    takes at most [cost] the daemon sends READY at once, then notifies so that no
    two notifications are more than 16 s plus [cost] apart, nor the last one and
    the end of the daemon; and it returns, in as many rounds as the seconds until
    the event is set.  A snapshot under 14 s therefore never lets the 30 s of the
    unit file run out. *)
Theorem watchdog_kept_fed fuel w (Hfuel : (rounds_left w < fuel)%nat) :
  exists l t s w',
    run_daemon fuel health_interval_s sysroot w = Some (Ok tt, w') /\
    notes w' = notes w ++ (clk w, "READY=1") :: l /\
    list.last ((clk w, "READY=1") :: l) = Some (t, s) /\
    fed gap ((clk w, "READY=1") :: l) /\ clk w' - t <= gap /\ stop_at <= clk w' /\
    (cost < sec 14 -> forall bin user home ul,
       gap < sec (Unit.watchdog_sec (Unit.health_args bin user home (VInt health_interval_s) ul))).
Proof.
  destruct (ck_notify "READY=1" w) as (w0 & H0 & Hc0 & Hn0).
  destruct (total_loop (loop_inv (notes w) (clk w, "READY=1")) (fun _ => rounds_left) (daemon_round health_interval_s sysroot)
    (fun r w' => r = Ok tt /\ (exists st, loop_inv (notes w) (clk w, "READY=1") st w') /\ stop_at <= clk w')
    fuel (daemon_init health_interval_s)) with (w := w0)
    as (r & w' & Hrun & -> & (st & l & t & s & Hn & Hh & Hf & Hg & _) & Hstop).
  { intros st n. eapply total_conseq; [apply (daemon_round_total (notes w) (clk w, "READY=1") st n)|done|].
    intros [[st'|[]]|e] w2; naive_solver. }
  { split; [|unfold rounds_left in *; by rewrite Hc0]. exists [], (clk w), "READY=1".
    split_and!; [done|done|apply fed_single| |]; pose proof (ck_start (clk := clk) w);
      pose proof (ck_cost (W := W) (clk := clk)); unfold gap, daemon_init, sec; cbn; lia. }
  destruct (l ++ [(t, s)]) as [|x l'] eqn:El; [by destruct l|]. cbn in Hh. injection Hh as ->.
  exists l', t, s, w'. split_and!; [|done| |done|done|done|].
  - unfold run_daemon. by rewrite (pbind_step _ _ _ _ _ H0).
  - by rewrite <- El, last_snoc.
  - intros Hc bin user home ul. unfold gap, Unit.health_args, Unit.unit_args, sec in *. cbn. lia.
Qed.
End watchdog.

(** A bare machine with a clock, told to stop after 40 seconds. *)
Definition demo_clock : Type := Z * list (Z * string).

Definition clock_sys : Sys demo_clock := {|
  y_is_file _ w := Some (Ok false, w);
  y_read p w := Some (raise_ FileNotFoundError [L p], w);
  y_glob _ w := Some (Ok [], w);
  y_run _ _ w := Some (raise_ FileNotFoundError [], w);
  y_statvfs _ w := Some (raise_ FileNotFoundError [], w);
  y_now w := Some (Ok "", w)
|}.

Definition clock_daemon : DaemonHost demo_clock := {|
  d_time w := Some (Ok (Z.abs w.1), w);
  d_is_set w := Some (Ok (bool_decide (sec 40 <= Z.abs w.1)), w);
  d_wait d w := Some (Ok tt, (Z.abs w.1 + d, w.2));
  d_notify s w := Some (Ok tt, (w.1, w.2 ++ [(Z.abs w.1, s)]));
  d_sync w := Some (Ok tt, w)
|}.

Lemma clock_clocked :
  @Clocked demo_clock clock_sys clock_daemon (fun w => Z.abs w.1) (fun w => w.2) (sec 40) 0.
Proof.
  constructor; cbn; try (intros; lia); try done; intros.
  - by eexists.
  - eexists. split_and!; [reflexivity|done|unfold sec; cbn; lia..|left; unfold sec; cbn; lia].
  - eexists (Ok tt), w, w. split_and!; [reflexivity|done..|lia|lia].
Qed.

Lemma watchdog_kept_fed_witness :
  exists l w', @run_daemon _ clock_sys clock_daemon 41 60 "/" (0, []) = Some (Ok tt, w') /\
    w'.2 = (0, "READY=1") :: l /\ fed (sec 16) ((0, "READY=1") :: l).
Proof.
  destruct (@watchdog_kept_fed _ clock_sys clock_daemon _ _ (sec 40) 0 clock_clocked 60 "/" 41 (0, []))
    as (l & t & s & w' & H1 & H2 & _ & H3 & _); [apply Nat.ltb_lt; vm_compute; reflexivity|].
  exists l, w'. split_and!; [exact H1|exact H2|exact H3].
Defined.
