(* ===== verification/Ssh.v ===== *)
(** * The SSH transport (transport/ssh.py)

    The client that runs commands on the rover and copies files to and from it,
    over the [ssh] and [scp] binaries.  Subprocesses and the environment are the
    interface [SshHost]; what the remote side does is theirs. *)

From stdpp Require Import base gmap list strings option.
From Stdlib Require Import Ascii ZArith Lia.
From S2P Require Import Prelude Float64 PyVal Files Config.
From S2P Require Import Units.
Local Open Scope Z_scope.

Abbreviation Environ := (list (string * string)).

Class SshHost (W : Type) := {
  x_which : string -> prog exn W (option string);
  x_environ : prog exn W Environ;
  (** [subprocess.run(argv, capture_output=True, text=True, timeout, env)], the
      timeout an [int] or a [float]: the
      return code, stdout and stderr *)
  x_run : list string -> option PyVal -> Environ -> prog exn W (Z * string * string);
  (** [Popen] with both outputs piped: start it; the next line of its stdout,
      [None] when it is closed; [wait(timeout)]; [kill]; what the draining thread
      has read of its stderr when it was joined *)
  x_popen : list string -> Environ -> prog exn W unit;
  x_readline : prog exn W (option string);
  x_wait : option PyVal -> prog exn W Z;
  x_kill : prog exn W unit;
  x_stderr : prog exn W string
}.

Module Ssh.
Record SshResult : Type := { argv : list string; returncode : Z; stdout : string; stderr : string }.
Definition ok (r : SshResult) : bool := returncode r =? 0.

Definition HOST_KEY_POLICIES : list string := ["accept-new"; "yes"; "no"].

Record JetsonClient : Type := {
  endpoint : LaptopConfig.JetsonEndpoint;
  correlation_id : option string;
  strict_host_keys : string;
  connect_timeout_s : Z;
  _ssh : option string;
  _scp : option string }.

Definition ssh_err {A} (m : FStr) : res exn A := raise_ SshError m.

Section argv.
Variable client : JetsonClient.

Definition _common_opts : list string :=
  ["-o"; Unit.fill ["StrictHostKeyChecking="; strict_host_keys client];
   "-o"; Unit.fill ["ConnectTimeout="; Num.str_of_Z (connect_timeout_s client)];
   "-o"; "BatchMode=yes"; "-o"; "PasswordAuthentication=no"] ++
  match LaptopConfig.key_path (endpoint client) with Some k => ["-i"; k] | None => [] end.

Definition port_str : string := py_str (LaptopConfig.port (endpoint client)).
Definition target : string :=
  Unit.fill [LaptopConfig.user (endpoint client); "@"; LaptopConfig.host (endpoint client)].

Definition build_ssh_argv (remote_argv : list string) : res exn (list string) :=
  match _ssh client with
  | None => ssh_err [L "`ssh` binary not found on PATH; install the OpenSSH client";
                     L " (Windows: Add Optional Feature → OpenSSH Client)."]
  | Some ssh => Ok ([ssh] ++ _common_opts ++ ["-p"; port_str] ++ [target] ++ remote_argv)
  end.

Definition scp_argv (files : list string) : res exn (list string) :=
  match _scp client with
  | None => ssh_err [L "`scp` binary not found on PATH; install the OpenSSH client."]
  | Some scp => Ok ([scp] ++ _common_opts ++ ["-P"; port_str] ++ files)
  end.

Definition build_scp_pull_argv (remote_path local_path : string) : res exn (list string) :=
  scp_argv [Unit.fill [target; ":"; remote_path]; local_path].
Definition build_scp_push_argv (local_path remote_path : string) : res exn (list string) :=
  scp_argv [local_path; Unit.fill [target; ":"; remote_path]].
End argv.

Fixpoint redact_l (skip_next : bool) (argv : list string) : list string :=
  match argv with
  | [] => []
  | a :: rest =>
      if skip_next then "***" :: redact_l false rest
      else if bool_decide (a ∈ ["--password"; "-P-PASSWORD"]) then a :: redact_l true rest
      else a :: redact_l false rest
  end.
Definition _redact (argv : list string) : list string := redact_l false argv.

Section client.
Context {W : Type} `{!SshHost W}.

(** [x or shutil.which(name)] *)
Definition binary (given : option string) (name : string) : prog exn W (option string) :=
  match given with
  | Some s => if bool_decide (s = "") then x_which name else mret (Some s)
  | None => x_which name
  end.

Definition make_client (endpoint : LaptopConfig.JetsonEndpoint) (correlation_id : option string)
    (strict_host_keys : string) (connect_timeout_s : Z) (ssh_binary scp_binary : option string)
  : prog exn W JetsonClient :=
  if bool_decide (strict_host_keys ∈ HOST_KEY_POLICIES) then
    ssh ← binary ssh_binary "ssh";
    scp ← binary scp_binary "scp";
    mret {| endpoint := endpoint; correlation_id := correlation_id; strict_host_keys := strict_host_keys;
            connect_timeout_s := connect_timeout_s; _ssh := ssh; _scp := scp |}
  else plift (raise_ ValueError [L "strict_host_keys must be one of ('accept-new', 'yes', 'no'), got ";
                                 VF (VStr strict_host_keys) "r"]).

Variable client : JetsonClient.

Definition _build_env (extra_env : Environ) : prog exn W Environ :=
  env ← x_environ;
  let env := match correlation_id client with
             | Some c => if bool_decide (c = "") then env else od_set env "MOWER_CORRELATION_ID" c
             | None => env
             end in
  mret (od_update env extra_env).

Definition timeout_str (timeout : option PyVal) : Piece :=
  match timeout with Some t => V t | None => L "None" end.

Definition run (remote_argv : list string) (check : bool) (timeout : option PyVal) (extra_env : Environ)
  : prog exn W SshResult :=
  argv ← plift (build_ssh_argv client remote_argv);
  env ← _build_env extra_env;
  '(rc, out, err) ← pexcept [TimeoutExpired]
    (pexcept [FileNotFoundError] (x_run argv timeout env)
       (fun exc => plift (ssh_err (L "ssh binary disappeared: " :: exn_msg exc))))
    (fun _ => plift (ssh_err [L "ssh timed out after "; timeout_str timeout; L "s: ";
                              L (S.join " " remote_argv)]));
  let result := {| argv := argv; returncode := rc; stdout := out; stderr := err |} in
  if check && negb (ok result)
  then plift (ssh_err [L "remote command failed (exit "; V (VInt rc); L "): "; L (S.strip err)])
  else mret result.

(** One line of the loop, [lines] those read so far. *)
Definition line_round (on_line : string -> prog exn W unit) (lines : list string)
  : prog exn W (list string + list string) :=
  l ← x_readline;
  match l with
  | None => mret (inr lines)
  | Some raw_line =>
      let line := S.rstrip_chr (ascii_of_N 10) raw_line in
      _ ← on_line line;
      mret (inl (lines ++ [line]))
  end.
Definition read_lines (fuel : nat) (on_line : string -> prog exn W unit) : prog exn W (list string) :=
  ploop fuel (line_round on_line) [].

Definition run_streaming (fuel : nat) (remote_argv : list string) (timeout : option PyVal)
    (on_line : string -> prog exn W unit) (extra_env : Environ) : prog exn W SshResult :=
  built ← plift (build_ssh_argv client remote_argv);
  let argv := match built with
              | ssh :: rest => ssh :: "-o" :: "ServerAliveInterval=30" :: rest
              | [] => ["-o"; "ServerAliveInterval=30"]
              end in
  env ← _build_env extra_env;
  _ ← pexcept [FileNotFoundError] (x_popen argv env)
        (fun exc => plift (ssh_err (L "ssh binary disappeared: " :: exn_msg exc)));
  lines ← read_lines fuel on_line;
  rc ← pexcept [TimeoutExpired] (x_wait timeout)
    (fun _ => _ ← x_kill; _ ← x_wait None; _ ← x_stderr;
       plift (ssh_err [L "ssh streaming timed out after "; timeout_str timeout; L "s: ";
                       L (S.join " " remote_argv)]));
  err ← x_stderr;
  mret {| argv := argv; returncode := rc; stdout := S.join Unit.nl lines; stderr := err |}.

(** The common end of [pull] and [push]. *)
Definition copy (what shown : string) (argv : res exn (list string)) (timeout : option PyVal)
  : prog exn W SshResult :=
  argv ← plift argv;
  env ← _build_env [];
  '(rc, out, err) ← pexcept [TimeoutExpired] (x_run argv timeout env)
    (fun _ => plift (ssh_err [L "scp "; L what; L " timed out after "; timeout_str timeout; L "s: "; L shown]));
  let result := {| argv := argv; returncode := rc; stdout := out; stderr := err |} in
  if ok result then mret result
  else plift (ssh_err [L "scp "; L what; L " failed (exit "; V (VInt rc); L "): "; L (S.strip err)]).

Definition pull (remote_path local_path : string) (timeout : option PyVal) : prog exn W SshResult :=
  copy "pull" remote_path (build_scp_pull_argv client remote_path local_path) timeout.
Definition push (local_path remote_path : string) (timeout : option PyVal) : prog exn W SshResult :=
  copy "push" local_path (build_scp_push_argv client local_path remote_path) timeout.
End client.
End Ssh.

(** ** What a command on the rover is, and how it can end *)
Definition option_given (o : string) (opts : list string) : Prop :=
  exists before after, opts = before ++ ["-o"; o] ++ after.

(** The command line of a client: key authentication only, a host-key policy of
    the accepted ones, and the remote command after the target. *)
Definition command_line (client : Ssh.JetsonClient) (remote_argv argv : list string) : Prop :=
  exists ssh opts, Ssh._ssh client = Some ssh /\
    argv = ssh :: opts ++ Ssh.target client :: remote_argv /\
    option_given "BatchMode=yes" opts /\ option_given "PasswordAuthentication=no" opts /\
    exists policy, In policy Ssh.HOST_KEY_POLICIES /\
      option_given (Unit.fill ["StrictHostKeyChecking="; policy]) opts.

(** Processes end, in a result or in any exception of [subprocess.run], and
    [os.environ] is read. *)
Class Runs (W : Type) `{!SshHost W} : Prop := {
  run_returns argv timeout env w : exists r w', x_run argv timeout env w = Some (r, w');
  environ_read w : exists env, x_environ w = Some (Ok env, w)
}.

(** A laptop whose clients may be executed and whose commands print text of the
    locale's encoding: of what [subprocess.run] raises, the missing binary and
    the timeout remain. *)
Class Spawns (W : Type) `{!SshHost W} : Prop := {
  spawns_runs :: Runs W;
  spawn_ends argv timeout env w e w' : x_run argv timeout env w = Some (Err e, w') ->
    exn_class e = FileNotFoundError \/ exn_class e = TimeoutExpired
}.

(** Whether [run] turns an exception of its process into [SshError]. *)
Definition translated (e : exn) : bool :=
  subclass (exn_class e) FileNotFoundError || subclass (exn_class e) TimeoutExpired.

Section facts.
Context {W : Type} `{!SshHost W} `{!Runs W}.

Lemma made_policy ep cid strict ct sb cb (client : Ssh.JetsonClient) w w1 :
  Ssh.make_client ep cid strict ct sb cb w = Some (Ok client, w1) ->
  In (Ssh.strict_host_keys client) Ssh.HOST_KEY_POLICIES.
Proof.
  unfold Ssh.make_client. case_bool_decide as Hin; [|done]. intros H.
  apply pbind_ok_inv in H as (ssh & w2 & _ & H). apply pbind_ok_inv in H as (scp & w3 & _ & H).
  injection H as <- <-. by apply list_elem_of_In.
Qed.

Lemma given_here o a b : option_given o (a ++ ["-o"; o] ++ b).
Proof. by exists a, b. Qed.

Lemma built_line client remote argv :
  In (Ssh.strict_host_keys client) Ssh.HOST_KEY_POLICIES ->
  Ssh.build_ssh_argv client remote = Ok argv -> command_line client remote argv.
Proof.
  intros Hp. unfold Ssh.build_ssh_argv. destruct (Ssh._ssh client) as [ssh|] eqn:Es; [|done].
  intros [= <-]. exists ssh, (Ssh._common_opts client ++ ["-p"; Ssh.port_str client]).
  unfold Ssh._common_opts. repeat split.
  - done.
  - cbn. by rewrite <- !app_assoc.
  - apply (given_here "BatchMode=yes" [_; _; _; _]).
  - apply (given_here "PasswordAuthentication=no" [_; _; _; _; _; _]).
  - eexists. split; [exact Hp|]. apply (given_here _ []).
Qed.

Lemma build_env_read client extra w : exists env, Ssh._build_env client extra w = Some (Ok env, w).
Proof.
  unfold Ssh._build_env. destruct (environ_read w) as (env & He).
  rewrite (pbind_step _ _ _ _ _ He). eexists. reflexivity.
Qed.

(** How [run] can end, for any client. *)
Lemma run_ends client remote check timeout extra w :
  exists r w', Ssh.run client remote check timeout extra w = Some (r, w') /\
    match Ssh.build_ssh_argv client remote with
    | Err _ => w' = w /\ exists e, r = Err e /\ exn_class e = SshError
    | Ok argv => exists env out, x_run argv timeout env w = Some (out, w') /\
        match out, r with
        | Ok (rc, so, se), Ok res =>
            res = {| Ssh.argv := argv; Ssh.returncode := rc; Ssh.stdout := so; Ssh.stderr := se |} /\
            (check = true -> rc = 0)
        | Ok (rc, _, _), Err e => exn_class e = SshError /\ check = true /\ rc <> 0
        | Err x, Err e => if translated x then exn_class e = SshError else e = x
        | Err _, Ok _ => False
        end
    end.
Proof.
  unfold Ssh.run. destruct (Ssh.build_ssh_argv client remote) as [argv|e] eqn:Eb.
  2: { exists (Err e), w. split; [done|]. unfold Ssh.build_ssh_argv in Eb.
       destruct (Ssh._ssh client); [done|]. split; [done|]. exists e. split; [done|]. by injection Eb as <-. }
  rewrite (pbind_step (plift (Ok argv)) _ w argv w eq_refl).
  destruct (build_env_read client extra w) as (env & He). rewrite (pbind_step _ _ _ _ _ He).
  destruct (run_returns argv timeout env w) as (r & w' & Hr).
  unfold pexcept, pcatch, mbind, prog_bind. rewrite Hr. destruct r as [[[rc so] se]|x].
  - destruct (check && negb (rc =? 0)) eqn:Ec; cbn; unfold Ssh.ok; cbn; rewrite Ec; do 2 eexists;
      (split; [done|]); exists env, (Ok (rc, so, se)); repeat split; try done.
    + apply andb_prop in Ec as [Hk _]. exact Hk.
    + intros ->. by rewrite andb_comm in Ec.
    + intros ->. cbn in Ec. by destruct (Z.eqb_spec rc 0).
  - unfold caught_by. cbn [existsb]. rewrite !orb_false_r.
    destruct (subclass (exn_class x) FileNotFoundError) eqn:Hf.
    { do 2 eexists. split; [reflexivity|]. exists env. eexists. split; [done|]. cbn. unfold translated. by rewrite Hf. }
    cbn beta iota delta [praise].
    destruct (subclass (exn_class x) TimeoutExpired) eqn:Ht; (do 2 eexists; split; [reflexivity|]; exists env; eexists;
      split; [done|]; cbn; unfold translated; by rewrite Hf, Ht).
Qed.

(** C32: A command that a client of [make_client] runs on the rover starts one local process, whose command line is the client's (key authentication only, never a password prompt, a host-key policy of the accepted three, the remote arguments last); the outcome is that process's result, or [SshError] when the binary has disappeared, the timeout expired, or, with [check], the exit code is not 0; any other exception of the process (a binary that may not be executed, output that does not decode) escapes as it is; with no ssh binary it is [SshError] and nothing runs. *)
Theorem run_is_one_command ep cid strict ct sb cb client w0 w1 remote check timeout extra w :
  Ssh.make_client ep cid strict ct sb cb w0 = Some (Ok client, w1) ->
  exists r w', Ssh.run client remote check timeout extra w = Some (r, w') /\
    match Ssh._ssh client with
    | None => w' = w /\ exists e, r = Err e /\ exn_class e = SshError
    | Some _ => exists argv env out, command_line client remote argv /\
        x_run argv timeout env w = Some (out, w') /\
        match out, r with
        | Ok (rc, so, se), Ok res =>
            res = {| Ssh.argv := argv; Ssh.returncode := rc; Ssh.stdout := so; Ssh.stderr := se |} /\
            (check = true -> rc = 0)
        | Ok (rc, _, _), Err e => exn_class e = SshError /\ check = true /\ rc <> 0
        | Err x, Err e => if translated x then exn_class e = SshError else e = x
        | Err _, Ok _ => False
        end
    end.
Proof.
  intros Hc. apply made_policy in Hc.
  destruct (run_ends client remote check timeout extra w) as (r & w' & Hr & Hend). exists r, w'. split; [done|].
  destruct (Ssh.build_ssh_argv client remote) as [argv|e] eqn:Eb.
  - pose proof (built_line _ _ _ Hc Eb) as Hl. destruct Hend as (env & out & Hx & Ho).
    destruct (Ssh._ssh client) eqn:Es; [by exists argv, env, out|]. destruct Hl as (s & _ & Hs & _). congruence.
  - unfold Ssh.build_ssh_argv in Eb. by destruct (Ssh._ssh client).
Qed.

(** A binary that may not be executed, and output that does not decode, escape
    [run] as they are, past every [except SshError] of its callers. *)
Lemma other_failures_escape client remote argv check timeout extra env w e w' :
  Ssh.build_ssh_argv client remote = Ok argv -> Ssh._build_env client extra w = Some (Ok env, w) ->
  x_run argv timeout env w = Some (Err e, w') ->
  exn_class e = OSError \/ exn_class e = UnicodeError ->
  Ssh.run client remote check timeout extra w = Some (Err e, w').
Proof.
  intros Hb He Hr Hc. unfold Ssh.run. rewrite Hb, (pbind_step (plift (Ok argv)) _ w argv w eq_refl).
  rewrite (pbind_step _ _ _ _ _ He). apply pbind_err. unfold pexcept, pcatch. rewrite Hr.
  destruct e as [k m c]. cbn in Hc. by destruct Hc as [->| ->].
Qed.

(** A missing [scp] binary found by [make_client] is not reported as [SshError]. *)
Lemma copy_missing_binary client what shown argv timeout w e w' env :
  Ssh._build_env client [] w = Some (Ok env, w) ->
  x_run argv timeout env w = Some (Err e, w') -> exn_class e = FileNotFoundError ->
  Ssh.copy client what shown (Ok argv) timeout w = Some (Err e, w').
Proof.
  intros He Hr Hc. unfold Ssh.copy. rewrite (pbind_step (plift (Ok argv)) _ w argv w eq_refl).
  rewrite (pbind_step _ _ _ _ _ He). apply pbind_err. unfold pexcept, pcatch. rewrite Hr.
  destruct e as [k m c]. cbn in Hc. by subst.
Qed.

(** The stream reader returns, with the lines stripped, once the output closes. *)
Lemma read_lines_all (on_line : string -> prog exn W unit) (st : list string -> W -> Prop) :
  (forall w, st [] w -> exists w', x_readline w = Some (Ok None, w') /\ st [] w') ->
  (forall l ls w, st (l :: ls) w -> exists w1 w2, x_readline w = Some (Ok (Some l), w1) /\
     on_line (S.rstrip_chr (ascii_of_N 10) l) w1 = Some (Ok tt, w2) /\ st ls w2) ->
  forall ls acc w fuel, st ls w -> (length ls < fuel)%nat ->
  exists w', ploop fuel (Ssh.line_round on_line) acc w = Some (Ok (acc ++ map (S.rstrip_chr (ascii_of_N 10)) ls), w') /\ st [] w'.
Proof.
  intros Hn Hs ls. induction ls as [|l ls IH]; intros acc w [|fuel] Hst Hf; cbn in Hf; try lia; cbn [ploop].
  - destruct (Hn _ Hst) as (w' & H1 & H2). exists w'. unfold Ssh.line_round, mbind, prog_bind. rewrite H1. cbn.
    by rewrite app_nil_r.
  - destruct (Hs _ _ _ Hst) as (w1 & w2 & H1 & H2 & H3).
    destruct (IH (acc ++ [S.rstrip_chr (ascii_of_N 10) l]) w2 fuel H3 ltac:(lia)) as (w' & H4 & H5).
    exists w'. rewrite <- app_assoc in H4. unfold Ssh.line_round, mbind, prog_bind in *. rewrite H1. cbn beta iota zeta. rewrite H2. cbn beta iota zeta delta [mret prog_ret].
    by rewrite H4.
Qed.
End facts.

(** Where only those two exceptions are raised, a command ends in its result or in
    [SshError]. *)
Lemma run_ends_ssh {W} `{!SshHost W} `{!Spawns W} client remote check timeout extra (w : W) :
  exists r w', Ssh.run client remote check timeout extra w = Some (r, w') /\
    match Ssh.build_ssh_argv client remote with
    | Err _ => w' = w /\ exists e, r = Err e /\ exn_class e = SshError
    | Ok argv => exists env out, x_run argv timeout env w = Some (out, w') /\
        match out, r with
        | Ok (rc, so, se), Ok res =>
            res = {| Ssh.argv := argv; Ssh.returncode := rc; Ssh.stdout := so; Ssh.stderr := se |} /\
            (check = true -> rc = 0)
        | Ok (rc, _, _), Err e => exn_class e = SshError /\ check = true /\ rc <> 0
        | Err _, Err e => exn_class e = SshError
        | Err _, Ok _ => False
        end
    end.
Proof.
  destruct (run_ends client remote check timeout extra w) as (r & w' & Hr & Hend). exists r, w'. split; [done|].
  destruct (Ssh.build_ssh_argv _ _) as [argv|]; [|done]. destruct Hend as (env & out & Hx & Ho). exists env, out.
  split; [done|]. destruct out as [[[rc so] se]|x], r as [res|e]; try done.
  assert (translated x = true) as Ht; [|by rewrite Ht in Ho].
  unfold translated. by destruct (spawn_ends _ _ _ _ _ _ Hx) as [->| ->].
Qed.

(** A host on which every command answers with its argument count. *)
Definition demo_ssh : SshHost (list (list string)) := {|
  x_which name w := Some (Ok (Some (Unit.fill ["/usr/bin/"; name])), w);
  x_environ w := Some (Ok [("PATH", "/usr/bin")], w);
  x_run argv _ _ w := Some (Ok (Z.of_nat (length argv), "", "no such unit"), w ++ [argv]);
  x_popen argv _ w := Some (Ok tt, w ++ [argv]);
  x_readline w := Some (Ok None, w);
  x_wait _ w := Some (Ok 0, w);
  x_kill w := Some (Ok tt, w);
  x_stderr w := Some (Ok "", w)
|}.

Definition demo_endpoint : LaptopConfig.JetsonEndpoint :=
  {| LaptopConfig.host := "10.0.0.7"; LaptopConfig.user := "rover"; LaptopConfig.port := VInt 22;
     LaptopConfig.key_path := Some "/home/me/.ssh/id_ed25519" |}.

#[local] Existing Instance demo_ssh.
#[local] Instance demo_spawns : Spawns (list (list string)).
Proof. split; [split; intros; [by do 2 eexists|by eexists]|done]. Defined.

Lemma run_is_one_command_witness :
  exists client, Ssh.make_client demo_endpoint (Some "c1") "accept-new" 10 None None [] = Some (Ok client, []) /\
  exists r w', Ssh.run client ["uptime"] true None [] [] = Some (r, w') /\ exists e, r = Err e /\ exn_class e = SshError.
Proof.
  pose (c := {| Ssh.endpoint := demo_endpoint; Ssh.correlation_id := Some "c1"; Ssh.strict_host_keys := "accept-new";
                Ssh.connect_timeout_s := 10; Ssh._ssh := Some "/usr/bin/ssh"; Ssh._scp := Some "/usr/bin/scp" |}).
  assert (Hm : Ssh.make_client demo_endpoint (Some "c1") "accept-new" 10 None None ([] : list (list string)) = Some (Ok c, []))
    by (vm_compute; reflexivity).
  exists c. split; [exact Hm|].
  destruct (run_is_one_command _ _ _ _ _ _ _ _ _ ["uptime"] true None [] [] Hm)
    as (r & w' & H & argv & env & out & Hl & Hr & Ho).
  exists r, w'. split; [exact H|]. cbn in Hr. injection Hr as <- _.
  destruct r as [res|e]; [exfalso; destruct Ho as [_ Ho]; specialize (Ho eq_refl) | exists e; split; [done|apply Ho]].
  destruct Hl as (s & opts & _ & -> & _). cbn in Ho. lia.
Defined.
