(* ===== verification/Remote.v ===== *)
(** * The laptop's commands on the rover (cli/jetson_remote.py)

    Which rover a command talks to, and the four plain commands: run, pull, info
    and clear-host-key.  What they print is not modelled, their exit codes are. *)

From stdpp Require Import base gmap list strings option.
From Stdlib Require Import ZArith Lia.
From S2P Require Import Prelude Float64 PyVal Safety Files Config.
From S2P Require Import Units Ssh.
Local Open Scope Z_scope.

Class LaptopHost (W : Type) := {
  (** [subprocess.run(argv, cwd, capture_output=True, text=True, timeout)] on the
      laptop *)
  l_run : list string -> option string -> Z -> prog exn W (Z * string * string)
}.

(** [ctx.obj] of the root command. *)
Record Obj : Type := { obj_dry_run : bool; obj_correlation_id : option string }.

Module JetsonRemote.
(** [a or b] of optional strings. *)
Definition or_str (a b : option string) : option string :=
  match a with Some "" | None => b | _ => a end.

(** The options [--host], [--user], [--port], [--key], [--config] and
    [--strict-host-keys]. *)
Record Flags : Type := {
  fl_host : option string; fl_user : option string; fl_port : option Z; fl_key : option string;
  fl_config : option string; fl_strict : string }.

Section merge.
Variable expanduser : string -> string.

Definition merged_port (flag : option Z) (env_port : option string) (cfg : option LaptopConfig.JetsonEndpoint)
  : res exn PyVal :=
  match flag with
  | Some p => Ok (VInt p)
  | None =>
      match or_str env_port None with
      | Some s => n ← py_int (VStr s); Ok (VInt n)
      | None => Ok (match cfg with Some e => LaptopConfig.port e | None => VInt 22 end)
      end
  end.

Definition merged_key (flag env_key : option string) (cfg : option LaptopConfig.JetsonEndpoint) : option string :=
  match flag with
  | Some k => Some k
  | None =>
      match or_str env_key None with
      | Some k => Some (expanduser k)
      | None => e ← cfg; LaptopConfig.key_path e
      end
  end.

Definition merge (fl : Flags) (env : Environ) (cfg : option LaptopConfig.JetsonEndpoint)
  : res exn LaptopConfig.JetsonEndpoint :=
  let host := or_str (fl_host fl) (or_str (od_get env "MOWER_JETSON_HOST") (LaptopConfig.host <$> cfg)) in
  let user := or_str (fl_user fl) (or_str (od_get env "MOWER_JETSON_USER") (LaptopConfig.user <$> cfg)) in
  match host, user with
  | Some h, Some u =>
      p ← merged_port (fl_port fl) (od_get env "MOWER_JETSON_PORT") cfg;
      Ok {| LaptopConfig.host := h; LaptopConfig.user := u; LaptopConfig.port := p;
            LaptopConfig.key_path := merged_key (fl_key fl) (od_get env "MOWER_JETSON_KEY") cfg |}
  | _, _ => exit_ 2
  end.

Context {W : Type} `{!FileStore W} `{!SshHost W} `{!LaptopHost W} `{!Terminal W}.
Variable yaml_safe_load : string -> res exn PyVal.
Variable json_loads : string -> res exn PyVal.
Variable DEFAULT_LAPTOP_CONFIG_PATH : string.

Definition resolve_endpoint (fl : Flags) : prog exn W LaptopConfig.JetsonEndpoint :=
  env ← x_environ;
  cfg ← pexcept [LaptopConfigError]
    (LaptopConfig.load_laptop_config expanduser yaml_safe_load DEFAULT_LAPTOP_CONFIG_PATH (fl_config fl))
    (fun _ => plift (exit_ 2));
  plift (merge fl env (LaptopConfig.jetson cfg)).

Definition client_for (obj : Obj) (endpoint : LaptopConfig.JetsonEndpoint) (strict_host_keys : string)
  : prog exn W Ssh.JetsonClient :=
  Ssh.make_client endpoint (obj_correlation_id obj) strict_host_keys 10 None None.

(** [except SshError: raise typer.Exit(code=3)] *)
Definition or_exit_3 {A} (m : prog exn W A) : prog exn W A :=
  pexcept [SshError] m (fun _ => plift (exit_ 3)).

Definition connect (obj : Obj) (fl : Flags) : prog exn W Ssh.JetsonClient :=
  endpoint ← resolve_endpoint fl; client_for obj endpoint (fl_strict fl).

Definition run_command (obj : Obj) (fl : Flags) (timeout : PyVal) (remote_argv : list string) : prog exn W unit :=
  match remote_argv with
  | [] => plift (exit_ 2)
  | _ =>
      client ← connect obj fl;
      _ ← or_exit_3 (plift (Ssh.build_ssh_argv client remote_argv));
      if obj_dry_run obj then mret tt
      else
        result ← or_exit_3 (Ssh.run client remote_argv false (Some timeout) []);
        plift (exit_ (Ssh.returncode result))
  end.

Definition _confirm_overwrite (ctx : SafetyContext W) : prog exn W unit :=
  Install.gated "Overwrite local file with the remote copy" "_confirm_overwrite" ctx (mret tt).

Definition pull_command (obj : Obj) (fl : Flags) (yes : bool) (timeout : PyVal) (remote local : string)
  : prog exn W unit :=
  client ← connect obj fl;
  _ ← or_exit_3 (plift (Ssh.build_scp_pull_argv client remote local));
  if obj_dry_run obj then mret tt
  else
    exists_ ← f_exists local;
    _ ← (if (exists_ : bool) then
           pexcept [ConfirmationAborted]
             (_confirm_overwrite {| dry_run := false; assume_yes := yes; safe_stop_hooks := [] |})
             (fun _ => plift (exit_ 1))
         else mret tt);
    _ ← or_exit_3 (Ssh.pull client remote local (Some timeout));
    mret tt.

(** What [info] reads of the document: [get] for each of nine keys, then an
    iteration over the warnings. *)
Definition read_info (data : PyVal) : res exn unit :=
  match data with
  | VDict d =>
      let warnings := dget_or d "warnings" VNone in
      if py_bool warnings then
        match warnings with
        | VList _ | VDict _ | VStr _ => Ok tt
        | v => raise_ TypeError [L "'"; L (type_name v); L "' object is not iterable"]
        end
      else Ok tt
  | v => raise_ AttributeError [L "'"; L (type_name v); L "' object has no attribute 'get'"]
  end.

Definition info_command (obj : Obj) (fl : Flags) (raw : bool) : prog exn W unit :=
  client ← connect obj fl;
  let remote_argv := ["mower-jetson"; "info"; "--json"] in
  if obj_dry_run obj then _ ← plift (Ssh.build_ssh_argv client remote_argv); mret tt
  else
    result ← or_exit_3 (Ssh.run client remote_argv true (Some (VFloat (F.of_Z 30))) []);
    if raw then mret tt
    else
      data ← pexcept [JSONDecodeError] (plift (json_loads (Ssh.stdout result))) (fun _ => plift (exit_ 3));
      plift (read_info data).

(** [ssh-keygen -R host] on the laptop, exit code 3 when it does not work. *)
Definition remove_host_key (host : string) : prog exn W unit :=
  '(rc, _, _) ← pexcept [FileNotFoundError; TimeoutExpired] (l_run ["ssh-keygen"; "-R"; host] None 30)
                  (fun _ => plift (exit_ 3));
  if rc =? 0 then mret tt else plift (exit_ 3).

Definition clear_host_key_command (fl : Flags) : prog exn W unit :=
  endpoint ← resolve_endpoint fl; remove_host_key (LaptopConfig.host endpoint).
End merge.
End JetsonRemote.

(** ** Precedence: flags, then the environment, then the YAML file *)
Lemma or_str_first a b s : a = Some s -> s <> "" -> JetsonRemote.or_str a b = Some s.
Proof. intros -> Hs. by destruct s. Qed.

Definition given (a : option string) : Prop := exists s, a = Some s /\ s <> "".

Lemma or_str_skip a b : ~ given a -> JetsonRemote.or_str a b = b.
Proof. intros H. destruct a as [[|c s]|]; try done. exfalso. apply H. by eexists. Qed.

Lemma given_dec a : {given a} + {~ given a}.
Proof.
  destruct a as [[|c s]|]; [right|left|right]; [by intros (? & [= <-] & ?)|by eexists|by intros (? & ? & ?)].
Qed.

(** The flag if there is one, else the variable, else the file's value. *)
Definition first_given (a b c : option string) : option string :=
  if given_dec a then a else if given_dec b then b else c.

Lemma or_str_chain a b c : JetsonRemote.or_str a (JetsonRemote.or_str b c) = first_given a b c.
Proof.
  unfold first_given. destruct (given_dec a) as [(s & -> & Hs)|Ha]; [by apply or_str_first|].
  rewrite (or_str_skip _ _ Ha). destruct (given_dec b) as [(s & -> & Hs)|Hb]; [by apply or_str_first|].
  by apply or_str_skip.
Qed.

Lemma merge_precedence expanduser fl env cfg e :
  JetsonRemote.merge expanduser fl env cfg = Ok e ->
  Some (LaptopConfig.host e) =
    first_given (JetsonRemote.fl_host fl) (od_get env "MOWER_JETSON_HOST") (LaptopConfig.host <$> cfg) /\
  Some (LaptopConfig.user e) =
    first_given (JetsonRemote.fl_user fl) (od_get env "MOWER_JETSON_USER") (LaptopConfig.user <$> cfg) /\
  (forall p, JetsonRemote.fl_port fl = Some p -> LaptopConfig.port e = VInt p) /\
  (forall k, JetsonRemote.fl_key fl = Some k -> LaptopConfig.key_path e = Some k).
Proof.
  unfold JetsonRemote.merge. rewrite !or_str_chain.
  destruct (first_given _ _ _) as [h|]; [|done]. destruct (first_given _ _ _) as [u|]; [|done].
  intros H. apply rbind_ok in H as (p & Hp & [= <-]). cbn. repeat split.
  - intros q Hq. rewrite Hq in Hp. by injection Hp as <-.
  - intros k Hk. by rewrite Hk.
Qed.

(** ** A local file is not overwritten unasked *)
Lemma pull_declined {W} `{!FileStore W} `{!SshHost W} `{!Terminal W} expanduser yaml dflt obj fl t remote local
    (w w1 w2 w3 : W) client argv line :
  JetsonRemote.connect expanduser yaml dflt obj fl w = Some (Ok client, w1) ->
  Ssh.build_scp_pull_argv client remote local = Ok argv ->
  obj_dry_run obj = false ->
  f_exists local w1 = Some (Ok true, w2) ->
  t_input [L "Overwrite local file with the remote copy"; L " [y/N]: "] w2 = Some (Ok line, w3) ->
  S.lower (S.strip line) ∉ ["y"; "yes"] ->
  JetsonRemote.pull_command expanduser yaml dflt obj fl false t remote local w = Some (exit_ 1, w3).
Proof.
  intros Hc Hb Hd He Ht Hl. unfold JetsonRemote.pull_command. rewrite (pbind_step _ _ _ _ _ Hc), Hb.
  rewrite (pbind_step _ _ w1 argv w1 eq_refl), Hd, (pbind_step _ _ _ _ _ He).
  apply pbind_err. unfold pexcept, pcatch, JetsonRemote._confirm_overwrite, Install.gated,
    requires_confirmation, find_ctx, _prompt, pexcept, pcatch, mbind, prog_bind. cbn.
  by rewrite Ht, bool_decide_eq_false_2 by exact Hl.
Qed.
