(* ===== verification/Logging.v ===== *)
(** * Logging and the root commands (logging_setup/setup.py, the [_root] callbacks)

    Where an invocation logs, under which correlation identifier, and how the
    identifier is meant to travel from the laptop to the rover.  The logging
    libraries are the interface [LogHost]. *)

From stdpp Require Import base gmap list strings option.
From Stdlib Require Import ZArith Lia.
From S2P Require Import Prelude Float64 PyVal Files Config.
From S2P Require Import Units ParamsCli Ssh Remote.
Local Open Scope Z_scope.

Class LogHost (W : Type) := {
  (** [sys.platform == "win32"], [Path.home()] *)
  lg_windows : bool;
  lg_home : string;
  (** [uuid.uuid4().hex] *)
  lg_uuid_hex : prog exn W string;
  (** [RotatingFileHandler(log_file, ...)], which opens the file *)
  lg_open : string -> prog exn W unit;
  (** the handlers of the root logger, the console's level ([setLevel] raises when
      it knows none of that name), and the processors *)
  lg_handlers : string -> prog exn W unit;
  lg_configure : prog exn W unit;
  (** [bind_contextvars(correlation_id=cid)] *)
  lg_bind : string -> prog exn W unit;
  (** [get_logger(name).info("cli_invoked", ...)] *)
  lg_invoked : string -> bool -> string -> option string -> prog exn W unit
}.

Module Logging.
(** [if base], of an environment variable. *)
Definition nonempty (v : option string) : option string :=
  match v with Some "" => None | _ => v end.

Definition _default_log_dir (windows : bool) (home : string) (environ : Environ) : string :=
  let root :=
    if windows then
      match nonempty (od_get environ "LOCALAPPDATA") with
      | Some base => path_of base
      | None => join_path (join_path home "AppData") "Local"
      end
    else
      match nonempty (od_get environ "XDG_DATA_HOME") with
      | Some xdg => path_of xdg
      | None => join_path (join_path home ".local") "share"
      end in
  join_path (join_path root "mower-rover") "logs".

Definition log_name (stamp cid : string) : string := Unit.fill ["mower-"; stamp; "-"; cid; ".jsonl"].

Section logging.
Context {W : Type} `{!FileStore W} `{!SshHost W} `{!Calendar W} `{!LogHost W}.

Definition fresh_cid : prog exn W string := hex ← lg_uuid_hex; mret (S.ofl (take 12 (S.chars hex))).

Definition configure_logging (correlation_id log_dir : option string) (console_level : string)
  : prog exn W (string * string) :=
  cid ← match nonempty correlation_id with Some c => mret c | None => fresh_cid end;
  target_dir ← match log_dir with
               | Some d => mret d
               | None => environ ← x_environ; mret (_default_log_dir lg_windows lg_home environ)
               end;
  _ ← f_mkdir target_dir;
  stamp ← k_stamp;
  let log_file := join_path target_dir (log_name stamp cid) in
  _ ← lg_open log_file;
  _ ← lg_handlers (S.upper console_level);
  _ ← lg_configure;
  _ ← lg_bind cid;
  mret (cid, log_file).

(** What [ctx.obj] holds after the root command of either program. *)
Record RootObj : Type := { r_dry_run : bool; r_correlation_id : string; r_log_file : string }.
Definition obj_of (r : RootObj) : Obj :=
  {| obj_dry_run := r_dry_run r; obj_correlation_id := Some (r_correlation_id r) |}.

Definition level_of (verbose : bool) : string := if verbose then "DEBUG" else "INFO".

Definition laptop_root (dry_run verbose : bool) : prog exn W RootObj :=
  '(cid, log_file) ← configure_logging None None (level_of verbose);
  _ ← lg_invoked "cli" dry_run log_file None;
  mret {| r_dry_run := dry_run; r_correlation_id := cid; r_log_file := log_file |}.

Definition jetson_root (dry_run verbose : bool) : prog exn W RootObj :=
  environ ← x_environ;
  let inherited := nonempty (od_get environ "MOWER_CORRELATION_ID") in
  '(cid, log_file) ← configure_logging inherited None (level_of verbose);
  _ ← lg_invoked "cli-jetson" dry_run log_file inherited;
  mret {| r_dry_run := dry_run; r_correlation_id := cid; r_log_file := log_file |}.
End logging.
End Logging.
Export Logging.

(** ** The identifier of an invocation *)

(** The options with which OpenSSH forwards a variable. *)
Definition forwards (arg : string) : bool :=
  existsb (fun o => S.startswith arg o) ["SendEnv"; "SetEnv"; "-oSendEnv"; "-oSetEnv"].

Section identifier.
Context {W : Type} `{!FileStore W} `{!SshHost W} `{!Calendar W} `{!LogHost W}.

(** The rover's program logs under the identifier it inherits, in a file of that
    name: no other identifier is made. *)
Lemma jetson_root_inherits dry_run verbose w environ c r w' :
  x_environ w = Some (Ok environ, w) ->
  od_get environ "MOWER_CORRELATION_ID" = Some c -> c <> "" ->
  jetson_root dry_run verbose w = Some (Ok r, w') ->
  r_correlation_id r = c /\
  exists stamp, r_log_file r =
    join_path (_default_log_dir lg_windows lg_home environ) (log_name stamp c).
Proof.
  intros He Hc Hn. unfold jetson_root. rewrite (pbind_step _ _ _ _ _ He), Hc.
  replace (nonempty (Some c)) with (Some c) by (by destruct c).
  unfold configure_logging. replace (nonempty (Some c)) with (Some c) by (by destruct c).
  intros Hr. unfold mbind, prog_bind, mret, prog_ret in Hr. rewrite He in Hr.
  repeat case_match; simplify_eq/=. eauto.
Qed.

(** Without the variable it makes one of its own, the laptop's notwithstanding. *)
Lemma jetson_root_fresh dry_run verbose w environ hex w1 r w' :
  x_environ w = Some (Ok environ, w) -> nonempty (od_get environ "MOWER_CORRELATION_ID") = None ->
  lg_uuid_hex w = Some (Ok hex, w1) ->
  jetson_root dry_run verbose w = Some (Ok r, w') ->
  r_correlation_id r = S.ofl (take 12 (S.chars hex)).
Proof.
  intros He Hc Hu. unfold jetson_root. rewrite (pbind_step _ _ _ _ _ He), Hc. unfold configure_logging, fresh_cid.
  unfold mbind, prog_bind, mret, prog_ret. cbn [nonempty]. rewrite Hu.
  intros Hr. repeat case_match; simplify_eq/=. reflexivity.
Qed.

(** No option [ssh] is given forwards a variable: the one [_build_env] sets stays
    on the laptop. *)
Lemma ssh_forwards_nothing (client : Ssh.JetsonClient) remote av :
  forwards (Ssh.port_str client) = false ->
  (forall k, LaptopConfig.key_path (Ssh.endpoint client) = Some k -> forwards k = false) ->
  Ssh.build_ssh_argv client remote = Ok av ->
  exists ssh opts, av = ssh :: opts ++ Ssh.target client :: remote /\ Forall (fun a => forwards a = false) opts.
Proof.
  intros Hp Hk. unfold Ssh.build_ssh_argv. case_match; [|done]. intros [= <-].
  eexists _, (Ssh._common_opts client ++ ["-p"; Ssh.port_str client]). split; [by rewrite <- app_assoc|].
  apply list.Forall_app. split; [|by repeat constructor].
  unfold Ssh._common_opts. apply list.Forall_app. split; [by repeat constructor|].
  destruct (LaptopConfig.key_path _) as [k|]; [|constructor]. repeat constructor; auto.
Qed.
End identifier.
