(* ===== verification/BringupSteps.v ===== *)
(** * The steps of the bringup (cli/bringup.py)

    For each step of the provisioning of the rover: the check that tells whether
    it is already satisfied, and its execution, as the commands they run on the
    rover and on the laptop.  Progress messages are not modelled; a table row that
    cannot be shown, and a message that cannot be joined, raise as they do. *)

From stdpp Require Import base gmap list strings option.
From Stdlib Require Import Ascii ZArith Lia.
From S2P Require Import Prelude Float64 PyVal Link Safety Files Config.
From S2P Require Import Units Probe Ssh Remote.
Local Open Scope Z_scope.

Class BringupHost (W : Type) := {
  (** [Path(__file__).resolve().parent] and [Path.home()] *)
  b_here : string;
  b_home : string;
  b_is_dir : string -> prog exn W bool;
  b_is_file : string -> prog exn W bool;
  (** the names [dir.glob(pattern)] yields, and the paths [dir.rglob("*")] yields,
      relative to [dir] *)
  b_glob : string -> string -> prog exn W (list string);
  b_rglob : string -> prog exn W (list string);
  b_mkdtemp : prog exn W string;
  b_rmdir : string -> prog exn W unit;
  (** the end of a [TemporaryDirectory] *)
  b_rmtree : string -> prog exn W unit;
  (** the path [importlib.resources.as_file] gives a packaged file *)
  b_resource : string -> string -> prog exn W string;
  (** [datetime.date.today().isoformat()] *)
  b_today : prog exn W string;
  (** clocks and [sleep], in nanoseconds *)
  b_monotonic : prog exn W Z;
  b_time : prog exn W Z;
  b_sleep : Z -> prog exn W unit;
  (** [format(value, spec)] *)
  b_format : PyVal -> string -> string
}.

Module Steps.
Definition STEP_NAMES : list string :=
  ["clear-host-key"; "check-ssh"; "enable-linger"; "harden-os"; "reboot-and-wait"; "restore-binaries";
   "install-build-deps"; "build-rtabmap"; "build-depthai"; "build-slam-node"; "build-kiosk-renderer";
   "archive-binaries"; "pixhawk-udev"; "install-uv"; "install-cli"; "verify"; "vslam-config"; "service";
   "vslam-db-check"; "install-mavproxy"; "vslam-services"; "pixhawk-sync"; "kiosk-services"; "kiosk-probe";
   "final-verify"].

Definition _DEFERRED_CHECKS : list string :=
  ["health_service"; "vslam_process"; "vslam_bridge"; "vslam_socket_active"; "vslam_pose_rate"; "vslam_params";
   "oakd_vslam_config"; "vslam_confidence"; "oakd"; "usbcore_quirks"; "waveshare_hub"; "oakd_udev_rule";
   "oakd_usb_autosuspend"; "oakd_usbfs_memory"; "kiosk_weston_active"; "kiosk_data_active";
   "kiosk_renderer_active"; "kiosk_active"; "mavproxy_active"].

Definition _HW_DEPENDENT : list string :=
  ["health_service"; "vslam_process"; "vslam_bridge"; "vslam_socket_active"; "vslam_pose_rate"; "vslam_params";
   "oakd_vslam_config"; "vslam_confidence"; "oakd"; "waveshare_hub"].

(** [console] is only written to. *)
Record BringupContext : Type := {
  project_root : string;
  dry_run : bool;
  yes : bool;
  correlation_id : option string;
  parallel_builds : bool }.

Definition RTABMAP_VERSION : string := "0.21.6-rolling".
Definition DEPTHAI_VERSION : string := "v3.5.0".
Definition SLAM_NODE_VERSION : string := "1.0.0".
Definition VERSION_MARKER_DIR : string := "/usr/local/share/mower-build".
Definition KIOSK_RENDERER_VERSION : string := "1.0.0".

Definition _BUILD_APT_PACKAGES : list string :=
  ["cmake"; "build-essential"; "git"; "ccache"; "jq"; "libopencv-dev"; "libsqlite3-dev"; "libpcl-dev";
   "libboost-all-dev"; "libeigen3-dev"; "libsuitesparse-dev"; "libusb-1.0-0-dev"; "libsystemd-dev";
   "libyaml-cpp-dev"; "sqlite3"; "libgirepository1.0-dev"; "libcairo2-dev"; "gir1.2-gtk-4.0";
   "libwayland-dev"; "libxkbcommon-dev"].

(** A script, its lines each ended by a newline.  In the source's string literals a
    backslash at the end of a line joins it with the next. *)
Definition script_of (lines : list string) : string := S.join "" (map (fun l => Unit.fill [l; Unit.nl]) lines).

Definition host_key_problem (text : string) : bool :=
  let t := S.lower text in
  S.contains "remote host identification has changed" t || S.contains "host key verification failed" t.

(** The lines that record the version of a component on the rover. *)
Definition marker_lines (component version : string) : list string :=
  [Unit.fill ["mkdir -p "; VERSION_MARKER_DIR];
   Unit.fill ["printf '{"; Unit.dq; "component"; Unit.dq; ":"; Unit.dq; component; Unit.dq; ","; Unit.dq;
              "version"; Unit.dq; ":"; Unit.dq; version; Unit.dq; ","; Unit.dq; "built"; Unit.dq; ":";
              Unit.dq; "%s"; Unit.dq; "}\n'     "; Unit.dq; "$(date -u +%Y-%m-%dT%H:%M:%SZ)"; Unit.dq;
              "     | tee "; VERSION_MARKER_DIR; "/"; component; ".json"]].

Definition rtabmap_script (jobs : string) : string :=
  let tag := RTABMAP_VERSION in
  script_of (["#!/usr/bin/env bash"; "set -euo pipefail"; ""; "export CCACHE_DIR=/var/lib/mower/ccache"; "";
    "if [ -d /opt/rtabmap-src/.git ]; then";
    Unit.fill ["    cd /opt/rtabmap-src && git checkout "; tag; " 2>/dev/null || true"];
    "else";
    "    rm -rf /opt/rtabmap-src";
    Unit.fill ["    git clone --depth 1 --branch "; tag;
               "         https://github.com/introlab/rtabmap.git /opt/rtabmap-src"];
    "fi"; ""; "mkdir -p /opt/rtabmap-src/build"; "cd /opt/rtabmap-src/build"; "";
    Unit.fill ["cmake ..     -DCMAKE_BUILD_TYPE=Release     -DCMAKE_INSTALL_PREFIX=/usr/local";
               "     -DCMAKE_CXX_COMPILER_LAUNCHER=ccache     -DCMAKE_C_COMPILER_LAUNCHER=ccache";
               "     -DCMAKE_CUDA_COMPILER_LAUNCHER=ccache";
               "     -DWITH_CUDA=ON -DWITH_QT=OFF -DWITH_PYTHON=OFF -DBUILD_EXAMPLES=OFF"];
    ""; Unit.fill ["make -j"; jobs]; "make install"; "ldconfig"; ""] ++ marker_lines "rtabmap" tag).

Definition depthai_script (jobs : string) : string :=
  let tag := DEPTHAI_VERSION in
  script_of (["#!/usr/bin/env bash"; "set -euo pipefail"; ""; "export CCACHE_DIR=/var/lib/mower/ccache"; "";
    "if [ -d /opt/depthai-core-src/.git ]; then";
    Unit.fill ["    echo "; Unit.dq; "Re-using existing source"; Unit.dq];
    "else";
    "    rm -rf /opt/depthai-core-src";
    Unit.fill ["    git clone --depth 1 --branch "; tag; " --recursive";
               "         https://github.com/luxonis/depthai-core.git /opt/depthai-core-src"];
    "fi"; ""; "mkdir -p /opt/depthai-core-src/build"; "cd /opt/depthai-core-src/build"; "";
    Unit.fill ["cmake ..     -DCMAKE_BUILD_TYPE=Release     -DCMAKE_INSTALL_PREFIX=/usr/local";
               "     -DCMAKE_CXX_COMPILER_LAUNCHER=ccache     -DCMAKE_C_COMPILER_LAUNCHER=ccache";
               "     -DBUILD_SHARED_LIBS=ON"];
    ""; Unit.fill ["make -j"; jobs]; "make install"; "ldconfig"; ""] ++ marker_lines "depthai" tag).

Definition slam_node_script : string :=
  script_of (["#!/usr/bin/env bash"; "set -euo pipefail"; ""; "mkdir -p /tmp/rtabmap_slam_node/build";
    "cd /tmp/rtabmap_slam_node/build"; "";
    Unit.fill ["cmake .. -DCMAKE_BUILD_TYPE=Release     -DCMAKE_INSTALL_PREFIX=/usr/local";
               "     -DCMAKE_PREFIX_PATH=/usr/local/lib/rtabmap-0.21"];
    "make -j$(nproc)"; "make install"; ""] ++ marker_lines "slam_node" SLAM_NODE_VERSION).

Definition kiosk_renderer_script : string :=
  script_of (["#!/usr/bin/env bash"; "set -euo pipefail"; ""; "cd /tmp/lvgl_kiosk";
    "cmake -B build -DCMAKE_BUILD_TYPE=Release -DCMAKE_INSTALL_PREFIX=/usr/local";
    "cmake --build build -j$(nproc)"; "sudo cmake --install build"; ""] ++
    marker_lines "kiosk_renderer" KIOSK_RENDERER_VERSION).

(** ** What the two verify steps read of a probe's report *)
Definition is_str (s : string) (v : PyVal) : bool := match v with VStr t => bool_decide (t = s) | _ => false end.

(** A cell of a [rich] table: a string or nothing. *)
Definition cell (v : PyVal) : res exn unit :=
  match v with VStr _ | VNone => Ok tt | _ => raise_ (LibraryError "NotRenderableError") [] end.

Definition hashable (v : PyVal) : res exn unit := _ ← in_strings v []; Ok tt.

(** One row of the table, and the name of the check when it failed critically. *)
Definition report_row (c : PyVal) : res exn (option PyVal) :=
  status ← Probe.get_attr c "status" (VStr "?");
  _ ← hashable status;
  name ← Probe.get_attr c "name" (VStr "?");
  severity ← Probe.get_attr c "severity" (VStr "?");
  detail ← Probe.get_attr c "detail" (VStr "");
  _ ← cell name; _ ← cell severity; _ ← cell detail;
  Ok (if is_str "fail" status && is_str "critical" severity then Some name else None).

Definition critical_name (c : PyVal) : res exn (option PyVal) :=
  status ← Probe.get_attr c "status" VNone;
  severity ← Probe.get_attr c "severity" VNone;
  name ← Probe.get_attr c "name" (VStr "?");
  Ok (if is_str "fail" status && is_str "critical" severity then Some name else None).

Definition named (names : list (option PyVal)) : list PyVal := omap (fun n => n) names.
Definition critical_of (checks : PyVal) : res exn (list PyVal) :=
  items ← Probe.iter_value checks;
  names ← rmap critical_name items;
  Ok (named names).

(** [[f for f in fails if f in names]] (or [not in]). *)
Definition members (want : bool) (names : list string) (fails : list PyVal) : res exn (list PyVal) :=
  marked ← rmap (fun f => b ← in_strings f names; Ok (f, b)) fails;
  Ok (map fst (List.filter (fun fb => bool_decide (fb.2 = want)) marked)).

(** [', '.join(fails)] *)
Definition joinable (fails : list PyVal) : res exn unit :=
  match List.filter (fun v => match v with VStr _ => false | _ => true end) fails with
  | [] => Ok tt
  | v :: _ => raise_ TypeError [L "sequence item: expected str instance, "; L (type_name v); L " found"]
  end.

(** Exit code 1 when a failure is left that nothing excuses. *)
Definition report_outcome (excused : list string) (fails : list PyVal) : res exn unit :=
  blocking ← members false excused fails;
  _ ← members true excused fails;
  match blocking with
  | [] => Ok tt
  | _ => _ ← joinable blocking; exit_ 1
  end.

(** ** The steps *)
Section steps.
Context {W : Type} `{!FileStore W} `{!SshHost W} `{!LaptopHost W} `{!Terminal W} `{!BringupHost W}.
Variable json_loads : string -> res exn PyVal.
Variable yaml_safe_load : string -> res exn PyVal.
(** [yaml.dump(data, default_flow_style=False)] *)
Variable yaml_dump : PyVal -> string.
(** Fuel of the loops: lines of a build's output, rounds of a poll. *)
Variable fuel : nat.
Variable client : Ssh.JetsonClient.

Definition _BACKUP_DIR : string :=
  join_path (join_path (join_path (join_path b_home ".local") "share") "mower") "backups".

(** [str(exc)] *)
Definition exn_text (e : exn) : string :=
  S.join "" (map (fun p => match p with L s => s | V v => py_str v | VF v f => b_format v f end) (exn_msg e)).

(** [client.run(argv, timeout=t)] *)
Definition run (argv : list string) (t : Z) : prog exn W Ssh.SshResult :=
  Ssh.run client argv false (Some (VInt t)) [].
Definition push (local remote : string) : prog exn W Ssh.SshResult :=
  Ssh.push client local remote (Some (VFloat (F.of_Z 600))).
Definition pull (remote local : string) : prog exn W Ssh.SshResult :=
  Ssh.pull client remote local (Some (VFloat (F.of_Z 600))).

(** [with contextlib.suppress(SshError): client.run(argv, timeout=t)] *)
Definition quietly (argv : list string) (t : Z) : prog exn W unit :=
  pexcept [SshError] (_ ← run argv t; mret tt) (fun _ => mret tt).
(** [try: ... except SshError: return b] *)
Definition or_return {A} (a : A) (m : prog exn W A) : prog exn W A := pexcept [SshError] m (fun _ => mret a).
Definition or_exit {A} (m : prog exn W A) : prog exn W A := JetsonRemote.or_exit_3 m.
(** [if not result.ok: raise typer.Exit(code=3)] *)
Definition must (r : Ssh.SshResult) : prog exn W unit := if Ssh.ok r then mret tt else plift (exit_ 3).
(** A command whose failure, of either kind, is exit code 3. *)
Definition run_or_exit (argv : list string) (t : Z) : prog exn W unit := r ← or_exit (run argv t); must r.
Definition push_or_exit (local remote : string) : prog exn W unit := _ ← or_exit (push local remote); mret tt.

Definition _find_project_root : prog exn W string :=
  ploop fuel (fun current =>
    e ← f_exists (join_path current "pyproject.toml");
    if (e : bool) then mret (inr current)
    else let parent := parent_of current in
         if bool_decide (parent = current) then plift (exit_ 3) else mret (inl parent)) b_here.

Definition _confirm_or_skip (action : string) (bctx : BringupContext) : prog exn W bool :=
  if yes bctx then mret true
  else
    pexcept [EOFError]
      (line ← t_input [L action; L " [y/N]: "];
       mret (bool_decide (S.lower (S.strip line) ∈ ["y"; "yes"])))
      (fun _ => mret false).

(** [if not _confirm_or_skip(...): return] *)
Definition confirmed (action : string) (bctx : BringupContext) (body : prog exn W unit) : prog exn W unit :=
  accepted ← _confirm_or_skip action bctx; if (accepted : bool) then body else mret tt.

Definition _clear_host_key_needed : prog exn W bool :=
  pexcept [SshError]
    (result ← run ["echo"; "ok"] 30;
     mret (if Ssh.ok result then true else negb (host_key_problem (Ssh.stderr result))))
    (fun exc => mret (negb (host_key_problem (exn_text exc)))).
Definition _run_clear_host_key (bctx : BringupContext) : prog exn W unit :=
  JetsonRemote.remove_host_key (LaptopConfig.host (Ssh.endpoint client)).

Definition _check_ssh_ok : prog exn W bool :=
  or_return false (result ← run ["echo"; "ok"] 30; mret (Ssh.ok result && S.contains "ok" (Ssh.stdout result))).
Definition _run_check_ssh (bctx : BringupContext) : prog exn W unit := plift (exit_ 3).

Definition jetson_user : string := LaptopConfig.user (Ssh.endpoint client).

Definition _linger_enabled : prog exn W bool :=
  or_return false
    (result ← run ["loginctl"; "show-user"; jetson_user; "-p"; "Linger"; "--value"] 15;
     mret (Ssh.ok result && bool_decide (S.lower (S.strip (Ssh.stdout result)) = "yes"))).
Definition _run_enable_linger (bctx : BringupContext) : prog exn W unit :=
  run_or_exit ["sudo"; "loginctl"; "enable-linger"; jetson_user] 30.

Definition _harden_done : prog exn W bool :=
  or_return false
    (r1 ← run ["test"; "-f"; "/etc/ssh/sshd_config.d/90-mower-hardening.conf"] 10;
     r2 ← run ["systemctl"; "get-default"] 10;
     mret (Ssh.ok r1 && bool_decide (S.strip (Ssh.stdout r2) = "multi-user.target"))).
Definition _run_harden (bctx : BringupContext) : prog exn W unit :=
  confirmed "Apply field-hardening script to the Jetson?" bctx
    (let script := join_path (join_path (project_root bctx) "scripts") "jetson-harden.sh" in
     e ← f_exists script;
     if negb e then plift (exit_ 3)
     else
       _ ← push_or_exit script "~/jetson-harden.sh";
       _ ← run_or_exit ["sudo"; "bash"; "~/jetson-harden.sh"; "--os-only"] 300;
       quietly ["rm"; "-f"; "~/jetson-harden.sh"] 10).

(** ** Reboots *)
Definition _reboot_check : prog exn W bool :=
  or_return false
    (result ← run ["cat"; "/proc/cmdline"] 30;
     mret (Ssh.ok result && S.contains "usbcore.autosuspend=-1" (Ssh.stdout result))).

(** One round of the wait for the rover: sleep, then try a command. *)
Definition reconnect_round (deadline : Z) (_ : unit) : prog exn W (unit + bool) :=
  now ← b_monotonic;
  if now <? deadline then
    _ ← b_sleep (sec 10);
    back ← or_return false (result ← run ["echo"; "ok"] 15; mret (Ssh.ok result));
    mret (if (back : bool) then inr true else inl tt)
  else mret (inr false).
Definition reboot_and_reconnect : prog exn W unit :=
  _ ← quietly ["sudo"; "reboot"] 10;
  now ← b_monotonic;
  connected ← ploop fuel (reconnect_round (now + sec 180)) tt;
  if (connected : bool) then mret tt else plift (exit_ 3).

Definition _run_reboot_and_wait (bctx : BringupContext) : prog exn W unit :=
  _ ← reboot_and_reconnect;
  result ← or_exit (run ["cat"; "/proc/cmdline"] 15);
  if S.contains "usbcore.autosuspend=-1" (Ssh.stdout result) then mret tt else plift (exit_ 3).

(** ** Binaries *)
(** The parsed marker; [VNone] stands for [None]. *)
Definition _read_version_marker (component : string) : prog exn W PyVal :=
  let path := Unit.fill [VERSION_MARKER_DIR; "/"; component; ".json"] in
  pexcept [SshError; JSONDecodeError; ValueError]
    (result ← run ["cat"; path] 15;
     if Ssh.ok result && bool_decide (S.strip (Ssh.stdout result) <> "")
     then plift (json_loads (Ssh.stdout result)) else mret VNone)
    (fun _ => mret VNone).

(** [marker is not None and marker.get("version") == version] *)
Definition marker_is (marker : PyVal) (version : string) : res exn bool :=
  match marker with
  | VNone => Ok false
  | _ => v ← Probe.get_attr marker "version" VNone; Ok (is_str version v)
  end.

Definition _restore_binaries_check : prog exn W bool :=
  rtabmap ← _read_version_marker "rtabmap";
  depthai ← _read_version_marker "depthai";
  slam ← _read_version_marker "slam_node";
  plift (b1 ← marker_is rtabmap RTABMAP_VERSION;
         if negb b1 then Ok false
         else b2 ← marker_is depthai DEPTHAI_VERSION;
              if negb b2 then Ok false else marker_is slam SLAM_NODE_VERSION).
Definition _run_restore_binaries (bctx : BringupContext) : prog exn W unit :=
  d ← b_is_dir _BACKUP_DIR;
  if negb d then mret tt
  else
    names ← b_glob _BACKUP_DIR "mower-binaries-*.tar.gz";
    match rev (S.sorted names) with
    | [] => mret tt
    | name :: _ =>
        _ ← push_or_exit (join_path _BACKUP_DIR name) (Unit.fill ["~/"; name]);
        _ ← run_or_exit [Unit.fill ["sudo tar -xzf ~/"; name; " -C / && sudo ldconfig"]] 300;
        quietly [Unit.fill ["rm -f ~/"; name]] 10
    end.

Definition _build_deps_check : prog exn W bool :=
  or_return false (r ← run (["dpkg"; "-s"] ++ _BUILD_APT_PACKAGES) 15; mret (Ssh.ok r)).
Definition _run_install_build_deps (bctx : BringupContext) : prog exn W unit :=
  let pkg_str := S.join " " _BUILD_APT_PACKAGES in
  _ ← run_or_exit ["sudo"; "bash"; "-c";
        Unit.fill ["apt-get update -qq && apt-get install -y --no-install-recommends "; pkg_str]] 300;
  quietly ["sudo"; "bash"; "-c";
           "mkdir -p /var/lib/mower/ccache && CCACHE_DIR=/var/lib/mower/ccache ccache -M 5G"] 15.

(** Push a script and run it; the temporary files go whatever happens. *)
Definition _push_and_run_build (script_name script_content : string) (timeout : Z) : prog exn W unit :=
  let remote_path := Unit.fill ["/tmp/"; script_name] in
  tmp_dir ← b_mkdtemp;
  let local_tmp := join_path tmp_dir script_name in
  _ ← pfinally (_ ← f_write local_tmp script_content; push local_tmp remote_path)
               (_ ← f_unlink local_tmp; b_rmdir tmp_dir);
  result ← pfinally
    (or_exit (Ssh.run_streaming client fuel ["sudo"; "bash"; remote_path] (Some (VInt timeout))
                (fun _ => mret tt) []))
    (quietly ["rm"; "-f"; remote_path] 10);
  must result.

Definition marker_check (component version : string) : prog exn W bool :=
  marker ← _read_version_marker component; plift (marker_is marker version).

Definition _build_rtabmap_check : prog exn W bool := marker_check "rtabmap" RTABMAP_VERSION.
Definition _run_build_rtabmap (jobs : string) (bctx : BringupContext) : prog exn W unit :=
  _push_and_run_build "mower-build-rtabmap.sh" (rtabmap_script jobs) 3600.
Definition _build_depthai_check : prog exn W bool := marker_check "depthai" DEPTHAI_VERSION.
Definition _run_build_depthai (jobs : string) (bctx : BringupContext) : prog exn W unit :=
  _push_and_run_build "mower-build-depthai.sh" (depthai_script jobs) 3600.

Definition remote_ok (argv : list string) (t : Z) : prog exn W bool :=
  or_return false (r ← run argv t; mret (Ssh.ok r)).

Definition _build_slam_node_check : prog exn W bool :=
  there ← remote_ok ["test"; "-f"; "/usr/local/bin/rtabmap_slam_node"] 10;
  if negb there then mret false else marker_check "slam_node" SLAM_NODE_VERSION.

(** The files below [contrib_dir], pushed one by one below [remote_dir]. *)
Definition push_tree (contrib_dir remote_dir : string) : prog exn W unit :=
  files ← b_rglob contrib_dir;
  piter (fun rel =>
    let f := join_path contrib_dir rel in
    is_file ← b_is_file f;
    if (is_file : bool) then
      let remote := Unit.fill [remote_dir; "/"; rel] in
      let remote_parent := S.replace "\" "/" (parent_of remote) in
      _ ← quietly [Unit.fill ["mkdir -p "; remote_parent]] 10;
      push_or_exit f remote
    else mret tt) files.

Definition _run_build_slam_node (bctx : BringupContext) : prog exn W unit :=
  let contrib_dir := join_path (join_path (project_root bctx) "contrib") "rtabmap_slam_node" in
  d ← b_is_dir contrib_dir;
  if negb d then plift (exit_ 3)
  else
    _ ← quietly ["mkdir"; "-p"; "/tmp/rtabmap_slam_node"] 10;
    _ ← push_tree contrib_dir "/tmp/rtabmap_slam_node";
    _ ← _push_and_run_build "mower-build-slam-node.sh" slam_node_script 600;
    quietly ["rm"; "-rf"; "/tmp/rtabmap_slam_node"] 10.

Definition _build_kiosk_renderer_check : prog exn W bool :=
  remote_ok ["test"; "-f"; "/usr/local/bin/mower-kiosk-renderer"] 10.
Definition _run_build_kiosk_renderer (bctx : BringupContext) : prog exn W unit :=
  let contrib_dir := join_path (join_path (project_root bctx) "contrib") "lvgl_kiosk" in
  d ← b_is_dir contrib_dir;
  if negb d then plift (exit_ 3)
  else
    _ ← quietly ["rm"; "-rf"; "/tmp/lvgl_kiosk"] 10;
    _ ← quietly ["mkdir"; "-p"; "/tmp/lvgl_kiosk"] 10;
    _ ← push_tree contrib_dir "/tmp/lvgl_kiosk";
    _ ← _push_and_run_build "mower-build-kiosk-renderer.sh" kiosk_renderer_script 300;
    quietly ["rm"; "-rf"; "/tmp/lvgl_kiosk"] 10.

Definition archive_name (today : string) : string := Unit.fill ["mower-binaries-"; today; ".tar.gz"].
Definition _archive_binaries_check : prog exn W bool :=
  today ← b_today; b_is_file (join_path _BACKUP_DIR (archive_name today)).
Definition tar_cmd (remote_archive : string) : string :=
  Unit.fill ["tar -czf "; remote_archive; " /usr/local/lib/librtabmap*"; " /usr/local/lib/libdepthai*";
             " /usr/local/bin/rtabmap*"; " /usr/local/bin/rtabmap_slam_node";
             " /usr/local/bin/mower-kiosk-renderer"; " "; VERSION_MARKER_DIR; "/"; " 2>/dev/null || true"].
(** Every failure of the archiving is non-fatal. *)
Definition _run_archive_binaries (bctx : BringupContext) : prog exn W unit :=
  today ← b_today;
  let remote_archive := Unit.fill ["/tmp/"; archive_name today] in
  archived ← remote_ok [tar_cmd remote_archive] 120;
  if negb archived then mret tt
  else
    _ ← f_mkdir _BACKUP_DIR;
    pulled ← or_return false (_ ← pull remote_archive (join_path _BACKUP_DIR (archive_name today)); mret true);
    if negb pulled then mret tt else quietly [Unit.fill ["rm -f "; remote_archive]] 10.

(** ** The command-line tool *)
Definition _uv_installed : prog exn W bool := remote_ok ["~/.local/bin/uv"; "--version"] 15.
Definition _run_install_uv (bctx : BringupContext) : prog exn W unit :=
  has_curl ← remote_ok ["which"; "curl"] 10;
  let dl_cmd := if (has_curl : bool) then "curl -LsSf https://astral.sh/uv/install.sh | sh"
                else "wget -qO- https://astral.sh/uv/install.sh | sh" in
  _ ← run_or_exit [dl_cmd] 120;
  run_or_exit ["~/.local/bin/uv"; "python"; "install"; "3.11"] 300.

Definition _cli_installed : prog exn W bool := remote_ok ["~/.local/bin/mower-jetson"; "--version"] 15.

(** Build the wheel in a temporary directory and push it; its name. *)
Definition build_and_push_wheel (bctx : BringupContext) : prog exn W string :=
  tmp_dir ← b_mkdtemp;
  pfinally
    ('(rc, _, _) ← pexcept [FileNotFoundError; TimeoutExpired]
        (l_run ["uv"; "build"; "--wheel"; "--out-dir"; tmp_dir] (Some (project_root bctx)) 120)
        (fun _ => plift (exit_ 3));
     if negb (rc =? 0) then plift (exit_ 3)
     else
       whls ← b_glob tmp_dir "*.whl";
       match whls with
       | [] => plift (exit_ 3)
       | whl_name :: _ =>
           _ ← push_or_exit (join_path tmp_dir whl_name) (Unit.fill ["~/"; whl_name]); mret whl_name
       end)
    (b_rmtree tmp_dir).
Definition _run_install_cli (bctx : BringupContext) : prog exn W unit :=
  whl_name ← build_and_push_wheel bctx;
  _ ← run_or_exit [Unit.fill ["~/.local/bin/uv tool install --python 3.11 --force"; " ~/"; whl_name; "[jetson]"]] 300;
  quietly ["rm"; "-f"; Unit.fill ["~/"; whl_name]] 10.

Definition _verify_check : prog exn W bool := mret false.
Definition _run_verify (bctx : BringupContext) : prog exn W unit :=
  result ← or_exit (run ["~/.local/bin/mower-jetson"; "probe"; "--json"] 30);
  if negb (Ssh.ok result) && bool_decide (S.strip (Ssh.stdout result) = "") then plift (exit_ 3)
  else
    checks ← pexcept [JSONDecodeError; ValueError] (plift (json_loads (Ssh.stdout result))) (fun _ => plift (exit_ 3));
    plift (items ← Probe.iter_value checks;
           rows ← rmap report_row items;
           report_outcome _DEFERRED_CHECKS (named rows)).

(** ** Services *)
Definition service (name : string) : string := Install.service name.

(** [systemctl verb unit], for each pair, whatever the others answer. *)
Definition all_report (queries : list (string * string)) : prog exn W bool :=
  or_return false
    (pfold (fun acc q => r ← run ["systemctl"; q.1; q.2] 10; mret (acc && Ssh.ok r)) true queries).

Definition _service_active : prog exn W bool :=
  all_report [("is-active", "mower-health.service"); ("is-enabled", "mower-health.service")].
Definition cleanup_units (units : list string) : prog exn W unit :=
  quietly [Unit.fill ("~/.local/bin/mower-jetson service cleanup-user-units" ::
                      map (fun u => Unit.fill [" --unit "; u]) units)] 30.
Definition home_of (user : string) : string := Unit.fill ["/home/"; user].
Definition target_flags (user : string) : string :=
  Unit.fill [" --target-user "; user; " --target-home "; home_of user].

Definition _run_service (bctx : BringupContext) : prog exn W unit :=
  confirmed "Install and start mower-health.service?" bctx
    (_ ← cleanup_units [Unit.UNIT_NAME];
     _ ← run_or_exit [Unit.fill ["sudo ~/.local/bin/mower-jetson service install --yes"; target_flags jetson_user]] 60;
     run_or_exit ["sudo systemctl start mower-health.service"] 120).

Definition _pixhawk_udev_done : prog exn W bool :=
  or_return false
    (r1 ← run ["test"; "-f"; "/etc/udev/rules.d/90-pixhawk-usb.rules"] 10;
     r2 ← run ["test"; "-d"; "/var/lib/mower"] 10;
     r3 ← run ["test"; "-d"; "/etc/mower"] 10;
     mret (Ssh.ok r1 && Ssh.ok r2 && Ssh.ok r3)).
Definition _run_pixhawk_udev (bctx : BringupContext) : prog exn W unit :=
  confirmed "Deploy Pixhawk udev rules and create runtime directories?" bctx
    (let rules_file := join_path (join_path (project_root bctx) "scripts") "90-pixhawk-usb.rules" in
     e ← f_exists rules_file;
     if negb e then plift (exit_ 3)
     else
       _ ← push_or_exit rules_file "~/90-pixhawk-usb.rules";
       _ ← run_or_exit ["sudo cp ~/90-pixhawk-usb.rules /etc/udev/rules.d/"] 30;
       _ ← run_or_exit ["sudo udevadm control --reload-rules && sudo udevadm trigger"] 30;
       _ ← run_or_exit [Unit.fill ["sudo mkdir -p /var/lib/mower /etc/mower /run/mower"; " && sudo chown ";
                                   jetson_user; ":"; jetson_user; " /var/lib/mower /etc/mower /run/mower"]] 30;
       quietly ["rm"; "-f"; "~/90-pixhawk-usb.rules"] 10).

(** ** The VSLAM configuration and databases *)
Definition default_db : string := "/var/lib/mower/rtabmap.db".
Definition _resolve_active_db_path : prog exn W string :=
  or_return default_db
    (result ← run ["python3"; "-c";
        Unit.fill ["import yaml; c=yaml.safe_load(open('/etc/mower/vslam.yaml'));";
                   "print(c.get('vslam',{}).get('database_path','"; default_db; "'))"]] 15;
     mret (if Ssh.ok result then S.strip (Ssh.stdout result) else default_db)).

Definition _vslam_config_exists : prog exn W bool := remote_ok ["test"; "-f"; "/etc/mower/vslam.yaml"] 10.
Definition _run_vslam_config (bctx : BringupContext) : prog exn W unit :=
  defaults_path ← b_resource "mower_rover.config.data" "vslam_defaults.yaml";
  _ ← push_or_exit defaults_path "~/vslam.yaml";
  _ ← run_or_exit ["sudo cp ~/vslam.yaml /etc/mower/vslam.yaml"] 30;
  _ ← quietly ["rm"; "-f"; "~/vslam.yaml"] 10;
  current_db ← _resolve_active_db_path;
  if bool_decide (current_db = default_db) then
    let test_zone_dir := "/var/lib/mower/zones/_test" in
    _ ← quietly ["sudo"; "mkdir"; "-p"; test_zone_dir] 10;
    quietly ["sudo"; "sed"; "-i";
             Unit.fill ["s|database_path: "; default_db; "|"; "database_path: "; test_zone_dir; "/rtabmap.db|"];
             "/etc/mower/vslam.yaml"] 10
  else mret tt.

Definition _RTABMAP_DB_MAX_BYTES : Z := 10 * 1024 * 1024 * 1024.
Definition _db_check_done : prog exn W bool := mret false.

Definition quarantine_cmd (db_path : string) : string :=
  Unit.fill ["mv "; db_path; " "; db_path; ".corrupt-$(date -u +%Y%m%dT%H%M%SZ)"].
Definition _quarantine_db (db_path : string) : prog exn W unit :=
  or_return tt (_ ← run ["bash"; "-c"; quarantine_cmd db_path] 15; mret tt).

(** What [stat] printed is a size to accept: not 0, not above 10 GiB. *)
Definition size_accepted (out : string) : bool :=
  match Num.int_of (S.strip out) with
  | None => false
  | Some size => negb (size =? 0) && negb (_RTABMAP_DB_MAX_BYTES <? size)
  end.

Definition _check_single_db (db_path : string) : prog exn W unit :=
  there ← remote_ok ["test"; "-f"; db_path] 15;
  if negb there then mret tt
  else
    sized ← or_return false
      (result ← run ["stat"; "-c"; "%s"; db_path] 15; mret (Ssh.ok result && size_accepted (Ssh.stdout result)));
    if negb sized then _quarantine_db db_path
    else
      sound ← or_return false
        (result ← run ["sqlite3"; db_path; "PRAGMA integrity_check;"] 60;
         mret (bool_decide (S.strip (Ssh.stdout result) = "ok")));
      if (sound : bool) then mret tt else _quarantine_db db_path.

(** Each zone's database once; [checked] are those seen. *)
Definition check_zone_db (checked : list string) (line : string) : prog exn W (list string) :=
  let zone_db := S.strip line in
  if bool_decide (zone_db <> "") && negb (bool_decide (zone_db ∈ checked))
  then _ ← _check_single_db zone_db; mret (zone_db :: checked)
  else mret checked.
Definition _run_db_check (bctx : BringupContext) : prog exn W unit :=
  db_path ← _resolve_active_db_path;
  _ ← _check_single_db db_path;
  or_return tt
    (result ← run ["find"; "/var/lib/mower/zones"; "-name"; "rtabmap.db"; "-type"; "f"] 15;
     if Ssh.ok result
     then _ ← pfold check_zone_db [db_path] (S.splitlines (S.strip (Ssh.stdout result))); mret tt
     else mret tt).

Definition _vslam_services_active : prog exn W bool :=
  all_report [("is-active", "mower-vslam.service"); ("is-enabled", "mower-vslam.service");
              ("is-active", "mower-vslam-bridge.service"); ("is-enabled", "mower-vslam-bridge.service")].

Definition service_statuses (stdout : string) : list string := map S.strip (S.splitlines (S.strip stdout)).

(** One poll of the two services. *)
Definition vslam_round (deadline : Z) (_ : unit) : prog exn W (unit + unit) :=
  now ← b_time;
  if negb (now <? deadline) then plift (exit_ 3)
  else
    _ ← b_sleep (sec 5);
    polled ← or_return None
      (r ← run ["systemctl is-active mower-vslam.service mower-vslam-bridge.service"] 10; mret (Some r));
    match polled with
    | None => mret (inl tt)
    | Some result =>
        let statuses := service_statuses (Ssh.stdout result) in
        if forallb (fun s => bool_decide (s = "active")) statuses then mret (inr tt)
        else if existsb (fun s => bool_decide (s = "failed")) statuses then
          _ ← run ["sudo systemctl status mower-vslam-bridge.service --no-pager -l"] 10;
          plift (exit_ 3)
        else mret (inl tt)
    end.
Definition _run_vslam_services (bctx : BringupContext) : prog exn W unit :=
  confirmed "Install and start VSLAM + bridge systemd services?" bctx
    (_ ← cleanup_units [Unit.VSLAM_UNIT_NAME; Unit.VSLAM_BRIDGE_UNIT_NAME];
     _ ← run_or_exit [Unit.fill ["sudo ~/.local/bin/mower-jetson vslam install --yes"; target_flags jetson_user]] 120;
     _ ← run_or_exit [Unit.fill ["sudo ~/.local/bin/mower-jetson vslam bridge-install --yes";
                                 target_flags jetson_user]] 120;
     _ ← quietly ["sudo systemctl reset-failed mower-vslam.service mower-vslam-bridge.service"] 10;
     _ ← or_exit (run ["sudo systemctl start --no-block mower-vslam.service mower-vslam-bridge.service"] 15);
     now ← b_time;
     ploop fuel (vslam_round (now + sec 120)) tt).

Definition _pixhawk_sync_done : prog exn W bool := remote_ok ["systemctl"; "is-enabled"; "mower-pixhawk-sync.service"] 10.
Definition _run_pixhawk_sync (bctx : BringupContext) : prog exn W unit :=
  confirmed "Install pixhawk-sync service and run initial sync?" bctx
    (_ ← run_or_exit [Unit.fill ["sudo ~/.local/bin/mower-jetson pixhawk sync-install --yes"; " --system";
                                 target_flags jetson_user]] 60;
     or_return tt (_ ← run ["~/.local/bin/mower-jetson"; "pixhawk"; "sync"; "--json"] 120; mret tt)).

(** ** MAVProxy *)
(** [data.setdefault("bridge", {})["serial_device"] = ...], in place. *)
Definition with_serial_device (d : list (PyVal * PyVal)) (device : string) : res exn (list (PyVal * PyVal)) :=
  match dget_or d "bridge" (VDict []) with
  | VDict bridge =>
      Ok (JetsonConfig.dset d (VStr "bridge") (VDict (JetsonConfig.dset bridge (VStr "serial_device") (VStr device))))
  | v => raise_ TypeError [L "'"; L (type_name v); L "' object does not support item assignment"]
  end.

(** A here-document piped into a file as root. *)
Definition heredoc (path content mark : string) : string :=
  Unit.fill ["sudo bash -c 'cat > "; path; "' << '"; mark; "'"; Unit.nl; content; Unit.nl; mark].
Definition unit_path (name : string) : string := Unit.fill ["/etc/systemd/system/"; name; ".service"].
Definition deploy_unit (name content : string) : prog exn W unit :=
  _ ← or_exit (run [heredoc (unit_path name) content "UNITEOF"] 30); mret tt.

Definition mavproxy_version : list string := ["~/.local/share/uv/tools/mower-rover/bin/mavproxy.py --version"].
Definition install_mavproxy_package : prog exn W unit :=
  _ ← run_or_exit [Unit.fill ["~/.local/bin/uv pip install --python";
                              " ~/.local/share/uv/tools/mower-rover/bin/python"; " MAVProxy future setuptools"]] 300;
  _ ← quietly ["mkdir -p ~/.mavproxy"] 10;
  run_or_exit mavproxy_version 15.

(** Point the bridge's configuration at MAVProxy's UDP output; [false] when the
    step ends there. *)
Definition rewrite_bridge_config : prog exn W bool :=
  read ← or_return None (r ← run ["cat"; "/etc/mower/vslam.yaml"] 15; mret (Some r));
  match read with
  | None => mret false
  | Some result =>
      if Ssh.ok result && bool_decide (S.strip (Ssh.stdout result) <> "") then
        parsed ← pexcept [Exception] (v ← plift (yaml_safe_load (Ssh.stdout result)); mret (Some v))
                   (fun _ => mret None);
        match parsed with
        | None => mret false
        | Some (VDict ((_ :: _) as config_data)) =>
            new_data ← plift (with_serial_device config_data "udp:127.0.0.1:14550");
            or_return false
              (_ ← run [heredoc "/etc/mower/vslam.yaml" (yaml_dump (VDict new_data)) "YAMLEOF"] 30; mret true)
        | Some _ => mret true
        end
      else mret true
  end.

Definition _mavproxy_active : prog exn W bool :=
  all_report [("is-active", service Unit.MAVPROXY_UNIT_NAME); ("is-enabled", service Unit.MAVPROXY_UNIT_NAME)].
Definition _run_install_mavproxy (bctx : BringupContext) : prog exn W unit :=
  confirmed "Install MAVProxy and deploy mower-mavproxy service?" bctx
    (mavproxy_installed ← remote_ok mavproxy_version 15;
     _ ← (if (mavproxy_installed : bool) then mret tt else install_mavproxy_package);
     _ ← deploy_unit Unit.MAVPROXY_UNIT_NAME
           (Unit.generate_mavproxy_unit_file "/dev/pixhawk"
              ["udp:127.0.0.1:14550"; "udp:127.0.0.1:14551"; "udp:127.0.0.1:14552"]
              jetson_user (home_of jetson_user));
     _ ← run_or_exit [Unit.fill ["sudo systemctl daemon-reload"; " && sudo systemctl enable --now ";
                                 Unit.MAVPROXY_UNIT_NAME; ".service"]] 30;
     rewritten ← rewrite_bridge_config;
     if negb rewritten then mret tt
     else
       _ ← quietly [Unit.fill ["sudo systemctl restart "; Unit.VSLAM_BRIDGE_UNIT_NAME; ".service"]] 30;
       _ ← b_sleep (sec 3);
       quietly [Unit.fill ["systemctl is-active "; Unit.MAVPROXY_UNIT_NAME; ".service"]] 10).

(** ** The kiosk *)
Definition kiosk_names : list string :=
  [Unit.WESTON_UNIT_NAME; Unit.KIOSK_DATA_UNIT_NAME; Unit.KIOSK_RENDERER_UNIT_NAME].
Definition spaced_units : string := Unit.fill (map (fun n => Unit.fill [" "; n; ".service"]) kiosk_names).

Definition _kiosk_services_active : prog exn W bool :=
  all_report (map (fun n => ("is-active", service n)) kiosk_names).
Definition _run_kiosk_services (bctx : BringupContext) : prog exn W unit :=
  confirmed "Install and start Weston + kiosk dashboard services?" bctx
    (let user := jetson_user in
     let home := home_of user in
     let old := Unit.KIOSK_UNIT_NAME in
     _ ← quietly [Unit.fill ["sudo systemctl stop "; old; ".service 2>/dev/null || true"]] 15;
     _ ← quietly [Unit.fill ["sudo systemctl disable "; old; ".service 2>/dev/null || true"]] 15;
     _ ← quietly [Unit.fill ["sudo rm -f "; unit_path old]] 10;
     _ ← cleanup_units [Unit.WESTON_UNIT_NAME; Unit.KIOSK_UNIT_NAME; Unit.KIOSK_DATA_UNIT_NAME;
                        Unit.KIOSK_RENDERER_UNIT_NAME];
     _ ← deploy_unit Unit.WESTON_UNIT_NAME (Unit.generate_weston_unit_file user home);
     _ ← deploy_unit Unit.KIOSK_DATA_UNIT_NAME
           (Unit.generate_kiosk_data_unit_file (Install.bin_path home) user home);
     _ ← deploy_unit Unit.KIOSK_RENDERER_UNIT_NAME (Unit.generate_kiosk_renderer_unit_file user home);
     _ ← or_exit (run [Unit.fill ["sudo systemctl daemon-reload"; " && sudo systemctl enable"; spaced_units]] 30);
     _ ← quietly [Unit.fill ["sudo systemctl start"; spaced_units]] 60;
     _ ← b_sleep (sec 2);
     _ ← _kiosk_services_active;
     mret tt).

Definition _kiosk_probe_check : prog exn W bool := mret false.
Definition kiosk_checks : list (string * string) :=
  [(service Unit.WESTON_UNIT_NAME, "weston_active"); (service Unit.KIOSK_DATA_UNIT_NAME, "kiosk_data_active");
   (service Unit.KIOSK_RENDERER_UNIT_NAME, "kiosk_renderer_active");
   (service Unit.MAVPROXY_UNIT_NAME, "mavproxy_active")].
Definition _run_kiosk_probe (bctx : BringupContext) : prog exn W unit :=
  piter (fun c : string * string => quietly ["systemctl"; "is-active"; c.1] 10) kiosk_checks.

(** ** The final verification *)
(** One poll of the rover's probe: the report and its critical failures are the
    loop variables [checks] and [critical_fails]. *)
Definition probe_round (deadline : Z) (st : option PyVal * list PyVal)
  : prog exn W ((option PyVal * list PyVal) + (option PyVal * list PyVal)) :=
  let wait := _ ← b_sleep (sec 10); mret (inl st) in
  now ← b_monotonic;
  if negb (now <? deadline) then mret (inr st)
  else
    polled ← or_return None
      (r ← run ["~/.local/bin/mower-jetson"; "probe"; "--json"] 30; mret (Some r));
    match polled with
    | None => wait
    | Some result =>
        if negb (Ssh.ok result) && bool_decide (S.strip (Ssh.stdout result) = "") then wait
        else
          parsed ← pexcept [JSONDecodeError; ValueError]
                     (v ← plift (json_loads (Ssh.stdout result)); mret (Some v)) (fun _ => mret None);
          match parsed with
          | None => wait
          | Some checks =>
              critical_fails ← plift (critical_of checks);
              infra_fails ← plift (members false _HW_DEPENDENT critical_fails);
              match infra_fails with
              | [] => mret (inr (Some checks, critical_fails))
              | _ => _ ← b_sleep (sec 10); mret (inl (Some checks, critical_fails))
              end
          end
    end.

Definition _final_verify_check : prog exn W bool := mret false.
Definition _run_final_verify (bctx : BringupContext) : prog exn W unit :=
  _ ← reboot_and_reconnect;
  _ ← b_sleep (sec 30);
  now ← b_monotonic;
  '(checks, critical_fails) ← ploop fuel (probe_round (now + sec 120)) (None, []);
  match checks with
  | None | Some VNone => plift (exit_ 3)
  | Some checks =>
      plift (items ← Probe.iter_value checks;
             _ ← rmap report_row items;
             report_outcome _HW_DEPENDENT critical_fails)
  end.
End steps.
End Steps.
