(* ===== verification/BringupRun.v ===== *)
(** * The bringup command (cli/bringup.py)

    The table of the provisioning steps and the loop that walks through it: which
    steps are skipped, which run, what a failure does, and the parallel builds.

    The two build threads are run one after the other, in an order the host
    chooses: each build is atomic here. *)

From stdpp Require Import base gmap list strings option.
From Stdlib Require Import Ascii ZArith Lia.
From S2P Require Import Prelude Float64 PyVal Link Safety Files Config.
From S2P Require Import Units Probe Ssh Remote BringupSteps.
Local Open Scope Z_scope.

(** Whether the second of two started threads ends before the first. *)
Class Threads (W : Type) := { b_second_first : prog exn W bool }.

Module Bringup.
Section engine.
Context {W : Type}.

Record BringupStep : Type := {
  name : string;
  description : string;
  check : Ssh.JetsonClient -> prog exn W bool;
  execute : Ssh.JetsonClient -> Steps.BringupContext -> prog exn W unit;
  needs_confirm : bool;
  gate : bool }.

(** The command's own options; the endpoint's are [JetsonRemote.Flags]. *)
Record Options : Type := {
  step : option string;
  from_step : option string;
  continue_on_error : bool;
  o_parallel : bool;
  o_yes : bool }.

Abbreviation Failures := (list (string * string)).

Context `{!BringupHost W} `{!Threads W}.
(** [getattr(exc, 'code', '?')] of a [typer.Exit] *)
Variable exit_attr : exn -> string.

Definition error_msg (e : exn) : string :=
  if subclass (exn_class e) SshError then Steps.exn_text e
  else Unit.fill ["exit code "; exit_attr e].

(** The body of a build thread.  What it does not catch ends the thread only. *)
Definition _run_in_thread (name : string) (run_fn : prog exn W unit) (errors : Failures) : prog exn W Failures :=
  pcatch (_ ← run_fn; mret errors)
    (fun exc => mret (if caught_by [TyperExit; SshError] exc then errors ++ [(name, error_msg exc)] else errors)).

(** Start every thread, then join them. *)
Definition run_threads (threads : list (string * prog exn W unit)) : prog exn W Failures :=
  swap ← b_second_first;
  pfold (fun errors t => _run_in_thread t.1 t.2 errors) [] (if (swap : bool) then rev threads else threads).

Definition find_step (steps : list BringupStep) (n : string) : option BringupStep :=
  List.find (fun s => bool_decide (name s = n)) steps.

Variables (opts : Options) (bctx : Steps.BringupContext) (client : Ssh.JetsonClient).
Variables (build_rtabmap build_depthai : string -> Steps.BringupContext -> prog exn W unit).

(** [for name, msg in errors]: the first ends the command unless it continues. *)
Definition account (errors failures : Failures) : prog exn W Failures :=
  pfold (fun fs e => if negb (continue_on_error opts) then plift (exit_ 3) else mret (fs ++ [e])) failures errors.

(** [None] when neither build needs to run. *)
Definition parallel_block (steps : list BringupStep) (s : BringupStep) (failures : Failures)
  : prog exn W (option Failures) :=
  rtabmap_done ← check s client;
  let rtabmap_needs_run := negb rtabmap_done in
  depthai_needs_run ← match find_step steps "build-depthai" with
                      | None => mret false
                      | Some d => done_ ← check d client; mret (negb done_)
                      end;
  if rtabmap_needs_run || depthai_needs_run then
    errors ← run_threads
      ((if rtabmap_needs_run then [("build-rtabmap", build_rtabmap "6" bctx)] else []) ++
       (if (depthai_needs_run : bool) then [("build-depthai", build_depthai "6" bctx)] else []));
    fs ← account errors failures;
    mret (Some fs)
  else mret None.

(** The builds run in parallel in a full, real run only. *)
Definition parallel_at (n : string) (s : BringupStep) : bool :=
  Steps.parallel_builds bctx && bool_decide (name s = n) && negb (Steps.dry_run bctx) &&
  bool_decide (step opts = None).

Definition before (from_idx : option nat) (idx : nat) : bool :=
  match from_idx with Some k => (idx <? k)%nat | None => false end.

(** Check, skip or execute. *)
Definition check_and_run (s : BringupStep) (failures : Failures) : prog exn W Failures :=
  satisfied ← (if bool_decide (step opts = None) then check s client else mret false);
  if (satisfied : bool) then mret failures
  else
    pexcept [TyperExit; SshError] (_ ← execute s client bctx; mret failures)
      (fun exc => if negb (continue_on_error opts) || gate s then praise exc
                  else mret (failures ++ [(name s, error_msg exc)])).

Definition one_step (steps : list BringupStep) (from_idx : option nat) (failures : Failures)
    (numbered : nat * BringupStep) : prog exn W Failures :=
  let '(idx, s) := numbered in
  handled ← (if parallel_at "build-rtabmap" s then parallel_block steps s failures else mret None);
  match handled with
  | Some fs => mret fs
  | None =>
      if parallel_at "build-depthai" s && bool_decide (is_Some (find_step steps "build-rtabmap"))
      then mret failures
      else if Steps.dry_run bctx then mret failures
      else if before from_idx idx then mret failures
      else check_and_run s failures
  end.

Definition main_loop (steps : list BringupStep) (from_idx : option nat) : prog exn W unit :=
  failures ← pfold (one_step steps from_idx) [] (imap pair steps);
  match failures with [] => mret tt | _ => plift (exit_ 1) end.

Fixpoint index_of (n : string) (steps : list BringupStep) : option nat :=
  match steps with
  | [] => None
  | s :: steps' => if bool_decide (name s = n) then Some O else Datatypes.S <$> index_of n steps'
  end.
End engine.
Arguments BringupStep : clear implicits.
Arguments Options : clear implicits.

Section command.
Context {W : Type} `{!FileStore W} `{!SshHost W} `{!LaptopHost W} `{!Terminal W} `{!BringupHost W} `{!Threads W}.
Variable json_loads : string -> res exn PyVal.
Variable yaml_safe_load : string -> res exn PyVal.
Variable yaml_dump : PyVal -> string.
Variable expanduser : string -> string.
Variable DEFAULT_LAPTOP_CONFIG_PATH : string.
Variable exit_attr : exn -> string.
Variable fuel : nat.

Definition a_step (n d : string) (c : Ssh.JetsonClient -> prog exn W bool)
    (e : Ssh.JetsonClient -> Steps.BringupContext -> prog exn W unit) (confirm gate : bool) : BringupStep W :=
  {| name := n; description := d; check := c; execute := e; needs_confirm := confirm; gate := gate |}.

Definition never (_ : Ssh.JetsonClient) : prog exn W bool := mret false.

Definition BRINGUP_STEPS : list (BringupStep W) :=
  [a_step "clear-host-key" "Clear stale SSH host key" Steps._clear_host_key_needed Steps._run_clear_host_key false false;
   a_step "check-ssh" "SSH connectivity" Steps._check_ssh_ok (fun _ => Steps._run_check_ssh) false true;
   a_step "enable-linger" "Enable systemd linger" Steps._linger_enabled Steps._run_enable_linger false false;
   a_step "harden-os" "Field hardening" Steps._harden_done Steps._run_harden true false;
   a_step "reboot-and-wait" "Reboot and verify kernel params" Steps._reboot_check
     (Steps._run_reboot_and_wait fuel) false false;
   a_step "restore-binaries" "Restore C++ binary archive (if available)"
     (Steps._restore_binaries_check json_loads) Steps._run_restore_binaries false false;
   a_step "install-build-deps" "Install build toolchain + libraries" Steps._build_deps_check
     Steps._run_install_build_deps false false;
   a_step "build-rtabmap" "Build RTAB-Map from source" (Steps._build_rtabmap_check json_loads)
     (fun c => Steps._run_build_rtabmap fuel c "$(nproc)") false false;
   a_step "build-depthai" "Build depthai-core from source" (Steps._build_depthai_check json_loads)
     (fun c => Steps._run_build_depthai fuel c "$(nproc)") false false;
   a_step "build-slam-node" "Build RTAB-Map SLAM node binary" (Steps._build_slam_node_check json_loads)
     (Steps._run_build_slam_node fuel) false false;
   a_step "build-kiosk-renderer" "Build LVGL kiosk renderer binary" Steps._build_kiosk_renderer_check
     (Steps._run_build_kiosk_renderer fuel) false false;
   a_step "archive-binaries" "Archive C++ build outputs" (fun _ => Steps._archive_binaries_check)
     Steps._run_archive_binaries false false;
   a_step "pixhawk-udev" "Pixhawk udev rules + runtime dirs" Steps._pixhawk_udev_done Steps._run_pixhawk_udev true false;
   a_step "install-uv" "uv + Python 3.11" Steps._uv_installed Steps._run_install_uv false false;
   a_step "install-cli" "mower-jetson CLI" Steps._cli_installed Steps._run_install_cli false false;
   a_step "verify" "Remote probe verification" (fun _ => Steps._verify_check) (Steps._run_verify json_loads) false false;
   a_step "vslam-config" "Default VSLAM configuration" Steps._vslam_config_exists Steps._run_vslam_config false false;
   a_step "service" "mower-health.service" never Steps._run_service true false;
   a_step "vslam-db-check" "RTAB-Map DB integrity check" (fun _ => Steps._db_check_done) Steps._run_db_check false false;
   a_step "install-mavproxy" "MAVProxy telemetry forwarder" never
     (Steps._run_install_mavproxy yaml_safe_load yaml_dump) true false;
   a_step "vslam-services" "VSLAM + bridge systemd services" never (Steps._run_vslam_services fuel) true false;
   a_step "pixhawk-sync" "Pixhawk param + Lua sync service" never Steps._run_pixhawk_sync true false;
   a_step "kiosk-services" "Weston + kiosk dashboard services" never Steps._run_kiosk_services true false;
   a_step "kiosk-probe" "Kiosk probe verification" (fun _ => Steps._kiosk_probe_check) Steps._run_kiosk_probe false false;
   a_step "final-verify" "Final reboot + probe verification" (fun _ => Steps._final_verify_check)
     (Steps._run_final_verify json_loads fuel) false false].

(** The options refused before anything is looked at. *)
Definition usage_error (opts : Options) : bool :=
  let unknown o := match o with Some s => negb (bool_decide (s ∈ Steps.STEP_NAMES)) | None => false end in
  (bool_decide (is_Some (step opts)) && bool_decide (is_Some (from_step opts))) ||
  unknown (step opts) || unknown (from_step opts).

Definition chosen_steps (opts : Options) : list (BringupStep W) :=
  match step opts with
  | Some n => List.filter (fun s => bool_decide (name s = n)) BRINGUP_STEPS
  | None => BRINGUP_STEPS
  end.

Definition bringup_command (obj : Obj) (fl : JetsonRemote.Flags) (opts : Options) : prog exn W unit :=
  if usage_error opts then plift (exit_ 2)
  else
    project_root ← Steps._find_project_root fuel;
    let bctx := {| Steps.project_root := project_root; Steps.dry_run := obj_dry_run obj; Steps.yes := o_yes opts;
                   Steps.correlation_id := obj_correlation_id obj; Steps.parallel_builds := o_parallel opts |} in
    client ← JetsonRemote.connect expanduser yaml_safe_load DEFAULT_LAPTOP_CONFIG_PATH obj fl;
    let steps := chosen_steps opts in
    from_idx ← match from_step opts with
               | None => mret None
               | Some n => match index_of n steps with Some i => mret (Some i) | None => plift (exit_ 2) end
               end;
    main_loop exit_attr opts bctx client (Steps._run_build_rtabmap fuel client) (Steps._run_build_depthai fuel client)
      steps from_idx.
End command.
End Bringup.
