(* ===== verification/BringupSafe.v ===== *)
(** * What the bringup guarantees

    Programs that end, keep a property of the world and raise only certain
    exceptions ([keeps]); the steps as such programs; the walk of the main loop;
    what an unreachable rover leads to; the bounded polls. *)

From stdpp Require Import base gmap list strings option.
From Stdlib Require Import Ascii ZArith Lia.
From S2P Require Import Prelude Float64 PyVal Link Safety Files Config.
From S2P Require Import Units Probe Ssh Remote BringupSteps BringupRun.
Local Open Scope Z_scope.

(** ** Programs that end, keep [P], and raise only [cs] *)
Definition only {A} (cs : list ExnClass) (r : res exn A) : Prop :=
  match r with Ok _ => True | Err e => In (exn_class e) cs end.

Definition keeps {W A} (P : W -> Prop) (cs : list ExnClass) (m : prog exn W A) : Prop :=
  forall w, P w -> exists r w', m w = Some (r, w') /\ P w' /\ only cs r.

Section keeps.
Context {W : Type} (P : W -> Prop).

Lemma keeps_mono {A} cs cs' (m : prog exn W A) : incl cs cs' -> keeps P cs m -> keeps P cs' m.
Proof.
  intros Hi Hm w HP. destruct (Hm w HP) as ([a|e] & w' & H1 & H2 & H3); do 2 eexists; (split; [exact H1|]); split;
    [done|done|done|by apply Hi].
Qed.

Lemma keeps_ret {A} cs (a : A) : keeps P cs (mret a).
Proof. intros w HP. by exists (Ok a), w. Qed.

Lemma keeps_lift {A} cs (r : res exn A) : only cs r -> keeps P cs (plift r).
Proof. intros Hr w HP. by exists r, w. Qed.

Lemma keeps_bind {A B} cs (m : prog exn W A) (f : A -> prog exn W B) :
  keeps P cs m -> (forall a, keeps P cs (f a)) -> keeps P cs (m ≫= f).
Proof.
  intros Hm Hf w HP. destruct (Hm w HP) as ([a|e] & w1 & H1 & HP1 & Hr).
  - rewrite (pbind_step _ _ _ _ _ H1). by apply Hf.
  - exists (Err e), w1. by rewrite (pbind_err _ _ _ _ _ H1).
Qed.

(** A handler for [SshError] takes it off the list. *)
Lemma keeps_except {A} cs (m : prog exn W A) h :
  keeps P (SshError :: cs) m -> (forall e, keeps P cs (h e)) -> keeps P cs (pexcept [SshError] m h).
Proof.
  intros Hm Hh w HP. destruct (Hm w HP) as ([a|[k msg c]] & w1 & H1 & HP1 & Hr);
    unfold pexcept, pcatch; rewrite H1; [by exists (Ok a), w1|].
  destruct (caught_by [SshError] (Exn k msg c)) eqn:Ec; [by apply Hh|].
  exists (Err (Exn k msg c)), w1. split; [done|]. split; [done|]. destruct Hr as [Hr|Hr]; [|exact Hr].
  exfalso. cbn in Hr. subst k. by rewrite caught_refl in Ec.
Qed.

Lemma keeps_or_return {A} cs (a : A) (m : prog exn W A) :
  keeps P (SshError :: cs) m -> keeps P cs (Steps.or_return a m).
Proof. intros Hm. apply keeps_except; [exact Hm|]. intros e. apply keeps_ret. Qed.

Lemma keeps_fold {S A} cs (f : S -> A -> prog exn W S) s l :
  (forall s a, keeps P cs (f s a)) -> keeps P cs (pfold f s l).
Proof.
  intros Hf. revert s. induction l as [|a l IH]; intros s; cbn [pfold]; [apply keeps_ret|].
  apply keeps_bind; [apply Hf|]. intros s'. apply IH.
Qed.
End keeps.

Create HintDb keeps.
#[export] Hint Extern 1 (only _ (Ok _)) => exact I : keeps.
#[export] Hint Extern 1 (only _ (exit_ _)) => left; reflexivity : keeps.

(** Take a program of ssh commands apart. *)
Ltac keep :=
  repeat first
    [ solve [eauto 3 with keeps] | apply keeps_or_return | apply keeps_bind; [|intros ?]
    | apply keeps_fold; intros ? ? | apply keeps_ret | progress split_match | progress cbn beta iota ].

Section commands.
Context {W : Type} `{!SshHost W} `{!Spawns W} (client : Ssh.JetsonClient).

(** A command on the rover, when the world property survives it. *)
Lemma keeps_command (P : W -> Prop) argv t cs :
  (forall a timeout env w r w', Ssh.build_ssh_argv client argv = Ok a -> P w ->
     x_run a timeout env w = Some (r, w') -> P w') ->
  keeps P (SshError :: cs) (Steps.run client argv t).
Proof.
  intros HPr w HP. unfold Steps.run.
  destruct (run_ends_ssh client argv false (Some (VInt t)) [] w) as (r & w' & Hr & Hend). exists r, w'. split; [done|].
  destruct (Ssh.build_ssh_argv client argv) as [a|e0] eqn:Eb.
  - destruct Hend as (env & out & Hx & Ho). split; [by eapply HPr|].
    destruct out as [[[rc so] se]|eo], r as [res|e]; try done; left; symmetry; [apply Ho|exact Ho].
  - destruct Hend as [-> (e & -> & He)]. split; [done|]. by left.
Qed.

Lemma keeps_run argv t cs : keeps (fun _ : W => True) (SshError :: cs) (Steps.run client argv t).
Proof. by apply keeps_command. Qed.
Hint Resolve keeps_run : keeps.

(** ** The database check never raises *)
Lemma keeps_remote_ok argv t cs : keeps (fun _ : W => True) cs (Steps.remote_ok client argv t).
Proof. unfold Steps.remote_ok. keep. Qed.
Hint Resolve keeps_remote_ok : keeps.

Lemma keeps_quarantine db cs : keeps (fun _ : W => True) cs (Steps._quarantine_db client db).
Proof. unfold Steps._quarantine_db. keep. Qed.
Hint Resolve keeps_quarantine : keeps.

Lemma keeps_single_db db cs : keeps (fun _ : W => True) cs (Steps._check_single_db client db).
Proof. unfold Steps._check_single_db. keep. Qed.
Hint Resolve keeps_single_db : keeps.

Lemma keeps_db_path cs : keeps (fun _ : W => True) cs (Steps._resolve_active_db_path client).
Proof. unfold Steps._resolve_active_db_path. keep. Qed.
Hint Resolve keeps_db_path : keeps.

Lemma keeps_zone_db checked line cs : keeps (fun _ : W => True) cs (Steps.check_zone_db client checked line).
Proof. unfold Steps.check_zone_db. keep. Qed.
Hint Resolve keeps_zone_db : keeps.

Lemma keeps_db_check bctx cs : keeps (fun _ : W => True) cs (Steps._run_db_check client bctx).
Proof. unfold Steps._run_db_check. keep. Qed.
End commands.

(** On a host whose subprocesses end as documented, the database check of the bringup always returns normally, whatever the rover answers and whether or not it can be reached: every refusal, timeout and unreadable size ends in a quarantine attempt or in nothing. *)
Lemma db_check_never_raises {W} `{!SshHost W} `{!Spawns W} client bctx (w : W) :
  exists w', Steps._run_db_check client bctx w = Some (Ok tt, w').
Proof.
  destruct (keeps_db_check client bctx [] w I) as ([[]|e] & w' & H & _ & Hr); [by exists w'|destruct Hr].
Qed.

(** ** The walk of the main loop *)
Section walk.
Context {W : Type} `{!BringupHost W} `{!Threads W}.
Variables (exit_attr : exn -> string) (opts : Bringup.Options) (bctx : Steps.BringupContext) (client : Ssh.JetsonClient).
Variables (build1 build2 : string -> Steps.BringupContext -> prog exn W unit) (from_idx : option nat).
Implicit Types (s : Bringup.BringupStep W) (fs : list (string * string)).

(** The step is to be executed: forced by [--step], or its check says no. *)
Inductive needed s (w : W) : W -> Prop :=
| needed_forced : Bringup.step opts <> None -> needed s w w
| needed_checked w1 : Bringup.step opts = None -> Bringup.check s client w = Some (Ok false, w1) -> needed s w w1.

(** How the rest of the table is walked with the failures so far. *)
Inductive Walk : list (nat * Bringup.BringupStep W) -> list (string * string) -> W ->
    res exn (list (string * string)) -> W -> Prop :=
| walk_end fs w : Walk [] fs w (Ok fs) w
| walk_before i s rest fs w r w' :
    Bringup.before from_idx i = true -> Walk rest fs w r w' -> Walk ((i, s) :: rest) fs w r w'
| walk_satisfied i s rest fs w w1 r w' :
    Bringup.before from_idx i = false -> Bringup.step opts = None ->
    Bringup.check s client w = Some (Ok true, w1) -> Walk rest fs w1 r w' -> Walk ((i, s) :: rest) fs w r w'
| walk_done i s rest fs w w1 w2 r w' :
    Bringup.before from_idx i = false -> needed s w w1 ->
    Bringup.execute s client bctx w1 = Some (Ok tt, w2) -> Walk rest fs w2 r w' -> Walk ((i, s) :: rest) fs w r w'
| walk_failed i s rest fs w w1 w2 e r w' :
    Bringup.before from_idx i = false -> needed s w w1 ->
    Bringup.execute s client bctx w1 = Some (Err e, w2) -> caught_by [TyperExit; SshError] e = true ->
    Bringup.continue_on_error opts = true -> Bringup.gate s = false ->
    Walk rest (fs ++ [(Bringup.name s, Bringup.error_msg exit_attr e)]) w2 r w' -> Walk ((i, s) :: rest) fs w r w'
| walk_aborted i s rest fs w w1 w2 e :
    Bringup.before from_idx i = false -> needed s w w1 ->
    Bringup.execute s client bctx w1 = Some (Err e, w2) ->
    (caught_by [TyperExit; SshError] e = false \/ Bringup.continue_on_error opts = false \/ Bringup.gate s = true) ->
    Walk ((i, s) :: rest) fs w (Err e) w2
| walk_unchecked i s rest fs w w1 e :
    Bringup.before from_idx i = false -> Bringup.step opts = None ->
    Bringup.check s client w = Some (Err e, w1) -> Walk ((i, s) :: rest) fs w (Err e) w1.

Hypothesis Hreal : Steps.dry_run bctx = false.
Hypothesis Hseq : Steps.parallel_builds bctx = false.

Lemma one_step_plain steps fs i s :
  Bringup.one_step exit_attr opts bctx client build1 build2 steps from_idx fs (i, s) =
  fun w => if Bringup.before from_idx i then Some (Ok fs, w)
           else Bringup.check_and_run exit_attr opts bctx client s fs w.
Proof.
  unfold Bringup.one_step, Bringup.parallel_at. rewrite Hseq, Hreal. cbn.
  by destruct (Bringup.before from_idx i).
Qed.

Lemma executed s fs w :
  pexcept [TyperExit; SshError] (_ ← Bringup.execute s client bctx; mret fs)
    (fun exc => if negb (Bringup.continue_on_error opts) || Bringup.gate s then praise exc
                else mret (fs ++ [(Bringup.name s, Bringup.error_msg exit_attr exc)])) w =
  match Bringup.execute s client bctx w with
  | Some (Ok _, w2) => Some (Ok fs, w2)
  | Some (Err e, w2) =>
      if caught_by [TyperExit; SshError] e && Bringup.continue_on_error opts && negb (Bringup.gate s)
      then Some (Ok (fs ++ [(Bringup.name s, Bringup.error_msg exit_attr e)]), w2)
      else Some (Err e, w2)
  | None => None
  end.
Proof.
  unfold pexcept, pcatch, mbind, prog_bind. destruct (Bringup.execute s client bctx w) as [[[[]|e] w2]|]; try done.
  destruct (caught_by [TyperExit; SshError] e); [|done]. cbn.
  by destruct (Bringup.continue_on_error opts), (Bringup.gate s).
Qed.

Lemma needed_run s fs w w1 : needed s w w1 ->
  Bringup.check_and_run exit_attr opts bctx client s fs w =
  pexcept [TyperExit; SshError] (_ ← Bringup.execute s client bctx; mret fs)
    (fun exc => if negb (Bringup.continue_on_error opts) || Bringup.gate s then praise exc
                else mret (fs ++ [(Bringup.name s, Bringup.error_msg exit_attr exc)])) w1.
Proof.
  unfold Bringup.check_and_run. intros [Hs|w2 Hs Hc].
  - by rewrite bool_decide_eq_false_2.
  - by rewrite bool_decide_eq_true_2, (pbind_step _ _ _ _ _ Hc).
Qed.

(** What one step does, sorted out. *)
Lemma run_cases s fs w r w1 : Bringup.check_and_run exit_attr opts bctx client s fs w = Some (r, w1) ->
  (Bringup.step opts = None /\ Bringup.check s client w = Some (Ok true, w1) /\ r = Ok fs) \/
  (exists e, Bringup.step opts = None /\ Bringup.check s client w = Some (Err e, w1) /\ r = Err e) \/
  (exists w0 x, needed s w w0 /\ Bringup.execute s client bctx w0 = Some (x, w1)).
Proof.
  unfold Bringup.check_and_run. case_bool_decide as Hs.
  - intros H. apply pbind_inv in H as [(e & -> & Hc)|(b & w0 & Hc & H)]; [right; left; by exists e|].
    destruct b; [left; by injection H as <- <-|]. right; right. rewrite executed in H.
    exists w0. destruct (Bringup.execute s client bctx w0) as [[x w2]|] eqn:Ex; [|done].
    exists x. split; [by apply needed_checked|]. destruct x; [congruence|]. destruct (_ && _); congruence.
  - rewrite (pbind_step (mret false) _ w false w eq_refl). cbv iota. rewrite executed. intros H.
    right; right. exists w. destruct (Bringup.execute s client bctx w) as [[x w2]|] eqn:Ex; [|done].
    exists x. split; [by apply needed_forced|]. destruct x; [congruence|]. destruct (_ && _); congruence.
Qed.

Lemma walk_sound steps l fs w r w' :
  pfold (Bringup.one_step exit_attr opts bctx client build1 build2 steps from_idx) fs l w = Some (r, w') ->
  Walk l fs w r w'.
Proof.
  revert fs w. induction l as [|[i s] l IH]; intros fs w; cbn [pfold].
  { intros [= <- <-]. constructor. }
  rewrite one_step_plain. destruct (Bringup.before from_idx i) eqn:Eb.
  { intros H. apply walk_before; [done|]. by apply IH. }
  intros H. apply pbind_inv in H as [(e & -> & H)|(fs' & w1 & H & Hrest)];
    destruct (run_cases _ _ _ _ _ H) as [(Hs & Hc & Hr)|[(e' & Hs & Hc & [= <-])|(w0 & x & Hn & Hx)]]; try done.
  - by apply walk_unchecked.
  - rewrite (needed_run _ _ _ _ Hn), executed, Hx in H. destruct x as [|e']; [done|].
    destruct (caught_by _ e') eqn:E1; cbn in H.
    + destruct (Bringup.continue_on_error opts) eqn:E2; cbn in H; [destruct (Bringup.gate s) eqn:E3; cbn in H; [|done]|];
        injection H as ->; eapply walk_aborted; eauto.
    + injection H as ->. eapply walk_aborted; eauto.
  - injection Hr as ->. eapply walk_satisfied; eauto.
  - rewrite (needed_run _ _ _ _ Hn), executed, Hx in H. destruct x as [[]|e'].
    + injection H as ->. eapply walk_done; eauto.
    + destruct (caught_by _ e') eqn:E1, (Bringup.continue_on_error opts) eqn:E2, (Bringup.gate s) eqn:E3;
        cbn in H; try done. injection H as <-. eapply walk_failed; eauto.
Qed.

Lemma walk_complete steps l fs w r w' :
  Walk l fs w r w' ->
  pfold (Bringup.one_step exit_attr opts bctx client build1 build2 steps from_idx) fs l w = Some (r, w').
Proof.
  induction 1 as [fs w|i s l fs w r w' Hb _ IH|i s l fs w w1 r w' Hb Hs Hc _ IH|i s l fs w w1 w2 r w' Hb Hn Hx _ IH
    |i s l fs w w1 w2 e r w' Hb Hn Hx Hc Hk Hg _ IH|i s l fs w w1 w2 e Hb Hn Hx Ha|i s l fs w w1 e Hb Hs Hc];
    [done| | | | | |]; cbn [pfold]; unfold mbind, prog_bind; rewrite one_step_plain, Hb; [done| | | | |].
  - unfold Bringup.check_and_run. by rewrite bool_decide_eq_true_2, (pbind_step _ _ _ _ _ Hc).
  - by rewrite (needed_run _ _ _ _ Hn), executed, Hx.
  - by rewrite (needed_run _ _ _ _ Hn), executed, Hx, Hc, Hk, Hg.
  - rewrite (needed_run _ _ _ _ Hn), executed, Hx. destruct (caught_by _ e); cbn; [|done].
    destruct Ha as [?|[->| ->]]; [done|done|]. by rewrite andb_comm.
  - unfold Bringup.check_and_run. by rewrite bool_decide_eq_true_2, (pbind_err _ _ _ _ _ Hc).
Qed.
End walk.

(** How the command ends after a walk. *)
Definition verdict (r : res exn (list (string * string))) : res exn unit :=
  match r with Err e => Err e | Ok [] => Ok tt | Ok (_ :: _) => exit_ 1 end.

(** C34: The main loop of a real, sequential bringup over any step table is the walk: steps before the --from-step target are left alone; a satisfied step is not executed; the others are executed in table order; with --continue-on-error a failed step that is not a gate is recorded and the walk goes on, any other failure ends it there with that exception; a walk to the end is success without failures and exit code 1 with some. *)
Theorem bringup_walks {W} `{!BringupHost W} `{!Threads W} exit_attr opts bctx client build1 build2 from_idx
    (steps : list (Bringup.BringupStep W)) (w w' : W) r :
  Steps.dry_run bctx = false -> Steps.parallel_builds bctx = false ->
  Bringup.main_loop exit_attr opts bctx client build1 build2 steps from_idx w = Some (r, w') <->
  exists x, Walk exit_attr opts bctx client from_idx (imap pair steps) [] w x w' /\ r = verdict x.
Proof.
  intros Hr Hs. unfold Bringup.main_loop. split.
  - intros H. apply pbind_inv in H as [(e & -> & H)|(fs & w1 & H & Hv)];
      apply walk_sound in H; try done; [by exists (Err e)|].
    exists (Ok fs). destruct fs; injection Hv as <- <-; by split.
  - intros (x & H & ->). eapply walk_complete in H; try done. destruct x as [fs|e].
    + rewrite (pbind_step _ _ _ _ _ H). by destruct fs.
    + by rewrite (pbind_err _ _ _ _ _ H).
Qed.

(** A dry run of the loop touches nothing. *)
Lemma dry_run_untouched {W} `{!BringupHost W} `{!Threads W} exit_attr opts bctx client build1 build2 from_idx
    (steps : list (Bringup.BringupStep W)) w :
  Steps.dry_run bctx = true ->
  Bringup.main_loop exit_attr opts bctx client build1 build2 steps from_idx w = Some (Ok tt, w).
Proof.
  intros Hd. unfold Bringup.main_loop.
  assert (H : forall l, pfold (Bringup.one_step exit_attr opts bctx client build1 build2 steps from_idx) [] l w =
                        Some (Ok [], w)).
  { intros l. induction l as [|[i s] l IH]; [done|]. cbn [pfold].
    assert (Hp : forall n, Bringup.parallel_at opts bctx n s = false).
    { intros n. unfold Bringup.parallel_at. rewrite Hd. cbn. by rewrite andb_false_r. }
    unfold mbind at 1, prog_bind at 1. unfold Bringup.one_step at 1. rewrite !Hp, Hd. exact IH. }
  by rewrite (pbind_step _ _ _ _ _ (H _)).
Qed.

(** ** An unreachable rover *)
Section unreachable.
Context {W : Type} `{!FileStore W} `{!SshHost W} `{!Spawns W} `{!LaptopHost W} `{!Terminal W} `{!BringupHost W}
  `{!Threads W}.
Variables (json_loads yaml_safe_load : string -> res exn PyVal) (yaml_dump : PyVal -> string).
Variables (exit_attr : exn -> string) (fuel : nat) (client : Ssh.JetsonClient).
Variable P : W -> Prop.

(** [P] survives an [echo ok] over ssh, which never succeeds, and a removal of the
    rover's host key. *)
Definition only_echoes : Prop :=
  forall a timeout env w r w', Ssh.build_ssh_argv client ["echo"; "ok"] = Ok a -> P w ->
    x_run a timeout env w = Some (r, w') -> P w' /\ forall rc out err, r = Ok (rc, out, err) -> rc <> 0.
Definition only_forgets : Prop :=
  forall w, P w -> exists r w', l_run ["ssh-keygen"; "-R"; LaptopConfig.host (Ssh.endpoint client)] None 30 w = Some (r, w') /\
    P w' /\ only [FileNotFoundError; TimeoutExpired] r.

Hypothesis Hecho : only_echoes.
Hypothesis Hforget : only_forgets.

Lemma keeps_echo t cs : keeps P (SshError :: cs) (Steps.run client ["echo"; "ok"] t).
Proof. apply keeps_command. intros a timeout env w r w' Hb HP Hx. by eapply Hecho. Qed.

(** The check fails. *)
Lemma ssh_check_fails w : P w -> exists w', Steps._check_ssh_ok client w = Some (Ok false, w') /\ P w'.
Proof.
  intros HP. unfold Steps._check_ssh_ok, Steps.or_return, pexcept, pcatch, mbind, prog_bind, Steps.run.
  destruct (run_ends_ssh client ["echo"; "ok"] false (Some (VInt 30)) [] w) as (r & w' & Hr & Hend). rewrite Hr.
  destruct (Ssh.build_ssh_argv client ["echo"; "ok"]) as [a|e0] eqn:Eb.
  - destruct Hend as (env & out & Hx & Ho). destruct (Hecho _ _ _ _ _ _ Eb HP Hx) as [HP' Hrc].
    exists w'. split; [|done]. destruct r as [res|[k m c]].
    + destruct out as [[[rc so] se]|eo]; [|done]. destruct Ho as [-> _]. unfold Ssh.ok. cbn.
      by destruct (Z.eqb_spec rc 0); [destruct (Hrc _ _ _ eq_refl)|].
    + assert (k = SshError) as -> by (destruct out as [[[rc so] se]|eo]; [apply Ho|exact Ho]). by rewrite caught_refl.
  - destruct Hend as [-> ([k m c] & -> & Hk)]. cbn in Hk. subst k. exists w. by rewrite caught_refl.
Qed.

Definition exits_3 {A} (r : res exn A) : Prop := match r with Ok _ => True | Err e => e = Exn TyperExit [] 3 end.

Lemma host_key_removal w : P w ->
  exists r w', JetsonRemote.remove_host_key (LaptopConfig.host (Ssh.endpoint client)) w = Some (r, w') /\ P w' /\ exits_3 r.
Proof.
  intros HP. destruct (Hforget w HP) as (r & w' & Hr & HP' & Ho).
  unfold JetsonRemote.remove_host_key, pexcept, pcatch, mbind, prog_bind. rewrite Hr.
  destruct r as [[[rc so] se]|[k m c]].
  - destruct (rc =? 0); do 2 eexists; by repeat split.
  - do 2 eexists. destruct Ho as [Hk|[Hk|[]]]; cbn in Hk; subst k; by repeat split.
Qed.

Variables (opts : Bringup.Options) (bctx : Steps.BringupContext).
Variables (build1 build2 : string -> Steps.BringupContext -> prog exn W unit).
Hypothesis Hfull : Bringup.step opts = None.
Hypothesis Hreal : Steps.dry_run bctx = false.

(** The first two steps of the table. *)
Lemma first_step steps fs w : P w ->
  exists r w', Bringup.one_step exit_attr opts bctx client build1 build2 steps None fs
    (0%nat, Bringup.a_step "clear-host-key" "Clear stale SSH host key" Steps._clear_host_key_needed
              Steps._run_clear_host_key false false) w = Some (r, w') /\ P w' /\ exits_3 r.
Proof.
  intros HP. unfold Bringup.one_step, Bringup.parallel_at. cbn [Bringup.name Bringup.a_step].
  rewrite (bool_decide_eq_false_2 ("clear-host-key" = "build-rtabmap")) by done.
  rewrite (bool_decide_eq_false_2 ("clear-host-key" = "build-depthai")) by done.
  rewrite andb_false_r, Hreal. cbn [andb]. rewrite (pbind_step (mret None) _ w None w eq_refl). cbn [Bringup.before].
  unfold Bringup.check_and_run. rewrite bool_decide_eq_true_2 by done. cbn [Bringup.check Bringup.execute Bringup.a_step].
  assert (Hc : keeps P [] (Steps._clear_host_key_needed client)).
  { apply keeps_except; [|intros e; apply keeps_ret]. apply keeps_bind; [apply keeps_echo|]. intros r. apply keeps_ret. }
  destruct (Hc w HP) as ([b|e] & w1 & H1 & HP1 & Hr1); [|destruct Hr1].
  rewrite (pbind_step _ _ _ _ _ H1). destruct b; [by exists (Ok fs), w1|].
  destruct (host_key_removal w1 HP1) as (r & w2 & H2 & HP2 & He).
  unfold pexcept, pcatch, mbind, prog_bind, Steps._run_clear_host_key. rewrite H2.
  destruct r as [[]|e]; [by exists (Ok fs), w2|]. cbn in He. subst e. cbn.
  destruct (Bringup.continue_on_error opts); do 2 eexists; by repeat split.
Qed.

Lemma second_step steps fs w : P w ->
  exists w', Bringup.one_step exit_attr opts bctx client build1 build2 steps None fs
    (1%nat, Bringup.a_step "check-ssh" "SSH connectivity" Steps._check_ssh_ok (fun _ => Steps._run_check_ssh) false true) w =
    Some (exit_ 3, w') /\ P w'.
Proof.
  intros HP. unfold Bringup.one_step, Bringup.parallel_at. cbn [Bringup.name Bringup.a_step].
  rewrite (bool_decide_eq_false_2 ("check-ssh" = "build-rtabmap")) by done.
  rewrite (bool_decide_eq_false_2 ("check-ssh" = "build-depthai")) by done.
  rewrite andb_false_r, Hreal. cbn [andb]. rewrite (pbind_step (mret None) _ w None w eq_refl). cbn [Bringup.before].
  unfold Bringup.check_and_run. rewrite bool_decide_eq_true_2 by done. cbn [Bringup.check Bringup.execute Bringup.gate Bringup.a_step].
  destruct (ssh_check_fails w HP) as (w1 & H1 & HP1). rewrite (pbind_step _ _ _ _ _ H1). exists w1. split; [|done].
  unfold pexcept, pcatch, mbind, prog_bind. cbn. by rewrite orb_true_r.
Qed.

Lemma unreachable_loop w : P w ->
  exists w', Bringup.main_loop exit_attr opts bctx client build1 build2
    (Bringup.BRINGUP_STEPS json_loads yaml_safe_load yaml_dump fuel) None w = Some (exit_ 3, w') /\ P w'.
Proof.
  intros HP. unfold Bringup.main_loop. set (steps := Bringup.BRINGUP_STEPS _ _ _ _).
  assert (exists rest, imap pair steps =
    (0%nat, Bringup.a_step "clear-host-key" "Clear stale SSH host key" Steps._clear_host_key_needed
              Steps._run_clear_host_key false false) ::
    (1%nat, Bringup.a_step "check-ssh" "SSH connectivity" Steps._check_ssh_ok (fun _ => Steps._run_check_ssh) false true) ::
    rest) as (rest & ->) by (eexists; reflexivity).
  cbn [pfold]. destruct (first_step steps [] w HP) as ([fs|e] & w1 & H1 & HP1 & He).
  - destruct (second_step steps fs w1 HP1) as (w2 & H2 & HP2). exists w2. split; [|done].
    apply pbind_err. by rewrite (pbind_step _ _ _ _ _ H1), (pbind_err _ _ _ _ _ H2).
  - exists w1. split; [|done]. cbn in He. subst e. by rewrite (pbind_err _ _ _ _ _ (pbind_err _ _ _ _ _ H1)).
Qed.
End unreachable.

(** C16: A full bringup of a rover on which [echo ok] over ssh never succeeds ends with exit code 3, with --continue-on-error and --parallel-builds too, and anything that an [echo ok] and a removal of the host key leave true is still true: no other step has run a command on the rover or on the laptop. *)
Theorem unreachable_rover_untouched {W} `{!FileStore W} `{!SshHost W} `{!Spawns W} `{!LaptopHost W} `{!Terminal W}
    `{!BringupHost W} `{!Threads W} json_loads yaml_safe_load yaml_dump expanduser dflt exit_attr fuel obj fl opts
    (P : W -> Prop) root client (w w1 w2 : W) :
  Bringup.step opts = None -> Bringup.from_step opts = None -> obj_dry_run obj = false ->
  Steps._find_project_root fuel w = Some (Ok root, w1) ->
  JetsonRemote.connect expanduser yaml_safe_load dflt obj fl w1 = Some (Ok client, w2) ->
  only_echoes client P -> only_forgets client P -> P w2 ->
  exists w', Bringup.bringup_command json_loads yaml_safe_load yaml_dump expanduser dflt exit_attr fuel obj fl opts w =
    Some (exit_ 3, w') /\ P w'.
Proof.
  intros Hs Hf Hd Hroot Hc He Hk HP. unfold Bringup.bringup_command, Bringup.usage_error, Bringup.chosen_steps.
  rewrite Hs, Hf. rewrite (bool_decide_eq_false_2 (is_Some None)) by (by intros [? ?]). cbn [andb orb].
  rewrite (pbind_step _ _ _ _ _ Hroot), (pbind_step _ _ _ _ _ Hc), (pbind_step (mret None) _ w2 None w2 eq_refl).
  by apply unreachable_loop.
Qed.

(** ** The waits are bounded *)

(** A host on which time passes: a sleep lasts at least as long as asked, and
    nothing turns the clocks back.  [mono] and [wall] are the two clocks. *)
Class Passing (W : Type) `{!SshHost W} `{!BringupHost W} (mono wall : W -> Z) : Prop := {
  ps_monotonic w : b_monotonic w = Some (Ok (mono w), w);
  ps_time w : b_time w = Some (Ok (wall w), w);
  ps_sleep n w : 0 <= n -> exists w', b_sleep n w = Some (Ok tt, w') /\ mono w + n <= mono w' /\ wall w + n <= wall w';
  ps_run argv timeout env w r w' : x_run argv timeout env w = Some (r, w') -> mono w <= mono w' /\ wall w <= wall w'
}.

(** A poll that advances a clock by [d] before it goes round again is over after
    as many rounds as fit before its deadline. *)
Lemma poll_ends {W St A} (clk : W -> Z) (d deadline : Z) (body : St -> prog exn W (St + A)) (Q : res exn A -> Prop) :
  0 < d ->
  (forall st w, exists r w', body st w = Some (r, w') /\
     match r with
     | Ok (inl _) => clk w < deadline /\ clk w + d <= clk w'
     | Ok (inr a) => Q (Ok a)
     | Err e => Q (Err e)
     end) ->
  forall n st w, deadline - clk w <= d * Z.of_nat n ->
  exists r w', ploop (Datatypes.S n) body st w = Some (r, w') /\ Q r.
Proof.
  intros Hd Hb n. induction n as [|n IH]; intros st w Hn; destruct (Hb st w) as (r & w1 & H1 & HQ);
    cbn [ploop]; unfold mbind, prog_bind; rewrite H1; destruct r as [[st'|a]|e];
    try (by do 2 eexists); destruct HQ as [Hlt Hle]; [lia|].
  apply IH. lia.
Qed.

Lemma ploop_more {W St A} (body : St -> prog exn W (St + A)) n m st w r w' :
  (n <= m)%nat -> ploop n body st w = Some (r, w') -> ploop m body st w = Some (r, w').
Proof.
  revert m st w. induction n as [|n IH]; intros [|m] st w Hle; cbn [ploop]; try done; [lia|].
  unfold mbind, prog_bind. destruct (body st w) as [[[[st'|a]|e] w1]|]; try done. apply IH. lia.
Qed.

Section waits.
Context {W : Type} `{!SshHost W} `{!Spawns W} `{!BringupHost W} (mono wall : W -> Z) `{!Passing W mono wall}.
Variables (json_loads : string -> res exn PyVal) (client : Ssh.JetsonClient).

(** The clocks do not run backwards over a command. *)
Lemma command_time argv t cs m0 u0 :
  keeps (fun w => m0 <= mono w /\ u0 <= wall w) (SshError :: cs) (Steps.run client argv t).
Proof.
  apply keeps_command. intros a timeout env w r w' _ [H1 H2] Hx.
  destruct (ps_run (mono := mono) (wall := wall) _ _ _ _ _ _ Hx). lia.
Qed.
Hint Resolve command_time : keeps.

Lemma reconnect_step deadline st w : exists r w', Steps.reconnect_round client deadline st w = Some (r, w') /\
  match r with
  | Ok (inl _) => mono w < deadline /\ mono w + sec 10 <= mono w'
  | Ok (inr _) => True
  | Err _ => False
  end.
Proof.
  unfold Steps.reconnect_round. rewrite (pbind_step _ _ _ _ _ (ps_monotonic w)).
  destruct (Z.ltb_spec (mono w) deadline) as [Hlt|Hge]; [|by do 2 eexists].
  destruct (ps_sleep (mono := mono) (sec 10) w) as (w1 & H1 & Hm & Hw); [done|]. rewrite (pbind_step _ _ _ _ _ H1).
  assert (Hk : keeps (fun w => mono w1 <= mono w /\ wall w1 <= wall w) []
    (Steps.or_return false (result ← Steps.run client ["echo"; "ok"] 15; mret (Ssh.ok result)))) by keep.
  destruct (Hk w1 (conj (Z.le_refl _) (Z.le_refl _))) as ([b|e] & w2 & H2 & HP & Hr); [|destruct Hr].
  rewrite (pbind_step _ _ _ _ _ H2). cbn beta in HP. destruct b; do 2 eexists; (split; [reflexivity|]); cbn; [done|lia].
Qed.

Lemma suppressed_time argv t w : exists w', Steps.quietly client argv t w = Some (Ok tt, w').
Proof.
  assert (Hk : keeps (fun w' => mono w <= mono w' /\ wall w <= wall w') [] (Steps.quietly client argv t)).
  { apply keeps_except; [keep|]. intros e. keep. }
  destruct (Hk w (conj (Z.le_refl _) (Z.le_refl _))) as ([[]|e] & w' & H & _ & Hr); [by exists w'|destruct Hr].
Qed.

Lemma reconnect_ends fuel w : (19 <= fuel)%nat ->
  exists r w', Steps.reboot_and_reconnect fuel client w = Some (r, w') /\ (r = Ok tt \/ r = exit_ 3).
Proof.
  intros Hf. unfold Steps.reboot_and_reconnect. destruct (suppressed_time ["sudo"; "reboot"] 10 w) as (w1 & H1).
  rewrite (pbind_step _ _ _ _ _ H1), (pbind_step _ _ _ _ _ (ps_monotonic w1)).
  destruct (poll_ends mono (sec 10) (mono w1 + sec 180) (Steps.reconnect_round client (mono w1 + sec 180))
              (fun r => match r with Ok _ => True | Err _ => False end) ltac:(done)
              (reconnect_step (mono w1 + sec 180))
              18%nat tt w1 ltac:(unfold sec; lia)) as ([b|e] & w2 & H2 & HQ); [|done].
  apply (ploop_more _ _ _ _ _ _ _ Hf) in H2. rewrite (pbind_step _ _ _ _ _ H2).
  destruct b; do 2 eexists; (split; [done|]); tauto.
Qed.

Lemma vslam_step deadline st w : exists r w', Steps.vslam_round client deadline st w = Some (r, w') /\
  match r with
  | Ok (inl _) => wall w < deadline /\ wall w + sec 5 <= wall w'
  | Ok (inr _) => True
  | Err e => In (exn_class e) [SshError; TyperExit]
  end.
Proof.
  unfold Steps.vslam_round. rewrite (pbind_step _ _ _ _ _ (ps_time w)).
  destruct (Z.ltb_spec (wall w) deadline) as [Hlt|Hge]; cbn [negb].
  2: { do 2 eexists. split; [done|]. by right; left. }
  destruct (ps_sleep (mono := mono) (sec 5) w) as (w1 & H1 & Hm & Hw); [done|]. rewrite (pbind_step _ _ _ _ _ H1).
  assert (Hk : keeps (fun w => mono w1 <= mono w /\ wall w1 <= wall w) []
    (Steps.or_return None (r ← Steps.run client
       ["systemctl is-active mower-vslam.service mower-vslam-bridge.service"] 10; mret (Some r)))) by keep.
  destruct (Hk w1 (conj (Z.le_refl _) (Z.le_refl _))) as ([[res|]|e] & w2 & H2 & HP & Hr); [| |destruct Hr]; rewrite (pbind_step _ _ _ _ _ H2); cbn beta in HP.
  2: { do 2 eexists. split; [reflexivity|]. cbn. lia. }
  cbv zeta. destruct (forallb _ _); [by do 2 eexists|]. destruct (existsb _ _).
  - destruct (command_time ["sudo systemctl status mower-vslam-bridge.service --no-pager -l"] 10 [] (mono w2) (wall w2)
                w2 (conj (Z.le_refl _) (Z.le_refl _))) as ([diag|e] & w3 & H3 & _ & Hr3).
    + rewrite (pbind_step _ _ _ _ _ H3). do 2 eexists. split; [done|]. by right; left.
    + rewrite (pbind_err _ _ _ _ _ H3). do 2 eexists. split; [done|]. destruct Hr3 as [<-|[]]. by left.
  - do 2 eexists. split; [reflexivity|]. cbn. lia.
Qed.

Lemma probe_step deadline st w : exists r w', Steps.probe_round json_loads client deadline st w = Some (r, w') /\
  match r with
  | Ok (inl _) => mono w < deadline /\ mono w + sec 10 <= mono w'
  | _ => True
  end.
Proof.
  unfold Steps.probe_round. cbv zeta. rewrite (pbind_step _ _ _ _ _ (ps_monotonic w)).
  destruct (Z.ltb_spec (mono w) deadline) as [Hlt|Hge]; cbn [negb]; [|by do 2 eexists].
  assert (Hk : keeps (fun w' => mono w <= mono w' /\ wall w <= wall w') []
    (Steps.or_return None (r ← Steps.run client ["~/.local/bin/mower-jetson"; "probe"; "--json"] 30; mret (Some r))))
    by keep.
  destruct (Hk w (conj (Z.le_refl _) (Z.le_refl _))) as ([polled|e] & w1 & H1 & HP & Hr); [|destruct Hr]. rewrite (pbind_step _ _ _ _ _ H1). cbn beta in HP.
  assert (Hw : forall st', exists (r : res exn ((option PyVal * list PyVal) + (option PyVal * list PyVal))) w',
    (_ ← b_sleep (sec 10); mret (inl st')) w1 = Some (r, w') /\
    match r with
    | Ok (inl _) => mono w < deadline /\ mono w + sec 10 <= mono w'
    | _ => True
    end).
  { intros st'. destruct (ps_sleep (mono := mono) (sec 10) w1) as (w2 & H2 & Hm & _); [done|].
    rewrite (pbind_step _ _ _ _ _ H2). do 2 eexists. split; [reflexivity|]. cbn. lia. }
  destruct polled as [res|]; [|apply Hw]. destruct (_ && _); [apply Hw|].
  assert (Hj : exists r, pexcept [JSONDecodeError; ValueError] (v ← plift (json_loads (Ssh.stdout res)); mret (Some v))
                      (fun _ => mret None) w1 = Some (r, w1)).
  { unfold pexcept, pcatch, mbind, prog_bind, plift. destruct (json_loads _) as [v|e]; [by eexists|].
    destruct (caught_by _ e); by eexists. }
  destruct Hj as ([[v|]|e] & Hj); [rewrite (pbind_step _ _ _ _ _ Hj)|by rewrite (pbind_step _ _ _ _ _ Hj); apply Hw|].
  2: { rewrite (pbind_err _ _ _ _ _ Hj). by do 2 eexists. }
  destruct (Steps.critical_of v) as [fails|e]; [|by do 2 eexists].
  rewrite (pbind_step (plift (Ok fails)) _ w1 fails w1 eq_refl).
  destruct (Steps.members false Steps._HW_DEPENDENT fails) as [[|f infra]|e]; [by do 2 eexists| |by do 2 eexists].
  rewrite (pbind_step (plift (Ok (f :: infra))) _ w1 (f :: infra) w1 eq_refl). apply Hw.
Qed.

Lemma final_verify_ends fuel bctx w : (19 <= fuel)%nat ->
  exists r w', Steps._run_final_verify json_loads fuel client bctx w = Some (r, w').
Proof.
  intros Hf. unfold Steps._run_final_verify.
  destruct (reconnect_ends fuel w Hf) as (r & w1 & H1 & [->| ->]); [|by rewrite (pbind_err _ _ _ _ _ H1); do 2 eexists].
  rewrite (pbind_step _ _ _ _ _ H1). destruct (ps_sleep (mono := mono) (sec 30) w1) as (w2 & H2 & _); [done|].
  rewrite (pbind_step _ _ _ _ _ H2), (pbind_step _ _ _ _ _ (ps_monotonic w2)).
  destruct (poll_ends mono (sec 10) (mono w2 + sec 120) (Steps.probe_round json_loads client (mono w2 + sec 120))
              (fun _ => True) ltac:(done)
              (probe_step (mono w2 + sec 120))
              18%nat (None, []) w2 ltac:(unfold sec; lia)) as ([[checks fails]|e] & w3 & H3 & _);
    apply (ploop_more _ _ _ _ _ _ _ Hf) in H3.
  - rewrite (pbind_step _ _ _ _ _ H3). destruct checks as [[]|]; by do 2 eexists.
  - rewrite (pbind_err _ _ _ _ _ H3). by do 2 eexists.
Qed.

Lemma vslam_wait_ends fuel w : (25 <= fuel)%nat ->
  exists r w', ploop fuel (Steps.vslam_round client (wall w + sec 120)) tt w = Some (r, w') /\
    only [SshError; TyperExit] r.
Proof.
  intros Hf.
  destruct (poll_ends wall (sec 5) (wall w + sec 120) (Steps.vslam_round client (wall w + sec 120))
              (only [SshError; TyperExit]) ltac:(done)
              (vslam_step (wall w + sec 120))
              24%nat tt w ltac:(unfold sec; lia)) as (r & w' & H & HQ).
  exists r, w'. split; [by eapply ploop_more|done].
Qed.
End waits.

(** C35: When sleeping takes time and the clocks do not run backwards, the waits of the bringup end whatever the rover answers: the reboot step comes back within 19 rounds, with the rover reachable or exit code 3; the wait for the VSLAM services ends within 25 rounds, normally, with exit code 3 or with SshError; the final verification ends too. *)
Theorem waits_end {W} `{!SshHost W} `{!Spawns W} `{!BringupHost W} mono wall `{!Passing W mono wall} json_loads client
    bctx fuel (w : W) :
  (25 <= fuel)%nat ->
  (exists r w', Steps.reboot_and_reconnect fuel client w = Some (r, w') /\ (r = Ok tt \/ r = exit_ 3)) /\
  (exists r w', ploop fuel (Steps.vslam_round client (wall w + sec 120)) tt w = Some (r, w') /\
     only [SshError; TyperExit] r) /\
  (exists r w', Steps._run_final_verify json_loads fuel client bctx w = Some (r, w')).
Proof.
  intros Hf. split; [|split].
  - apply (reconnect_ends mono wall). lia.
  - by apply (vslam_wait_ends mono wall).
  - apply (final_verify_ends mono wall). lia.
Qed.

(** ** Where the code does not do what it says *)

(** ssh sends the remote shell the arguments joined by blanks: the shell that is
    to rename a corrupt database gets [mv] alone as its command. *)
Definition remote_words (argv : list string) : list string := S.words (S.join " " argv).

Lemma quarantine_words :
  firstn 4 (remote_words ["bash"; "-c"; Steps.quarantine_cmd Steps.default_db]) =
  ["bash"; "-c"; "mv"; "/var/lib/mower/rtabmap.db"].
Proof. vm_compute. reflexivity. Qed.

(** The integrity check reaches the rover's shell as two words, and what follows
    the semicolon as another command. *)
Lemma pragma_words :
  remote_words ["sqlite3"; Steps.default_db; "PRAGMA integrity_check;"] =
  ["sqlite3"; "/var/lib/mower/rtabmap.db"; "PRAGMA"; "integrity_check;"].
Proof. vm_compute. reflexivity. Qed.

(** No answer at all counts as both services active. *)
Lemma no_status_is_active :
  forallb (fun s => bool_decide (s = "active")) (Steps.service_statuses "") = true.
Proof. vm_compute. reflexivity. Qed.

(** ** A rover for the witnesses: it counts the commands, and answers each with 255 *)
Definition bench : Type := Z * list (list string).

Definition bench_files : FileStore bench := {|
  f_get u t w := Some (raise_ URLError [], w);
  f_mkdir p w := Some (Ok tt, w);
  f_write p d w := Some (Ok tt, w);
  f_exists p w := Some (Ok (bool_decide (p = "/repo/pyproject.toml")), w);
  f_read p w := Some (raise_ FileNotFoundError [], w);
  f_unlink p w := Some (Ok tt, w) |}.
Definition bench_ssh : SshHost bench := {|
  x_which n w := Some (Ok (Some (Unit.fill ["/usr/bin/"; n])), w);
  x_environ w := Some (Ok [], w);
  x_run argv t env w := Some (Ok (255, "", "host unreachable"), (w.1 + 1, w.2 ++ [argv]));
  x_popen argv env w := Some (Ok tt, w);
  x_readline w := Some (Ok None, w);
  x_wait t w := Some (Ok 255, w);
  x_kill w := Some (Ok tt, w);
  x_stderr w := Some (Ok "", w) |}.
Definition bench_laptop : LaptopHost bench := {| l_run argv cwd t w := Some (Ok (0, "", ""), w) |}.
Definition bench_terminal : Terminal bench := {| t_input m w := Some (raise_ EOFError [], w) |}.
Definition bench_host : BringupHost bench := {|
  b_here := "/repo/src/mower_rover/cli"; b_home := "/home/me";
  b_is_dir p w := Some (Ok false, w); b_is_file p w := Some (Ok false, w);
  b_glob d p w := Some (Ok [], w); b_rglob d w := Some (Ok [], w);
  b_mkdtemp w := Some (Ok "/tmp/x", w); b_rmdir d w := Some (Ok tt, w); b_rmtree d w := Some (Ok tt, w);
  b_resource p n w := Some (Ok "/tmp/r", w); b_today w := Some (Ok "2025-01-01", w);
  b_monotonic w := Some (Ok w.1, w); b_time w := Some (Ok w.1, w);
  b_sleep n w := Some (Ok tt, (w.1 + n, w.2));
  b_format v f := py_str v |}.
Definition bench_threads : Threads bench := {| b_second_first w := Some (Ok false, w) |}.
#[local] Existing Instances bench_files bench_ssh bench_laptop bench_terminal bench_host bench_threads.

#[local] Instance bench_spawns : Spawns bench.
Proof. split; [split; intros; [by do 2 eexists|by eexists]|done]. Defined.
#[local] Instance bench_passing : Passing bench fst fst.
Proof.
  split; try done.
  - intros n [c l] Hn. eexists. split; [reflexivity|]. cbn. lia.
  - intros argv t env [c l] r w' [= <- <-]. cbn. lia.
Defined.

Definition bench_client : Ssh.JetsonClient :=
  {| Ssh.endpoint := demo_endpoint; Ssh.correlation_id := None; Ssh.strict_host_keys := "accept-new";
     Ssh.connect_timeout_s := 10; Ssh._ssh := Some "/usr/bin/ssh"; Ssh._scp := Some "/usr/bin/scp" |}.
Definition bench_bctx (dry : bool) : Steps.BringupContext :=
  {| Steps.project_root := "/repo"; Steps.dry_run := dry; Steps.yes := true; Steps.correlation_id := None;
     Steps.parallel_builds := false |}.
Definition bench_opts (go_on : bool) : Bringup.Options :=
  {| Bringup.step := None; Bringup.from_step := None; Bringup.continue_on_error := go_on; Bringup.o_parallel := true;
     Bringup.o_yes := true |}.

Lemma db_check_never_raises_witness : exists w', Steps._run_db_check bench_client (bench_bctx false) (0, []) = Some (Ok tt, w').
Proof. exact (db_check_never_raises bench_client (bench_bctx false) ((0, []) : bench)). Defined.

Lemma waits_end_witness :
  (25 <= 30)%nat /\ exists r w', Steps.reboot_and_reconnect 30 bench_client (0, []) = Some (r, w') /\ (r = Ok tt \/ r = exit_ 3).
Proof.
  assert (H : (25 <= 30)%nat) by lia. split; [exact H|].
  exact (proj1 (waits_end fst fst (fun _ => Ok VNone) bench_client (bench_bctx false) 30 ((0, []) : bench) H)).
Defined.

(** A failing step that is not a gate, then a satisfied one. *)
Definition two_steps : list (Bringup.BringupStep bench) :=
  [Bringup.a_step "install-uv" "uv" Steps._uv_installed Steps._run_install_uv false false;
   Bringup.a_step "done" "nothing to do" (fun _ => mret true) (fun _ _ => mret tt) false false].

Lemma bringup_walks_witness :
  exists x w', Walk (fun _ => "?") (bench_opts true) (bench_bctx false) bench_client None (imap pair two_steps) [] (0, []) x w' /\
    exit_ 1 = verdict x.
Proof.
  destruct (Bringup.main_loop (fun _ => "?") (bench_opts true) (bench_bctx false) bench_client (fun _ _ => mret tt)
              (fun _ _ => mret tt) two_steps None (0, [])) as [[r w']|] eqn:E; [|vm_compute in E; discriminate].
  assert (r = exit_ 1) as Hr by (vm_compute in E; injection E as <- _; reflexivity).
  destruct (proj1 (bringup_walks (fun _ => "?") (bench_opts true) (bench_bctx false) bench_client (fun _ _ => mret tt)
              (fun _ _ => mret tt) None two_steps (0, []) w' r eq_refl eq_refl) E) as (x & Hx & Hv).
  exists x, w'. split; [exact Hx|]. by rewrite <- Hv, Hr.
Defined.

Definition bench_flags : JetsonRemote.Flags :=
  {| JetsonRemote.fl_host := Some "10.0.0.7"; JetsonRemote.fl_user := Some "rover"; JetsonRemote.fl_port := None;
     JetsonRemote.fl_key := None; JetsonRemote.fl_config := None; JetsonRemote.fl_strict := "accept-new" |}.
Definition reached : Ssh.JetsonClient :=
  {| Ssh.endpoint := {| LaptopConfig.host := "10.0.0.7"; LaptopConfig.user := "rover"; LaptopConfig.port := VInt 22;
                        LaptopConfig.key_path := None |};
     Ssh.correlation_id := None; Ssh.strict_host_keys := "accept-new";
     Ssh.connect_timeout_s := 10; Ssh._ssh := Some "/usr/bin/ssh"; Ssh._scp := Some "/usr/bin/scp" |}.

(** Every command that has run is an [echo ok]. *)
Definition echoes (w : bench) : Prop := Forall (fun argv => list.last argv = Some "ok") w.2.

Lemma unreachable_rover_untouched_witness :
  exists w', Bringup.bringup_command (fun _ => Ok VNone) (fun _ => Ok VNone) (fun _ => "") (fun p => p) "/cfg" (fun _ => "?")
    9 {| obj_dry_run := false; obj_correlation_id := None |} bench_flags (bench_opts true) ((0, []) : bench) =
    Some (exit_ 3, w') /\ echoes w'.
Proof.
  apply (unreachable_rover_untouched _ _ _ _ "/cfg" _ 9 _ _ _ echoes "/repo" reached (0, []) (0, []) (0, [])).
  - reflexivity.
  - reflexivity.
  - reflexivity.
  - vm_compute. reflexivity.
  - vm_compute. reflexivity.
  - intros a t env w r w' Ha HP [= <- <-]. split; [|intros ? ? ? [= <-]; lia].
    apply Forall_app. split; [exact HP|]. constructor; [|constructor]. injection Ha as <-. vm_compute. reflexivity.
  - intros w HP. exists (Ok (0, "", "")), w. repeat split. exact HP.
  - constructor.
Defined.
