(* ===== verification/Setup.v ===== *)
(** * The setup wizard and the health command (cli/setup.py)

    The six steps of the first connection to the rover, with the context they
    share and change, the loop over them, and the laptop's health command.
    Progress messages are not modelled. *)

From stdpp Require Import base gmap list strings option.
From Stdlib Require Import Ascii ZArith Lia.
From S2P Require Import Prelude Float64 PyVal Safety Files Config.
From S2P Require Import Units ParamsCli Probe Ssh Remote BringupSteps.
Local Open Scope Z_scope.

Class SetupHost (W : Type) := {
  (** [sys.platform == "win32"], [Path.home()] *)
  su_windows : bool;
  su_home : string;
  (** [typer.prompt(text, default=...)] *)
  su_prompt : string -> string -> prog exn W string;
  (** [subprocess.run(argv, capture_output=True, timeout)]: the return code *)
  su_quiet : list string -> Z -> prog exn W Z;
  (** the same on the operator's terminal, and through the shell *)
  su_tty : list string -> Z -> prog exn W Z;
  su_shell : string -> Z -> prog exn W Z
}.

Module Setup.
(** The fields the steps read and write; [force] and [correlation_id] included. *)
Record SetupContext : Type := {
  host : option string; user : option string; key_path : string; config_path : option string;
  force : bool; correlation_id : option string }.

Definition _DEFAULT_HOST : string := "10.0.0.42".
Definition _DEFAULT_USER : string := "mower".

Definition with_endpoint (ctx : SetupContext) (h u : option string) : SetupContext :=
  {| host := h; user := u; key_path := key_path ctx; config_path := config_path ctx; force := force ctx;
     correlation_id := correlation_id ctx |}.

(** [if s], of an optional string. *)
Definition truthy (s : option string) : bool := match s with None | Some "" => false | Some _ => true end.

(** [assert ctx.host and ctx.user] *)
Definition asserted (ctx : SetupContext) : res exn (string * string) :=
  match host ctx, user ctx with
  | Some h, Some u =>
      if truthy (Some h) && truthy (Some u) then Ok (h, u) else raise_ AssertionError []
  | _, _ => raise_ AssertionError []
  end.

(** [path.with_suffix(".pub")] *)
Definition with_pub (path : string) : string :=
  let suffix := suffix_of path in
  Unit.fill [S.ofl (firstn (String.length path - String.length suffix) (S.chars path)); ".pub"].

Section setup.
Context {W : Type} `{!FileStore W} `{!SshHost W} `{!LaptopHost W} `{!SetupHost W}.
Variables (json_loads yaml_safe_load : string -> res exn PyVal) (yaml_safe_dump : bool -> PyVal -> string).
Variable expanduser : string -> string.
Variable DEFAULT_LAPTOP_CONFIG_PATH : string.

Definition _DEFAULT_KEY_PATH : string := join_path (join_path su_home ".ssh") "mower_id_ed25519".

(** A step changes the context it is given. *)
Abbreviation Check := (SetupContext -> prog exn W (bool * SetupContext)).
Abbreviation Execute := (SetupContext -> prog exn W SetupContext).

Definition load_config (ctx : SetupContext) : prog exn W LaptopConfig.LaptopConfig :=
  LaptopConfig.load_laptop_config expanduser yaml_safe_load DEFAULT_LAPTOP_CONFIG_PATH (config_path ctx).

(** ** SSH key *)
Definition _key_exists : Check := fun ctx => e ← f_exists (key_path ctx); mret (e, ctx).
Definition _generate_key : Execute := fun ctx =>
  let key := key_path ctx in
  _ ← f_mkdir (parent_of key);
  '(rc, _, _) ← pexcept [FileNotFoundError]
    (l_run ["ssh-keygen"; "-t"; "ed25519"; "-f"; key; "-N"; ""; "-C"; "mower-rover-setup"] None 30)
    (fun _ => plift (exit_ 3));
  if rc =? 0 then mret ctx else plift (exit_ 3).

(** ** Endpoint *)
Definition _endpoint_configured : Check := fun ctx =>
  if truthy (host ctx) && truthy (user ctx) then mret (true, ctx)
  else
    env ← x_environ;
    let env_host := od_get env "MOWER_JETSON_HOST" in
    let env_user := od_get env "MOWER_JETSON_USER" in
    if truthy env_host && truthy env_user then mret (true, with_endpoint ctx env_host env_user)
    else
      cfg ← pexcept [LaptopConfigError] (c ← load_config ctx; mret (LaptopConfig.jetson c)) (fun _ => mret None);
      match cfg with
      | Some e =>
          if truthy (Some (LaptopConfig.host e)) && truthy (Some (LaptopConfig.user e))
          then mret (true, with_endpoint ctx (Some (LaptopConfig.host e)) (Some (LaptopConfig.user e)))
          else mret (false, ctx)
      | None => mret (false, ctx)
      end.
Definition _prompt_endpoint : Execute := fun ctx =>
  h ← (if truthy (host ctx) then mret (host ctx)
       else a ← su_prompt "Jetson host / IP" _DEFAULT_HOST; mret (Some a));
  u ← (if truthy (user ctx) then mret (user ctx)
       else a ← su_prompt "Jetson SSH user" _DEFAULT_USER; mret (Some a));
  mret (with_endpoint ctx h u).

(** ** Connectivity *)
Definition ping_argv (h : string) : list string :=
  if su_windows then ["ping"; "-n"; "1"; "-w"; "3000"; h] else ["ping"; "-c"; "1"; "-W"; "3"; h].
(** [try: rc = ...  except (FileNotFoundError, TimeoutExpired): return False] *)
Definition succeeds (argv : list string) (t : Z) : prog exn W bool :=
  pexcept [FileNotFoundError; TimeoutExpired] (rc ← su_quiet argv t; mret (rc =? 0)) (fun _ => mret false).
Definition _ping_ok (ctx : SetupContext) : prog exn W bool :=
  match host ctx with
  | None => plift (raise_ AssertionError [])
  | Some h => succeeds (ping_argv h) 10
  end.
Definition ping_check : Check := fun ctx => b ← _ping_ok ctx; mret (b, ctx).
Definition _check_connectivity : Execute := fun ctx =>
  b ← _ping_ok ctx; if (b : bool) then mret ctx else plift (exit_ 3).

(** ** Key deployment *)
Definition auth_argv (ssh_bin key target : string) : list string :=
  [ssh_bin; "-o"; "BatchMode=yes"; "-o"; "ConnectTimeout=5"; "-o"; "StrictHostKeyChecking=accept-new";
   "-o"; "PasswordAuthentication=no"; "-i"; key; target; "true"].
Definition target_of (h u : string) : string := Unit.fill [u; "@"; h].
Definition _key_auth_works : Check := fun ctx =>
  '(h, u) ← plift (asserted ctx);
  ssh_bin ← x_which "ssh";
  match ssh_bin with
  | None => mret (false, ctx)
  | Some ssh_bin => b ← succeeds (auth_argv ssh_bin (key_path ctx) (target_of h u)) 15; mret (b, ctx)
  end.

Definition remote_cmd : string :=
  Unit.fill ["mkdir -p ~/.ssh && chmod 700 ~/.ssh"; " && ";
             "cat >> ~/.ssh/authorized_keys && chmod 600 ~/.ssh/authorized_keys"].
Definition windows_command (pub ssh_bin target : string) : string :=
  Unit.fill ["type "; Unit.dq; pub; Unit.dq; " | "; Unit.dq; ssh_bin; Unit.dq;
             " -o StrictHostKeyChecking=accept-new "; target; " "; Unit.dq; remote_cmd; Unit.dq].
Definition posix_command (pub ssh_bin target : string) : string :=
  Unit.fill ["cat "; Unit.dq; pub; Unit.dq; " | "; Unit.dq; ssh_bin; Unit.dq;
             " -o StrictHostKeyChecking=accept-new "; target; " '"; remote_cmd; "'"].

Definition _deploy_key : Execute := fun ctx =>
  '(h, u) ← plift (asserted ctx);
  let pub := with_pub (key_path ctx) in
  e ← f_exists pub;
  if negb e then plift (exit_ 3)
  else
    ssh_bin ← x_which "ssh";
    match ssh_bin with
    | None => plift (exit_ 3)
    | Some ssh_bin =>
        let target := target_of h u in
        rc ← pexcept [TimeoutExpired]
          (if su_windows then su_shell (windows_command pub ssh_bin target) 60
           else
             ssh_copy_id ← x_which "ssh-copy-id";
             match ssh_copy_id with
             | Some ((String _ _) as bin) => su_tty [bin; "-i"; pub; target] 60
             | _ => su_shell (posix_command pub ssh_bin target) 60
             end)
          (fun _ => plift (exit_ 3));
        if rc =? 0 then mret ctx else plift (exit_ 3)
    end.

(** ** Configuration *)
Definition _config_exists : Check := fun ctx =>
  '(h, u) ← plift (asserted ctx);
  cfg ← pexcept [LaptopConfigError] (c ← load_config ctx; mret (LaptopConfig.jetson c)) (fun _ => mret None);
  mret (match cfg with
        | None => false
        | Some e => bool_decide (LaptopConfig.host e = h) && bool_decide (LaptopConfig.user e = u) &&
                    bool_decide (LaptopConfig.key_path e = Some (key_path ctx))
        end, ctx).
Definition endpoint_of (ctx : SetupContext) (h u : string) : LaptopConfig.JetsonEndpoint :=
  {| LaptopConfig.host := h; LaptopConfig.user := u; LaptopConfig.port := VInt 22;
     LaptopConfig.key_path := Some (key_path ctx) |}.
Definition _write_config : Execute := fun ctx =>
  '(h, u) ← plift (asserted ctx);
  existing ← pexcept [LaptopConfigError] (load_config ctx)
               (fun _ => mret {| LaptopConfig.jetson := None; LaptopConfig.l_extra := [] |});
  _ ← LaptopConfig.save_laptop_config yaml_safe_dump DEFAULT_LAPTOP_CONFIG_PATH
        {| LaptopConfig.jetson := Some (endpoint_of ctx h u); LaptopConfig.l_extra := LaptopConfig.l_extra existing |}
        (config_path ctx);
  mret ctx.

(** ** Verification *)
Definition probe_argv : list string := ["mower-jetson"; "probe"; "--json"].
Definition remote_probe (ctx : SetupContext) : prog exn W Ssh.SshResult :=
  '(h, u) ← plift (asserted ctx);
  client ← Ssh.make_client (endpoint_of ctx h u) (correlation_id ctx) "accept-new" 10 None None;
  Ssh.run client probe_argv false (Some (VFloat (F.of_Z 30))) [].
Definition _remote_probe_ok : Check := fun ctx =>
  result ← pexcept [SshError] (r ← remote_probe ctx; mret (Some r)) (fun _ => mret None);
  match result with
  | None => mret (false, ctx)
  | Some result =>
      if negb (Ssh.ok result) then mret (false, ctx)
      else
        checks ← pexcept [ValueError; JSONDecodeError]
          (v ← plift (json_loads (Ssh.stdout result)); mret (Some v)) (fun _ => mret None);
        match checks with
        | None => mret (false, ctx)
        | Some checks =>
            critical_fails ← plift (Steps.critical_of checks);
            mret (bool_decide (length critical_fails = 0%nat), ctx)
        end
  end.

(** What is read of a check to print its line. *)
Definition probe_line (c : PyVal) : res exn unit :=
  status ← Probe.get_attr c "status" (VStr "?");
  _ ← Probe.get_attr c "name" (VStr "?");
  _ ← Probe.get_attr c "detail" (VStr "");
  Steps.hashable status.
Definition _run_remote_probe : Execute := fun ctx =>
  result ← pexcept [SshError] (remote_probe ctx) (fun _ => plift (exit_ 3));
  if negb (Ssh.ok result) then plift (exit_ 3)
  else
    checks ← pexcept [ValueError; JSONDecodeError] (plift (json_loads (Ssh.stdout result))) (fun _ => plift (exit_ 3));
    items ← plift (Probe.iter_value checks);
    _ ← plift (rmap probe_line items);
    mret ctx.

(** ** The wizard *)
Record SetupStep : Type := { name : string; description : string; check : Check; execute : Execute }.

Definition SETUP_STEPS : list SetupStep :=
  [{| name := "ssh_key"; description := "SSH key pair exists"; check := _key_exists; execute := _generate_key |};
   {| name := "endpoint"; description := "Jetson host/user configured"; check := _endpoint_configured;
      execute := _prompt_endpoint |};
   {| name := "connectivity"; description := "Network connectivity to Jetson"; check := ping_check;
      execute := _check_connectivity |};
   {| name := "key_deployed"; description := "SSH key deployed to Jetson"; check := _key_auth_works;
      execute := _deploy_key |};
   {| name := "config"; description := "laptop.yaml written with endpoint"; check := _config_exists;
      execute := _write_config |};
   {| name := "verify"; description := "Remote probe passes"; check := _remote_probe_ok;
      execute := _run_remote_probe |}].

Definition one_step (ctx : SetupContext) (s : SetupStep) : prog exn W SetupContext :=
  if force ctx then execute s ctx
  else '(satisfied, ctx) ← check s ctx; if (satisfied : bool) then mret ctx else execute s ctx.

Definition setup_command (obj : Obj) (h u key config : option string) (force_ : bool) : prog exn W SetupContext :=
  pfold one_step
    {| host := h; user := u; key_path := match key with Some k => k | None => _DEFAULT_KEY_PATH end;
       config_path := config; force := force_; correlation_id := obj_correlation_id obj |} SETUP_STEPS.

(** ** mower jetson health *)
Definition health_row (c : PyVal) : res exn unit :=
  status ← Probe.get_attr c "status" (VStr "");
  _ ← Steps.hashable status;
  name ← Probe.get_attr c "name" (VStr "?");
  severity ← Probe.get_attr c "severity" (VStr "?");
  detail ← Probe.get_attr c "detail" (VStr "");
  _ ← Steps.cell name; _ ← Steps.cell severity; Steps.cell detail.

Definition health_command (obj : Obj) (fl : JetsonRemote.Flags) (json_out : bool) : prog exn W unit :=
  client ← JetsonRemote.connect expanduser yaml_safe_load DEFAULT_LAPTOP_CONFIG_PATH obj fl;
  if obj_dry_run obj then _ ← plift (Ssh.build_ssh_argv client probe_argv); mret tt
  else
    result ← JetsonRemote.or_exit_3 (Ssh.run client probe_argv false (Some (VFloat (F.of_Z 30))) []);
    if json_out then plift (exit_ (Ssh.returncode result))
    else
      checks ← pexcept [JSONDecodeError; ValueError] (plift (json_loads (Ssh.stdout result))) (fun _ => plift (exit_ 3));
      items ← plift (Probe.iter_value checks);
      _ ← plift (rmap health_row items);
      plift (exit_ (Ssh.returncode result)).
End setup.
End Setup.

(** ** The configuration step settles what it checks *)

(** The same document up to the order of the keys of its mappings. *)
Inductive same_doc : PyVal -> PyVal -> Prop :=
| same_value v : same_doc v v
| same_mapping d d' :
    (forall k v, dget d k = Some v -> exists v', dget d' k = Some v' /\ same_doc v v') ->
    (forall k, dget d k = None -> dget d' k = None) -> same_doc (VDict d) (VDict d').

Lemma same_str s v : same_doc (VStr s) v -> v = VStr s.
Proof. by inversion 1. Qed.
Lemma same_int n v : same_doc (VInt n) v -> v = VInt n.
Proof. by inversion 1. Qed.

Lemma same_dict d v : same_doc (VDict d) v -> exists d', v = VDict d' /\
  forall k x, dget d k = Some x -> exists x', dget d' k = Some x' /\ same_doc x x'.
Proof.
  inversion 1 as [|? d' H1 H2]; subst; [|by exists d'].
  exists d. split; [done|]. intros k x Hx. exists x. split; [done|constructor].
Qed.

(** No entry is called jetson. *)
Definition no_jetson (e : list (PyVal * PyVal)) : Prop := Forall (fun kv => kv.1 <> VStr "jetson") e.

Lemma update_keeps_head v rest e : no_jetson e ->
  exists rest', JetsonConfig.dupdate ((VStr "jetson", v) :: rest) e = (VStr "jetson", v) :: rest'.
Proof.
  intros He. revert rest. induction He as [|[k x] e Hk _ IH]; intros rest; [by exists rest|].
  unfold JetsonConfig.dupdate. cbn [foldl fst snd JetsonConfig.dset].
  assert (match k with VStr s => key_is s (VStr "jetson") | _ => false end = false) as ->.
  { destruct k; try done. cbn. apply bool_decide_eq_false_2. cbn in Hk. congruence. }
  apply IH.
Qed.

Lemma without_jetson d : no_jetson (JetsonConfig.without ["jetson"] d).
Proof.
  unfold no_jetson, JetsonConfig.without. apply list.Forall_forall. intros [k v] H.
  apply list_elem_of_In, filter_In in H as [_ H]. cbn in *. intros ->. cbn in H.
  by rewrite bool_decide_eq_true_2 in H.
Qed.

Section settles.
Context {W : Type} `{!FileStore W} `{!SshHost W} {contents : W -> gmap string string} `{!HealthyDisk W contents}.
Variables (yaml_safe_load : string -> res exn PyVal) (yaml_safe_dump : bool -> PyVal -> string).
Variables (expanduser : string -> string) (dflt : string).
Implicit Types ctx : Setup.SetupContext.

Lemma loaded_extra ctx (w : W) c w' :
  Setup.load_config yaml_safe_load expanduser dflt ctx w = Some (Ok c, w') -> no_jetson (LaptopConfig.l_extra c).
Proof.
  unfold Setup.load_config, LaptopConfig.load_laptop_config. intros H.
  apply pbind_ok_inv in H as (raw & w1 & _ & H). destruct raw as [raw|].
  - injection H as H _. destruct raw; try done. cbn in H. apply rbind_ok in H as (ep & _ & [= <-]). apply without_jetson.
  - injection H as <- _. constructor.
Qed.

(** The endpoint as the file gives it back. *)
Lemma endpoint_back ctx h u e' :
  (forall k x, dget (map (fun kv => (VStr kv.1, kv.2))
     [("host", VStr h); ("user", VStr u); ("port", VInt 22); ("key_path", VStr (Setup.key_path ctx))]) k = Some x ->
     exists x', dget e' k = Some x' /\ same_doc x x') ->
  expanduser (Setup.key_path ctx) = Setup.key_path ctx ->
  LaptopConfig._coerce_endpoint expanduser (VDict e') = Ok (Setup.endpoint_of ctx h u).
Proof.
  intros He Hx.
  destruct (He "host" (VStr h) eq_refl) as (v1 & H1 & ->%same_str).
  destruct (He "user" (VStr u) eq_refl) as (v2 & H2 & ->%same_str).
  destruct (He "port" (VInt 22) eq_refl) as (v3 & H3 & ->%same_int).
  destruct (He "key_path" (VStr (Setup.key_path ctx)) eq_refl) as (v4 & H4 & ->%same_str).
  unfold LaptopConfig._coerce_endpoint, dmem, get, dget_or. cbn [List.filter]. rewrite H1, H2, H3, H4.
  cbn. by rewrite Hx.
Qed.

(** The document the step writes, given what loading the file came to. *)
Definition written ctx (loaded : res exn LaptopConfig.LaptopConfig) : PyVal :=
  let extra := match loaded with Ok c => LaptopConfig.l_extra c | Err _ => [] end in
  match Setup.asserted ctx with
  | Ok (h, u) =>
      VDict (JetsonConfig.dupdate (LaptopConfig.to_fields
        {| LaptopConfig.jetson := Some (Setup.endpoint_of ctx h u); LaptopConfig.l_extra := extra |}) extra)
  | Err _ => VNone
  end.

(** C29: The configuration step of the wizard establishes its own check: when writing the file returns, on a disk that stores what it is given and with a YAML library that reads back what it wrote up to the order of keys, the check of the next run finds the endpoint and is satisfied, whatever was in the file before. *)
Theorem config_step_settles ctx ctx' loaded (w w0 w' : W) v' :
  Setup.load_config yaml_safe_load expanduser dflt ctx w = Some (loaded, w0) ->
  Setup._write_config yaml_safe_load yaml_safe_dump expanduser dflt ctx w = Some (Ok ctx', w') ->
  let text := yaml_safe_dump true (written ctx loaded) in
  Utf8.decode text = Ok text -> yaml_safe_load text = Ok v' -> same_doc (written ctx loaded) v' ->
  expanduser (Setup.key_path ctx) = Setup.key_path ctx ->
  exists w'', Setup._config_exists yaml_safe_load expanduser dflt ctx' w' = Some (Ok (true, ctx'), w'').
Proof.
  intros El H text Hutf Hv Hsame Hx. unfold Setup._write_config in H.
  apply pbind_ok_inv in H as ([h u] & wa & Ha & H). injection Ha as Ha <-.
  apply pbind_ok_inv in H as (existing & w1 & He & H).
  assert (Hex : no_jetson (LaptopConfig.l_extra existing) /\
    written ctx loaded = VDict (JetsonConfig.dupdate (LaptopConfig.to_fields
      {| LaptopConfig.jetson := Some (Setup.endpoint_of ctx h u); LaptopConfig.l_extra := LaptopConfig.l_extra existing |})
      (LaptopConfig.l_extra existing))).
  { unfold written. rewrite Ha. unfold pexcept, pcatch in He. rewrite El in He. destruct loaded as [c|e].
    - injection He as -> _. split; [by eapply loaded_extra|done].
    - destruct (caught_by _ e); [injection He as <- _; split; [constructor|done]|done]. }
  destruct Hex as [Hex Hw]. subst text. rewrite Hw in *.
  apply pbind_ok_inv in H as (target & w2 & Hs & H). injection H as <- <-.
  unfold LaptopConfig.save_laptop_config in Hs. cbn [LaptopConfig.l_extra] in Hs.
  destruct (update_keeps_head (LaptopConfig.endpoint_dict (Setup.endpoint_of ctx h u)) [] _ Hex) as (rest & Hp).
  unfold LaptopConfig.to_fields in *. cbn [LaptopConfig.jetson LaptopConfig.l_extra] in *. rewrite Hp in *.
  apply same_dict in Hsame as (d' & -> & Hd).
  destruct (Hd "jetson" _ eq_refl) as (j & Hj & (e' & -> & He')%same_dict).
  assert (Hb : py_bool (VDict d') = true) by (by destruct d').
  destruct (saved_yaml_loads yaml_safe_load yaml_safe_dump LaptopConfigError true (default dflt (Setup.config_path ctx))
              _ _ w1 Hutf Hv Hb) as (w3 & w4 & Hsave & Hload).
  rewrite Hsave in Hs. injection Hs as _ <-.
  exists w4. unfold Setup._config_exists. rewrite Ha, (pbind_step (plift (Ok (h, u))) _ w3 (h, u) w3 eq_refl).
  assert (Hc : LaptopConfig._coerce expanduser (VDict d') =
    Ok {| LaptopConfig.jetson := Some (Setup.endpoint_of ctx h u);
          LaptopConfig.l_extra := JetsonConfig.without ["jetson"] d' |}).
  { unfold LaptopConfig._coerce, get, dget_or. rewrite Hj. change (default VNone (Some (VDict e'))) with (VDict e').
    assert (py_bool (VDict e') = true) as ->.
    { destruct (He' "host" _ eq_refl) as (x & Hx' & _). by destruct e'. }
    by rewrite (endpoint_back ctx h u e' He' Hx). }
  assert (Hl : Setup.load_config yaml_safe_load expanduser dflt ctx w3 =
    Some (Ok {| LaptopConfig.jetson := Some (Setup.endpoint_of ctx h u);
                LaptopConfig.l_extra := JetsonConfig.without ["jetson"] d' |}, w4)).
  { unfold Setup.load_config, LaptopConfig.load_laptop_config. rewrite (pbind_step _ _ _ _ _ Hload). cbv iota. by rewrite Hc. }
  unfold pexcept, pcatch. rewrite (pbind_step _ _ w3 (Some (Setup.endpoint_of ctx h u)) w4).
  - cbn. by rewrite !bool_decide_eq_true_2.
  - by rewrite (pbind_step _ _ _ _ _ Hl).
Qed.
End settles.

(** An empty disk, and a YAML library that knows one document. *)
Definition demo_setup : Setup.SetupContext :=
  {| Setup.host := Some "10.0.0.7"; Setup.user := Some "rover"; Setup.key_path := "/home/me/.ssh/mower_id_ed25519";
     Setup.config_path := None; Setup.force := false; Setup.correlation_id := None |}.
Definition demo_written : PyVal :=
  written demo_setup (Ok {| LaptopConfig.jetson := None; LaptopConfig.l_extra := [] |}).

Lemma config_step_settles_witness :
  exists w' w'', @Setup._write_config _ files_store (one_doc demo_written) (fun _ _ => "doc") (fun p => p) "laptop.yaml"
      demo_setup ∅ = Some (Ok demo_setup, w') /\
    @Setup._config_exists _ files_store (one_doc demo_written) (fun p => p) "laptop.yaml" demo_setup w' =
      Some (Ok (true, demo_setup), w'').
Proof.
  assert (Hc : match @Setup._write_config _ files_store (one_doc demo_written) (fun _ _ => "doc") (fun p => p) "laptop.yaml"
      demo_setup ∅ with Some (Ok c, _) => c = demo_setup | _ => False end) by (vm_compute; reflexivity).
  destruct (@Setup._write_config _ files_store (one_doc demo_written) (fun _ _ => "doc") (fun p => p) "laptop.yaml"
      demo_setup ∅) as [[[c|e] w']|] eqn:E; [|destruct Hc|destruct Hc]. subst c.
  destruct (@config_step_settles _ files_store id files_healthy (one_doc demo_written) (fun _ _ => "doc") (fun p => p)
              "laptop.yaml" demo_setup demo_setup (Ok {| LaptopConfig.jetson := None; LaptopConfig.l_extra := [] |})
              ∅ ∅ w' demo_written) as (w'' & H).
  - vm_compute. reflexivity.
  - exact E.
  - vm_compute. reflexivity.
  - vm_compute. reflexivity.
  - constructor.
  - reflexivity.
  - by exists w', w''.
Defined.
