(* ===== verification/JetsonFirmware.v ===== *)
(** * The autopilot commands of the rover (cli/jetson.py, pixhawk)

    The synchronisation command and the three firmware commands: the modelled
    link, downloads, packages, bootloader and flash composed the way the commands
    compose them.  A command returns what it reports; the text and the JSON it
    prints for it are not modelled. *)

From stdpp Require Import base gmap list strings option.
From Stdlib Require Import Ascii ZArith Lia.
From S2P Require Import Prelude Float64 PyVal Safety Link Params ParamsMav Connection Files Config.
From S2P Require Import Firmware Sync Units ParamsCli.
Local Open Scope Z_scope.

(** [int(time.time())] *)
Class WallClock (W : Type) := { k_seconds : prog exn W Z }.

Module JetsonFirmware.
(** pymavlink's constant. *)
Definition MAV_MODE_FLAG_SAFETY_ARMED : Z := 128.

(** [ConnectionConfig(endpoint=endpoint, baud=baud)] *)
Definition config_of (ep : string) (b : Z) : ConnectionConfig :=
  {| endpoint := ep; baud := b; source_system := 254; source_component := 0;
     heartbeat_timeout_s := F.of_Z 10; retry_attempts := 3; retry_backoff_s := F.one |}.

(** [a < b] of two version tuples. *)
Definition version_lt (a b : Z * Z * Z) : bool :=
  let '(a1, a2, a3) := a in let '(b1, b2, b3) := b in
  (a1 <? b1) || ((a1 =? b1) && ((a2 <? b2) || ((a2 =? b2) && (a3 <? b3)))).

Definition version_tuple (v : FirmwareInfo) : Z * Z * Z := (major v, minor v, patch v).

(** What firmware-check reports. *)
Record CheckReport : Type := {
  running_version : FirmwareInfo; latest_version : option (Z * Z * Z); update_available : bool }.

(** How firmware-update and firmware-flash end when they do not fail. *)
Inductive Outcome : Type :=
| UpToDate (running : FirmwareInfo) (latest : Z * Z * Z)
| WouldFlash (file current : string)
| Cancelled
| Flashed (new : option FirmwareInfo) (result : FlashResult).

Section commands.
Context {W : Type} `{!Link W} `{!Dialer W} `{!Serial W} `{!FileStore W} `{!Terminal W}.
Context `{!Calendar W} `{!WallClock W}.
Variable json_loads : string -> res exn PyVal.
Variable json_dumps : PyVal -> string.
Variable fuel : nat.

(** ** pixhawk sync *)
Definition sync_command (yaml_safe_load : string -> res exn PyVal) (deploy : prog exn W unit)
    (ep : string) (b : Z) (obj_dry_run : bool) : prog exn W SyncResult :=
  result ← pexcept [Exception]
    (open_link (config_of ep b) false
       (Sync.sync_pixhawk yaml_safe_load fuel deploy DEFAULT_SYNC_PROFILES obj_dry_run))
    (fun _ => plift (exit_ 1));
  if Sync.ok result then mret result else plift (exit_ 1).

(** ** Steps of the firmware commands *)
Definition _check_not_armed : prog exn W unit :=
  hb ← l_recv ["HEARTBEAT"] (Some (sec 5));
  match hb with
  | None => mret tt
  | Some hb =>
      base_mode ← plift (attr hb "base_mode");
      match as_int base_mode with
      | Some m =>
          if negb (Z.land m MAV_MODE_FLAG_SAFETY_ARMED =? 0)
          then plift (raise_ BadParameter [L "FC is armed — cannot flash firmware. Disarm first."])
          else mret tt
      | None => plift (raise_ TypeError [L "unsupported operand type(s) for &"])
      end
  end.

Definition _prompt_user (message : FStr) : prog exn W bool :=
  pexcept [KeyboardInterrupt; EOFError]
    (line ← t_input (message ++ [L " [y/N]: "]);
     mret (bool_decide (S.lower (S.strip line) ∈ ["y"; "yes"])))
    (fun _ => mret false).

(** [except Exception as exc: ...; raise typer.Exit(code=1)] *)
Definition or_exit {A} (m : prog exn W A) : prog exn W A := pexcept [Exception] m (fun _ => plift (exit_ 1)).

Section steps.
Variable config : ConnectionConfig.

Definition read_version : prog exn W (option FirmwareInfo) := open_link config false read_running_version.

(** A snapshot that fails is a warning. *)
Definition snapshot_params (path reason : string) : prog exn W unit :=
  pexcept [Exception]
    (params ← open_link config false (fetch_params fuel (sec 60) (ms 1500));
     write_snapshot json_dumps params path [(VStr "reason", VStr reason)])
    (fun _ => mret tt).

Definition armed_step : prog exn W unit := or_exit (open_link config false _check_not_armed).
Definition reboot_step : prog exn W unit := or_exit (open_link config false reboot_to_bootloader).
Definition bootloader_step : prog exn W string := or_exit (wait_for_bootloader fuel (endpoint config) 30).

Definition failure_message (r : FlashResult) : FStr :=
  match error_message r with Some (p :: m) => p :: m | _ => [L "flash failed"] end.

Definition flash_step (bootloader_port apj_path : string) : prog exn W FlashResult :=
  or_exit
    (r ← flash_firmware json_loads None bootloader_port apj_path;
     if success r then mret r else plift (raise_ Exception (failure_message r))).

(** The version read back, [None] when it cannot be. *)
Definition verify_step : prog exn W (option FirmwareInfo) :=
  _ ← l_sleep (sec 5);
  pexcept [Exception] read_version (fun _ => mret None).

(** From the armed check on. *)
Definition flash_phase (apj_path : string) : prog exn W Outcome :=
  _ ← armed_step;
  _ ← reboot_step;
  bootloader_port ← bootloader_step;
  flash_result ← flash_step bootloader_port apj_path;
  new_version ← verify_step;
  mret (Flashed new_version flash_result).

(** From the confirmation on. *)
Definition confirmed (dry_run assume_yes : bool) (message : FStr) (apj_path current : string)
  : prog exn W Outcome :=
  if dry_run then mret (WouldFlash apj_path current)
  else
    accepted ← (if assume_yes then mret true else _prompt_user message);
    if negb accepted then mret Cancelled else flash_phase apj_path.

Definition firmware_check (track : string) (offline : bool) : prog exn W CheckReport :=
  running ← or_exit read_version;
  match running with
  | None => plift (exit_ 1)
  | Some running =>
      latest ← (if offline then mret None
                else pexcept [Exception] (check_remote_version track) (fun _ => mret None));
      mret {| running_version := running; latest_version := latest;
              update_available :=
                match latest with Some v => version_lt (version_tuple running) v | None => false end |}
  end.

Definition remote_version (track : string) : prog exn W (Z * Z * Z) :=
  latest ← check_remote_version track;
  match latest with
  | Some v => mret v
  | None => plift (raise_ Exception [L "no firmware found for track "; L track])
  end.

Definition CACHE_DIR : string := "/var/cache/mower/firmware".

Definition update_message (target current : string) : FStr :=
  [L "Flash firmware "; L target; L " to Pixhawk (replacing "; L current; L ")?"].

(** From the validation of the downloaded package on. *)
Definition update_with (dry_run yes : bool) (running : FirmwareInfo) (latest : Z * Z * Z) (apj_path : string)
  : prog exn W Outcome :=
  _ ← or_exit (validate_apj json_loads apj_path);
  now ← k_seconds;
  _ ← snapshot_params
        (Unit.fill ["/tmp/pixhawk-params-pre-firmware-update-"; Num.str_of_Z now; ".json"]) "pre-firmware-update";
  confirmed dry_run yes (update_message (version_str latest) (version_string running))
    apj_path (version_string running).

Definition firmware_update (track : string) (offline force dry_run yes : bool) : prog exn W Outcome :=
  running ← or_exit read_version;
  match running with
  | None => plift (exit_ 1)
  | Some running =>
      if offline then plift (exit_ 1)
      else
        latest ← or_exit (remote_version track);
        if negb force && negb (version_lt (version_tuple running) latest) then mret (UpToDate running latest)
        else
          apj ← or_exit (download_firmware json_loads track latest CACHE_DIR);
          match apj with
          | None => plift (exit_ 1)
          | Some apj_path => update_with dry_run yes running latest apj_path
          end
  end.

Definition flash_message (apj_path current : string) : FStr :=
  [L "Flash firmware from "; L (name_of apj_path); L " to Pixhawk (current: "; L current; L ")?"].

Definition firmware_flash (apj_path : string) (skip_snapshot dry_run yes : bool) : prog exn W Outcome :=
  there ← f_exists apj_path;
  if negb there then plift (exit_ 1)
  else
    _ ← or_exit (validate_apj json_loads apj_path);
    running ← pexcept [Exception] read_version (fun _ => mret None);
    _ ← (if skip_snapshot then mret tt
         else
           now ← k_seconds;
           snapshot_params
             (Unit.fill ["/tmp/pixhawk-params-pre-firmware-flash-"; Num.str_of_Z now; ".json"]) "pre-firmware-flash");
    let current_ver := match running with Some v => version_string v | None => "unknown" end in
    confirmed dry_run yes (flash_message apj_path current_ver) apj_path current_ver.
End steps.

(** The commands of the command line. *)
Definition pixhawk_firmware_check_command (ep : string) (b : Z) (track : string) (offline : bool) : prog exn W CheckReport :=
  firmware_check (config_of ep b) track offline.
Definition pixhawk_firmware_update_command (obj_dry_run : bool) (ep : string) (b : Z) (track : string)
    (offline force yes : bool) : prog exn W Outcome :=
  firmware_update (config_of ep b) track offline force obj_dry_run yes.
Definition pixhawk_firmware_flash_command (obj_dry_run : bool) (apj_file ep : string) (b : Z)
    (skip_snapshot yes : bool) : prog exn W Outcome :=
  firmware_flash (config_of ep b) apj_file skip_snapshot obj_dry_run yes.
End commands.
End JetsonFirmware.
Export JetsonFirmware.

(** ** When the autopilot is rebooted into its bootloader *)
Section reboots.
Context {W : Type} `{!Link W} `{!Dialer W} `{!Serial W} `{!FileStore W} `{!Terminal W}.
Context `{!Calendar W} `{!WallClock W}.

#[local] Instance traced_dialer : Dialer (W * list Event) := ParamsCli.traced_dialer.
#[local] Instance traced_terminal : Terminal (W * list Event) := ParamsCli.traced_terminal.
#[local] Instance traced_calendar : Calendar (W * list Event) := ParamsCli.traced_calendar.
#[local] Instance traced_clock : WallClock (W * list Event) := { k_seconds := on_world k_seconds }.
#[local] Instance traced_serial : Serial (W * list Event) := {
  sp_open p b := on_world (sp_open p b); sp_write d := on_world (sp_write d);
  sp_flush := on_world sp_flush; sp_read n := on_world (sp_read n); sp_close := on_world sp_close }.

Variable json_loads : string -> res exn PyVal.
Variable json_dumps : PyVal -> string.
Variable fuel : nat.
Variable config : ConnectionConfig.

(** No reboot command is sent. *)
Definition unrebooted (e : Event) : Prop := forall c ps, e <> Sent (command_long_send 246 c ps).

(** No prompt is answered with yes. *)
Definition never_agrees : Prop :=
  forall m (w w' : W) line, t_input m w = Some (Ok line, w') -> is_yes line = false.

(** The autopilot answers the armed check with the heartbeat of an armed vehicle. *)
Definition armed : Prop :=
  forall (w w' : W) o, l_recv ["HEARTBEAT"] (Some (sec 5)) w = Some (Ok o, w') ->
  exists m v z, o = Some m /\ attr m "base_mode" = Ok v /\ as_int v = Some z /\ Z.land z 128 <> 0.

(** No file holds a package for the board. *)
Definition no_package : Prop :=
  forall p (w w' : W) text doc, f_read p w = Some (Ok text, w') -> json_loads text = Ok doc -> ~ package_ok doc.

Definition forbidden (dry yes : bool) : Prop :=
  dry = true \/ (yes = false /\ never_agrees) \/ armed \/ no_package.

Lemma open_link_ok {A} (body : prog exn (W * list Event) A) wt a wt' :
  open_link config false body wt = Some (Ok a, wt') -> exists w1 w2, body w1 = Some (Ok a, w2).
Proof.
  unfold open_link. intros ([attempt k] & w1 & _ & H)%pbind_ok_inv.
  apply pbind_ok_inv in H as (r & w2 & Hr & H). unfold outcome in Hr.
  destruct (body w1) as [[r' w2']|] eqn:Hb; [|done]. injection Hr as -> ->.
  apply pbind_ok_inv in H as (u & w3 & _ & H). destruct r as [a'|e].
  - injection H as <- <-. by exists w1, w2.
  - destruct (subclass _ _); [|done].
    do 3 (apply pbind_ok_inv in H as (? & ? & _ & H)). done.
Qed.

Lemma or_exit_ok {A} (m : prog exn (W * list Event) A) wt a wt' :
  or_exit m wt = Some (Ok a, wt') -> m wt = Some (Ok a, wt').
Proof.
  unfold or_exit, pexcept, pcatch. destruct (m wt) as [[[?|e] ?]|]; [done| |done].
  by destruct (caught_by _ e).
Qed.

Lemma grows_or_exit {A} P (m : prog exn (W * list Event) A) : grows P m -> grows P (or_exit m).
Proof. intros. apply grows_except; [done|]. intros. apply grows_lift. Qed.

Lemma grows_version P : (forall e, unrebooted e -> P e) -> grows P (read_version (W := W * list Event) config).
Proof.
  intros HP. apply grows_open_link. unfold read_running_version.
  apply grows_except; [|intros; apply grows_ret]. apply grows_bind; [by apply grows_send, HP|]. intros _.
  apply grows_bind; [apply grows_recv; intros m; by apply HP|]. intros [m|]; [|apply grows_ret].
  apply grows_bind; [apply grows_lift|]. intros v. destruct (as_int v); [|apply grows_lift].
  apply grows_bind; [apply grows_lift|]. intros. apply grows_ret.
Qed.

Lemma grows_snapshot_params path reason :
  grows unrebooted (snapshot_params (W := W * list Event) json_dumps fuel config path reason).
Proof.
  apply grows_except; [|intros; apply grows_ret]. apply grows_bind.
  - apply grows_open_link. unfold fetch_params. apply grows_bind; [by apply grows_send|]. intros _.
    apply grows_bind; [apply grows_time|]. intros rx. apply grows_bind; [|intros; apply grows_lift].
    apply grows_loop. intros [[c ex] lr]. unfold fetch_round.
    apply grows_bind; [apply grows_time|]. intros now. destruct (_ <? _); [|apply grows_ret].
    apply grows_bind; [by apply grows_recv|]. intros [m|].
    + apply grows_bind_lift. intros [[id v] n] _. apply grows_bind; [apply grows_time|]. intros ?.
      cbv zeta. destruct (_ && _); apply grows_ret.
    + destruct c; [apply grows_ret|]. apply grows_bind; [apply grows_time|]. intros ?. destruct (_ <? _); apply grows_ret.
  - intros params. unfold write_snapshot. apply grows_bind; [apply grows_on_world|]. intros now.
    apply grows_bind; [apply grows_on_world|]. intros _. apply grows_on_world.
Qed.

Lemma grows_validate P p : grows P (validate_apj (W := W * list Event) json_loads p).
Proof.
  unfold validate_apj. apply grows_bind; [apply grows_on_world|]. intros [|]; cbn [negb]; [|apply grows_lift].
  apply grows_bind; [|intros; apply grows_lift]. apply grows_except; [|intros; apply grows_lift].
  apply grows_bind; [apply grows_on_world|]. intros. apply grows_lift.
Qed.

Lemma validate_refused p wt u wt' : no_package -> validate_apj (W := W * list Event) json_loads p wt = Some (Ok u, wt') -> False.
Proof.
  intros Hn H. unfold validate_apj in H. apply pbind_ok_inv in H as (b & w1 & _ & H). destruct b; cbn [negb] in H; [|done].
  apply pbind_ok_inv in H as (doc & [w2 t2] & Hl & H). injection H as H <-.
  unfold load_apj, pexcept, pcatch in Hl. destruct w1 as [w1 t1].
  destruct ((text ← f_read p; plift (json_loads text)) (w1, t1)) as [[[d|e] w3]|] eqn:E; [| |done].
  - injection Hl as -> ->. apply pbind_ok_inv in E as (text & [w4 t4] & E & Hj). injection Hj as Hj _ _.
    apply on_world_trace in E as [_ E]. apply (Hn _ _ _ _ _ E Hj). destruct u. by apply validate_doc_iff.
  - destruct (caught_by _ e); done.
Qed.

Lemma armed_refused wt u wt' : armed -> _check_not_armed (W := W * list Event) wt = Some (Ok u, wt') -> False.
Proof.
  intros Ha H. unfold _check_not_armed in H. apply pbind_ok_inv in H as (o & [w1 t1] & H1 & H).
  destruct wt as [w t]. cbn [l_recv traced] in H1. apply pbind_ok_inv in H1 as (o1 & [w2 t2] & H1 & H2).
  apply on_world_trace in H1 as [-> H1]. apply Ha in H1 as (m & v & z & -> & Hv & Hz & Hb).
  apply pbind_ok_inv in H2 as (? & ? & _ & H2). injection H2 as <- _. rewrite Hv in H.
  rewrite (pbind_step _ _ _ _ _ eq_refl), Hz in H. unfold MAV_MODE_FLAG_SAFETY_ARMED in H.
  destruct (Z.eqb_spec (Z.land z 128) 0); done.
Qed.

Lemma grows_check_not_armed P : (forall m, P (Got m)) -> grows P (_check_not_armed (W := W * list Event)).
Proof.
  intros HP. unfold _check_not_armed. apply grows_bind; [by apply grows_recv|]. intros [m|]; [|apply grows_ret].
  apply grows_bind; [apply grows_lift|]. intros v. destruct (as_int v); [|apply grows_lift].
  destruct (negb _); [apply grows_lift|apply grows_ret].
Qed.

Lemma prompt_user_refused m wt wt' : never_agrees -> _prompt_user (W := W * list Event) m wt = Some (Ok true, wt') -> False.
Proof.
  intros Hn. unfold _prompt_user, pexcept, pcatch. destruct wt as [w t].
  destruct ((line ← t_input (m ++ [L " [y/N]: "]);
             mret (bool_decide (S.lower (S.strip line) ∈ ["y"; "yes"]))) (w, t)) as [[[b|e] w1]|] eqn:E; [| |done].
  - intros [= -> _]. apply pbind_ok_inv in E as (line & [w2 t2] & E & Hb). apply on_world_trace in E as [_ E].
    apply Hn in E. injection Hb as Hb _. unfold is_yes in E. congruence.
  - by destruct (caught_by _ e).
Qed.

Lemma grows_prompt_user P m : grows P (_prompt_user (W := W * list Event) m).
Proof.
  apply grows_except; [|intros; apply grows_ret]. apply grows_bind; [apply grows_on_world|]. intros. apply grows_ret.
Qed.

Lemma grows_remote P track : grows P (check_remote_version (W := W * list Event) track).
Proof.
  apply grows_except; [|intros; apply grows_ret]. destruct (negb _); [apply grows_ret|].
  apply grows_bind; [apply grows_on_world|]. intros raw. apply grows_bind; [apply grows_lift|]. intros. apply grows_lift.
Qed.

Lemma grows_download P track v dir : grows P (download_firmware (W := W * list Event) json_loads track v dir).
Proof.
  apply grows_except; [|intros; apply grows_ret]. destruct (negb _); [apply grows_ret|].
  do 5 (apply grows_bind; [apply grows_on_world|]; intros ?).
  apply grows_except; [|intros; apply grows_bind; [apply grows_on_world|intros; apply grows_ret]].
  apply grows_bind; [apply grows_validate|]. intros. apply grows_ret.
Qed.

(** After a validated package, with nothing allowing the flash: no reboot. *)
Lemma grows_confirmed dry yes msg path current :
  dry = true \/ (yes = false /\ never_agrees) \/ armed ->
  grows unrebooted (confirmed (W := W * list Event) json_loads fuel config dry yes msg path current).
Proof.
  intros Hno. unfold confirmed. destruct dry; [apply grows_ret|].
  destruct Hno as [|[[-> Hn]|Ha]]; [done| |].
  - apply grows_bind_ok; [apply grows_prompt_user|]. intros [|] wt wt' H; [|apply grows_ret].
    by apply prompt_user_refused in H.
  - apply grows_bind; [destruct yes; [apply grows_ret|apply grows_prompt_user]|].
    intros [|]; cbn [negb]; [|apply grows_ret]. unfold flash_phase. apply grows_bind_ok.
    + by apply grows_or_exit, grows_open_link, grows_check_not_armed.
    + intros u wt wt' H. exfalso. apply or_exit_ok, open_link_ok in H as (w1 & w2 & H). by eapply armed_refused.
Qed.

Lemma grows_validated {A} p (rest : prog exn (W * list Event) A) dry yes :
  forbidden dry yes -> (dry = true \/ (yes = false /\ never_agrees) \/ armed -> grows unrebooted rest) ->
  grows unrebooted (_ ← or_exit (validate_apj (W := W * list Event) json_loads p); rest).
Proof.
  intros Hf Hr. apply grows_bind_ok; [apply grows_or_exit, grows_validate|].
  intros u wt wt' H. unfold forbidden in Hf. destruct Hf as [?|[?|[?|Hn]]]; [by apply Hr; auto..|].
  exfalso. apply or_exit_ok in H. by eapply validate_refused.
Qed.

(** C15: Neither firmware command reboots the autopilot into its bootloader in a dry run, nor when no prompt is answered with yes and --yes was not given, nor when the vehicle reports itself armed, nor when no file holds a package for this board; whatever else the link, the network and the files do. *)
Theorem reboot_is_guarded track offline force path skip dry yes (Hf : forbidden dry yes) :
  grows unrebooted (firmware_update (W := W * list Event) json_loads json_dumps fuel config track offline force dry yes) /\
  grows unrebooted (firmware_flash (W := W * list Event) json_loads json_dumps fuel config path skip dry yes).
Proof.
  split.
  - unfold firmware_update. apply grows_bind; [by apply grows_or_exit, grows_version|]. intros [running|]; [|apply grows_lift].
    destruct offline; [apply grows_lift|]. apply grows_bind; [apply grows_or_exit|].
    { unfold remote_version. apply grows_bind; [apply grows_remote|]. intros [v|]; [apply grows_ret|apply grows_lift]. }
    intros latest. destruct (_ && _); [apply grows_ret|]. apply grows_bind; [apply grows_or_exit, grows_download|].
    intros [apj|]; [|apply grows_lift]. unfold update_with. eapply grows_validated; [exact Hf|]. intros Hc.
    apply grows_bind; [apply grows_on_world|]. intros now. apply grows_bind; [apply grows_snapshot_params|].
    intros _. by apply grows_confirmed.
  - unfold firmware_flash. apply grows_bind; [apply grows_on_world|]. intros [|]; cbn [negb]; [|apply grows_lift].
    eapply grows_validated; [exact Hf|]. intros Hc.
    apply grows_bind; [apply grows_except; [by apply grows_version|intros; apply grows_ret]|]. intros running.
    apply grows_bind; [|intros _; by apply grows_confirmed]. destruct skip; [apply grows_ret|].
    apply grows_bind; [apply grows_on_world|]. intros now. apply grows_snapshot_params.
Qed.
End reboots.

(** With no heartbeat within five seconds the armed check passes. *)
Lemma silent_vehicle_passes {W} `{!Link W} (w w1 : W) :
  l_recv ["HEARTBEAT"] (Some (sec 5)) w = Some (Ok None, w1) -> _check_not_armed w = Some (Ok tt, w1).
Proof. intros H. unfold _check_not_armed. by rewrite (pbind_step _ _ _ _ _ H). Qed.

(** The refusal of an armed vehicle is raised inside the [with] of [open_link],
    which dials again: the operator is not told that the vehicle is armed. *)
Lemma armed_message_lost {W} `{!Link W} `{!Dialer W} config (w w1 w2 w3 : W) attempt k r :
  calm config ->
  connect config false (Z.to_nat (retry_attempts config)) 1 [L "None"] w = Some (Ok (attempt, k), w1) ->
  _check_not_armed w1 = Some (raise_ BadParameter [L "FC is armed — cannot flash firmware. Disarm first."], w2) ->
  open_link config false _check_not_armed w = Some (r, w3) ->
  exists e, r = Err e /\ (exn_class e = ConnectionError \/ exn_class e = RuntimeError).
Proof. intros Hc Hk Hb H. by eapply (open_link_body_error config false _ w _ _ _ _ _ _ _ Hc Hk Hb). Qed.

(** ** A bench: a vehicle in a given mode, a package on disk, a bootloader *)
Definition bench_msg (mode : Z) (types : list string) : Msg :=
  if bool_decide (types = ["HEARTBEAT"]) then MESSAGE "HEARTBEAT" [("base_mode", VInt mode)]
  else if bool_decide (types = ["AUTOPILOT_VERSION"]) then MESSAGE "AUTOPILOT_VERSION" [("flight_sw_version", VInt 67305985)]
  else PARAM_VALUE "SPEED_MAX" (F.of_Z 2) 1.

Section bench.
Variable mode : Z.
Definition bench_vehicle : Link unit := {|
  l_time w := Some (Ok 0, w); l_sleep _ w := Some (Ok tt, w);
  l_recv ts _ w := Some (Ok (Some (bench_msg mode ts)), w); l_send _ w := Some (Ok tt, w) |}.
Definition bench_files : FileStore unit := {|
  f_get _ _ w := Some (Ok "4.9.9-official", w); f_mkdir _ w := Some (Ok tt, w); f_write _ _ w := Some (Ok tt, w);
  f_exists _ w := Some (Ok true, w); f_read _ w := Some (Ok package_text, w); f_unlink _ w := Some (Ok tt, w) |}.
Definition bench_port : Serial unit := {|
  sp_open _ _ w := Some (Ok tt, w); sp_write _ w := Some (Ok tt, w); sp_flush w := Some (Ok tt, w);
  sp_read _ w := Some (Ok [INSYNC; OK_], w); sp_close w := Some (Ok tt, w) |}.
Definition bench_clock : WallClock unit := {| k_seconds w := Some (Ok 1, w) |}.
#[local] Existing Instances bench_vehicle bench_files bench_port bench_clock quiet_dialer quiet_terminal quiet_calendar.
#[local] Existing Instances traced_dialer traced_terminal traced_calendar traced_clock traced_serial.

Definition bench_flash (yes : bool) : prog exn (unit * list Event) Outcome :=
  firmware_flash (W := unit * list Event) (demo_loads 140) (fun _ => "") 9 (config_of "/dev/pixhawk" 0)
    "rover.apj" false false yes.
Definition bench_update (yes : bool) : prog exn (unit * list Event) Outcome :=
  firmware_update (W := unit * list Event) (demo_loads 140) (fun _ => "") 9 (config_of "/dev/pixhawk" 0)
    "stable" false false false yes.
End bench.

Definition reboots_of (r : option (res exn Outcome * (unit * list Event))) : nat :=
  match r with
  | Some (_, (_, t)) =>
      length (List.filter (fun e => match e with Sent (command_long_send c _ _) => c =? 246 | _ => false end) t)
  | None => 99
  end.

(** Disarmed, with a package and --yes, both commands reboot it once; without
    --yes, with nobody to ask, or armed, never. *)
Example bench_reboots :
  map reboots_of [bench_flash 81 true (tt, []); bench_update 81 true (tt, []); bench_flash 81 false (tt, []);
                  bench_flash 209 true (tt, []); bench_update 209 true (tt, [])] = [1; 1; 0; 0; 0]%nat.
Proof. vm_compute. reflexivity. Qed.

Lemma bench_armed : @armed unit (bench_vehicle 209).
Proof.
  intros w w' o H. injection H as <- <-. exists (bench_msg 209 ["HEARTBEAT"]), (VInt 209), 209. by vm_compute.
Qed.

Lemma reboot_is_guarded_witness :
  @armed unit (bench_vehicle 209) /\
  grows unrebooted (bench_update 209 true) /\ grows unrebooted (bench_flash 209 true).
Proof.
  split; [exact bench_armed|].
  exact (@reboot_is_guarded unit (bench_vehicle 209) quiet_dialer bench_port bench_files quiet_terminal quiet_calendar
           bench_clock (demo_loads 140) (fun _ => "") 9 (config_of "/dev/pixhawk" 0) "stable" false false "rover.apj"
           false false true (or_intror (or_intror (or_introl bench_armed)))).
Defined.
