(* ===== verification/JetsonCli.v ===== *)
(** * The rover's command line (cli/jetson.py, cli/kiosk.py)

    The commands that report the state of the rover, manage its services and
    switch zones.  A command returns what it shows; the tables, colours and JSON
    it prints for it are not modelled, its exit codes are. *)

From stdpp Require Import base gmap sets list strings option.
From Stdlib Require Import Ascii ZArith Lia.
From S2P Require Import Prelude Float64 PyVal Safety Registry Files Config.
From S2P Require Import Health Units Probe Daemon ZoneConfig.
From S2P Require Import Link Connection VslamIpc Vslam Kiosk Detect JetsonFirmware.
Local Open Scope Z_scope.

Class JetsonHost (W : Type) := {
  (** [subprocess.run(cmd, capture_output=True, text=True)]: the return code and
      the standard output *)
  j_run : list string -> prog exn W (Z * string);
  (** [path.is_dir()], [path.stat().st_size] *)
  j_is_dir : string -> prog exn W bool;
  j_size : string -> prog exn W Z;
  j_which : string -> prog exn W (option string);
  (** [time.sleep(interval)] *)
  j_sleep : float -> prog exn W unit;
  (** [socket.gethostname], [socket.getfqdn], and of [platform]: [system],
      [release], [machine], [python_version] *)
  j_hostname : prog exn W string; j_fqdn : prog exn W string; j_system : prog exn W string;
  j_release : prog exn W string; j_machine : prog exn W string; j_python : prog exn W string
}.

Module JetsonCli.
Definition __version__ : string := "0.1.0".
Definition _NV_TEGRA_RELEASE : string := "/etc/nv_tegra_release".

(** ** info *)
Record PlatformInfo : Type := {
  package_version : string; hostname : string; fqdn : string; system : string; release : string;
  machine : string; python_version : string; jetpack_release : option string; is_jetson : bool;
  cuda_version : option string; nvme_present : bool; power_mode : option string;
  oakd_detected : bool; pi_warnings : list string }.

(** [[\d.]], of the ASCII digits. *)
Definition version_char (c : ascii) : bool := S.is_digit c || bool_decide (c = "."%char).

(** The longest prefix of characters of a class. *)
Fixpoint take_while (p : ascii -> bool) (l : list ascii) : list ascii :=
  match l with c :: l' => if p c then c :: take_while p l' else [] | [] => [] end.

(** [release\s+([\d.]+)] at the start of the text. *)
Definition release_here (l : list ascii) : option string :=
  match S.prefix_of (S.chars "release") l with
  | Some (c :: rest) =>
      if S.is_space c then
        match take_while version_char (S.drop_while S.is_space rest) with
        | [] => None
        | v => Some (S.ofl v)
        end
      else None
  | _ => None
  end.

(** [re.search] of it. *)
Fixpoint search_release (l : list ascii) : option string :=
  match release_here l with
  | Some v => Some v
  | None => match l with _ :: l' => search_release l' | [] => None end
  end.

Fixpoint first_release (lines : list string) : option string :=
  match lines with
  | [] => None
  | line :: rest => match search_release (S.chars line) with Some v => Some v | None => first_release rest end
  end.

Section info.
Context {W : Type} `{!FileStore W} `{!Sys W} `{!JetsonHost W}.

Definition _read_jetpack_release : prog exn W (option string) :=
  e ← f_exists _NV_TEGRA_RELEASE;
  if negb e then mret None
  else
    pexcept [OSError]
      (text ← read_text _NV_TEGRA_RELEASE;
       first ← plift (py_index (S.splitlines (S.strip text)) 0);
       mret (Some first))
      (fun _ => mret None).

Definition _read_cuda_version : prog exn W (option string) :=
  nvcc ← j_which "nvcc";
  match nvcc with
  | None => mret None
  | Some _ =>
      result ← pexcept [FileNotFoundError; TimeoutExpired]
        (r ← y_run ["nvcc"; "--version"] 5; mret (Some r)) (fun _ => mret None);
      match result with
      | Some (0, out) => mret (first_release (S.splitlines out))
      | _ => mret None
      end
  end.

Fixpoint any_oak (vendor_files : list string) : prog exn W bool :=
  match vendor_files with
  | [] => mret false
  | vendor_file :: rest =>
      vid ← pexcept [OSError] (t ← read_text vendor_file; mret (Some (S.lower (S.strip t)))) (fun _ => mret None);
      if bool_decide (vid = Some "03e7") then mret true else any_oak rest
  end.

Definition _detect_oakd : prog exn W bool :=
  dir ← j_is_dir "/sys/bus/usb/devices";
  if negb dir then mret false
  else files ← y_glob "/sys/bus/usb/devices/*/idVendor"; any_oak files.

Definition _collect_platform_info : prog exn W PlatformInfo :=
  jp ← _read_jetpack_release;
  disk_usage ← read_disk_usage "/";
  let nvme := existsb is_nvme disk_usage in
  power ← read_power_state "/";
  host ← j_hostname; fq ← j_fqdn; sys ← j_system; rel ← j_release; mach ← j_machine; py ← j_python;
  cuda ← _read_cuda_version;
  oak ← _detect_oakd;
  let is_j := bool_decide (is_Some jp) in
  mret {| package_version := __version__; hostname := host; fqdn := fq; system := sys; release := rel;
          machine := mach; python_version := py; jetpack_release := jp; is_jetson := is_j;
          cuda_version := cuda; nvme_present := nvme; power_mode := mode_name power; oakd_detected := oak;
          pi_warnings := if negb is_j && negb (bool_decide (S.lower mach = "aarch64"))
                         then ["running on non-aarch64 host; this CLI is intended for the Jetson AGX Orin"] else [] |}.

(** [x or '-'], and [yes] or [no]. *)
Definition or_dash (o : option string) : Piece := match o with Some "" | None => L "-" | Some s => L s end.
Definition yes_no (b : bool) : Piece := if b then L "yes" else L "no".

(** The lines printed, the warnings last, on stderr. *)
Definition info_lines (info : PlatformInfo) : list FStr * list FStr :=
  ([[L "mower-rover "; L (package_version info)];
    [L "host       : "; L (hostname info); L " ("; L (fqdn info); L ")"];
    [L "system     : "; L (system info); L " "; L (release info); L " ("; L (machine info); L ")"];
    [L "python     : "; L (python_version info)];
    [L "jetpack    : "; or_dash (jetpack_release info)];
    [L "is_jetson  : "; yes_no (is_jetson info)];
    [L "cuda       : "; or_dash (cuda_version info)];
    [L "nvme       : "; yes_no (nvme_present info)];
    [L "power_mode : "; or_dash (power_mode info)];
    [L "oakd       : "; yes_no (oakd_detected info)]],
   map (fun w => [L "WARN: "; L w]) (pi_warnings info)).

Definition info_command : prog exn W (list FStr * list FStr) :=
  info ← _collect_platform_info; mret (info_lines info).

(** ** thermal and power *)
Definition _thermal_color (temp_c : float) : string :=
  if F.leb (F.of_Z 95) temp_c then "red" else if F.leb (F.of_Z 70) temp_c then "yellow" else "green".

Definition thermal_row (z : ThermalZone) : FStr * FStr :=
  let color := _thermal_color (temp_c z) in
  ([if bool_decide (tz_name z = "") then L (Unit.fill ["zone"; Num.str_of_Z (tz_index z)]) else L (tz_name z)],
   [L "["; L color; L "]"; VF (VFloat (temp_c z)) ".1f"; L "[/"; L color; L "]"]).

Definition opt_piece {A} (f : A -> PyVal) (o : option A) : Piece := match o with Some a => V (f a) | None => L "-" end.

(** [x or "-"] of an optional string. *)
Definition str_piece (o : option string) : Piece := L (match o with Some "" | None => "-" | Some s => s end).

Definition power_lines (state : PowerState) : list FStr :=
  [[L "Mode       : "; str_piece (mode_name state); L " (ID: "; opt_piece VInt (mode_id state); L ")"];
   [L "Online CPUs: "; opt_piece VInt (online_cpus state)];
   [L "GPU Freq   : "; opt_piece VInt (gpu_freq_mhz state);
    L (match gpu_freq_mhz state with Some _ => " MHz" | None => "" end)];
   [L "Fan Profile: "; str_piece (fan_profile state)];
   [L "Timestamp  : "; L (p_timestamp state)]].

(** [--watch]: until Ctrl-C. *)
Definition watch_loop {A} (fuel : nat) (interval : float) (read : prog exn W A) : prog exn W unit :=
  pexcept [KeyboardInterrupt]
    (ploop fuel (fun _ : unit => _ ← read; _ ← j_sleep interval; mret (inl tt)) tt)
    (fun _ => mret tt).

Definition thermal_command (fuel : nat) (json_out watch : bool) (interval : float)
  : prog exn W (option ThermalSnapshot) :=
  if json_out then s ← read_thermal_zones "/"; mret (Some s)
  else if watch then _ ← watch_loop fuel interval (read_thermal_zones "/"); mret None
  else s ← read_thermal_zones "/"; mret (Some s).

Definition power_command (fuel : nat) (json_out watch : bool) (interval : float)
  : prog exn W (option PowerState) :=
  if json_out then s ← read_power_state "/"; mret (Some s)
  else if watch then _ ← watch_loop fuel interval (read_power_state "/"); mret None
  else s ← read_power_state "/"; mret (Some s).
End info.

(** ** config show and probe *)
Section reports.
Context {W : Type} `{!FileStore W} `{!Sys W} `{!ProbeHost W}.
Variable yaml_safe_load : string -> res exn PyVal.
Variable DEFAULT_JETSON_CONFIG_PATH : string.

(** [to_dict] without its [extra], updated with the extra settings. *)
Definition merged_config (cfg : JetsonConfig.JetsonConfig) : list (PyVal * PyVal) :=
  JetsonConfig.dupdate (JetsonConfig.without ["extra"] (JetsonConfig.to_fields cfg)) (JetsonConfig.extra cfg).

Definition config_show_command (config : option string) : prog exn W PyVal :=
  let target := default DEFAULT_JETSON_CONFIG_PATH config in
  cfg ← pexcept [JetsonConfigError]
    (JetsonConfig.load_jetson_config yaml_safe_load DEFAULT_JETSON_CONFIG_PATH (Some target))
    (fun _ => plift (exit_ 2));
  there ← f_exists target;
  _ ← f_exists target;
  mret (Config.sdict [("config_path", VStr target); ("exists", VBool there); ("config", VDict (merged_config cfg))]).

(** The verdicts are printed, the exit code tells the worst. *)
Definition probe_command (iter : gset string -> list string) (check : list string) : prog exn W (list CheckResult) :=
  specs ← plift (register_all (imported yaml_safe_load));
  let only := match check with [] => None | _ => Some (list_to_set check) end in
  results ← run_checks iter "/" only specs;
  plift (exit_ (derive_exit_code results)).
End reports.

(** ** service, vslam and vslam bridge *)
Section services.
Context {W : Type} `{!FileStore W} `{!ServiceHost W} `{!Terminal W}.
Variable yaml_safe_load : string -> res exn PyVal.
Variable DEFAULT_JETSON_CONFIG_PATH : string.

Definition load_config (config : option string) : prog exn W JetsonConfig.JetsonConfig :=
  JetsonConfig.load_jetson_config yaml_safe_load DEFAULT_JETSON_CONFIG_PATH config.

(** [--user-level], else the configured level. *)
Definition level_of (config : option string) (user_level : option bool) : prog exn W bool :=
  cfg ← load_config config;
  mret (match user_level with Some l => l | None => JetsonConfig.service_user_level cfg end).

Definition safety_of (obj_dry_run yes : bool) : SafetyContext W :=
  {| dry_run := obj_dry_run; assume_yes := yes; safe_stop_hooks := [] |}.

(** A refused confirmation is exit code 1. *)
Definition or_abort (m : prog exn W unit) : prog exn W unit :=
  pexcept [ConfirmationAborted] m (fun _ => plift (exit_ 1)).

Section options.
Variables (obj_dry_run : bool) (user_level : option bool) (yes : bool).

Definition service_install_command (config target_user target_home : option string) : prog exn W unit :=
  level ← level_of config user_level;
  or_abort (Install.install_service yaml_safe_load DEFAULT_JETSON_CONFIG_PATH (safety_of obj_dry_run yes) level
              target_user target_home).
Definition service_uninstall_command (config : option string) : prog exn W unit :=
  level ← level_of config user_level; or_abort (Install.uninstall_service (safety_of obj_dry_run yes) level).

Definition vslam_install_command (target_user target_home : option string) : prog exn W unit :=
  level ← level_of None user_level;
  or_abort (Install.install_vslam_service (safety_of obj_dry_run yes) level target_user target_home).
Definition vslam_uninstall_command : prog exn W unit :=
  level ← level_of None user_level; or_abort (Install.uninstall_vslam_service (safety_of obj_dry_run yes) level).

Definition vslam_bridge_install_command (target_user target_home : option string) : prog exn W unit :=
  level ← level_of None user_level;
  or_abort (Install.install_vslam_bridge_service (safety_of obj_dry_run yes) level target_user target_home).
Definition vslam_bridge_uninstall_command : prog exn W unit :=
  level ← level_of None user_level; or_abort (Install.uninstall_vslam_bridge_service (safety_of obj_dry_run yes) level).
End options.

(** The two commands of pixhawk/unit.py let a refused confirmation out. *)
Definition pixhawk_sync_install_command (obj_dry_run user_level yes : bool) (target_user target_home : option string)
  : prog exn W unit :=
  Install.install_pixhawk_sync_service (safety_of obj_dry_run yes) user_level target_user target_home.
Definition pixhawk_sync_uninstall_command (obj_dry_run user_level yes : bool) : prog exn W unit :=
  Install.uninstall_pixhawk_sync_service (safety_of obj_dry_run yes) user_level.

(** [systemctl action unit] with [check=True]. *)
Definition service_start_command (config : option string) (user_level : option bool) : prog exn W unit :=
  level ← level_of config user_level; Install._systemctl ["start"; Install.service Unit.UNIT_NAME] level.
Definition service_stop_command (config : option string) (user_level : option bool) : prog exn W unit :=
  level ← level_of config user_level; Install._systemctl ["stop"; Install.service Unit.UNIT_NAME] level.
Definition vslam_start_command (user_level : option bool) : prog exn W unit :=
  level ← level_of None user_level; Install._systemctl ["start"; Install.service Unit.VSLAM_UNIT_NAME] level.
Definition vslam_stop_command (user_level : option bool) : prog exn W unit :=
  level ← level_of None user_level; Install._systemctl ["stop"; Install.service Unit.VSLAM_UNIT_NAME] level.
Definition vslam_bridge_start_command (user_level : option bool) : prog exn W unit :=
  level ← level_of None user_level; Install._systemctl ["start"; Install.service Unit.VSLAM_BRIDGE_UNIT_NAME] level.
Definition vslam_bridge_stop_command (user_level : option bool) : prog exn W unit :=
  level ← level_of None user_level; Install._systemctl ["stop"; Install.service Unit.VSLAM_BRIDGE_UNIT_NAME] level.

Definition service_cleanup_user_units_command (unit : list string) : prog exn W bool :=
  pfold (fun any_cleaned name => cleaned ← Install._cleanup_user_unit name; mret (any_cleaned || cleaned)) false unit.

Context `{!JetsonHost W}.

(** [systemctl status], the command's exit code its return code. *)
Definition status_of (name : string) (level : bool) : prog exn W unit :=
  '(rc, _) ← j_run (["systemctl"] ++ (if level then ["--user"] else []) ++ ["status"; Install.service name]);
  plift (exit_ rc).
Definition service_status_command (config : option string) (user_level : option bool) : prog exn W unit :=
  level ← level_of config user_level; status_of Unit.UNIT_NAME level.
Definition vslam_status_command (user_level : option bool) : prog exn W unit :=
  level ← level_of None user_level; status_of Unit.VSLAM_UNIT_NAME level.
Definition vslam_bridge_health_command (user_level : option bool) : prog exn W unit :=
  level ← level_of None user_level; status_of Unit.VSLAM_BRIDGE_UNIT_NAME level.

Context `{!Sys W} `{!DaemonHost W}.
Definition service_run_command (fuel : nat) (config : option string) (health_interval : option Z) : prog exn W unit :=
  cfg ← load_config config;
  interval ← (match health_interval with
              | Some i => mret i
              | None =>
                  match as_int (JetsonConfig.health_interval_s cfg) with
                  | Some i => mret i
                  | None => plift (raise_ TypeError [L "unsupported operand type(s) for +"])
                  end
              end);
  run_daemon fuel interval "/".
End services.

(** ** zone *)
Section zones.
Context {W : Type} `{!FileStore W} `{!JetsonHost W} `{!ServiceHost W}.
Variable yaml_safe_load : string -> res exn PyVal.
Variable yaml_safe_dump : bool -> PyVal -> string.

Definition SLAM_MODES : list string := ["auto"; "mapping"; "localization"].
Definition zone_dir_of (zone_id : string) : string := Unit.fill ["/var/lib/mower/zones/"; zone_id].

(** The assignments to [database_path] and [slam_mode]. *)
Definition configured_for (db mode : string) (c : VslamConfig.VslamConfig) : VslamConfig.VslamConfig :=
  {| VslamConfig.odometry_strategy := VslamConfig.odometry_strategy c;
     VslamConfig.stereo_resolution := VslamConfig.stereo_resolution c;
     VslamConfig.stereo_fps := VslamConfig.stereo_fps c; VslamConfig.imu_rate_hz := VslamConfig.imu_rate_hz c;
     VslamConfig.imu_rotation_sensor := VslamConfig.imu_rotation_sensor c;
     VslamConfig.pose_output_rate_hz := VslamConfig.pose_output_rate_hz c;
     VslamConfig.memory_threshold_mb := VslamConfig.memory_threshold_mb c;
     VslamConfig.loop_closure := VslamConfig.loop_closure c; VslamConfig.database_path := db;
     VslamConfig.socket_path := VslamConfig.socket_path c; VslamConfig.usb_max_speed := VslamConfig.usb_max_speed c;
     VslamConfig.ir_dot_projector_ma := VslamConfig.ir_dot_projector_ma c;
     VslamConfig.ir_flood_led_ma := VslamConfig.ir_flood_led_ma c; VslamConfig.v_slam_mode := mode;
     VslamConfig.extrinsics := VslamConfig.extrinsics c; VslamConfig.bridge := VslamConfig.bridge c |}.

(** Restart, or the exit code 1 that the handler around turns into itself. *)
Definition restart_service (service_name : string) : prog exn W unit :=
  '(rc, _) ← j_run ["systemctl"; "restart"; Install.service service_name];
  if rc =? 0 then mret tt else plift (exit_ 1).

Definition switch_zone (db mode : string) : prog exn W unit :=
  vslam_config ← VslamConfig.load_vslam_config yaml_safe_load None;
  _ ← VslamConfig.save_vslam_config yaml_safe_dump (configured_for db mode vslam_config) None;
  piter restart_service [Unit.VSLAM_UNIT_NAME; Unit.VSLAM_BRIDGE_UNIT_NAME].

(** Returns the mode and the database it switched to. *)
Definition zone_activate_command (zone_id slam_mode : string) : prog exn W (string * string) :=
  if negb (zone_id_match zone_id) then plift (exit_ 1)
  else if negb (bool_decide (slam_mode ∈ SLAM_MODES)) then plift (exit_ 1)
  else
    _ ← f_mkdir (zone_dir_of zone_id);
    let db_path := join_path (zone_dir_of zone_id) "rtabmap.db" in
    actual ← (if bool_decide (slam_mode = "auto") then
                e ← f_exists db_path; mret (if (e : bool) then "localization" else "mapping")
              else mret slam_mode);
    _ ← f_exists db_path;
    pexcept [Exception] (_ ← switch_zone db_path actual; mret (actual, db_path)) (fun _ => plift (exit_ 1)).

Record ZoneStatus : Type := {
  zs_zone_id : option string; zs_slam_mode : string; zs_database_path : string;
  database_size_mb : float; service_active : bool }.

(** [Path(p).parts]: the root, and the components. *)
Definition parts_of (path : string) : list string :=
  let names := List.filter (fun p => negb (bool_decide (p = "")) && negb (bool_decide (p = "."))) (S.split "/" path) in
  if S.startswith path "//" && negb (S.startswith path "///") then "//" :: names
  else if S.startswith path "/" then "/" :: names else names.

(** The component after the first [zones]. *)
Fixpoint after_zones (parts : list string) : option string :=
  match parts with
  | p :: rest => if bool_decide (p = "zones") then head rest else after_zones rest
  | [] => None
  end.

Definition zone_of_path (database_path : string) : option string :=
  let parts := parts_of database_path in
  if Nat.leb 3 (length parts) then after_zones parts else None.

Definition read_zone_status : prog exn W ZoneStatus :=
  vslam_config ← VslamConfig.load_vslam_config yaml_safe_load None;
  let path := Config.path_of (VslamConfig.database_path vslam_config) in
  e ← f_exists path;
  size ← (if (e : bool) then n ← j_size path; mret (F.round 2 (F.div (F.of_Z n) (F.of_Z 1048576))) else mret F.zero);
  '(rc, out) ← j_run ["systemctl"; "is-active"; Install.service Unit.VSLAM_UNIT_NAME];
  mret {| zs_zone_id := zone_of_path (VslamConfig.database_path vslam_config);
          zs_slam_mode := VslamConfig.v_slam_mode vslam_config;
          zs_database_path := VslamConfig.database_path vslam_config; database_size_mb := size;
          service_active := (rc =? 0) && bool_decide (S.strip out = "active") |}.

Definition zone_status_command : prog exn W ZoneStatus :=
  pexcept [Exception] read_zone_status (fun _ => plift (exit_ 1)).
End zones.

(** ** kiosk *)
Section kiosk.
Context {W : Type} `{!FileStore W} `{!Sys W} `{!ServiceHost W} `{!Terminal W}.
Variable yaml_safe_load : string -> res exn PyVal.
Variable DEFAULT_JETSON_CONFIG_PATH : string.

Definition KIOSK_UNITS : list string :=
  ["mower-weston.service"; "mower-kiosk-data.service"; "mower-kiosk-renderer.service"; "mower-mavproxy.service"].

Definition _get_unit_state (unit : string) : prog exn W string :=
  pexcept [TimeoutExpired; FileNotFoundError; OSError]
    ('(_, out) ← y_run ["systemctl"; "is-active"; unit] 5;
     mret (if bool_decide (S.strip out = "") then "unknown" else S.strip out))
    (fun _ => mret "unknown").

Definition states_of (units : list string) : prog exn W (list (string * string)) :=
  pfold (fun rows unit => state ← _get_unit_state unit; mret (rows ++ [(unit, state)])) [] units.

(** The rows of the two tables. *)
Definition kiosk_status_command (config : option string) : prog exn W (list (string * string) * list (string * string)) :=
  cfg ← load_config yaml_safe_load DEFAULT_JETSON_CONFIG_PATH config;
  rows ← states_of KIOSK_UNITS;
  let extra_units := List.filter (fun u => negb (bool_decide (u ∈ KIOSK_UNITS)))
                       (JetsonConfig.service_check_units (JetsonConfig.kiosk cfg)) in
  more ← states_of extra_units;
  mret (rows, more).

(** [check=False]: return codes are ignored. *)
Definition kiosk_enable_command (obj_dry_run : bool) : prog exn W unit :=
  piter (fun unit => if obj_dry_run then mret tt
                     else _ ← v_run ["systemctl"; "enable"; "--now"; unit]; mret tt) KIOSK_UNITS.
Definition kiosk_disable_command (obj_dry_run : bool) : prog exn W unit :=
  piter (fun unit => if obj_dry_run then mret tt
                     else _ ← v_run ["systemctl"; "disable"; "--now"; unit]; mret tt) (rev KIOSK_UNITS).

Definition kiosk_install_command (obj_dry_run yes : bool) (config target_user target_home : option string) : prog exn W unit :=
  cfg ← load_config yaml_safe_load DEFAULT_JETSON_CONFIG_PATH config;
  or_abort (Install.install_kiosk_units (safety_of obj_dry_run yes) cfg target_user target_home).
Definition kiosk_uninstall_command (obj_dry_run yes : bool) : prog exn W unit :=
  or_abort (Install.uninstall_kiosk_units (safety_of obj_dry_run yes)).
End kiosk.

(** ** detect, and the daemons in the foreground *)
Section daemons.
Context {W : Type} `{!Link W} `{!Dialer W} `{!FileStore W} `{!Sys W}.
Variable yaml_safe_load : string -> res exn PyVal.
Variable DEFAULT_JETSON_CONFIG_PATH : string.
Variable fuel : nat.

Definition detect_command (ep : string) (b : Z) (address : string) (sample_window : Z) : prog exn W Detect.DetectReport :=
  Detect.detect_command fuel (config_of ep b) address sample_window.

Definition vslam_bridge_run_command `{IP : F.Interpreter} `{!Sock W} `{!Notifier W} (has_covariance has_reset_counter : bool)
    (is_set : prog exn W bool) (config : option string) : prog exn W unit :=
  run_bridge has_covariance has_reset_counter yaml_safe_load fuel is_set config.

Definition kiosk_run_command `{!Shared W} `{!Display W} `{!Workers W} (json_dumps : PyVal -> res exn string)
    (config endpoint : option string) : prog exn W unit :=
  cfg ← load_config yaml_safe_load DEFAULT_JETSON_CONFIG_PATH config;
  let mavlink_ep := match endpoint with
                    | Some "" | None => JetsonConfig.mavproxy_endpoint (JetsonConfig.kiosk cfg)
                    | Some e => e
                    end in
  run_kiosk json_dumps yaml_safe_load DEFAULT_JETSON_CONFIG_PATH fuel mavlink_ep.
End daemons.
End JetsonCli.
Export JetsonCli.

(** ** Switching zones *)

Lemma find_sep c l rest : forallb (fun x => negb (bool_decide (x = c))) l = true -> S.find_l [c] (l ++ c :: rest) = Some (l, rest).
Proof.
  induction l as [|a l IH]; cbn; [by rewrite decide_True by done|].
  intros [Ha Hl]%andb_true_iff. rewrite negb_true_iff, bool_decide_eq_false in Ha.
  rewrite decide_False by (by intros ->). by rewrite IH.
Qed.

Lemma id_no_slash id : zone_id_match id = true ->
  forallb (fun x => negb (bool_decide (x = "/"%char))) (S.chars id) = true /\ id <> "" /\ id <> ".".
Proof.
  unfold zone_id_match. intros H.
  assert (Hid : forall l, forallb id_char l = true -> forallb (fun x => negb (bool_decide (x = "/"%char))) l = true).
  { intros l. induction l as [|c l IH]; cbn; [done|]. intros [Hc Hl]%andb_true_iff. rewrite IH by done.
    rewrite andb_true_r. case_bool_decide; [by subst|done]. }
  assert (Hbody : forall body, match body with
      | c :: cs => S.is_lower c && forallb id_char cs && Nat.leb (length cs) 31 | [] => false end = true ->
      forallb (fun x => negb (bool_decide (x = "/"%char))) body = true /\
      exists c cs, body = c :: cs /\ S.is_lower c = true).
  { intros [|c cs]; [done|]. intros [[Hc Hcs]%andb_true_iff _]%andb_true_iff. split; [|by eauto].
    cbn. rewrite Hid by done. rewrite andb_true_r. case_bool_decide; [by subst|done]. }
  destruct (rev (S.chars id)) as [|x r] eqn:Hr.
  - destruct (Hbody _ H) as [Hf (c & cs & Hc & Hl)]. split; [done|]. split; intros ->; vm_compute in Hc; [discriminate Hc|injection Hc as <- _; discriminate Hl].
  - destruct (decide (x = newline)) as [->|Hx].
    + destruct (Hbody _ H) as [Hf (c & cs & Hc & Hl)].
      assert (S.chars id = rev r ++ [newline]) as E.
      { rewrite <- (rev_involutive (S.chars id)), Hr. done. }
      split; [by rewrite E, forallb_app, Hf|]. rewrite Hc in E.
      split; intros ->; vm_compute in E; [discriminate E|injection E as <- E]. by destruct cs.
    + destruct (Hbody _ H) as [Hf (c & cs & Hc & Hl)]. split; [done|].
      split; intros ->; vm_compute in Hc; [discriminate Hc|injection Hc as <- _; discriminate Hl].
Qed.

Lemma split_step n c l rest : forallb (fun x => negb (bool_decide (x = c))) l = true ->
  S.split_l (Datatypes.S n) [c] (l ++ c :: rest) = l :: S.split_l n [c] rest.
Proof. intros H. cbn [S.split_l]. by rewrite find_sep. Qed.

Lemma split_last n c l : forallb (fun x => negb (bool_decide (x = c))) l = true -> S.split_l n [c] l = [l].
Proof.
  intros H. destruct n; cbn [S.split_l]; [done|]. assert (S.find_l [c] l = None) as ->; [|done].
  induction l as [|a l IH]; [done|]. cbn in *. apply andb_true_iff in H as [Ha Hl].
  rewrite negb_true_iff, bool_decide_eq_false in Ha. rewrite decide_False by (by intros ->). by rewrite IH.
Qed.

Lemma length_append a b : String.length (String.append a b) = (String.length a + String.length b)%nat.
Proof. induction a as [|c a IH]; [done|]. exact (f_equal Datatypes.S IH). Qed.

Lemma zone_path_text id :
  join_path (zone_dir_of id) "rtabmap.db" = String.append "/var/lib/mower/zones/" (String.append id "/rtabmap.db").
Proof. unfold join_path, zone_dir_of, Unit.fill, S.join. cbn [String.append]. by rewrite ?append_assoc. Qed.

(** The components of the database path of a zone. *)
Lemma zone_of_its_path id : zone_id_match id = true ->
  zone_of_path (join_path (zone_dir_of id) "rtabmap.db") = Some id.
Proof.
  intros (Hf & He & Hd)%id_no_slash. unfold zone_of_path, parts_of.
  assert (S.split "/" (join_path (zone_dir_of id) "rtabmap.db") = [""; "var"; "lib"; "mower"; "zones"; id; "rtabmap.db"]) as ->.
  { unfold S.split. rewrite zone_path_text. replace (String.length _) with (7 + (String.length id + 25))%nat.
    2: { rewrite !length_append. cbn. lia. }
    rewrite !chars_append. change (S.chars "/var/lib/mower/zones/" ++ S.chars id ++ S.chars "/rtabmap.db") with
      ([] ++ "/"%char :: S.chars "var" ++ "/"%char :: S.chars "lib" ++ "/"%char :: S.chars "mower" ++ "/"%char ::
       S.chars "zones" ++ "/"%char :: S.chars id ++ "/"%char :: S.chars "rtabmap.db").
    change (S.chars "/") with ["/"%char]. cbn [plus]. rewrite !split_step, split_last by done.
    cbn [map]. unfold S.ofl, S.chars. by rewrite !String.string_of_list_ascii_of_string. }
  cbn [List.filter]. rewrite (bool_decide_eq_false_2 (id = "")), (bool_decide_eq_false_2 (id = ".")) by done.
  reflexivity.
Qed.

(** A host whose systemctl succeeds and leaves the disk alone; [log] is what it
    was asked. *)
Class Steady (W : Type) `{!FileStore W} `{!JetsonHost W} (contents : W -> gmap string string)
    (log : W -> list (list string)) : Prop := {
  st_run argv w : exists out w', j_run argv w = Some (Ok (0, out), w') /\ contents w' = contents w /\ log w' = log w ++ [argv];
  st_size p w : exists n w', j_size p w = Some (Ok n, w') /\ contents w' = contents w;
  st_mkdir p w w' r : f_mkdir p w = Some (r, w') -> log w' = log w;
  st_write p d w w' r : f_write p d w = Some (r, w') -> log w' = log w;
  st_exists p w w' r : f_exists p w = Some (r, w') -> log w' = log w;
  st_read p w w' r : f_read p w = Some (r, w') -> log w' = log w
}.

Section switching.
Context {W : Type} `{!FileStore W} `{!JetsonHost W} (contents : W -> gmap string string) (log : W -> list (list string)).
Context `{!HealthyDisk W contents} `{!Steady W contents log}.
Variable yaml_safe_load : string -> res exn PyVal.
Variable yaml_safe_dump : bool -> PyVal -> string.

Definition vslam_yaml : string := VslamConfig.DEFAULT_VSLAM_CONFIG_PATH.

(** The disk holds a VSLAM configuration. *)
Definition holds (files : gmap string string) (c : VslamConfig.VslamConfig) : Prop :=
  exists text doc, files !! vslam_yaml = Some text /\ Utf8.decode text = Ok text /\
    yaml_safe_load text = Ok doc /\ py_bool doc = true /\ VslamConfig._coerce doc = Ok c.

Lemma coerced_valid doc c : VslamConfig._coerce doc = Ok c -> vslam_valid c.
Proof.
  unfold VslamConfig._coerce. destruct doc; try done. destruct (dget_or _ _ _); try done. by apply coerce_vslam_valid.
Qed.

Lemma configured_valid db mode c : vslam_valid c -> mode ∈ VslamConfig._VALID_SLAM_MODES -> vslam_valid (configured_for db mode c).
Proof. intros [] Hm. by constructor. Qed.

Lemma load_held c w : holds (contents w) c ->
  exists w', VslamConfig.load_vslam_config yaml_safe_load None w = Some (Ok c, w') /\ contents w' = contents w.
Proof.
  intros (text & doc & Ht & Hd & Hl & Hb & Hc).
  destruct (load_yaml_reads (contents := contents) yaml_safe_load VslamConfigError vslam_yaml text doc w Ht Hd Hl Hb) as (w' & H & Hw).
  exists w'. split; [|done]. unfold VslamConfig.load_vslam_config. rewrite (pbind_step _ _ _ _ _ H). unfold plift. by rewrite Hc.
Qed.

(** Programs that run no command. *)
Definition quiet {A} (m : prog exn W A) : Prop := forall w r w', m w = Some (r, w') -> log w' = log w.

Lemma quiet_lift {A} (m : res exn A) : quiet (plift m).
Proof. by intros w r w' [= _ <-]. Qed.

Lemma quiet_bind {A B} (m : prog exn W A) (f : A -> prog exn W B) : quiet m -> (forall a, quiet (f a)) -> quiet (m ≫= f).
Proof.
  intros Hm Hf w r w' H. apply pbind_inv in H as [(e & _ & H)|(a & w1 & H1 & H2)]; [by apply Hm in H|].
  by rewrite (Hf _ _ _ _ H2), (Hm _ _ _ H1).
Qed.

Lemma quiet_except {A} cs (m : prog exn W A) h : quiet m -> (forall e, quiet (h e)) -> quiet (pexcept cs m h).
Proof.
  intros Hm Hh w r w'. unfold pexcept, pcatch. destruct (m w) as [[[a|e] w1]|] eqn:E; [| |done].
  - intros [= _ <-]. by eapply Hm.
  - destruct (caught_by cs e); [|intros [= _ <-]; by eapply Hm].
    intros H. by rewrite (Hh _ _ _ _ H), (Hm _ _ _ E).
Qed.

Lemma quiet_load : quiet (VslamConfig.load_vslam_config yaml_safe_load None).
Proof.
  apply quiet_bind; [|intros [raw|]; apply quiet_lift]. unfold load_yaml.
  apply quiet_bind; [intros w r w' H; by eapply st_exists|]. intros [|]; cbn [negb]; [|apply (quiet_lift (Ok None))].
  apply quiet_bind; [|intros raw; apply (quiet_lift (Ok _))].
  apply quiet_except; [|intros; apply quiet_lift].
  apply quiet_bind; [intros w r w' H; by eapply st_read|]. intros raw.
  apply quiet_bind; [apply quiet_lift|]. intros. apply quiet_lift.
Qed.

Lemma quiet_save c : quiet (VslamConfig.save_vslam_config yaml_safe_dump c None).
Proof.
  apply quiet_bind; [intros w r w' H; by eapply st_mkdir|]. intros _.
  apply quiet_bind; [intros w r w' H; by eapply st_write|]. intros _. apply (quiet_lift (Ok _)).
Qed.

Definition restart_argv (name : string) : list string := ["systemctl"; "restart"; Install.service name].

Lemma restart_runs name w : exists w', restart_service name w = Some (Ok tt, w') /\
  contents w' = contents w /\ log w' = log w ++ [restart_argv name].
Proof.
  destruct (st_run (restart_argv name) w) as (o & w' & H & ?). exists w'. split; [|done].
  unfold restart_service. change ["systemctl"; "restart"; Install.service name] with (restart_argv name).
  by rewrite (pbind_step _ _ _ _ _ H).
Qed.

Lemma restarts w : exists w', piter restart_service [Unit.VSLAM_UNIT_NAME; Unit.VSLAM_BRIDGE_UNIT_NAME] w = Some (Ok tt, w') /\
  contents w' = contents w /\ log w' = log w ++ [restart_argv Unit.VSLAM_UNIT_NAME; restart_argv Unit.VSLAM_BRIDGE_UNIT_NAME].
Proof.
  destruct (restart_runs Unit.VSLAM_UNIT_NAME w) as (w1 & H1 & Hc1 & Hl1).
  destruct (restart_runs Unit.VSLAM_BRIDGE_UNIT_NAME w1) as (w2 & H2 & Hc2 & Hl2).
  exists w2. split; [|by rewrite Hc2, Hc1, Hl2, Hl1, <- app_assoc].
  unfold piter. cbn [pfold]. by rewrite (pbind_step _ _ _ _ _ H1), (pbind_step _ _ _ _ _ H2).
Qed.

(** The mode a request leads to. *)
Definition mode_for (files : gmap string string) (id slam_mode : string) : string :=
  if bool_decide (slam_mode = "auto") then
    if bool_decide (is_Some (files !! join_path (zone_dir_of id) "rtabmap.db")) then "localization" else "mapping"
  else slam_mode.

Lemma mode_for_valid files id slam_mode : slam_mode ∈ SLAM_MODES -> mode_for files id slam_mode ∈ VslamConfig._VALID_SLAM_MODES.
Proof.
  intros H. unfold mode_for. case_bool_decide; [destruct (bool_decide _); set_solver|]. unfold SLAM_MODES in H. set_solver.
Qed.

Section activate.
Variables (id slam_mode : string) (c : VslamConfig.VslamConfig).
Hypothesis Hid : zone_id_match id = true.
Hypothesis Hmode : slam_mode ∈ SLAM_MODES.
Let db := join_path (zone_dir_of id) "rtabmap.db".

Lemma activate_runs w : holds (contents w) c ->
  let mode := mode_for (contents w) id slam_mode in
  exists w1, zone_activate_command yaml_safe_load yaml_safe_dump id slam_mode w = Some (Ok (mode, db), w1) /\
    contents w1 = <[vslam_yaml := yaml_safe_dump false (VslamConfig.to_dict (configured_for db mode c))]> (contents w) /\
    log w1 = log w ++ [restart_argv Unit.VSLAM_UNIT_NAME; restart_argv Unit.VSLAM_BRIDGE_UNIT_NAME].
Proof.
  intros Hh mode. destruct (hd_mkdir (zone_dir_of id) w) as (w1 & H1 & Hc1).
  destruct (hd_exists db w1) as (w2 & H2 & Hc2). destruct (hd_exists db w2) as (w3 & H3 & Hc3).
  assert (Hm : exists wm, (if bool_decide (slam_mode = "auto") then
      e ← f_exists db; mret (if (e : bool) then "localization" else "mapping") else mret slam_mode) w1 = Some (Ok mode, wm) /\
      contents wm = contents w1 /\ log wm = log w1).
  { unfold mode, mode_for. rewrite <- Hc1. destruct (bool_decide (slam_mode = "auto")).
    - exists w2. rewrite (pbind_step _ _ _ _ _ H2). repeat split; [done|]. by eapply st_exists.
    - by exists w1. }
  destruct Hm as (wm & Hm & Hcm & Hlm). destruct (hd_exists db wm) as (w4 & H4 & Hc4).
  assert (Hw4 : contents w4 = contents w) by congruence.
  assert (Hl4 : log w4 = log w) by (rewrite (st_exists _ _ _ _ H4), Hlm; by eapply st_mkdir).
  destruct (load_held c w4) as (w5 & H5 & Hc5); [by rewrite Hw4|].
  destruct (save_yaml_writes (contents := contents) yaml_safe_dump false vslam_yaml
              (VslamConfig.to_dict (configured_for db mode c)) w5) as (w6 & H6 & Hc6).
  destruct (restarts w6) as (w7 & H7 & Hc7 & Hl7).
  exists w7. split; [|split].
  - unfold zone_activate_command. rewrite Hid, bool_decide_eq_true_2 by done. cbn [negb]. fold db.
    rewrite (pbind_step _ _ _ _ _ H1), (pbind_step _ _ _ _ _ Hm), (pbind_step _ _ _ _ _ H4).
    unfold pexcept, pcatch. rewrite (pbind_step _ _ w4 tt w7); [done|].
    unfold switch_zone. by rewrite (pbind_step _ _ _ _ _ H5), (pbind_step _ _ _ _ _ H6).
  - by rewrite Hc7, Hc6, Hc5, Hw4.
  - rewrite Hl7. f_equal. change (VslamConfig.save_vslam_config yaml_safe_dump (configured_for db mode c) None w5 =
      Some (Ok vslam_yaml, w6)) in H6. by rewrite (quiet_save _ _ _ _ H6), (quiet_load _ _ _ H5).
Qed.

Lemma status_runs c' w : holds (contents w) c' ->
  exists st w', zone_status_command yaml_safe_load w = Some (Ok st, w') /\
    zs_zone_id st = zone_of_path (VslamConfig.database_path c') /\
    zs_slam_mode st = VslamConfig.v_slam_mode c' /\ zs_database_path st = VslamConfig.database_path c'.
Proof.
  intros Hh. destruct (load_held c' w Hh) as (w1 & H1 & Hc1).
  set (path := Config.path_of (VslamConfig.database_path c')).
  destruct (hd_exists path w1) as (w2 & H2 & Hc2).
  assert (Hs : exists sz w3, (if bool_decide (is_Some (contents w1 !! path)) then n ← j_size path;
      mret (F.round 2 (F.div (F.of_Z n) (F.of_Z 1048576))) else mret F.zero) w2 = Some (Ok sz, w3)).
  { destruct (bool_decide _); [|by eexists _, w2]. destruct (st_size path w2) as (n & w3 & H3 & _).
    eexists _, w3. by rewrite (pbind_step _ _ _ _ _ H3). }
  destruct Hs as (sz & w3 & H3).
  destruct (st_run ["systemctl"; "is-active"; Install.service Unit.VSLAM_UNIT_NAME] w3) as (out & w4 & H4 & _).
  eexists _, w4. split.
  - unfold zone_status_command, pexcept, pcatch, read_zone_status.
    rewrite (pbind_step _ _ _ _ _ H1), (pbind_step _ _ _ _ _ H2), (pbind_step _ _ _ _ _ H3), (pbind_step _ _ _ _ _ H4). reflexivity.
  - split_and!; reflexivity.
Qed.

(** C27: Activating a zone takes effect and shows: on a host whose disk and systemctl work and whose configuration file is readable, the command ends normally with the mode asked for (for auto: localization when the zone has a database, mapping when not); it changes one file, the configuration, to the old one with this database and mode, and restarts first the VSLAM service, then the bridge; and the status command afterwards names this zone, mode and database. *)
Theorem zone_activation_shows w
    (Hcfg : holds (contents w) c)
    (Hyaml : let doc := VslamConfig.to_dict (configured_for db (mode_for (contents w) id slam_mode) c) in
       let text := yaml_safe_dump false doc in Utf8.decode text = Ok text /\ yaml_safe_load text = Ok doc) :
  let mode := mode_for (contents w) id slam_mode in
  exists w1, zone_activate_command yaml_safe_load yaml_safe_dump id slam_mode w = Some (Ok (mode, db), w1) /\
    contents w1 = <[vslam_yaml := yaml_safe_dump false (VslamConfig.to_dict (configured_for db mode c))]> (contents w) /\
    log w1 = log w ++ [restart_argv Unit.VSLAM_UNIT_NAME; restart_argv Unit.VSLAM_BRIDGE_UNIT_NAME] /\
    exists st w2, zone_status_command yaml_safe_load w1 = Some (Ok st, w2) /\
      zs_zone_id st = Some id /\ zs_slam_mode st = mode /\ zs_database_path st = db.
Proof.
  intros mode. destruct (activate_runs w Hcfg) as (w1 & H1 & Hc1 & Hl1). fold mode in H1, Hc1.
  exists w1. split; [done|]. split; [done|]. split; [done|].
  destruct (status_runs (configured_for db mode c) w1) as (st & w2 & H2 & Hz & Hm & Hp).
  { destruct Hyaml as [Hd Hl]. eexists _, _.
    rewrite Hc1, lookup_insert_eq. split; [done|]. split; [exact Hd|]. split; [exact Hl|]. split; [done|].
    apply coerce_to_dict, configured_valid; [|by apply mode_for_valid].
    destruct Hcfg as (? & ? & _ & _ & _ & _ & Hc). by eapply coerced_valid. }
  exists st, w2. split; [done|]. split; [|done]. rewrite Hz. cbn [configured_for VslamConfig.database_path].
  by apply zone_of_its_path.
Qed.
End activate.
End switching.

(** A rover whose disk is a map and whose systemctl always succeeds. *)
Definition yard : Type := gmap string string * list (list string).
Definition yard_files : FileStore yard := {|
  f_get u t w := Some (raise_ URLError [], w); f_mkdir p w := Some (Ok tt, w);
  f_write p d w := Some (Ok tt, (<[p := d]> w.1, w.2));
  f_exists p w := Some (Ok (bool_decide (is_Some (w.1 !! p))), w);
  f_read p w := Some (match w.1 !! p with Some d => Ok d | None => raise_ FileNotFoundError [L p] end, w);
  f_unlink p w := Some (Ok tt, (delete p w.1, w.2)) |}.
Definition yard_host : JetsonHost yard := {|
  j_run argv w := Some (Ok (0, "active"), (w.1, w.2 ++ [argv]));
  j_is_dir _ w := Some (Ok true, w); j_size _ w := Some (Ok 1048576, w); j_which _ w := Some (Ok None, w);
  j_sleep _ w := Some (Ok tt, w); j_hostname w := Some (Ok "rover", w); j_fqdn w := Some (Ok "rover.local", w);
  j_system w := Some (Ok "Linux", w); j_release w := Some (Ok "5.15", w); j_machine w := Some (Ok "aarch64", w);
  j_python w := Some (Ok "3.11.0", w) |}.

Lemma yard_healthy : @HealthyDisk yard yard_files fst.
Proof.
  constructor; cbn; [by eauto|by eauto|by eauto|]. intros p w d H. rewrite H. by eauto.
Qed.

Lemma yard_steady : @Steady yard yard_files yard_host fst snd.
Proof. constructor; cbn; [by eauto 6|by eauto|..]; intros; by simplify_eq. Qed.

(** The configuration of the example, and a YAML library that knows two documents. *)
Definition yard_config : VslamConfig.VslamConfig :=
  match VslamConfig._coerce demo_vslam with Ok c => c | Err _ => VslamConfig.VslamConfig_default end.
Definition yard_target : VslamConfig.VslamConfig :=
  configured_for (join_path (zone_dir_of "ne") "rtabmap.db") "mapping" yard_config.
Definition yard_loads (text : string) : res exn PyVal :=
  if bool_decide (text = "old") then Ok demo_vslam else Ok (VslamConfig.to_dict yard_target).
Definition yard_start : yard := (<[vslam_yaml := "old"]> ∅, []).

Lemma zone_activation_shows_witness :
  exists w1, @zone_activate_command yard yard_files yard_host yard_loads (fun _ _ => "new") "ne" "auto" yard_start
             = Some (Ok ("mapping", "/var/lib/mower/zones/ne/rtabmap.db"), w1) /\
    w1.2 = [restart_argv Unit.VSLAM_UNIT_NAME; restart_argv Unit.VSLAM_BRIDGE_UNIT_NAME] /\
    exists st w2, @zone_status_command yard yard_files yard_host yard_loads w1 = Some (Ok st, w2) /\ zs_zone_id st = Some "ne".
Proof.
  assert (Hm : mode_for yard_start.1 "ne" "auto" = "mapping") by (vm_compute; reflexivity).
  destruct (@zone_activation_shows yard yard_files yard_host fst snd yard_healthy yard_steady yard_loads (fun _ _ => "new")
              "ne" "auto" yard_config eq_refl (list_elem_of_here _ _) yard_start) as (w1 & H1 & _ & Hl & st & w2 & H2 & Hz & _).
  - exists "old", demo_vslam. repeat split; vm_compute; reflexivity.
  - cbv zeta. rewrite Hm. split; [reflexivity|]. vm_compute. reflexivity.
  - rewrite Hm in H1. exists w1. split; [exact H1|]. split; [exact Hl|]. by exists st, w2.
Defined.

(** The units that kiosk enable starts and kiosk install does not write. *)
Lemma kiosk_enables_unwritten :
  List.filter (fun u => negb (bool_decide (u ∈ map Install.service Install._KIOSK_UNITS))) KIOSK_UNITS =
  ["mower-kiosk-data.service"; "mower-kiosk-renderer.service"].
Proof. vm_compute. reflexivity. Qed.

(** An empty release file ends the info command with an [IndexError]. *)
Lemma empty_release_raises {W} `{!FileStore W} `{!Sys W} (w w1 w2 : W) :
  f_exists _NV_TEGRA_RELEASE w = Some (Ok true, w1) -> y_read _NV_TEGRA_RELEASE w1 = Some (Ok "", w2) ->
  _read_jetpack_release w = Some (raise_ IndexError [L "list index out of range"], w2).
Proof.
  intros H1 H2. unfold _read_jetpack_release. rewrite (pbind_step _ _ _ _ _ H1). cbn [negb].
  unfold pexcept, pcatch, read_text, mbind, prog_bind. rewrite H2. vm_compute. reflexivity.
Qed.
