(* ===== verification/LaptopCli.v ===== *)
(** * The laptop's remaining commands (cli/pixhawk_laptop.py, backup.py, vslam_laptop.py)

    Firmware commands forwarded to the rover, the backup of its configuration, and
    the VSLAM health shown from the radio.  What they print is not modelled, their
    exit codes are. *)

From stdpp Require Import base gmap list strings option.
From Stdlib Require Import Ascii ZArith Lia.
From S2P Require Import Prelude Float64 PyVal Safety Link Connection Files Config.
From S2P Require Import Vslam Units ParamsCli Ssh Remote.
From S2P Require Import JetsonFirmware.
Local Open Scope Z_scope.

Module PixhawkLaptop.
(** An option that is forwarded when it is not the default. *)
Definition unless (dflt name v : string) : list string := if bool_decide (v = dflt) then [] else [name; v].
Definition flag (b : bool) (name : string) : list string := if b then [name] else [].

Definition check_argv (track : string) (offline json : bool) (port : string) : list string :=
  ["mower-jetson"; "pixhawk"; "firmware-check"] ++ unless "latest" "--track" track ++ flag offline "--offline" ++
  flag json "--json" ++ unless "/dev/ttyACM0" "--port" port.

Definition update_argv (track : string) (yes force json : bool) (port : string) (dry_run : bool) : list string :=
  ["mower-jetson"; "pixhawk"; "firmware-update"] ++ unless "latest" "--track" track ++ flag yes "--yes" ++
  flag force "--force" ++ flag json "--json" ++ unless "/dev/ttyACM0" "--port" port ++ flag dry_run "--dry-run".

Definition flash_argv (remote_path : string) (yes skip_snapshot json : bool) (port : string) (dry_run : bool) : list string :=
  ["mower-jetson"; "pixhawk"; "firmware-flash"; remote_path] ++ flag yes "--yes" ++ flag skip_snapshot "--skip-snapshot" ++
  flag json "--json" ++ unless "/dev/ttyACM0" "--port" port ++ flag dry_run "--dry-run".

Section commands.
Context {W : Type} `{!FileStore W} `{!SshHost W}.
Variable expanduser : string -> string.
Variable yaml_safe_load : string -> res exn PyVal.
Variable DEFAULT_LAPTOP_CONFIG_PATH : string.

(** Run the rover's command and end with its exit code. *)
Definition forward (obj : Obj) (fl : JetsonRemote.Flags) (remote_argv : list string) (timeout : Z) : prog exn W unit :=
  client ← JetsonRemote.connect expanduser yaml_safe_load DEFAULT_LAPTOP_CONFIG_PATH obj fl;
  result ← JetsonRemote.or_exit_3 (Ssh.run client remote_argv false (Some (VFloat (F.of_Z timeout))) []);
  plift (exit_ (Ssh.returncode result)).

Definition firmware_check_command (obj : Obj) (fl : JetsonRemote.Flags) (track : string) (offline json : bool) (port : string)
  : prog exn W unit := forward obj fl (check_argv track offline json port) 60.
Definition firmware_update_command (obj : Obj) (fl : JetsonRemote.Flags) (track : string) (yes force json : bool) (port : string)
  : prog exn W unit := forward obj fl (update_argv track yes force json port (obj_dry_run obj)) 300.
Definition firmware_flash_command (obj : Obj) (fl : JetsonRemote.Flags) (remote_path : string) (yes skip_snapshot json : bool)
    (port : string) : prog exn W unit :=
  forward obj fl (flash_argv remote_path yes skip_snapshot json port (obj_dry_run obj)) 300.
End commands.

(** The options of the rover's firmware-update (cli/jetson.py): the names that
    take no value, those that take one, and the default of [--track]. *)
Definition jetson_flags : list string := ["--offline"; "--force"; "--yes"; "-y"; "--json"].
Definition jetson_valued : list string := ["--port"; "--endpoint"; "--baud"; "--track"].
Definition jetson_default_track : string := "stable".

(** The track the rover's command is given by its arguments: the value of the last
    [--track], [None] when an option is not one of its own. *)
Fixpoint track_given (track : string) (args : list string) : option string :=
  match args with
  | [] => Some track
  | a :: rest =>
      if bool_decide (a ∈ jetson_flags) then track_given track rest
      else if bool_decide (a ∈ jetson_valued) then
        match rest with
        | v :: rest' => track_given (if bool_decide (a = "--track") then v else track) rest'
        | [] => None
        end
      else None
  end.
End PixhawkLaptop.
Export PixhawkLaptop.

(** The rover's command flashes the track asked for, except that asking for
    [latest], also by default, means [stable], its own default; and a dry run is
    refused, [--dry-run] being no option of the subcommand. *)
Lemma forwarded_track track yes force json port dry :
  track_given jetson_default_track (drop 3 (update_argv track yes force json port dry)) =
  if dry then None else Some (if bool_decide (track = "latest") then "stable" else track).
Proof.
  unfold update_argv, unless, flag. destruct (bool_decide (track = "latest")), yes, force, json,
    (bool_decide (port = "/dev/ttyACM0")), dry; vm_compute; reflexivity.
Qed.

(** ** vslam health *)
Module VslamLaptop.
(** The status column of the five rows that have one. *)
Definition health_rows (h : BridgeHealth) : list (string * string) :=
  [("Pose Rate", if F.leb (F.of_Z 5) (pose_rate_hz h) then "OK" else "LOW");
   ("Confidence", if h_confidence h =? 0 then "LOST" else if h_confidence h =? 1 then "LOW"
                  else if h_confidence h =? 2 then "MED" else "HIGH");
   ("Pose Age", if F.ltb (pose_age_ms h) (F.of_Z 500) then "OK" else "STALE");
   ("Covariance Norm", if F.ltb (covariance_norm h) F.one then "OK" else "HIGH");
   ("Bridge Connected", if bridge_connected h then "YES" else "NO");
   ("SLAM Connected", if slam_connected h then "YES" else "NO")].

Section command.
Context {W : Type} `{!Link W} `{!Dialer W}.
Definition health_command (fuel : nat) (ep : string) (baud timeout : Z) : prog exn W (list (string * string)) :=
  health ← open_link (config_of ep baud) false (listen_vslam_health fuel timeout);
  match health with
  | None => plift (exit_ 1)
  | Some h => mret (health_rows h)
  end.
End command.
End VslamLaptop.

(** ** jetson backup *)
Module Backup.
Definition _REMOTE_CONFIG_FILES : list string :=
  ["/etc/mower/vslam.yaml"; "/etc/ssh/sshd_config.d/90-mower-hardening.conf";
   "/usr/local/share/mower-build/rtabmap.json"; "/usr/local/share/mower-build/depthai.json";
   "/usr/local/share/mower-build/slam_node.json"].

Definition local_name (remote_path : string) : string := S.replace "/" "_" (S.lstrip_chr "/"%char remote_path).

Section commands.
Context {W : Type} `{!FileStore W} `{!SshHost W}.

(** Pull one file; the lists are those pulled and those skipped so far. *)
Definition pull_one (client : Ssh.JetsonClient) (local_dest : string) (done_ : list string * list string) (remote_path : string)
  : prog exn W (list string * list string) :=
  pexcept [SshError]
    (_ ← Ssh.pull client remote_path local_dest (Some (VFloat (F.of_Z 600))); mret (done_.1 ++ [remote_path], done_.2))
    (fun _ => mret (done_.1, done_.2 ++ [remote_path])).

Definition pull_configs (client : Ssh.JetsonClient) (output_dir : string) : prog exn W (list string * list string) :=
  pfold (fun st remote => pull_one client (join_path output_dir (local_name remote)) st remote) ([], []) _REMOTE_CONFIG_FILES.

Definition newest_archive (client : Ssh.JetsonClient) : prog exn W string :=
  pexcept [SshError]
    (result ← Ssh.run client ["ls -t /tmp/mower-binaries-*.tar.gz 2>/dev/null | head -1"] false (Some (VInt 15)) [];
     mret (if Ssh.ok result then S.strip (Ssh.stdout result) else ""))
    (fun _ => mret "").

Definition pull_archive (client : Ssh.JetsonClient) (output_dir : string) (st : list string * list string)
  : prog exn W (list string * list string) :=
  remote_archive ← newest_archive client;
  if bool_decide (remote_archive = "") then mret st
  else pull_one client (join_path output_dir (name_of remote_archive)) st remote_archive.

(** What was pulled and what was skipped. *)
Definition backup_with (client : Ssh.JetsonClient) (output_dir : string) (include_binaries : bool)
  : prog exn W (list string * list string) :=
  _ ← f_mkdir output_dir;
  st ← pull_configs client output_dir;
  if include_binaries then pull_archive client output_dir st else mret st.

Variable expanduser : string -> string.
Variable yaml_safe_load : string -> res exn PyVal.
Variable DEFAULT_LAPTOP_CONFIG_PATH : string.

Definition backup_command (obj : Obj) (fl : JetsonRemote.Flags) (output_dir : string) (include_binaries : bool)
  : prog exn W (list string * list string) :=
  client ← JetsonRemote.connect expanduser yaml_safe_load DEFAULT_LAPTOP_CONFIG_PATH obj fl;
  backup_with client output_dir include_binaries.
End commands.
End Backup.
Export Backup.

(** ** What a backup accounts for *)
Example local_names : map local_name _REMOTE_CONFIG_FILES =
  ["etc_mower_vslam.yaml"; "etc_ssh_sshd_config.d_90-mower-hardening.conf"; "usr_local_share_mower-build_rtabmap.json";
   "usr_local_share_mower-build_depthai.json"; "usr_local_share_mower-build_slam_node.json"].
Proof. vm_compute. reflexivity. Qed.

(** The processes run, with how each ended. *)
Definition Spawn : Type := (list string * res exn (Z * string * string))%type.

Definition beside {W A} (m : prog exn W A) : prog exn (W * list Spawn) A := fun wl =>
  match m wl.1 with Some (r, w') => Some (r, (w', wl.2)) | None => None end.

#[local] Instance spawn_log {W} `{!SshHost W} : SshHost (W * list Spawn) := {
  x_which n := beside (x_which n);
  x_environ := beside x_environ;
  x_run argv timeout env := fun wl =>
    match x_run argv timeout env wl.1 with
    | Some (r, w') => Some (r, (w', wl.2 ++ [(argv, r)]))
    | None => None
    end;
  x_popen argv env := beside (x_popen argv env);
  x_readline := beside x_readline;
  x_wait timeout := beside (x_wait timeout);
  x_kill := beside x_kill;
  x_stderr := beside x_stderr
}.
#[local] Instance files_beside {W} `{!FileStore W} : FileStore (W * list Spawn) := {
  f_get u t := beside (f_get u t);
  f_mkdir p := beside (f_mkdir p);
  f_write p d := beside (f_write p d);
  f_exists p := beside (f_exists p);
  f_read p := beside (f_read p);
  f_unlink p := beside (f_unlink p)
}.
#[local] Instance log_runs {W} `{!SshHost W} `{!Runs W} : Runs (W * list Spawn).
Proof.
  constructor.
  - intros argv timeout env [w l]. destruct (run_returns argv timeout env w) as (r & w' & H).
    cbn [x_run spawn_log fst snd]. rewrite H. by do 2 eexists.
  - intros [w l]. destruct (environ_read w) as (env & H). exists env.
    cbn [x_environ spawn_log]. unfold beside. cbn [fst snd]. by rewrite H.
Qed.

Section accounts.
Context {W : Type} `{!FileStore W} `{!SshHost W} `{!Runs W}.
Variable client : Ssh.JetsonClient.

(** The command that copies [remote] to [local]. *)
Definition copies_file (remote local : string) (argv : list string) : Prop :=
  exists scp opts, Ssh._scp client = Some scp /\
    argv = scp :: opts ++ [Unit.fill [Ssh.target client; ":"; remote]; local].

Definition given_up (e : exn) : bool := subclass (exn_class e) TimeoutExpired || subclass (exn_class e) SshError.

(** One file: pulled by a copy that succeeded; skipped for one that failed or
    timed out, or for want of a copy program. *)
Inductive One (remote local : string) (st : list string * list string) : list Spawn -> list string * list string -> Prop :=
| one_pulled argv out err : copies_file remote local argv ->
    One remote local st [(argv, Ok (0, out, err))] (st.1 ++ [remote], st.2)
| one_failed argv rc out err : copies_file remote local argv -> rc <> 0 ->
    One remote local st [(argv, Ok (rc, out, err))] (st.1, st.2 ++ [remote])
| one_given_up argv e : copies_file remote local argv -> given_up e = true ->
    One remote local st [(argv, Err e)] (st.1, st.2 ++ [remote])
| one_unable : Ssh._scp client = None -> One remote local st [] (st.1, st.2 ++ [remote]).

(** Files and their local names, the processes run for them, and the two lists. *)
Inductive Copies : list (string * string) -> list Spawn -> list string * list string -> Prop :=
| copies_none : Copies [] [] ([], [])
| copies_more items log st remote local more st' :
    Copies items log st -> One remote local st more st' ->
    Copies (items ++ [(remote, local)]) (log ++ more) st'.

(** An exception that no handler of the backup catches, of the last process. *)
Definition escaped (e : exn) (log : list Spawn) : Prop :=
  given_up e = false /\ exists before argv, log = before ++ [(argv, Err e)].

Lemma scp_line remote local argv :
  Ssh.build_scp_pull_argv client remote local = Ok argv -> copies_file remote local argv.
Proof.
  unfold Ssh.build_scp_pull_argv, Ssh.scp_argv. destruct (Ssh._scp client) as [scp|] eqn:Hs; [|done].
  intros [= <-]. exists scp, (Ssh._common_opts client ++ ["-P"; Ssh.port_str client]). split; [done|].
  cbn [app]. f_equal. by rewrite <- !app_assoc.
Qed.

Lemma pull_one_ends dest st remote w log :
  exists r w' more, Backup.pull_one client dest st remote (w, log) = Some (r, (w', log ++ more)) /\
    match r with Ok st' => One remote dest st more st' | Err e => escaped e more end.
Proof.
  unfold Backup.pull_one, Ssh.pull, Ssh.copy, pexcept, pcatch.
  destruct (Ssh.build_scp_pull_argv client remote dest) as [argv|e] eqn:Hb.
  2: { unfold Ssh.build_scp_pull_argv, Ssh.scp_argv in Hb. destruct (Ssh._scp client) eqn:Hs; [done|].
       injection Hb as <-. do 3 eexists. rewrite app_nil_r. split; [reflexivity|]. by apply one_unable. }
  apply scp_line in Hb. unfold mbind, prog_bind. cbn [plift].
  destruct (build_env_read client [] (w, log)) as (env & He). rewrite He.
  destruct (run_returns argv (Some (VFloat (F.of_Z 600))) env w) as (r & w' & Hx).
  cbn [x_run spawn_log fst snd]. rewrite Hx. destruct r as [[[rc so] se]|x].
  - unfold Ssh.ok. cbn [Ssh.returncode]. destruct (Z.eqb_spec rc 0) as [->|Hne].
    + do 3 eexists. split; [reflexivity|]. by apply one_pulled.
    + do 3 eexists. split; [reflexivity|]. by apply one_failed.
  - unfold caught_by. cbn [existsb]. rewrite orb_false_r. destruct (subclass (exn_class x) TimeoutExpired) eqn:Ht.
    + do 3 eexists. split; [reflexivity|]. apply one_given_up; [done|]. unfold given_up. by rewrite Ht.
    + cbn beta iota delta [praise]. rewrite orb_false_r. destruct (subclass (exn_class x) SshError) eqn:Hs.
      * do 3 eexists. split; [reflexivity|]. apply one_given_up; [done|]. unfold given_up. by rewrite Ht, Hs.
      * do 3 eexists. split; [reflexivity|]. split; [unfold given_up; by rewrite Ht, Hs|]. by exists [], argv.
Qed.

Definition local_of (dir remote : string) : string := join_path dir (local_name remote).

Lemma escaped_after e l1 l2 : escaped e l2 -> escaped e (l1 ++ l2).
Proof. intros [Hg (b & argv & ->)]. split; [done|]. exists (l1 ++ b), argv. by rewrite app_assoc. Qed.

Lemma pull_all_ends dir l : forall items st w log1 log, Copies items log1 st ->
  exists r w' more,
    pfold (fun st remote => Backup.pull_one client (join_path dir (local_name remote)) st remote) st l (w, log)
      = Some (r, (w', log ++ more)) /\
    match r with
    | Ok st' => Copies (items ++ map (fun remote => (remote, local_of dir remote)) l) (log1 ++ more) st'
    | Err e => escaped e more
    end.
Proof.
  induction l as [|remote l IH]; intros items st w log1 log Hs; cbn [pfold].
  - exists (Ok st), w, []. rewrite !app_nil_r. by split.
  - destruct (pull_one_ends (local_of dir remote) st remote w log) as ([st'|e] & w1 & m1 & H & Hr).
    + unfold local_of in H. rewrite (pbind_step _ _ _ _ _ H).
      destruct (IH (items ++ [(remote, local_of dir remote)]) st' w1 (log1 ++ m1) (log ++ m1)) as (r & w' & m2 & H' & Hr').
      { by eapply copies_more. }
      exists r, w', (m1 ++ m2). rewrite H', <- app_assoc. split; [done|].
      destruct r; [by rewrite <- !app_assoc in Hr'|by apply escaped_after].
    + unfold local_of in H. rewrite (pbind_err _ _ _ _ _ H). by exists (Err e), w1, m1.
Qed.

(** What the lookup of the newest archive finds. *)
Definition found (outcome : res exn (Z * string * string)) : string :=
  match outcome with Ok (rc, out, _) => if rc =? 0 then S.strip out else "" | Err _ => "" end.

Inductive Looked : list Spawn -> string -> Prop :=
| looked_unable : Ssh._ssh client = None -> Looked [] ""
| looked_once argv outcome : Looked [(argv, outcome)] (found outcome).

Lemma archive_ends w log : exists r w' more, newest_archive client (w, log) = Some (r, (w', log ++ more)) /\
  match r with Ok a => Looked more a | Err e => escaped e more end.
Proof.
  unfold newest_archive, pexcept, pcatch.
  destruct (run_ends client ["ls -t /tmp/mower-binaries-*.tar.gz 2>/dev/null | head -1"] false (Some (VInt 15)) [] (w, log))
    as (r & [w' log'] & H & Hend).
  destruct (Ssh.build_ssh_argv _ _) as [argv|e0] eqn:Hb.
  - destruct Hend as (env & out & Hx & Ho). cbn [x_run spawn_log fst snd] in Hx.
    destruct (x_run argv _ env w) as [[o w1]|]; [|done]. injection Hx as -> <- <-.
    destruct out as [[[rc so] se]|x], r as [res|e]; try done.
    + destruct Ho as [-> _]. rewrite (pbind_step _ _ _ _ _ H). do 3 eexists. split; [reflexivity|].
      exact (looked_once argv (Ok (rc, so, se))).
    + by destruct Ho as (_ & ? & _).
    + rewrite (pbind_err _ _ _ _ _ H). destruct (caught_by [SshError] e) eqn:Hc.
      * do 3 eexists. split; [reflexivity|]. exact (looked_once argv (Err x)).
      * do 3 eexists. split; [reflexivity|]. unfold caught_by in Hc. cbn [existsb] in Hc. rewrite orb_false_r in Hc.
        destruct (translated x) eqn:Ht; [rewrite Ho in Hc; vm_compute in Hc; done|]. subst x.
        split; [|by exists [], argv]. unfold given_up. rewrite Hc, orb_false_r.
        unfold translated in Ht. by apply orb_false_iff in Ht as [_ ?].
  - destruct Hend as ([= -> ->] & e & -> & He). rewrite (pbind_err _ _ _ _ _ H).
    unfold caught_by. cbn [existsb]. rewrite He. exists (Ok ""), w, []. rewrite app_nil_r. split; [done|].
    apply looked_unable. unfold Ssh.build_ssh_argv in Hb. by destruct (Ssh._ssh client).
Qed.

(** The two lists share out the files, in their order. *)
Definition shared (files : list string) (st : list string * list string) : Prop :=
  st.1 ++ st.2 ≡ₚ files /\ sublist st.1 files /\ sublist st.2 files.

Lemma copies_shared items log st : Copies items log st -> shared (map fst items) st.
Proof.
  induction 1 as [|items log st remote local more st' _ (Hp & H1 & H2) Hone]; [by unfold shared|].
  rewrite map_app. cbn [map fst].
  assert (shared (map fst items ++ [remote]) (st.1 ++ [remote], st.2)) as Hpull.
  { unfold shared. cbn [fst snd]. split; [|split; [by apply sublist_app|by apply sublist_inserts_r]].
    rewrite <- Hp, <- !app_assoc. apply Permutation_app_head. apply Permutation_app_comm. }
  assert (shared (map fst items ++ [remote]) (st.1, st.2 ++ [remote])) as Hskip.
  { unfold shared. cbn [fst snd]. split; [|split; [by apply sublist_inserts_r|by apply sublist_app]].
    by rewrite app_assoc, Hp. }
  by destruct Hone.
Qed.

(** C33: A backup tells the truth.  On any host on which processes end, once the
    directory is there, it copies the configuration files of the list in order,
    each with one run of the copy program, and with --include-binaries looks for
    the newest archive and copies it as well; what is reported as pulled was
    copied with exit code 0, what is reported as skipped was not (another exit
    code, a timeout, or no copy program), and every file is in one of the two
    lists, in order, however many copies fail.  It ends with an exception only
    when the directory cannot be made, or at a process that could not be run at
    all or whose output could not be read. *)
Theorem backup_accounts dir binaries w m w0 (Hd : f_mkdir dir w = Some (m, w0)) :
  exists r w' log, backup_with client dir binaries (w, []) = Some (r, (w', log)) /\
    match m, r with
    | Err e, _ => r = Err e /\ log = [] /\ w' = w0
    | Ok _, Err e => escaped e log
    | Ok _, Ok st => exists log1 lookup archive log2,
        log = log1 ++ lookup ++ log2 /\
        (if binaries then Looked lookup archive else lookup = [] /\ archive = "") /\
        let files := _REMOTE_CONFIG_FILES ++ if bool_decide (archive = "") then [] else [archive] in
        Copies (map (fun remote => (remote, local_of dir remote)) _REMOTE_CONFIG_FILES ++
                if bool_decide (archive = "") then [] else [(archive, join_path dir (name_of archive))])
               (log1 ++ log2) st /\
        shared files st
    end.
Proof.
  unfold backup_with. destruct m as [[]|e].
  2: { exists (Err e), w0, []. split; [|done]. apply pbind_err. cbn [f_mkdir files_beside]. unfold beside.
       cbn [fst snd]. by rewrite Hd. }
  rewrite (pbind_step _ _ (w, []) tt (w0, [])); [|cbn [f_mkdir files_beside]; unfold beside; cbn [fst snd]; by rewrite Hd].
  unfold Backup.pull_configs.
  destruct (pull_all_ends dir _REMOTE_CONFIG_FILES [] ([], []) w0 [] [] copies_none) as (r & w1 & m1 & H1 & Hr).
  cbn [app] in H1, Hr. destruct r as [st|e]; [|rewrite (pbind_err _ _ _ _ _ H1); by exists (Err e), w1, m1].
  rewrite (pbind_step _ _ _ _ _ H1). destruct binaries.
  2: { exists (Ok st), w1, m1. split; [done|]. exists m1, [], "", []. rewrite bool_decide_eq_true_2, !app_nil_r by done.
       split_and!; [done..|]. by apply copies_shared in Hr. }
  unfold pull_archive. destruct (archive_ends w1 m1) as ([a|e] & w2 & m2 & Ha & Hl).
  2: { rewrite (pbind_err _ _ _ _ _ Ha). exists (Err e), w2, (m1 ++ m2). split; [done|]. by apply escaped_after. }
  rewrite (pbind_step _ _ _ _ _ Ha). case_bool_decide as Hae.
  { exists (Ok st), w2, (m1 ++ m2). split; [done|]. exists m1, m2, a, []. rewrite bool_decide_eq_true_2, !app_nil_r by done.
    split_and!; [done..|]. by apply copies_shared in Hr. }
  destruct (pull_one_ends (join_path dir (name_of a)) st a w2 (m1 ++ m2)) as ([st'|e] & w3 & m3 & H3 & Hm).
  - exists (Ok st'), w3, ((m1 ++ m2) ++ m3). split; [done|]. exists m1, m2, a, m3.
    rewrite bool_decide_eq_false_2 by done. split; [by rewrite app_assoc|]. split; [done|].
    assert (Copies (map (fun remote => (remote, local_of dir remote)) _REMOTE_CONFIG_FILES ++
              [(a, join_path dir (name_of a))]) (m1 ++ m3) st') as Hc by by eapply copies_more.
    split; [done|]. by apply copies_shared in Hc.
  - exists (Err e), w3, ((m1 ++ m2) ++ m3). split; [done|]. by apply escaped_after.
Qed.
End accounts.

(** With no copy program everything is skipped, and the command still ends
    normally. *)
Definition no_scp : Ssh.JetsonClient :=
  {| Ssh.endpoint := demo_endpoint; Ssh.correlation_id := None; Ssh.strict_host_keys := "accept-new";
     Ssh.connect_timeout_s := 10; Ssh._ssh := Some "/usr/bin/ssh"; Ssh._scp := None |}.
Definition shelf_files : FileStore (list (list string)) := {|
  f_get _ _ w := Some (raise_ URLError [], w); f_mkdir _ w := Some (Ok tt, w); f_write _ _ w := Some (Ok tt, w);
  f_exists _ w := Some (Ok false, w); f_read p w := Some (raise_ FileNotFoundError [L p], w); f_unlink _ w := Some (Ok tt, w) |}.

Lemma empty_backup_succeeds :
  @backup_with _ shelf_files demo_ssh no_scp "backups" false [] = Some (Ok ([], _REMOTE_CONFIG_FILES), []).
Proof. vm_compute. reflexivity. Qed.

(** A rover that has every file but the second, and one archive. *)
Definition with_scp : Ssh.JetsonClient :=
  {| Ssh.endpoint := demo_endpoint; Ssh.correlation_id := None; Ssh.strict_host_keys := "accept-new";
     Ssh.connect_timeout_s := 10; Ssh._ssh := Some "/usr/bin/ssh"; Ssh._scp := Some "/usr/bin/scp" |}.
Definition stocked_rover : SshHost (list (list string)) := {|
  x_which name w := Some (Ok (Some (Unit.fill ["/usr/bin/"; name])), w);
  x_environ w := Some (Ok [("PATH", "/usr/bin")], w);
  x_run argv _ _ w := Some (Ok (
    if bool_decide ("/usr/bin/ssh" ∈ argv) then (0, "/tmp/mower-binaries-1.tar.gz", "")
    else if bool_decide ("rover@10.0.0.7:/etc/ssh/sshd_config.d/90-mower-hardening.conf" ∈ argv) then (1, "", "no such file")
    else (0, "", "")), w);
  x_popen argv _ w := Some (Ok tt, w); x_readline w := Some (Ok None, w);
  x_wait _ w := Some (Ok 0, w); x_kill w := Some (Ok tt, w); x_stderr w := Some (Ok "", w) |}.
#[local] Instance stocked_runs : @Runs _ stocked_rover.
Proof. split; intros; [by do 2 eexists|by eexists]. Defined.

Example stocked_backup :
  fst <$> @backup_with _ shelf_files stocked_rover with_scp "backups" true [] =
  Some (Ok (["/etc/mower/vslam.yaml"; "/usr/local/share/mower-build/rtabmap.json"; "/usr/local/share/mower-build/depthai.json";
             "/usr/local/share/mower-build/slam_node.json"; "/tmp/mower-binaries-1.tar.gz"],
            ["/etc/ssh/sshd_config.d/90-mower-hardening.conf"])).
Proof. vm_compute. reflexivity. Qed.

Lemma backup_accounts_witness :
  exists r w' log, @backup_with _ (@files_beside _ shelf_files) (@spawn_log _ stocked_rover) with_scp "backups" true ([], [])
                     = Some (r, (w', log)) /\
    match r with
    | Err e => escaped e log
    | Ok st => exists log1 lookup archive log2,
        log = log1 ++ lookup ++ log2 /\ Looked with_scp lookup archive /\
        let files := _REMOTE_CONFIG_FILES ++ if bool_decide (archive = "") then [] else [archive] in
        Copies with_scp (map (fun remote => (remote, local_of "backups" remote)) _REMOTE_CONFIG_FILES ++
                if bool_decide (archive = "") then [] else [(archive, join_path "backups" (name_of archive))])
               (log1 ++ log2) st /\
        shared files st
    end.
Proof. exact (@backup_accounts _ shelf_files stocked_rover stocked_runs with_scp "backups" true [] (Ok tt) [] eq_refl). Defined.
